(* ===== verification/_CoqProject ===== *)
-Q . S2P
Prelude.v
NearSdk.v
Merkle.v
Contract.v
StorageKeys.v
Committee.v
NodeRegistry.v
Batch.v
ContractInvariants.v
Scenario.v
ContractTheorems.v
EpochTheorems.v
ContractFlaws.v
Sdk.v
Runtime.v
Imports.v
AdapterMacro.v
Crypto.v
Config.v
Logger.v
PeerList.v
Discovery.v
P2PServer.v
Gossip.v
Guest.v
Consensus.v
ConsensusTheorems.v
Chains.v
Node.v
Execution.v
NodeLife.v
NodeHost.v
NodeTheorems.v
Cli.v
CliMain.v
MockRpc.v
RpcServer.v
Jobs.v
Oracle.v
GuestPrograms.v
