(* ===== verification/Prelude.v ===== *)
(** * SEDA: a verification library

    SEDA is an oracle network on NEAR.  A contract on NEAR (the main chain) holds
    the stakes of the nodes, selects a committee for every epoch and records
    batches of data requests.  Every node runs a WASM program, the consensus
    program, in a runtime that gives it promises (calls of chains, HTTP, a
    database, peer-to-peer messages), and the members of the committee sign each
    batch; the leader of a slot submits the aggregate to the contract.  Command
    line tools register nodes and stake for them.

    ** Files and what they model (paths below [src/])

    The prelude (this file) has the monads, tactics, hints and generic lemmas.
    A computation that may panic is an [outcome]; code that also changes a state
    [S] is [M S]; fallible code returns a [result].

    The contract:
    - [NearSdk]: the classes [NearSdk] and [Bn254] of what the sources use of
      near-sdk, near-contract-standards, borsh, sha2 and bn254, with documented
      behaviour as laws, and the instances [RefSdk] that witnesses use;
    - [Merkle]: [contracts/src/merkle.rs];
    - [Contract]: [common/src], [contracts/src/lib.rs], [consts.rs],
      [storage.rs], [fungible_token.rs], [dao.rs], [slot.rs]; the state of the
      contract is the record [MainchainContract], a method is a computation in
      [M vm] under an environment [Env];
    - [StorageKeys]: the storage keys of its collections;
    - [Committee]: [committee.rs] and [epoch.rs]; [NodeRegistry]:
      [node_registry.rs] and [verify.rs]; [Batch]: [batch.rs] and
      [data_request.rs];
    - [ContractInvariants]: the contract as a transition system; [Scenario]: an
      interpreter of concrete histories; [ContractTheorems], [EpochTheorems] and
      [ContractFlaws]: its properties.

    The runtime:
    - [Sdk]: [runtime/sdk/src] and the memory adapter of [runtime/core];
    - [Runtime]: [runtime/core/src/runtime.rs] and the files around it;
    - [Imports]: [runtime/core/src/imports.rs] and [runtime/sdk/src/wasm], the
      two sides of the boundary between host and guest, over a linear memory;
    - [AdapterMacro]: [runtime/macros/src];
    - [Guest]: an abstract guest, which both sides together refine;
    - [Execution]: programs over the abstract guest as an instance of the engine
      that [Runtime] is written against, the worker of
      [node/src/runtime_job.rs], and a big-step relation for runs of promises;
    - [GuestPrograms]: [wasm/test], the entry of [wasm/cli], and the test host
      [runtime/core/src/test_host.rs].

    The node:
    - [Crypto]: [crypto/src]; [Config]: [config/src]; [Logger]: [logger/src];
    - [PeerList], [Discovery], [P2PServer]: [p2p/src/libp2p]; [Gossip]: its
      protocols and the construction of the server;
    - [Consensus], [ConsensusTheorems]: [wasm/consensus/src], on top of [Guest];
    - [Chains]: [chains/src]; [Node], [NodeHost]: [node/src]; [NodeLife]: its
      start and shutdown;
    - [NodeTheorems], [Jobs]: the node, the runtime and the consensus program
      together; [Oracle]: the nodes of a committee and the contract;
    - [Cli]: the handlers of [cli/src], [delegate-cli/src] and [wasm/cli/src];
      [CliMain]: [main] and the dispatch of [cli/src]; [RpcServer]: the
      interface of [node/src/rpc.rs], which these commands use;
    - [MockRpc]: [tooling/debug/src], a test server and its commands.

    Where a component is written against another one, the interface is a class:
    [HostAdapter] of [Runtime], which [NodeHost] and the test host implement;
    [WasmEngine] of [Runtime], which [Execution] implements; the abstract guest,
    which [Imports] implements; [NearNet] of [Chains], which the test server
    implements; the record [ChainAdapterTrait], with the
    two chains; [RpcClient] of [CliMain], which [RpcServer] implements;
    [Sqlite], [HttpClient], [Toml], [KeyCrates], [CliFormats], [TaskParser],
    [Libp2pStack], [Syn] for crates and services.

    ** What the theorems show

    - Contract: tokens are conserved and the registry stays consistent over all
      histories, and committees keep their size; batches form a chain, and two
      batches share an id only if their preimages collide; what each method does, on success, to
      balances, stakes, requests and settings; who can post a batch; an epoch is
      processed as specified and can be processed under stated conditions;
      committee selection terminates and its slot leaders are members; storage
      growth is paid for; Merkle roots equal those of a tree and bind the items,
      and no two collections share a storage key, unless two of the inputs that
      are hashed on the way collide.
    - Runtime: every run settles its promises, a guest whose calls are ranked
      ends or panics for a known reason, a limited runtime makes no unlimited
      calls at any point of a run, ended or not, and host functions
      stay within the guest's memory.  The test program does on the runtime what
      its tests expect, function by function; the macro reports the first
      missing or repeated argument and expands to the given types otherwise.
    - Consensus: the signature store holds distinct, verified signatures and
      their aggregate; what a batch tick, a message of another node and a call
      of the bridge do, on every branch, from the event that starts the job to
      what the host was asked; the contract reconstructs the same aggregate key;
      a signature travels from the tick of one node to the store of another.
    - Oracle: in a round of the protocol, from the ticks of all nodes of a
      committee over the messages of the others to the leader's tick, the leader
      makes a call that closes exactly the accumulated requests into the next
      batch, in whatever block the chain executes it, as long as it is still due
      there; a request of the bridge is accumulated.
    - Node and tools: a node that got its resources runs like the actors
      until it is stopped, and events with the same id are handed out in
      order; a transaction is broadcast as the call that was asked for, and
      sending it ends; the search for peers and the connection limits; a
      restarted node keeps its identity; which commands of [seda] make a
      transaction, and which one; what the commands about peers do at the
      node; the three transactions of a delegation set-up; what the test
      server answers; the levels of the log.
    - Flaws: wrapped balances in a release build, pending nodes that block epochs
      or are activated without a stake, signatures lost to concurrent jobs,
      foreign signers, stale signatures, messages that are broadcast again and
      taken for duplicates.

    ** Bounds

    Loops without a structural measure take fuel.  The redraws of
    [select_committee] take at most [gas env] turns and panic beyond, as the
    host does; theorems say when enough gas exists and that none is enough for
    a committee larger than the set of active nodes.  [execute_promise_queue]
    has as fuel the number of queues, and a ranked guest needs two more than its
    rank; a message needs 3 queues, a batch tick and a call of the bridge 4, the
    test program at most 6.  [await_tx] needs 32 turns, two seconds apart, before
    its limit of a minute; [search_new_peer] needs 4, one for each discovery
    method; [merkle_while] is bounded by the length of its vector.  Machine
    integers are [Z] with their width at every operation, with and without
    overflow checks.

    ** Not modelled

    What is printed and logged; test code ([*_test.rs], [test_utils.rs]) and
    re-exports, which have no behaviour of their own.  The parsers of command
    lines, libp2p, the WASM engine, actix, JSON, TOML, SQLite, HTTP, JSON RPC and
    the tracing crates are crates, and parameters.  The chain is one too: what
    a node sees of it is what its host answers, and when a transaction is executed is
    left open; receipts between contracts and the balances of accounts in NEAR
    are left out.  Where the
    adapter of a chain that is not implemented panics, the test host's answer is
    a parameter.  The swarm's events are taken as the loop sees them.
    Collections of near-sdk that are nested in others are held by value, not by
    storage prefix.  A transaction that panics is reverted, so that a panic has
    no state. *)

From stdpp Require Export base gmap strings list fin_maps numbers sorting.
From Stdlib Require Export Strings.Byte.
From Stdlib Require Export Lia ZifyNat.

#[export] Set Default Goal Selector "!".

(** ** Panicking computations

    A Rust function that may panic is a function into [outcome]; a NEAR method
    (or any code that mutates [self]) is a state transformer [M S A]. *)

Inductive outcome (A : Type) : Type :=
| Ret (a : A)
| Panic (msg : string).
Arguments Ret {A} a.
Arguments Panic {A} msg.

#[export] Instance outcome_ret : MRet outcome := @Ret.
#[export] Instance outcome_bind : MBind outcome := fun A B f m =>
  match m with
  | Ret a => f a
  | Panic e => Panic e
  end.

Definition is_ret {A} (o : outcome A) : bool :=
  match o with Ret _ => true | Panic _ => false end.

Definition M (S A : Type) : Type := S -> outcome (A * S).

#[export] Instance M_ret {S} : MRet (M S) := fun A a s => Ret (a, s).
#[export] Instance M_bind {S} : MBind (M S) := fun A B f m s =>
  match m s with
  | Ret (a, s') => f a s'
  | Panic e => Panic e
  end.

Definition panic {S A} (msg : string) : M S A := fun _ => Panic msg.
Definition lift {S A} (o : outcome A) : M S A := fun s =>
  match o with Ret a => Ret (a, s) | Panic e => Panic e end.
Definition gets {S A} (f : S -> A) : M S A := fun s => Ret (f s, s).
Definition modify {S} (f : S -> S) : M S unit := fun s => Ret (tt, f s).
(** [assert!(b, msg)] *)
Definition assert_ {S} (b : bool) (msg : string) : M S unit :=
  if b then mret tt else panic msg.
(** [opt.unwrap()], [opt.expect(msg)] *)
Definition unwrap {A} (msg : string) (o : option A) : outcome A :=
  match o with Some a => Ret a | None => Panic msg end.

Definition unwrap_none : string := "called `Option::unwrap()` on a `None` value".

(** ** Rust's [Result<T, E>] *)

Inductive result (T E : Type) : Type :=
| Ok (t : T)
| Err (e : E).
Arguments Ok {T E} t.
Arguments Err {T E} e.

#[export] Instance result_ret {E} : MRet (fun T => result T E) := fun T t => Ok t.
#[export] Instance result_bind {E} : MBind (fun T => result T E) := fun A B f m =>
  match m with
  | Ok a => f a
  | Err e => Err e
  end.

(** ** Machine integers

    An unsigned [w]-bit integer is a [Z]; the operators of the source are the
    functions below.  Rust panics on overflow when the profile sets
    [overflow-checks] (dev and test) and wraps around otherwise (release): the
    flag [ov] is the profile's setting. *)

Definition in_width (w x : Z) : bool := (0 <=? x)%Z && (x <? 2 ^ w)%Z.
Definition wrap (w x : Z) : Z := (x mod 2 ^ w)%Z.
Definition arith (ov : bool) (w : Z) (msg : string) (x : Z) : outcome Z :=
  if in_width w x then Ret x else if ov then Panic msg else Ret (wrap w x).
Definition add_w (ov : bool) (w a b : Z) : outcome Z :=
  arith ov w "attempt to add with overflow" (a + b)%Z.
Definition sub_w (ov : bool) (w a b : Z) : outcome Z :=
  arith ov w "attempt to subtract with overflow" (a - b)%Z.
Definition mul_w (ov : bool) (w a b : Z) : outcome Z :=
  arith ov w "attempt to multiply with overflow" (a * b)%Z.

(** [x as uN]: truncation to the low [w] bits *)
Definition cast_u (w x : Z) : Z := (x mod 2 ^ w)%Z.
(** [x as iN]: the low [w] bits read as two's complement *)
Definition cast_i (w x : Z) : Z :=
  let y := (x mod 2 ^ w)%Z in if (y <? 2 ^ (w - 1))%Z then y else (y - 2 ^ w)%Z.

(** ** Bytes *)

#[export] Instance byte_eq_decision : EqDecision byte := Byte.byte_eq_dec.
#[export] Program Instance byte_countable : Countable byte := {|
  encode b := encode (Byte.to_N b);
  decode p := n ← decode p; Byte.of_N n
|}.
Next Obligation.
  intros b. unfold mbind, option_bind. rewrite decode_encode. apply Byte.of_to_N.
Qed.

Abbreviation bytes := (list byte).

Definition byte_val (b : byte) : Z := Z.of_N (Byte.to_N b).
Definition byte_of_Z (z : Z) : byte :=
  default x00 (Byte.of_N (Z.to_N (z mod 256))).

(** [to_le_bytes] of an [n]-byte integer and [from_le_bytes] *)
Fixpoint le_bytes (n : nat) (z : Z) : bytes :=
  match n with
  | O => []
  | S n => byte_of_Z z :: le_bytes n (z / 256)%Z
  end.
Fixpoint le_val (bs : bytes) : Z :=
  match bs with
  | [] => 0%Z
  | b :: bs => (byte_val b + 256 * le_val bs)%Z
  end.

(** ** Tactics *)

Create HintDb seda discriminated.

(** Turn boolean tests on integers into propositions. *)
Ltac bool_to_prop :=
  repeat match goal with
  | H : (_ && _) = true |- _ => apply andb_true_iff in H; destruct H
  | H : (_ && _) = false |- _ => apply andb_false_iff in H
  | H : (_ || _) = true |- _ => apply orb_true_iff in H
  | H : (_ || _) = false |- _ => apply orb_false_iff in H; destruct H
  | H : negb _ = true |- _ => apply negb_true_iff in H
  | H : negb _ = false |- _ => apply negb_false_iff in H
  | H : (_ <=? _)%Z = true |- _ => apply Z.leb_le in H
  | H : (_ <=? _)%Z = false |- _ => apply Z.leb_gt in H
  | H : (_ <? _)%Z = true |- _ => apply Z.ltb_lt in H
  | H : (_ <? _)%Z = false |- _ => apply Z.ltb_ge in H
  | H : (_ =? _)%Z = true |- _ => apply Z.eqb_eq in H
  | H : (_ =? _)%Z = false |- _ => apply Z.eqb_neq in H
  | H : bool_decide _ = true |- _ => apply bool_decide_eq_true in H
  | H : bool_decide _ = false |- _ => apply bool_decide_eq_false in H
  end.

(** Linear arithmetic with division and modulo by constants. *)
Ltac lia_div := zify; Z.to_euclidean_division_equations; lia.

(** ** Inversion of successful runs *)

Lemma M_bind_ret {S A B} (m : M S A) (k : A -> M S B) s b s'' :
  (m ≫= k) s = Ret (b, s'') ->
  exists a s', m s = Ret (a, s') /\ k a s' = Ret (b, s'').
Proof.
  unfold mbind, M_bind. destruct (m s) as [[a s']|e] eqn:E; [|done].
  intros H. by exists a, s'.
Qed.

Lemma M_bind_eq {S A B} (m : M S A) (k : A -> M S B) s a s' :
  m s = Ret (a, s') -> (m ≫= k) s = k a s'.
Proof. unfold mbind, M_bind. by intros ->. Qed.

Lemma outcome_bind_eq {A B} (m : outcome A) (k : A -> outcome B) a : m = Ret a -> m ≫= k = k a.
Proof. by intros ->. Qed.

Lemma outcome_bind_ret {A B} (m : outcome A) (k : A -> outcome B) b :
  (m ≫= k) = Ret b -> exists a, m = Ret a /\ k a = Ret b.
Proof. destruct m; cbn; [eauto|done]. Qed.

Lemma lift_ret {S A} (o : outcome A) (s : S) a s' :
  lift o s = Ret (a, s') -> o = Ret a /\ s' = s.
Proof. unfold lift. destruct o; intros [= <- <-]; done. Qed.

Lemma assert_ret {S} b msg (s : S) u s' :
  assert_ b msg s = Ret (u, s') -> b = true /\ s' = s.
Proof. unfold assert_. destruct b; cbn; intros [= <- <-]; done. Qed.

Lemma unwrap_ret {A} msg (o : option A) a : unwrap msg o = Ret a -> o = Some a.
Proof. destruct o; cbn; congruence. Qed.

(** Step through a hypothesis that says a monadic run returns. *)
Ltac inv_run_step :=
  match goal with
  | H : mbind (M := M _) _ _ _ = Ret _ |- _ =>
      apply M_bind_ret in H; destruct H as (? & ? & ? & H)
  | H : mbind (M := outcome) _ _ = Ret _ |- _ =>
      apply outcome_bind_ret in H; destruct H as (? & ? & H)
  | H : lift _ _ = Ret _ |- _ => apply lift_ret in H; destruct H as [H ->]
  | H : assert_ _ _ _ = Ret _ |- _ => apply assert_ret in H; destruct H as [H ->]
  | H : unwrap _ _ = Ret _ |- _ => apply unwrap_ret in H
  | H : gets _ _ = Ret _ |- _ => unfold gets in H; injection H as <- <-
  | H : modify _ _ = Ret _ |- _ => unfold modify in H; injection H as <- <-
  | H : mret (M := M _) _ _ = Ret _ |- _ => unfold mret, M_ret in H; injection H as <- <-
  | H : mret (M := outcome) _ = Ret _ |- _ => unfold mret, outcome_ret in H; injection H as <-
  | H : panic _ _ = Ret _ |- _ => discriminate H
  | H : Panic _ = Ret _ |- _ => discriminate H
  | H : Ret _ = Ret _ |- _ => injection H as <-
  | H : (_, _) = (_, _) |- _ => injection H as <- <-
  end.

(** Run the first step of a method forward; the step's result is left to unify. *)
Ltac run_step := erewrite M_bind_eq by (first [eassumption | reflexivity]); cbn beta iota zeta.

Ltac inv_run := repeat (inv_run_step; cbn beta iota zeta in *).

(** ** Integers *)

Lemma in_width_spec w x : in_width w x = true <-> (0 <= x < 2 ^ w)%Z.
Proof. unfold in_width. rewrite andb_true_iff, Z.leb_le, Z.ltb_lt. done. Qed.

Lemma arith_in ov w msg x : (0 <= x < 2 ^ w)%Z -> arith ov w msg x = Ret x.
Proof. intros H. unfold arith. by rewrite (proj2 (in_width_spec w x) H). Qed.

Lemma arith_mod ov w msg x y : arith ov w msg x = Ret y -> (y mod 2 ^ w = x mod 2 ^ w)%Z.
Proof.
  unfold arith, wrap. destruct (in_width w x); [by intros [= <-]|].
  destruct ov; intros [= <-]. apply Zmod_mod.
Qed.

Lemma arith_checked w msg x y :
  arith true w msg x = Ret y -> y = x /\ (0 <= x < 2 ^ w)%Z.
Proof.
  unfold arith. destruct (in_width w x) eqn:E; [|done].
  intros [= <-]. by apply in_width_spec in E.
Qed.

Lemma arith_range ov w msg x y :
  (0 <= w)%Z -> arith ov w msg x = Ret y -> (0 <= y < 2 ^ w)%Z.
Proof.
  intros Hw. unfold arith. destruct (in_width w x) eqn:E.
  - intros [= <-]. by apply in_width_spec.
  - destruct ov; intros [= <-]. apply Z.mod_pos_bound, Z.pow_pos_nonneg; lia.
Qed.

(** ** Little-endian encodings *)

Lemma byte_val_range b : (0 <= byte_val b < 256)%Z.
Proof.
  unfold byte_val. pose proof (Byte.to_N_bounded b). lia.
Qed.

Lemma byte_val_of_Z z : byte_val (byte_of_Z z) = (z mod 256)%Z.
Proof.
  unfold byte_of_Z, byte_val.
  pose proof (Z.mod_pos_bound z 256 ltac:(lia)) as Hr.
  destruct (Byte.of_N (Z.to_N (z mod 256))) as [b|] eqn:E; cbn.
  - apply Byte.to_of_N in E. lia.
  - apply Byte.of_N_None_iff in E. lia.
Qed.

Lemma byte_val_inj b1 b2 : byte_val b1 = byte_val b2 -> b1 = b2.
Proof.
  unfold byte_val. intros H. apply N2Z.inj in H.
  assert (Some b1 = Some b2) as Hs by (rewrite <- !Byte.of_to_N; congruence).
  by injection Hs.
Qed.

Lemma length_le_bytes n z : length (le_bytes n z) = n.
Proof. revert z. induction n; intros z; cbn; [done|by rewrite IHn]. Qed.

Lemma le_val_le_bytes n z : le_val (le_bytes n z) = (z mod 256 ^ Z.of_nat n)%Z.
Proof.
  revert z. induction n as [|n IH]; intros z; cbn [le_bytes le_val].
  { by rewrite Z.mod_1_r. }
  rewrite IH, byte_val_of_Z, Nat2Z.inj_succ, Z.pow_succ_r by lia.
  pose proof (Z.pow_pos_nonneg 256 (Z.of_nat n) ltac:(lia) ltac:(lia)).
  rewrite Z.rem_mul_r by lia. lia.
Qed.

Lemma le_val_le_bytes_in n z :
  (0 <= z < 2 ^ (8 * Z.of_nat n))%Z -> le_val (le_bytes n z) = z.
Proof.
  intros Hz. rewrite le_val_le_bytes. apply Z.mod_small.
  by rewrite Z.pow_mul_r in Hz by lia.
Qed.

(** ** Lists *)

Lemma le_val_nonneg bs : (0 <= le_val bs)%Z.
Proof.
  induction bs as [|b bs IH]; cbn; [done|]. pose proof (byte_val_range b). lia.
Qed.
Lemma le_val_lt bs : (le_val bs < 256 ^ Z.of_nat (length bs))%Z.
Proof.
  induction bs as [|b bs IH]; [done|]. cbn [le_val length]. pose proof (byte_val_range b).
  rewrite Nat2Z.inj_succ, Z.pow_succ_r by lia. lia.
Qed.

Lemma NoDup_snoc {A} (l : list A) x : NoDup l -> x ∉ l -> NoDup (l ++ [x]).
Proof.
  intros Hl Hx. apply NoDup_app. split_and!; [done| |apply NoDup_singleton].
  intros y Hy ->%list_elem_of_singleton. done.
Qed.

(** A duplicate-free list inside another one is not longer. *)
Lemma NoDup_length_le {A} (l k : list A) : NoDup l -> l ⊆ k -> length l <= length k.
Proof. intros Hl Hk. by apply submseteq_length, NoDup_submseteq. Qed.

(** Numbers below [n], without repetition: at most [n] of them, and if there
    are fewer, one is missing. *)
Definition below (n : nat) : list Z := Z.of_nat <$> seq 0 n.

Lemma elem_of_below n z : z ∈ below n <-> (0 <= z < Z.of_nat n)%Z.
Proof.
  unfold below. rewrite list_elem_of_fmap. setoid_rewrite elem_of_seq. split.
  - intros (i & -> & ?). lia.
  - intros ?. exists (Z.to_nat z). lia.
Qed.

Lemma below_missing (l : list Z) n :
  length l < n -> exists z, (0 <= z < Z.of_nat n)%Z /\ z ∉ l.
Proof.
  intros Hl. destruct (decide (Forall (fun z => z ∈ l) (below n))) as [Hs|Hs].
  - rewrite Forall_forall in Hs. apply NoDup_length_le in Hs.
    + unfold below in Hs. rewrite length_fmap, length_seq in Hs. lia.
    + apply NoDup_fmap_2; [apply _|apply NoDup_seq].
  - apply not_Forall_Exists, Exists_exists in Hs; [|apply _].
    destruct Hs as (z & ?%elem_of_below & ?). eauto.
Qed.

Lemma arith_wrap ov w msg x y : (0 <= w)%Z -> arith ov w msg x = Ret y -> y = wrap w x.
Proof.
  intros Hw. unfold arith, wrap. destruct (in_width w x) eqn:E; [|by destruct ov; intros [= <-]].
  intros [= <-]. apply in_width_spec in E. by rewrite Z.mod_small.
Qed.

Lemma wrap_small w x : (0 <= x < 2 ^ w)%Z -> wrap w x = x.
Proof. apply Z.mod_small. Qed.

Lemma mod_eq a b m :
  (0 < m)%Z -> (a mod m = b mod m)%Z <-> exists k, (a = b + k * m)%Z.
Proof.
  intros Hm. split.
  - intros E. exists (a / m - b / m)%Z.
    pose proof (Z.div_mod a m ltac:(lia)). pose proof (Z.div_mod b m ltac:(lia)). nia.
  - intros [k ->]. apply Z.mod_add. lia.
Qed.

Lemma le_bytes_inj n x y :
  (0 <= x < 2 ^ (8 * Z.of_nat n))%Z -> (0 <= y < 2 ^ (8 * Z.of_nat n))%Z ->
  le_bytes n x = le_bytes n y -> x = y.
Proof. intros Hx Hy E. by rewrite <- (le_val_le_bytes_in n x), E, le_val_le_bytes_in. Qed.
