(* ===== verification/NearSdk.v ===== *)
(** * Interfaces of the third-party crates the contract is built on

    [NearSdk] is what [src/contracts] uses of near-sdk, near-contract-standards,
    sha2 and borsh; [Bn254] is what it (and the consensus program) uses of the
    bn254 crate and of NEAR's pairing host function.  Each class has the
    operations the sources call and, as its laws, the documented behaviour the
    theorems rely on.  [RefSdk] gives concrete instances, which every witness
    uses. *)

From S2P Require Import Prelude.

Abbreviation AccountId := string.

(** The sum of a map's values *)
Definition sum_map {K} `{Countable K} (g : gmap K Z) : Z := map_fold (fun _ v acc => (v + acc)%Z) 0%Z g.

Class NearSdk := {
  (* near_sdk::collections::LookupMap: a map with no iteration *)
  LookupMap : Type -> Type -> Type;
  lm_new : forall {K V}, LookupMap K V;
  lm_get : forall {K V} `{EqDecision K}, LookupMap K V -> K -> option V;
  lm_insert : forall {K V} `{EqDecision K}, LookupMap K V -> K -> V -> LookupMap K V;
  lm_remove : forall {K V} `{EqDecision K}, LookupMap K V -> K -> LookupMap K V;

  (* near_sdk::collections::UnorderedMap: [um_keys] is keys_as_vector(), the
     order of keys() and iter() *)
  UnorderedMap : Type -> Type -> Type;
  um_new : forall {K V}, UnorderedMap K V;
  um_get : forall {K V} `{EqDecision K}, UnorderedMap K V -> K -> option V;
  um_insert : forall {K V} `{EqDecision K}, UnorderedMap K V -> K -> V -> UnorderedMap K V;
  um_remove : forall {K V} `{EqDecision K}, UnorderedMap K V -> K -> UnorderedMap K V;
  um_keys : forall {K V} `{EqDecision K}, UnorderedMap K V -> list K;

  (* near_sdk::collections::Vector *)
  Vector : Type -> Type;
  vec_new : forall {A}, Vector A;
  vec_push : forall {A}, Vector A -> A -> Vector A;
  vec_clear : forall {A}, Vector A -> Vector A;
  vec_to_vec : forall {A}, Vector A -> list A;

  (* near_contract_standards::fungible_token::FungibleToken, its public fields
     [accounts] and [total_supply], two of its methods, and as [ft_op] the
     effect of the public methods that impl_fungible_token_core! and
     impl_fungible_token_storage! add to the contract *)
  FungibleToken : Type;
  ft_new : FungibleToken;
  ft_accounts : FungibleToken -> LookupMap AccountId Z;
  ft_with_accounts : FungibleToken -> LookupMap AccountId Z -> FungibleToken;
  ft_total_supply : FungibleToken -> Z;
  ft_internal_register_account : FungibleToken -> AccountId -> outcome FungibleToken;
  ft_internal_deposit : FungibleToken -> AccountId -> Z -> outcome FungibleToken;
  ft_op : FungibleToken -> FungibleToken -> Prop;
  FungibleTokenMetadata : Type;
  metadata_valid : FungibleTokenMetadata -> bool;
  is_valid_account_id : bytes -> bool;

  (* sha2::Sha256::digest and borsh's encodings of the primitive types *)
  sha256 : bytes -> bytes;
  borsh_str : string -> bytes;
  borsh_u64 : Z -> bytes;
  borsh_vec_u8 : bytes -> bytes;
  borsh_u8_32 : bytes -> bytes;

  lm_get_new : forall {K V} `{EqDecision K} (k : K), lm_get (lm_new (V := V)) k = None;
  lm_get_insert : forall {K V} `{EqDecision K} (m : LookupMap K V) k v j,
    lm_get (lm_insert m k v) j = if decide (k = j) then Some v else lm_get m j;
  lm_get_remove : forall {K V} `{EqDecision K} (m : LookupMap K V) k j,
    lm_get (lm_remove m k) j = if decide (k = j) then None else lm_get m j;

  um_get_new : forall {K V} `{EqDecision K} (k : K), um_get (um_new (V := V)) k = None;
  um_get_insert : forall {K V} `{EqDecision K} (m : UnorderedMap K V) k v j,
    um_get (um_insert m k v) j = if decide (k = j) then Some v else um_get m j;
  um_get_remove : forall {K V} `{EqDecision K} (m : UnorderedMap K V) k j,
    um_get (um_remove m k) j = if decide (k = j) then None else um_get m j;
  um_keys_NoDup : forall {K V} `{EqDecision K} (m : UnorderedMap K V), NoDup (um_keys m);
  um_keys_elem : forall {K V} `{EqDecision K} (m : UnorderedMap K V) k,
    k ∈ um_keys m <-> is_Some (um_get m k);

  vec_to_vec_new : forall {A}, vec_to_vec (vec_new (A := A)) = [];
  vec_to_vec_push : forall {A} (v : Vector A) a, vec_to_vec (vec_push v a) = vec_to_vec v ++ [a];
  vec_to_vec_clear : forall {A} (v : Vector A), vec_to_vec (vec_clear v) = [];

  ft_new_accounts : forall k, lm_get (ft_accounts ft_new) k = None;
  ft_new_supply : ft_total_supply ft_new = 0%Z;
  ft_accounts_with : forall t a, ft_accounts (ft_with_accounts t a) = a;
  ft_supply_with : forall t a, ft_total_supply (ft_with_accounts t a) = ft_total_supply t;
  ft_register_ret : forall t k t', ft_internal_register_account t k = Ret t' ->
    lm_get (ft_accounts t) k = None /\ ft_total_supply t' = ft_total_supply t /\
    forall j, lm_get (ft_accounts t') j = if decide (k = j) then Some 0%Z else lm_get (ft_accounts t) j;
  ft_deposit_ret : forall t k a t', ft_internal_deposit t k a = Ret t' ->
    exists b, lm_get (ft_accounts t) k = Some b /\
    (b + a < 2 ^ 128)%Z /\ (ft_total_supply t + a < 2 ^ 128)%Z /\
    ft_total_supply t' = (ft_total_supply t + a)%Z /\
    forall j, lm_get (ft_accounts t') j =
      if decide (k = j) then Some (b + a)%Z else lm_get (ft_accounts t) j;
  ft_op_conserves : forall t t', ft_op t t' -> forall g : gmap AccountId Z,
    (forall k, lm_get (ft_accounts t) k = g !! k) -> map_Forall (fun _ b => 0 <= b)%Z g ->
    exists g', (forall k, lm_get (ft_accounts t') k = g' !! k) /\
      map_Forall (fun _ b => 0 <= b)%Z g' /\
      (ft_total_supply t' - ft_total_supply t = sum_map g' - sum_map g)%Z;

  sha256_length : forall bs, length (sha256 bs) = 32;
  borsh_str_inj : forall a b, borsh_str a = borsh_str b -> a = b;
  borsh_u8_32_eq : forall bs, borsh_u8_32 bs = bs;
  borsh_u64_eq : forall z, borsh_u64 z = le_bytes 8 z;
}.

(** [map.len()], [map.iter()], [map.contains_key(k)] *)
Definition um_len `{NearSdk} {K V} `{EqDecision K} (m : UnorderedMap K V) : Z := Z.of_nat (length (um_keys m)).
Definition um_iter `{NearSdk} {K V} `{EqDecision K} (m : UnorderedMap K V) : list (K * V) :=
  omap (fun k => pair k <$> um_get m k) (um_keys m).
Definition lm_contains_key `{NearSdk} {K V} `{EqDecision K} (m : LookupMap K V) (k : K) : bool :=
  bool_decide (is_Some (lm_get m k)).

Class Bn254 := {
  PublicKey : Type;
  Signature : Type;
  PrivateKey : Type;
  pk_from_uncompressed : bytes -> option PublicKey;
  pk_to_uncompressed : PublicKey -> option bytes;
  pk_add : PublicKey -> PublicKey -> PublicKey;
  sig_from_uncompressed : bytes -> option Signature;
  sig_to_uncompressed : Signature -> option bytes;
  sig_add : Signature -> Signature -> Signature;
  ecdsa_sign : bytes -> PrivateKey -> option Signature;
  ecdsa_verify : bytes -> Signature -> PublicKey -> bool;
  format_pairing_check_uncompressed_values : bytes -> bytes -> bytes -> option bytes;
  alt_bn128_pairing_check : bytes -> Z;

  pk_roundtrip : forall pk bs, pk_to_uncompressed pk = Some bs -> pk_from_uncompressed bs = Some pk;
  sig_roundtrip : forall s bs, sig_to_uncompressed s = Some bs -> sig_from_uncompressed bs = Some s;
}.

(** ** Finite contents of a [LookupMap]

    A [LookupMap] cannot be iterated; sums over it are stated on the finite map
    it represents. *)

Definition lm_repr `{NearSdk} {K V} `{Countable K} (m : LookupMap K V) (g : gmap K V) : Prop :=
  forall k, lm_get m k = g !! k.

Section repr.
Context `{NearSdk} {K V : Type} `{Countable K}.

Lemma lm_repr_new : lm_repr (lm_new (V := V)) (∅ : gmap K V).
Proof. intros k. by rewrite lm_get_new, lookup_empty. Qed.

Lemma lm_repr_insert (m : LookupMap K V) g k v :
  lm_repr m g -> lm_repr (lm_insert m k v) (<[k := v]> g).
Proof. intros Hr j. rewrite lm_get_insert, lookup_insert. by case_decide. Qed.

Lemma lm_repr_ext (m m' : LookupMap K V) g g' :
  lm_repr m g -> lm_repr m' g' -> (forall k, lm_get m' k = lm_get m k) -> g' = g.
Proof. intros Hm Hm' He. apply map_eq. intros k. by rewrite <- Hm, <- Hm', He. Qed.

End repr.

Section sum.
Context {K : Type} `{Countable K}.

Lemma sum_map_empty : sum_map (∅ : gmap K Z) = 0%Z.
Proof. apply map_fold_empty. Qed.

Lemma sum_map_insert_new (g : gmap K Z) k v :
  g !! k = None -> sum_map (<[k := v]> g) = (v + sum_map g)%Z.
Proof.
  intros Hk. unfold sum_map. rewrite map_fold_insert_L; [done| |done].
  intros. lia.
Qed.

Lemma sum_map_delete (g : gmap K Z) k v :
  g !! k = Some v -> sum_map g = (v + sum_map (delete k g))%Z.
Proof.
  intros Hk. rewrite <- sum_map_insert_new with (k := k) by apply lookup_delete_eq.
  by rewrite insert_delete_id.
Qed.

Lemma sum_map_insert (g : gmap K Z) k v :
  sum_map (<[k := v]> g) = (sum_map g + v - default 0 (g !! k))%Z.
Proof.
  rewrite <- insert_delete_eq, sum_map_insert_new by apply lookup_delete_eq.
  destruct (g !! k) as [w|] eqn:E; cbn.
  - rewrite (sum_map_delete _ _ _ E). lia.
  - rewrite delete_id by done. lia.
Qed.

End sum.

(** ** Concrete instances

    Association lists for the collections, a toy hash and a toy signature
    scheme (integers, addition, verification by comparison): enough to run the
    model, and to show that the laws can hold together. *)

Module RefSdk.

Definition alist (K V : Type) : Type := list (K * V).

Fixpoint aget {K V} `{EqDecision K} (m : alist K V) (k : K) : option V :=
  match m with
  | [] => None
  | (j, v) :: m => if decide (j = k) then Some v else aget m k
  end.
Fixpoint ainsert {K V} `{EqDecision K} (m : alist K V) (k : K) (v : V) : alist K V :=
  match m with
  | [] => [(k, v)]
  | (j, w) :: m => if decide (j = k) then (k, v) :: m else (j, w) :: ainsert m k v
  end.
Fixpoint aremove {K V} `{EqDecision K} (m : alist K V) (k : K) : alist K V :=
  match m with
  | [] => []
  | (j, w) :: m => if decide (j = k) then aremove m k else (j, w) :: aremove m k
  end.
Fixpoint dedup {K} `{EqDecision K} (l : list K) : list K :=
  match l with
  | [] => []
  | k :: l => k :: filter (fun j => j <> k) (dedup l)
  end.
Definition akeys {K V} `{EqDecision K} (m : alist K V) : list K := dedup (map fst m).

Record Token := { accounts : alist AccountId Z; supply : Z }.

Definition ref_register (t : Token) (k : AccountId) : outcome Token :=
  match aget (accounts t) k with
  | Some _ => Panic "The account is already registered"
  | None => Ret {| accounts := ainsert (accounts t) k 0%Z; supply := supply t |}
  end.
Definition ref_deposit (t : Token) (k : AccountId) (a : Z) : outcome Token :=
  match aget (accounts t) k with
  | None => Panic "The account is not registered"
  | Some b =>
      if (b + a <? 2 ^ 128)%Z && (supply t + a <? 2 ^ 128)%Z
      then Ret {| accounts := ainsert (accounts t) k (b + a)%Z; supply := (supply t + a)%Z |}
      else Panic "Balance overflow"
  end.

Definition ref_transfer (t : Token) (sender receiver : AccountId) (a : Z) : outcome Token :=
  if decide (sender = receiver) then Panic "Sender and receiver should be different"
  else
    match aget (accounts t) sender, aget (accounts t) receiver with
    | Some b1, Some b2 =>
        if (0 <? a)%Z && (a <=? b1)%Z && (b2 + a <? 2 ^ 128)%Z
        then Ret {| accounts := ainsert (ainsert (accounts t) sender (b1 - a)%Z) receiver (b2 + a)%Z;
                    supply := supply t |}
        else Panic "The account doesn't have enough balance"
    | _, _ => Panic "The account is not registered"
    end.

(** A toy digest: 32 bytes that depend on every input byte. *)
Definition digest (bs : bytes) : bytes :=
  le_bytes 32 (fold_left (fun acc b => (acc * 257 + byte_val b + 1) mod 2 ^ 256)%Z bs 7%Z).

Lemma aget_insert {K V} `{EqDecision K} (m : alist K V) k v j :
  aget (ainsert m k v) j = if decide (k = j) then Some v else aget m j.
Proof.
  induction m as [|[i w] m IH]; cbn; [done|].
  repeat (case_decide; cbn); subst; try done.
Qed.

Lemma aget_remove {K V} `{EqDecision K} (m : alist K V) k j :
  aget (aremove m k) j = if decide (k = j) then None else aget m j.
Proof.
  induction m as [|[i w] m IH]; cbn; [by case_decide|].
  repeat (case_decide; cbn); subst; try done.
Qed.

Lemma elem_of_dedup {K} `{EqDecision K} (l : list K) k : k ∈ dedup l <-> k ∈ l.
Proof.
  induction l as [|i l IH]; cbn; [done|].
  rewrite !elem_of_cons, list_elem_of_filter, IH.
  destruct (decide (k = i)); naive_solver.
Qed.

Lemma NoDup_dedup {K} `{EqDecision K} (l : list K) : NoDup (dedup l).
Proof.
  induction l as [|i l IH]; cbn; constructor.
  - rewrite list_elem_of_filter. naive_solver.
  - by apply NoDup_filter.
Qed.

Lemma akeys_elem {K V} `{EqDecision K} (m : alist K V) k :
  k ∈ akeys m <-> is_Some (aget m k).
Proof.
  unfold akeys. rewrite elem_of_dedup.
  induction m as [|[i w] m IH]; cbn; [rewrite elem_of_nil; by split; [|intros [? ?]]|].
  rewrite elem_of_cons, IH. case_decide; naive_solver.
Qed.

Lemma transfer_conserves t t' a b n (g : gmap AccountId Z) :
  ref_transfer t a b n = Ret t' -> (forall k, aget (accounts t) k = g !! k) ->
  map_Forall (fun _ b => 0 <= b)%Z g ->
  exists g', (forall k, aget (accounts t') k = g' !! k) /\ map_Forall (fun _ b => 0 <= b)%Z g' /\
    (supply t' - supply t = sum_map g' - sum_map g)%Z.
Proof.
  unfold ref_transfer. intros Ht Hg Hpos. case_decide as Hne; [done|].
  rewrite !Hg in Ht. destruct (g !! a) as [b1|] eqn:E1; [|done].
  destruct (g !! b) as [b2|] eqn:E2; [|done].
  destruct (_ && _) eqn:Hc; [|done]. injection Ht as <-. bool_to_prop.
  exists (<[b := (b2 + n)%Z]> (<[a := (b1 - n)%Z]> g)). cbn. split_and!.
  - intros k. rewrite !aget_insert, !lookup_insert, Hg. by repeat case_decide.
  - pose proof (Hpos _ _ E2) as Hb. cbn in Hb.
    apply map_Forall_insert_2; [cbn; lia|]. apply map_Forall_insert_2; [cbn; lia|done].
  - rewrite !sum_map_insert, lookup_insert_ne, E1, E2 by done. cbn. lia.
Qed.

Lemma register_conserves t t' a (g : gmap AccountId Z) :
  ref_register t a = Ret t' -> (forall k, aget (accounts t) k = g !! k) ->
  map_Forall (fun _ b => 0 <= b)%Z g ->
  exists g', (forall k, aget (accounts t') k = g' !! k) /\ map_Forall (fun _ b => 0 <= b)%Z g' /\
    (supply t' - supply t = sum_map g' - sum_map g)%Z.
Proof.
  unfold ref_register. intros Ht Hg Hpos. rewrite Hg in Ht. destruct (g !! a) eqn:E; [done|].
  injection Ht as <-. exists (<[a := 0%Z]> g). cbn. split_and!.
  - intros k. rewrite aget_insert, lookup_insert, Hg. by case_decide.
  - by apply map_Forall_insert_2.
  - rewrite sum_map_insert, E. cbn. lia.
Qed.

#[refine] Instance ref_sdk : NearSdk := {|
  LookupMap := alist; lm_new _ _ := []; lm_get _ _ _ := aget;
  lm_insert _ _ _ := ainsert; lm_remove _ _ _ := aremove;
  UnorderedMap := alist; um_new _ _ := []; um_get _ _ _ := aget;
  um_insert _ _ _ := ainsert; um_remove _ _ _ := aremove; um_keys _ _ _ := akeys;
  Vector := list; vec_new _ := []; vec_push _ l a := l ++ [a];
  vec_clear _ _ := []; vec_to_vec _ l := l;
  FungibleToken := Token; ft_new := {| accounts := []; supply := 0%Z |};
  ft_accounts := accounts;
  ft_with_accounts t a := {| accounts := a; supply := supply t |};
  ft_total_supply := supply;
  ft_internal_register_account := ref_register; ft_internal_deposit := ref_deposit;
  ft_op t t' := (exists a b n, ref_transfer t a b n = Ret t') \/ (exists a, ref_register t a = Ret t');
  FungibleTokenMetadata := unit; metadata_valid _ := true; is_valid_account_id _ := true;
  sha256 := digest;
  borsh_str s := le_bytes 4 (Z.of_nat (length (String.list_byte_of_string s)))
                 ++ String.list_byte_of_string s;
  borsh_u64 := le_bytes 8;
  borsh_vec_u8 bs := le_bytes 4 (Z.of_nat (length bs)) ++ bs;
  borsh_u8_32 bs := bs
|}.
Proof.
  all: try done.
  - apply @aget_insert.
  - apply @aget_remove.
  - apply @aget_insert.
  - apply @aget_remove.
  - intros. apply NoDup_dedup.
  - apply @akeys_elem.
  - intros t k t'. unfold ref_register. destruct (aget _ k) eqn:E; [done|].
    intros [= <-]. cbn. split_and!; [done|done|]. apply aget_insert.
  - intros t k a t'. unfold ref_deposit. destruct (aget _ k) as [b|] eqn:E; [|done].
    destruct (_ && _) eqn:G; [|done]. intros [= <-]. bool_to_prop.
    exists b. cbn. split_and!; try done. apply aget_insert.
  - intros t t' [(a & b & n & Ht)|(a & Ht)] g; [by eapply transfer_conserves|by eapply register_conserves].
  - intros a b E%app_inj_1; [|by rewrite !length_le_bytes].
    rewrite <- (String.string_of_list_byte_of_string a).
    rewrite <- (String.string_of_list_byte_of_string b). by destruct E as [_ ->].
Defined.

#[refine] Instance ref_bn254 : Bn254 := {|
  PublicKey := Z; Signature := Z; PrivateKey := Z;
  pk_from_uncompressed bs := if decide (length bs = 128) then Some (le_val bs) else None;
  pk_to_uncompressed k := if in_width 1024 k then Some (le_bytes 128 k) else None;
  pk_add a b := wrap 1024 (a + b);
  sig_from_uncompressed bs := if decide (length bs = 64) then Some (le_val bs) else None;
  sig_to_uncompressed k := if in_width 512 k then Some (le_bytes 64 k) else None;
  sig_add a b := wrap 512 (a + b);
  ecdsa_sign m k := Some (wrap 512 (k + le_val m));
  ecdsa_verify m s k := (s =? wrap 512 (k + le_val m))%Z;
  format_pairing_check_uncompressed_values m s k :=
    if decide (length s = 64 /\ length k = 128) then Some (s ++ k ++ m) else None;
  alt_bn128_pairing_check v :=
    if (le_val (take 64 v) =? wrap 512 (le_val (take 128 (drop 64 v)) + le_val (drop 192 v)))%Z
    then 1%Z else 0%Z
|}.
Proof.
  - intros pk bs. destruct (in_width 1024 pk) eqn:E; [|done]. intros <-%(inj Some).
    rewrite decide_True by apply length_le_bytes.
    by rewrite (le_val_le_bytes_in 128) by apply in_width_spec, E.
  - intros s bs. destruct (in_width 512 s) eqn:E; [|done]. intros <-%(inj Some).
    rewrite decide_True by apply length_le_bytes.
    by rewrite (le_val_le_bytes_in 64) by apply in_width_spec, E.
Defined.

End RefSdk.
