(* ===== verification/Merkle.v ===== *)
(** * The contract's Merkle roots

    Models [src/contracts/src/merkle.rs]: [CryptoHash], [combine_hash] and
    [merklize], which folds the sorted leaf hashes into a root in place, over
    one mutable vector.  The theorems show that the loops never index out of
    range, that they compute the root of the left-complete binary tree over the
    sorted leaves ([tree_root], defined top-down), that the order of the items
    does not matter, and that two collections of the same size with the same
    root either hold the same items or exhibit a collision of sha256. *)

From S2P Require Import Prelude NearSdk.

(** ** Definitions *)

(** [pub struct CryptoHash(pub [u8; 32])] *)
Record CryptoHash := mkHash { hash_0 : bytes }.

#[export] Instance CryptoHash_eq_decision : EqDecision CryptoHash.
Proof. solve_decision. Defined.

Definition CryptoHash_new : CryptoHash := mkHash (replicate 32 x00).
Definition CryptoHash_default : CryptoHash := CryptoHash_new.

(** The derived [Ord]: lexicographic comparison of the bytes. *)
Fixpoint bytes_leb (a b : bytes) : bool :=
  match a, b with
  | [], _ => true
  | _ :: _, [] => false
  | x :: a, y :: b =>
      (byte_val x <? byte_val y)%Z || ((byte_val x =? byte_val y)%Z && bytes_leb a b)
  end.
Definition hash_le (a b : CryptoHash) : Prop := bytes_leb (hash_0 a) (hash_0 b) = true.

#[export] Instance hash_le_decision : RelDecision hash_le.
Proof. intros a b. unfold hash_le. apply _. Defined.

(** [trait BorshSerialize] *)
Class BorshSerialize (T : Type) := borsh : T -> bytes.

#[export] Instance borsh_string `{NearSdk} : BorshSerialize string := borsh_str.
#[export] Instance borsh_CryptoHash `{NearSdk} : BorshSerialize CryptoHash :=
  fun h => borsh_u8_32 (hash_0 h).
#[export] Instance borsh_pair {A B} `{BorshSerialize A, BorshSerialize B} :
  BorshSerialize (A * B) := fun p => borsh p.1 ++ borsh p.2.

Section merkle.
Context `{NearSdk}.

(** [CryptoHash::hash_borsh] *)
Definition hash_borsh {T} `{BorshSerialize T} (value : T) : CryptoHash :=
  mkHash (sha256 (borsh value)).

Definition combine_hash (hash1 hash2 : CryptoHash) : CryptoHash :=
  hash_borsh (hash1, hash2).

(** [v[i]] and [v[i] = x] on a [Vec]: out of range is a panic. *)
Definition index {A} (v : list A) (i : nat) : outcome A :=
  unwrap "index out of bounds" (v !! i).
Definition index_set {A} (v : list A) (i : nat) (x : A) : outcome (list A) :=
  if (i <? length v)%nat then Ret (<[i := x]> v) else Panic "index out of bounds".

(** [usize::next_power_of_two] *)
Definition next_power_of_two (n : nat) : nat := 2 ^ Nat.log2_up n.

(** One iteration of [for i in 0..len] *)
Definition merkle_body (arr_len i : nat) (hashes : list CryptoHash) : outcome (list CryptoHash) :=
  if (arr_len <=? 2 * i)%nat then Ret hashes
  else
    hash ← (if (arr_len <=? 2 * i + 1)%nat then index hashes (2 * i)
            else h1 ← index hashes (2 * i);
                 h2 ← index hashes (2 * i + 1);
                 mret (combine_hash h1 h2));
    index_set hashes i hash.

(** [for i in 0..len], as the last [n] iterations *)
Fixpoint merkle_for (arr_len i n : nat) (hashes : list CryptoHash) : outcome (list CryptoHash) :=
  match n with
  | O => Ret hashes
  | S n => hashes ← merkle_body arr_len i hashes; merkle_for arr_len (S i) n hashes
  end.

(** [while len > 1] *)
Fixpoint merkle_while (fuel len arr_len : nat) (hashes : list CryptoHash) : outcome (list CryptoHash) :=
  match fuel with
  | O => Panic "out of fuel"
  | S fuel =>
      if (1 <? len)%nat then
        let len := (len / 2)%nat in
        hashes ← merkle_for arr_len 0 len hashes;
        merkle_while fuel len ((arr_len + 1) / 2)%nat hashes
      else Ret hashes
  end.

Definition sort_hashes (hashes : list CryptoHash) : list CryptoHash := merge_sort hash_le hashes.

Definition merklize {T} `{BorshSerialize T} (arr : list T) : outcome CryptoHash :=
  match arr with
  | [] => Ret CryptoHash_default
  | _ =>
      let len := next_power_of_two (length arr) in
      let hashes := sort_hashes (hash_borsh <$> arr) in
      if (len =? 1)%nat then index hashes 0
      else
        hashes ← merkle_while (S len) len (length arr) hashes;
        index hashes 0
  end.

(** ** Reference definition

    The root of the tree of height [k] over the leaves: the left subtree takes
    the first [2 ^ (k - 1)] leaves, and a level with no right subtree is passed
    through. *)
Fixpoint tree_root (k : nat) (leaves : list CryptoHash) : CryptoHash :=
  match k with
  | O => default CryptoHash_default (head leaves)
  | S k =>
      if (length leaves <=? 2 ^ k)%nat then tree_root k leaves
      else combine_hash (tree_root k (take (2 ^ k) leaves)) (tree_root k (drop (2 ^ k) leaves))
  end.

(** The specification of [merklize]. *)
Definition merkle_root_spec (leaves : list CryptoHash) : CryptoHash :=
  match leaves with
  | [] => CryptoHash_default
  | _ => tree_root (Nat.log2_up (length leaves)) leaves
  end.

(** One level of the tree: neighbours combined, a last odd one kept. *)
Fixpoint pair_up (l : list CryptoHash) : list CryptoHash :=
  match l with
  | a :: b :: l => combine_hash a b :: pair_up l
  | l => l
  end.

End merkle.

(** Two distinct inputs, among those at hand, with the same digest *)
Definition collision_among `{NearSdk} (inputs : list bytes) : Prop :=
  exists x y, x ∈ inputs /\ y ∈ inputs /\ x <> y /\ sha256 x = sha256 y.

Lemma collision_incl `{NearSdk} l1 l2 : l1 ⊆ l2 -> collision_among l1 -> collision_among l2.
Proof. intros Hl (x & y & ? & ? & ?). exists x, y. set_solver. Qed.

(** What is hashed on the way to the root: the items, and the pairs of the tree *)
Fixpoint tree_inputs `{NearSdk} (k : nat) (leaves : list CryptoHash) : list bytes :=
  match k with
  | O => []
  | S k =>
      if (length leaves <=? 2 ^ k)%nat then tree_inputs k leaves
      else borsh (tree_root k (take (2 ^ k) leaves), tree_root k (drop (2 ^ k) leaves)) ::
           tree_inputs k (take (2 ^ k) leaves) ++ tree_inputs k (drop (2 ^ k) leaves)
  end.
Definition merkle_inputs `{NearSdk} {T} `{BorshSerialize T} (arr : list T) : list bytes :=
  (borsh <$> arr) ++ tree_inputs (Nat.log2_up (length arr)) (sort_hashes (hash_borsh <$> arr)).

(** ** The order on hashes *)

Lemma bytes_leb_total a b : bytes_leb a b = true \/ bytes_leb b a = true.
Proof.
  revert b. induction a as [|x a IH]; intros [|y b]; cbn; [by auto..|].
  rewrite !orb_true_iff, !andb_true_iff, !Z.ltb_lt, !Z.eqb_eq.
  pose proof (Z.lt_trichotomy (byte_val x) (byte_val y)). destruct (IH b); intuition.
Qed.

Lemma bytes_leb_trans a b c :
  bytes_leb a b = true -> bytes_leb b c = true -> bytes_leb a c = true.
Proof.
  revert b c. induction a as [|x a IH]; intros [|y b] [|z c]; cbn; try done.
  rewrite !orb_true_iff, !andb_true_iff, !Z.ltb_lt, !Z.eqb_eq.
  intros [?|[? ?]] [?|[? ?]]; [left; lia..|]. right. split; [lia|eauto].
Qed.

Lemma bytes_leb_antisymm a b : bytes_leb a b = true -> bytes_leb b a = true -> a = b.
Proof.
  revert b. induction a as [|x a IH]; intros [|y b]; cbn; try done.
  rewrite !orb_true_iff, !andb_true_iff, !Z.ltb_lt, !Z.eqb_eq.
  intros [?|[? ?]] [?|[? ?]]; [lia..|]. f_equal; [by apply byte_val_inj|by apply IH].
Qed.

#[export] Instance hash_le_total : Total hash_le.
Proof. intros a b. apply bytes_leb_total. Qed.
#[export] Instance hash_le_trans : Transitive hash_le.
Proof. intros a b c. apply bytes_leb_trans. Qed.
#[export] Instance hash_le_antisymm : AntiSymm eq hash_le.
Proof. intros [a] [b] ??. f_equal. by apply bytes_leb_antisymm. Qed.

Lemma sort_hashes_perm l : sort_hashes l ≡ₚ l.
Proof. apply merge_sort_Permutation. Qed.

Lemma sort_hashes_unique l1 l2 : l1 ≡ₚ l2 -> sort_hashes l1 = sort_hashes l2.
Proof.
  intros Hp. apply (StronglySorted_unique hash_le).
  - apply (StronglySorted_merge_sort _).
  - apply (StronglySorted_merge_sort _).
  - by rewrite !sort_hashes_perm.
Qed.

(** ** Levels of the tree *)

Section levels.
Context `{NearSdk}.

Lemma pair_up_ind (P : list CryptoHash -> Prop) :
  P [] -> (forall a, P [a]) -> (forall a b l, P l -> P (a :: b :: l)) -> forall l, P l.
Proof.
  intros H0 H1 H2. fix IH 1. intros [|a [|b l]]; [done|apply H1|apply H2, IH].
Qed.

Lemma length_pair_up l : length (pair_up l) = (length l + 1) / 2.
Proof.
  induction l as [| |a b l IH] using pair_up_ind; cbn -[Nat.div]; [done..|].
  rewrite IH. lia_div.
Qed.

Lemma lookup_pair_up l i :
  pair_up l !! i =
    match l !! (2 * i), l !! (2 * i + 1) with
    | Some a, Some b => Some (combine_hash a b)
    | o, _ => o
    end.
Proof.
  revert i. induction l as [| |a b l IH] using pair_up_ind; intros [|i]; try done.
  cbn [pair_up]. replace (2 * S i + 1) with (S (S (2 * i + 1))) by lia.
  replace (2 * S i) with (S (S (2 * i))) by lia. apply IH.
Qed.

Lemma pair_up_take m l : pair_up (take (2 * m) l) = take m (pair_up l).
Proof.
  revert m. induction l as [| |a b l IH] using pair_up_ind; intros [|m]; try done.
  - by rewrite !take_ge by (cbn; lia).
  - replace (2 * S m) with (S (S (2 * m))) by lia. cbn [take pair_up]. by rewrite IH.
Qed.

Lemma pair_up_drop m l : pair_up (drop (2 * m) l) = drop m (pair_up l).
Proof.
  revert m. induction l as [| |a b l IH] using pair_up_ind; intros [|m]; try done.
  - by rewrite !drop_ge by (cbn; lia).
  - replace (2 * S m) with (S (S (2 * m))) by lia. cbn [drop pair_up]. by rewrite IH.
Qed.

(** A level computed bottom-up is a level of the top-down tree. *)
Lemma tree_root_pair_up k l :
  length l <= 2 ^ S k -> tree_root (S k) l = tree_root k (pair_up l).
Proof.
  revert l. induction k as [|k IH]; intros l Hl.
  { destruct l as [|a [|b [|]]]; cbn in *; [done..|lia]. }
  assert (Hh : length (pair_up l) <= 2 ^ k <-> length l <= 2 ^ S k).
  { rewrite length_pair_up, Nat.pow_succ_r'. generalize (2 ^ k). lia_div. }
  change (tree_root (S (S k)) l) with
    (if (length l <=? 2 ^ S k)%nat then tree_root (S k) l
     else combine_hash (tree_root (S k) (take (2 ^ S k) l)) (tree_root (S k) (drop (2 ^ S k) l))).
  change (tree_root (S k) (pair_up l)) with
    (if (length (pair_up l) <=? 2 ^ k)%nat then tree_root k (pair_up l)
     else combine_hash (tree_root k (take (2 ^ k) (pair_up l))) (tree_root k (drop (2 ^ k) (pair_up l)))).
  destruct (Nat.leb_spec (length l) (2 ^ S k)), (Nat.leb_spec (length (pair_up l)) (2 ^ k));
    [by apply IH|lia|lia|].
  rewrite (Nat.pow_succ_r' 2 (S k)) in Hl.
  rewrite !IH by (rewrite ?length_take, ?length_drop; lia).
  by rewrite Nat.pow_succ_r', pair_up_take, pair_up_drop.
Qed.

End levels.

(** ** The loops *)

Section loops.
Context `{NearSdk}.

(** The vector between iterations of the [for] loop over level [l]: the next
    level up to [i], level [l] from [i] on. *)
Definition for_inv (l : list CryptoHash) (i : nat) (hashes : list CryptoHash) : Prop :=
  length l <= length hashes /\
  (forall j, j < i -> j < length (pair_up l) -> hashes !! j = pair_up l !! j) /\
  (forall j, i <= j -> j < length l -> hashes !! j = l !! j).

Lemma for_inv_step l i hashes :
  for_inv l i hashes ->
  exists hashes', merkle_body (length l) i hashes = Ret hashes' /\ for_inv l (S i) hashes'.
Proof.
  intros (Hlen & Hlt & Hge). unfold merkle_body.
  pose proof (length_pair_up l) as Hp.
  destruct (Nat.leb_spec (length l) (2 * i)) as [Hi|Hi].
  { exists hashes. split; [done|]. split_and!; [done| |].
    - intros j ??. apply Hlt; [|done]. lia_div.
    - intros j ??. apply Hge; lia. }
  assert (exists h, pair_up l !! i = Some h /\
    (if (length l <=? 2 * i + 1)%nat then index hashes (2 * i)
     else h1 ← index hashes (2 * i); h2 ← index hashes (2 * i + 1);
          mret (combine_hash h1 h2)) = Ret h) as (h & Hh & ->).
  { rewrite lookup_pair_up. unfold index. rewrite (Hge (2 * i)) by lia.
    destruct (lookup_lt_is_Some_2 l (2 * i) Hi) as [a ->].
    destruct (Nat.leb_spec (length l) (2 * i + 1)).
    - rewrite (lookup_ge_None_2 l (2 * i + 1)) by lia. eauto.
    - rewrite (Hge (2 * i + 1)) by lia.
      destruct (lookup_lt_is_Some_2 l (2 * i + 1)) as [b ->]; [lia|]. cbn. eauto. }
  exists (<[i := h]> hashes). cbn. unfold index_set.
  rewrite (proj2 (Nat.ltb_lt i (length hashes))) by lia. split; [done|].
  unfold for_inv. rewrite length_insert. split_and!; [done| |].
  - intros j ??. destruct (decide (i = j)) as [<-|]; [|rewrite list_lookup_insert_ne by done; apply Hlt; lia].
    by rewrite list_lookup_insert_eq by lia.
  - intros j ??. rewrite list_lookup_insert_ne by lia. apply Hge; lia.
Qed.

Lemma merkle_for_ret l n i hashes :
  for_inv l i hashes ->
  exists hashes', merkle_for (length l) i n hashes = Ret hashes' /\ for_inv l (i + n) hashes'.
Proof.
  revert i hashes. induction n as [|n IH]; intros i hashes Hi; cbn.
  { rewrite Nat.add_0_r. eauto. }
  destruct (for_inv_step _ _ _ Hi) as (hs & -> & Hs). cbn.
  rewrite <- Nat.add_succ_comm. by apply IH.
Qed.

(** [hashes] starts with the level [l]. *)
Definition starts_with (l hashes : list CryptoHash) : Prop :=
  length l <= length hashes /\ forall j, j < length l -> hashes !! j = l !! j.

Lemma merkle_level l n hashes :
  length l <= 2 * n -> starts_with l hashes ->
  exists hashes', merkle_for (length l) 0 n hashes = Ret hashes' /\ starts_with (pair_up l) hashes'.
Proof.
  intros Hn [Hlen Hj]. destruct (merkle_for_ret l n 0 hashes) as (hs & -> & Hl & Hlt & _).
  { split_and!; [done|lia|]. intros j _. apply Hj. }
  exists hs. split; [done|]. pose proof (length_pair_up l). split; [lia_div|].
  intros j ?. apply Hlt; [lia_div|done].
Qed.

Lemma merkle_while_ret k fuel l hashes :
  k < fuel -> l <> [] -> length l <= 2 ^ k -> starts_with l hashes ->
  exists hashes', merkle_while fuel (2 ^ k) (length l) hashes = Ret hashes' /\
    hashes' !! 0 = Some (tree_root k l).
Proof.
  revert fuel l hashes. induction k as [|k IH]; intros [|fuel] l hashes Hf Hnil Hl Hs; try lia.
  - destruct l as [|a [|]]; cbn in *; [done| |lia]. exists hashes. split; [done|].
    destruct Hs as [_ Hs]. by rewrite Hs by (cbn; lia).
  - cbn [merkle_while]. rewrite Nat.pow_succ_r' in *.
    pose proof (Nat.pow_nonzero 2 k ltac:(lia)).
    rewrite (proj2 (Nat.ltb_lt 1 (2 * 2 ^ k))) by lia. cbn zeta.
    rewrite (Nat.mul_comm 2 (2 ^ k)), Nat.div_mul by lia.
    destruct (merkle_level l (2 ^ k) hashes) as (hs & -> & Hs'); [done..|].
    cbn [mbind outcome_bind].
    rewrite <- length_pair_up, (tree_root_pair_up k l) by (rewrite Nat.pow_succ_r'; lia).
    pose proof (length_pair_up l) as Hp. apply IH; [lia| | |done].
    + intros E. destruct l; [done|]. rewrite E in Hp. cbn [length] in Hp. lia_div.
    + lia_div.
Qed.

Lemma merklize_eq {T} `{BorshSerialize T} (arr : list T) :
  merklize arr = Ret (merkle_root_spec (sort_hashes (hash_borsh <$> arr))).
Proof.
  set (l := sort_hashes (hash_borsh <$> arr)).
  assert (Hlen : length l = length arr).
  { unfold l. by rewrite sort_hashes_perm, length_fmap. }
  destruct arr as [|x arr]; [done|].
  unfold merklize, merkle_root_spec. fold l. cbn [fmap] in l.
  destruct l as [|h l']; [done|]. rewrite <- Hlen.
  unfold next_power_of_two. set (k := Nat.log2_up _).
  assert (length (h :: l') <= 2 ^ k) as Hk.
  { subst k. destruct l'; [cbn; lia|]. apply Nat.log2_up_spec. cbn. lia. }
  destruct (merkle_while_ret k (S (2 ^ k)) (h :: l') (h :: l')) as (hs & Hw & Hr); [|done..|].
  { pose proof (Nat.pow_gt_lin_r 2 k). lia. }
  destruct (Nat.eqb_spec (2 ^ k) 1) as [E|E].
  - assert (k = 0) as ->; [|done].
    destruct k; [done|]. rewrite Nat.pow_succ_r' in E. lia.
  - rewrite Hw. cbn. unfold index. by rewrite Hr.
Qed.

End loops.

(** ** Collisions *)

Section binding.
Context `{NearSdk}.

Lemma hash_borsh_eq {T} `{BorshSerialize T} `{EqDecision T} (a b : T) :
  Inj eq eq (borsh (T := T)) -> hash_borsh a = hash_borsh b -> a = b \/ collision_among [borsh a; borsh b].
Proof.
  intros Hinj [= E]. destruct (decide (a = b)) as [->|Hne]; [by left|right].
  exists (borsh a), (borsh b). split_and!; [set_solver..|by intros ?%Hinj|done].
Qed.

Definition wf_hash (h : CryptoHash) : Prop := length (hash_0 h) = 32.

Lemma hash_borsh_wf {T} `{BorshSerialize T} (a : T) : wf_hash (hash_borsh a).
Proof. apply sha256_length. Qed.

Lemma combine_hash_eq a b c d :
  wf_hash a -> wf_hash c -> combine_hash a b = combine_hash c d ->
  (a = c /\ b = d) \/ collision_among [borsh (a, b); borsh (c, d)].
Proof.
  unfold wf_hash. intros Ha Hc [= E].
  destruct (decide (hash_0 a ++ hash_0 b = hash_0 c ++ hash_0 d)) as [Eq|Hne].
  - left. apply app_inj_1 in Eq; [|by rewrite Ha, Hc].
    destruct a, b, c, d, Eq; cbn in *; by subst.
  - right. exists (borsh (a, b)), (borsh (c, d)). split_and!; [set_solver..| |done].
    by unfold borsh, borsh_pair, borsh, borsh_CryptoHash; cbn; rewrite !borsh_u8_32_eq.
Qed.

Lemma tree_root_wf k l : l <> [] -> Forall wf_hash l -> wf_hash (tree_root k l).
Proof.
  revert l. induction k as [|k IH]; intros l Hn Hl; cbn.
  { destruct l; [done|]. by inversion Hl. }
  case_match; [by apply IH|]. apply hash_borsh_wf.
Qed.

(** Equal roots of equally many leaves: equal leaves, or a collision in the two trees. *)
Lemma tree_root_eq k l1 l2 :
  length l1 = length l2 -> length l1 <= 2 ^ k -> Forall wf_hash l1 -> Forall wf_hash l2 ->
  tree_root k l1 = tree_root k l2 -> l1 = l2 \/ collision_among (tree_inputs k l1 ++ tree_inputs k l2).
Proof.
  revert l1 l2. induction k as [|k IH]; intros l1 l2 He Hk Hw1 Hw2 Hr.
  { destruct l1 as [|? [|]], l2 as [|? [|]]; cbn in *; try (done || lia); left; by f_equal. }
  cbn in Hr |- *. rewrite <- He in Hr |- *. rewrite Nat.pow_succ_r' in Hk.
  destruct (Nat.leb_spec (length l1) (2 ^ k)); [by eapply IH|].
  pose proof (Nat.pow_nonzero 2 k ltac:(lia)).
  apply combine_hash_eq in Hr as [[Hl Hd]|Hc]; [|right; eapply collision_incl; [|exact Hc]; set_solver| |].
  - apply IH in Hl as [Hl|Hc]; [|right; eapply collision_incl; [|exact Hc]; set_solver|..];
      [|rewrite ?length_take; lia|rewrite ?length_take; lia|by apply Forall_take..].
    apply IH in Hd as [Hd|Hc]; [|right; eapply collision_incl; [|exact Hc]; set_solver|..];
      [|rewrite ?length_drop; lia|rewrite ?length_drop; lia|by apply Forall_drop..].
    left. by rewrite <- (take_drop (2 ^ k) l1), <- (take_drop (2 ^ k) l2), Hl, Hd.
  - apply tree_root_wf; [|by apply Forall_take].
    intros E%(f_equal length). rewrite length_take in E. cbn in E. lia.
  - apply tree_root_wf; [|by apply Forall_take].
    intros E%(f_equal length). rewrite length_take in E. cbn in E. lia.
Qed.

Lemma fmap_hash_perm {T} `{BorshSerialize T} `{EqDecision T} (l1 l2 : list T) :
  Inj eq eq (borsh (T := T)) -> hash_borsh <$> l1 ≡ₚ hash_borsh <$> l2 ->
  l1 ≡ₚ l2 \/ collision_among ((borsh <$> l1) ++ (borsh <$> l2)).
Proof.
  intros Hinj. revert l2. induction l1 as [|x l1 IH]; intros l2 Hp.
  { left. apply Permutation_length in Hp. by destruct l2. }
  assert (hash_borsh x ∈ hash_borsh <$> l2) as Hx by (rewrite <- Hp; cbn; set_solver).
  apply list_elem_of_fmap in Hx as (y & Hy & Hin).
  destruct (hash_borsh_eq _ _ Hinj Hy) as [->|Hc]; [|right; eapply collision_incl; [|exact Hc]; set_solver].
  apply elem_of_Permutation in Hin as [l2' Hl2].
  rewrite Hl2 in Hp. cbn in Hp. apply Permutation_cons_inv in Hp.
  destruct (IH _ Hp) as [Hl|Hc]; [left; by rewrite Hl2, Hl|].
  right. eapply collision_incl; [|exact Hc]. rewrite Hl2. set_solver.
Qed.

End binding.

(** ** Properties *)

Section properties.
Context `{NearSdk}.

(** C20: [merklize] never indexes out of range and always returns; its in-place
    loops compute the root of the left-complete binary tree over the sorted
    hashes of the items, and the default hash for no item. *)
Theorem merklize_is_tree_root {T} `{BorshSerialize T} (arr : list T) :
  merklize arr = Ret
    (match arr with
     | [] => CryptoHash_default
     | _ => tree_root (Nat.log2_up (length arr)) (sort_hashes (hash_borsh <$> arr))
     end).
Proof.
  rewrite merklize_eq. destruct arr as [|x arr]; [done|]. unfold merkle_root_spec.
  assert (length (sort_hashes (hash_borsh <$> x :: arr)) = length (x :: arr)) as <-
    by (by rewrite sort_hashes_perm, length_fmap).
  destruct (sort_hashes _) eqn:E; [|done].
  apply (f_equal length) in E. by rewrite sort_hashes_perm in E.
Qed.

(** The root does not depend on the order in which the items were posted. *)
Theorem merklize_order_independent {T} `{BorshSerialize T} (arr1 arr2 : list T) :
  arr1 ≡ₚ arr2 -> merklize arr1 = merklize arr2.
Proof. intros Hp. rewrite !merklize_eq. by rewrite (sort_hashes_unique _ _ (fmap_Permutation _ _ _ Hp)). Qed.

(** C21: The root binds the items: two collections of data requests of the same
    size with the same root are equal up to order, or sha256 collides on two
    inputs that are hashed on the way to these two roots (the encoded items, and
    the pairs of hashes in the trees). *)
Theorem merklize_binding (arr1 arr2 : list string) :
  length arr1 = length arr2 -> merklize arr1 = merklize arr2 ->
  arr1 ≡ₚ arr2 \/ collision_among (merkle_inputs arr1 ++ merkle_inputs arr2).
Proof.
  rewrite !merklize_eq. intros Hlen [= Hr].
  assert (forall arr : list string, Forall wf_hash (sort_hashes (hash_borsh <$> arr))) as Hwf.
  { intros arr. rewrite sort_hashes_perm. apply Forall_fmap, Forall_true. intros. apply hash_borsh_wf. }
  assert (forall arr : list string, length (sort_hashes (hash_borsh <$> arr)) = length arr) as Hl.
  { intros arr. by rewrite sort_hashes_perm, length_fmap. }
  destruct (tree_root_eq (Nat.log2_up (length arr1)) (sort_hashes (hash_borsh <$> arr1))
              (sort_hashes (hash_borsh <$> arr2))) as [E|Hc]; try apply Hwf.
  - by rewrite !Hl.
  - rewrite Hl. destruct arr1 as [|? [|]]; [cbn; lia..|]. apply Nat.log2_up_spec. cbn. lia.
  - unfold merkle_root_spec in Hr. revert Hr Hlen. rewrite <- (Hl arr1), <- (Hl arr2).
    destruct (sort_hashes (_ <$> arr1)), (sort_hashes (_ <$> arr2)); intros Hr Hlen; try done.
    by rewrite <- Hlen in Hr.
  - destruct (fmap_hash_perm arr1 arr2) as [Hp|Hc]; [exact borsh_str_inj| |by left|].
    + rewrite <- (sort_hashes_perm (_ <$> arr1)), E. apply sort_hashes_perm.
    + right. eapply collision_incl; [|exact Hc]. unfold merkle_inputs. set_solver.
  - right. eapply collision_incl; [|exact Hc]. unfold merkle_inputs. rewrite <- Hlen. set_solver.
Qed.

End properties.

(** ** Witnesses *)

Section witnesses.
Import RefSdk.

Definition three_requests : list string := ["a"; "b"; "c"]%string.

Lemma merklize_order_independent_witness :
  merklize three_requests = merklize ["c"; "a"; "b"]%string /\
  is_ret (merklize three_requests) = true.
Proof.
  split; [|vm_compute; reflexivity].
  apply merklize_order_independent. unfold three_requests.
  symmetry. apply (Permutation_cons_append ["a"; "b"]%string "c"%string).
Defined.

Lemma merklize_binding_witness :
  three_requests ≡ₚ ["c"; "a"; "b"]%string \/
  collision_among (merkle_inputs three_requests ++ merkle_inputs ["c"; "a"; "b"]%string).
Proof. apply merklize_binding; [reflexivity|vm_compute; reflexivity]. Defined.

End witnesses.
