(* ===== verification/Contract.v ===== *)
(** * The mainchain contract: data model, environment, storage staking, token

    Models [src/common/src] (the shared types), [src/contracts/src/lib.rs] (the
    contract's state and its initialisation), [consts.rs], [storage.rs],
    [fungible_token.rs], [dao.rs], [slot.rs] and the batch types of [batch.rs].
    A method of the contract is a computation in [M vm]: it reads the call's
    environment [Env], may panic (which reverts the transaction), and updates
    the contract's state and the list of emitted transfers. *)

From S2P Require Import Prelude NearSdk Merkle.

(** ** Constants ([consts.rs]) *)

Definition INITIAL_SUPPLY : Z := 100000000000000000000000000000.
Definition INIT_MINIMUM_STAKE : Z := 100000000000000000000000000.
Definition INIT_EPOCH_DELAY_FOR_ELECTION : Z := 2.
Definition DEFAULT_COMMITTEE_SIZE : Z := 2.
Definition SLOTS_PER_EPOCH : Z := 32.
Definition NEAR_BLOCKS_PER_SEDA_SLOT : Z := 10.
Definition EPOCH_COMMITTEES_LOOKAHEAD : Z := 2.

(** ** Data *)

Abbreviation Balance := Z.
Abbreviation EpochHeight := Z.
Abbreviation BatchHeight := Z.
Abbreviation BatchId := CryptoHash.

Record Node := mkNode {
  multi_addr : string;
  balance : Balance;
  bn254_public_key : bytes;
  ed25519_public_key : bytes;
}.

Record NodeInfo := mkNodeInfo {
  info_account_id : string;
  info_multi_addr : string;
  info_balance : Balance;
  info_bn254_public_key : bytes;
  info_ed25519_public_key : bytes;
}.

Record DepositInfo := mkDepositInfo {
  node_ed25519_public_key : bytes;
  deposit_amount : Balance;
}.

Record WithdrawRequest := mkWithdrawRequest {
  request_amount : Balance;
  request_epoch : EpochHeight;
}.

Record RequestWithdrawResult := mkRequestWithdrawResult {
  current_epoch : Z;
  withdraw_epoch : Z;
}.

Record ComputeMerkleRootResult := mkComputeMerkleRootResult {
  merkle_root : bytes;
  current_slot : Z;
  current_slot_leader : option string;
}.

Inductive UpdateNode :=
| SetSocketAddress (new_multi_addr : string).

(** [dao::Config] *)
Record Config := mkConfig {
  minimum_stake : Balance;
  epoch_delay_for_election : Z;
  committee_size : Z;
  withdraw_delay : Z;
}.

Definition Config_default : Config := {|
  minimum_stake := INIT_MINIMUM_STAKE;
  epoch_delay_for_election := INIT_EPOCH_DELAY_FOR_ELECTION;
  committee_size := DEFAULT_COMMITTEE_SIZE;
  withdraw_delay := INIT_EPOCH_DELAY_FOR_ELECTION;
|}.

Inductive UpdateConfig :=
| MinimumStake
| EpochDelayForElection.

Record BatchHeader := mkBatchHeader {
  height : BatchHeight;
  state_root : CryptoHash;
}.

Record Batch := mkBatch {
  header : BatchHeader;
  transactions : list string;
}.

Record MerklizedBatch := mkMerklizedBatch {
  prev_root : BatchId;
  merklized_header : BatchHeader;
  merklized_transactions : bytes;
}.

#[export] Instance Node_eq_decision : EqDecision Node.
Proof. solve_decision. Defined.

(** ** State *)

Section contract.
Context `{NearSdk} `{Bn254}.

(** [borsh] of the batch types: their fields in order *)
#[export] Instance borsh_BatchHeader : BorshSerialize BatchHeader :=
  fun h => borsh_u64 (height h) ++ borsh (state_root h).
#[export] Instance borsh_MerklizedBatch : BorshSerialize MerklizedBatch :=
  fun b => borsh (prev_root b) ++ borsh (merklized_header b) ++ borsh_vec_u8 (merklized_transactions b).

Record MainchainContract := mkContract {
  token : FungibleToken;
  metadata : option FungibleTokenMetadata;
  dao : AccountId;
  config : Config;
  active_nodes : UnorderedMap AccountId Node;
  inactive_nodes : UnorderedMap AccountId Node;
  pending_nodes : UnorderedMap AccountId EpochHeight;
  nodes_by_ed25519_public_key : LookupMap bytes AccountId;
  depositors : LookupMap AccountId (UnorderedMap bytes Balance);
  committees : LookupMap EpochHeight (list AccountId);
  data_request_accumulator : Vector string;
  num_batches : BatchHeight;
  batch_ids_by_height : LookupMap BatchHeight BatchId;
  batch_by_id : LookupMap BatchId Batch;
  last_total_balance : Balance;
  nodes_by_bn254_public_key : LookupMap bytes AccountId;
  random_seed : CryptoHash;
  bootstrapping_phase : bool;
  last_processed_epoch : EpochHeight;
  last_generated_random_number : Z;
  withdraw_requests : LookupMap bytes (LookupMap AccountId WithdrawRequest);
}.

(** Assignments to the fields *)

Definition set_token (v : FungibleToken) (s : MainchainContract) : MainchainContract :=
  mkContract v (metadata s) (dao s) (config s) (active_nodes s) (inactive_nodes s)
    (pending_nodes s) (nodes_by_ed25519_public_key s) (depositors s) (committees s)
    (data_request_accumulator s) (num_batches s) (batch_ids_by_height s) (batch_by_id s)
    (last_total_balance s) (nodes_by_bn254_public_key s) (random_seed s) (bootstrapping_phase s)
    (last_processed_epoch s) (last_generated_random_number s) (withdraw_requests s).

Definition set_config (v : Config) (s : MainchainContract) : MainchainContract :=
  mkContract (token s) (metadata s) (dao s) v (active_nodes s) (inactive_nodes s)
    (pending_nodes s) (nodes_by_ed25519_public_key s) (depositors s) (committees s)
    (data_request_accumulator s) (num_batches s) (batch_ids_by_height s) (batch_by_id s)
    (last_total_balance s) (nodes_by_bn254_public_key s) (random_seed s) (bootstrapping_phase s)
    (last_processed_epoch s) (last_generated_random_number s) (withdraw_requests s).

Definition set_active_nodes (v : UnorderedMap AccountId Node) (s : MainchainContract) : MainchainContract :=
  mkContract (token s) (metadata s) (dao s) (config s) v (inactive_nodes s) (pending_nodes s)
    (nodes_by_ed25519_public_key s) (depositors s) (committees s) (data_request_accumulator s)
    (num_batches s) (batch_ids_by_height s) (batch_by_id s) (last_total_balance s)
    (nodes_by_bn254_public_key s) (random_seed s) (bootstrapping_phase s)
    (last_processed_epoch s) (last_generated_random_number s) (withdraw_requests s).

Definition set_inactive_nodes (v : UnorderedMap AccountId Node) (s : MainchainContract) : MainchainContract :=
  mkContract (token s) (metadata s) (dao s) (config s) (active_nodes s) v (pending_nodes s)
    (nodes_by_ed25519_public_key s) (depositors s) (committees s) (data_request_accumulator s)
    (num_batches s) (batch_ids_by_height s) (batch_by_id s) (last_total_balance s)
    (nodes_by_bn254_public_key s) (random_seed s) (bootstrapping_phase s)
    (last_processed_epoch s) (last_generated_random_number s) (withdraw_requests s).

Definition set_pending_nodes (v : UnorderedMap AccountId EpochHeight) (s : MainchainContract) : MainchainContract :=
  mkContract (token s) (metadata s) (dao s) (config s) (active_nodes s) (inactive_nodes s) v
    (nodes_by_ed25519_public_key s) (depositors s) (committees s) (data_request_accumulator s)
    (num_batches s) (batch_ids_by_height s) (batch_by_id s) (last_total_balance s)
    (nodes_by_bn254_public_key s) (random_seed s) (bootstrapping_phase s)
    (last_processed_epoch s) (last_generated_random_number s) (withdraw_requests s).

Definition set_nodes_by_ed25519_public_key (v : LookupMap bytes AccountId) (s : MainchainContract) : MainchainContract :=
  mkContract (token s) (metadata s) (dao s) (config s) (active_nodes s) (inactive_nodes s)
    (pending_nodes s) v (depositors s) (committees s) (data_request_accumulator s)
    (num_batches s) (batch_ids_by_height s) (batch_by_id s) (last_total_balance s)
    (nodes_by_bn254_public_key s) (random_seed s) (bootstrapping_phase s)
    (last_processed_epoch s) (last_generated_random_number s) (withdraw_requests s).

Definition set_depositors (v : LookupMap AccountId (UnorderedMap bytes Balance)) (s : MainchainContract) : MainchainContract :=
  mkContract (token s) (metadata s) (dao s) (config s) (active_nodes s) (inactive_nodes s)
    (pending_nodes s) (nodes_by_ed25519_public_key s) v (committees s)
    (data_request_accumulator s) (num_batches s) (batch_ids_by_height s) (batch_by_id s)
    (last_total_balance s) (nodes_by_bn254_public_key s) (random_seed s) (bootstrapping_phase s)
    (last_processed_epoch s) (last_generated_random_number s) (withdraw_requests s).

Definition set_committees (v : LookupMap EpochHeight (list AccountId)) (s : MainchainContract) : MainchainContract :=
  mkContract (token s) (metadata s) (dao s) (config s) (active_nodes s) (inactive_nodes s)
    (pending_nodes s) (nodes_by_ed25519_public_key s) (depositors s) v
    (data_request_accumulator s) (num_batches s) (batch_ids_by_height s) (batch_by_id s)
    (last_total_balance s) (nodes_by_bn254_public_key s) (random_seed s) (bootstrapping_phase s)
    (last_processed_epoch s) (last_generated_random_number s) (withdraw_requests s).

Definition set_data_request_accumulator (v : Vector string) (s : MainchainContract) : MainchainContract :=
  mkContract (token s) (metadata s) (dao s) (config s) (active_nodes s) (inactive_nodes s)
    (pending_nodes s) (nodes_by_ed25519_public_key s) (depositors s) (committees s) v
    (num_batches s) (batch_ids_by_height s) (batch_by_id s) (last_total_balance s)
    (nodes_by_bn254_public_key s) (random_seed s) (bootstrapping_phase s)
    (last_processed_epoch s) (last_generated_random_number s) (withdraw_requests s).

Definition set_num_batches (v : BatchHeight) (s : MainchainContract) : MainchainContract :=
  mkContract (token s) (metadata s) (dao s) (config s) (active_nodes s) (inactive_nodes s)
    (pending_nodes s) (nodes_by_ed25519_public_key s) (depositors s) (committees s)
    (data_request_accumulator s) v (batch_ids_by_height s) (batch_by_id s)
    (last_total_balance s) (nodes_by_bn254_public_key s) (random_seed s) (bootstrapping_phase s)
    (last_processed_epoch s) (last_generated_random_number s) (withdraw_requests s).

Definition set_batch_ids_by_height (v : LookupMap BatchHeight BatchId) (s : MainchainContract) : MainchainContract :=
  mkContract (token s) (metadata s) (dao s) (config s) (active_nodes s) (inactive_nodes s)
    (pending_nodes s) (nodes_by_ed25519_public_key s) (depositors s) (committees s)
    (data_request_accumulator s) (num_batches s) v (batch_by_id s) (last_total_balance s)
    (nodes_by_bn254_public_key s) (random_seed s) (bootstrapping_phase s)
    (last_processed_epoch s) (last_generated_random_number s) (withdraw_requests s).

Definition set_batch_by_id (v : LookupMap BatchId Batch) (s : MainchainContract) : MainchainContract :=
  mkContract (token s) (metadata s) (dao s) (config s) (active_nodes s) (inactive_nodes s)
    (pending_nodes s) (nodes_by_ed25519_public_key s) (depositors s) (committees s)
    (data_request_accumulator s) (num_batches s) (batch_ids_by_height s) v
    (last_total_balance s) (nodes_by_bn254_public_key s) (random_seed s) (bootstrapping_phase s)
    (last_processed_epoch s) (last_generated_random_number s) (withdraw_requests s).

Definition set_last_total_balance (v : Balance) (s : MainchainContract) : MainchainContract :=
  mkContract (token s) (metadata s) (dao s) (config s) (active_nodes s) (inactive_nodes s)
    (pending_nodes s) (nodes_by_ed25519_public_key s) (depositors s) (committees s)
    (data_request_accumulator s) (num_batches s) (batch_ids_by_height s) (batch_by_id s) v
    (nodes_by_bn254_public_key s) (random_seed s) (bootstrapping_phase s)
    (last_processed_epoch s) (last_generated_random_number s) (withdraw_requests s).

Definition set_nodes_by_bn254_public_key (v : LookupMap bytes AccountId) (s : MainchainContract) : MainchainContract :=
  mkContract (token s) (metadata s) (dao s) (config s) (active_nodes s) (inactive_nodes s)
    (pending_nodes s) (nodes_by_ed25519_public_key s) (depositors s) (committees s)
    (data_request_accumulator s) (num_batches s) (batch_ids_by_height s) (batch_by_id s)
    (last_total_balance s) v (random_seed s) (bootstrapping_phase s) (last_processed_epoch s)
    (last_generated_random_number s) (withdraw_requests s).

Definition set_bootstrapping_phase (v : bool) (s : MainchainContract) : MainchainContract :=
  mkContract (token s) (metadata s) (dao s) (config s) (active_nodes s) (inactive_nodes s)
    (pending_nodes s) (nodes_by_ed25519_public_key s) (depositors s) (committees s)
    (data_request_accumulator s) (num_batches s) (batch_ids_by_height s) (batch_by_id s)
    (last_total_balance s) (nodes_by_bn254_public_key s) (random_seed s) v
    (last_processed_epoch s) (last_generated_random_number s) (withdraw_requests s).

Definition set_last_processed_epoch (v : EpochHeight) (s : MainchainContract) : MainchainContract :=
  mkContract (token s) (metadata s) (dao s) (config s) (active_nodes s) (inactive_nodes s)
    (pending_nodes s) (nodes_by_ed25519_public_key s) (depositors s) (committees s)
    (data_request_accumulator s) (num_batches s) (batch_ids_by_height s) (batch_by_id s)
    (last_total_balance s) (nodes_by_bn254_public_key s) (random_seed s) (bootstrapping_phase s)
    v (last_generated_random_number s) (withdraw_requests s).

Definition set_last_generated_random_number (v : Z) (s : MainchainContract) : MainchainContract :=
  mkContract (token s) (metadata s) (dao s) (config s) (active_nodes s) (inactive_nodes s)
    (pending_nodes s) (nodes_by_ed25519_public_key s) (depositors s) (committees s)
    (data_request_accumulator s) (num_batches s) (batch_ids_by_height s) (batch_by_id s)
    (last_total_balance s) (nodes_by_bn254_public_key s) (random_seed s) (bootstrapping_phase s)
    (last_processed_epoch s) v (withdraw_requests s).

Definition set_withdraw_requests (v : LookupMap bytes (LookupMap AccountId WithdrawRequest)) (s : MainchainContract) : MainchainContract :=
  mkContract (token s) (metadata s) (dao s) (config s) (active_nodes s) (inactive_nodes s)
    (pending_nodes s) (nodes_by_ed25519_public_key s) (depositors s) (committees s)
    (data_request_accumulator s) (num_batches s) (batch_ids_by_height s) (batch_by_id s)
    (last_total_balance s) (nodes_by_bn254_public_key s) (random_seed s) (bootstrapping_phase s)
    (last_processed_epoch s) (last_generated_random_number s) v.

(** ** The environment of a call

    [storage_usage] is the host's count of the bytes the state occupies; [gas]
    bounds the iterations of a loop, the host aborts the call when it is used
    up; [overflow_checks] is the compilation profile's setting. *)
Record Env := mkEnv {
  block_height : Z;
  signer_account_id : AccountId;
  signer_account_pk : bytes;
  attached_deposit : Balance;
  storage_byte_cost : Balance;
  storage_usage : MainchainContract -> Z;
  state_exists : bool;
  overflow_checks : bool;
  gas : nat;
}.

(** A receipt the call emits: [Promise::new(to).transfer(amount)] *)
Inductive Receipt :=
| Transfer (to : AccountId) (amount : Balance).

Record vm := mkVm {
  self : MainchainContract;
  receipts : list Receipt;
}.

Definition modify_self (f : MainchainContract -> MainchainContract) : M vm unit :=
  modify (fun v => mkVm (f (self v)) (receipts v)).
Definition get_self {A} (f : MainchainContract -> A) : M vm A := gets (fun v => f (self v)).
Definition emit (r : Receipt) : M vm unit :=
  modify (fun v => mkVm (self v) (receipts v ++ [r])).

(** How a block ends: it falls through, or it runs a [return]. *)
Inductive flow := Next | Return.

Section methods.
Context (env : Env).

Definition u64_add (a b : Z) : M vm Z := lift (add_w (overflow_checks env) 64 a b).
Definition u64_sub (a b : Z) : M vm Z := lift (sub_w (overflow_checks env) 64 a b).
Definition u128_add (a b : Z) : M vm Z := lift (add_w (overflow_checks env) 128 a b).
Definition u128_sub (a b : Z) : M vm Z := lift (sub_w (overflow_checks env) 128 a b).
Definition u128_mul (a b : Z) : M vm Z := lift (mul_w (overflow_checks env) 128 a b).

(** ** Storage staking ([storage.rs]) *)

Definition require_storage_deposit (initial_storage_usage : Z) : M vm unit :=
  usage ← get_self (storage_usage env);
  diff ← u64_sub usage initial_storage_usage;
  storage_cost ← u128_mul (storage_byte_cost env) diff;
  assert_ (storage_cost <=? attached_deposit env)%Z "Insufficient storage".

Definition refund_storage_deposit (initial_storage_usage : Z) : M vm unit :=
  usage ← get_self (storage_usage env);
  diff ← u64_sub initial_storage_usage usage;
  storage_cost ← u128_mul (storage_byte_cost env) diff;
  emit (Transfer (signer_account_id env) storage_cost).

(** [manage_storage_deposit!(self, "require", body)] *)
Definition manage_storage_deposit_require {A} (body : M vm A) : M vm unit :=
  initial_storage_usage ← get_self (storage_usage env);
  _ ← body;
  require_storage_deposit initial_storage_usage.

(** [manage_storage_deposit!(self, "refund", body)] *)
Definition manage_storage_deposit_refund {A} (body : M vm A) : M vm unit :=
  initial_storage_usage ← get_self (storage_usage env);
  _ ← body;
  refund_storage_deposit initial_storage_usage.

(** [manage_storage_deposit!(self, body)]; a [return] in the body leaves the
    method before the deposit is settled. *)
Definition manage_storage_deposit (body : M vm flow) : M vm unit :=
  initial_storage_usage ← get_self (storage_usage env);
  f ← body;
  match f with
  | Return => mret tt
  | Next =>
      usage ← get_self (storage_usage env);
      if (initial_storage_usage <? usage)%Z
      then require_storage_deposit initial_storage_usage
      else refund_storage_deposit initial_storage_usage
  end.

(** ** Staked tokens ([fungible_token.rs]) *)

Definition mint (account_id : AccountId) (amount : Balance) : M vm unit :=
  t ← get_self token;
  old ← lift (unwrap unwrap_none (lm_get (ft_accounts t) account_id));
  new_user_balance ← u128_add old amount;
  modify_self (set_token (ft_with_accounts t (lm_insert (ft_accounts t) account_id new_user_balance))).

Definition burn (account_id : AccountId) (amount : Balance) : M vm unit :=
  t ← get_self token;
  old ← lift (unwrap unwrap_none (lm_get (ft_accounts t) account_id));
  new_user_balance ← u128_sub old amount;
  modify_self (set_token (ft_with_accounts t (lm_insert (ft_accounts t) account_id new_user_balance))).

Definition ft_metadata : M vm FungibleTokenMetadata :=
  m ← get_self metadata;
  lift (unwrap unwrap_none m).

(** ** DAO ([dao.rs]) *)

Definition assert_dao (account_id : AccountId) : M vm unit :=
  d ← get_self dao;
  assert_ (bool_decide (account_id = d)) "Only DAO can call this method".

Definition get_config : M vm Config := get_self config.

Definition update_config (key : UpdateConfig) (value : Z) : M vm unit :=
  _ ← assert_dao (signer_account_id env);
  c ← get_self config;
  match key with
  | MinimumStake =>
      modify_self (set_config (mkConfig value (epoch_delay_for_election c) (committee_size c) (withdraw_delay c)))
  | EpochDelayForElection =>
      modify_self (set_config (mkConfig (minimum_stake c) (cast_u 64 value) (committee_size c) (withdraw_delay c)))
  end.

(** ** Slots and epochs ([slot.rs], [epoch.rs]) *)

Definition get_current_slot : Z := (block_height env / NEAR_BLOCKS_PER_SEDA_SLOT)%Z.
Definition get_current_epoch : Z :=
  (block_height env / (NEAR_BLOCKS_PER_SEDA_SLOT * SLOTS_PER_EPOCH))%Z.

(** ** Initialisation ([lib.rs]) *)

Definition new_contract (dao_id : AccountId) (initial_supply : Balance) (meta : FungibleTokenMetadata)
    (size : Z) (seed : Z) : outcome MainchainContract :=
  if state_exists env then Panic "Already initialized"
  else if negb (is_valid_account_id (String.list_byte_of_string dao_id))
  then Panic "The DAO account ID is invalid"
  else if negb (metadata_valid meta) then Panic "invalid metadata"
  else
    let conf := mkConfig (minimum_stake Config_default) (epoch_delay_for_election Config_default)
                  size (withdraw_delay Config_default) in
    t ← ft_internal_register_account ft_new dao_id;
    t ← ft_internal_deposit t dao_id initial_supply;
    mret (mkContract t (Some meta) dao_id conf um_new um_new um_new lm_new lm_new lm_new vec_new
      0 lm_new lm_new 0 lm_new CryptoHash_default true 0 seed lm_new)%Z.

End methods.

End contract.

(** ** Lemmas on the common steps of the methods *)

Section methods_lemmas.
Context `{NearSdk} (env : Env).

Lemma modify_self_ret f v u v' :
  modify_self f v = Ret (u, v') -> v' = mkVm (f (self v)) (receipts v).
Proof. unfold modify_self, modify. by intros [= _ <-]. Qed.

Lemma get_self_ret {A} (f : MainchainContract -> A) v a v' :
  get_self f v = Ret (a, v') -> a = f (self v) /\ v' = v.
Proof. unfold get_self, gets. by intros [= <- <-]. Qed.

Lemma emit_ret r v u v' : emit r v = Ret (u, v') -> v' = mkVm (self v) (receipts v ++ [r]).
Proof. unfold emit, modify. by intros [= _ <-]. Qed.

Lemma u64_add_ret a b v x v' : u64_add env a b v = Ret (x, v') -> x = wrap 64 (a + b) /\ v' = v.
Proof.
  intros [Hx ->]%lift_ret. split; [|done]. by eapply arith_wrap; [|exact Hx].
Qed.

(** What the "require" form of the macro settles, in the profile of [env] *)
Definition storage_settled (initial usage : Z) : Prop :=
  exists diff cost, sub_w (overflow_checks env) 64 usage initial = Ret diff /\
    mul_w (overflow_checks env) 128 (storage_byte_cost env) diff = Ret cost /\
    (cost <= attached_deposit env)%Z.

(** What the "refund" form pays back *)
Definition storage_refund (initial usage cost : Z) : Prop :=
  exists diff, sub_w (overflow_checks env) 64 initial usage = Ret diff /\
    mul_w (overflow_checks env) 128 (storage_byte_cost env) diff = Ret cost.

Lemma require_ret i v u v' :
  require_storage_deposit env i v = Ret (u, v') ->
  v' = v /\ storage_settled i (storage_usage env (self v)).
Proof.
  unfold require_storage_deposit, u64_sub, u128_mul, get_self. intros Hr. inv_run. bool_to_prop.
  split; [done|]. eexists _, _. eauto.
Qed.

Lemma refund_ret i v u v' :
  refund_storage_deposit env i v = Ret (u, v') ->
  exists cost, storage_refund i (storage_usage env (self v)) cost /\
    v' = mkVm (self v) (receipts v ++ [Transfer (signer_account_id env) cost]).
Proof.
  unfold refund_storage_deposit, u64_sub, u128_mul, get_self, emit. intros Hr. inv_run.
  eexists. split; [eexists; eauto|done].
Qed.

Lemma manage_require_ret {A} (body : M vm A) v u v' :
  manage_storage_deposit_require env body v = Ret (u, v') ->
  exists a, body v = Ret (a, v') /\
    storage_settled (storage_usage env (self v)) (storage_usage env (self v')).
Proof.
  unfold manage_storage_deposit_require, get_self. intros Hr. inv_run.
  match goal with H : require_storage_deposit _ _ _ = _ |- _ => apply require_ret in H as [-> ?] end.
  eauto.
Qed.

Lemma manage_refund_ret {A} (body : M vm A) v u v' :
  manage_storage_deposit_refund env body v = Ret (u, v') ->
  exists a v1 cost, body v = Ret (a, v1) /\
    storage_refund (storage_usage env (self v)) (storage_usage env (self v1)) cost /\
    v' = mkVm (self v1) (receipts v1 ++ [Transfer (signer_account_id env) cost]).
Proof.
  unfold manage_storage_deposit_refund, get_self. intros Hr. inv_run.
  match goal with H : refund_storage_deposit _ _ _ = _ |- _ => apply refund_ret in H as (c & ? & ->) end.
  eauto 10.
Qed.

(** The general form: after a [return] nothing is settled; otherwise growth is
    paid for, and anything else is refunded. *)
Lemma manage_ret (body : M vm flow) v u v' :
  manage_storage_deposit env body v = Ret (u, v') ->
  exists f v1, body v = Ret (f, v1) /\ self v' = self v1 /\
    match f with
    | Return => v' = v1
    | Next =>
        let initial := storage_usage env (self v) in let usage := storage_usage env (self v1) in
        if (initial <? usage)%Z then v' = v1 /\ storage_settled initial usage
        else exists cost, storage_refund initial usage cost /\
               receipts v' = receipts v1 ++ [Transfer (signer_account_id env) cost]
    end.
Proof.
  unfold manage_storage_deposit, get_self. intros Hr.
  apply M_bind_ret in Hr as (i & v0 & Hi & Hr). unfold gets in Hi. injection Hi as <- <-.
  apply M_bind_ret in Hr as (f & v1 & Hb & Hr). exists f, v1. split; [done|].
  destruct f; [|by inv_run]. apply M_bind_ret in Hr as (us & v2 & Hu & Hr).
  unfold gets in Hu. injection Hu as <- <-. cbn.
  destruct (_ <? _)%Z.
  - by apply require_ret in Hr as [-> ?].
  - apply refund_ret in Hr as (c & ? & ->). cbn. eauto.
Qed.

Lemma mint_ret a amount v u v' :
  mint env a amount v = Ret (u, v') ->
  exists b n, lm_get (ft_accounts (token (self v))) a = Some b /\
    add_w (overflow_checks env) 128 b amount = Ret n /\
    v' = mkVm (set_token (ft_with_accounts (token (self v))
                (lm_insert (ft_accounts (token (self v))) a n)) (self v)) (receipts v).
Proof.
  unfold mint, get_self, u128_add, modify_self. intros Hr. inv_run. eauto.
Qed.

Lemma burn_ret a amount v u v' :
  burn env a amount v = Ret (u, v') ->
  exists b n, lm_get (ft_accounts (token (self v))) a = Some b /\
    sub_w (overflow_checks env) 128 b amount = Ret n /\
    v' = mkVm (set_token (ft_with_accounts (token (self v))
                (lm_insert (ft_accounts (token (self v))) a n)) (self v)) (receipts v).
Proof.
  unfold burn, get_self, u128_sub, modify_self. intros Hr. inv_run. eauto.
Qed.

End methods_lemmas.

(** Step through a method that returned, keeping the results of the integer
    operations as equations. *)
Ltac inv_method_step :=
  match goal with
  | H : get_self _ _ = Ret _ |- _ => apply get_self_ret in H; destruct H as [-> ->]
  | H : modify_self _ _ = Ret _ |- _ => apply modify_self_ret in H; subst
  | H : u64_add _ _ _ _ = Ret _ |- _ => apply u64_add_ret in H; destruct H as [-> ->]
  | H : u128_add _ _ _ _ = Ret _ |- _ => apply lift_ret in H; destruct H as [H ->]
  | H : u128_sub _ _ _ _ = Ret _ |- _ => apply lift_ret in H; destruct H as [H ->]
  | _ => inv_run_step
  end.
Ltac inv_method := repeat (inv_method_step; cbn beta iota zeta delta [id] in *).
