(* ===== verification/StorageKeys.v ===== *)
(** * Where the contract's collections are stored

    Models the storage keys of [src/contracts/src/lib.rs]
    ([MainchainStorageKeys]) and the keys of the collections that are nested in
    others ([node_registry.rs]).  The rest of the development holds the
    collections by value; the theorem below is what this relies on: no entry of
    one collection is stored under the key of an entry of another one. *)

From S2P Require Import Prelude NearSdk Merkle Contract.

Inductive MainchainStorageKeys :=
| KFungibleToken
| KFungibleTokenMetadata
| KActiveNodes
| KCommittees
| KPendingNodes
| KInactiveNodes
| KDataRequestAccumulator
| KBatchIdsByHeight
| KBatchById
| KNodesByBn254PublicKey
| KNodesByEd25519PublicKey
| KDepositors
| KDepositor (account_hash : bytes)
| KWithdrawRequests
| KWithdrawRequest (account_hash : bytes).

Section keys.
Context `{SDK : NearSdk}.

(** [derive(BorshSerialize)] of an enum: the index of the variant, as a byte, and
    then its fields *)
Definition variant_index (k : MainchainStorageKeys) : Z :=
  match k with
  | KFungibleToken => 0
  | KFungibleTokenMetadata => 1
  | KActiveNodes => 2
  | KCommittees => 3
  | KPendingNodes => 4
  | KInactiveNodes => 5
  | KDataRequestAccumulator => 6
  | KBatchIdsByHeight => 7
  | KBatchById => 8
  | KNodesByBn254PublicKey => 9
  | KNodesByEd25519PublicKey => 10
  | KDepositors => 11
  | KDepositor _ => 12
  | KWithdrawRequests => 13
  | KWithdrawRequest _ => 14
  end.
Definition into_storage_key (k : MainchainStorageKeys) : bytes :=
  byte_of_Z (variant_index k) ::
  match k with
  | KDepositor h | KWithdrawRequest h => borsh_u8_32 h
  | _ => []
  end.

(** The keys of the nested collections *)
Definition depositor_key (account_id : AccountId) : MainchainStorageKeys :=
  KDepositor (sha256 (String.list_byte_of_string account_id)).
Definition withdraw_request_key (ed25519_public_key : bytes) : MainchainStorageKeys :=
  KWithdrawRequest (sha256 ed25519_public_key).

(** The collections of the contract *)
Inductive collection :=
| Fixed (k : MainchainStorageKeys)
| DepositorOf (account_id : AccountId)
| WithdrawRequestsOf (ed25519_public_key : bytes).
Definition collection_key (c : collection) : MainchainStorageKeys :=
  match c with
  | Fixed k => k
  | DepositorOf a => depositor_key a
  | WithdrawRequestsOf pk => withdraw_request_key pk
  end.
Definition wf_collection (c : collection) : Prop :=
  match c with Fixed (KDepositor _) | Fixed (KWithdrawRequest _) => False | _ => True end.

(** What is hashed for the key of a collection *)
Definition hashed_name (c : collection) : list bytes :=
  match c with
  | Fixed _ => []
  | DepositorOf a => [String.list_byte_of_string a]
  | WithdrawRequestsOf pk => [pk]
  end.

(** What is stored for a collection has its key as a prefix. *)
Definition stored_at (c : collection) (entry : bytes) : bytes := into_storage_key (collection_key c) ++ entry.

Lemma variant_index_range k : (0 <= variant_index k < 256)%Z.
Proof. destruct k; cbn; lia. Qed.

Lemma same_variant c1 c2 e1 e2 :
  stored_at c1 e1 = stored_at c2 e2 -> variant_index (collection_key c1) = variant_index (collection_key c2).
Proof.
  unfold stored_at, into_storage_key. intros [= Hb _]. apply (f_equal byte_val) in Hb. rewrite !byte_val_of_Z in Hb.
  pose proof (variant_index_range (collection_key c1)). pose proof (variant_index_range (collection_key c2)).
  rewrite !Z.mod_small in Hb by lia. done.
Qed.

Lemma nested_equal h1 h2 (e1 e2 : bytes) : length h1 = length h2 -> h1 ++ e1 = h2 ++ e2 -> h1 = h2.
Proof. intros Hl He. by apply app_inj_1 in He as [? _]. Qed.

(** C36: Two different collections of the contract never share a storage key,
    whatever their entries are called: the token, the registry, the batches, and
    the maps of every depositor and of every node's requests, which are created
    while the contract runs; the only exception are two depositors, or two nodes,
    whose own names collide under sha256. *)
Theorem collections_disjoint c1 c2 e1 e2 :
  wf_collection c1 -> wf_collection c2 -> stored_at c1 e1 = stored_at c2 e2 ->
  c1 = c2 \/ collision_among (hashed_name c1 ++ hashed_name c2).
Proof.
  intros H1 H2 He. pose proof (same_variant _ _ _ _ He) as Hv.
  destruct c1 as [k1|a1|p1], c2 as [k2|a2|p2]; cbn in H1, H2.
  - left. f_equal. destruct k1, k2; done.
  - destruct k1; done.
  - destruct k1; done.
  - destruct k2; done.
  - unfold stored_at in He. cbn in He. injection He as He. rewrite !borsh_u8_32_eq in He.
    apply nested_equal in He; [|by rewrite !sha256_length]. destruct (decide (a1 = a2)) as [->|Hne]; [by left|right].
    eexists _, _. split_and!; [left|right; left| |exact He]. intros Hs. apply Hne. rewrite <- (String.string_of_list_byte_of_string a1), Hs. apply String.string_of_list_byte_of_string.
  - done.
  - destruct k2; done.
  - done.
  - unfold stored_at in He. cbn in He. injection He as He. rewrite !borsh_u8_32_eq in He.
    apply nested_equal in He; [|by rewrite !sha256_length]. destruct (decide (p1 = p2)) as [->|Hne]; [by left|right].
    exists p1, p2. split_and!; [left|right; left|done|done].
Qed.

End keys.

Section witnesses.
Import RefSdk.

Lemma collections_disjoint_witness :
  stored_at (DepositorOf "alice") [x00] = stored_at (DepositorOf "alice") [x00] /\
  (DepositorOf "alice" = DepositorOf "alice" \/ collision_among (hashed_name (DepositorOf "alice") ++ hashed_name (DepositorOf "alice"))).
Proof. split; [reflexivity|]. by apply (collections_disjoint (DepositorOf "alice") (DepositorOf "alice") [x00] [x00]). Defined.

End witnesses.
