(* ===== verification/Committee.v ===== *)
(** * Committees and epochs

    Models [src/contracts/src/committee.rs] and [src/contracts/src/epoch.rs]:
    the pseudo-random choice of a committee among the active nodes, the slot
    leader, and the processing of an epoch (activation of pending nodes, end of
    the bootstrapping phase, selection of the committees).

    The reroll loop of [select_committee] has no bound in the source; here each
    run of it takes at most [gas env] iterations and panics beyond, as the host
    does.  The theorems say when enough gas exists and when none does. *)

From S2P Require Import Prelude NearSdk Merkle Contract.

Section committee.
Context `{NearSdk} (env : Env).

(** [near_bigint::U256]: [to_le_bytes], [from_little_endian], [as_usize] (32-bit) *)
Definition U256_to_le_bytes (x : Z) : bytes := le_bytes 32 x.
Definition U256_from_little_endian (bs : bytes) : Z := le_val bs.
Definition U256_rem (x n : Z) : outcome Z :=
  if (n =? 0)%Z then Panic "division by zero" else Ret (x mod n)%Z.
Definition as_usize (x : Z) : outcome Z :=
  if (x <? 2 ^ 32)%Z then Ret x else Panic "Integer overflow when casting to usize".

(** [(U256::from_little_endian(&Sha256::digest([random, i].concat())) % n).as_usize()] *)
Definition draw (random_number i n : Z) : outcome Z :=
  let hash := sha256 (U256_to_le_bytes random_number ++ le_bytes 8 i) in
  let prn := U256_from_little_endian hash in
  r ← U256_rem prn n;
  as_usize r.

(** [while chosen_indices.contains(&chosen_index)] *)
Fixpoint reroll (fuel : nat) (random_number i size n : Z) (chosen_indices : list Z)
    (rerolls chosen_index : Z) : outcome (Z * Z) :=
  if bool_decide (chosen_index ∈ chosen_indices) then
    match fuel with
    | O => Panic "Exceeded the prepaid gas"
    | S fuel =>
        rerolls ← add_w (overflow_checks env) 64 rerolls 1;
        a ← add_w (overflow_checks env) 64 i size;
        a ← add_w (overflow_checks env) 64 a rerolls;
        chosen_index ← draw random_number a n;
        reroll fuel random_number i size n chosen_indices rerolls chosen_index
    end
  else Ret (chosen_index, rerolls).

(** [for i in 0..committee_size], as the last [k] iterations *)
Fixpoint select_for (k : nat) (random_number i size : Z) (validators : list AccountId)
    (chosen_committee : list AccountId) (chosen_indices : list Z) (rerolls : Z)
    : outcome (list AccountId) :=
  match k with
  | O => Ret chosen_committee
  | S k =>
      let n := Z.of_nat (length validators) in
      chosen_index ← draw random_number i n;
      '(chosen_index, rerolls) ←
        reroll (gas env) random_number i size n chosen_indices rerolls chosen_index;
      let chosen_indices := chosen_indices ++ [chosen_index] in
      validator ← unwrap "couldn't fetch validator" (validators !! Z.to_nat chosen_index);
      select_for k random_number (i + 1) size validators
        (chosen_committee ++ [validator]) chosen_indices rerolls
  end.

Definition select_committee (random_number : Z) (s : MainchainContract) : outcome (list AccountId) :=
  let validators := um_keys (active_nodes s) in
  let size := committee_size (config s) in
  select_for (Z.to_nat size) random_number 0 size validators [] [] 0.

(** ** Views *)

Definition get_committee (epoch : Z) (s : MainchainContract) : option (list AccountId) :=
  lm_get (committees s) epoch.

Definition get_last_generated_random_number (s : MainchainContract) : Z :=
  last_generated_random_number s.

Definition get_current_slot_leader (s : MainchainContract) : outcome (option AccountId) :=
  match lm_get (committees s) (get_current_epoch env) with
  | None => Ret None
  | Some current_committee =>
      let hash := sha256 (U256_to_le_bytes (last_generated_random_number s)
                            ++ le_bytes 8 (get_current_slot env)) in
      let prn := U256_from_little_endian hash in
      r ← U256_rem prn (committee_size (config s));
      chosen_index ← as_usize r;
      mret (current_committee !! Z.to_nat chosen_index)
  end.

(** [get_random_in_near]: [buf.copy_from_slice(&env::random_seed())] *)
Definition get_random_in_near (random_seed buf : bytes) : outcome bytes :=
  if decide (length buf = length random_seed) then Ret random_seed
  else Panic "source slice length does not match destination slice length".

(** ** Epochs *)

(** One iteration of [for account_id in eligible_nodes] *)
Definition activate_node (account_id : AccountId) : M vm unit :=
  s ← get_self id;
  node ← lift (unwrap unwrap_none (um_get (inactive_nodes s) account_id));
  modify_self (fun s =>
    set_pending_nodes (um_remove (pending_nodes s) account_id)
      (set_inactive_nodes (um_remove (inactive_nodes s) account_id)
        (set_active_nodes (um_insert (active_nodes s) account_id node) s))).

Fixpoint activate_nodes (eligible_nodes : list AccountId) : M vm unit :=
  match eligible_nodes with
  | [] => mret tt
  | account_id :: rest => _ ← activate_node account_id; activate_nodes rest
  end.

Definition eligible_nodes (epoch : Z) (s : MainchainContract) : list AccountId :=
  map fst (filter (fun p => (p.2 <= epoch)%Z) (um_iter (pending_nodes s))).

(** [committees.insert(&(epoch + i), &self.select_committee(last_generated_random_number))] *)
Definition insert_committee (epoch i : Z) : M vm unit :=
  s ← get_self id;
  committee ← lift (select_committee (last_generated_random_number s) s);
  e ← u64_add env epoch i;
  modify_self (fun s => set_committees (lm_insert (committees s) e committee) s).

(** [for i in 0..EPOCH_COMMITTEES_LOOKAHEAD] *)
Fixpoint insert_committees (epoch i : Z) (k : nat) : M vm unit :=
  match k with
  | O => mret tt
  | S k => _ ← insert_committee epoch i; insert_committees epoch (i + 1) k
  end.

Definition process_epoch_body : M vm flow :=
  let epoch := get_current_epoch env in
  last ← get_self last_processed_epoch;
  if (epoch <=? last)%Z then mret Return
  else
    eligible ← get_self (eligible_nodes epoch);
    _ ← activate_nodes eligible;
    bootstrapping ← get_self bootstrapping_phase;
    active ← get_self (fun s => um_len (active_nodes s));
    size ← get_self (fun s => committee_size (config s));
    if bootstrapping && (active <? size)%Z then mret Return
    else
      _ ← (if bootstrapping then
             _ ← modify_self (set_bootstrapping_phase false);
             insert_committees epoch 0 (Z.to_nat EPOCH_COMMITTEES_LOOKAHEAD)
           else mret tt);
      _ ← insert_committee epoch EPOCH_COMMITTEES_LOOKAHEAD;
      _ ← modify_self (set_last_processed_epoch epoch);
      mret Next.

Definition process_epoch : M vm unit := manage_storage_deposit env process_epoch_body.

End committee.

(** ** Selection: soundness *)

Section selection.
Context `{NearSdk} (env : Env).

Lemma U256_rem_eq x n : n <> 0%Z -> U256_rem x n = Ret (x mod n)%Z.
Proof. intros Hn. unfold U256_rem. by rewrite (proj2 (Z.eqb_neq n 0) Hn). Qed.
Lemma as_usize_eq x : (x < 2 ^ 32)%Z -> as_usize x = Ret x.
Proof. intros Hx. unfold as_usize. by rewrite (proj2 (Z.ltb_lt x _) Hx). Qed.

Lemma draw_range random i n x : (0 <= n)%Z -> draw random i n = Ret x -> (0 <= x < n)%Z.
Proof.
  unfold draw. intros Hn (r & Hr & Hd)%outcome_bind_ret. unfold U256_rem in Hr. unfold as_usize in Hd.
  destruct (Z.eqb_spec n 0) as [|Hn0]; [done|]. injection Hr as <-.
  destruct (_ <? _)%Z; [|done]. injection Hd as <-. apply Z.mod_pos_bound. lia.
Qed.

Lemma reroll_ret fuel random i size n chosen rerolls idx idx' rerolls' :
  (0 <= n)%Z -> (0 <= idx < n)%Z ->
  reroll env fuel random i size n chosen rerolls idx = Ret (idx', rerolls') ->
  (0 <= idx' < n)%Z /\ idx' ∉ chosen.
Proof.
  intros Hn. revert rerolls idx. induction fuel as [|fuel IH]; intros rerolls idx Hi; cbn;
    case_bool_decide as Hc; try done; intros Hr; inv_run; try by simplify_eq.
  eapply IH; [|done]. by eapply draw_range.
Qed.

Lemma fmap_lookup_snoc {A} (l : list A) (is_ : list Z) (i : Z) x vs :
  (fun i => l !! Z.to_nat i) <$> is_ = Some <$> vs -> l !! Z.to_nat i = Some x ->
  (fun i => l !! Z.to_nat i) <$> is_ ++ [i] = Some <$> vs ++ [x].
Proof. intros E Hx. rewrite !fmap_app, E. cbn. by rewrite Hx. Qed.

(** The state of the selection loop: as many distinct indices as members, each
    member being the validator at its index. *)
Definition selection_inv (validators committee : list AccountId) (indices : list Z) : Prop :=
  NoDup indices /\ (forall i, i ∈ indices -> 0 <= i < Z.of_nat (length validators))%Z /\
  (fun i => validators !! Z.to_nat i) <$> indices = Some <$> committee.

Lemma select_for_inv k random i size validators committee indices rerolls c :
  selection_inv validators committee indices ->
  select_for env k random i size validators committee indices rerolls = Ret c ->
  length c = length committee + k /\ exists indices', selection_inv validators c indices'.
Proof.
  revert i committee indices rerolls.
  induction k as [|k IH]; intros i committee indices rerolls (Hnd & Hr & Hm) Hs; cbn in Hs.
  { injection Hs as <-. rewrite Nat.add_0_r. split; [done|]. by exists indices. }
  apply outcome_bind_ret in Hs as (idx & Hd & Hs).
  apply outcome_bind_ret in Hs as ([idx' rr] & Hrr & Hs).
  apply outcome_bind_ret in Hs as (v & Hv & Hs). apply unwrap_ret in Hv.
  apply draw_range in Hd; [|lia]. apply reroll_ret in Hrr as [Hi Hni]; [|lia|done].
  apply IH in Hs as [Hl Hex].
  - rewrite Hl, length_app. cbn. split; [lia|done].
  - split_and!; [by apply NoDup_snoc| |by apply fmap_lookup_snoc].
    intros j [Hj|Hj]%elem_of_app; [by apply Hr|].
    apply list_elem_of_singleton in Hj as ->. done.
Qed.

Lemma selection_inv_committee validators c indices :
  NoDup validators -> selection_inv validators c indices -> NoDup c /\ c ⊆ validators.
Proof.
  intros Hv (Hnd & Hr & Hm). split.
  - apply (NoDup_fmap_1 Some). rewrite <- Hm. apply NoDup_fmap_2_strong; [|done].
    intros i j Hi Hj E. apply Hr in Hi, Hj.
    destruct (lookup_lt_is_Some_2 validators (Z.to_nat i)) as [x Hx]; [lia|].
    rewrite Hx in E. symmetry in E.
    pose proof (NoDup_lookup _ _ _ _ Hv Hx E). lia.
  - intros x Hx. assert (Some x ∈ Some <$> c) as Hin by (apply list_elem_of_fmap; eauto).
    rewrite <- Hm in Hin. apply list_elem_of_fmap in Hin as (i & E & _).
    by eapply list_elem_of_lookup_2.
Qed.

Lemma select_committee_ret random s c :
  select_committee env random s = Ret c ->
  length c = Z.to_nat (committee_size (config s)) /\ NoDup c /\ c ⊆ um_keys (active_nodes s).
Proof.
  intros Hs. apply select_for_inv in Hs as [Hl (indices & Hi)].
  - split; [done|]. eapply selection_inv_committee; [|done]. apply um_keys_NoDup.
  - split_and!; [apply NoDup_nil_2| |done]. by intros i ?%not_elem_of_nil.
Qed.

Lemma select_committee_too_few random s c :
  (um_len (active_nodes s) < committee_size (config s))%Z ->
  select_committee env random s <> Ret c.
Proof.
  unfold um_len. intros Hlt (Hl & Hnd & Hs)%select_committee_ret.
  apply NoDup_length_le in Hs; [lia|done].
Qed.

(** ** Selection: enough gas *)

(** Some value of the counter among the [gas] ones from [start] on draws [idx]. *)
Definition drawn (random n start : Z) (idx : Z) : Prop :=
  exists t : nat, t < gas env /\ draw random (start + Z.of_nat t) n = Ret idx.

Lemma draw_total random i n : (0 < n < 2 ^ 32)%Z -> exists x, draw random i n = Ret x.
Proof.
  intros Hn. unfold draw. set (prn := U256_from_little_endian _).
  pose proof (Z.mod_pos_bound prn n ltac:(lia)). exists (prn mod n)%Z.
  rewrite (outcome_bind_eq _ _ _ (U256_rem_eq prn n ltac:(lia))). apply as_usize_eq. lia.
Qed.

(** The loop stops when a fresh index turns up among the next [fuel] draws. *)
Lemma reroll_total fuel random i size n chosen rerolls idx fresh (t : nat) :
  (0 < n < 2 ^ 32)%Z -> (0 <= rerolls)%Z -> (0 <= i)%Z -> (0 <= size)%Z ->
  (i + size + rerolls + Z.of_nat fuel < 2 ^ 64)%Z ->
  t < fuel -> draw random (i + size + rerolls + 1 + Z.of_nat t) n = Ret fresh -> fresh ∉ chosen ->
  exists idx' rerolls', reroll env fuel random i size n chosen rerolls idx = Ret (idx', rerolls') /\
    (rerolls <= rerolls' <= rerolls + Z.of_nat fuel)%Z.
Proof.
  intros Hn. revert rerolls idx t.
  induction fuel as [|fuel IH]; intros rerolls idx t Hr Hi Hsz Hov Ht Hd Hf; [lia|]. cbn.
  case_bool_decide as Hc; [|eexists _, _; split; [done|lia]].
  unfold add_w. rewrite !arith_in by lia. cbn. rewrite arith_in by lia. cbn.
  rewrite (Z.add_assoc (i + size)).
  destruct t as [|t].
  { rewrite Z.add_0_r in Hd. rewrite Hd. cbn.
    exists fresh, (rerolls + 1)%Z. split; [|lia]. destruct fuel; cbn; by rewrite bool_decide_false. }
  destruct (draw_total random (i + size + rerolls + 1) n Hn) as [x ->]. cbn.
  destruct (IH (rerolls + 1)%Z x t) as (idx' & rr & E & ?); [lia..| |done|].
  { rewrite <- Hd. f_equal. lia. }
  exists idx', rr. split; [done|lia].
Qed.

(** Every index turns up within [gas] draws, from any counter value the loop
    can start at. *)
Definition fair (random n size : Z) : Prop :=
  forall start idx, (size <= start <= size * (Z.of_nat (gas env) + 2))%Z -> (0 <= idx < n)%Z ->
    drawn random n start idx.

Lemma select_for_total k random i size validators committee indices rerolls :
  let n := Z.of_nat (length validators) in let g := Z.of_nat (gas env) in
  fair random n size -> (n < 2 ^ 32)%Z -> (size <= n)%Z -> (size * (g + 2) + g < 2 ^ 64)%Z ->
  (0 <= i)%Z -> (i + Z.of_nat k = size)%Z -> Z.of_nat (length indices) = i ->
  (0 <= rerolls <= i * g)%Z ->
  exists c, select_for env k random i size validators committee indices rerolls = Ret c.
Proof.
  intros n g Hfair Hn Hsz Hov. revert i committee indices rerolls.
  induction k as [|k IH]; intros i committee indices rerolls Hi Hk Hl Hr; cbn; [eauto|].
  fold n. destruct (draw_total random i n) as [idx Hidx]; [lia|]. rewrite Hidx. cbn.
  destruct (below_missing indices (length validators)) as (fresh & Hf & Hni); [lia|].
  destruct (Hfair (i + size + rerolls + 1)%Z fresh) as (t & Ht & Hd); [nia|done|].
  destruct (reroll_total (gas env) random i size n indices rerolls idx fresh t)
    as (idx' & rr & Hrr & Hb); [lia|lia|lia|lia|nia|done|done|done|].
  rewrite Hrr. cbn. apply reroll_ret in Hrr as [Hlt _]; [|lia|by eapply draw_range; [|done]; lia].
  destruct (lookup_lt_is_Some_2 validators (Z.to_nat idx')) as [v ->]; [lia|]. cbn.
  apply IH; [lia|lia| |nia]. rewrite length_app. cbn. lia.
Qed.

Lemma select_committee_total random s :
  let n := um_len (active_nodes s) in let size := committee_size (config s) in
  let g := Z.of_nat (gas env) in
  fair random n size -> (n < 2 ^ 32)%Z -> (0 <= size <= n)%Z -> (size * (g + 2) + g < 2 ^ 64)%Z ->
  exists c, select_committee env random s = Ret c.
Proof.
  intros n size g Hf Hn Hs Hov. unfold select_committee.
  apply select_for_total; [exact Hf|exact Hn|apply Hs|exact Hov|lia|lia|done|lia].
Qed.

End selection.

#[export] Hint Resolve um_keys_NoDup : seda.

(** ** Epochs *)

Section epochs.
Context `{NearSdk} (env : Env).

Lemma elem_of_um_iter {K V} `{EqDecision K} (m : UnorderedMap K V) k v :
  (k, v) ∈ um_iter m <-> um_get m k = Some v.
Proof.
  unfold um_iter. rewrite list_elem_of_omap. split.
  - intros (j & _ & E). destruct (um_get m j) eqn:G; cbn in E; by simplify_eq.
  - intros G. exists k. rewrite um_keys_elem, G. split; [by eexists|done].
Qed.

Lemma um_iter_fst {K V} `{EqDecision K} (m : UnorderedMap K V) : map fst (um_iter m) = um_keys m.
Proof.
  unfold um_iter. assert (forall k, k ∈ um_keys m -> is_Some (um_get m k)) as Hk by apply um_keys_elem.
  induction (um_keys m) as [|k l IH]; cbn; [done|].
  destruct (Hk k) as [v ->]; [set_solver|]. cbn. f_equal. apply IH. set_solver.
Qed.

Lemma elem_of_eligible epoch s a :
  a ∈ eligible_nodes epoch s <-> exists e, um_get (pending_nodes s) a = Some e /\ (e <= epoch)%Z.
Proof.
  unfold eligible_nodes. rewrite list_elem_of_fmap. split.
  - intros ([a' e] & -> & [? Hin]%list_elem_of_filter). exists e. by apply elem_of_um_iter in Hin.
  - intros (e & Hg & He). exists (a, e). split; [done|]. apply list_elem_of_filter.
    split; [done|]. by apply elem_of_um_iter.
Qed.

Lemma NoDup_eligible epoch s : NoDup (eligible_nodes epoch s).
Proof.
  unfold eligible_nodes. apply (sublist_NoDup _ (map fst (um_iter (pending_nodes s)))).
  - rewrite um_iter_fst. apply um_keys_NoDup.
  - apply fmap_sublist, sublist_filter.
Qed.

(** The effect of activating [l] on the registry *)
Definition activated (l : list AccountId) (s s' : MainchainContract) : Prop :=
  (forall a, um_get (active_nodes s') a =
     if decide (a ∈ l) then um_get (inactive_nodes s) a else um_get (active_nodes s) a) /\
  (forall a, um_get (inactive_nodes s') a =
     if decide (a ∈ l) then None else um_get (inactive_nodes s) a) /\
  (forall a, um_get (pending_nodes s') a =
     if decide (a ∈ l) then None else um_get (pending_nodes s) a) /\
  s' = set_pending_nodes (pending_nodes s')
         (set_inactive_nodes (inactive_nodes s') (set_active_nodes (active_nodes s') s)).

Lemma activate_nodes_ret l v u v' :
  NoDup l -> activate_nodes l v = Ret (u, v') ->
  (forall a, a ∈ l -> is_Some (um_get (inactive_nodes (self v)) a)) /\
  activated l (self v) (self v') /\ receipts v' = receipts v.
Proof.
  intros Hnd. revert v. induction Hnd as [|a l Ha Hnd IH]; intros v Hr; cbn in Hr.
  { inv_run. split_and!; [set_solver| |done]. by destruct v as [[] ?]. }
  apply M_bind_ret in Hr as (? & v1 & H1 & Hr). unfold activate_node, get_self, modify_self in H1.
  inv_run. destruct v as [s rs]; cbn in *. apply IH in Hr as (Hin & (Hact & Hina & Hpen & Hs) & Hrec).
  cbn in *. split_and!; [| |done].
  - intros b [->|Hb]%elem_of_cons; [eauto|]. specialize (Hin b Hb).
    rewrite um_get_remove in Hin. case_decide; [by destruct Hin|done].
  - split_and!; [| | |by rewrite Hs].
    + intros b. rewrite Hact, um_get_insert, um_get_remove.
      repeat case_decide; subst; set_solver.
    + intros b. rewrite Hina, um_get_remove. repeat case_decide; subst; set_solver.
    + intros b. rewrite Hpen, um_get_remove. repeat case_decide; subst; set_solver.
Qed.

(** The committee a state would select *)
Abbreviation selects s c := (select_committee env (last_generated_random_number s) s = Ret c).

Lemma insert_committee_ret e i v u v' :
  insert_committee env e i v = Ret (u, v') ->
  exists c, selects (self v) c /\
    v' = mkVm (set_committees (lm_insert (committees (self v)) (wrap 64 (e + i)) c) (self v)) (receipts v).
Proof.
  unfold insert_committee. intros Hr. inv_run.
  repeat match goal with
  | H : get_self _ _ = _ |- _ => apply get_self_ret in H as [-> ->]
  | H : u64_add _ _ _ _ = _ |- _ => apply u64_add_ret in H as [-> ->]
  | H : modify_self _ _ = _ |- _ => apply modify_self_ret in H as ->
  end. eauto.
Qed.

(** The committees after epoch [e] is processed with the committee [c] *)
Definition next_committees (bootstrapping : bool) (e : Z) (c : list AccountId)
    (cs : LookupMap EpochHeight (list AccountId)) : LookupMap EpochHeight (list AccountId) :=
  lm_insert (if bootstrapping
             then lm_insert (lm_insert cs (wrap 64 (e + 0)) c) (wrap 64 (e + 1)) c
             else cs)
    (wrap 64 (e + EPOCH_COMMITTEES_LOOKAHEAD)) c.

(** The two ways an epoch that is due is processed: it waits for more nodes, or
    the committees are set and the epoch is recorded. *)
Definition epoch_processed (e : Z) (s1 s' : MainchainContract) : Prop :=
  (bootstrapping_phase s1 = true /\ (um_len (active_nodes s1) < committee_size (config s1))%Z /\ s' = s1) \/
  (~ (bootstrapping_phase s1 = true /\ (um_len (active_nodes s1) < committee_size (config s1))%Z) /\
   exists c, selects s1 c /\
     s' = set_last_processed_epoch e
            (set_committees (next_committees (bootstrapping_phase s1) e c (committees s1))
              (set_bootstrapping_phase false s1))).

Lemma set_bootstrapping_false s :
  bootstrapping_phase s = false -> set_bootstrapping_phase false s = s.
Proof. destruct s; cbn. by intros ->. Qed.

Lemma process_epoch_body_ret v f v' :
  process_epoch_body env v = Ret (f, v') ->
  let e := get_current_epoch env in
  receipts v' = receipts v /\
  (((e <= last_processed_epoch (self v))%Z /\ self v' = self v /\ f = Return) \/
   ((last_processed_epoch (self v) < e)%Z /\ exists s1,
      activated (eligible_nodes e (self v)) (self v) s1 /\
      (forall a, a ∈ eligible_nodes e (self v) -> is_Some (um_get (inactive_nodes (self v)) a)) /\
      epoch_processed e s1 (self v'))).
Proof.
  intros Hr e. unfold process_epoch_body in Hr. fold e in Hr.
  apply M_bind_ret in Hr as (last & v0 & [-> ->]%get_self_ret & Hr).
  destruct (Z.leb_spec e (last_processed_epoch (self v))).
  { inv_run. auto. }
  apply M_bind_ret in Hr as (el & v0 & [-> ->]%get_self_ret & Hr).
  apply M_bind_ret in Hr as (? & v1 & Ha & Hr).
  apply activate_nodes_ret in Ha as (Hin & Hact & Hrec); [|apply NoDup_eligible].
  do 3 (apply M_bind_ret in Hr as (? & v0 & [-> ->]%get_self_ret & Hr)).
  rewrite <- Hrec. destruct (bootstrapping_phase (self v1)) eqn:Hb; cbn [andb] in Hr.
  - destruct (Z.ltb_spec (um_len (active_nodes (self v1))) (committee_size (config (self v1)))).
    { inv_run. split; [done|]. right. split; [done|]. exists (self v1). split_and!; [done..|]. by left. }
    apply M_bind_ret in Hr as (? & v2 & Hi & Hr).
    apply M_bind_ret in Hi as (? & v3 & ->%modify_self_ret & Hi). cbn in Hi.
    apply M_bind_ret in Hi as (? & v3 & (c1 & Hc1 & ->)%insert_committee_ret & Hi).
    apply M_bind_ret in Hi as (? & v3 & (c2 & Hc2 & ->)%insert_committee_ret & Hi). inv_run.
    match goal with H : insert_committee _ _ _ _ = _ |- _ => apply insert_committee_ret in H as (c & Hc & ->) end.
    match goal with H : modify_self _ _ = _ |- _ => apply modify_self_ret in H as -> end.
    change (selects (self v1) c1) in Hc1. change (selects (self v1) c2) in Hc2.
    change (selects (self v1) c) in Hc.
    assert (c1 = c) as -> by congruence. assert (c2 = c) as -> by congruence. cbn. split; [done|]. right. split; [done|].
    exists (self v1). split_and!; [done..|]. right. split; [lia|]. exists c. split; [done|]. by rewrite Hb.
  - apply M_bind_ret in Hr as (? & v2 & Hi & Hr). inv_run.
    match goal with H : insert_committee _ _ _ _ = _ |- _ => apply insert_committee_ret in H as (c & Hc & ->) end.
    match goal with H : modify_self _ _ = _ |- _ => apply modify_self_ret in H as -> end.
    cbn. split; [done|]. right. split; [done|]. exists (self v1). split_and!; [done..|].
    right. split; [intros [? _]; congruence|]. exists c. split; [done|]. by rewrite Hb, set_bootstrapping_false.
Qed.

(** What a call of [process_epoch] that returns does to the state *)
Definition epoch_step (s s' : MainchainContract) : Prop :=
  let e := get_current_epoch env in
  ((e <= last_processed_epoch s)%Z /\ s' = s) \/
  ((last_processed_epoch s < e)%Z /\ exists s1,
     activated (eligible_nodes e s) s s1 /\
     (forall a, a ∈ eligible_nodes e s -> is_Some (um_get (inactive_nodes s) a)) /\
     epoch_processed e s1 s').

Lemma process_epoch_ret v u v' :
  process_epoch env v = Ret (u, v') -> epoch_step (self v) (self v').
Proof.
  intros (f & v1 & Hb & -> & _)%manage_ret. apply process_epoch_body_ret in Hb as [_ Hb].
  destruct Hb as [(? & ? & _)|Hb]; [by left|by right].
Qed.

(** Processing an epoch only touches the registry, the committees and the
    epoch bookkeeping. *)
Lemma epoch_step_frame s s' :
  epoch_step s s' ->
  exists act ina pen com boot last, s' =
    set_last_processed_epoch last (set_bootstrapping_phase boot (set_committees com
      (set_pending_nodes pen (set_inactive_nodes ina (set_active_nodes act s))))).
Proof.
  intros Hs. exists (active_nodes s'), (inactive_nodes s'), (pending_nodes s'), (committees s'),
    (bootstrapping_phase s'), (last_processed_epoch s').
  destruct Hs as [[_ ->]|(_ & s1 & (_ & _ & _ & E) & _ & Hp)]; [by destruct s|].
  destruct Hp as [(_ & _ & ->)|(_ & c & _ & ->)]; rewrite E; by destruct s.
Qed.

End epochs.
