(* ===== verification/NodeRegistry.v ===== *)
(** * The node registry: registration, stakes, withdrawals

    Models [src/contracts/src/node_registry.rs] and [verify.rs]: the private
    helpers, the payable methods and the views, one definition each.  The
    functional theorems about them are in this file; what they preserve over
    whole histories of calls is in [ContractInvariants]. *)

From S2P Require Import Prelude NearSdk Merkle Contract Committee.

Definition node_with_balance (n : Node) (b : Balance) : Node :=
  mkNode (multi_addr n) b (bn254_public_key n) (ed25519_public_key n).
Definition node_with_multi_addr (n : Node) (a : string) : Node :=
  mkNode a (balance n) (bn254_public_key n) (ed25519_public_key n).
Definition node_info (account_id : AccountId) (n : Node) : NodeInfo :=
  mkNodeInfo account_id (multi_addr n) (balance n) (bn254_public_key n) (ed25519_public_key n).

Section registry.
Context `{NearSdk} `{Bn254} (env : Env).

(** [verify.rs] *)
Definition bn254_verify (message signature public_key : bytes) : outcome bool :=
  vals ← unwrap "called `Result::unwrap()` on an `Err` value"
           (format_pairing_check_uncompressed_values message signature public_key);
  mret (alt_bn128_pairing_check vals =? 1)%Z.

(** ** Private methods *)

Definition internal_get_node (s : MainchainContract) (account_id : AccountId) : option Node :=
  match um_get (active_nodes s) account_id with
  | Some node => Some node
  | None =>
      match um_get (inactive_nodes s) account_id with
      | Some node => Some node
      | None => None
      end
  end.

Definition get_expect_node (s : MainchainContract) (account_id : AccountId) : outcome Node :=
  unwrap "Node does not exist" (internal_get_node s account_id).

Definition get_expect_node_by_ed25519_public_key (s : MainchainContract) (pk : bytes) : outcome Node :=
  account_id ← unwrap "Node does not exist" (lm_get (nodes_by_ed25519_public_key s) pk);
  unwrap "Node does not exist" (internal_get_node s account_id).

Definition handle_node_balance_update (account_id : AccountId) (node : Node) : M vm unit :=
  c ← get_self config;
  active ← get_self active_nodes;
  if (minimum_stake c <=? balance node)%Z then
    match um_get active account_id with
    | Some _ => modify_self (fun s => set_active_nodes (um_insert (active_nodes s) account_id node) s)
    | None =>
        epoch_when_eligible ← u64_add env (get_current_epoch env) (epoch_delay_for_election c);
        _ ← modify_self (fun s => set_inactive_nodes (um_insert (inactive_nodes s) account_id node) s);
        modify_self (fun s =>
          set_pending_nodes (um_insert (pending_nodes s) account_id epoch_when_eligible) s)
    end
  else
    match um_get active account_id with
    | Some _ =>
        _ ← modify_self (fun s => set_active_nodes (um_remove (active_nodes s) account_id) s);
        modify_self (fun s => set_inactive_nodes (um_insert (inactive_nodes s) account_id node) s)
    | None => modify_self (fun s => set_inactive_nodes (um_insert (inactive_nodes s) account_id node) s)
    end.

Definition internal_deposit_body (amount : Balance) (pk : bytes) : M vm unit :=
  let depositor_account_id := signer_account_id env in
  _ ← burn env depositor_account_id amount;
  s ← get_self id;
  node ← lift (get_expect_node_by_ed25519_public_key s pk);
  new_balance ← u128_add env (balance node) amount;
  let node := node_with_balance node new_balance in
  node_account_id ← lift (unwrap unwrap_none (lm_get (nodes_by_ed25519_public_key s) pk));
  _ ← handle_node_balance_update node_account_id node;
  depositors_map ← get_self depositors;
  let depositor := default um_new (lm_get depositors_map depositor_account_id) in
  let depositor := um_insert depositor pk amount in
  _ ← modify_self (fun s => set_depositors (lm_insert (depositors s) depositor_account_id depositor) s);
  total ← get_self last_total_balance;
  total ← u128_add env total amount;
  modify_self (set_last_total_balance total).

Definition internal_deposit (amount : Balance) (pk : bytes) : M vm unit :=
  manage_storage_deposit_require env (internal_deposit_body amount pk).

Definition internal_withdraw_body (amount : Balance) (pk : bytes) : M vm flow :=
  _ ← assert_ (0 <? amount)%Z "Withdrawal amount should be positive";
  s ← get_self id;
  node ← lift (get_expect_node_by_ed25519_public_key s pk);
  _ ← assert_ (amount <=? balance node)%Z "Not enough balance to withdraw";
  let depositor_account_id := signer_account_id env in
  depositor ← lift (unwrap "No deposit info found for this account"
                      (lm_get (depositors s) depositor_account_id));
  deposited ← lift (unwrap "No deposit info found for this node" (um_get depositor pk));
  _ ← assert_ (amount <=? deposited)%Z "Not enough balance to withdraw";
  let node_withdraw_requests := default lm_new (lm_get (withdraw_requests s) pk) in
  withdraw_request ← lift (unwrap "No pending withdrawal request found for this account"
                             (lm_get node_withdraw_requests depositor_account_id));
  _ ← assert_ (request_epoch withdraw_request <=? get_current_epoch env)%Z
        "epochs remain until withdrawal is allowed";
  _ ← mint env depositor_account_id amount;
  new_balance ← u128_sub env (balance node) amount;
  let node := node_with_balance node new_balance in
  node_account_id ← lift (unwrap unwrap_none (lm_get (nodes_by_ed25519_public_key s) pk));
  _ ← handle_node_balance_update node_account_id node;
  left_over ← u128_sub env deposited amount;
  let depositor := um_insert depositor pk left_over in
  _ ← modify_self (fun s => set_depositors (lm_insert (depositors s) depositor_account_id depositor) s);
  total ← get_self last_total_balance;
  total ← u128_sub env total amount;
  _ ← modify_self (set_last_total_balance total);
  let node_withdraw_requests := lm_remove node_withdraw_requests depositor_account_id in
  _ ← modify_self (fun s => set_withdraw_requests (lm_insert (withdraw_requests s) pk node_withdraw_requests) s);
  mret Next.

Definition internal_withdraw (amount : Balance) (pk : bytes) : M vm unit :=
  manage_storage_deposit env (internal_withdraw_body amount pk).

(** [limit.try_into().unwrap()], from u64 to the 32-bit usize *)
Definition usize_try_from (x : Z) : outcome Z :=
  if in_width 32 x then Ret x else Panic "called `Result::unwrap()` on an `Err` value".

(** [while index > 0 && nodes.len() < limit] *)
Fixpoint internal_get_nodes_while (index : nat) (nodes_map : UnorderedMap AccountId Node) (limit : Z)
    (nodes : list NodeInfo) : outcome (list NodeInfo) :=
  match index with
  | O => Ret nodes
  | S index' =>
      l ← usize_try_from limit;
      if (Z.of_nat (length nodes) <? l)%Z then
        nth ← sub_w (overflow_checks env) 32 (cast_u 32 (Z.of_nat index)) 1;
        nodes ← match um_keys nodes_map !! Z.to_nat nth with
                | Some node_id =>
                    node ← unwrap unwrap_none (um_get nodes_map node_id);
                    mret (nodes ++ [node_info node_id node])
                | None => mret nodes
                end;
        internal_get_nodes_while index' nodes_map limit nodes
      else Ret nodes
  end.

Definition internal_get_nodes (nodes_map : UnorderedMap AccountId Node) (limit offset : Z)
    : outcome (list NodeInfo) :=
  index ← sub_w (overflow_checks env) 64 (um_len nodes_map) offset;
  internal_get_nodes_while (Z.to_nat index) nodes_map limit [].

(** ** Public methods *)

Definition register_node_body (account_id : AccountId) (node : Node) : M vm unit :=
  _ ← modify_self (fun s => set_inactive_nodes (um_insert (inactive_nodes s) account_id node) s);
  _ ← modify_self (fun s => set_nodes_by_bn254_public_key
        (lm_insert (nodes_by_bn254_public_key s) (bn254_public_key node) account_id) s);
  modify_self (fun s => set_nodes_by_ed25519_public_key
        (lm_insert (nodes_by_ed25519_public_key s) (ed25519_public_key node) account_id) s).

Definition register_node (addr : string) (bn254_pk signature : bytes) : M vm unit :=
  let account_id := signer_account_id env in
  let ed25519_pk := signer_account_pk env in
  s ← get_self id;
  _ ← assert_ (negb (lm_contains_key (nodes_by_bn254_public_key s) bn254_pk))
        "bn254_public_key already exists";
  _ ← assert_ (negb (lm_contains_key (nodes_by_ed25519_public_key s) ed25519_pk))
        "ed25519_public_key already exists";
  ok ← lift (bn254_verify (String.list_byte_of_string account_id) signature bn254_pk);
  _ ← assert_ ok "Invalid signature";
  let node := mkNode addr 0 bn254_pk ed25519_pk in
  manage_storage_deposit_require env (register_node_body account_id node).

Definition unregister_node (pk : bytes) : M vm unit :=
  manage_storage_deposit_refund env (
    _ ← assert_ (bool_decide (signer_account_pk env = pk)) "Invalid ed25519_public_key";
    s ← get_self id;
    node ← lift (get_expect_node_by_ed25519_public_key s pk);
    _ ← assert_ (balance node =? 0)%Z "Node balance is not zero";
    account_id ← lift (unwrap unwrap_none (lm_get (nodes_by_ed25519_public_key s) pk));
    modify_self (fun s => set_inactive_nodes (um_remove (inactive_nodes s) account_id) s)).

Definition update_node (command : UpdateNode) : M vm unit :=
  let account_id := signer_account_id env in
  s ← get_self id;
  node ← lift (get_expect_node s account_id);
  let node := match command with
              | SetSocketAddress new_multi_addr => node_with_multi_addr node new_multi_addr
              end in
  manage_storage_deposit env (
    active ← get_self active_nodes;
    _ ← match um_get active account_id with
        | Some _ => modify_self (fun s => set_active_nodes (um_insert (active_nodes s) account_id node) s)
        | None => modify_self (fun s => set_inactive_nodes (um_insert (inactive_nodes s) account_id node) s)
        end;
    mret Next).

Definition deposit (amount : Balance) (pk : bytes) : M vm unit := internal_deposit amount pk.

Definition request_withdraw_body (amount : Balance) (pk : bytes) : M vm unit :=
  _ ← assert_ (0 <? amount)%Z "Withdrawal amount should be positive";
  s ← get_self id;
  node ← lift (get_expect_node_by_ed25519_public_key s pk);
  _ ← assert_ (amount <=? balance node)%Z "Not enough balance to withdraw";
  let depositor_account_id := signer_account_id env in
  depositor ← lift (unwrap "No deposit info found for this account"
                      (lm_get (depositors s) depositor_account_id));
  deposited ← lift (unwrap "No deposit info found for this node" (um_get depositor pk));
  _ ← assert_ (amount <=? deposited)%Z "Not enough balance to withdraw";
  let node_withdraw_requests := default lm_new (lm_get (withdraw_requests s) pk) in
  _ ← assert_ (bool_decide (lm_get node_withdraw_requests depositor_account_id = None))
        "There is already a pending withdrawal for this account";
  epoch ← u64_add env (get_current_epoch env) (withdraw_delay (config s));
  let pending_withdraw := mkWithdrawRequest amount epoch in
  _ ← lift (unwrap unwrap_none (lm_get (nodes_by_ed25519_public_key s) pk));
  let node_withdraw_requests := lm_insert node_withdraw_requests depositor_account_id pending_withdraw in
  modify_self (fun s => set_withdraw_requests (lm_insert (withdraw_requests s) pk node_withdraw_requests) s).

Definition request_withdraw (amount : Balance) (pk : bytes) : M vm RequestWithdrawResult :=
  _ ← manage_storage_deposit_require env (request_withdraw_body amount pk);
  c ← get_self config;
  w ← u64_add env (withdraw_delay c) (get_current_epoch env);
  mret (mkRequestWithdrawResult (get_current_epoch env) w).

Definition cancel_withdraw_request_body (pk : bytes) : M vm flow :=
  let depositor_account_id := signer_account_id env in
  s ← get_self id;
  let node_withdraw_requests := default lm_new (lm_get (withdraw_requests s) pk) in
  let node_withdraw_requests := lm_remove node_withdraw_requests depositor_account_id in
  _ ← modify_self (fun s => set_withdraw_requests (lm_insert (withdraw_requests s) pk node_withdraw_requests) s);
  _ ← lift (unwrap unwrap_none (lm_get (nodes_by_ed25519_public_key s) pk));
  mret Next.

Definition cancel_withdraw_request (pk : bytes) : M vm unit :=
  manage_storage_deposit env (cancel_withdraw_request_body pk).

Definition withdraw (amount : Balance) (pk : bytes) : M vm unit := internal_withdraw amount pk.

(** ** Views *)

Definition is_node_active (s : MainchainContract) (account_id : AccountId) : bool :=
  bool_decide (is_Some (um_get (active_nodes s) account_id)).

Definition get_node_balance (s : MainchainContract) (account_id : AccountId) : outcome Balance :=
  n ← unwrap unwrap_none (internal_get_node s account_id); mret (balance n).

Definition get_node (s : MainchainContract) (account_id : AccountId) : option NodeInfo :=
  match internal_get_node s account_id with
  | Some node => Some (node_info account_id node)
  | None => None
  end.

Definition get_inactive_nodes (s : MainchainContract) (limit offset : Z) : outcome (list NodeInfo) :=
  internal_get_nodes (inactive_nodes s) limit offset.

Definition get_active_nodes (s : MainchainContract) (limit offset : Z) : outcome (list NodeInfo) :=
  internal_get_nodes (active_nodes s) limit offset.

Definition get_deposits (s : MainchainContract) (account_id : AccountId) : outcome (list DepositInfo) :=
  depositor ← unwrap unwrap_none (lm_get (depositors s) account_id);
  mret ((fun d => mkDepositInfo d.1 d.2) <$> um_iter depositor).

Definition get_node_by_ed25519_public_key (s : MainchainContract) (pk : bytes) : outcome NodeInfo :=
  account_id ← unwrap unwrap_none (lm_get (nodes_by_ed25519_public_key s) pk);
  node ← unwrap unwrap_none (internal_get_node s account_id);
  mret (node_info account_id node).

Definition get_node_by_bn254_public_key (s : MainchainContract) (pk : bytes) : outcome NodeInfo :=
  account_id ← unwrap unwrap_none (lm_get (nodes_by_bn254_public_key s) pk);
  node ← unwrap unwrap_none (internal_get_node s account_id);
  mret (node_info account_id node).

End registry.

(** ** Effects of the methods *)

Section effects.
Context `{NearSdk} `{Bn254} (env : Env).

(** Where [handle_node_balance_update] puts a node *)
Definition registry_update (a : AccountId) (n : Node) (s : MainchainContract) : MainchainContract :=
  if (minimum_stake (config s) <=? balance n)%Z then
    match um_get (active_nodes s) a with
    | Some _ => set_active_nodes (um_insert (active_nodes s) a n) s
    | None =>
        set_pending_nodes
          (um_insert (pending_nodes s) a
             (wrap 64 (get_current_epoch env + epoch_delay_for_election (config s))))
          (set_inactive_nodes (um_insert (inactive_nodes s) a n) s)
    end
  else
    match um_get (active_nodes s) a with
    | Some _ =>
        set_inactive_nodes (um_insert (inactive_nodes s) a n)
          (set_active_nodes (um_remove (active_nodes s) a) s)
    | None => set_inactive_nodes (um_insert (inactive_nodes s) a n) s
    end.

Lemma handle_ret a n v u v' :
  handle_node_balance_update env a n v = Ret (u, v') ->
  v' = mkVm (registry_update a n (self v)) (receipts v).
Proof.
  unfold handle_node_balance_update, registry_update. intros Hr.
  apply M_bind_ret in Hr as (? & ? & [-> ->]%get_self_ret & Hr).
  apply M_bind_ret in Hr as (? & ? & [-> ->]%get_self_ret & Hr).
  destruct (_ <=? _)%Z, (um_get _ a) as [n'|]; inv_method; done.
Qed.

Lemma expect_node_by_key_ret s pk n :
  get_expect_node_by_ed25519_public_key s pk = Ret n ->
  exists a, lm_get (nodes_by_ed25519_public_key s) pk = Some a /\ internal_get_node s a = Some n.
Proof. unfold get_expect_node_by_ed25519_public_key. intros Hr. inv_run. eauto. Qed.

Definition accounts_insert (a : AccountId) (b : Balance) (t : FungibleToken) : FungibleToken :=
  ft_with_accounts t (lm_insert (ft_accounts t) a b).

(** The state after a deposit into the node [n] of account [a] *)
Definition deposited_state (amount : Balance) (pk : bytes) (a : AccountId) (n : Node)
    (user node total : Balance) (s : MainchainContract) : MainchainContract :=
  let me := signer_account_id env in
  let s := registry_update a (node_with_balance n node) (set_token (accounts_insert me user (token s)) s) in
  set_last_total_balance total
    (set_depositors
       (lm_insert (depositors s) me (um_insert (default um_new (lm_get (depositors s) me)) pk amount)) s).

Lemma registry_update_frame a n s :
  exists act ina pen, registry_update a n s =
    set_pending_nodes pen (set_inactive_nodes ina (set_active_nodes act s)).
Proof.
  set (s' := registry_update a n s).
  exists (active_nodes s'), (inactive_nodes s'), (pending_nodes s').
  subst s'. unfold registry_update. destruct s; cbn.
  by destruct (_ <=? _)%Z, (um_get _ a).
Qed.

Lemma deposit_ret amount pk v u v' :
  deposit env amount pk v = Ret (u, v') ->
  let s := self v in let ov := overflow_checks env in let me := signer_account_id env in
  exists a n b user node total,
    lm_get (nodes_by_ed25519_public_key s) pk = Some a /\ internal_get_node s a = Some n /\
    lm_get (ft_accounts (token s)) me = Some b /\ sub_w ov 128 b amount = Ret user /\
    add_w ov 128 (balance n) amount = Ret node /\
    add_w ov 128 (last_total_balance s) amount = Ret total /\
    v' = mkVm (deposited_state amount pk a n user node total s) (receipts v) /\
    storage_settled env (storage_usage env s) (storage_usage env (self v')).
Proof.
  intros (? & Hb & Hs)%manage_require_ret. unfold internal_deposit_body in Hb.
  apply M_bind_ret in Hb as (? & v1 & (b & user & Hb1 & Hb2 & ->)%burn_ret & Hb).
  inv_method.
  repeat match goal with
  | H : get_expect_node_by_ed25519_public_key _ _ = _ |- _ => apply expect_node_by_key_ret in H as (a & Ha & Hn)
  | H : handle_node_balance_update _ _ _ _ = _ |- _ => apply handle_ret in H; subst
  end. cbn in *. simplify_eq.
  match goal with H : add_w _ _ (last_total_balance (registry_update ?a ?n ?s)) _ = _ |- _ =>
    destruct (registry_update_frame a n s) as (act & ina & pen & E);
    assert (last_total_balance (registry_update a n s) = last_total_balance (self v)) as Ht by by rewrite E
  end.
  rewrite Ht in *. eexists _, _, _, _, _, _. split_and!; done.
Qed.

(** The withdrawal requests of the node with key [pk] *)
Definition requests_of (s : MainchainContract) (pk : bytes) : LookupMap AccountId WithdrawRequest :=
  default lm_new (lm_get (withdraw_requests s) pk).

Definition set_requests_of (pk : bytes) (m : LookupMap AccountId WithdrawRequest) (s : MainchainContract) :=
  set_withdraw_requests (lm_insert (withdraw_requests s) pk m) s.

(** The state after a withdrawal from the node [n] of account [a] *)
Definition withdrawn_state (pk : bytes) (a : AccountId) (n : Node) (d : UnorderedMap bytes Balance)
    (user node rest total : Balance) (s : MainchainContract) : MainchainContract :=
  let me := signer_account_id env in
  let s1 := registry_update a (node_with_balance n node) (set_token (accounts_insert me user (token s)) s) in
  set_requests_of pk (lm_remove (requests_of s pk) me)
    (set_last_total_balance total
      (set_depositors (lm_insert (depositors s1) me (um_insert d pk rest)) s1)).

Lemma withdraw_ret amount pk v u v' :
  withdraw env amount pk v = Ret (u, v') ->
  let s := self v in let ov := overflow_checks env in let me := signer_account_id env in
  exists a n b d dep req user node rest total,
    (0 < amount)%Z /\ (amount <= balance n)%Z /\ (amount <= dep)%Z /\
    lm_get (nodes_by_ed25519_public_key s) pk = Some a /\ internal_get_node s a = Some n /\
    lm_get (depositors s) me = Some d /\ um_get d pk = Some dep /\
    lm_get (requests_of s pk) me = Some req /\ (request_epoch req <= get_current_epoch env)%Z /\
    lm_get (ft_accounts (token s)) me = Some b /\ add_w ov 128 b amount = Ret user /\
    sub_w ov 128 (balance n) amount = Ret node /\ sub_w ov 128 dep amount = Ret rest /\
    sub_w ov 128 (last_total_balance s) amount = Ret total /\
    self v' = withdrawn_state pk a n d user node rest total s.
Proof.
  intros (f & v1 & Hb & Hv & _)%manage_ret. rewrite Hv. clear Hv v'.
  unfold internal_withdraw_body in Hb. inv_method.
  repeat match goal with
  | H : get_expect_node_by_ed25519_public_key _ _ = _ |- _ => apply expect_node_by_key_ret in H as (a & Ha & Hn)
  | H : handle_node_balance_update _ _ _ _ = _ |- _ => apply handle_ret in H; subst
  | H : mint _ _ _ _ = _ |- _ => apply mint_ret in H as (b & user & Hb1 & Hb2 & ->)
  end. cbn in *. simplify_eq.
  match goal with H : sub_w _ _ (last_total_balance (registry_update ?a ?n ?s)) _ = _ |- _ =>
    destruct (registry_update_frame a n s) as (act & ina & pen & E);
    assert (last_total_balance (registry_update a n s) = last_total_balance (self v)) as Ht by by rewrite E
  end.
  rewrite Ht in *. bool_to_prop. eexists _, _, _, _, _, _, _, _, _, _. split_and!; done.
Qed.

(** The state after a registration *)
Definition registered_state (a : AccountId) (n : Node) (s : MainchainContract) : MainchainContract :=
  set_nodes_by_ed25519_public_key (lm_insert (nodes_by_ed25519_public_key s) (ed25519_public_key n) a)
    (set_nodes_by_bn254_public_key (lm_insert (nodes_by_bn254_public_key s) (bn254_public_key n) a)
      (set_inactive_nodes (um_insert (inactive_nodes s) a n) s)).

Lemma contains_key_false {K V} `{EqDecision K} (m : LookupMap K V) k :
  negb (lm_contains_key m k) = true -> lm_get m k = None.
Proof. unfold lm_contains_key. intros Hk. bool_to_prop. by apply eq_None_not_Some. Qed.

Lemma register_node_ret addr bn sig v u v' :
  register_node env addr bn sig v = Ret (u, v') ->
  let s := self v in let n := mkNode addr 0 bn (signer_account_pk env) in
  lm_get (nodes_by_bn254_public_key s) bn = None /\
  lm_get (nodes_by_ed25519_public_key s) (signer_account_pk env) = None /\
  bn254_verify (String.list_byte_of_string (signer_account_id env)) sig bn = Ret true /\
  v' = mkVm (registered_state (signer_account_id env) n s) (receipts v) /\
  storage_settled env (storage_usage env s) (storage_usage env (self v')).
Proof.
  unfold register_node. intros Hr. inv_method.
  match goal with H : manage_storage_deposit_require _ _ _ = _ |- _ =>
    apply manage_require_ret in H as (? & Hb & ?) end.
  unfold register_node_body in Hb. inv_method. split_and!; eauto using contains_key_false.
Qed.

Lemma unregister_node_ret pk v u v' :
  unregister_node env pk v = Ret (u, v') ->
  let s := self v in
  exists a n cost, signer_account_pk env = pk /\
    lm_get (nodes_by_ed25519_public_key s) pk = Some a /\ internal_get_node s a = Some n /\
    balance n = 0%Z /\
    self v' = set_inactive_nodes (um_remove (inactive_nodes s) a) s /\
    storage_refund env (storage_usage env s) (storage_usage env (self v')) cost /\
    receipts v' = receipts v ++ [Transfer (signer_account_id env) cost].
Proof.
  intros (? & v1 & cost & Hb & Hc & ->)%manage_refund_ret. inv_method.
  match goal with H : get_expect_node_by_ed25519_public_key _ _ = _ |- _ =>
    apply expect_node_by_key_ret in H as (a & Ha & Hn) end.
  bool_to_prop. cbn in *. simplify_eq. eexists _, _, cost. split_and!; done.
Qed.

(** The state after the caller changed the address of its node *)
Definition updated_state (a : AccountId) (n : Node) (s : MainchainContract) : MainchainContract :=
  match um_get (active_nodes s) a with
  | Some _ => set_active_nodes (um_insert (active_nodes s) a n) s
  | None => set_inactive_nodes (um_insert (inactive_nodes s) a n) s
  end.

Lemma update_node_ret addr v u v' :
  update_node env (SetSocketAddress addr) v = Ret (u, v') ->
  let s := self v in let me := signer_account_id env in
  exists n, internal_get_node s me = Some n /\
    self v' = updated_state me (node_with_multi_addr n addr) s.
Proof.
  unfold update_node. intros Hr. inv_method.
  match goal with H : get_expect_node _ _ = _ |- _ => apply unwrap_ret in H end.
  apply manage_ret in Hr as (f & v1 & Hb & -> & _). eexists. split; [done|].
  unfold updated_state. apply M_bind_ret in Hb as (? & ? & [-> ->]%get_self_ret & Hb).
  destruct (um_get _ _); inv_method; done.
Qed.

Lemma request_withdraw_ret amount pk v r v' :
  request_withdraw env amount pk v = Ret (r, v') ->
  let s := self v in let me := signer_account_id env in
  let e := get_current_epoch env in let w := wrap 64 (e + withdraw_delay (config s)) in
  exists a n d dep,
    (0 < amount)%Z /\ (amount <= balance n)%Z /\ (amount <= dep)%Z /\
    lm_get (nodes_by_ed25519_public_key s) pk = Some a /\ internal_get_node s a = Some n /\
    lm_get (depositors s) me = Some d /\ um_get d pk = Some dep /\
    lm_get (requests_of s pk) me = None /\
    r = mkRequestWithdrawResult e w /\
    v' = mkVm (set_requests_of pk (lm_insert (requests_of s pk) me (mkWithdrawRequest amount w)) s)
           (receipts v) /\
    storage_settled env (storage_usage env s) (storage_usage env (self v')).
Proof.
  unfold request_withdraw. intros Hr. inv_method.
  match goal with H : manage_storage_deposit_require _ _ _ = _ |- _ =>
    apply manage_require_ret in H as (? & Hb & Hs) end.
  unfold request_withdraw_body in Hb. inv_method.
  match goal with H : get_expect_node_by_ed25519_public_key _ _ = _ |- _ =>
    apply expect_node_by_key_ret in H as (a & Ha & Hn) end.
  bool_to_prop. cbn in *. simplify_eq. eexists _, _, _, _. split_and!; try done.
  by rewrite (Z.add_comm (withdraw_delay _)).
Qed.

Lemma cancel_withdraw_request_ret pk v u v' :
  cancel_withdraw_request env pk v = Ret (u, v') ->
  let s := self v in let me := signer_account_id env in
  is_Some (lm_get (nodes_by_ed25519_public_key s) pk) /\
  self v' = set_requests_of pk (lm_remove (requests_of s pk) me) s.
Proof.
  intros (f & v1 & Hb & -> & _)%manage_ret. unfold cancel_withdraw_request_body in Hb.
  inv_method. eauto.
Qed.

End effects.
