(* ===== verification/Batch.v ===== *)
(** * Data requests and batches

    Models [src/contracts/src/data_request.rs] and [batch.rs]: the accumulator
    of data requests, its Merkle root, and [post_signed_batch], by which the
    slot leader closes the accumulated requests into the next batch. *)

From S2P Require Import Prelude NearSdk Merkle Contract Committee NodeRegistry.

Section batch.
Context `{NearSdk} `{Bn254} (env : Env).

(** ** Data requests *)

Definition internal_compute_merkle_root (s : MainchainContract) : outcome bytes :=
  h ← merklize (vec_to_vec (data_request_accumulator s)); mret (hash_0 h).

Definition post_data_request (data_request : string) : M vm unit :=
  manage_storage_deposit_require env
    (modify_self (fun s =>
       set_data_request_accumulator (vec_push (data_request_accumulator s) data_request) s)).

Definition compute_merkle_root (s : MainchainContract) : outcome ComputeMerkleRootResult :=
  root ← internal_compute_merkle_root s;
  leader ← get_current_slot_leader env s;
  mret (mkComputeMerkleRootResult root (get_current_slot env) leader).

(** ** Batches *)

Definition get_latest_batch_id (s : MainchainContract) : BatchId :=
  default CryptoHash_default (lm_get (batch_ids_by_height s) (num_batches s)).

(** The public key of a signer, who has to be in the committee *)
Definition signer_public_key (s : MainchainContract) (current_committee : list AccountId)
    (signer : AccountId) : outcome PublicKey :=
  if bool_decide (signer ∈ current_committee) then
    node ← unwrap unwrap_none (um_get (active_nodes s) signer);
    unwrap "called `Result::unwrap()` on an `Err` value" (pk_from_uncompressed (bn254_public_key node))
  else Panic "Node is not part of the committee".

(** [signers.iter().skip(1).fold(..)] *)
Fixpoint fold_signers (s : MainchainContract) (current_committee : list AccountId)
    (acc : PublicKey) (signers : list AccountId) : outcome PublicKey :=
  match signers with
  | [] => Ret acc
  | signer :: signers =>
      k ← signer_public_key s current_committee signer;
      fold_signers s current_committee (pk_add acc k) signers
  end.

Definition aggregate_signers (s : MainchainContract) (current_committee : list AccountId)
    (signers : list AccountId) : outcome PublicKey :=
  match signers with
  | [] => Panic "index out of bounds"
  | signer :: signers =>
      k ← signer_public_key s current_committee signer;
      fold_signers s current_committee k signers
  end.

(** The check of the caller and of its signature; it draws the next random
    number from the signature. *)
Definition check_slot_leader (leader_signature : bytes) : M vm unit :=
  s ← get_self id;
  leader ← lift (get_current_slot_leader env s);
  leader ← lift (unwrap unwrap_none leader);
  _ ← assert_ (bool_decide (leader = signer_account_id env)) "assertion `left == right` failed";
  node ← lift (unwrap unwrap_none (um_get (active_nodes s) (signer_account_id env)));
  let leader_pk := bn254_public_key node in
  ok ← lift (bn254_verify (U256_to_le_bytes (last_generated_random_number s)) leader_signature leader_pk);
  _ ← assert_ ok "Invalid slot leader signature";
  let hash := sha256 (leader_signature ++ le_bytes 8 (get_current_slot env)) in
  modify_self (set_last_generated_random_number (U256_from_little_endian hash)).

(** The check of the signers and of their aggregate signature over the root *)
Definition check_signers (aggregate_signature aggregate_public_key : bytes) (signers : list AccountId)
    : M vm bytes :=
  s ← get_self id;
  current_committee ← lift (unwrap unwrap_none (lm_get (committees s) (get_current_epoch env)));
  reconstructed ← lift (aggregate_signers s current_committee signers);
  reconstructed ← lift (unwrap "called `Result::unwrap()` on an `Err` value"
                          (pk_to_uncompressed reconstructed));
  _ ← assert_ (bool_decide (reconstructed = aggregate_public_key)) "Invalid aggregate public key";
  root ← lift (internal_compute_merkle_root s);
  ok ← lift (bn254_verify root aggregate_signature aggregate_public_key);
  _ ← assert_ ok "Invalid aggregate signature";
  mret root.

(** The batch is built from the accumulator, stored, and the accumulator cleared. *)
Definition store_batch (root : bytes) : M vm unit :=
  s ← get_self id;
  h ← u64_add env (num_batches s) 1;
  let batch_header := mkBatchHeader h CryptoHash_default in
  let batch := mkBatch batch_header (vec_to_vec (data_request_accumulator s)) in
  let batch_id := hash_borsh (mkMerklizedBatch (get_latest_batch_id s) batch_header root) in
  n ← u64_add env (num_batches s) 1;
  _ ← modify_self (set_num_batches n);
  _ ← modify_self (fun s => set_batch_by_id (lm_insert (batch_by_id s) batch_id batch) s);
  _ ← modify_self (fun s => set_batch_ids_by_height (lm_insert (batch_ids_by_height s) (num_batches s) batch_id) s);
  modify_self (fun s => set_data_request_accumulator (vec_clear (data_request_accumulator s)) s).

Definition post_signed_batch (aggregate_signature aggregate_public_key : bytes)
    (signers : list AccountId) (leader_signature : bytes) : M vm unit :=
  manage_storage_deposit env (
    _ ← process_epoch env;
    _ ← check_slot_leader leader_signature;
    root ← check_signers aggregate_signature aggregate_public_key signers;
    _ ← store_batch root;
    mret Next).

End batch.

(** ** Effects *)

Section effects.
Context `{NearSdk} `{Bn254} (env : Env).

Lemma post_data_request_ret r v u v' :
  post_data_request env r v = Ret (u, v') ->
  self v' = set_data_request_accumulator (vec_push (data_request_accumulator (self v)) r) (self v) /\
  receipts v' = receipts v /\
  storage_settled env (storage_usage env (self v)) (storage_usage env (self v')).
Proof. intros (? & Hb & Hs)%manage_require_ret. inv_method. done. Qed.

(** The header and the id of the batch that closes the accumulator of [s] *)
Definition next_header (s : MainchainContract) : BatchHeader :=
  mkBatchHeader (wrap 64 (num_batches s + 1)) CryptoHash_default.
Definition next_batch (s : MainchainContract) : Batch :=
  mkBatch (next_header s) (vec_to_vec (data_request_accumulator s)).
Definition next_batch_id (s : MainchainContract) (root : bytes) : BatchId :=
  hash_borsh (mkMerklizedBatch (get_latest_batch_id s) (next_header s) root).

Definition batch_stored (root : bytes) (s : MainchainContract) : MainchainContract :=
  let n := wrap 64 (num_batches s + 1) in
  set_data_request_accumulator (vec_clear (data_request_accumulator s))
    (set_batch_ids_by_height (lm_insert (batch_ids_by_height s) n (next_batch_id s root))
      (set_batch_by_id (lm_insert (batch_by_id s) (next_batch_id s root) (next_batch s))
        (set_num_batches n s))).

Lemma store_batch_ret root v u v' :
  store_batch env root v = Ret (u, v') -> self v' = batch_stored root (self v).
Proof. unfold store_batch. intros Hr. inv_method. done. Qed.

(** The root of the accumulated requests *)
Definition requests_root (s : MainchainContract) : bytes :=
  hash_0 (merkle_root_spec (sort_hashes (hash_borsh <$> vec_to_vec (data_request_accumulator s)))).

Lemma internal_compute_merkle_root_eq s : internal_compute_merkle_root s = Ret (requests_root s).
Proof. unfold internal_compute_merkle_root. by rewrite merklize_eq. Qed.

(** The caller leads the current slot and signed the last random number. *)
Definition leads_slot (s : MainchainContract) (leader_signature : bytes) : Prop :=
  get_current_slot_leader env s = Ret (Some (signer_account_id env)) /\
  exists n, um_get (active_nodes s) (signer_account_id env) = Some n /\
    bn254_verify (U256_to_le_bytes (last_generated_random_number s)) leader_signature
      (bn254_public_key n) = Ret true.

Definition next_random (leader_signature : bytes) : Z :=
  U256_from_little_endian (sha256 (leader_signature ++ le_bytes 8 (get_current_slot env))).

Lemma check_slot_leader_ret sig v u v' :
  check_slot_leader env sig v = Ret (u, v') ->
  leads_slot (self v) sig /\
  v' = mkVm (set_last_generated_random_number (next_random sig) (self v)) (receipts v).
Proof.
  unfold check_slot_leader. intros Hr. inv_method. bool_to_prop. subst.
  split; [|done]. unfold leads_slot. eauto.
Qed.

Lemma signer_public_key_ret s c a k :
  signer_public_key s c a = Ret k ->
  a ∈ c /\ exists n, um_get (active_nodes s) a = Some n /\ pk_from_uncompressed (bn254_public_key n) = Some k.
Proof.
  unfold signer_public_key. case_bool_decide; [|done]. intros Hr. inv_run. eauto.
Qed.

Lemma fold_signers_ret s c acc l k : fold_signers s c acc l = Ret k -> l ⊆ c.
Proof.
  revert acc. induction l as [|a l IH]; intros acc Hr; cbn in Hr; [set_solver|]. inv_run.
  match goal with H : signer_public_key _ _ _ = _ |- _ => apply signer_public_key_ret in H as [? _] end.
  apply IH in Hr. set_solver.
Qed.

Lemma aggregate_signers_ret s c l k : aggregate_signers s c l = Ret k -> l <> [] /\ l ⊆ c.
Proof.
  destruct l as [|a l]; cbn; [done|]. intros Hr. inv_run.
  match goal with H : signer_public_key _ _ _ = _ |- _ => apply signer_public_key_ret in H as [? _] end.
  apply fold_signers_ret in Hr. split; [done|set_solver].
Qed.

(** The signers are in the current committee, and their aggregate key verifies
    the signature of the root. *)
Definition signed_by (s : MainchainContract) (sig pk : bytes) (signers : list AccountId) : Prop :=
  exists c k, lm_get (committees s) (get_current_epoch env) = Some c /\
    signers <> [] /\ signers ⊆ c /\ aggregate_signers s c signers = Ret k /\
    pk_to_uncompressed k = Some pk /\ bn254_verify (requests_root s) sig pk = Ret true.

Lemma check_signers_ret sig pk signers v root v' :
  check_signers env sig pk signers v = Ret (root, v') ->
  v' = v /\ root = requests_root (self v) /\ signed_by (self v) sig pk signers.
Proof.
  unfold check_signers. intros Hr. inv_method.
  match goal with H : internal_compute_merkle_root _ = _ |- _ =>
    rewrite internal_compute_merkle_root_eq in H; injection H as <- end.
  match goal with H : aggregate_signers _ _ _ = _ |- _ =>
    pose proof (aggregate_signers_ret _ _ _ _ H) as [??] end.
  bool_to_prop. subst. split_and!; [done..|]. unfold signed_by. eauto 10.
Qed.

Lemma aggregate_signers_set_random r s c l :
  aggregate_signers (set_last_generated_random_number r s) c l = aggregate_signers s c l.
Proof.
  set (s' := set_last_generated_random_number r s).
  assert (forall a, signer_public_key s' c a = signer_public_key s c a) as Es by done.
  assert (forall acc l, fold_signers s' c acc l = fold_signers s c acc l) as Ef.
  { intros acc l'. revert acc. induction l' as [|a l' IH]; intros acc; cbn; [done|].
    rewrite Es. by destruct (signer_public_key s c a); cbn. }
  destruct l as [|a l]; cbn; [done|]. rewrite Es. by destruct (signer_public_key s c a); cbn.
Qed.

Lemma signed_by_set_random r s sig pk signers :
  signed_by (set_last_generated_random_number r s) sig pk signers -> signed_by s sig pk signers.
Proof. intros (c & k & ? & ? & ? & Ha & ?). rewrite aggregate_signers_set_random in Ha. by exists c, k. Qed.

Lemma post_signed_batch_ret sig pk signers leader_sig v u v' :
  post_signed_batch env sig pk signers leader_sig v = Ret (u, v') ->
  exists s1, epoch_step env (self v) s1 /\ leads_slot s1 leader_sig /\ signed_by s1 sig pk signers /\
    self v' = batch_stored (requests_root s1)
                (set_last_generated_random_number (next_random leader_sig) s1).
Proof.
  intros (f & v1 & Hb & -> & _)%manage_ret. inv_method.
  repeat match goal with
  | H : process_epoch _ _ = _ |- _ => apply process_epoch_ret in H
  | H : check_slot_leader _ _ _ = _ |- _ => apply check_slot_leader_ret in H as [? ->]
  | H : check_signers _ _ _ _ _ = _ |- _ => apply check_signers_ret in H as (-> & -> & ?)
  | H : store_batch _ _ _ = _ |- _ => apply store_batch_ret in H as ->
  end. eexists. split_and!; [done..|by eapply signed_by_set_random|done].
Qed.

End effects.
