(* ===== verification/ContractInvariants.v ===== *)
(** * Histories of the contract

    The contract as a transition system: the states reachable from an
    initialisation by the contract's methods, in any order, by any accounts and
    at any block heights, and by the methods of the fungible-token standard.  A
    call that panics is reverted by the host and is no transition.  Over these
    histories: conservation of the token, the shape of the committees, the
    chain of batches, and the bookkeeping of the registry and of the stakes. *)

From S2P Require Import Prelude NearSdk Merkle Contract Committee NodeRegistry Batch.

(** ** Definitions *)

Section histories.
Context `{SDK : NearSdk} `{BN : Bn254}.

(** The methods that may change the state, with their arguments *)
Inductive Call :=
| RegisterNode (addr : string) (bn254_pk signature : bytes)
| UnregisterNode (pk : bytes)
| CallUpdateNode (command : UpdateNode)
| Deposit (amount : Balance) (pk : bytes)
| RequestWithdraw (amount : Balance) (pk : bytes)
| CancelWithdrawRequest (pk : bytes)
| Withdraw (amount : Balance) (pk : bytes)
| ProcessEpoch
| PostDataRequest (data_request : string)
| PostSignedBatch (aggregate_signature aggregate_public_key : bytes)
    (signers : list AccountId) (leader_signature : bytes)
| CallUpdateConfig (key : UpdateConfig) (value : Z).

Definition exec (env : Env) (c : Call) : M vm unit :=
  match c with
  | RegisterNode addr bn sig => register_node env addr bn sig
  | UnregisterNode pk => unregister_node env pk
  | CallUpdateNode command => update_node env command
  | Deposit amount pk => deposit env amount pk
  | RequestWithdraw amount pk => _ ← request_withdraw env amount pk; mret tt
  | CancelWithdrawRequest pk => cancel_withdraw_request env pk
  | Withdraw amount pk => withdraw env amount pk
  | ProcessEpoch => process_epoch env
  | PostDataRequest r => post_data_request env r
  | PostSignedBatch sig pk signers leader_sig => post_signed_batch env sig pk signers leader_sig
  | CallUpdateConfig key value => update_config env key value
  end.

(** Arguments and host values are in the range of their types. *)
Definition wf_call (c : Call) : Prop :=
  match c with
  | Deposit a _ | RequestWithdraw a _ | Withdraw a _ | CallUpdateConfig _ a => (0 <= a < 2 ^ 128)%Z
  | _ => True
  end.
Definition wf_env (env : Env) : Prop :=
  (0 <= block_height env < 2 ^ 64)%Z /\ (0 <= attached_deposit env < 2 ^ 128)%Z /\
  (0 <= storage_byte_cost env < 2 ^ 128)%Z.

Definition run (env : Env) (c : Call) (s s' : MainchainContract) : Prop :=
  wf_env env /\ wf_call c /\ exists rs, exec env c (mkVm s []) = Ret (tt, mkVm s' rs).

(** [P] restricts the calls that are considered. *)
Inductive step (P : Env -> Call -> MainchainContract -> Prop) : MainchainContract -> MainchainContract -> Prop :=
| step_call env c s s' : P env c s -> run env c s s' -> step P s s'
| step_token s t' : ft_op (token s) t' -> step P s (set_token t' s).

Definition initial (s : MainchainContract) : Prop :=
  exists env d supply meta size seed,
    (0 <= supply < 2 ^ 128)%Z /\ (0 <= size < 2 ^ 64)%Z /\ (0 <= seed < 2 ^ 256)%Z /\
    new_contract env d supply meta size seed = Ret s.

Definition reachable (P : Env -> Call -> MainchainContract -> Prop) (s : MainchainContract) : Prop :=
  exists s0, initial s0 /\ rtc (step P) s0 s.

(** All calls; calls compiled with overflow checks *)
Definition any_call (env : Env) (c : Call) (s : MainchainContract) : Prop := True.
Definition checked_call (env : Env) (c : Call) (s : MainchainContract) : Prop :=
  overflow_checks env = true.

(** Induction over histories *)
Lemma reachable_ind P (I : MainchainContract -> Prop) :
  (forall s, initial s -> I s) ->
  (forall s s', I s -> step P s s' -> I s') ->
  forall s, reachable P s -> I s.
Proof.
  intros Hi Hs s (s0 & H0%Hi & Hr). induction Hr as [|s0 s1 s2 H1 _ IH]; [done|]. eauto.
Qed.

Lemma reachable_inv P (I J : MainchainContract -> Prop) :
  (forall s, reachable P s -> J s) ->
  (forall s, initial s -> I s) ->
  (forall s s', J s -> J s' -> I s -> step P s s' -> I s') ->
  forall s, reachable P s -> I s.
Proof.
  intros HJ Hi Hs s Hr. assert (reachable P s /\ I s) as [_ ?]; [|done]. revert s Hr.
  intros s (s0 & H0 & Hr). assert (reachable P s0 /\ I s0) as Hs0.
  { split; [|by apply Hi]. exists s0. split; [done|apply rtc_refl]. }
  clear H0. induction Hr as [s|s s1 s2 H1 _ IH]; [done|]. apply IH. destruct Hs0 as [Hs0 HI].
  assert (reachable P s1) as Hs1.
  { destruct Hs0 as (i & ? & ?). exists i. split; [done|]. by eapply rtc_r. }
  split; [done|]. eauto.
Qed.

(** The initial state *)
Lemma initial_state s :
  initial s ->
  exists d supply size seed meta t, (0 <= supply < 2 ^ 128)%Z /\ (0 <= size < 2 ^ 64 /\ 0 <= seed < 2 ^ 256)%Z /\
    ft_total_supply t = supply /\
    lm_repr (ft_accounts t) {[ d := supply ]} /\
    s = mkContract t (Some meta) d (mkConfig INIT_MINIMUM_STAKE INIT_EPOCH_DELAY_FOR_ELECTION size
          INIT_EPOCH_DELAY_FOR_ELECTION) um_new um_new um_new lm_new lm_new lm_new vec_new
          0 lm_new lm_new 0 lm_new CryptoHash_default true 0 seed lm_new.
Proof.
  intros (env & d & supply & meta & size & seed & Hsup & Hsize & Hseed & Hn). unfold new_contract in Hn.
  destruct (state_exists env); [done|]. destruct (negb _); [done|]. destruct (negb _); [done|]. inv_run.
  match goal with H : ft_internal_register_account _ _ = _ |- _ => apply ft_register_ret in H as (_ & Hs1 & Ha1) end.
  match goal with H : ft_internal_deposit _ _ _ = _ |- _ => apply ft_deposit_ret in H as (b & Hb & _ & _ & Hs2 & Ha2) end.
  rewrite ft_new_supply in Hs1. rewrite Ha1, decide_True in Hb by done. injection Hb as <-.
  eexists d, supply, size, seed, meta, _. split_and!; [lia..| | |done].
  - rewrite Hs2, Hs1. lia.
  - intros k. rewrite Ha2, Ha1, lookup_singleton, ft_new_accounts. by case_decide.
Qed.

End histories.

(** ** Conservation of the token *)

Section conservation.
Context `{SDK : NearSdk} `{BN : Bn254}.

(** What a call does to the token: nothing, or it moves [d] (negative for a
    withdrawal) from one account to the contract's total stake, modulo the
    width of the integers and exactly when overflow is checked. *)
Definition token_effect (env : Env) (s s' : MainchainContract) : Prop :=
  (token s' = token s /\ last_total_balance s' = last_total_balance s) \/
  exists k b b' d,
    lm_get (ft_accounts (token s)) k = Some b /\ token s' = accounts_insert k b' (token s) /\
    (b' mod 2 ^ 128 = (b - d) mod 2 ^ 128)%Z /\
    (last_total_balance s' mod 2 ^ 128 = (last_total_balance s + d) mod 2 ^ 128)%Z /\
    (0 <= b' < 2 ^ 128)%Z /\ (0 <= last_total_balance s' < 2 ^ 128)%Z /\
    (overflow_checks env = true -> b' = b - d /\ last_total_balance s' = last_total_balance s + d)%Z.

Lemma arith_exact ov w msg x y : ov = true -> arith ov w msg x = Ret y -> y = x.
Proof. intros -> Ha. by apply arith_checked in Ha as [-> _]. Qed.

Lemma registry_update_token env a n s : token (registry_update env a n s) = token s.
Proof. by destruct (registry_update_frame env a n s) as (? & ? & ? & ->). Qed.

Lemma deposit_token_effect env amount pk v u v' :
  deposit env amount pk v = Ret (u, v') -> token_effect env (self v) (self v').
Proof.
  intros (a & n & b & user & node & total & Ha & Hn & Hb & Hu & Hnode & Ht & -> & _)%deposit_ret.
  right. exists (signer_account_id env), b, user, amount. cbn. rewrite registry_update_token. cbn.
  unfold add_w, sub_w in *.
  split_and!; eauto using arith_mod; try (by eapply arith_range; [|done]; lia);
    intros Hov; split; by eapply arith_exact.
Qed.

Lemma withdraw_token_effect env amount pk v u v' :
  withdraw env amount pk v = Ret (u, v') -> token_effect env (self v) (self v').
Proof.
  intros (a & n & b & d & dep & req & user & node & rest & total & Hr)%withdraw_ret.
  destruct Hr as (_ & _ & _ & _ & _ & _ & _ & _ & _ & Hb & Hu & _ & _ & Ht & ->).
  right. exists (signer_account_id env), b, user, (- amount)%Z. cbn. rewrite registry_update_token.
  cbn. unfold add_w, sub_w in *. rewrite Z.sub_opp_r, Z.add_opp_r.
  split_and!; eauto using arith_mod; try (by eapply arith_range; [|done]; lia);
    intros Hov; split; by eapply arith_exact.
Qed.

Lemma epoch_step_token env s s' :
  epoch_step env s s' -> token s' = token s /\ last_total_balance s' = last_total_balance s.
Proof. by intros (? & ? & ? & ? & ? & ? & ->)%epoch_step_frame. Qed.

Lemma update_config_ret env key value v u v' :
  update_config env key value v = Ret (u, v') ->
  signer_account_id env = dao (self v) /\ receipts v' = receipts v /\
  exists c, self v' = set_config c (self v) /\ committee_size c = committee_size (config (self v)) /\
    withdraw_delay c = withdraw_delay (config (self v)).
Proof.
  unfold update_config, assert_dao. intros Hr. destruct key; inv_method; bool_to_prop; cbn; eauto 10.
Qed.

Lemma exec_token_effect env c v u v' :
  exec env c v = Ret (u, v') -> token_effect env (self v) (self v').
Proof.
  destruct c; cbn [exec]; intros Hr.
  - left. by apply register_node_ret in Hr as (_ & _ & _ & -> & _).
  - left. by apply unregister_node_ret in Hr as (? & ? & ? & _ & _ & _ & _ & -> & _).
  - left. destruct command. apply update_node_ret in Hr as (n & _ & ->).
    unfold updated_state. by destruct (um_get _ _).
  - by eapply deposit_token_effect.
  - left. inv_run.
    match goal with H : request_withdraw _ _ _ _ = _ |- _ => apply request_withdraw_ret in H as
      (? & ? & ? & ? & _ & _ & _ & _ & _ & _ & _ & _ & _ & -> & _) end. done.
  - left. by apply cancel_withdraw_request_ret in Hr as [_ ->].
  - by eapply withdraw_token_effect.
  - left. by eapply epoch_step_token, process_epoch_ret.
  - left. by apply post_data_request_ret in Hr as (-> & _).
  - left. apply post_signed_batch_ret in Hr as (s1 & He & _ & _ & ->).
    by apply epoch_step_token in He.
  - left. by apply update_config_ret in Hr as (_ & _ & c & -> & _).
Qed.

(** Account balances and total stake add up to the supply, modulo [2 ^ 128]. *)
Definition conserved_mod (s : MainchainContract) : Prop :=
  exists g, lm_repr (ft_accounts (token s)) g /\ map_Forall (fun _ b => 0 <= b)%Z g /\
    ((sum_map g + last_total_balance s) mod 2 ^ 128 = ft_total_supply (token s) mod 2 ^ 128)%Z.
Definition conserved (s : MainchainContract) : Prop :=
  (0 <= last_total_balance s)%Z /\
  exists g, lm_repr (ft_accounts (token s)) g /\ map_Forall (fun _ b => 0 <= b)%Z g /\
    (sum_map g + last_total_balance s = ft_total_supply (token s))%Z.

Lemma repr_accounts_insert t g k b :
  lm_repr (ft_accounts t) g -> lm_repr (ft_accounts (accounts_insert k b t)) (<[k := b]> g).
Proof. intros Hg. unfold accounts_insert. rewrite ft_accounts_with. by apply lm_repr_insert. Qed.

Lemma supply_accounts_insert t k b : ft_total_supply (accounts_insert k b t) = ft_total_supply t.
Proof. apply ft_supply_with. Qed.

Lemma conserved_mod_step P s s' : conserved_mod s -> step P s s' -> conserved_mod s'.
Proof.
  intros (g & Hg & Hpos & Hsum) Hs. destruct Hs as [env c s s' _ (_ & _ & rs & Hr)|s t' Hop].
  - apply exec_token_effect in Hr. cbn in Hr.
    destruct Hr as [[Ht Hl]|(k & b & b' & d & Hb & Ht & Hmb & Hml & Hrb & _ & _)].
    { exists g. by rewrite Ht, Hl. }
    exists (<[k := b']> g). rewrite Ht, supply_accounts_insert. split_and!.
    + by apply repr_accounts_insert.
    + apply map_Forall_insert_2; [lia|done].
    + rewrite sum_map_insert, <- Hg, Hb. cbn [default from_option id].
      apply mod_eq in Hsum as [k1 Hsum], Hmb as [k2 Hmb], Hml as [k3 Hml]; [|done..].
      apply mod_eq; [done|]. exists (k1 + k2 + k3)%Z. lia.
  - destruct (ft_op_conserves _ _ Hop g Hg Hpos) as (g' & Hg' & Hpos' & Hd).
    exists g'. cbn. split_and!; [done..|].
    apply mod_eq in Hsum as [k Hsum]; [|done]. apply mod_eq; [done|]. exists k. lia.
Qed.

Lemma conserved_step s s' : conserved s -> step checked_call s s' -> conserved s'.
Proof.
  intros (Hl0 & g & Hg & Hpos & Hsum) Hs. destruct Hs as [env c s s' Hov (_ & _ & rs & Hr)|s t' Hop].
  - apply exec_token_effect in Hr. cbn in Hr.
    destruct Hr as [[Ht Hl]|(k & b & b' & d & Hb & Ht & _ & _ & Hrb & Hrl & Hex)].
    { split; [lia|]. exists g. by rewrite Ht, Hl. }
    destruct (Hex Hov) as [-> Hl]. split; [lia|].
    exists (<[k := (b - d)%Z]> g). rewrite Ht, supply_accounts_insert. split_and!.
    + by apply repr_accounts_insert.
    + apply map_Forall_insert_2; [lia|done].
    + rewrite sum_map_insert, <- Hg, Hb. cbn. lia.
  - destruct (ft_op_conserves _ _ Hop g Hg Hpos) as (g' & Hg' & Hpos' & Hd).
    split; [done|]. exists g'. cbn. split_and!; [done..|lia].
Qed.

Lemma initial_conserved s : initial s -> conserved s.
Proof.
  intros (d & supply & size & seed & meta & t & Hsup & _ & Ht & Hr & ->)%initial_state.
  split; [done|]. exists {[ d := supply ]}. cbn. split_and!; [done| |].
  - apply map_Forall_singleton. lia.
  - unfold singletonM, map_singleton. rewrite sum_map_insert_new, sum_map_empty by apply lookup_empty. lia.
Qed.

Lemma initial_conserved_mod s : initial s -> conserved_mod s.
Proof. intros (_ & g & ? & ? & E)%initial_conserved. exists g. by rewrite E. Qed.

End conservation.

(** ** Calls by what they may touch *)

Section effects.
Context `{SDK : NearSdk} `{BN : Bn254}.

(** Everything but the token, the registry, the deposits and the requests *)
Definition same_core (s s' : MainchainContract) : Prop :=
  dao s' = dao s /\ config s' = config s /\ committees s' = committees s /\
  data_request_accumulator s' = data_request_accumulator s /\ num_batches s' = num_batches s /\
  batch_ids_by_height s' = batch_ids_by_height s /\ batch_by_id s' = batch_by_id s /\
  bootstrapping_phase s' = bootstrapping_phase s /\
  last_processed_epoch s' = last_processed_epoch s /\
  last_generated_random_number s' = last_generated_random_number s.

Inductive effect (env : Env) (s : MainchainContract) : Call -> MainchainContract -> Prop :=
| effect_registry c s' : same_core s s' -> effect env s c s'
| effect_epoch s' : epoch_step env s s' -> effect env s ProcessEpoch s'
| effect_request r :
    effect env s (PostDataRequest r)
      (set_data_request_accumulator (vec_push (data_request_accumulator s) r) s)
| effect_batch sig pk signers leader_sig s1 :
    epoch_step env s s1 -> leads_slot env s1 leader_sig -> signed_by env s1 sig pk signers ->
    effect env s (PostSignedBatch sig pk signers leader_sig)
      (batch_stored (requests_root s1)
         (set_last_generated_random_number (next_random env leader_sig) s1))
| effect_config key value c :
    signer_account_id env = dao s -> committee_size c = committee_size (config s) ->
    withdraw_delay c = withdraw_delay (config s) ->
    effect env s (CallUpdateConfig key value) (set_config c s).

Lemma same_core_refl s : same_core s s.
Proof. by unfold same_core. Qed.

Lemma same_core_registry_update env a n t s :
  same_core s (registry_update env a n (set_token t s)).
Proof. by destruct (registry_update_frame env a n (set_token t s)) as (? & ? & ? & ->). Qed.

Lemma exec_effect env c v u v' :
  exec env c v = Ret (u, v') -> effect env (self v) c (self v').
Proof.
  destruct c; cbn [exec]; intros Hr.
  - apply register_node_ret in Hr as (_ & _ & _ & -> & _). by apply effect_registry.
  - apply unregister_node_ret in Hr as (? & ? & ? & _ & _ & _ & _ & -> & _). by apply effect_registry.
  - destruct command. apply update_node_ret in Hr as (n & _ & ->). apply effect_registry.
    unfold updated_state. by destruct (um_get _ _).
  - apply deposit_ret in Hr as (a & n & ? & user & node & ? & _ & _ & _ & _ & _ & _ & -> & _).
    apply effect_registry. apply same_core_registry_update.
  - inv_run. match goal with H : request_withdraw _ _ _ _ = _ |- _ => apply request_withdraw_ret in H as
      (? & ? & ? & ? & _ & _ & _ & _ & _ & _ & _ & _ & _ & -> & _) end. by apply effect_registry.
  - apply cancel_withdraw_request_ret in Hr as [_ ->]. by apply effect_registry.
  - apply withdraw_ret in Hr as (a & n & ? & ? & ? & ? & user & node & ? & ? & Hr).
    destruct Hr as (_ & _ & _ & _ & _ & _ & _ & _ & _ & _ & _ & _ & _ & _ & ->).
    apply effect_registry. apply same_core_registry_update.
  - apply effect_epoch. by eapply process_epoch_ret.
  - apply post_data_request_ret in Hr as (-> & _). apply effect_request.
  - apply post_signed_batch_ret in Hr as (s1 & ? & ? & ? & ->). by apply effect_batch.
  - apply update_config_ret in Hr as (? & _ & c & -> & ? & ?). by apply effect_config.
Qed.

Lemma run_effect env c s s' : run env c s s' -> effect env s c s'.
Proof. by intros (_ & _ & rs & Hr%exec_effect). Qed.

(** ** Committees *)

Definition committee_ok (s : MainchainContract) (c : list AccountId) : Prop :=
  length c = Z.to_nat (committee_size (config s)) /\ NoDup c.
Definition committees_ok (s : MainchainContract) : Prop :=
  (0 <= committee_size (config s) < 2 ^ 64)%Z /\
  forall e c, lm_get (committees s) e = Some c -> committee_ok s c.

Lemma next_committees_get boot e c cs e' c' :
  lm_get (next_committees boot e c cs) e' = Some c' -> c' = c \/ lm_get cs e' = Some c'.
Proof.
  unfold next_committees. rewrite lm_get_insert. case_decide; [left; by simplify_eq|].
  destruct boot; [|by right]. rewrite !lm_get_insert.
  repeat case_decide; [left; by simplify_eq..|by right].
Qed.

Lemma activated_frame l s s' :
  activated l s s' -> config s' = config s /\ committees s' = committees s /\
    bootstrapping_phase s' = bootstrapping_phase s /\ last_processed_epoch s' = last_processed_epoch s.
Proof. intros (_ & _ & _ & ->). done. Qed.

Lemma committees_ok_epoch env s s' : epoch_step env s s' -> committees_ok s -> committees_ok s'.
Proof.
  intros [[_ ->]|(_ & s1 & Ha & _ & Hp)] [Hsz Hok]; [done|].
  apply activated_frame in Ha as (Hc & Hcs & _ & _).
  assert (committees_ok s1) as [_ Hok1].
  { unfold committees_ok, committee_ok. rewrite Hc, Hcs. done. }
  destruct Hp as [(_ & _ & ->)|(_ & c & Hsel & ->)]; [by split; [rewrite Hc|]|].
  split; [cbn; by rewrite Hc|]. intros e' c' Hg. cbn in Hg.
  apply next_committees_get in Hg as [->|Hg]; [|by apply (Hok1 e')].
  apply select_committee_ret in Hsel as (Hl & Hnd & _). by split.
Qed.

Lemma committees_ok_step P s s' : committees_ok s -> step P s s' -> committees_ok s'.
Proof.
  intros Hok Hs. destruct Hs as [env c s s' _ Hr%run_effect|s t' _]; [|done].
  destruct Hr as [c s' (_ & Hc & Hcs & _)|s' He|r|? ? ? ? s1 He _ _|key value c Hd Hsz Hwd].
  - unfold committees_ok, committee_ok. by rewrite Hc, Hcs.
  - by eapply committees_ok_epoch.
  - done.
  - by apply (committees_ok_epoch env s s1) in Hok.
  - destruct Hok as [Hs Hok]. unfold committees_ok, committee_ok. cbn. by rewrite Hsz.
Qed.

Lemma initial_committees_ok s : initial s -> committees_ok s.
Proof.
  intros (d & supply & size & seed & meta & t & _ & [Hs _] & _ & _ & ->)%initial_state.
  split; [done|]. cbn. intros e c. by rewrite lm_get_new.
Qed.

Lemma reachable_committees_ok P s : reachable P s -> committees_ok s.
Proof. apply reachable_ind; [apply initial_committees_ok|apply committees_ok_step]. Qed.

(** The draw of the slot leader hits the committee. *)
Lemma slot_leader_some env s c :
  committees_ok s -> (0 < committee_size (config s) < 2 ^ 32)%Z ->
  lm_get (committees s) (get_current_epoch env) = Some c ->
  exists l, get_current_slot_leader env s = Ret (Some l) /\ l ∈ c.
Proof.
  intros [_ Hok] Hs Hc. unfold get_current_slot_leader. rewrite Hc.
  set (prn := U256_from_little_endian _). set (n := committee_size (config s)) in *.
  pose proof (Z.mod_pos_bound prn n ltac:(lia)).
  rewrite (outcome_bind_eq _ _ _ (U256_rem_eq prn n ltac:(lia))).
  rewrite (outcome_bind_eq _ _ _ (as_usize_eq (prn mod n) ltac:(lia))).
  destruct (Hok _ _ Hc) as [Hl _].
  destruct (lookup_lt_is_Some_2 c (Z.to_nat (prn mod n))) as [l El]; [lia|].
  exists l. rewrite El. split; [done|]. by eapply list_elem_of_lookup_2.
Qed.

End effects.

(** ** The chain of batches *)

Section chain.
Context `{SDK : NearSdk} `{BN : Bn254}.

(** The id before height [h]: the default hash before the first batch *)
Definition id_before (s : MainchainContract) (h : Z) : BatchId :=
  default CryptoHash_default (lm_get (batch_ids_by_height s) (h - 1)%Z).

Definition transactions_root (b : Batch) : bytes :=
  hash_0 (merkle_root_spec (sort_hashes (hash_borsh <$> transactions b))).

(** [b], stored under [id], is the batch of height [h] on top of the one before. *)
Definition linked (s : MainchainContract) (h : Z) (id : BatchId) (b : Batch) : Prop :=
  header b = mkBatchHeader h CryptoHash_default /\
  id = hash_borsh (mkMerklizedBatch (id_before s h) (header b) (transactions_root b)).

Definition chain_ok (s : MainchainContract) : Prop :=
  (0 <= num_batches s < 2 ^ 64)%Z /\
  (forall h, (h <= 0 \/ num_batches s < h)%Z -> lm_get (batch_ids_by_height s) h = None) /\
  (forall h, (1 <= h <= num_batches s)%Z -> exists id b,
     lm_get (batch_ids_by_height s) h = Some id /\ lm_get (batch_by_id s) id = Some b /\ linked s h id b) /\
  (forall id, is_Some (lm_get (batch_by_id s) id) -> exists h, lm_get (batch_ids_by_height s) h = Some id).

(** The batch counter has not reached its last value. *)
Definition counter_left (env : Env) (c : Call) (s : MainchainContract) : Prop :=
  (num_batches s + 1 < 2 ^ 64)%Z.

(** Nor does the hash of the batch that is posted name an earlier batch. *)
Definition batch_id_new (env : Env) (c : Call) (s : MainchainContract) : Prop :=
  counter_left env c s /\
  match c with
  | PostSignedBatch _ _ _ _ => lm_get (batch_by_id s) (next_batch_id s (requests_root s)) = None
  | _ => True
  end.

(** What is hashed for the id of the batch [b] of height [h] *)
Definition batch_preimage (s : MainchainContract) (h : Z) (b : Batch) : bytes :=
  borsh (mkMerklizedBatch (id_before s h) (header b) (transactions_root b)).

Lemma chain_id_wf s h : chain_ok s -> wf_hash (default CryptoHash_default (lm_get (batch_ids_by_height s) h)).
Proof.
  intros (_ & Hn & Hc & _). destruct (decide (1 <= h <= num_batches s)%Z) as [Hh|Hh].
  - destruct (Hc h Hh) as (id & b & -> & _ & _ & ->). apply hash_borsh_wf.
  - rewrite Hn by lia. reflexivity.
Qed.

(** What is hashed for batches of different heights differs. *)
Lemma batch_preimage_height s h1 h2 b1 b2 :
  wf_hash (id_before s h1) -> wf_hash (id_before s h2) -> (0 <= h1 < 2 ^ 64)%Z -> (0 <= h2 < 2 ^ 64)%Z -> h1 <> h2 ->
  header b1 = mkBatchHeader h1 CryptoHash_default -> header b2 = mkBatchHeader h2 CryptoHash_default ->
  batch_preimage s h1 b1 <> batch_preimage s h2 b2.
Proof.
  intros Hp1 Hp2 Hh1 Hh2 Hne E1 E2. unfold batch_preimage. rewrite E1, E2.
  unfold borsh, borsh_MerklizedBatch, borsh, borsh_CryptoHash, borsh_BatchHeader, borsh. cbn.
  rewrite !borsh_u8_32_eq, !borsh_u64_eq. intros [_ E]%app_inj_1; [|by rewrite Hp1, Hp2].
  rewrite <- !app_assoc in E. apply app_inj_1 in E as [E _]; [|by rewrite !length_le_bytes].
  apply Hne. by apply (le_bytes_inj 8).
Qed.

Lemma chain_ok_ext s s' :
  num_batches s' = num_batches s -> batch_ids_by_height s' = batch_ids_by_height s ->
  batch_by_id s' = batch_by_id s -> chain_ok s -> chain_ok s'.
Proof. unfold chain_ok, linked, id_before. by intros -> -> ->. Qed.

Lemma epoch_step_batches env s s' :
  epoch_step env s s' -> num_batches s' = num_batches s /\
    batch_ids_by_height s' = batch_ids_by_height s /\ batch_by_id s' = batch_by_id s /\
    data_request_accumulator s' = data_request_accumulator s.
Proof. by intros (? & ? & ? & ? & ? & ? & ->)%epoch_step_frame. Qed.

Lemma chain_ok_batch s :
  chain_ok s -> (num_batches s + 1 < 2 ^ 64)%Z -> lm_get (batch_by_id s) (next_batch_id s (requests_root s)) = None ->
  chain_ok (batch_stored (requests_root s) s).
Proof.
  intros (Hr & Hn & Hc & Hi) Hleft Hnew.
  set (n := num_batches s) in *. set (id := next_batch_id s (requests_root s)) in *.
  assert (wrap 64 (n + 1) = n + 1)%Z as Hw by (apply wrap_small; lia).
  unfold chain_ok, batch_stored. cbn. fold n id. rewrite Hw. split_and!; [lia|lia| | |].
  - intros h Hh. rewrite lm_get_insert. case_decide; [lia|]. apply Hn. lia.
  - intros h Hh. unfold linked, id_before. cbn. rewrite !lm_get_insert.
    destruct (decide (n + 1 = h)%Z) as [<-|Hne].
    + exists id, (next_batch s). rewrite lm_get_insert, decide_True by done. split_and!; [done..| |].
      * unfold next_batch, next_header. cbn. fold n. by rewrite Hw.
      * rewrite decide_False by lia. by rewrite Z.add_simpl_r.
    + destruct (Hc h ltac:(lia)) as (id' & b & E' & Hb & Hhd & Hid). exists id', b.
      rewrite lm_get_insert, decide_False by congruence. split_and!; [done..|]. by rewrite decide_False by lia.
  - intros id'. rewrite lm_get_insert. case_decide as E.
    + intros _. exists (n + 1)%Z. by rewrite lm_get_insert, decide_True, E.
    + intros [h Hh]%Hi. exists h. rewrite lm_get_insert, decide_False; [done|].
      intros <-. by rewrite Hn in Hh by lia.
Qed.

(** If the hash of the next batch named an earlier one, the two would collide. *)
Lemma batch_id_taken s b :
  chain_ok s -> (num_batches s + 1 < 2 ^ 64)%Z -> lm_get (batch_by_id s) (next_batch_id s (requests_root s)) = Some b ->
  collision_among [batch_preimage s (height (header b)) b; batch_preimage s (num_batches s + 1) (next_batch s)].
Proof.
  intros Hok Hleft Hb. pose proof Hok as (Hr & Hn & Hc & Hi). destruct (Hi _ (ex_intro _ b Hb)) as [h Hh].
  destruct (decide (1 <= h <= num_batches s)%Z) as [Hin|]; [|by rewrite Hn in Hh by lia].
  destruct (Hc h Hin) as (id & b' & E & Eb & Hhd & Hid). rewrite Hh in E. injection E as <-. rewrite Hb in Eb. injection Eb as <-.
  rewrite Hhd. cbn [height]. eexists _, _. split_and!; [left|right; left| |].
  - apply batch_preimage_height; [apply chain_id_wf, Hok..|lia|lia|lia|done|].
    cbn. unfold next_header. by rewrite wrap_small by lia.
  - injection Hid as Hid. unfold batch_preimage. rewrite <- Hid. unfold id_before. by rewrite Z.add_simpl_r.
Qed.

Lemma chain_ok_step s s' : chain_ok s -> step batch_id_new s s' -> chain_ok s'.
Proof.
  intros Hok Hs. destruct Hs as [env c s s' [Hleft Hnew] Hr%run_effect|s t' _]; [|done].
  destruct Hr as [c s' (_ & _ & _ & _ & Hn & Hi & Hb & _)|s' He|r|? ? ? ? s1 He _ _|key value c _ _ _].
  - by eapply chain_ok_ext.
  - apply epoch_step_batches in He as (? & ? & ? & _). by eapply chain_ok_ext.
  - done.
  - pose proof (epoch_step_batches _ _ _ He) as (Hn & Hi & Hb & Ha).
    set (s2 := set_last_generated_random_number (next_random env leader_sig) s1).
    apply (chain_ok_batch s2).
    + by eapply chain_ok_ext; [..|exact Hok].
    + unfold counter_left in Hleft. cbn. by rewrite Hn.
    + rewrite <- Hnew. unfold next_batch_id, requests_root, next_header, get_latest_batch_id. cbn. by rewrite Hn, Hi, Hb, Ha.
  - done.
Qed.

Lemma initial_chain_ok s : initial s -> chain_ok s.
Proof.
  intros (d & supply & size & seed & meta & t & _ & _ & _ & _ & ->)%initial_state.
  split_and!; cbn; [lia|lia| |lia|]; [intros h _; apply lm_get_new|]. intros id. rewrite lm_get_new. by intros [].
Qed.

(** Heights already batched keep their ids, and the counter only grows. *)
Definition ids_extended (s s' : MainchainContract) : Prop :=
  (num_batches s <= num_batches s')%Z /\
  forall h, (h <= num_batches s)%Z -> lm_get (batch_ids_by_height s') h = lm_get (batch_ids_by_height s) h.

Lemma ids_extended_step s s' :
  (0 <= num_batches s)%Z -> step counter_left s s' -> ids_extended s s'.
Proof.
  intros Hn0 Hs. destruct Hs as [env c s s' Hleft Hr%run_effect|s t' _]; [|by split].
  unfold counter_left in Hleft.
  destruct Hr as [c s' (_ & _ & _ & _ & Hn & Hi & _)|s' He|r|? ? ? ? s1 He _ _|key value c _ _ _].
  - split; [lia|]. by rewrite Hi.
  - apply epoch_step_batches in He as (Hn & Hi & _). split; [lia|]. by rewrite Hi.
  - by split.
  - apply epoch_step_batches in He as (Hn & Hi & _). unfold ids_extended. cbn. rewrite Hn, Hi.
    rewrite wrap_small by lia. split; [lia|]. intros h Hh. rewrite lm_get_insert.
    by rewrite decide_False by lia.
  - by split.
Qed.

End chain.

(** ** The registry and the stakes *)

Section registry.
Context `{SDK : NearSdk} `{BN : Bn254}.

(** The nodes of the registry as a finite map *)
Definition registry_repr (s : MainchainContract) (g : gmap AccountId Node) : Prop :=
  forall a, internal_get_node s a = g !! a.

Definition stakes (g : gmap AccountId Node) : gmap AccountId Z := balance <$> g.

(** A node is active or inactive, not both; pending nodes are inactive. *)
Definition registry_shape (s : MainchainContract) : Prop :=
  (forall a, um_get (active_nodes s) a = None \/ um_get (inactive_nodes s) a = None) /\
  (forall a e, um_get (pending_nodes s) a = Some e -> is_Some (um_get (inactive_nodes s) a)).

(** Both keys of a node lead to its account. *)
Definition keys_indexed (s : MainchainContract) : Prop :=
  forall a n, internal_get_node s a = Some n ->
    lm_get (nodes_by_ed25519_public_key s) (ed25519_public_key n) = Some a /\
    lm_get (nodes_by_bn254_public_key s) (bn254_public_key n) = Some a.

(** The nodes' balances add up to the contract's total stake. *)
Definition stakes_ok (s : MainchainContract) : Prop :=
  exists g, registry_repr s g /\ map_Forall (fun _ n => 0 <= balance n)%Z g /\
    sum_map (stakes g) = last_total_balance s.

Definition registry_ok (s : MainchainContract) : Prop :=
  registry_shape s /\ keys_indexed s /\ stakes_ok s.

(** The calls the bookkeeping relies on: overflow is checked, an account
    registers once, and a node does not unregister while it is pending. *)
Definition guarded (env : Env) (c : Call) (s : MainchainContract) : Prop :=
  overflow_checks env = true /\
  match c with
  | RegisterNode _ _ _ => internal_get_node s (signer_account_id env) = None
  | UnregisterNode pk => forall a, lm_get (nodes_by_ed25519_public_key s) pk = Some a ->
      um_get (pending_nodes s) a = None
  | _ => True
  end.

Lemma internal_get_node_none s a :
  internal_get_node s a = None <-> um_get (active_nodes s) a = None /\ um_get (inactive_nodes s) a = None.
Proof.
  unfold internal_get_node. destruct (um_get (active_nodes s) a), (um_get (inactive_nodes s) a); naive_solver.
Qed.

(** *** Moving one node *)

Lemma registry_update_get env a n s b :
  internal_get_node (registry_update env a n s) b = if decide (a = b) then Some n else internal_get_node s b.
Proof.
  unfold registry_update, internal_get_node.
  destruct (_ <=? _)%Z, (um_get (active_nodes s) a) eqn:E; cbn;
    rewrite ?um_get_insert, ?um_get_remove; case_decide; subst; by rewrite ?E.
Qed.

Lemma registry_update_shape env a n s : registry_shape s -> registry_shape (registry_update env a n s).
Proof.
  intros [Hd Hp]. unfold registry_update, registry_shape.
  destruct (_ <=? _)%Z, (um_get (active_nodes s) a) as [n'|] eqn:E; cbn; split; intros b;
    rewrite ?um_get_insert, ?um_get_remove; try case_decide; subst; eauto;
    try (destruct (Hd b); [congruence|by right]); intros; by apply (Hp _ e).
Qed.

Lemma registry_update_keys env a n s :
  nodes_by_ed25519_public_key (registry_update env a n s) = nodes_by_ed25519_public_key s /\
  nodes_by_bn254_public_key (registry_update env a n s) = nodes_by_bn254_public_key s /\
  last_total_balance (registry_update env a n s) = last_total_balance s.
Proof. by destruct (registry_update_frame env a n s) as (? & ? & ? & ->). Qed.

(** Replacing the balance of a registered node *)
Lemma keys_indexed_balance s s' a n n' :
  keys_indexed s -> internal_get_node s a = Some n ->
  ed25519_public_key n' = ed25519_public_key n -> bn254_public_key n' = bn254_public_key n ->
  (forall b, internal_get_node s' b = if decide (a = b) then Some n' else internal_get_node s b) ->
  nodes_by_ed25519_public_key s' = nodes_by_ed25519_public_key s ->
  nodes_by_bn254_public_key s' = nodes_by_bn254_public_key s -> keys_indexed s'.
Proof.
  intros Hk Hn He Hb Hg Hke Hkb b m. rewrite Hg, Hke, Hkb.
  case_decide; [intros [= <-]; subst; rewrite He, Hb|]; by apply Hk.
Qed.

Lemma stakes_insert s s' a n n' g :
  registry_repr s g -> map_Forall (fun _ n => 0 <= balance n)%Z g -> internal_get_node s a = Some n ->
  (forall b, internal_get_node s' b = if decide (a = b) then Some n' else internal_get_node s b) ->
  (0 <= balance n')%Z ->
  registry_repr s' (<[a := n']> g) /\ map_Forall (fun _ n => 0 <= balance n)%Z (<[a := n']> g) /\
  sum_map (stakes (<[a := n']> g)) = (sum_map (stakes g) + balance n' - balance n)%Z.
Proof.
  intros Hr Hpos Hn Hg Hb. split_and!.
  - intros b. rewrite Hg, lookup_insert, Hr. done.
  - by apply map_Forall_insert_2.
  - unfold stakes. rewrite fmap_insert, sum_map_insert, lookup_fmap, <- Hr, Hn. done.
Qed.

Lemma registry_ok_move s s' a n n' :
  registry_ok s -> registry_shape s' -> internal_get_node s a = Some n ->
  ed25519_public_key n' = ed25519_public_key n -> bn254_public_key n' = bn254_public_key n ->
  (forall b, internal_get_node s' b = if decide (a = b) then Some n' else internal_get_node s b) ->
  nodes_by_ed25519_public_key s' = nodes_by_ed25519_public_key s ->
  nodes_by_bn254_public_key s' = nodes_by_bn254_public_key s ->
  (0 <= balance n')%Z ->
  (last_total_balance s' = last_total_balance s + balance n' - balance n)%Z ->
  registry_ok s'.
Proof.
  intros (_ & Hk & g & Hr & Hpos & Hsum) Hs Hn He Hb Hg Hke Hkb Hb' Ht.
  split_and!; [done|by eapply keys_indexed_balance|].
  destruct (stakes_insert s s' a n n' g) as (? & ? & E); [done..|].
  eexists. split_and!; [done..|]. by rewrite E, Hsum.
Qed.

End registry.

Section registry_steps.
Context `{SDK : NearSdk} `{BN : Bn254}.

Lemma registry_ok_ext s s' :
  active_nodes s' = active_nodes s -> inactive_nodes s' = inactive_nodes s ->
  pending_nodes s' = pending_nodes s ->
  nodes_by_ed25519_public_key s' = nodes_by_ed25519_public_key s ->
  nodes_by_bn254_public_key s' = nodes_by_bn254_public_key s ->
  last_total_balance s' = last_total_balance s -> registry_ok s -> registry_ok s'.
Proof.
  unfold registry_ok, registry_shape, keys_indexed, stakes_ok, registry_repr, internal_get_node.
  by intros -> -> -> -> -> ->.
Qed.

Lemma registry_ok_deposit env amount pk v u v' :
  overflow_checks env = true -> (0 <= amount)%Z ->
  deposit env amount pk v = Ret (u, v') -> registry_ok (self v) -> registry_ok (self v').
Proof.
  intros Hov Ham Hd Hok.
  apply deposit_ret in Hd as (a & n & b & user & node & total & Ha & Hn & Hb & Hu & Hnode & Ht & -> & _).
  unfold add_w in *. pose proof (arith_range _ 128 _ _ _ ltac:(lia) Hnode).
  apply arith_exact in Hnode, Ht; [|done..]. subst node total.
  set (s1 := set_token (accounts_insert (signer_account_id env) user (token (self v))) (self v)).
  destruct (registry_update_keys env a (node_with_balance n (balance n + amount)) s1) as (Hke & Hkb & _).
  apply (registry_ok_move (self v) _ a n (node_with_balance n (balance n + amount)));
    try done; [|intros; apply (registry_update_get env a _ s1)|cbn; lia|cbn; lia].
  apply (registry_update_shape env a _ s1). apply Hok.
Qed.

Lemma registry_ok_withdraw env amount pk v u v' :
  overflow_checks env = true ->
  withdraw env amount pk v = Ret (u, v') -> registry_ok (self v) -> registry_ok (self v').
Proof.
  intros Hov Hw Hok.
  apply withdraw_ret in Hw as (a & n & b & d & dep & req & user & node & rest & total & Hr).
  destruct Hr as (_ & _ & _ & _ & Hn & _ & _ & _ & _ & _ & _ & Hnode & _ & Ht & ->).
  unfold sub_w in *. pose proof (arith_range _ 128 _ _ _ ltac:(lia) Hnode).
  apply arith_exact in Hnode, Ht; [|done..]. subst node total.
  set (s1 := set_token (accounts_insert (signer_account_id env) user (token (self v))) (self v)).
  destruct (registry_update_keys env a (node_with_balance n (balance n - amount)) s1) as (Hke & Hkb & _).
  apply (registry_ok_move (self v) _ a n (node_with_balance n (balance n - amount)));
    try done; [|intros; apply (registry_update_get env a _ s1)|cbn; lia|cbn; lia].
  apply (registry_update_shape env a _ s1). apply Hok.
Qed.

Lemma registry_ok_update env addr v u v' :
  update_node env (SetSocketAddress addr) v = Ret (u, v') -> registry_ok (self v) -> registry_ok (self v').
Proof.
  intros Hu Hok. apply update_node_ret in Hu as (n & Hn & ->).
  pose proof Hok as ([Hd Hp] & _ & g & Hr & Hpos & _).
  assert (0 <= balance n)%Z as Hb by (rewrite Hr in Hn; exact (Hpos _ _ Hn)).
  set (a := signer_account_id env) in *. set (s := self v) in *.
  apply (registry_ok_move s _ a n (node_with_multi_addr n addr)); try done;
    unfold updated_state, registry_shape, internal_get_node;
    destruct (um_get (active_nodes s) a) as [n'|] eqn:E; cbn; try done; try lia.
  - split; [|done]. intros b. rewrite um_get_insert. case_decide; subst; [|done].
    destruct (Hd a); [congruence|by right].
  - split; intros b; rewrite um_get_insert; case_decide; subst; eauto.
  - intros b. rewrite um_get_insert. case_decide; by subst.
  - intros b. rewrite um_get_insert. case_decide; subst; [by rewrite E|done].
Qed.

Lemma registry_ok_register env addr bn sig v u v' :
  internal_get_node (self v) (signer_account_id env) = None ->
  register_node env addr bn sig v = Ret (u, v') -> registry_ok (self v) -> registry_ok (self v').
Proof.
  intros Hfresh Hr ([Hd Hp] & Hk & g & Hg & Hpos & Hsum).
  apply register_node_ret in Hr as (Hbn & Hed & _ & -> & _). set (s := self v) in *. cbn [self].
  set (me := signer_account_id env) in *. set (n := mkNode addr 0 bn (signer_account_pk env)).
  assert (forall b, internal_get_node (registered_state me n s) b =
            if decide (me = b) then Some n else internal_get_node s b) as Hget.
  { intros b. apply internal_get_node_none in Hfresh as [Ea _]. unfold internal_get_node. cbn.
    rewrite um_get_insert. case_decide; subst; [by rewrite Ea|done]. }
  split_and!.
  - apply internal_get_node_none in Hfresh as [Ea _].
    split; cbn; intros b; rewrite um_get_insert; case_decide; subst; eauto.
  - intros b m. rewrite Hget. cbn. rewrite !lm_get_insert. case_decide as Hme.
    + intros [= <-]. subst. by rewrite !decide_True.
    + intros Hm. apply Hk in Hm as [He Hb].
      rewrite !decide_False; [done|intros ?; congruence..].
  - exists (<[me := n]> g). split_and!.
    + intros b. by rewrite Hget, lookup_insert, Hg.
    + by apply map_Forall_insert_2.
    + unfold stakes. rewrite fmap_insert, sum_map_insert, lookup_fmap, <- Hg, Hfresh.
      cbn. unfold stakes in Hsum. rewrite Hsum. lia.
Qed.

Lemma registry_ok_unregister env pk v u v' :
  (forall a, lm_get (nodes_by_ed25519_public_key (self v)) pk = Some a ->
     um_get (pending_nodes (self v)) a = None) ->
  unregister_node env pk v = Ret (u, v') -> registry_ok (self v) -> registry_ok (self v').
Proof.
  intros Hpend Hr ([Hd Hp] & Hk & g & Hg & Hpos & Hsum).
  apply unregister_node_ret in Hr as (a & n & cost & _ & Ha & Hn & Hz & -> & _).
  specialize (Hpend a Ha). set (s := self v) in *. set (s' := set_inactive_nodes _ s).
  assert (forall b, internal_get_node s' b =
            if decide (a = b) then um_get (active_nodes s) a else internal_get_node s b) as Hget.
  { intros b. unfold s', internal_get_node. cbn. rewrite um_get_remove.
    case_decide; subst; [by destruct (um_get (active_nodes s) b)|done]. }
  split_and!.
  - split; cbn; intros b; rewrite um_get_remove; case_decide; subst; eauto. intros e He. congruence.
  - intros b m. rewrite Hget. case_decide; [subst|apply Hk].
    intros Hm. apply Hk. unfold internal_get_node. by rewrite Hm.
  - destruct (um_get (active_nodes s) a) as [n'|] eqn:Eact.
    + exists g. split_and!; [|done..]. intros b. rewrite Hget, <- Hg. case_decide; [subst|done].
      unfold internal_get_node. by rewrite Eact.
    + exists (delete a g). split_and!.
      * intros b. rewrite Hget, lookup_delete, Hg. by case_decide.
      * by apply map_Forall_delete.
      * cbn. rewrite <- Hsum. unfold stakes. rewrite fmap_delete.
        rewrite (sum_map_delete (balance <$> g) a 0); [lia|]. by rewrite lookup_fmap, <- Hg, Hn, <- Hz.
Qed.

End registry_steps.

Section registry_reachable.
Context `{SDK : NearSdk} `{BN : Bn254}.

(** Activation moves nodes but keeps them registered. *)
Lemma activated_get l s s' a :
  registry_shape s -> (forall a, a ∈ l -> is_Some (um_get (inactive_nodes s) a)) ->
  activated l s s' -> internal_get_node s' a = internal_get_node s a.
Proof.
  intros [Hd _] Hin (Ha & Hi & _ & _). unfold internal_get_node. rewrite Ha, Hi.
  case_decide as Hl; [|done]. destruct (Hin a Hl) as [n Hn]. rewrite Hn.
  destruct (Hd a) as [E|E]; [by rewrite E|congruence].
Qed.

Lemma activated_shape l s s' :
  registry_shape s -> activated l s s' -> registry_shape s'.
Proof.
  intros [Hd Hp] (Ha & Hi & Hpen & _). split.
  - intros a. rewrite Ha, Hi. case_decide; [by right|done].
  - intros a e. rewrite Hpen, Hi. case_decide; [done|apply Hp].
Qed.

Lemma registry_ok_activated l s s' :
  (forall a, a ∈ l -> is_Some (um_get (inactive_nodes s) a)) ->
  activated l s s' -> registry_ok s -> registry_ok s'.
Proof.
  intros Hin Ha (Hs & Hk & g & Hg & Hpos & Hsum).
  assert (forall a, internal_get_node s' a = internal_get_node s a) as Hget.
  { intros a. by eapply activated_get. }
  pose proof (activated_shape _ _ _ Hs Ha) as Hs'. destruct Ha as (_ & _ & _ & E).
  split_and!; [done| |].
  - intros a n. rewrite Hget, E. apply Hk.
  - exists g. split_and!; [intros a; by rewrite Hget|done|by rewrite E].
Qed.

Lemma registry_ok_epoch env s s' : epoch_step env s s' -> registry_ok s -> registry_ok s'.
Proof.
  intros [[_ ->]|(_ & s1 & Ha & Hin & Hp)] Hok; [done|].
  apply (registry_ok_activated _ _ _ Hin Ha) in Hok.
  destruct Hp as [(_ & _ & ->)|(_ & c & _ & ->)]; [done|]. by eapply registry_ok_ext; [..|exact Hok].
Qed.

Lemma registry_ok_exec env c v u v' :
  wf_call c -> guarded env c (self v) -> exec env c v = Ret (u, v') ->
  registry_ok (self v) -> registry_ok (self v').
Proof.
  intros Hwf [Hov Hg] Hr. destruct c; cbn [exec wf_call] in *.
  - by eapply registry_ok_register.
  - by eapply registry_ok_unregister.
  - destruct command. by eapply registry_ok_update.
  - eapply registry_ok_deposit; [done| |done]. lia.
  - inv_run. match goal with H : request_withdraw _ _ _ _ = _ |- _ => apply request_withdraw_ret in H as
      (? & ? & ? & ? & _ & _ & _ & _ & _ & _ & _ & _ & _ & -> & _) end. by apply registry_ok_ext.
  - apply cancel_withdraw_request_ret in Hr as [_ ->]. by apply registry_ok_ext.
  - by eapply registry_ok_withdraw.
  - by eapply registry_ok_epoch, process_epoch_ret.
  - apply post_data_request_ret in Hr as (-> & _). by apply registry_ok_ext.
  - apply post_signed_batch_ret in Hr as (s1 & He & _ & _ & ->). intros Hok.
    apply (registry_ok_epoch _ _ _ He) in Hok. by eapply registry_ok_ext; [..|exact Hok].
  - apply update_config_ret in Hr as (_ & _ & c & -> & _). by apply registry_ok_ext.
Qed.

Lemma registry_ok_step s s' : registry_ok s -> step guarded s s' -> registry_ok s'.
Proof.
  intros Hok Hs. destruct Hs as [env c s s' Hg (_ & Hwf & rs & Hr)|s t' _]; [|by eapply registry_ok_ext].
  by eapply registry_ok_exec in Hr.
Qed.

Lemma initial_registry_ok s : initial s -> registry_ok s.
Proof.
  intros (d & supply & size & seed & meta & t & _ & _ & _ & _ & ->)%initial_state.
  unfold registry_ok, registry_shape, keys_indexed, stakes_ok, registry_repr, internal_get_node.
  cbn. repeat setoid_rewrite um_get_new. split_and!; [by left|done|done|].
  exists ∅. split_and!; [intros; by rewrite lookup_empty|apply map_Forall_empty|].
  unfold stakes. by rewrite fmap_empty, sum_map_empty.
Qed.

Lemma reachable_registry_ok s : reachable guarded s -> registry_ok s.
Proof. apply reachable_ind; [apply initial_registry_ok|apply registry_ok_step]. Qed.

(** *** Activation cannot fail while pending nodes are inactive. *)

Lemma activate_nodes_total l v :
  NoDup l -> (forall a, a ∈ l -> is_Some (um_get (inactive_nodes (self v)) a)) ->
  exists v', activate_nodes l v = Ret (tt, v').
Proof.
  intros Hnd. revert v. induction Hnd as [|a l Ha Hnd IH]; intros v Hin; cbn; [by eexists|].
  destruct (Hin a ltac:(set_solver)) as [n Hn].
  set (v1 := mkVm (set_pending_nodes (um_remove (pending_nodes (self v)) a)
      (set_inactive_nodes (um_remove (inactive_nodes (self v)) a)
        (set_active_nodes (um_insert (active_nodes (self v)) a n) (self v)))) (receipts v)).
  assert (activate_node a v = Ret (tt, v1)) as E.
  { unfold activate_node. cbn. unfold mbind, M_bind, get_self, gets. cbn. by rewrite Hn. }
  destruct (IH v1) as [v' Hv'].
  - intros b Hb. cbn. rewrite um_get_remove, decide_False by set_solver. apply Hin. set_solver.
  - exists v'. unfold mbind, M_bind. by rewrite E.
Qed.

Lemma registry_activation s e :
  registry_shape s -> exists v', activate_nodes (eligible_nodes e s) (mkVm s []) = Ret (tt, v').
Proof.
  intros [_ Hp]. apply activate_nodes_total; [apply NoDup_eligible|].
  intros a (e' & He & _)%elem_of_eligible. by eapply Hp.
Qed.

End registry_reachable.
