(* ===== verification/Scenario.v ===== *)
(** * Concrete histories of the contract

    A small world to run the contract in: the reference instances of [RefSdk],
    two operators, and an interpreter [play] for scripts of calls, sound for
    the transition system of [ContractInvariants].  The witnesses and the
    concrete executions of [ContractTheorems] are scripts played here. *)

From S2P Require Import Prelude NearSdk Merkle Contract Committee NodeRegistry Batch ContractInvariants.
Import RefSdk.

(** A step of a script: a call in an environment, or a method of the token. *)
Inductive action :=
| Act (env : Env) (c : Call)
| TokenRegister (a : AccountId)
| TokenTransfer (a b : AccountId) (n : Z).

Definition wf_callb (c : Call) : bool :=
  match c with
  | Deposit a _ | RequestWithdraw a _ | Withdraw a _ | CallUpdateConfig _ a => in_width 128 a
  | _ => true
  end.
Definition wf_envb (env : Env) : bool :=
  in_width 64 (block_height env) && in_width 128 (attached_deposit env)
  && in_width 128 (storage_byte_cost env).

Definition play1 (gb : Env -> Call -> MainchainContract -> bool) (x : action) (s : MainchainContract)
    : option MainchainContract :=
  match x with
  | Act env c =>
      if gb env c s && wf_callb c && wf_envb env then
        match exec env c (mkVm s []) with Ret (_, v) => Some (self v) | Panic _ => None end
      else None
  | TokenRegister a =>
      match ref_register (token s) a with Ret t => Some (set_token t s) | Panic _ => None end
  | TokenTransfer a b n =>
      match ref_transfer (token s) a b n with Ret t => Some (set_token t s) | Panic _ => None end
  end.

Fixpoint play (gb : Env -> Call -> MainchainContract -> bool) (l : list action) (s : MainchainContract)
    : option MainchainContract :=
  match l with
  | [] => Some s
  | x :: l => match play1 gb x s with Some s => play gb l s | None => None end
  end.

(** The restrictions of [ContractInvariants] as tests *)
Definition any_callb (env : Env) (c : Call) (s : MainchainContract) : bool := true.
Definition checked_callb (env : Env) (c : Call) (s : MainchainContract) : bool := overflow_checks env.
Definition counter_leftb (env : Env) (c : Call) (s : MainchainContract) : bool :=
  (num_batches s + 1 <? 2 ^ 64)%Z.
Definition batch_id_newb (env : Env) (c : Call) (s : MainchainContract) : bool :=
  counter_leftb env c s &&
  match c with
  | PostSignedBatch _ _ _ _ => bool_decide (lm_get (batch_by_id s) (next_batch_id s (requests_root s)) = None)
  | _ => true
  end.
Definition guardedb (env : Env) (c : Call) (s : MainchainContract) : bool :=
  overflow_checks env &&
  match c with
  | RegisterNode _ _ _ => bool_decide (internal_get_node s (signer_account_id env) = None)
  | UnregisterNode pk =>
      match lm_get (nodes_by_ed25519_public_key s) pk with
      | Some a => bool_decide (um_get (pending_nodes s) a = None)
      | None => true
      end
  | _ => true
  end.

Lemma wf_callb_spec c : wf_callb c = true -> wf_call c.
Proof. destruct c; cbn -[Z.pow]; try done; apply in_width_spec. Qed.

Lemma wf_envb_spec env : wf_envb env = true -> wf_env env.
Proof. unfold wf_envb, wf_env. rewrite !andb_true_iff, !in_width_spec. tauto. Qed.

Lemma guardedb_spec env c s : guardedb env c s = true -> guarded env c s.
Proof.
  unfold guardedb, guarded. intros [Hov Hc]%andb_true_iff. split; [done|].
  destruct c; try done; [by apply bool_decide_eq_true in Hc|].
  intros a Ha. rewrite Ha in Hc. by apply bool_decide_eq_true in Hc.
Qed.

Lemma counter_leftb_spec env c s : counter_leftb env c s = true -> counter_left env c s.
Proof. apply Z.ltb_lt. Qed.

Lemma batch_id_newb_spec env c s : batch_id_newb env c s = true -> batch_id_new env c s.
Proof.
  unfold batch_id_newb, batch_id_new. intros [Hl Hc]%andb_true_iff. split; [by apply Z.ltb_lt|].
  destruct c; try done. by apply bool_decide_eq_true in Hc.
Qed.

Lemma play_step (P : Env -> Call -> MainchainContract -> Prop) gb l s s' :
  (forall env c s, gb env c s = true -> P env c s) ->
  play gb l s = Some s' -> rtc (step P) s s'.
Proof.
  intros Hgb. revert s. induction l as [|x l IH]; intros s Hp; cbn in Hp; [injection Hp as ->; apply rtc_refl|].
  destruct (play1 gb x s) as [s1|] eqn:E; [|done]. eapply rtc_l; [|by apply IH].
  destruct x as [env c|a|a b n]; cbn in E.
  - destruct (_ && _) eqn:Hb; [|done]. bool_to_prop.
    destruct (exec env c (mkVm s [])) as [[[] [s2 rs]]|] eqn:Hr; [|done]. injection E as <-.
    apply (step_call _ env c); [by apply Hgb|].
    split_and!; [by apply wf_envb_spec|by apply wf_callb_spec|eauto].
  - destruct (ref_register _ a) as [t|] eqn:Hr; [|done]. injection E as <-. apply step_token. right. eauto.
  - destruct (ref_transfer _ a b n) as [t|] eqn:Hr; [|done]. injection E as <-. apply step_token. left. eauto.
Qed.

(** ** The world *)

(** 100 bytes per registered node, 16 per pending one, 40 per node with requests;
    the host stops at a terabyte. *)
Definition usage (s : MainchainContract) : Z :=
  Z.min (10 ^ 12)
    (1000 + 100 * um_len (active_nodes s) + 100 * um_len (inactive_nodes s)
     + 16 * um_len (pending_nodes s) + 40 * Z.of_nat (length (withdraw_requests s)))%Z.

Definition seda : Z := 10 ^ 24.

(** A call at block [h], signed by [a] with key [pk]; [ov] is the profile. *)
Definition world (ov : bool) (h : Z) (a : AccountId) (pk : bytes) : Env := {|
  block_height := h; signer_account_id := a; signer_account_pk := pk;
  attached_deposit := 10 ^ 23; storage_byte_cost := 10 ^ 19; storage_usage := usage;
  state_exists := false; overflow_checks := ov; gas := 4
|}.

Definition alice : AccountId := "alice.near".
Definition bob : AccountId := "bob.near".
Definition the_dao : AccountId := "dao.near".
Definition alice_ed : bytes := le_bytes 33 100.
Definition bob_ed : bytes := le_bytes 33 200.
Definition alice_bn : bytes := le_bytes 128 5.
Definition bob_bn : bytes := le_bytes 128 7.

(** Signatures of the toy scheme of [RefSdk] *)
Definition sign (k : Z) (m : bytes) : bytes := le_bytes 64 (wrap 512 (k + le_val m)).

Definition genesis : MainchainContract :=
  match new_contract (world true 0 the_dao []) the_dao (10 ^ 29) tt 2 12345 with
  | Ret s => s
  | Panic _ => mkContract ft_new None EmptyString Config_default um_new um_new um_new lm_new lm_new lm_new
                 vec_new 0 lm_new lm_new 0 lm_new CryptoHash_default true 0 0 lm_new
  end.

Lemma genesis_initial : initial genesis.
Proof.
  exists (world true 0 the_dao []), the_dao, (10 ^ 29)%Z, tt, 2%Z, 12345%Z.
  split_and!; [lia..|]. unfold genesis.
  assert (is_ret (new_contract (world true 0 the_dao []) the_dao (10 ^ 29) tt 2 12345) = true) as E
    by (vm_compute; reflexivity).
  by destruct (new_contract _ _ _ _ _ _).
Qed.

(** Alice and Bob get tokens and register their nodes. *)
Definition funding : list action :=
  [TokenRegister alice; TokenRegister bob;
   TokenTransfer the_dao alice (1000 * seda); TokenTransfer the_dao bob (1000 * seda)].
Definition registering (ov : bool) : list action :=
  [Act (world ov 5 alice alice_ed)
     (RegisterNode "/ip4/1" alice_bn (sign 5 (String.list_byte_of_string alice)));
   Act (world ov 6 bob bob_ed)
     (RegisterNode "/ip4/2" bob_bn (sign 7 (String.list_byte_of_string bob)))].

(** Both stake 300 SEDA and are active from epoch 2 on. *)
Definition staking (ov : bool) : list action :=
  [Act (world ov 7 alice alice_ed) (Deposit (300 * seda) alice_ed);
   Act (world ov 8 bob bob_ed) (Deposit (300 * seda) bob_ed)].

Definition setup (ov : bool) : list action := funding ++ registering ov ++ staking ov.

(** Epoch 2 starts at block 640. *)
Definition bootstrap (ov : bool) : list action := [Act (world ov 640 bob bob_ed) ProcessEpoch].

Definition played gb l : MainchainContract := default genesis (play gb l genesis).

Lemma played_reachable P gb l :
  (forall env c s, gb env c s = true -> P env c s) ->
  bool_decide (is_Some (play gb l genesis)) = true -> reachable P (played gb l).
Proof.
  intros Hgb Hp%bool_decide_eq_true. exists genesis. split; [apply genesis_initial|].
  unfold played. destruct (play gb l genesis) as [s|] eqn:E; [|by destruct Hp].
  by eapply play_step.
Qed.

(** The machine after a method that returns; a method that panics leaves it. *)
Definition after (m : M vm unit) (v : vm) : vm :=
  match m v with Ret (_, v') => v' | Panic _ => v end.

Lemma after_ret m v : is_ret (m v) = true -> m v = Ret (tt, after m v).
Proof. unfold after. by destruct (m v) as [[[] v']|]. Qed.

(** A call in a state, seen as a transition *)
Definition result_of (env : Env) (c : Call) (s : MainchainContract) : MainchainContract :=
  self (after (exec env c) (mkVm s [])).

Lemma result_run env c s :
  wf_envb env && wf_callb c && is_ret (exec env c (mkVm s [])) = true -> run env c s (result_of env c s).
Proof.
  intros [[He Hc]%andb_true_iff Hr]%andb_true_iff. split_and!; [by apply wf_envb_spec|by apply wf_callb_spec|].
  apply after_ret in Hr. exists (receipts (after (exec env c) (mkVm s []))). rewrite Hr.
  unfold result_of. by destruct (after _ _).
Qed.

(** Reached states the witnesses start from *)
Definition registered : MainchainContract := played guardedb (funding ++ registering true).
Definition staked : MainchainContract := played guardedb (setup true).
Definition running : MainchainContract := played guardedb (setup true ++ bootstrap true).
Definition requested : MainchainContract :=
  played guardedb (setup true ++ [Act (world true 9 alice alice_ed) (RequestWithdraw (200 * seda) alice_ed)]).

(** A data request and the batch that closes it, posted by the slot leader *)
Definition with_request : MainchainContract :=
  played guardedb (setup true ++ bootstrap true ++ [Act (world true 641 bob bob_ed) (PostDataRequest "price")]).
Definition leader_signature (s : MainchainContract) : bytes :=
  sign 5 (U256_to_le_bytes (last_generated_random_number s)).
Definition batch_call (s : MainchainContract) : Call :=
  PostSignedBatch (sign 12 (requests_root s)) (le_bytes 128 12) [alice; bob] (leader_signature s).
Definition batch_env : Env := world true 641 alice alice_ed.
Definition batch_script : list action :=
  setup true ++ bootstrap true ++
  [Act (world true 641 bob bob_ed) (PostDataRequest "price"); Act batch_env (batch_call with_request)].
Definition batched : MainchainContract := result_of batch_env (batch_call with_request) with_request.

#[export] Instance outcome_eq_decision {A} `{EqDecision A} : EqDecision (outcome A).
Proof. solve_decision. Defined.

(** [fair] as a test *)
Definition fairb (env : Env) (random n size : Z) : bool :=
  forallb (fun start =>
    forallb (fun idx =>
      existsb (fun t => bool_decide (draw random (start + Z.of_nat t) n = Ret idx)) (seq 0 (gas env)))
      (below (Z.to_nat n)))
    (below (Z.to_nat (size * (Z.of_nat (gas env) + 2) + 1))).


Lemma fairb_spec env random n size :
  (0 <= size)%Z -> fairb env random n size = true -> fair env random n size.
Proof.
  unfold fairb, fair, drawn. intros Hs Hf start idx Hst Hi.
  rewrite forallb_forall in Hf. specialize (Hf start).
  assert (List.In start (below (Z.to_nat (size * (Z.of_nat (gas env) + 2) + 1)))) as Hin.
  { apply list_elem_of_In, elem_of_below. lia. }
  apply Hf in Hin. rewrite forallb_forall in Hin.
  assert (List.In idx (below (Z.to_nat n))) as Hidx by (apply list_elem_of_In, elem_of_below; lia).
  apply Hin, existsb_exists in Hidx as (t & Ht & Hd).
  exists t. split; [apply in_seq in Ht; lia|]. by apply bool_decide_eq_true in Hd.
Qed.
