(* ===== verification/ContractTheorems.v ===== *)
(** * Properties of the mainchain contract

    The theorems about the contract that a client, an operator or the DAO can
    rely on, each with a concrete history where it applies, and the executions
    that show where the contract departs from what it means to do. *)

From S2P Require Import Prelude NearSdk Merkle Contract Committee NodeRegistry Batch ContractInvariants Scenario.

(** ** Deposits, withdrawals, requests *)

Section stakes.
Context `{SDK : NearSdk} `{BN : Bn254} (env : Env).

Abbreviation me := (signer_account_id env).

(** What [account] has on record for the node with key [pk] *)
Definition deposit_of (s : MainchainContract) (account : AccountId) (pk : bytes) : option Balance :=
  lm_get (depositors s) account ≫= fun d => um_get d pk.
Definition token_of (s : MainchainContract) (account : AccountId) : option Balance :=
  lm_get (ft_accounts (token s)) account.
Definition request_of (s : MainchainContract) (account : AccountId) (pk : bytes) : option WithdrawRequest :=
  lm_get (requests_of s pk) account.

(** Parts of the state that deposits and withdrawals leave alone *)
Definition same_index (s s' : MainchainContract) : Prop :=
  same_core s s' /\ ft_total_supply (token s') = ft_total_supply (token s) /\
  nodes_by_ed25519_public_key s' = nodes_by_ed25519_public_key s /\
  nodes_by_bn254_public_key s' = nodes_by_bn254_public_key s.

Lemma deposit_of_insert s d0 pk amount k q account :
  um_get d0 q = deposit_of s account q ->
  (lm_get (lm_insert (depositors s) account (um_insert d0 pk amount)) k ≫= fun d => um_get d q) =
  if decide (account = k /\ pk = q) then Some amount else deposit_of s k q.
Proof.
  intros Hd. rewrite lm_get_insert. unfold deposit_of in *. repeat case_decide; subst; cbn;
    rewrite ?um_get_insert; repeat case_decide; naive_solver.
Qed.

Lemma token_of_insert s t a b k :
  t = accounts_insert a b (token s) ->
  lm_get (ft_accounts t) k = if decide (a = k) then Some b else token_of s k.
Proof. intros ->. unfold accounts_insert. by rewrite ft_accounts_with, lm_get_insert. Qed.

Lemma deposit_of_default s k q :
  um_get (default um_new (lm_get (depositors s) k)) q = deposit_of s k q.
Proof. unfold deposit_of. destruct (lm_get _ k); cbn; [done|]. by rewrite um_get_new. Qed.

Lemma same_index_registry a n t s x y :
  ft_total_supply t = ft_total_supply (token s) ->
  same_index s (set_last_total_balance x (set_depositors y (registry_update env a n (set_token t s)))).
Proof.
  intros Ht. unfold same_index.
  pose proof (same_core_registry_update env a n t s) as Hc.
  destruct (registry_update_keys env a n (set_token t s)) as (He & Hb & _).
  split_and!; [exact Hc| |exact He|exact Hb]. cbn. by rewrite registry_update_token.
Qed.

Lemma same_index_requests s s' pk m : same_index s s' -> same_index s (set_requests_of pk m s').
Proof. done. Qed.

(** C16: A deposit that succeeds (with overflow checks) moves exactly [amount]
    from the caller's token account to the stake of the node registered under
    the key, raises the total stake by it, and changes no other account, node,
    request, key, committee, batch or setting; the caller's deposit record for
    the node becomes [amount]. *)
Theorem deposit_correct amount pk v v' :
  overflow_checks env = true -> deposit env amount pk v = Ret (tt, v') ->
  let s := self v in let s' := self v' in
  exists a n b,
    lm_get (nodes_by_ed25519_public_key s) pk = Some a /\ internal_get_node s a = Some n /\
    token_of s me = Some b /\ (amount <= b)%Z /\
    (forall k, token_of s' k = if decide (me = k) then Some (b - amount)%Z else token_of s k) /\
    (forall k, internal_get_node s' k =
       if decide (a = k) then Some (node_with_balance n (balance n + amount)) else internal_get_node s k) /\
    last_total_balance s' = (last_total_balance s + amount)%Z /\
    (forall k q, deposit_of s' k q = if decide (me = k /\ pk = q) then Some amount else deposit_of s k q) /\
    withdraw_requests s' = withdraw_requests s /\ same_index s s' /\ receipts v' = receipts v.
Proof.
  intros Hov Hd s s'.
  apply deposit_ret in Hd as (a & n & b & user & node & total & Ha & Hn & Hb & Hu & Hnode & Ht & Hv & _).
  subst s'. rewrite Hv. cbn [self receipts]. unfold add_w, sub_w in *. rewrite Hov in *.
  apply arith_checked in Hu as [-> ?], Hnode as [-> ?], Ht as [-> ?]. exists a, n, b.
  set (s1 := set_token (accounts_insert me (b - amount) (token s)) s).
  destruct (registry_update_frame env a (node_with_balance n (balance n + amount)) s1) as (x & y & z & E).
  split_and!; try done.
  - lia.
  - intros k. unfold token_of, deposited_state. fold s s1. apply token_of_insert. by rewrite E.
  - intros k. by apply (registry_update_get env a _ s1).
  - intros k q. unfold deposited_state. fold s s1. cbn. rewrite E. cbn.
    apply (deposit_of_insert s), deposit_of_default.
  - unfold deposited_state. fold s s1. cbn. by rewrite E.
  - apply same_index_registry. apply supply_accounts_insert.
Qed.

(** C17: A withdrawal that succeeds takes a positive amount, at most the node's
    stake and at most the caller's recorded deposit, on a request of the caller
    whose epoch has come; it pays exactly [amount] (with overflow checks), and
    it uses the request up. *)
Theorem withdraw_correct amount pk v v' :
  overflow_checks env = true -> withdraw env amount pk v = Ret (tt, v') ->
  let s := self v in let s' := self v' in
  exists a n b dep req,
    lm_get (nodes_by_ed25519_public_key s) pk = Some a /\ internal_get_node s a = Some n /\
    token_of s me = Some b /\ deposit_of s me pk = Some dep /\ request_of s me pk = Some req /\
    (0 < amount <= dep)%Z /\ (amount <= balance n)%Z /\ (request_epoch req <= get_current_epoch env)%Z /\
    (forall k, token_of s' k = if decide (me = k) then Some (b + amount)%Z else token_of s k) /\
    (forall k, internal_get_node s' k =
       if decide (a = k) then Some (node_with_balance n (balance n - amount)) else internal_get_node s k) /\
    last_total_balance s' = (last_total_balance s - amount)%Z /\
    (forall k q, deposit_of s' k q = if decide (me = k /\ pk = q) then Some (dep - amount)%Z else deposit_of s k q) /\
    (forall k q, request_of s' k q = if decide (me = k /\ pk = q) then None else request_of s k q) /\
    same_index s s'.
Proof.
  intros Hov Hw s s'.
  apply withdraw_ret in Hw as (a & n & b & d & dep & req & user & node & rest & total & Hr).
  destruct Hr as (Hpos & Hbal & Hdep & Ha & Hn & Hd & Hdp & Hreq & Hep & Hb & Hu & Hnode & Hrest & Ht & Hv).
  subst s'. rewrite Hv. fold s in Ha, Hn, Hd, Hreq, Hb, Ht. unfold add_w, sub_w in *. rewrite Hov in *.
  apply arith_checked in Hu as [-> ?], Hnode as [-> ?], Ht as [-> ?], Hrest as [-> ?].
  exists a, n, b, dep, req.
  set (s1 := set_token (accounts_insert me (b + amount) (token s)) s).
  destruct (registry_update_frame env a (node_with_balance n (balance n - amount)) s1) as (x & y & z & E).
  assert (deposit_of s me pk = Some dep) as Hdo by (unfold deposit_of; by rewrite Hd).
  split_and!; try done; try lia.
  - intros k. unfold token_of, withdrawn_state. fold s s1. apply token_of_insert. cbn. by rewrite E.
  - intros k. by apply (registry_update_get env a _ s1).
  - intros k q. unfold withdrawn_state. fold s s1. cbn. rewrite E. cbn.
    apply (deposit_of_insert s). unfold deposit_of. by rewrite Hd.
  - intros k q. unfold request_of, requests_of at 1, withdrawn_state. fold s s1. cbn. rewrite E. cbn.
    rewrite lm_get_insert. case_decide as Hq; cbn.
    + subst q. rewrite lm_get_remove. repeat case_decide; naive_solver.
    + rewrite decide_False by naive_solver. done.
  - unfold withdrawn_state. apply same_index_requests, same_index_registry, supply_accounts_insert.
Qed.

End stakes.

(** ** Who can change what *)

Section ownership.
Context `{SDK : NearSdk} `{BN : Bn254}.

(** What belongs to [k]: its tokens, its deposit records, its requests *)
Definition same_holdings (k : AccountId) (s s' : MainchainContract) : Prop :=
  token_of s' k = token_of s k /\ (forall q, deposit_of s' k q = deposit_of s k q) /\
  (forall q, request_of s' k q = request_of s k q).

Lemma same_holdings_ext k s s' :
  token s' = token s -> depositors s' = depositors s -> withdraw_requests s' = withdraw_requests s ->
  same_holdings k s s'.
Proof.
  intros Ht Hd Hw. unfold same_holdings, token_of, deposit_of, request_of, requests_of.
  by rewrite Ht, Hd, Hw.
Qed.

Lemma request_of_set_eq pk m s k q :
  request_of (set_requests_of pk m s) k q = if decide (pk = q) then lm_get m k else request_of s k q.
Proof.
  unfold request_of, requests_of, set_requests_of. cbn. rewrite lm_get_insert. by case_decide.
Qed.

Lemma registry_update_holdings env a n s :
  depositors (registry_update env a n s) = depositors s /\
  withdraw_requests (registry_update env a n s) = withdraw_requests s.
Proof. by destruct (registry_update_frame env a n s) as (? & ? & ? & ->). Qed.

Lemma deposited_holdings env amount pk a n x y z s k :
  k <> signer_account_id env -> same_holdings k s (deposited_state env amount pk a n x y z s).
Proof.
  intros Hk. unfold deposited_state, same_holdings, token_of, deposit_of, request_of, requests_of. cbn.
  destruct (registry_update_holdings env a (node_with_balance n y)
    (set_token (accounts_insert (signer_account_id env) x (token s)) s)) as [-> ->].
  rewrite registry_update_token. cbn. unfold accounts_insert. rewrite ft_accounts_with, !lm_get_insert.
  by rewrite !decide_False by done.
Qed.

Lemma withdrawn_holdings env pk a n d x y z w s k :
  k <> signer_account_id env -> same_holdings k s (withdrawn_state env pk a n d x y z w s).
Proof.
  intros Hk. unfold withdrawn_state.
  set (s1 := set_token (accounts_insert (signer_account_id env) x (token s)) s).
  destruct (registry_update_holdings env a (node_with_balance n y) s1) as [Hd Hw]. split_and!.
  - unfold token_of. cbn. rewrite registry_update_token. cbn. unfold accounts_insert.
    by rewrite ft_accounts_with, lm_get_insert, decide_False by done.
  - intros q. unfold deposit_of. cbn. by rewrite Hd, lm_get_insert, decide_False by done.
  - intros q. rewrite request_of_set_eq, lm_get_remove. case_decide; [subst|].
    + by rewrite decide_False by done.
    + unfold request_of, requests_of. cbn. by rewrite Hw.
Qed.

Lemma exec_holdings env c v u v' k :
  k <> signer_account_id env -> exec env c v = Ret (u, v') -> same_holdings k (self v) (self v').
Proof.
  intros Hk. destruct c; cbn [exec]; intros Hr.
  - apply register_node_ret in Hr as (_ & _ & _ & -> & _). by apply same_holdings_ext.
  - apply unregister_node_ret in Hr as (? & ? & ? & _ & _ & _ & _ & -> & _). by apply same_holdings_ext.
  - destruct command. apply update_node_ret in Hr as (n & _ & ->).
    unfold updated_state. destruct (um_get _ _); by apply same_holdings_ext.
  - apply deposit_ret in Hr as (a & n & b & user & node & total & _ & _ & _ & _ & _ & _ & -> & _).
    by apply deposited_holdings.
  - inv_run. match goal with H : request_withdraw _ _ _ _ = _ |- _ => apply request_withdraw_ret in H as
      (? & ? & ? & ? & _ & _ & _ & _ & _ & _ & _ & _ & _ & -> & _) end.
    split_and!; [done..|]. intros q. cbn [self].
    rewrite request_of_set_eq, lm_get_insert. case_decide; [subst|done]. by rewrite decide_False by done.
  - apply cancel_withdraw_request_ret in Hr as [_ ->].
    split_and!; [done..|]. intros q.
    rewrite request_of_set_eq, lm_get_remove. case_decide; [subst|done]. by rewrite decide_False by done.
  - apply withdraw_ret in Hr as (a & n & ? & d & ? & ? & user & node & rest & total & Hr).
    destruct Hr as (_ & _ & _ & _ & _ & _ & _ & _ & _ & _ & _ & _ & _ & _ & ->).
    by apply withdrawn_holdings.
  - apply process_epoch_ret, epoch_step_frame in Hr as (? & ? & ? & ? & ? & ? & ->). by apply same_holdings_ext.
  - apply post_data_request_ret in Hr as (-> & _). by apply same_holdings_ext.
  - apply post_signed_batch_ret in Hr as (s1 & (? & ? & ? & ? & ? & ? & ->)%epoch_step_frame & _ & _ & ->).
    by apply same_holdings_ext.
  - apply update_config_ret in Hr as (_ & _ & c & -> & _). by apply same_holdings_ext.
Qed.

(** C18: None of the eleven methods of the contract that change its state (those
    of [Call]), called by one account, changes what another account holds: its
    tokens, its deposit records and its withdrawal requests.  The methods of the
    token standard, by which accounts send each other tokens, are not among
    them. *)
Theorem others_holdings_untouched env c s s' k :
  run env c s s' -> k <> signer_account_id env -> same_holdings k s s'.
Proof. intros (_ & _ & rs & Hr) Hk. by eapply (exec_holdings env c) in Hr. Qed.

(** C12: None of the contract's own methods changes the DAO account, the committee
    size or the withdrawal delay, and the other settings change only if the DAO
    itself calls [update_config]. *)
Theorem settings_change_by_dao_only env c s s' :
  run env c s s' ->
  dao s' = dao s /\ committee_size (config s') = committee_size (config s) /\
  withdraw_delay (config s') = withdraw_delay (config s) /\
  (config s' <> config s -> signer_account_id env = dao s /\ exists key value, c = CallUpdateConfig key value).
Proof.
  intros Hr%run_effect.
  destruct Hr as [c s' (Hd & Hc & _)|s' He|r|? ? ? ? s1 He _ _|key value c Hd Hsz Hwd].
  - by rewrite Hd, Hc.
  - by apply epoch_step_frame in He as (? & ? & ? & ? & ? & ? & ->).
  - done.
  - by apply epoch_step_frame in He as (? & ? & ? & ? & ? & ? & ->).
  - cbn. split_and!; [done..|]. eauto.
Qed.

(** What the caller does to its own request on [pk] *)
Definition request_move (env : Env) (c : Call) (k : AccountId) (pk : bytes) (s s' : MainchainContract) : Prop :=
  (exists amount, c = RequestWithdraw amount pk /\ request_of s k pk = None /\
     request_of s' k pk = Some (mkWithdrawRequest amount
       (wrap 64 (get_current_epoch env + withdraw_delay (config s))))) \/
  (c = CancelWithdrawRequest pk /\ request_of s' k pk = None) \/
  (exists amount req, c = Withdraw amount pk /\ request_of s k pk = Some req /\
     (request_epoch req <= get_current_epoch env)%Z /\ request_of s' k pk = None).

Lemma exec_requests env c v u v' pk :
  exec env c v = Ret (u, v') ->
  let k := signer_account_id env in
  request_of (self v') k pk = request_of (self v) k pk \/ request_move env c k pk (self v) (self v').
Proof.
  destruct c as [| | | |amount q|q|amount q| | | |]; cbn [exec]; intros Hr; unfold request_move.
  - left. by apply register_node_ret in Hr as (_ & _ & _ & -> & _).
  - left. by apply unregister_node_ret in Hr as (? & ? & ? & _ & _ & _ & _ & -> & _).
  - left. destruct command. apply update_node_ret in Hr as (n & _ & ->).
    unfold updated_state. by destruct (um_get _ _).
  - left. apply deposit_ret in Hr as (a & n & b & user & node & total & _ & _ & _ & _ & _ & _ & -> & _).
    unfold deposited_state, request_of, requests_of. cbn.
    by destruct (registry_update_holdings env a (node_with_balance n node)
      (set_token (accounts_insert (signer_account_id env) user (token (self v))) (self v))) as [_ ->].
  - inv_run. match goal with H : request_withdraw _ _ _ _ = _ |- _ => apply request_withdraw_ret in H as
      (? & ? & ? & ? & _ & _ & _ & _ & _ & _ & _ & Hnone & _ & -> & _) end.
    cbn. rewrite request_of_set_eq. case_decide; [subst|by left]. right. left.
    exists amount. split_and!; [done..|]. by rewrite lm_get_insert, decide_True.
  - apply cancel_withdraw_request_ret in Hr as [_ ->]. rewrite request_of_set_eq.
    case_decide; [subst|by left]. right. right. left. split; [done|].
    by rewrite lm_get_remove, decide_True.
  - apply withdraw_ret in Hr as (a & n & ? & d & ? & req & user & node & rest & total & Hr).
    destruct Hr as (_ & _ & _ & _ & _ & _ & _ & Hreq & Hep & _ & _ & _ & _ & _ & ->).
    unfold withdrawn_state. rewrite request_of_set_eq. case_decide.
    + subst. right. right. right. exists amount, req. split_and!; [done..|].
      by rewrite lm_get_remove, decide_True.
    + left. unfold request_of, requests_of. cbn.
      by destruct (registry_update_holdings env a (node_with_balance n node)
        (set_token (accounts_insert (signer_account_id env) user (token (self v))) (self v))) as [_ ->].
  - left. by apply process_epoch_ret, epoch_step_frame in Hr as (? & ? & ? & ? & ? & ? & ->).
  - left. by apply post_data_request_ret in Hr as (-> & _).
  - left. by apply post_signed_batch_ret in Hr as (s1 & (? & ? & ? & ? & ? & ? & ->)%epoch_step_frame & _ & _ & ->).
  - left. by apply update_config_ret in Hr as (_ & _ & c & -> & _).
Qed.

(** C19: A withdrawal request of an account on a node appears only by its own
    [request_withdraw], due [withdraw_delay] epochs later, and disappears only
    by its own cancellation or by a withdrawal in an epoch that is due. *)
Theorem requests_lifecycle env c s s' k pk :
  run env c s s' -> request_of s' k pk <> request_of s k pk ->
  signer_account_id env = k /\ request_move env c k pk s s'.
Proof.
  intros (_ & _ & rs & Hr) Hne.
  destruct (decide (k = signer_account_id env)) as [->|Hk].
  - split; [done|]. by destruct (exec_requests _ _ _ _ _ pk Hr).
  - apply (exec_holdings _ _ _ _ _ _ Hk) in Hr as (_ & _ & Hr). by destruct Hne.
Qed.

End ownership.

(** ** Witnesses *)

Section witnesses.
Import RefSdk.

Lemma deposit_correct_witness :
  let env := world true 7 alice alice_ed in let v := mkVm registered [] in
  let v' := after (deposit env (300 * seda) alice_ed) v in
  exists b, token_of (self v) alice = Some b /\ token_of (self v') alice = Some (b - 300 * seda)%Z.
Proof.
  intros env v v'.
  destruct (deposit_correct env (300 * seda) alice_ed v v') as (a & n & b & _ & _ & Hb & _ & Ht & _).
  - reflexivity.
  - apply after_ret. vm_compute. reflexivity.
  - exists b. split; [done|]. by rewrite Ht, decide_True.
Defined.

Lemma withdraw_correct_witness :
  let env := world true 650 alice alice_ed in let v := mkVm requested [] in
  let v' := after (withdraw env (200 * seda) alice_ed) v in
  exists b, token_of (self v) alice = Some b /\ token_of (self v') alice = Some (b + 200 * seda)%Z.
Proof.
  intros env v v'.
  destruct (withdraw_correct env (200 * seda) alice_ed v v')
    as (a & n & b & dep & req & _ & _ & Hb & _ & _ & _ & _ & _ & Ht & _).
  - reflexivity.
  - apply after_ret. vm_compute. reflexivity.
  - exists b. split; [done|]. by rewrite Ht, decide_True.
Defined.

Lemma others_holdings_untouched_witness :
  let env := world true 7 alice alice_ed in
  same_holdings bob registered (result_of env (Deposit (300 * seda) alice_ed) registered).
Proof.
  apply (others_holdings_untouched (world true 7 alice alice_ed) (Deposit (300 * seda) alice_ed)).
  - apply result_run. vm_compute. reflexivity.
  - discriminate.
Defined.

Lemma settings_change_by_dao_only_witness :
  let env := world true 9 the_dao [] in let s' := result_of env (CallUpdateConfig MinimumStake 7) staked in
  minimum_stake (config s') = 7%Z /\ committee_size (config s') = committee_size (config staked).
Proof.
  intros env s'. split; [vm_compute; reflexivity|].
  destruct (settings_change_by_dao_only env (CallUpdateConfig MinimumStake 7) staked s') as (_ & Hc & _).
  - apply result_run. vm_compute. reflexivity.
  - exact Hc.
Defined.

Lemma requests_lifecycle_witness :
  let env := world true 650 alice alice_ed in let c := Withdraw (200 * seda) alice_ed in
  signer_account_id env = alice /\ request_move env c alice alice_ed requested (result_of env c requested).
Proof.
  intros env c. apply requests_lifecycle.
  - apply result_run. vm_compute. reflexivity.
  - vm_compute. discriminate.
Defined.

End witnesses.
