(* ===== verification/EpochTheorems.v ===== *)
(** * Properties of epochs, committees, batches and storage staking

    The second group of theorems about the contract: what an epoch does and
    when it can be processed, what the committees and the slot leader are, who
    can post a batch and what the chain of batches looks like, what storage
    staking settles, the pages of the registry's views, and the invariants of
    whole histories. *)

From S2P Require Import Prelude NearSdk Merkle Contract Committee NodeRegistry Batch ContractInvariants Scenario.

(** ** Histories *)

Section histories.
Context `{SDK : NearSdk} `{BN : Bn254}.

(** C2: With overflow checks, in every state any history of calls and token
    transfers leads to, the balances of the token accounts and the total stake
    add up to the token's supply. *)
Theorem token_conserved s : reachable checked_call s -> conserved s.
Proof. apply reachable_ind; [apply initial_conserved|apply conserved_step]. Qed.

(** In the release profile, where arithmetic wraps around, the same sum is
    conserved modulo [2 ^ 128]. *)
Theorem token_conserved_mod s : reachable any_call s -> conserved_mod s.
Proof. apply reachable_ind; [apply initial_conserved_mod|apply conserved_mod_step]. Qed.

(** C3: As long as overflow is checked, an account registers one node only and
    no node unregisters while pending: nodes are active or inactive but not
    both, pending nodes are inactive, both keys of a node lead to it, and the
    stakes of all nodes add up to the contract's total stake. *)
Theorem registry_consistent s : reachable guarded s -> registry_ok s.
Proof. apply reachable_registry_ok. Qed.

(** C4: Every committee that the contract has stored, in any history of calls and
    token transfers and in both builds, has exactly [committee_size] members, and
    they are all distinct. *)
Theorem committees_well_formed s e c :
  reachable any_call s -> get_committee e s = Some c ->
  length c = Z.to_nat (committee_size (config s)) /\ NoDup c.
Proof. intros [_ Hok]%reachable_committees_ok Hc. by apply (Hok e). Qed.

(** C15: In an epoch that has a committee, every slot has a leader, and it is a
    member of the committee. *)
Theorem slot_leader_in_committee env s c :
  reachable any_call s -> (0 < committee_size (config s) < 2 ^ 32)%Z ->
  get_committee (get_current_epoch env) s = Some c ->
  exists l, get_current_slot_leader env s = Ret (Some l) /\ l ∈ c.
Proof. intros Hok%reachable_committees_ok. by apply slot_leader_some. Qed.

(** C5: The stored batches form a chain, as long as the counter does not overflow
    and no batch is posted whose id is already taken: for every height up to the
    number of batches there is an id, the batch stored under it carries that
    height and hashes, with the id before it and the Merkle root of its own
    transactions, to its id, and no other batch is stored.  An id that is already
    taken is a collision: the bytes hashed for the next batch and those hashed for
    the stored one that has this id differ and have the same sha256. *)
Theorem batches_chained s :
  reachable batch_id_new s ->
  chain_ok s /\
  (forall b, (num_batches s + 1 < 2 ^ 64)%Z -> lm_get (batch_by_id s) (next_batch_id s (requests_root s)) = Some b ->
     collision_among [batch_preimage s (height (header b)) b; batch_preimage s (num_batches s + 1) (next_batch s)]).
Proof.
  intros Hr. assert (chain_ok s) as Hok.
  { revert s Hr. apply (reachable_ind batch_id_new chain_ok); [intros; by apply initial_chain_ok|apply chain_ok_step]. }
  split; [done|]. intros b. by apply batch_id_taken.
Qed.

(** The chain only grows: from any reachable state on, the ids of the
    heights already there never change. *)
Theorem batch_ids_append_only s s' :
  (0 <= num_batches s)%Z -> rtc (step counter_left) s s' -> ids_extended s s'.
Proof.
  intros H0 Hr. induction Hr as [s|s s1 s2 H1 _ IH]; [by split|].
  destruct (ids_extended_step s s1 H0 H1) as [Hn Hi]. destruct IH as [Hn' Hi']; [lia|].
  split; [lia|]. intros h Hh. rewrite Hi' by lia. by apply Hi.
Qed.

Lemma latest_batch_stored root s : get_latest_batch_id (batch_stored root s) = next_batch_id s root.
Proof. unfold get_latest_batch_id. cbn. by rewrite lm_get_insert, decide_True. Qed.

(** C6: A batch is accepted only from the leader of the current slot, who signed
    the last random number, with a non-empty list of signers from the epoch's
    committee whose aggregate key verifies the signature of the accumulator's
    root; it then appends exactly one batch that holds all accumulated requests
    and empties the accumulator. *)
Theorem post_signed_batch_correct env sig pk signers leader_sig v v' :
  post_signed_batch env sig pk signers leader_sig v = Ret (tt, v') ->
  let s := self v in let s' := self v' in
  exists s1, epoch_step env s s1 /\ leads_slot env s1 leader_sig /\ signed_by env s1 sig pk signers /\
    num_batches s' = wrap 64 (num_batches s + 1) /\
    vec_to_vec (data_request_accumulator s') = [] /\
    (exists b, lm_get (batch_by_id s') (get_latest_batch_id s') = Some b /\
       transactions b = vec_to_vec (data_request_accumulator s)) /\
    last_generated_random_number s' = next_random env leader_sig.
Proof.
  intros Hp s s'. apply post_signed_batch_ret in Hp as (s1 & He & Hl & Hs & Hv).
  subst s'. rewrite Hv. exists s1.
  destruct (epoch_step_batches _ _ _ He) as (Hn & _ & _ & Hd).
  split; [done|]. split; [done|]. split; [done|]. split; [cbn; by rewrite Hn|].
  split; [apply vec_to_vec_clear|]. split; [|done].
  exists (next_batch s1). split; [|cbn; by rewrite Hd]. rewrite latest_batch_stored. cbn.
  by rewrite lm_get_insert, decide_True.
Qed.

End histories.

(** ** Committees *)

Section committees.
Context `{SDK : NearSdk} (env : Env).

(** A committee that is selected has [committee_size] distinct members, all
    of them active nodes. *)
Theorem select_committee_sound random s c :
  select_committee env random s = Ret c ->
  length c = Z.to_nat (committee_size (config s)) /\ NoDup c /\
  forall a, a ∈ c -> is_node_active s a = true.
Proof.
  intros (Hl & Hnd & Hs)%select_committee_ret. split_and!; [done..|].
  intros a Ha. apply bool_decide_eq_true, um_keys_elem, Hs, Ha.
Qed.

(** C14: With at least [committee_size] active nodes, and hash values that reach
    every index within the gas of one reroll loop, the selection terminates
    with a committee. *)
Theorem select_committee_terminates random s :
  let n := um_len (active_nodes s) in let size := committee_size (config s) in
  let g := Z.of_nat (gas env) in
  fair env random n size -> (n < 2 ^ 32)%Z -> (0 <= size <= n)%Z -> (size * (g + 2) + g < 2 ^ 64)%Z ->
  exists c, select_committee env random s = Ret c.
Proof. apply select_committee_total. Qed.

(** With fewer active nodes than [committee_size] the selection never
    returns, whatever the gas. *)
Theorem select_committee_diverges random s g :
  (um_len (active_nodes s) < committee_size (config s))%Z ->
  exists msg, select_committee
    (mkEnv (block_height env) (signer_account_id env) (signer_account_pk env) (attached_deposit env)
       (storage_byte_cost env) (storage_usage env) (state_exists env) (overflow_checks env) g)
    random s = Panic msg.
Proof.
  intros Hlt. destruct (select_committee _ random s) as [c|msg] eqn:E; [|eauto].
  by apply select_committee_too_few in E.
Qed.

End committees.

(** ** Epochs *)

Section epochs.
Context `{SDK : NearSdk} `{BN : Bn254} (env : Env).

(** C7: Processing an epoch that was processed before changes nothing.
    Otherwise every pending node whose activation epoch has come, and no other
    node, moves from the inactive to the active ones; then the contract either
    waits for more nodes (in the bootstrapping phase), or it leaves that phase,
    stores the committee of two epochs ahead (and, when it leaves the phase, of
    the current and the next epoch), drawn from the active nodes, and records
    the epoch. *)
Theorem process_epoch_correct v v' :
  process_epoch env v = Ret (tt, v') ->
  let e := get_current_epoch env in let s := self v in let s' := self v' in
  ((e <= last_processed_epoch s)%Z /\ s' = s) \/
  ((last_processed_epoch s < e)%Z /\
   (forall a n, um_get (active_nodes s') a = Some n <->
      um_get (active_nodes s) a = Some n /\ a ∉ eligible_nodes e s \/
      um_get (inactive_nodes s) a = Some n /\ a ∈ eligible_nodes e s) /\
   (forall a, um_get (inactive_nodes s') a =
      if decide (a ∈ eligible_nodes e s) then None else um_get (inactive_nodes s) a) /\
   (forall a, um_get (pending_nodes s') a =
      if decide (a ∈ eligible_nodes e s) then None else um_get (pending_nodes s) a) /\
   ((bootstrapping_phase s' = true /\ (um_len (active_nodes s') < committee_size (config s))%Z /\
     last_processed_epoch s' = last_processed_epoch s /\ committees s' = committees s) \/
    (bootstrapping_phase s' = false /\ last_processed_epoch s' = e /\ exists c,
       (forall a, a ∈ c -> is_node_active s' a = true) /\
       committees s' = next_committees (bootstrapping_phase s) e c (committees s)))).
Proof.
  intros Hp e s s'. apply process_epoch_ret in Hp. fold s s' in Hp.
  destruct Hp as [[? ?]|(Hl & s1 & Ha & Hin & Hp)]; [by left|]. fold e in Hl, Ha, Hin, Hp.
  right. split; [done|]. destruct (activated_frame _ _ _ Ha) as (Hc & Hcs & Hb & Hlast).
  assert (forall a n, um_get (active_nodes s1) a = Some n <->
      um_get (active_nodes s) a = Some n /\ a ∉ eligible_nodes e s \/
      um_get (inactive_nodes s) a = Some n /\ a ∈ eligible_nodes e s) as Hact.
  { intros a n. destruct Ha as (Ha & _). rewrite Ha. case_decide; naive_solver. }
  destruct Ha as (_ & Hi & Hpe & _).
  destruct Hp as [(Hbo & Hlt & ->)|(_ & c & Hsel & ->)]; split_and!; try done.
  - left. split_and!; [done|by rewrite <- Hc|done|done].
  - right. split_and!; [done..|]. exists c. split; [|by rewrite <- Hb, <- Hcs].
    apply select_committee_ret in Hsel as (_ & _ & Hs). intros a Hin'.
    apply bool_decide_eq_true, um_keys_elem, Hs, Hin'.
Qed.

Lemma epoch_range i : wf_env env -> (0 <= i <= 2)%Z -> (0 <= get_current_epoch env + i < 2 ^ 64)%Z.
Proof. unfold wf_env, get_current_epoch, NEAR_BLOCKS_PER_SEDA_SLOT, SLOTS_PER_EPOCH. lia_div. Qed.

Lemma insert_committee_total i v c :
  wf_env env -> (0 <= i <= 2)%Z ->
  select_committee env (last_generated_random_number (self v)) (self v) = Ret c ->
  insert_committee env (get_current_epoch env) i v =
    Ret (tt, mkVm (set_committees (lm_insert (committees (self v)) (get_current_epoch env + i)%Z c) (self v))
               (receipts v)).
Proof.
  intros Hw Hi Hc. unfold insert_committee, mbind, M_bind, get_self, gets, lift, u64_add, add_w. cbn [id].
  rewrite Hc. unfold lift. rewrite arith_in by by apply epoch_range. done.
Qed.

(** C13: In every history that respects the registry's rules, an epoch that is
    due can be processed: the activation of pending nodes never fails, and with
    at least [committee_size] active nodes afterwards (or while waiting for
    them) and a fair hash the body of [process_epoch] returns. *)
Theorem process_epoch_progress s :
  reachable guarded s -> wf_env env ->
  exists v1, activate_nodes (eligible_nodes (get_current_epoch env) s) (mkVm s []) = Ret (tt, v1) /\
    let n := um_len (active_nodes (self v1)) in let size := committee_size (config s) in
    let g := Z.of_nat (gas env) in
    ((bootstrapping_phase s = true /\ (n < size)%Z) \/
     ((0 <= size <= n)%Z /\ (n < 2 ^ 32)%Z /\ (size * (g + 2) + g < 2 ^ 64)%Z /\
      fair env (last_generated_random_number s) n size)) ->
    is_ret (process_epoch_body env (mkVm s [])) = true.
Proof.
  intros (Hshape & _)%reachable_registry_ok Hw.
  destruct (registry_activation s (get_current_epoch env) Hshape) as [v1 Hv1].
  exists v1. split; [done|]. cbv zeta. intros Hcond.
  pose proof (activate_nodes_ret _ _ _ _ (NoDup_eligible _ _) Hv1) as (_ & Ha & _). cbn in Ha.
  pose proof Ha as (_ & _ & _ & Es). destruct (activated_frame _ _ _ Ha) as (Hc & _ & Hb & _).
  assert (last_generated_random_number (self v1) = last_generated_random_number s) as Hrnd by by rewrite Es.
  unfold process_epoch_body. run_step. cbn [self].
  destruct (_ <=? _)%Z; [done|]. do 5 run_step. cbn [self]. rewrite Hb, Hc.
  destruct Hcond as [[Hbo Hlt]|(Hsz & Hn & Hov & Hfair)].
  { by rewrite Hbo, (proj2 (Z.ltb_lt _ _)) by done. }
  destruct (select_committee_total env (last_generated_random_number (self v1)) (self v1)) as [c Hsel];
    [by rewrite Hrnd, Hc|done|by rewrite Hc|by rewrite Hc|].
  rewrite (proj2 (Z.ltb_ge _ _)) by lia. rewrite andb_false_r.
  destruct (bootstrapping_phase s).
  - erewrite M_bind_eq; [|erewrite M_bind_eq; [|reflexivity]; cbn beta].
    2: { change (Z.to_nat EPOCH_COMMITTEES_LOOKAHEAD) with 2. cbn [insert_committees].
         do 2 (erewrite M_bind_eq; [|by apply (insert_committee_total _ _ c)]). reflexivity. }
    cbn beta. erewrite M_bind_eq; [|by apply (insert_committee_total _ _ c)]. done.
  - run_step. erewrite M_bind_eq; [|by apply (insert_committee_total _ _ c)]. done.
Qed.

End epochs.

(** ** Storage staking *)

Section storage.
Context `{SDK : NearSdk} (env : Env).

(** Host values within their practical range: a byte costs at most [2 ^ 64]
    yocto, and no deposit pays for [2 ^ 63] bytes. *)
Definition practical_storage : Prop :=
  (0 < storage_byte_cost env <= 2 ^ 64)%Z /\
  (0 <= attached_deposit env < storage_byte_cost env * 2 ^ 63)%Z /\
  forall s, (0 <= storage_usage env s < 2 ^ 63)%Z.

(** A method of the "require" form succeeds only if the storage did not
    shrink and the attached deposit covers every byte it grew by, in both
    compilation profiles. *)
Theorem storage_growth_paid {A} (body : M vm A) v v' :
  practical_storage -> manage_storage_deposit_require env body v = Ret (tt, v') ->
  let before := storage_usage env (self v) in let after := storage_usage env (self v') in
  (before <= after)%Z /\ (storage_byte_cost env * (after - before) <= attached_deposit env)%Z.
Proof.
  intros (Hcost & Hatt & Husage) Hm. cbv zeta.
  apply manage_require_ret in Hm as (_ & _ & diff & cost & Hd & Hc & Hle).
  pose proof (Husage (self v)). pose proof (Husage (self v')).
  set (used0 := storage_usage env (self v)) in *. set (used1 := storage_usage env (self v')) in *.
  unfold sub_w, mul_w in *.
  assert (0 <= storage_byte_cost env * diff < 2 ^ 128)%Z.
  { apply arith_range in Hd; [|lia]. nia. }
  rewrite arith_in in Hc by done. injection Hc as <-.
  destruct (decide (used0 <= used1)%Z).
  - rewrite arith_in in Hd by lia. injection Hd as <-. done.
  - exfalso. apply arith_wrap in Hd; [|lia]. unfold wrap in Hd.
    rewrite <- (Z.mod_add _ 1), Z.mod_small in Hd by lia. nia.
Qed.

(** A method of the general form that runs to its end settles its storage
    exactly: growth is covered by the deposit, and what it released is paid back
    to the caller in one transfer. *)
Theorem storage_settled_exactly (body : M vm flow) v v1 v' :
  practical_storage -> body v = Ret (Next, v1) -> manage_storage_deposit env body v = Ret (tt, v') ->
  let before := storage_usage env (self v) in let after := storage_usage env (self v1) in
  self v' = self v1 /\
  if (before <? after)%Z
  then receipts v' = receipts v1 /\ (storage_byte_cost env * (after - before) <= attached_deposit env)%Z
  else receipts v' = receipts v1 ++
         [Transfer (signer_account_id env) (storage_byte_cost env * (before - after))].
Proof.
  intros (Hcost & Hatt & Husage) Hb Hm. cbv zeta.
  apply manage_ret in Hm as (f & v2 & Hb' & Hs & Hm). rewrite Hb in Hb'. injection Hb' as <- <-.
  split; [done|]. pose proof (Husage (self v)). pose proof (Husage (self v1)).
  cbv zeta in Hm. set (used0 := storage_usage env (self v)) in *.
  set (used1 := storage_usage env (self v1)) in *. destruct (Z.ltb_spec used0 used1).
  - destruct Hm as (-> & diff & cost & Hd & Hc & Hle). unfold sub_w, mul_w in *. split; [done|].
    rewrite arith_in in Hd by lia. injection Hd as <-.
    rewrite arith_in in Hc by nia. injection Hc as <-. done.
  - destruct Hm as (cost & (diff & Hd & Hc) & ->). unfold sub_w, mul_w in *.
    rewrite arith_in in Hd by lia. injection Hd as <-.
    rewrite arith_in in Hc by nia. injection Hc as <-. done.
Qed.

End storage.

(** ** Pages of the registry *)

Section pages.
Context `{SDK : NearSdk} (env : Env).

(** The page of [limit] nodes after the [offset] most recent ones *)
Definition page (m : UnorderedMap AccountId Node) (limit offset : Z) : list NodeInfo :=
  (fun p => node_info p.1 p.2) <$> take (Z.to_nat limit) (drop (Z.to_nat offset) (reverse (um_iter m))).

Lemma um_iter_lookup {K V} `{EqDecision K} (m : UnorderedMap K V) i k :
  um_keys m !! i = Some k -> exists v, um_get m k = Some v /\ um_iter m !! i = Some (k, v).
Proof.
  rewrite <- um_iter_fst. intros Hk. apply list_lookup_fmap_Some in Hk as ([k' v] & -> & Hkv).
  exists v. split; [|done]. apply elem_of_um_iter. by eapply list_elem_of_lookup_2.
Qed.

Lemma get_nodes_while_eq i m limit nodes :
  (0 <= limit < 2 ^ 32)%Z -> i <= length (um_keys m) -> (um_len m < 2 ^ 32)%Z ->
  internal_get_nodes_while env i m limit nodes =
    Ret (nodes ++ ((fun p => node_info p.1 p.2) <$>
                     take (Z.to_nat limit - length nodes) (reverse (take i (um_iter m))))).
Proof.
  unfold um_len. intros Hlim. revert nodes. induction i as [|i IH]; intros nodes Hi Hlen.
  { rewrite take_0, reverse_nil, take_nil. cbn. by rewrite app_nil_r. }
  cbn [internal_get_nodes_while]. unfold usize_try_from. rewrite (proj2 (in_width_spec _ _) Hlim). cbn -[Z.of_nat].
  destruct (Z.ltb_spec (Z.of_nat (length nodes)) limit).
  2: { replace (Z.to_nat limit - length nodes) with 0 by lia. by rewrite app_nil_r. }
  unfold sub_w, cast_u. rewrite (Z.mod_small (Z.of_nat (S i))) by lia. rewrite arith_in by lia. cbn -[Z.of_nat].
  replace (Z.to_nat (Z.of_nat (S i) - 1)) with i by lia.
  destruct (lookup_lt_is_Some_2 (um_keys m) i ltac:(lia)) as [k Hk].
  destruct (um_iter_lookup m i k Hk) as (n & Hn & Hit). rewrite Hk, Hn. cbn -[Z.of_nat].
  rewrite IH by lia. rewrite (take_S_r _ _ _ Hit), reverse_app. cbn -[Z.of_nat].
  rewrite length_app, <- app_assoc. cbn.
  replace (Z.to_nat limit - length nodes) with (S (Z.to_nat limit - (length nodes + 1))) by lia. done.
Qed.

(** A page of the registry is exactly the requested slice of the nodes,
    most recent first; with overflow checks an offset past the end panics. *)
Theorem internal_get_nodes_page m limit offset :
  (0 <= limit < 2 ^ 32)%Z -> (0 <= offset)%Z -> (um_len m < 2 ^ 32)%Z ->
  ((offset <= um_len m)%Z -> internal_get_nodes env m limit offset = Ret (page m limit offset)) /\
  ((um_len m < offset)%Z -> overflow_checks env = true ->
     exists msg, internal_get_nodes env m limit offset = Panic msg).
Proof.
  intros Hlim Hoff Hlen. unfold internal_get_nodes, sub_w. split.
  - intros Hle. rewrite arith_in by lia. cbn.
    rewrite get_nodes_while_eq; [|done|unfold um_len in *; lia|done]. cbn. f_equal. unfold page. f_equal.
    rewrite Nat.sub_0_r. f_equal. rewrite <- (take_drop (Z.to_nat (um_len m - offset)) (um_iter m)) at 2.
    assert (length (um_iter m) = length (um_keys m)) as Hl by (rewrite <- um_iter_fst; by rewrite length_map).
    rewrite reverse_app, drop_app_length'; [done|]. rewrite length_reverse, length_drop, Hl.
    unfold um_len in *. lia.
  - intros Hgt Hov. rewrite Hov. unfold arith.
    assert (in_width 64 (um_len m - offset) = false) as ->; [|cbn; eauto].
    unfold in_width. apply andb_false_iff. left. apply Z.leb_gt. lia.
Qed.

End pages.

(** ** Witnesses *)

Section witnesses.
Import RefSdk.

Lemma token_conserved_witness : conserved (played checked_callb (setup true)).
Proof.
  apply token_conserved, (played_reachable _ checked_callb); [done|]. vm_compute. reflexivity.
Defined.

Lemma token_conserved_mod_witness : conserved_mod (played any_callb (setup false)).
Proof.
  apply token_conserved_mod, (played_reachable _ any_callb); [done|]. vm_compute. reflexivity.
Defined.

Lemma registry_consistent_witness : registry_ok running.
Proof.
  apply registry_consistent, (played_reachable _ guardedb); [exact guardedb_spec|]. vm_compute. reflexivity.
Defined.

Lemma running_reachable : reachable any_call running.
Proof. apply (played_reachable _ guardedb); [done|]. vm_compute. reflexivity. Qed.

Lemma committees_well_formed_witness : length [alice; bob] = 2 /\ NoDup [alice; bob].
Proof.
  apply (committees_well_formed running 3 [alice; bob]); [apply running_reachable|].
  vm_compute. reflexivity.
Defined.

Lemma slot_leader_in_committee_witness :
  exists l, get_current_slot_leader batch_env running = Ret (Some l) /\ l ∈ [alice; bob].
Proof.
  apply slot_leader_in_committee; [apply running_reachable|vm_compute; split; reflexivity|].
  vm_compute. reflexivity.
Defined.

Lemma batches_chained_witness :
  num_batches (played batch_id_newb batch_script) = 1%Z /\ chain_ok (played batch_id_newb batch_script).
Proof.
  split; [vm_compute; reflexivity|].
  apply batches_chained, (played_reachable _ batch_id_newb); [exact batch_id_newb_spec|].
  vm_compute. reflexivity.
Defined.

Lemma batch_ids_append_only_witness : ids_extended with_request batched.
Proof.
  apply batch_ids_append_only; [vm_compute; discriminate|].
  eapply rtc_once, (step_call _ batch_env (batch_call with_request)).
  - vm_compute. reflexivity.
  - apply result_run. vm_compute. reflexivity.
Defined.

Lemma post_signed_batch_correct_witness :
  let m := post_signed_batch batch_env (sign 12 (requests_root with_request)) (le_bytes 128 12)
             [alice; bob] (leader_signature with_request) in
  let v := mkVm with_request [] in
  num_batches (self (after m v)) = wrap 64 (num_batches (self v) + 1).
Proof.
  intros m v.
  destruct (post_signed_batch_correct batch_env (sign 12 (requests_root with_request)) (le_bytes 128 12)
    [alice; bob] (leader_signature with_request) v (after m v)) as (s1 & _ & _ & _ & Hn & _).
  - apply (after_ret m). vm_compute. reflexivity.
  - exact Hn.
Defined.

Lemma select_committee_sound_witness : NoDup [alice; bob].
Proof.
  destruct (select_committee_sound batch_env 12345 running [alice; bob]) as (_ & Hnd & _).
  - vm_compute. reflexivity.
  - exact Hnd.
Defined.

Lemma select_committee_terminates_witness : exists c, select_committee batch_env 12345 running = Ret c.
Proof.
  apply select_committee_terminates; [|vm_compute; reflexivity|vm_compute; split; discriminate|
    vm_compute; reflexivity].
  apply fairb_spec; vm_compute; [discriminate|reflexivity].
Defined.

Lemma select_committee_diverges_witness :
  exists msg, select_committee (world true 641 alice alice_ed) 12345 staked = Panic msg.
Proof. apply (select_committee_diverges batch_env 12345 staked 4). vm_compute. reflexivity. Defined.

Lemma process_epoch_correct_witness :
  last_processed_epoch (self (after (process_epoch (world true 640 bob bob_ed)) (mkVm staked []))) = 2%Z.
Proof.
  destruct (process_epoch_correct (world true 640 bob bob_ed) (mkVm staked [])
    (after (process_epoch (world true 640 bob bob_ed)) (mkVm staked [])))
    as [[Hle _]|(_ & _ & _ & _ & [(Hb & _)|(_ & He & _)])].
  - apply after_ret. vm_compute. reflexivity.
  - vm_compute in Hle. by destruct Hle.
  - vm_compute in Hb. discriminate.
  - exact He.
Defined.

Lemma process_epoch_progress_witness :
  is_ret (process_epoch_body (world true 640 bob bob_ed) (mkVm staked [])) = true.
Proof.
  destruct (process_epoch_progress (world true 640 bob bob_ed) staked) as (v1 & Hv1 & Hp).
  - apply (played_reachable _ guardedb); [exact guardedb_spec|]. vm_compute. reflexivity.
  - apply wf_envb_spec. vm_compute. reflexivity.
  - apply Hp. right.
    assert (v1 = after (activate_nodes (eligible_nodes 2 staked)) (mkVm staked [])) as ->.
    { unfold after. change (get_current_epoch (world true 640 bob bob_ed)) with 2%Z in Hv1. by rewrite Hv1. }
    split_and!; [vm_compute; discriminate|vm_compute; discriminate|vm_compute; reflexivity|
      vm_compute; reflexivity|].
    apply fairb_spec; vm_compute; [discriminate|reflexivity].
Defined.

Lemma practical_world ov h a pk : practical_storage (world ov h a pk).
Proof.
  unfold practical_storage, world, usage, um_len. cbn -[Z.pow Z.mul].
  split_and!; lia.
Qed.

Lemma storage_growth_paid_witness :
  let env := world false 9 alice alice_ed in
  let m := manage_storage_deposit_require env (request_withdraw_body env (200 * seda) alice_ed) in
  let v := mkVm staked [] in
  usage (self (after m v)) = 1272%Z /\ (usage (self v) <= usage (self (after m v)))%Z.
Proof.
  intros env m v. split; [vm_compute; reflexivity|].
  destruct (storage_growth_paid env (request_withdraw_body env (200 * seda) alice_ed) v (after m v)) as [Hle _].
  - apply practical_world.
  - apply (after_ret m). vm_compute. reflexivity.
  - exact Hle.
Defined.

Lemma storage_settled_exactly_witness :
  let env := world false 640 bob bob_ed in let v := mkVm staked [] in
  let m := manage_storage_deposit env (process_epoch_body env) in
  let v1 := match process_epoch_body env v with Ret (_, v1) => v1 | Panic _ => v end in
  self (after m v) = self v1.
Proof.
  intros env v m v1.
  destruct (storage_settled_exactly env (process_epoch_body env) v v1 (after m v)) as [Hs _].
  - apply practical_world.
  - assert (match process_epoch_body env v with Ret (Next, _) => true | _ => false end = true) as E
      by (vm_compute; reflexivity).
    unfold v1. by destruct (process_epoch_body env v) as [[[] ?]|].
  - apply (after_ret m). vm_compute. reflexivity.
  - exact Hs.
Defined.

Lemma internal_get_nodes_page_witness :
  internal_get_nodes batch_env (active_nodes running) 1 1 = Ret (page (active_nodes running) 1 1) /\
  length (page (active_nodes running) 1 1) = 1.
Proof.
  split; [|vm_compute; reflexivity].
  apply internal_get_nodes_page; vm_compute; (reflexivity || discriminate || (split; (reflexivity || discriminate))).
Defined.

End witnesses.
