(* ===== verification/ContractFlaws.v ===== *)
(** * Where the contract departs from what it means to do

    Theorems about the code as it is, each with a history in which it happens:
    token balances that wrap around in the release build, deposits that replace
    each other's record, a second registration that forgets a stake, pending
    nodes that are activated although they were emptied, and an unregistered
    pending node that blocks every later epoch. *)

From S2P Require Import Prelude NearSdk Merkle Contract Committee NodeRegistry Batch ContractInvariants.
From S2P Require Import Scenario ContractTheorems.

Section flaws.
Context `{SDK : NearSdk} `{BN : Bn254}.

(** C37: Without overflow checks, a caller can deposit more than it owns: it ends
    up with a token balance close to [2 ^ 128], and the whole amount, of which it
    owned less, is credited to the node, to the total stake and to its own deposit
    record. *)
Theorem deposit_wraps_in_release env amount pk v v' b :
  overflow_checks env = false -> (0 <= b < amount)%Z -> (amount < 2 ^ 128)%Z ->
  token_of (self v) (signer_account_id env) = Some b ->
  deposit env amount pk v = Ret (tt, v') ->
  token_of (self v') (signer_account_id env) = Some (2 ^ 128 - (amount - b))%Z /\
  last_total_balance (self v') = wrap 128 (last_total_balance (self v) + amount) /\
  deposit_of (self v') (signer_account_id env) pk = Some amount /\
  exists a n, lm_get (nodes_by_ed25519_public_key (self v)) pk = Some a /\ internal_get_node (self v) a = Some n /\
    internal_get_node (self v') a = Some (node_with_balance n (wrap 128 (balance n + amount))).
Proof.
  intros Hov Hb Ham Htok Hd.
  apply deposit_ret in Hd as (a & n & b' & user & node & total & Ha & Hn & Hb' & Hu & Hnode & Ht & -> & _).
  unfold token_of in Htok. rewrite Hb' in Htok. injection Htok as ->. unfold sub_w, add_w in *.
  apply arith_wrap in Hnode as ->; [|done]. apply arith_wrap in Ht as ->; [|done]. apply arith_wrap in Hu as ->; [|done].
  set (s1 := set_token (accounts_insert (signer_account_id env) (wrap 128 (b - amount)) (token (self v))) (self v)).
  destruct (registry_update_frame env a (node_with_balance n (wrap 128 (balance n + amount))) s1) as (x & y & z & E).
  split_and!; [|done| |].
  - unfold token_of, deposited_state. cbn. rewrite registry_update_token. cbn. unfold accounts_insert.
    rewrite ft_accounts_with, lm_get_insert, decide_True by done. f_equal. unfold wrap.
    rewrite <- (Z.mod_add _ 1), Z.mod_small by lia. lia.
  - unfold deposit_of, deposited_state. fold s1. cbn [self]. cbn. rewrite E. cbn.
    rewrite (deposit_of_insert (self v)); [by rewrite decide_True|apply deposit_of_default].
  - exists a, n. split_and!; [done..|]. cbn [self]. unfold deposited_state. fold s1.
    etrans; [by apply (registry_update_get env a _ s1)|]. by rewrite decide_True.
Qed.

(** A second deposit of the same caller into the same node replaces the
    record of the first one: the node holds both amounts, but only the second
    can be withdrawn. *)
Theorem second_deposit_forgets_first env1 env2 env3 x y z pk v v1 v2 :
  overflow_checks env1 = true -> overflow_checks env2 = true ->
  signer_account_id env2 = signer_account_id env1 -> signer_account_id env3 = signer_account_id env1 ->
  deposit env1 x pk v = Ret (tt, v1) -> deposit env2 y pk v1 = Ret (tt, v2) -> (y < z)%Z ->
  last_total_balance (self v2) = (last_total_balance (self v) + x + y)%Z /\
  deposit_of (self v2) (signer_account_id env1) pk = Some y /\
  is_ret (withdraw env3 z pk v2) = false.
Proof.
  intros Ho1 Ho2 Hs2 Hs3 H1 H2 Hlt.
  apply deposit_ret in H1 as (a1 & n1 & b1 & u1 & m1 & t1 & _ & _ & _ & _ & _ & Ht1 & -> & _).
  apply deposit_ret in H2 as (a2 & n2 & b2 & u2 & m2 & t2 & _ & _ & _ & _ & _ & Ht2 & -> & _).
  unfold add_w in *. apply arith_exact in Ht1; [|done]. apply arith_exact in Ht2; [|done].
  assert (deposit_of (deposited_state env2 y pk a2 n2 u2 m2 t2
            (deposited_state env1 x pk a1 n1 u1 m1 t1 (self v))) (signer_account_id env1) pk = Some y) as Hd.
  { unfold deposited_state at 1, deposit_of. cbn.
    rewrite lm_get_insert, decide_True by done. cbn. by rewrite um_get_insert, decide_True. }
  split_and!; [|exact Hd|].
  - change (t2 = last_total_balance (self v) + x + y)%Z. rewrite Ht2. cbn. by rewrite Ht1.
  - destruct (withdraw env3 z pk _) as [[u v3]|] eqn:E; [|done]. exfalso.
    apply withdraw_ret in E as (a & n & b & d & dep & req & user & node & rest & total & Hr).
    destruct Hr as (_ & _ & Hle & _ & _ & Hdm & Hdep & _). cbn [self] in Hdm.
    unfold deposit_of in Hd. rewrite <- Hs3, Hdm in Hd. cbn in Hd. rewrite Hdep in Hd.
    injection Hd as ->. lia.
Qed.

(** A registration from an account that has an inactive node already, under
    new keys, replaces that node by one without stake, while the total stake
    still counts the old one. *)
Theorem second_registration_forgets_stake env addr bn sig v v' n :
  um_get (active_nodes (self v)) (signer_account_id env) = None ->
  um_get (inactive_nodes (self v)) (signer_account_id env) = Some n ->
  register_node env addr bn sig v = Ret (tt, v') ->
  (exists n', internal_get_node (self v') (signer_account_id env) = Some n' /\ balance n' = 0%Z) /\
  last_total_balance (self v') = last_total_balance (self v).
Proof.
  intros Ha Hi (_ & _ & _ & -> & _)%register_node_ret. split; [|done].
  eexists. unfold internal_get_node. cbn. rewrite Ha, um_get_insert, decide_True by done. done.
Qed.

(** C38: A pending node that is not among the inactive ones (it unregistered
    after its activation was scheduled) blocks the contract: once its activation
    epoch has come, processing an epoch panics, and so does posting a batch. *)
Theorem unregistered_pending_blocks_epochs env a e v :
  um_get (pending_nodes (self v)) a = Some e -> um_get (inactive_nodes (self v)) a = None ->
  (e <= get_current_epoch env)%Z -> (last_processed_epoch (self v) < get_current_epoch env)%Z ->
  is_ret (process_epoch env v) = false /\
  forall sig pk signers leader_sig, is_ret (post_signed_batch env sig pk signers leader_sig v) = false.
Proof.
  intros Hp Hi He Hl. assert (forall s', ~ epoch_step env (self v) s') as Hno.
  { intros s' [[? _]|(_ & s1 & _ & Hin & _)]; [lia|].
    destruct (Hin a) as [n Hn]; [apply elem_of_eligible; eauto|congruence]. }
  split.
  - destruct (process_epoch env v) as [[[] v']|] eqn:E; [|done]. by apply process_epoch_ret, Hno in E.
  - intros. destruct (post_signed_batch _ _ _ _ _ v) as [[[] v']|] eqn:E; [|done].
    apply post_signed_batch_ret in E as (s1 & Hs & _). by apply Hno in Hs.
Qed.

End flaws.

(** ** Histories in which it happens *)

Section histories.
Import RefSdk.

(** Bob, with a token account but no tokens, deposits 300 SEDA. *)
Definition poor_bob : MainchainContract :=
  played any_callb ([TokenRegister alice; TokenRegister bob] ++ registering false).

Lemma deposit_wraps_in_release_witness :
  let env := world false 8 bob bob_ed in let v := mkVm poor_bob [] in
  let m := deposit env (300 * seda) bob_ed in
  token_of (self (after m v)) bob = Some (2 ^ 128 - (300 * seda - 0))%Z /\
  deposit_of (self (after m v)) bob bob_ed = Some (300 * seda)%Z.
Proof.
  intros env v m. destruct (deposit_wraps_in_release env (300 * seda) bob_ed v (after m v) 0) as (H1 & _ & H2 & _).
  - reflexivity.
  - split; vm_compute; [discriminate|reflexivity].
  - vm_compute. reflexivity.
  - vm_compute. reflexivity.
  - apply (after_ret m). vm_compute. reflexivity.
  - split; [exact H1|exact H2].
Defined.

Lemma second_deposit_forgets_first_witness :
  let env := world true 9 alice alice_ed in let v := mkVm registered [] in
  let m1 := deposit env (300 * seda) alice_ed in let m2 := deposit env (100 * seda) alice_ed in
  is_ret (withdraw env (200 * seda) alice_ed (after m2 (after m1 v))) = false.
Proof.
  intros env v m1 m2.
  destruct (second_deposit_forgets_first env env env (300 * seda) (100 * seda) (200 * seda) alice_ed
    v (after m1 v) (after m2 (after m1 v))) as (_ & _ & Hw).
  - reflexivity.
  - reflexivity.
  - reflexivity.
  - reflexivity.
  - apply (after_ret m1). vm_compute. reflexivity.
  - apply (after_ret m2). vm_compute. reflexivity.
  - vm_compute. reflexivity.
  - exact Hw.
Defined.

(** Alice, with 300 SEDA at stake, registers again under fresh keys. *)
Lemma second_registration_forgets_stake_witness :
  let env := world true 9 alice (le_bytes 33 101) in let v := mkVm staked [] in
  let m := register_node env "/ip4/3" (le_bytes 128 6) (sign 6 (String.list_byte_of_string alice)) in
  last_total_balance (self v) = (600 * seda)%Z /\
  exists n', internal_get_node (self (after m v)) alice = Some n' /\ balance n' = 0%Z.
Proof.
  intros env v m. split; [vm_compute; reflexivity|].
  destruct (um_get (inactive_nodes (self v)) alice) as [n|] eqn:En; [|vm_compute in En; discriminate].
  destruct (second_registration_forgets_stake env "/ip4/3" (le_bytes 128 6)
    (sign 6 (String.list_byte_of_string alice)) v (after m v) n) as [Hn _].
  - vm_compute. reflexivity.
  - exact En.
  - apply (after_ret m). vm_compute. reflexivity.
  - exact Hn.
Defined.

(** Alice withdraws her whole stake in epoch 2, before the epoch is processed,
    and unregisters. *)
Definition leaving (unregister : bool) : list action :=
  setup true ++
  [Act (world true 9 alice alice_ed) (RequestWithdraw (300 * seda) alice_ed);
   Act (world true 650 alice alice_ed) (Withdraw (300 * seda) alice_ed)] ++
  (if unregister then [Act (world true 651 alice alice_ed) (UnregisterNode alice_ed)] else []).

Lemma unregistered_pending_blocks_epochs_witness :
  let s := played checked_callb (leaving true) in
  reachable checked_call s /\ is_ret (process_epoch (world true 652 bob bob_ed) (mkVm s [])) = false.
Proof.
  intros s. split.
  - apply (played_reachable _ checked_callb); [done|]. vm_compute. reflexivity.
  - destruct (unregistered_pending_blocks_epochs (world true 652 bob bob_ed) alice 2 (mkVm s [])) as [Hp _].
    + vm_compute. reflexivity.
    + vm_compute. reflexivity.
    + vm_compute. discriminate.
    + vm_compute. reflexivity.
    + exact Hp.
Defined.

(** There is a history, within the registry's rules, after which an active
    node has no stake at all: a node that is emptied while pending is activated
    all the same. *)
Theorem emptied_pending_node_activated :
  exists s n, reachable guarded s /\ um_get (active_nodes s) alice = Some n /\
    balance n = 0%Z /\ (0 < minimum_stake (config s))%Z.
Proof.
  set (l := leaving false ++ [Act (world true 652 bob bob_ed) ProcessEpoch]).
  exists (played guardedb l), (mkNode "/ip4/1" 0 alice_bn alice_ed). split_and!.
  - apply (played_reachable _ guardedb); [exact guardedb_spec|]. vm_compute. reflexivity.
  - vm_compute. reflexivity.
  - reflexivity.
  - vm_compute. reflexivity.
Qed.

End histories.
