(* ===== verification/Sdk.v ===== *)
(** * The runtime SDK: byte encodings, promises, amounts

    Models [src/runtime/sdk/src]: [bytes.rs] (the [ToBytes]/[FromBytes]
    conversions every host value goes through), [promises] (the actions a guest
    program can ask for and their statuses), [p2p.rs], [events.rs], [chain.rs],
    [near.rs] ([to_yocto]); and the key-value memory of
    [src/runtime/core/src/storage]. *)

From Stdlib Require Import Ascii.
From stdpp Require Import pretty.
From S2P Require Import Prelude.

(** ** Errors ([errors.rs])

    A [Utf8Error] holds how far the bytes were valid and how many bytes the
    invalid sequence has, [None] when the input ended in its middle; the text of
    a [url::ParseError] is the crate's. *)

Record Utf8Error := mkUtf8Error { valid_up_to : nat; error_len : option nat }.

Inductive SDKError :=
| FromUtf8Error (err : Utf8Error)
| StringBytesConversion (err : Utf8Error)
| NumBytesConversion
| UrlParse (err : string)
| InvalidUrlScheme (scheme : string).

(** [Debug] and [Display] of a [Utf8Error] *)
Definition Utf8Error_debug (e : Utf8Error) : string :=
  "Utf8Error { valid_up_to: " +:+ pretty (valid_up_to e) +:+ ", error_len: " +:+
  match error_len e with None => "None" | Some n => "Some(" +:+ pretty n +:+ ")" end +:+ " }".
Definition Utf8Error_display (e : Utf8Error) : string :=
  match error_len e with
  | Some n => "invalid utf-8 sequence of " +:+ pretty n +:+ " bytes from index " +:+ pretty (valid_up_to e)
  | None => "incomplete utf-8 byte sequence from index " +:+ pretty (valid_up_to e)
  end.

(** [trait std::error::Error]: an error has a message *)
Class Error (E : Type) := error_to_string : E -> string.

#[export] Instance Utf8Error_eq_dec : EqDecision Utf8Error.
Proof. solve_decision. Defined.

#[export] Instance SDKError_error : Error SDKError := fun e =>
  match e with
  | FromUtf8Error e => Utf8Error_display e
  | StringBytesConversion e => Utf8Error_debug e
  | NumBytesConversion => "could not convert slice to array"
  | UrlParse e => e
  | InvalidUrlScheme s => "Expected a valid url scheme but got `" +:+ s +:+ "`"
  end.

(** ** URLs ([url.rs])

    The parser of the [url] crate is a parameter. *)
Class UrlCrate := { Url : Type; url_parse : string -> result Url string }.
(** [trait ToUrl], for [String] and [&str] *)
Definition to_url `{UrlCrate} (text : string) : result Url SDKError :=
  match url_parse text with Ok u => Ok u | Err e => Err (UrlParse e) end.

(** ** Bytes ([bytes.rs])

    [Bytes] wraps a [Vec<u8>]; [eject] and [deref] unwrap it.  A conversion may
    also index out of bounds, which panics: hence [outcome (result ..)]. *)

Class ToBytes (T : Type) := to_bytes : T -> bytes.
Class FromBytes (T : Type) := from_bytes : bytes -> outcome (result T SDKError).

(** UTF-8 validation, [std::str::from_utf8]: the first error, if any; [pos] is
    the offset of [bs] in the input *)
Definition in_range (lo hi : Z) (b : byte) : bool := (lo <=? byte_val b)%Z && (byte_val b <=? hi)%Z.
Definition is_cont (b : byte) : bool := in_range 128 191 b.

Definition second_of_3 (b c1 : byte) : bool :=
  if (byte_val b =? 224)%Z then in_range 160 191 c1
  else if (byte_val b =? 237)%Z then in_range 128 159 c1
  else is_cont c1.
Definition second_of_4 (b c1 : byte) : bool :=
  if (byte_val b =? 240)%Z then in_range 144 191 c1
  else if (byte_val b =? 244)%Z then in_range 128 143 c1
  else is_cont c1.

Fixpoint utf8_check (pos : nat) (bs : bytes) : option Utf8Error :=
  let err l := Some (mkUtf8Error pos l) in
  match bs with
  | [] => None
  | b :: r =>
      if in_range 0 127 b then utf8_check (pos + 1) r
      else if in_range 194 223 b then
        match r with
        | [] => err None
        | c1 :: r => if is_cont c1 then utf8_check (pos + 2) r else err (Some 1)
        end
      else if in_range 224 239 b then
        match r with
        | [] => err None
        | c1 :: r =>
            if second_of_3 b c1 then
              match r with
              | [] => err None
              | c2 :: r => if is_cont c2 then utf8_check (pos + 3) r else err (Some 2)
              end
            else err (Some 1)
        end
      else if in_range 240 244 b then
        match r with
        | [] => err None
        | c1 :: r =>
            if second_of_4 b c1 then
              match r with
              | [] => err None
              | c2 :: r =>
                  if is_cont c2 then
                    match r with
                    | [] => err None
                    | c3 :: r => if is_cont c3 then utf8_check (pos + 4) r else err (Some 3)
                    end
                  else err (Some 2)
              end
            else err (Some 1)
        end
      else err (Some 1)
  end.
Definition utf8_valid (bs : bytes) : bool := bool_decide (utf8_check 0 bs = None).

(** A Rust [String] is a Rocq [string] whose bytes are valid UTF-8. *)
Definition string_bytes (s : string) : bytes := String.list_byte_of_string s.
Definition valid_string (s : string) : bool := utf8_valid (string_bytes s).

#[export] Instance bytes_to_bytes : ToBytes bytes := fun b => b.
#[export] Instance string_to_bytes : ToBytes string := string_bytes.
#[export] Instance bool_to_bytes : ToBytes bool := fun b => [if b then x01 else x00].
#[export] Instance unit_to_bytes : ToBytes unit := fun _ => [].

#[export] Instance bytes_from_bytes : FromBytes bytes := fun b => Ret (Ok b).
#[export] Instance string_from_bytes : FromBytes string := fun b =>
  Ret (match utf8_check 0 b with
       | None => Ok (String.string_of_list_byte b)
       | Some e => Err (StringBytesConversion e)
       end).
(** [bytes[0] > 0]: an empty slice panics *)
#[export] Instance bool_from_bytes : FromBytes bool := fun b =>
  x ← unwrap "index out of bounds" (head b); mret (Ok (0 <? byte_val x)%Z).

(** [bytes_impls_le_bytes!]: integers of [n] bytes, and floats as their bits *)
Record int_ty (signed : bool) (n : nat) := mkInt { int_val : Z }.
Arguments mkInt {signed n} int_val.
Arguments int_val {signed n}.

#[export] Instance int_to_bytes {signed n} : ToBytes (int_ty signed n) := fun i => le_bytes n (int_val i).
#[export] Instance int_from_bytes {signed n} : FromBytes (int_ty signed n) := fun b =>
  Ret (if decide (length b = n)
       then Ok (mkInt (if signed then cast_i (8 * Z.of_nat n) (le_val b) else le_val b))
       else Err NumBytesConversion).

Definition u8 := int_ty false 1.
Definition u32 := int_ty false 4.
Definition u64 := int_ty false 8.
Definition u128 := int_ty false 16.
Definition i8 := int_ty true 1.
Definition i32 := int_ty true 4.
Definition i64 := int_ty true 8.
Definition i128 := int_ty true 16.
Definition f32 := int_ty false 4.
Definition f64 := int_ty false 8.

(** The values a type of [n] bytes holds *)
Definition in_int (signed : bool) (n : nat) (z : Z) : Prop :=
  let w := (8 * Z.of_nat n)%Z in
  if signed then (- 2 ^ (w - 1) <= z < 2 ^ (w - 1))%Z else (0 <= z < 2 ^ w)%Z.

(** ** Events, peers, chains *)

Inductive Chain := Another | Near.
Definition Chain_to_string (c : Chain) : string :=
  match c with Another => "another" | Near => "near" end.

Record P2PMessage := mkP2PMessage { source : option string; message_data : bytes }.

Inductive EventData :=
| BatchChainTick
| ChainTick
| EventP2PMessage (m : P2PMessage)
| CliCall (args : list string).

Record Event := mkEvent { event_id : string; event_data : EventData }.

Inductive P2PCommand :=
| Broadcast (data : bytes)
| Unicast (peer_id : string) (data : bytes)
| AddPeer (multi_addr : string)
| RemovePeer (peer_id : string)
| DiscoverPeers.

(** ** Promises *)

Record CallSelfAction := mkCallSelf { function_name : string; call_args : list string }.
Record DatabaseSetAction := mkDatabaseSet { set_key : string; set_value : bytes }.
Record DatabaseGetAction := mkDatabaseGet { get_key : string }.
Record HttpAction := mkHttp { url : string }.
Record ChainViewAction := mkChainView {
  view_chain : Chain; view_contract_id : string; view_method_name : string; view_args : bytes }.
Record ChainCallAction := mkChainCall {
  call_chain : Chain; call_contract_id : string; call_method_name : string;
  call_chain_args : bytes; call_deposit : Z }.
Record TriggerEventAction := mkTriggerEvent { event : Event }.
Record P2PBroadcastAction := mkP2PBroadcast { broadcast_data : bytes }.

Inductive PromiseAction :=
| CallSelf (a : CallSelfAction)
| DatabaseSet (a : DatabaseSetAction)
| DatabaseGet (a : DatabaseGetAction)
| Http (a : HttpAction)
| ChainView (a : ChainViewAction)
| ChainCall (a : ChainCallAction)
| TriggerEvent (a : TriggerEventAction)
| P2PBroadcast (a : P2PBroadcastAction).

(** The actions a limited runtime refuses *)
Definition is_limited_action (a : PromiseAction) : bool :=
  match a with
  | CallSelf _ | Http _ => false
  | _ => true
  end.

Definition PromiseAction_to_string (a : PromiseAction) : string :=
  match a with
  | CallSelf _ => "call_self"
  | DatabaseSet _ => "db_set"
  | DatabaseGet _ => "db_get"
  | Http _ => "http"
  | ChainView _ => "chain_view"
  | ChainCall _ => "chain_call"
  | TriggerEvent _ => "trigger_event"
  | P2PBroadcast _ => "p2p_broadcast"
  end.

Inductive PromiseStatus :=
| Unfulfilled
| Pending
| Fulfilled (data : option bytes)
| Rejected (data : bytes).

Record Promise := mkPromise { action : PromiseAction; status : PromiseStatus }.

(** [From<Result<T, E>>] and [From<Result<Option<T>, E>>] *)
Definition status_of_result {T E} `{ToBytes T} `{Error E} (value : result T E) : PromiseStatus :=
  match value with
  | Ok fulfilled => Fulfilled (Some (to_bytes fulfilled))
  | Err rejection => Rejected (to_bytes (error_to_string rejection))
  end.
Definition status_of_result_option {T E} `{ToBytes T} `{Error E} (value : result (option T) E) : PromiseStatus :=
  match value with
  | Ok fulfilled => Fulfilled (to_bytes <$> fulfilled)
  | Err rejection => Rejected (to_bytes (error_to_string rejection))
  end.

(** ** The key-value memory ([storage/in_memory_adapter.rs]) *)

Record InMemory := mkInMemory { memory : gmap string bytes }.

Definition InMemory_default : InMemory := mkInMemory ∅.

Definition mem_get {O} `{FromBytes O} (m : InMemory) (key : string) : outcome (result (option O) SDKError) :=
  match memory m !! key with
  | None => Ret (Ok None)
  | Some b =>
      r ← from_bytes b;
      mret (match r with Ok o => Ok (Some o) | Err e => Err e end)
  end.
Definition mem_put {V} `{ToBytes V} (m : InMemory) (key : string) (value : V) : option bytes * InMemory :=
  (memory m !! key, mkInMemory (<[key := to_bytes value]> (memory m))).
Definition mem_contains_key (m : InMemory) (key : string) : bool := bool_decide (is_Some (memory m !! key)).

(** ** Amounts ([near.rs]) *)

Definition is_digit (c : Ascii.ascii) : bool :=
  let n := Z.of_N (Ascii.N_of_ascii c) in (48 <=? n)%Z && (n <=? 57)%Z.
Definition digit_val (c : Ascii.ascii) : Z := Z.of_N (Ascii.N_of_ascii c) - 48.

(** The value of a string of digits, left to right, [None] on another character *)
Fixpoint digits_val (acc : Z) (s : string) : option Z :=
  match s with
  | EmptyString => Some acc
  | String c s => if is_digit c then digits_val (10 * acc + digit_val c) s else None
  end.

(** [str::parse::<u128>]: an optional plus sign and at least one digit, in range *)
Definition parse_u128 (s : string) : option Z :=
  let digits := match s with
                | String c r => if decide (c = "+"%char) then r else s
                | EmptyString => s
                end in
  if decide (digits = EmptyString) then None
  else v ← digits_val 0 digits; if in_width 128 v then Some v else None.

(** [value.split('.')] *)
Fixpoint split_dot (s : string) : list string :=
  match s with
  | EmptyString => [EmptyString]
  | String c r =>
      if decide (c = "."%char) then EmptyString :: split_dot r
      else match split_dot r with
           | h :: t => String c h :: t
           | [] => [String c EmptyString]
           end
  end.

(** [10u128.pow(e)] *)
Definition pow10 (ov : bool) (e : Z) : outcome Z :=
  arith ov 128 "attempt to multiply with overflow" (10 ^ e).

Definition to_yocto (ov : bool) (value : string) : outcome Z :=
  let vals := split_dot value in
  v0 ← unwrap "index out of bounds" (vals !! 0);
  whole ← unwrap "called `Result::unwrap()` on an `Err` value" (parse_u128 v0);
  p ← pow10 ov 24;
  part1 ← mul_w ov 128 whole p;
  match vals !! 1 with
  | Some v1 =>
      let power := cast_u 32 (Z.of_nat (String.length v1)) in
      frac ← unwrap "called `Result::unwrap()` on an `Err` value" (parse_u128 v1);
      e ← sub_w ov 32 24 power;
      p ← pow10 ov e;
      part2 ← mul_w ov 128 frac p;
      add_w ov 128 part1 part2
  | None => Ret part1
  end.

(** ** Round trips *)

(** A type whose encodings decode to the value they came from *)
Class BytesCodec (T : Type) `{ToBytes T} `{FromBytes T} (valid : T -> Prop) :=
  codec_roundtrip : forall x, valid x -> from_bytes (to_bytes x) = Ret (Ok x).

#[export] Instance bytes_codec : BytesCodec bytes (fun _ => True).
Proof. done. Qed.

#[export] Instance string_codec : BytesCodec string (fun s => valid_string s = true).
Proof.
  intros s Hs. unfold from_bytes, string_from_bytes, to_bytes, string_to_bytes.
  apply bool_decide_eq_true in Hs. rewrite Hs. unfold string_bytes.
  by rewrite String.string_of_list_byte_of_string.
Qed.

#[export] Instance bool_codec : BytesCodec bool (fun _ => True).
Proof. by intros []. Qed.

Lemma le_val_range bs : (0 <= le_val bs < 2 ^ (8 * Z.of_nat (length bs)))%Z.
Proof.
  split; [apply le_val_nonneg|]. induction bs as [|b bs IH]; [done|]. cbn [le_val length].
  pose proof (byte_val_range b).
  replace (8 * Z.of_nat (S (length bs)))%Z with (8 + 8 * Z.of_nat (length bs))%Z by lia.
  rewrite Z.pow_add_r by lia. change (2 ^ 8)%Z with 256%Z. lia.
Qed.

Lemma le_bytes_le_val bs : le_bytes (length bs) (le_val bs) = bs.
Proof.
  induction bs as [|b bs IH]; [done|]. cbn [length le_val le_bytes]. pose proof (byte_val_range b).
  f_equal.
  - apply byte_val_inj. rewrite byte_val_of_Z, Z.mul_comm, Z.mod_add by lia. by apply Z.mod_small.
  - by rewrite Z.mul_comm, Z.div_add, Z.div_small, Z.add_0_l by lia.
Qed.

(** [le_bytes] sees its argument modulo the width. *)
Lemma le_bytes_mod n z : le_bytes n (z mod 2 ^ (8 * Z.of_nat n)) = le_bytes n z.
Proof.
  rewrite Z.pow_mul_r by lia. change (2 ^ 8)%Z with 256%Z.
  rewrite <- le_val_le_bytes. rewrite <- (length_le_bytes n z) at 1. apply le_bytes_le_val.
Qed.

Lemma cast_i_range w z : (0 < w)%Z -> (- 2 ^ (w - 1) <= cast_i w z < 2 ^ (w - 1))%Z.
Proof.
  intros Hw. unfold cast_i. pose proof (Z.mod_pos_bound z (2 ^ w) ltac:(lia)).
  assert (2 ^ w = 2 * 2 ^ (w - 1))%Z by (rewrite <- Z.pow_succ_r by lia; f_equal; lia).
  destruct (Z.ltb_spec (z mod 2 ^ w) (2 ^ (w - 1))); lia.
Qed.

Lemma cast_i_mod w z : (0 < w)%Z -> (cast_i w z mod 2 ^ w = z mod 2 ^ w)%Z.
Proof.
  intros Hw. unfold cast_i. destruct (_ <? _)%Z; [apply Zmod_mod|].
  apply mod_eq; [lia|]. pose proof (Z.div_mod z (2 ^ w) ltac:(lia)).
  exists (- (z / 2 ^ w) - 1)%Z. lia.
Qed.

Lemma cast_i_id w z : (0 < w)%Z -> (- 2 ^ (w - 1) <= z < 2 ^ (w - 1))%Z -> cast_i w z = z.
Proof.
  intros Hw Hz. assert (2 ^ w = 2 * 2 ^ (w - 1))%Z by (rewrite <- Z.pow_succ_r by lia; f_equal; lia).
  pose proof (cast_i_range w z Hw) as Hr. pose proof (cast_i_mod w z Hw) as Hm.
  apply mod_eq in Hm as [k Hk]; [|lia]. assert (k = 0)%Z by nia. lia.
Qed.

#[export] Instance int_codec signed n :
  BytesCodec (int_ty signed n) (fun i => n <> 0 /\ in_int signed n (int_val i)).
Proof.
  intros [z] [Hn Hz]. unfold from_bytes, int_from_bytes, to_bytes, int_to_bytes, in_int in *. cbn in Hz.
  rewrite decide_True by apply length_le_bytes. do 3 f_equal.
  destruct signed; cbn [int_val]; [|by apply le_val_le_bytes_in].
  rewrite le_val_le_bytes. change 256%Z with (2 ^ 8)%Z. rewrite <- Z.pow_mul_r by lia.
  rewrite <- (cast_i_id (8 * Z.of_nat n) z) at 2 by lia. unfold cast_i. by rewrite Zmod_mod.
Qed.

(** Decoding an integer and encoding it again *)
Lemma int_from_to signed n (b : bytes) :
  n <> 0 -> length b = n ->
  exists i : int_ty signed n, in_int signed n (int_val i) /\ from_bytes b = Ret (Ok i) /\ to_bytes i = b.
Proof.
  intros Hn Hl. unfold from_bytes, int_from_bytes. rewrite decide_True by done.
  eexists. split_and!; [|done|]; unfold in_int, to_bytes, int_to_bytes; cbn [int_val]; destruct signed.
  - apply cast_i_range. lia.
  - rewrite <- Hl. apply le_val_range.
  - rewrite <- le_bytes_mod, cast_i_mod, le_bytes_mod by lia. rewrite <- Hl. apply le_bytes_le_val.
  - rewrite <- Hl. apply le_bytes_le_val.
Qed.

(** ** Amounts *)

Lemma split_dot_no_dot s r :
  Forall (fun c => c <> "."%char) (String.list_ascii_of_string s) ->
  split_dot (s ++ String "."%char r)%string = s :: split_dot r.
Proof.
  induction s as [|c s IH]; intros Hs; [done|]. inversion Hs; subst.
  simpl. destruct (decide (c = "."%char)); [done|]. by rewrite IH.
Qed.

Lemma split_dot_single s :
  Forall (fun c => c <> "."%char) (String.list_ascii_of_string s) -> split_dot s = [s].
Proof.
  induction s as [|c s IH]; intros Hs; [done|]. inversion Hs; subst.
  simpl. destruct (decide (c = "."%char)); [done|]. by rewrite IH.
Qed.

(** ** Properties *)

(** The integer encodings are bijections: every value of the type comes back
    from its bytes, and every slice of the right length is the encoding of the
    value it decodes to; a slice of another length is an error. *)
Theorem int_bytes_bijective signed n :
  n <> 0 ->
  (forall i : int_ty signed n, in_int signed n (int_val i) -> from_bytes (to_bytes i) = Ret (Ok i)) /\
  (forall b, length b = n -> exists i : int_ty signed n,
     in_int signed n (int_val i) /\ from_bytes b = Ret (Ok i) /\ to_bytes i = b) /\
  (forall b, length b <> n -> from_bytes (T := int_ty signed n) b = Ret (Err NumBytesConversion)).
Proof.
  intros Hn. split_and!.
  - intros i Hi. by apply int_codec.
  - intros b Hb. by apply int_from_to.
  - intros b Hb. unfold from_bytes, int_from_bytes. by rewrite decide_False.
Qed.

Lemma int_bytes_bijective_witness :
  from_bytes (T := i32) (to_bytes (mkInt (-2) : i32)) = Ret (Ok (mkInt (-2))).
Proof.
  destruct (int_bytes_bijective true 4) as [Hr _]; [discriminate|].
  apply Hr. vm_compute. split; [discriminate|reflexivity].
Defined.

(** A value put into the key-value memory is read back at its type, the other
    keys keep their values, and [put] hands out the bytes it replaced. *)
Theorem memory_put_get {V} `{BytesCodec V valid} (m : InMemory) key (v : V) :
  valid v ->
  mem_get (mem_put m key v).2 key = Ret (Ok (Some v)) /\
  (forall k, k <> key -> memory (mem_put m key v).2 !! k = memory m !! k) /\
  mem_contains_key (mem_put m key v).2 key = true /\
  (mem_put m key v).1 = memory m !! key.
Proof.
  intros Hv. unfold mem_get, mem_put, mem_contains_key. cbn. split_and!.
  - rewrite lookup_insert_eq. by rewrite codec_roundtrip.
  - intros k Hk. by apply lookup_insert_ne.
  - rewrite lookup_insert_eq. by apply bool_decide_eq_true.
  - done.
Qed.

Lemma memory_put_get_witness :
  mem_get (mem_put InMemory_default "tbr" "hello"%string).2 "tbr" = Ret (Ok (Some "hello"%string)).
Proof. apply (memory_put_get InMemory_default "tbr" "hello"%string). vm_compute. reflexivity. Defined.

(** [to_yocto] of a decimal number "a.b" with at most 24 decimals is
    [a * 10^24 + b * 10^(24 - decimals)], in both compilation profiles, as long
    as the result fits 128 bits; with more decimals it panics when overflow is
    checked. *)
Theorem to_yocto_decimal ov p1 p2 a b :
  Forall (fun c => c <> "."%char) (String.list_ascii_of_string p1) ->
  Forall (fun c => c <> "."%char) (String.list_ascii_of_string p2) ->
  parse_u128 p1 = Some a -> parse_u128 p2 = Some b ->
  (0 <= a)%Z -> (0 <= b)%Z ->
  let d := Z.of_nat (String.length p2) in
  ((d <= 24)%Z -> (a * 10 ^ 24 + b * 10 ^ (24 - d) < 2 ^ 128)%Z ->
     to_yocto ov (p1 ++ String "."%char p2)%string = Ret (a * 10 ^ 24 + b * 10 ^ (24 - d))%Z) /\
  ((24 < d < 2 ^ 32)%Z -> is_ret (to_yocto true (p1 ++ String "."%char p2)%string) = false).
Proof.
  intros H1 H2 Ha Hb Ha0 Hb0 d. unfold to_yocto. rewrite split_dot_no_dot, split_dot_single by done.
  cbv zeta. change ([p1; p2] !! 0) with (Some p1). change ([p1; p2] !! 1) with (Some p2).
  cbn [unwrap mbind outcome_bind]. rewrite Ha, Hb. cbn [unwrap mbind outcome_bind].
  split.
  - intros Hd Hfit. assert (0 <= a * 10 ^ 24)%Z by lia.
    pose proof (Z.pow_pos_nonneg 10 (24 - d) ltac:(lia) ltac:(lia)).
    assert (10 ^ (24 - d) <= 10 ^ 24)%Z by (apply Z.pow_le_mono_r; lia).
    unfold pow10, mul_w, sub_w, add_w, cast_u. rewrite (arith_in ov 128 _ (10 ^ 24)) by lia. cbn [mbind outcome_bind].
    rewrite (arith_in ov 128 _ (a * 10 ^ 24)) by nia. cbn [mbind outcome_bind].
    rewrite (Z.mod_small (Z.of_nat _)) by lia. fold d.
    rewrite (arith_in ov 32 _ (24 - d)) by lia. cbn [mbind outcome_bind].
    rewrite (arith_in ov 128 _ (10 ^ (24 - d))) by lia. cbn [mbind outcome_bind].
    rewrite (arith_in ov 128 _ (b * 10 ^ (24 - d))) by nia. cbn [mbind outcome_bind].
    by rewrite arith_in by nia.
  - intros Hd. unfold pow10. rewrite (arith_in true 128 _ (10 ^ 24)) by lia. cbn [mbind outcome_bind].
    destruct (mul_w _ _ _ _); cbn [mbind outcome_bind]; [|done].
    unfold cast_u. rewrite (Z.mod_small (Z.of_nat _)) by lia. fold d. unfold sub_w, arith.
    assert (in_width 32 (24 - d) = false) as ->; [|done].
    apply andb_false_iff. left. apply Z.leb_gt. lia.
Qed.

Lemma to_yocto_decimal_witness : to_yocto false "1.5" = Ret (1 * 10 ^ 24 + 5 * 10 ^ 23)%Z.
Proof.
  refine (proj1 (to_yocto_decimal false "1" "5" 1 5 _ _ _ _ _ _) _ _).
  - repeat constructor; discriminate.
  - repeat constructor; discriminate.
  - vm_compute. reflexivity.
  - vm_compute. reflexivity.
  - lia.
  - lia.
  - vm_compute. discriminate.
  - vm_compute. reflexivity.
Defined.
