(* ===== verification/Runtime.v ===== *)
(** * The runtime: execution of promise queues

    Models [src/runtime/core/src/runtime.rs] (with [promise_queue.rs],
    [vm_result.rs], [config.rs] and [host_adapter.rs]): a run starts with a
    queue of one promise that calls a function of the WASM binary; the promises
    the binary enqueues form the next queue, and so on until a queue is empty or
    an execution fails.

    The WASM engine, the host adapter and the peer-to-peer channel are
    parameters, given by the classes below over an arbitrary world [W]. *)

From S2P Require Import Prelude Sdk.

(** ** Data *)

Record PromiseQueue := mkQueue { queue : list Promise }.
Definition PromiseQueue_new : PromiseQueue := mkQueue [].
Definition add_promise (q : PromiseQueue) (p : Promise) : PromiseQueue := mkQueue (queue q ++ [p]).

Record ExitInfo := mkExitInfo { exit_message : string; exit_code : Z }.

Record VmResult := mkVmResult {
  vm_stdout : list string;
  vm_stderr : list string;
  vm_result : option bytes;
  exit_info : ExitInfo;
}.

Inductive VmResultStatus :=
| EmptyQueue
| VmOk (msg : string)
| FailedToSetConfig
| WasiEnvInitializeFailure
| FailedToCreateVMImports
| FailedToCreateWasmerInstance
| FailedToGetWASMFn
| FailedToGetWASMStdout
| FailedToGetWASMStderr
| FailedToConvertVMPipeToString
| ExecutionError (err : string).

(** [From<VmResultStatus> for ExitInfo] *)
Definition ExitInfo_of_status (value : VmResultStatus) : ExitInfo :=
  match value with
  | EmptyQueue => mkExitInfo "Success: Empty Promise Queue" 0
  | VmOk msg => mkExitInfo ("Success: " +:+ msg) 0
  | FailedToSetConfig => mkExitInfo "Error: Failed to set VM Config" 1
  | WasiEnvInitializeFailure => mkExitInfo "Error: Failed to initialize Wasi Env" 2
  | FailedToCreateVMImports => mkExitInfo "Error: Failed to create host imports for VM" 3
  | FailedToCreateWasmerInstance => mkExitInfo "Error: Failed to create WASMER instance" 4
  | FailedToGetWASMFn => mkExitInfo "Error: Failed to find specified function in WASM binary" 5
  | FailedToGetWASMStdout => mkExitInfo "Error: Failed to get STDOUT of VM" 6
  | FailedToGetWASMStderr => mkExitInfo "Error: Failed to get STDERR of VM" 7
  | FailedToConvertVMPipeToString => mkExitInfo "Error: Failed to convert VM pipe output to String" 8
  | ExecutionError err => mkExitInfo ("Execution Error: " +:+ err) 8
  end.

Abbreviation ExecutionResult := (result VmResultStatus VmResultStatus).

Definition ExitInfo_of_result (value : ExecutionResult) : ExitInfo :=
  match value with
  | Ok ok => ExitInfo_of_status ok
  | Err err => ExitInfo_of_status err
  end.

Record VmConfig := mkVmConfig {
  program_name : string;
  start_func : option string;
  vm_args : list string;
  debug : bool;
}.

(** What the runtime reads of the node's configuration *)
Record NodeKeys := mkNodeKeys {
  contract_account_id : string;
  keypair_ed25519_public : bytes;
  keypair_bn254_public : option bytes;
}.

(** ** Interfaces *)

(** [trait HostAdapter] *)
Class HostAdapter (W : Type) := {
  HostError : Type;
  host_error :: Error HostError;
  db_get : string -> W -> result (option string) HostError * W;
  db_set : string -> string -> W -> result unit HostError * W;
  http_fetch : string -> W -> result string HostError * W;
  chain_call : Chain -> string -> string -> bytes -> Z -> NodeKeys -> W -> result bytes HostError * W;
  chain_view : Chain -> string -> string -> bytes -> W -> result bytes HostError * W;
  trigger_event : Event -> W -> result unit HostError * W;
}.

(** What a pipe of the guest gives: it may be missing, or hold no UTF-8 *)
Inductive pipe := PipeMissing | PipeNotUtf8 | PipeText (s : string).

(** What a call of the guest's function leaves behind *)
Record call_outcome (W : Type) := mkCallOutcome {
  co_world : W;
  co_trap : option string;
  co_stdout : pipe;
  co_stderr : pipe;
  co_next : PromiseQueue;
  co_result : bytes;
}.
Arguments co_world {W}. Arguments co_trap {W}. Arguments co_stdout {W}.
Arguments co_stderr {W}. Arguments co_next {W}. Arguments co_result {W}.

(** The WASM engine: loading, linking, and running a function with its WASI
    environment and the queue whose results it can read *)
Class WasmEngine (W : Type) := {
  Module_ : Type;
  module_new : bytes -> option Module_;
  hex_encode : bytes -> string;
  wasi_finalize : string -> list (string * string) -> list string -> bool;
  create_wasm_imports : Module_ -> bool;
  instance_new : Module_ -> bool;
  get_function : Module_ -> string -> bool;
  main_call : Module_ -> string -> list (string * string) -> list string -> PromiseQueue -> W -> call_outcome W;
}.

(** [mpsc::Sender<P2PCommand>]: [None] when the receiver is gone *)
Class P2PChannel (W : Type) := p2p_send : P2PCommand -> W -> option W.

Section runtime.
Context {W : Type} `{HA : HostAdapter W} `{WE : WasmEngine W} `{PC : P2PChannel W}.

Record Runtime := mkRuntime {
  wasm_module : option Module_;
  limited : bool;
  node_config : NodeKeys;
}.

(** [Runtime::new] (once the host adapter is there) and [Runtime::init] *)
Definition Runtime_new (conf : NodeKeys) (limited : bool) : Runtime := mkRuntime None limited conf.
Definition init (r : Runtime) (wasm_binary : bytes) : result Runtime string :=
  match module_new wasm_binary with
  | Some m => Ok (mkRuntime (Some m) (limited r) (node_config r))
  | None => Err "WasmCompileError"
  end.

(** The mutable state of a run: the world, the outputs, the trace *)
Record run_state := mkRun {
  world : W;
  stdout : list string;
  stderr : list string;
  promise_queue_trace : list PromiseQueue;
}.
Definition set_world (w : W) (x : run_state) : run_state :=
  mkRun w (stdout x) (stderr x) (promise_queue_trace x).

Definition set_status (q : list Promise) (index : nat) (s : PromiseStatus) : list Promise :=
  alter (fun p => mkPromise (action p) s) index q.

Definition limited_message (a : PromiseAction) : string :=
  "Method `" +:+ PromiseAction_to_string a +:+ "` not allowed in limited runtime".

(** How the processing of one promise ends *)
Inductive progress :=
| Continue (x : run_state) (promise_queue_mut : list Promise) (next_promise_queue : PromiseQueue)
| Stop (x : run_state) (r : ExecutionResult).

Definition wasi_env (r : Runtime) (bn254 : bytes) : list (string * string) :=
  [("ORACLE_CONTRACT_ID", contract_account_id (node_config r));
   ("ED25519_PUBLIC_KEY", hex_encode (keypair_ed25519_public (node_config r)));
   ("BN254_PUBLIC_KEY", hex_encode bn254)]%string.

Definition push_nonempty (buffer : string) (l : list string) : list string :=
  if decide (buffer = EmptyString) then l else l ++ [buffer].

(** The arm of [PromiseAction::CallSelf] *)
Definition call_self_arm (r : Runtime) (m : Module_) (call_action : CallSelfAction) (index : nat)
    (x : run_state) (q : list Promise) : outcome progress :=
  bn254 ← unwrap "called `Result::unwrap()` on an `Err` value" (keypair_bn254_public (node_config r));
  let env := wasi_env r bn254 in
  if negb (wasi_finalize (function_name call_action) env (call_args call_action))
  then Ret (Stop x (Err WasiEnvInitializeFailure))
  else if negb (create_wasm_imports m) then Ret (Stop x (Err FailedToCreateVMImports))
  else if negb (instance_new m) then Ret (Stop x (Err FailedToCreateWasmerInstance))
  else if negb (get_function m (function_name call_action)) then Ret (Stop x (Err FailedToGetWASMFn))
  else
    let co := main_call m (function_name call_action) env (call_args call_action) (mkQueue q) (world x) in
    let x := set_world (co_world co) x in
    match co_stdout co with
    | PipeMissing => Ret (Stop x (Err FailedToGetWASMStdout))
    | PipeNotUtf8 => Ret (Stop x (Err FailedToConvertVMPipeToString))
    | PipeText stdout_buffer =>
        let x := mkRun (world x) (push_nonempty stdout_buffer (stdout x)) (stderr x) (promise_queue_trace x) in
        match co_stderr co with
        | PipeMissing | PipeNotUtf8 => Ret (Stop x (Err FailedToGetWASMStderr))
        | PipeText stderr_buffer =>
            let x := mkRun (world x) (stdout x) (push_nonempty stderr_buffer (stderr x)) (promise_queue_trace x) in
            match co_trap co with
            | Some err => Ret (Stop x (Ok (ExecutionError err)))
            | None => Ret (Continue x (set_status q index (Fulfilled (Some (co_result co)))) (co_next co))
            end
        end
    end.

(** A host call: its result becomes the status of the promise *)
Definition host_arm {T} (f : W -> T * W) (st : T -> PromiseStatus) (index : nat)
    (x : run_state) (q : list Promise) (next : PromiseQueue) : progress :=
  let '(res, w) := f (world x) in
  Continue (set_world w x) (set_status q index (st res)) next.

(** The body of [for index in 0..promise_queue.queue.len()] *)
Definition process_promise (r : Runtime) (m : Module_) (index : nat) (act : PromiseAction)
    (x : run_state) (q : list Promise) (next : PromiseQueue) : outcome progress :=
  let q := set_status q index Pending in
  if limited r && is_limited_action act
  then Ret (Continue x (set_status q index (Rejected (string_bytes (limited_message act)))) next)
  else
    match act with
    | CallSelf a => call_self_arm r m a index x q
    | DatabaseSet a =>
        res ← from_bytes (T := string) (set_value a);
        match res with
        | Err e => mret (Continue x (set_status q index (status_of_result (T := string) (Err e))) next)
        | Ok value => mret (host_arm (db_set (set_key a) value) status_of_result index x q next)
        end
    | DatabaseGet a => Ret (host_arm (db_get (get_key a)) status_of_result_option index x q next)
    | Http a => Ret (host_arm (http_fetch (url a)) status_of_result index x q next)
    | ChainView a =>
        Ret (host_arm (chain_view (view_chain a) (view_contract_id a) (view_method_name a) (view_args a))
               status_of_result index x q next)
    | ChainCall a =>
        Ret (host_arm (chain_call (call_chain a) (call_contract_id a) (call_method_name a)
                         (call_chain_args a) (call_deposit a) (node_config r))
               status_of_result index x q next)
    | TriggerEvent a => Ret (host_arm (trigger_event (event a)) status_of_result index x q next)
    | P2PBroadcast a =>
        w ← unwrap "fixed with above TODO" (p2p_send (Broadcast (broadcast_data a)) (world x));
        mret (Continue (set_world w x) q next)
    end.

Fixpoint process_promises (r : Runtime) (m : Module_) (todo : list Promise) (index : nat)
    (x : run_state) (q : list Promise) (next : PromiseQueue) : outcome progress :=
  match todo with
  | [] => Ret (Continue x q next)
  | p :: todo =>
      res ← process_promise r m index (action p) x q next;
      match res with
      | Continue x q next => process_promises r m todo (S index) x q next
      | Stop x e => Ret (Stop x e)
      end
  end.

(** [execute_promise_queue]; [fuel] bounds the number of queues. *)
Fixpoint execute_promise_queue (fuel : nat) (r : Runtime) (m : Module_) (promise_queue : PromiseQueue)
    (x : run_state) : outcome (run_state * ExecutionResult) :=
  match fuel with
  | O => Panic "out of fuel"
  | S fuel =>
      match queue promise_queue with
      | [] => Ret (x, Ok EmptyQueue)
      | _ =>
          res ← process_promises r m (queue promise_queue) 0 x (queue promise_queue) PromiseQueue_new;
          match res with
          | Stop x e => Ret (x, e)
          | Continue x q next =>
              execute_promise_queue fuel r m next
                (mkRun (world x) (stdout x) (stderr x) (promise_queue_trace x ++ [mkQueue q]))
          end
      end
  end.

(** The result a run reports: the last promise of the last queue *)
Definition last_status (trace : list PromiseQueue) : outcome (option PromiseStatus) :=
  match last trace with
  | None => Ret None
  | Some last_queue =>
      p ← unwrap "Failed to get last promise in promise queue" (last (queue last_queue));
      mret (Some (status p))
  end.

Definition start_runtime (fuel : nat) (r : Runtime) (config : VmConfig) (w : W) : outcome (VmResult * W) :=
  let name := default "_start"%string (start_func config) in
  m ← unwrap unwrap_none (wasm_module r);
  let promise_queue := add_promise PromiseQueue_new
        (mkPromise (CallSelf (mkCallSelf name (vm_args config))) Unfulfilled) in
  '(x, e) ← execute_promise_queue fuel r m promise_queue (mkRun w [] [] []);
  s ← last_status (promise_queue_trace x);
  let res := match s with
             | Some (Fulfilled (Some data)) => Some data
             | Some (Rejected data) => Some data
             | _ => None
             end in
  mret (mkVmResult (stdout x) (stderr x) res (ExitInfo_of_result e), world x).

End runtime.

(** ** Lemmas *)

Section lemmas.
Context {W : Type} `{HA : HostAdapter W} `{WE : WasmEngine W} `{PC : P2PChannel W}.
Context (r : Runtime) (m : Module_).

Lemma length_set_status q i s : length (set_status q i s) = length q.
Proof. apply length_alter. Qed.

Lemma lookup_set_status q i s j :
  set_status q i s !! j =
    if decide (i = j) then (fun p => mkPromise (action p) s) <$> (q !! j) else q !! j.
Proof.
  unfold set_status. case_decide as E; [subst; apply list_lookup_alter_eq|by apply list_lookup_alter_ne].
Qed.

(** The statuses a processed promise can have *)
Definition settled (act : PromiseAction) (s : PromiseStatus) : Prop :=
  if limited r && is_limited_action act then s = Rejected (string_bytes (limited_message act))
  else match act with
       | P2PBroadcast _ => s = Pending
       | _ => (exists d, s = Fulfilled d) \/ (exists d, s = Rejected d)
       end.

(** Processing the promise at [index] settles it and touches no other one. *)
Lemma status_settled {T E} `{ToBytes T} `{Error E} (res : result T E) :
  (exists d, status_of_result res = Fulfilled d) \/ (exists d, status_of_result res = Rejected d).
Proof. destruct res; cbn; eauto. Qed.
Lemma status_option_settled {T E} `{ToBytes T} `{Error E} (res : result (option T) E) :
  (exists d, status_of_result_option res = Fulfilled d) \/ (exists d, status_of_result_option res = Rejected d).
Proof. destruct res; cbn; eauto. Qed.

Lemma call_self_arm_ret a index x q x' q' next' :
  call_self_arm r m a index x q = Ret (Continue x' q' next') ->
  exists env,
  let co := main_call m (function_name a) env (call_args a) (mkQueue q) (world x) in
  q' = set_status q index (Fulfilled (Some (co_result co))) /\ next' = co_next co /\
  world x' = co_world co /\ promise_queue_trace x' = promise_queue_trace x.
Proof.
  unfold call_self_arm. intros Hr. apply outcome_bind_ret in Hr as (bn & _ & Hr).
  exists (wasi_env r bn). repeat (case_match; try done; []). by simplify_eq.
Qed.

Lemma set_status_twice q i s s' : set_status (set_status q i s) i s' = set_status q i s'.
Proof.
  unfold set_status. apply list_eq. intros j. destruct (decide (i = j)) as [->|Hne].
  - rewrite !list_lookup_alter_eq. by destruct (q !! j).
  - by rewrite !list_lookup_alter_ne.
Qed.

Lemma process_promise_ret index act x q next x' q' next' :
  process_promise r m index act x q next = Ret (Continue x' q' next') ->
  promise_queue_trace x' = promise_queue_trace x /\
  exists s, settled act s /\ q' = set_status q index s.
Proof.
  unfold process_promise, settled. intros Hr.
  destruct (limited r && is_limited_action act).
  { simplify_eq. split; [done|]. eexists. split; [done|]. by rewrite set_status_twice. }
  assert (forall {T} (f : W -> T * W) st, (forall res, (exists d, st res = Fulfilled d) \/ (exists d, st res = Rejected d)) ->
    Ret (host_arm f st index x (set_status q index Pending) next) = Ret (Continue x' q' next') ->
    promise_queue_trace x' = promise_queue_trace x /\ exists s,
      ((exists d, s = Fulfilled d) \/ (exists d, s = Rejected d)) /\ q' = set_status q index s) as Hhost.
  { intros T f st Hst. unfold host_arm. destruct (f (world x)) as [res w]. intros [= <- <- <-].
    split; [done|]. exists (st res). split; [apply Hst|apply set_status_twice]. }
  destruct act; cbn in Hr;
    try (eapply Hhost; [|exact Hr]; (apply status_settled || apply status_option_settled)).
  - apply call_self_arm_ret in Hr as (env & -> & _ & _ & Ht). split; [done|]. eexists.
    rewrite set_status_twice. split; [|reflexivity]. eauto.
  - destruct (utf8_check 0 (set_value a)); cbn in Hr.
    + inv_run. simplify_eq/=. split; [done|]. eexists. rewrite set_status_twice. split; [|reflexivity]. eauto.
    + eapply Hhost; [|exact Hr]. apply status_settled.
  - destruct (p2p_send _ _); cbn in Hr; inv_run. simplify_eq/=. split; [done|]. by eexists.
Qed.

(** A queue after its promises were processed: same actions, all settled *)
Definition processed (q q' : list Promise) : Prop :=
  Forall2 (fun p p' => action p' = action p /\ settled (action p) (status p')) q q'.

Lemma process_promises_ret pre todo index x next x' q' next' :
  length pre = index ->
  process_promises r m todo index x (pre ++ todo) next = Ret (Continue x' q' next') ->
  promise_queue_trace x' = promise_queue_trace x /\ exists todo', q' = pre ++ todo' /\ processed todo todo'.
Proof.
  revert pre index x next. induction todo as [|p todo IH]; intros pre index x next Hi Hr; cbn in Hr.
  { simplify_eq. split; [done|]. exists []. split; [done|constructor]. }
  apply outcome_bind_ret in Hr as ([x1 q1 next1|] & Hp & Hr); [|done].
  apply process_promise_ret in Hp as (Ht & s & Hs & ->). unfold set_status in Hr. subst index.
  rewrite alter_app_r_alt, Nat.sub_diag in Hr by done. cbn in Hr.
  rewrite cons_middle, app_assoc in Hr.
  apply IH in Hr as (Ht' & todo' & -> & Hf); [|rewrite length_app; cbn; lia].
  split; [congruence|]. exists (mkPromise (action p) s :: todo').
  split; [by rewrite <- app_assoc|]. by constructor.
Qed.

(** Every promise of every queue in the trace is settled. *)
Definition trace_settled (trace : list PromiseQueue) : Prop :=
  Forall (fun q => Forall (fun p => settled (action p) (status p)) (queue q)) trace.

Lemma processed_settled q q' : processed q q' -> Forall (fun p => settled (action p) (status p)) q'.
Proof. induction 1 as [|p p' q q' [E Hs] _ IH]; constructor; [by rewrite E|done]. Qed.

Lemma process_stop todo index x q next x' e :
  process_promises r m todo index x q next = Ret (Stop x' e) ->
  promise_queue_trace x' = promise_queue_trace x.
Proof.
  revert index x q next. induction todo as [|p todo IH]; intros index x q next Hr; cbn in Hr; [done|].
  apply outcome_bind_ret in Hr as ([x1 q1 next1|x1 e1] & Hp & Hr).
  - apply process_promise_ret in Hp as [<- _]. by eapply IH.
  - simplify_eq. unfold process_promise in Hp. case_match; [done|]. destruct (action p); cbn in Hp.
    + unfold call_self_arm in Hp. apply outcome_bind_ret in Hp as (bn & _ & Hp).
      repeat (case_match; try done; []); repeat case_match; by simplify_eq/=.
    + destruct (utf8_check _ _); cbn in Hp; [done|unfold host_arm in Hp; by destruct (db_set _ _ _)].
    + unfold host_arm in Hp. by destruct (db_get _ _).
    + unfold host_arm in Hp. by destruct (http_fetch _ _).
    + unfold host_arm in Hp. by destruct (chain_view _ _ _ _ _).
    + unfold host_arm in Hp. by destruct (chain_call _ _ _ _ _ _ _).
    + unfold host_arm in Hp. by destruct (trigger_event _ _).
    + by destruct (p2p_send _ _).
Qed.

Lemma execute_trace fuel q x x' e :
  trace_settled (promise_queue_trace x) ->
  execute_promise_queue fuel r m q x = Ret (x', e) ->
  trace_settled (promise_queue_trace x').
Proof.
  revert q x. induction fuel as [|fuel IH]; intros q x Hx Hr; cbn in Hr; [done|].
  destruct (queue q) as [|p l] eqn:Eq; [by simplify_eq|].
  apply outcome_bind_ret in Hr as ([x1 q1 next1|x1 e1] & Hp & Hr).
  - apply (process_promises_ret []) in Hp as (Ht & todo' & -> & Hpr); [|done].
    eapply IH; [|exact Hr]. cbn. rewrite Ht. apply Forall_app. split; [done|].
    constructor; [|constructor]. by eapply processed_settled.
  - apply process_stop in Hp. simplify_eq. unfold trace_settled. by rewrite Hp.
Qed.

End lemmas.

(** ** Confinement, progress *)

Section guests.
Context {W : Type} `{HA : HostAdapter W} `{WE : WasmEngine W} `{PC : P2PChannel W}.
Context (r : Runtime) (m : Module_).

(** The points a run goes through: between two promises of a queue, and at its
    end *)
Inductive run_point :=
| Working (todo : list Promise) (index : nat) (x : run_state (W := W)) (q : list Promise) (next : PromiseQueue)
| Ended (x : run_state (W := W)) (e : ExecutionResult).
Definition start_point (q : PromiseQueue) (x : run_state) : run_point :=
  Working (queue q) 0 x (queue q) PromiseQueue_new.
Definition traced (x : run_state (W := W)) (q : list Promise) : run_state :=
  mkRun (world x) (stdout x) (stderr x) (promise_queue_trace x ++ [mkQueue q]).
Definition point_world (c : run_point) : W :=
  match c with Working _ _ x _ _ | Ended x _ => world x end.

Inductive run_step : run_point -> run_point -> Prop :=
| run_promise p todo index x q next x' q' next' :
    process_promise r m index (action p) x q next = Ret (Continue x' q' next') ->
    run_step (Working (p :: todo) index x q next) (Working todo (S index) x' q' next')
| run_stop p todo index x q next x' e :
    process_promise r m index (action p) x q next = Ret (Stop x' e) ->
    run_step (Working (p :: todo) index x q next) (Ended x' e)
| run_queue index x q next :
    queue next <> [] -> run_step (Working [] index x q next) (start_point next (traced x q))
| run_empty index x q next :
    queue next = [] -> run_step (Working [] index x q next) (Ended (traced x q) (Ok EmptyQueue)).

(** What [execute_promise_queue] returns is where the steps lead. *)
Lemma process_promises_points todo index x q next res :
  process_promises r m todo index x q next = Ret res ->
  rtc run_step (Working todo index x q next)
    (match res with Continue x' q' next' => Working [] (index + length todo) x' q' next' | Stop x' e => Ended x' e end).
Proof.
  revert index x q next. induction todo as [|p todo IH]; intros index x q next Hr; cbn in Hr.
  { simplify_eq. cbn. rewrite Nat.add_0_r. apply rtc_refl. }
  apply outcome_bind_ret in Hr as ([x1 q1 n1|x1 e1] & Hp & Hr).
  - eapply rtc_l; [by apply run_promise|]. cbn. rewrite <- Nat.add_succ_comm. by apply IH.
  - simplify_eq. by apply rtc_once, run_stop.
Qed.

Lemma execute_points fuel q x x' e :
  queue q <> [] -> execute_promise_queue fuel r m q x = Ret (x', e) -> rtc run_step (start_point q x) (Ended x' e).
Proof.
  revert q x. induction fuel as [|fuel IH]; intros q x Hq Hr; cbn in Hr; [done|].
  destruct (queue q) as [|p l] eqn:Eq; [done|]. rewrite <- Eq in Hr.
  apply outcome_bind_ret in Hr as ([x1 q1 n1|x1 e1] & Hp%process_promises_points & Hr).
  - etrans; [exact Hp|]. destruct (decide (queue n1 = [])) as [En|En].
    + destruct fuel; cbn in Hr; [done|]. rewrite En in Hr. injection Hr as <- <-. by apply rtc_once, run_empty.
    + eapply rtc_l; [by apply run_queue|]. by apply IH.
  - by simplify_eq.
Qed.

(** The world after one promise, in a limited runtime *)
Lemma limited_promise (I : W -> Prop) index act x q next res :
  limited r = true ->
  (forall f env args cq w, I w -> I (co_world (main_call m f env args cq w))) ->
  (forall u w, I w -> I (http_fetch u w).2) ->
  process_promise r m index act x q next = Ret res -> I (world x) ->
  I (world (match res with Continue x' _ _ => x' | Stop x' _ => x' end)).
Proof.
  intros Hlim Hcall Hhttp Hr HI. unfold process_promise in Hr. rewrite Hlim in Hr.
  destruct act; cbn [is_limited_action andb] in Hr; try by simplify_eq.
  - unfold call_self_arm in Hr. apply outcome_bind_ret in Hr as (bn & _ & Hr).
    repeat case_match; simplify_eq/=; eauto.
  - unfold host_arm in Hr. specialize (Hhttp (url a) (world x) HI).
    destruct (http_fetch _ _); by simplify_eq/=.
Qed.

(** C22: A limited runtime confines its guests.  Whatever property of the world is
    kept by running the guest and by fetching over HTTP holds at every point that
    a run goes through, between any two promises, whether the run ends, panics
    later or goes on forever; so no database, chain, event or peer-to-peer
    operation changes the world.  The result of a run that returns is such a
    point. *)
Theorem limited_runtime_confined (I : W -> Prop) q x :
  limited r = true ->
  (forall f env args cq w, I w -> I (co_world (main_call m f env args cq w))) ->
  (forall u w, I w -> I (http_fetch u w).2) ->
  I (world x) ->
  (forall c, rtc run_step (start_point q x) c -> I (point_world c)) /\
  (forall fuel x' e, execute_promise_queue fuel r m q x = Ret (x', e) -> I (world x')).
Proof.
  intros Hlim Hcall Hhttp HI.
  assert (forall c, rtc run_step (start_point q x) c -> I (point_world c)) as Hall.
  { intros c' Hc. change (world x) with (point_world (start_point q x)) in HI.
    induction Hc as [|c1 c2 c3 Hs _ IH]; [done|]. apply IH.
    destruct Hs as [p todo index x1 q1 n1 x2 q2 n2 Hp|p todo index x1 q1 n1 x2 e Hp|index x1 q1 n1|index x1 q1 n1]; cbn in *; [| |done|done].
    - exact (limited_promise I _ _ _ _ _ _ Hlim Hcall Hhttp Hp HI).
    - exact (limited_promise I _ _ _ _ _ _ Hlim Hcall Hhttp Hp HI). }
  split; [apply Hall|]. intros fuel x' e Hr. destruct (decide (queue q = [])) as [Eq|Eq].
  - destruct fuel; cbn in Hr; [done|]. rewrite Eq in Hr. by injection Hr as <- _.
  - exact (Hall _ (execute_points _ _ _ _ _ Eq Hr)).
Qed.

(** Every promise of every queue a run has worked off is settled: it is
    fulfilled or rejected, rejected with the runtime's message when the runtime
    is limited and the action is not allowed there, and only broadcasts to peers
    stay pending. *)
Theorem run_settles_promises fuel q x x' e :
  promise_queue_trace x = [] -> execute_promise_queue fuel r m q x = Ret (x', e) ->
  trace_settled r (promise_queue_trace x').
Proof. intros Hx. apply execute_trace. rewrite Hx. constructor. Qed.

Definition actions (q : list Promise) : list PromiseAction := action <$> q.

(** Two runs of one promise that differ in the next queue only *)
Lemma process_promise_next index act x q n1 n2 :
  match process_promise r m index act x q n1, process_promise r m index act x q n2 with
  | Ret (Continue x1 q1 _), Ret (Continue x2 q2 _) => x1 = x2 /\ q1 = q2
  | Ret (Stop x1 e1), Ret (Stop x2 e2) => x1 = x2 /\ e1 = e2
  | Panic e1, Panic e2 => e1 = e2
  | _, _ => False
  end.
Proof.
  unfold process_promise. destruct (limited r && is_limited_action act); [done|].
  destruct act; unfold host_arm; cbn.
  - by destruct (call_self_arm _ _ _ _ _ _) as [[]|].
  - destruct (utf8_check _ _); cbn; [done|by destruct (db_set _ _ _)].
  - by destruct (db_get _ _).
  - by destruct (http_fetch _ _).
  - by destruct (chain_view _ _ _ _ _).
  - by destruct (chain_call _ _ _ _ _ _ _).
  - by destruct (trigger_event _ _).
  - by destruct (p2p_send _ _).
Qed.

(** Only the last call of the guest in a queue decides what runs next: the
    promises that earlier calls in the same queue enqueued are dropped, whatever
    they were. *)
Theorem earlier_enqueued_promises_dropped todo index x q n1 n2 :
  (exists a, CallSelf a ∈ actions todo) ->
  process_promises r m todo index x q n1 = process_promises r m todo index x q n2.
Proof.
  revert index x q n1 n2. induction todo as [|p todo IH]; intros index x q n1 n2 [a Ha]; [by apply not_elem_of_nil in Ha|].
  cbn in *. apply elem_of_cons in Ha as [Ha|Ha].
  - unfold process_promise. by rewrite <- Ha, andb_false_r.
  - pose proof (process_promise_next index (action p) x q n1 n2) as Hn.
    destruct (process_promise _ _ _ _ _ _ n1) as [[x1 q1 m1|x1 e1]|], (process_promise _ _ _ _ _ _ n2) as [[x2 q2 m2|x2 e2]|];
      cbn; try done.
    + destruct Hn as [-> ->]. apply IH. eauto.
    + by destruct Hn as [-> ->].
    + by subst.
Qed.

(** ** Termination *)

Context (rank : list PromiseAction -> nat).

(** A guest that enqueues only work of lower rank *)
Hypothesis ranked : forall a env q w, CallSelf a ∈ actions q ->
  rank (actions (queue (co_next (main_call m (function_name a) env (call_args a) (mkQueue q) w)))) < rank (actions q).

(** The panics of the code itself: the receiver of the channel is gone, or the
    node has no BN254 key *)
Definition runtime_panic (msg : string) : Prop :=
  msg = "fixed with above TODO"%string /\ (exists c w, p2p_send c w = None) \/
  msg = "called `Result::unwrap()` on an `Err` value"%string /\ keypair_bn254_public (node_config r) = None.

Lemma set_status_actions q i s : actions (set_status q i s) = actions q.
Proof.
  unfold actions. apply list_eq. intros j. rewrite !list_lookup_fmap, lookup_set_status.
  case_decide; [|done]. by destruct (q !! j).
Qed.

Lemma process_promise_total index act x q next b :
  (forall a, act = CallSelf a -> CallSelf a ∈ actions q) ->
  (next = PromiseQueue_new \/ rank (actions (queue next)) < b) -> rank (actions q) <= b ->
  match process_promise r m index act x q next with
  | Ret (Continue _ q' next') =>
      actions q' = actions q /\ (next' = PromiseQueue_new \/ rank (actions (queue next')) < b)
  | Ret (Stop _ _) => True
  | Panic msg => runtime_panic msg
  end.
Proof.
  intros Hact Hnext Hb. unfold process_promise.
  destruct (limited r && is_limited_action act); [by rewrite !set_status_actions|].
  destruct act; unfold host_arm; cbn.
  - unfold call_self_arm. destruct (keypair_bn254_public (node_config r)) as [bn|] eqn:Ek; cbn; [|by right].
    pose proof (ranked a (wasi_env r bn) (set_status q index Pending) (world x)) as Hr.
    rewrite set_status_actions in Hr. specialize (Hr (Hact a eq_refl)).
    repeat case_match; simplify_eq/=; try done. rewrite !set_status_actions. split; [done|]. right. lia.
  - destruct (utf8_check _ _); cbn; [|destruct (db_set _ _ _)]; by rewrite !set_status_actions.
  - destruct (db_get _ _). by rewrite !set_status_actions.
  - destruct (http_fetch _ _). by rewrite !set_status_actions.
  - destruct (chain_view _ _ _ _ _). by rewrite !set_status_actions.
  - destruct (chain_call _ _ _ _ _ _ _). by rewrite !set_status_actions.
  - destruct (trigger_event _ _). by rewrite !set_status_actions.
  - destruct (p2p_send _ _) eqn:Ep; cbn; [by rewrite !set_status_actions|]. left. eauto.
Qed.

Lemma process_promises_total todo index x q next b :
  (forall a, CallSelf a ∈ actions todo -> CallSelf a ∈ actions q) ->
  (next = PromiseQueue_new \/ rank (actions (queue next)) < b) -> rank (actions q) <= b ->
  match process_promises r m todo index x q next with
  | Ret (Continue _ _ next') => next' = PromiseQueue_new \/ rank (actions (queue next')) < b
  | Ret (Stop _ _) => True
  | Panic msg => runtime_panic msg
  end.
Proof.
  revert index x q next. induction todo as [|p todo IH]; intros index x q next Hin Hnext Hb; cbn; [done|].
  pose proof (process_promise_total index (action p) x q next b) as Hp.
  destruct (process_promise r m index (action p) x q next) as [[x1 q1 next1|x1 e1]|msg]; cbn; [|done|].
  - destruct Hp as [Hq Hn]; [|done..|].
    { intros a Ha. apply Hin. cbn. rewrite Ha. set_solver. }
    apply IH; [|done|by rewrite Hq]. intros a Ha. rewrite Hq. apply Hin. cbn. set_solver.
  - apply Hp; [|done..]. intros a Ha. apply Hin. cbn. rewrite Ha. set_solver.
Qed.


End guests.

(** ** Results of a run *)

Section results.
Context {W : Type} `{HA : HostAdapter W} `{WE : WasmEngine W} `{PC : P2PChannel W}.

(** A run never ends with [VmOk] or with a configuration failure. *)
Definition run_end (e : ExecutionResult) : Prop :=
  match e with
  | Ok s => s = EmptyQueue \/ exists err, s = ExecutionError err
  | Err s => s <> EmptyQueue /\ (forall msg, s <> VmOk msg)
  end.

Lemma call_self_arm_stop r m a index x q x' e :
  call_self_arm r m a index x q = Ret (Stop x' e) -> run_end e /\ e <> Ok EmptyQueue.
Proof.
  unfold call_self_arm. intros Hr. apply outcome_bind_ret in Hr as (bn & _ & Hr).
  repeat case_match; simplify_eq/=; split; try done; eauto.
Qed.

Lemma process_promises_stop r m todo index x q next x' e :
  process_promises r m todo index x q next = Ret (Stop x' e) -> run_end e /\ e <> Ok EmptyQueue.
Proof.
  revert index x q next. induction todo as [|p todo IH]; intros index x q next Hr; cbn in Hr; [done|].
  apply outcome_bind_ret in Hr as ([x1 q1 n1|x1 e1] & Hp & Hr); [by eapply IH|]. simplify_eq.
  unfold process_promise in Hp. case_match; [done|]. destruct (action p); unfold host_arm in Hp; cbn in Hp.
  - by eapply call_self_arm_stop.
  - destruct (utf8_check _ _); cbn in Hp; [done|by destruct (db_set _ _ _)].
  - by destruct (db_get _ _).
  - by destruct (http_fetch _ _).
  - by destruct (chain_view _ _ _ _ _).
  - by destruct (chain_call _ _ _ _ _ _ _).
  - by destruct (trigger_event _ _).
  - by destruct (p2p_send _ _).
Qed.

Lemma execute_end fuel r m q x x' e :
  execute_promise_queue fuel r m q x = Ret (x', e) -> run_end e.
Proof.
  revert q x. induction fuel as [|fuel IH]; intros q x Hr; cbn in Hr; [done|].
  destruct (queue q) as [|p l]; [simplify_eq; by left|].
  apply outcome_bind_ret in Hr as ([x1 q1 n1|x1 e1] & Hp & Hr); [by eapply IH|].
  simplify_eq. by apply process_promises_stop in Hp as [? _].
Qed.

Lemma run_end_code e : run_end e -> exit_code (ExitInfo_of_result e) = 0%Z <-> e = Ok EmptyQueue.
Proof.
  destruct e as [s|s]; cbn; [intros [->|[err ->]]; cbn; split; (done || intros; discriminate)|].
  intros [Hne Hok]. destruct s; cbn; try (split; intros; discriminate); [done|by destruct (Hok msg)].
Qed.

(** A run reports exit code 0 exactly when it worked off all its queues; its
    outputs and its trace are those of that execution, and its result is what
    the last promise of the last queue was fulfilled or rejected with. *)
Theorem start_runtime_reports fuel r config w res w' :
  start_runtime fuel r config w = Ret (res, w') ->
  exists m x e,
    wasm_module r = Some m /\
    execute_promise_queue fuel r m
      (mkQueue [mkPromise (CallSelf (mkCallSelf (default "_start"%string (start_func config)) (vm_args config))) Unfulfilled])
      (mkRun w [] [] []) = Ret (x, e) /\
    vm_stdout res = stdout x /\ vm_stderr res = stderr x /\ w' = world x /\
    (exit_code (exit_info res) = 0%Z <-> e = Ok EmptyQueue) /\
    (forall data, vm_result res = Some data <->
       exists q p, last (promise_queue_trace x) = Some q /\ last (queue q) = Some p /\
         (status p = Fulfilled (Some data) \/ status p = Rejected data)).
Proof.
  intros Hr. unfold start_runtime in Hr.
  apply outcome_bind_ret in Hr as (m & Hm%unwrap_ret & Hr).
  apply outcome_bind_ret in Hr as ([x e] & Hx & Hr).
  apply outcome_bind_ret in Hr as (s & Hs & Hr). inv_run. exists m, x, e.
  split; [done|]. split; [done|]. do 3 (split; [done|]). split; [by eapply run_end_code, execute_end|].
  intros data. cbn. unfold last_status in Hs.
  destruct (last (promise_queue_trace x)) as [q|]; [|inv_run; split; [done|by intros (? & ? & ? & _)]].
  inv_run. match goal with H : last (queue q) = Some ?p |- _ => rename p into p0; rename H into Hp end.
  split.
  - intros Hd. exists q, p0. split_and!; [done..|]. destruct (status p0) as [| |[d|]|]; simplify_eq; auto.
  - intros (q' & p' & E1 & E2 & Hd). simplify_eq. by destruct Hd as [->| ->].
Qed.

(** Exit codes tell the ways a run can end apart, except that a guest that
    traps and an unreadable output share code 8. *)
Theorem exit_codes_distinct s1 s2 :
  exit_code (ExitInfo_of_status s1) = exit_code (ExitInfo_of_status s2) ->
  s1 = s2 \/ (exit_code (ExitInfo_of_status s1) = 0%Z) \/ (exit_code (ExitInfo_of_status s1) = 8%Z).
Proof. destruct s1, s2; cbn; intros; simplify_eq; auto. Qed.

End results.

(** ** A concrete guest

    Its entry point fetches a page, writes to the database and calls a second
    function of its own; the second function returns a value. *)

Module RefGuest.

(** The host keeps a log of the operations it performed. *)
Definition host_log := list string.

#[export] Instance string_error : Error string := fun s => s.

#[export] Instance ref_host : HostAdapter host_log := {|
  HostError := string;
  host_error := string_error;
  db_get key w := (Ok None, w ++ ["db_get"%string]);
  db_set key value w := (Ok tt, w ++ ["db_set"%string]);
  http_fetch u w := (Ok "page"%string, w ++ ["http"%string]);
  chain_call c id f args dep conf w := (Err "no chain"%string, w ++ ["chain_call"%string]);
  chain_view c id f args w := (Err "no chain"%string, w ++ ["chain_view"%string]);
  trigger_event e w := (Ok tt, w ++ ["event"%string])
|}.

#[export] Instance ref_channel : P2PChannel host_log := fun c w => Some (w ++ ["p2p"%string]).

Definition second_queue : PromiseQueue := mkQueue
  [mkPromise (Http (mkHttp "http://x")) Unfulfilled;
   mkPromise (DatabaseSet (mkDatabaseSet "k" [x61])) Unfulfilled;
   mkPromise (CallSelf (mkCallSelf "second" [])) Unfulfilled].

#[export] Instance ref_engine : WasmEngine host_log := {|
  Module_ := unit;
  module_new bs := Some tt;
  hex_encode bs := "00"%string;
  wasi_finalize f env args := true;
  create_wasm_imports m := true;
  instance_new m := true;
  get_function m f := true;
  main_call m f env args cq w :=
    mkCallOutcome _ w None (PipeText "hi") (PipeText EmptyString)
      (if decide (f = "_start"%string) then second_queue else PromiseQueue_new) [x2a]
|}.

Definition weight (a : PromiseAction) : nat :=
  match a with
  | CallSelf a => if decide (function_name a = "_start"%string) then 2 else 1
  | _ => 0
  end.
Definition ref_rank (l : list PromiseAction) : nat := foldr (fun a acc => weight a + acc) 0 l.

Lemma weight_le a l : a ∈ l -> weight a <= ref_rank l.
Proof. unfold ref_rank. induction l as [|b l IH]; cbn -[weight]; [by intros ?%not_elem_of_nil|]. intros [->|H%IH]%elem_of_cons; lia. Qed.

Definition ref_runtime (lim : bool) : Runtime := mkRuntime (Some tt) lim (mkNodeKeys "oracle.near" [x01] (Some [x02])).
Definition ref_config : VmConfig := mkVmConfig "consensus" None [] false.
Definition start_queue : PromiseQueue := mkQueue [mkPromise (CallSelf (mkCallSelf "_start" [])) Unfulfilled].

Lemma ref_ranked a env q (w : host_log) :
  CallSelf a ∈ actions q ->
  ref_rank (actions (queue (co_next (main_call tt (function_name a) env (call_args a) (mkQueue q) w)))) <
  ref_rank (actions q).
Proof.
  intros Ha%weight_le. cbn [weight] in Ha. cbn [main_call ref_engine co_next].
  destruct (decide (function_name a = "_start"%string)); (eapply Nat.lt_le_trans; [|exact Ha]); vm_compute; lia.
Qed.

End RefGuest.

Section witnesses.
Import RefGuest.

Definition final_run (lim : bool) : run_state :=
  match execute_promise_queue 4 (ref_runtime lim) tt start_queue (mkRun [] [] [] []) with
  | Ret (x, _) => x
  | Panic _ => mkRun [] [] [] []
  end.

Lemma limited_runtime_confined_witness :
  Forall (fun op => op = "http"%string) (world (final_run true)) /\ world (final_run true) <> [].
Proof.
  split; [|vm_compute; discriminate].
  refine (proj2 (limited_runtime_confined (ref_runtime true) tt (Forall (fun op => op = "http"%string))
           start_queue (mkRun [] [] [] []) _ _ _ _) 4 (final_run true) (Ok EmptyQueue) _).
  - reflexivity.
  - intros f env args cq w Hw. exact Hw.
  - intros u w Hw. apply Forall_app. split; [exact Hw|]. constructor; [reflexivity|constructor].
  - constructor.
  - vm_compute. reflexivity.
Defined.

Lemma run_settles_promises_witness :
  trace_settled (ref_runtime true) (promise_queue_trace (final_run true)) /\
  length (promise_queue_trace (final_run true)) = 2.
Proof.
  split; [|vm_compute; reflexivity].
  apply (run_settles_promises (ref_runtime true) tt 4 start_queue (mkRun [] [] [] []) (final_run true) (Ok EmptyQueue)).
  - reflexivity.
  - vm_compute. reflexivity.
Defined.

Lemma earlier_enqueued_promises_dropped_witness :
  process_promises (ref_runtime false) tt (queue second_queue) 0 (mkRun [] [] [] []) (queue second_queue) start_queue =
  process_promises (ref_runtime false) tt (queue second_queue) 0 (mkRun [] [] [] []) (queue second_queue) PromiseQueue_new.
Proof.
  apply earlier_enqueued_promises_dropped. exists (mkCallSelf "second" []).
  apply list_elem_of_In. right. right. left. reflexivity.
Defined.


Lemma start_runtime_reports_witness :
  exists (x : run_state (W := host_log)) e,
    exit_code (ExitInfo_of_result e) = 0%Z /\ stdout x = ["hi"; "hi"]%string.
Proof.
  destruct (start_runtime 4 (ref_runtime false) ref_config []) as [[res w']|] eqn:E;
    [|vm_compute in E; discriminate].
  destruct (start_runtime_reports 4 (ref_runtime false) ref_config [] res w' E)
    as (m & x & e & _ & Hx & Ho & _ & _ & Hc & _).
  vm_compute in E. injection E as <- <-. exists x, e. split; [|by rewrite <- Ho].
  destruct Hc as [Hc _]. rewrite Hc by reflexivity. reflexivity.
Defined.

Lemma exit_codes_distinct_witness :
  ExecutionError "trap" = FailedToConvertVMPipeToString \/
  exit_code (ExitInfo_of_status (ExecutionError "trap")) = 0%Z \/
  exit_code (ExitInfo_of_status (ExecutionError "trap")) = 8%Z.
Proof. apply exit_codes_distinct. reflexivity. Defined.

End witnesses.
