(* ===== verification/Imports.v ===== *)
(** * The host functions of the WASM runtime and their callers in the guest

    Models [src/runtime/core/src/imports.rs] and [context.rs]: the functions a
    guest program imports from its host, which work on the guest's linear memory;
    and [src/runtime/sdk/src/wasm]: the functions of the SDK, compiled into the
    guest, that call them.

    The linear memory is a list of bytes.  The bounds check of the engine's
    pointers, JSON, and the [bn254] crate are parameters. *)

From Stdlib Require Import Ascii.
From stdpp Require Import pretty.
From S2P Require Import Prelude NearSdk Sdk Runtime.

(** ** Data *)

(** [RuntimeError]; foreign errors are held as their text *)
Inductive RuntimeError :=
| WasmCompileError (err : string)
| WasmInstantiationError (err : string)
| WasiError (err : string)
| WasiStateCreationError (err : string)
| FunctionNotFound (err : string)
| GuestExecutionError (err : string)
| VmHostError (err : string)
| WasiFsError (err : string)
| IoError (err : string)
| ParseIntError (err : string)
| NodeError (err : string)
| P2PCommandChannelError (err : string)
| Bn254Error
| RuntimeSDKError (err : SDKError).

(** [Level] of a log line, and [Level::log] *)
Inductive Level := Debug | LevelError | Info | Trace | Warn.

Definition newline : string := String.String (Ascii.ascii_of_nat 10) EmptyString.
Definition log_line (message line_info : string) : string :=
  message +:+ newline +:+ "    at " +:+ line_info.

(** The engine's check that an array of [len] bytes at [offset] lies within a
    memory of [size] bytes: what it admits lies within, and what starts and lies
    within is admitted. *)
Class WasmPointers := {
  in_bounds : Z -> Z -> Z -> bool;
  in_bounds_sound size offset len : in_bounds size offset len = true -> (offset + len <= size)%Z;
  in_bounds_complete size offset len :
    (0 <= offset < size)%Z -> (0 <= len)%Z -> (offset + len <= size)%Z -> in_bounds size offset len = true;
}.

(** [serde_json] on the types derived with [serde] *)
Class SerdeJson := {
  promise_to_json : Promise -> result string string;
  promise_of_json : string -> result Promise string;
  status_to_json : PromiseStatus -> result string string;
  status_of_json : string -> result PromiseStatus string;
  level_to_json : Level -> result string string;
  level_of_json : string -> result Level string;
  promise_json p : exists j, promise_to_json p = Ok j /\ promise_of_json j = Ok p /\ valid_string j = true;
  status_json s : exists j, status_to_json s = Ok j /\ status_of_json j = Ok s /\ valid_string j = true;
  level_json l : exists j, level_to_json l = Ok j /\ level_of_json j = Ok l /\ valid_string j = true;
}.

Section imports.
Context `{WP : WasmPointers} `{SJ : SerdeJson} `{BN : Bn254}.

(** [VmContext], with the lines the host has logged *)
Record VmContext := mkContext {
  ctx_result : bytes;
  wasm_memory : option bytes;
  memory_adapter : InMemory;
  shared_memory : InMemory;
  promise_queue : PromiseQueue;
  current_promise_queue : PromiseQueue;
  keypair_bn254_private : PrivateKey;
  logged : list (Level * string);
}.

Definition set_result (x : bytes) (c : VmContext) : VmContext :=
  mkContext x (wasm_memory c) (memory_adapter c) (shared_memory c) (promise_queue c)
    (current_promise_queue c) (keypair_bn254_private c) (logged c).
Definition set_wasm_memory (x : bytes) (c : VmContext) : VmContext :=
  mkContext (ctx_result c) (Some x) (memory_adapter c) (shared_memory c) (promise_queue c)
    (current_promise_queue c) (keypair_bn254_private c) (logged c).
Definition set_memory_adapter (x : InMemory) (c : VmContext) : VmContext :=
  mkContext (ctx_result c) (wasm_memory c) x (shared_memory c) (promise_queue c)
    (current_promise_queue c) (keypair_bn254_private c) (logged c).
Definition set_shared_memory (x : InMemory) (c : VmContext) : VmContext :=
  mkContext (ctx_result c) (wasm_memory c) (memory_adapter c) x (promise_queue c)
    (current_promise_queue c) (keypair_bn254_private c) (logged c).
Definition set_promise_queue (x : PromiseQueue) (c : VmContext) : VmContext :=
  mkContext (ctx_result c) (wasm_memory c) (memory_adapter c) (shared_memory c) x
    (current_promise_queue c) (keypair_bn254_private c) (logged c).
Definition add_logged (x : Level * string) (c : VmContext) : VmContext :=
  mkContext (ctx_result c) (wasm_memory c) (memory_adapter c) (shared_memory c) (promise_queue c)
    (current_promise_queue c) (keypair_bn254_private c) (logged c ++ [x]).

(** [VmContext::create_vm_context]: the memory is set when the guest is
    instantiated *)
Definition create_vm_context (memory_adapter shared_memory : InMemory)
    (current_promise_queue promise_queue : PromiseQueue) (private_key : PrivateKey) : VmContext :=
  mkContext [] None memory_adapter shared_memory promise_queue current_promise_queue private_key [].

(** ** Host functions: they return, fail with an error, or panic *)

Definition host (T : Type) : Type := VmContext -> outcome (result T RuntimeError * VmContext).

#[export] Instance host_ret : MRet host := fun T x c => Ret (Ok x, c).
#[export] Instance host_bind : MBind host := fun A B f m c =>
  match m c with
  | Ret (Ok x, c) => f x c
  | Ret (Err e, c) => Ret (Err e, c)
  | Panic msg => Panic msg
  end.

Definition fail {T} (e : RuntimeError) : host T := fun c => Ret (Err e, c).
Definition ok_or {T} (o : option T) (msg : string) : host T :=
  match o with Some x => mret x | None => fail (VmHostError msg) end.
Definition reads {T} (f : VmContext -> T) : host T := fun c => Ret (Ok (f c), c).
Definition updates (f : VmContext -> VmContext) : host unit := fun c => Ret (Ok tt, f c).
(** [?] on an error that [serde_json], [bn254] or the key-value memory return *)
Definition json {T} (r : result T string) : host T :=
  match r with Ok x => mret x | Err e => fail (VmHostError e) end.
Definition bn254 {T} (o : option T) : host T :=
  match o with Some x => mret x | None => fail Bn254Error end.
Definition sdk {T} (r : outcome (result T SDKError)) : host T := fun c =>
  match r with
  | Ret (Ok x) => Ret (Ok x, c)
  | Ret (Err e) => Ret (Err (RuntimeSDKError e), c)
  | Panic msg => Panic msg
  end.

Definition get_memory : host bytes :=
  m ← reads wasm_memory; ok_or m "Memory reference could not be retrieved".

(** The bytes [WasmPtr::deref] and [WasmPtr::get_utf8_string] give access to *)
Definition fetch (ptr len : nat) (mem : bytes) : bytes := take len (drop ptr mem).

Definition deref (mem : bytes) (ptr : nat) (len : Z) : option bytes :=
  if in_bounds (Z.of_nat (length mem)) (Z.of_nat ptr) len
  then Some (fetch ptr (Z.to_nat len) mem) else None.
Definition get_utf8_string (mem : bytes) (ptr : nat) (len : Z) : option string :=
  bs ← deref mem ptr len;
  if utf8_valid bs then Some (String.string_of_list_byte bs) else None.

Definition read_string (ptr : nat) (len : Z) : host string :=
  mem ← get_memory; ok_or (get_utf8_string mem ptr (cast_u 32 len)) "Error getting promise data".
Definition read_bytes (ptr : nat) (len : Z) : host bytes :=
  mem ← get_memory; ok_or (deref mem ptr (cast_u 32 len)) "Invalid pointer".

(** [Cell::set] on the cell at [index] of the array at [ptr] *)
Definition set_cell (ptr index : nat) (b : byte) : host unit :=
  updates (fun c => match wasm_memory c with
                    | Some m => set_wasm_memory (<[ptr + index := b]> m) c
                    | None => c
                    end).

(** [for (index, byte) in value.iter().enumerate()] over an array of [cells] *)
Fixpoint write_cells (ptr cells index : nat) (value : bytes) : host unit :=
  match value with
  | [] => mret tt
  | b :: value =>
      if decide (index < cells)
      then _ ← set_cell ptr index b; write_cells ptr cells (S index) value
      else fail (VmHostError "Writing out of bounds to memory")
  end.

(** How a value leaves for the guest: its length has to be the announced one. *)
Definition write_result (value : bytes) (ptr : nat) (len : Z) : host unit :=
  if negb (cast_u 64 len =? Z.of_nat (length value))%Z
  then fail (VmHostError ("The result data length `" +:+ pretty len +:+
         "` is not the same length for the value `" +:+ pretty (length value) +:+ "`"))
  else
    cells ← read_bytes ptr len;
    write_cells ptr (length cells) 0 (take (Z.to_nat (cast_u 64 len)) value).

(** *** Promises *)

Definition promise_then (ptr : nat) (len : Z) : host unit :=
  raw ← read_string ptr len;
  p ← json (promise_of_json raw);
  updates (fun c => set_promise_queue (add_promise (promise_queue c) p) c).

(** [queue.get(promise_index as usize)] *)
Definition promise_at (promise_index : Z) : host Promise :=
  q ← reads (fun c => queue (current_promise_queue c));
  let i := cast_u 64 promise_index in
  ok_or (if (i <? Z.of_nat (length q))%Z then q !! Z.to_nat i else None)
    ("Could not find promise at index: " +:+ pretty promise_index).

Definition promise_status_length (promise_index : Z) : host Z :=
  p ← promise_at promise_index;
  j ← json (status_to_json (status p));
  mret (cast_i 64 (Z.of_nat (String.length j))).

(** [for index in 0..result_data_length], which indexes the status bytes *)
Fixpoint status_cells (ptr cells index n : nat) (status_bytes : bytes) : host unit :=
  match n with
  | O => mret tt
  | S n =>
      if decide (index < cells) then
        match status_bytes !! index with
        | Some b => _ ← set_cell ptr index b; status_cells ptr cells (S index) n status_bytes
        | None => fun _ => Panic "index out of bounds"
        end
      else fail (VmHostError "Writing out of bounds to memory")
  end.

Definition promise_status_write (promise_index : Z) (ptr : nat) (len : Z) : host unit :=
  _ ← get_memory;
  p ← promise_at promise_index;
  j ← json (status_to_json (status p));
  cells ← read_bytes ptr len;
  status_cells ptr (length cells) 0 (Z.to_nat len) (string_bytes j).

(** *** The two key-value memories *)

Definition read_value (m : VmContext -> InMemory) (key : nat) (key_length : Z) : host bytes :=
  k ← read_string key key_length;
  store ← reads m;
  v ← sdk (mem_get (O := bytes) store k);
  mret (default [] v).

Definition memory_read (key : nat) (key_length : Z) (ptr : nat) (len : Z) : host unit :=
  v ← read_value memory_adapter key key_length; write_result v ptr len.
Definition memory_read_length (key : nat) (key_length : Z) : host Z :=
  v ← read_value memory_adapter key key_length; mret (cast_i 64 (Z.of_nat (length v))).
Definition memory_write (key : nat) (key_length : Z) (value : nat) (value_len : Z) : host unit :=
  k ← read_string key key_length;
  v ← read_bytes value value_len;
  updates (fun c => set_memory_adapter (mem_put (memory_adapter c) k v).2 c).

Definition shared_memory_read (key : nat) (key_length : Z) (ptr : nat) (len : Z) : host unit :=
  v ← read_value shared_memory key key_length; write_result v ptr len.
Definition shared_memory_read_length (key : nat) (key_length : Z) : host Z :=
  v ← read_value shared_memory key key_length; mret (cast_i 64 (Z.of_nat (length v))).
Definition shared_memory_contains_key (key : nat) (key_length : Z) : host Z :=
  k ← read_string key key_length;
  store ← reads shared_memory;
  mret (Z.b2z (mem_contains_key store k)).
Definition shared_memory_write (key : nat) (key_length : Z) (value : nat) (value_len : Z) : host unit :=
  k ← read_string key key_length;
  v ← read_bytes value value_len;
  updates (fun c => set_shared_memory (mem_put (shared_memory c) k v).2 c).

(** *** Results, logs, signatures *)

Definition execution_result (ptr : nat) (len : Z) : host unit :=
  r ← read_bytes ptr len; updates (set_result r).

Definition log (level : nat) (level_len : Z) (msg : nat) (msg_len : Z) (line_info : nat) (line_info_len : Z) : host unit :=
  raw ← read_string level level_len;
  l ← json (level_of_json raw);
  m ← read_string msg msg_len;
  i ← read_string line_info line_info_len;
  updates (add_logged (l, log_line m i)).

Definition bn254_verify (message : nat) (message_length : Z) (signature : nat) (signature_length : Z)
    (public_key : nat) (public_key_length : Z) : host Z :=
  m ← read_bytes message message_length;
  s ← read_bytes signature signature_length;
  k ← read_bytes public_key public_key_length;
  sig ← bn254 (sig_from_uncompressed s);
  pk ← bn254 (pk_from_uncompressed k);
  mret (Z.b2z (ecdsa_verify m sig pk)).

Definition bn254_sign (message : nat) (message_length : Z) (ptr : nat) (len : Z) : host unit :=
  m ← read_bytes message message_length;
  key ← reads keypair_bn254_private;
  sig ← bn254 (ecdsa_sign m key);
  r ← bn254 (sig_to_uncompressed sig);
  write_result r ptr len.

(** *** The import table *)

(** A call of an imported function by the guest *)
Inductive HostCall :=
| PromiseThen (ptr : nat) (len : Z)
| PromiseStatusLength (promise_index : Z)
| PromiseStatusWrite (promise_index : Z) (ptr : nat) (len : Z)
| MemoryRead (key : nat) (key_length : Z) (ptr : nat) (len : Z)
| MemoryReadLength (key : nat) (key_length : Z)
| MemoryWrite (key : nat) (key_length : Z) (value : nat) (value_len : Z)
| SharedMemoryContainsKey (key : nat) (key_length : Z)
| SharedMemoryRead (key : nat) (key_length : Z) (ptr : nat) (len : Z)
| SharedMemoryReadLength (key : nat) (key_length : Z)
| SharedMemoryWrite (key : nat) (key_length : Z) (value : nat) (value_len : Z)
| ExecutionResult_ (ptr : nat) (len : Z)
| Log (level : nat) (level_len : Z) (msg : nat) (msg_len : Z) (line_info : nat) (line_info_len : Z)
| Bn254Verify (message : nat) (message_length : Z) (signature : nat) (signature_length : Z)
    (public_key : nat) (public_key_length : Z)
| Bn254Sign (message : nat) (message_length : Z) (ptr : nat) (len : Z).

Definition no_value (m : host unit) : host (option Z) := _ ← m; mret None.
Definition a_value (m : host Z) : host (option Z) := x ← m; mret (Some x).

(** The "env" namespace of [create_wasm_imports] *)
Definition wasm_imports (h : HostCall) : string * host (option Z) :=
  match h with
  | PromiseThen p l => ("promise_then", no_value (promise_then p l))
  | PromiseStatusLength i => ("promise_status_length", a_value (promise_status_length i))
  | PromiseStatusWrite i p l => ("promise_status_write", no_value (promise_status_write i p l))
  | MemoryRead k kl p l => ("memory_read", no_value (memory_read k kl p l))
  | MemoryReadLength k kl => ("memory_read_length", a_value (memory_read_length k kl))
  | MemoryWrite k kl p l => ("memory_write", no_value (memory_write k kl p l))
  | SharedMemoryContainsKey k kl => ("shared_memory_contains_key", a_value (shared_memory_contains_key k kl))
  | SharedMemoryRead k kl p l => ("shared_memory_read", no_value (shared_memory_read k kl p l))
  | SharedMemoryReadLength k kl => ("shared_memory_read_length", a_value (shared_memory_read_length k kl))
  | SharedMemoryWrite k kl p l => ("shared_memory_write", no_value (shared_memory_write k kl p l))
  | ExecutionResult_ p l => ("execution_result", no_value (execution_result p l))
  | Log a b c d e f => ("_log", no_value (log a b c d e f))
  | Bn254Verify a b c d e f => ("bn254_verify", a_value (bn254_verify a b c d e f))
  | Bn254Sign m ml p l => ("bn254_sign", no_value (bn254_sign m ml p l))
  end%string.
Definition host_call (h : HostCall) : host (option Z) := (wasm_imports h).2.

(** ** The guest's side ([src/runtime/sdk/src/wasm])

    The functions below run in the guest: their buffers are in the linear memory,
    at the addresses ([kp], [vp], [rp], ..) its allocator chose.  A host function
    that fails ends the guest with a trap; so does an access out of bounds. *)

(** The guest fills a buffer of its own, and reads it. *)
Definition guest_store (ptr : nat) (bs : bytes) : host unit :=
  mem ← get_memory;
  if decide (ptr + length bs <= length mem)
  then updates (set_wasm_memory (list_inserts ptr bs mem))
  else fail (GuestExecutionError "out of bounds memory access").
Definition guest_load (ptr len : nat) : host bytes :=
  mem ← get_memory;
  if decide (ptr + len <= length mem) then mret (fetch ptr len mem)
  else fail (GuestExecutionError "out of bounds memory access").
Definition guest_panic {T} (msg : string) : host T := fail (GuestExecutionError msg).

(** [vec![0; len as usize]], with the guest's 32-bit [usize] *)
Definition guest_buffer (ptr : nat) (len : Z) : host unit :=
  guest_store ptr (replicate (Z.to_nat (cast_u 32 len)) x00).
Definition string_len (s : string) : Z := Z.of_nat (String.length s).

(** [memory.rs] *)
Definition guest_memory_read (kp rp : nat) (key : string) : host bytes :=
  _ ← guest_store kp (string_bytes key);
  value_len ← memory_read_length kp (string_len key);
  _ ← guest_buffer rp value_len;
  _ ← memory_read kp (string_len key) rp value_len;
  guest_load rp (Z.to_nat (cast_u 32 value_len)).
Definition guest_memory_write (kp vp : nat) (key : string) (value : bytes) : host unit :=
  _ ← guest_store kp (string_bytes key);
  _ ← guest_store vp value;
  memory_write kp (string_len key) vp (Z.of_nat (length value)).

Definition guest_shared_memory_get (kp rp : nat) (key : string) : host bytes :=
  _ ← guest_store kp (string_bytes key);
  value_len ← shared_memory_read_length kp (string_len key);
  _ ← guest_buffer rp value_len;
  _ ← shared_memory_read kp (string_len key) rp value_len;
  guest_load rp (Z.to_nat (cast_u 32 value_len)).
Definition guest_shared_memory_set (kp vp : nat) (key : string) (value : bytes) : host unit :=
  _ ← guest_store kp (string_bytes key);
  _ ← guest_store vp value;
  shared_memory_write kp (string_len key) vp (Z.of_nat (length value)).
Definition guest_shared_memory_contains_key (kp : nat) (key : string) : host bool :=
  _ ← guest_store kp (string_bytes key);
  result ← shared_memory_contains_key kp (string_len key);
  if (result =? 0)%Z then mret false
  else if (result =? 1)%Z then mret true
  else guest_panic ("Bn254 verify returned invalid bool in u8: " +:+ pretty result).

(** [promise.rs]; [after] is not serialized *)
Inductive GuestPromise := mkGuestPromise {
  guest_action : PromiseAction;
  guest_status : PromiseStatus;
  after : option GuestPromise;
}.
Definition GuestPromise_new (a : PromiseAction) : GuestPromise := mkGuestPromise a Unfulfilled None.

Definition add_to_queue (ptr : nat) (p : GuestPromise) : host unit :=
  match promise_to_json (mkPromise (guest_action p) (guest_status p)) with
  | Err e => guest_panic ("Shouldn't ever fail.: " +:+ e)
  | Ok promise_data =>
      _ ← guest_store ptr (string_bytes promise_data);
      promise_then ptr (cast_i 32 (string_len promise_data))
  end.
Definition start (ptr : nat) (p : GuestPromise) : host GuestPromise :=
  _ ← add_to_queue ptr p; mret p.
Definition then_ (ptr : nat) (p q : GuestPromise) : host GuestPromise :=
  _ ← add_to_queue ptr q; mret (mkGuestPromise (guest_action p) (guest_status p) (Some q)).

Definition promise_result (rp : nat) (index : Z) : host PromiseStatus :=
  len ← promise_status_length index;
  _ ← guest_buffer rp len;
  _ ← promise_status_write index rp len;
  data ← guest_load rp (Z.to_nat (cast_u 32 len));
  if utf8_valid data then
    match status_of_json (String.string_of_list_byte data) with
    | Ok s => mret s
    | Err e => guest_panic e
    end
  else guest_panic "called `Result::unwrap()` on an `Err` value".

(** [execution.rs], [bn254.rs], [log.rs] *)
Definition guest_execution_result (ptr : nat) (r : bytes) : host unit :=
  _ ← guest_store ptr r; execution_result ptr (cast_i 32 (Z.of_nat (length r))).

Definition guest_bn254_sign (mp rp : nat) (message : bytes) : host Signature :=
  _ ← guest_store mp message;
  _ ← guest_buffer rp 64;
  _ ← bn254_sign mp (Z.of_nat (length message)) rp 64;
  r ← guest_load rp 64;
  match sig_from_uncompressed r with
  | Some s => mret s
  | None => guest_panic "Signature should be valid"
  end.

Definition guest_bn254_verify (mp sp pp : nat) (message : bytes) (signature : Signature) (public_key : PublicKey) : host bool :=
  match sig_to_uncompressed signature, pk_to_uncompressed public_key with
  | Some s, Some k =>
      _ ← guest_store mp message;
      _ ← guest_store sp s;
      _ ← guest_store pp k;
      result ← bn254_verify mp (Z.of_nat (length message)) sp (Z.of_nat (length s)) pp (Z.of_nat (length k));
      if (result =? 0)%Z then mret false
      else if (result =? 1)%Z then mret true
      else guest_panic ("Bn254 verify returned invalid bool in u8: " +:+ pretty result)
  | None, _ => guest_panic "Signature should be valid"
  | _, None => guest_panic "Public Key should be valid"
  end.

Definition guest_log (lp mp ip : nat) (level : Level) (msg line_info : string) : host unit :=
  match level_to_json level with
  | Err e => guest_panic e
  | Ok level_str =>
      _ ← guest_store lp (string_bytes level_str);
      _ ← guest_store mp (string_bytes msg);
      _ ← guest_store ip (string_bytes line_info);
      log lp (cast_i 32 (string_len level_str)) mp (string_len msg) ip (string_len line_info)
  end.

(** The constructors of promises ([call.rs], [chain_interactor.rs],
    [database.rs], [http.rs], [p2p.rs], [execution.rs]) *)
Definition call_self (function_name : string) (args : list string) : GuestPromise :=
  GuestPromise_new (CallSelf (mkCallSelf function_name args)).
Definition guest_chain_view (chain : Chain) (contract_id method_name : string) (args : bytes) : GuestPromise :=
  GuestPromise_new (ChainView (mkChainView chain contract_id method_name args)).
Definition guest_chain_call (chain : Chain) (contract_id method_name : string) (args : bytes) (deposit : Z) : GuestPromise :=
  GuestPromise_new (ChainCall (mkChainCall chain contract_id method_name args deposit)).
Definition guest_db_set (key value : string) : GuestPromise :=
  GuestPromise_new (DatabaseSet (mkDatabaseSet key (string_bytes value))).
Definition guest_db_get (key : string) : GuestPromise :=
  GuestPromise_new (DatabaseGet (mkDatabaseGet key)).
Definition guest_http_fetch (url : string) : GuestPromise := GuestPromise_new (Http (mkHttp url)).
Definition p2p_broadcast_message (data : bytes) : GuestPromise :=
  GuestPromise_new (P2PBroadcast (mkP2PBroadcast data)).
Definition guest_trigger_event (e : Event) : GuestPromise :=
  GuestPromise_new (TriggerEvent (mkTriggerEvent e)).

End imports.

(** ** Lemmas: effects of host functions *)

Section effects.
Context `{WP : WasmPointers} `{SJ : SerdeJson} `{BN : Bn254}.

Lemma host_bind_ok {A B} (m : host A) (k : A -> host B) c x c1 :
  m c = Ret (Ok x, c1) -> (m ≫= k) c = k x c1.
Proof. intros E. unfold mbind, host_bind. by rewrite E. Qed.

(** A computation that relates the context it starts with to the one it ends
    with, whether it succeeds or fails *)
Definition respects (R : VmContext -> VmContext -> Prop) {T} (m : host T) : Prop :=
  forall c r c', m c = Ret (r, c') -> R c c'.
Definition no_panic {T} (m : host T) : Prop := forall c e, m c <> Panic e.

Section respects.
Context (R : VmContext -> VmContext -> Prop) `{!PreOrder R}.

Lemma respects_bind {A B} (m : host A) (k : A -> host B) :
  respects R m -> (forall x, respects R (k x)) -> respects R (m ≫= k).
Proof.
  intros Hm Hk c r c'. unfold mbind, host_bind.
  destruct (m c) as [[[x|e] c1]|] eqn:E; intros Hr; simplify_eq.
  - etransitivity; [by eapply Hm|by eapply Hk].
  - by eapply Hm.
Qed.

Lemma respects_ret {T} (x : T) : respects R (mret x).
Proof. intros c r c' Hr. unfold mret, host_ret in Hr. by simplify_eq. Qed.
Lemma respects_fail {T} e : respects R (fail (T := T) e).
Proof. intros c r c' Hr. unfold fail in Hr. by simplify_eq. Qed.
Lemma respects_reads {T} (f : VmContext -> T) : respects R (reads f).
Proof. intros c r c' Hr. unfold reads in Hr. by simplify_eq. Qed.
Lemma respects_updates f : (forall c, R c (f c)) -> respects R (updates f).
Proof. intros Hf c r c' Hr. unfold updates in Hr. by simplify_eq. Qed.
Lemma respects_ok_or {T} (o : option T) msg : respects R (ok_or o msg).
Proof. destruct o; [apply respects_ret|apply respects_fail]. Qed.
Lemma respects_json {T} (r : result T string) : respects R (json r).
Proof. destruct r; [apply respects_ret|apply respects_fail]. Qed.
Lemma respects_bn254 {T} (o : option T) : respects R (bn254 o).
Proof. destruct o; [apply respects_ret|apply respects_fail]. Qed.
Lemma respects_sdk {T} (r : outcome (result T SDKError)) : respects R (sdk r).
Proof. intros c x c' Hr. unfold sdk in Hr. by destruct r as [[]|]; simplify_eq. Qed.

End respects.

Create HintDb host.
Hint Resolve respects_bind respects_ret respects_fail respects_reads respects_ok_or respects_json
  respects_bn254 respects_sdk : host.
Hint Unfold get_memory read_string read_bytes promise_at read_value no_value a_value : host.

Ltac host_auto := repeat (intros; autounfold with host; cbn beta zeta;
  first [ apply respects_bind; [done| |intros] | progress auto with host | case_match ]).

Lemma no_panic_bind {A B} (m : host A) (k : A -> host B) :
  no_panic m -> (forall x, no_panic (k x)) -> no_panic (m ≫= k).
Proof.
  intros Hm Hk c e. unfold mbind, host_bind. destruct (m c) as [[[x|x] c1]|] eqn:E.
  - apply Hk.
  - done.
  - by destruct (Hm c msg).
Qed.
Lemma no_panic_pure {T} (m : host T) : (forall c, is_ret (m c) = true) -> no_panic m.
Proof. intros Hm c e E. specialize (Hm c). by rewrite E in Hm. Qed.

Lemma no_panic_ret {T} (x : T) : no_panic (mret x). Proof. done. Qed.
Lemma no_panic_fail {T} e : no_panic (fail (T := T) e). Proof. done. Qed.
Lemma no_panic_reads {T} (f : VmContext -> T) : no_panic (reads f). Proof. done. Qed.
Lemma no_panic_updates f : no_panic (updates f). Proof. done. Qed.
Lemma no_panic_ok_or {T} (o : option T) msg : no_panic (ok_or o msg). Proof. by destruct o. Qed.
Lemma no_panic_json {T} (r : result T string) : no_panic (json r). Proof. by destruct r. Qed.
Lemma no_panic_bn254 {T} (o : option T) : no_panic (bn254 o). Proof. by destruct o. Qed.
Lemma no_panic_mem_get m k : no_panic (sdk (mem_get (O := bytes) m k)).
Proof. intros c e. unfold mem_get, sdk. by destruct (memory m !! k). Qed.

Hint Resolve no_panic_bind no_panic_ret no_panic_fail no_panic_reads no_panic_updates no_panic_ok_or
  no_panic_json no_panic_bn254 no_panic_mem_get : host.

Lemma no_panic_write_cells ptr cells i v : no_panic (write_cells ptr cells i v).
Proof.
  revert i. induction v as [|b v IH]; intros i; cbn [write_cells]; [auto with host|].
  case_decide; [|auto with host]. apply no_panic_bind; [apply no_panic_updates|]. intros _. apply IH.
Qed.
Lemma no_panic_read_bytes p l : no_panic (read_bytes p l).
Proof. unfold read_bytes, get_memory. auto with host. Qed.
Lemma no_panic_read_string p l : no_panic (read_string p l).
Proof. unfold read_string, get_memory. auto with host. Qed.
Lemma no_panic_promise_at i : no_panic (promise_at i).
Proof. unfold promise_at. auto with host. Qed.
Hint Resolve no_panic_write_cells no_panic_read_bytes no_panic_read_string no_panic_promise_at : host.
Lemma no_panic_write_result v p l : no_panic (write_result v p l).
Proof. unfold write_result. case_match; auto with host. Qed.
Lemma no_panic_read_value m k l : no_panic (read_value m k l).
Proof. unfold read_value. auto 6 with host. Qed.
Hint Resolve no_panic_write_result no_panic_read_value : host.

(** Only one host function can panic. *)
Lemma host_call_no_panic h :
  (forall i p l, h <> PromiseStatusWrite i p l) -> no_panic (host_call h).
Proof.
  intros Hne. destruct h; cbn; unfold no_value, a_value; try (by destruct (Hne promise_index ptr len));
    apply no_panic_bind; auto with host;
    unfold promise_then, promise_status_length, memory_read, memory_read_length, memory_write,
      shared_memory_read, shared_memory_read_length, shared_memory_contains_key, shared_memory_write,
      execution_result, log, bn254_verify, bn254_sign; auto 12 with host.
Qed.

(** *** The loop that writes a status *)

Lemma status_cells_panic ptr cells i n bs c :
  (exists e, status_cells ptr cells i n bs c = Panic e) <-> (i <= length bs < i + n /\ length bs < cells) \/
    (length bs < i /\ 0 < n /\ i < cells).
Proof.
  revert i c. induction n as [|n IH]; intros i c; cbn [status_cells].
  { split; [by intros [e He]|lia]. }
  case_decide; [|split; [by intros [e He]|lia]].
  destruct (bs !! i) eqn:E.
  - apply lookup_lt_Some in E. unfold set_cell, updates, mbind, host_bind. rewrite IH. lia.
  - apply lookup_ge_None in E. split; [lia|]. intros _. by eexists.
Qed.

(** *** What a host function leaves alone *)

(** The bytes of its memory that a call may overwrite *)
Definition result_region (h : HostCall) : nat * nat :=
  match h with
  | PromiseStatusWrite _ p l | MemoryRead _ _ p l | SharedMemoryRead _ _ p l | Bn254Sign _ _ p l =>
      (p, Z.to_nat (cast_u 32 l))
  | _ => (0, 0)
  end.

(** The linear memory, up to the bytes of a region *)
Definition memory_agrees (region : nat * nat) (c c' : VmContext) : Prop :=
  length <$> wasm_memory c' = length <$> wasm_memory c /\
  forall i, ~ (region.1 <= i < region.1 + region.2) ->
    (wasm_memory c' ≫= (.!! i)) = (wasm_memory c ≫= (.!! i)).

Definition unless (b : bool) {T} (f : VmContext -> T) (c c' : VmContext) : Prop := b = false -> f c' = f c.
Definition is_memory_write h := match h with MemoryWrite _ _ _ _ => true | _ => false end.
Definition is_shared_write h := match h with SharedMemoryWrite _ _ _ _ => true | _ => false end.
Definition is_promise_then h := match h with PromiseThen _ _ => true | _ => false end.
Definition is_result h := match h with ExecutionResult_ _ _ => true | _ => false end.
Definition is_log h := match h with Log _ _ _ _ _ _ => true | _ => false end.

(** Each call changes only what it is there to change. *)
Definition call_frame (h : HostCall) (c c' : VmContext) : Prop :=
  memory_agrees (result_region h) c c' /\
  current_promise_queue c' = current_promise_queue c /\
  keypair_bn254_private c' = keypair_bn254_private c /\
  unless (is_memory_write h) memory_adapter c c' /\
  unless (is_shared_write h) shared_memory c c' /\
  unless (is_promise_then h) promise_queue c c' /\
  unless (is_result h) ctx_result c c' /\
  unless (is_log h) logged c c'.

#[export] Instance memory_agrees_preorder region : PreOrder (memory_agrees region).
Proof.
  split; [done|]. intros c1 c2 c3 [H1 H2] [H3 H4]. split; [congruence|].
  intros i Hi. rewrite H4 by done. by apply H2.
Qed.
#[export] Instance unless_preorder b {T} (f : VmContext -> T) : PreOrder (unless b f).
Proof. split; [done|]. intros c1 c2 c3 H1 H2 Hb. rewrite H2 by done. by apply H1. Qed.
#[export] Instance call_frame_preorder h : PreOrder (call_frame h).
Proof.
  unfold call_frame. split.
  - intros c. split_and!; reflexivity.
  - intros c1 c2 c3 (?&?&?&?&?&?&?&?) (?&?&?&?&?&?&?&?).
    split_and!; try congruence; (etransitivity; [|eassumption]; assumption).
Qed.

Lemma set_cell_frame h i b :
  i < (result_region h).2 -> respects (call_frame h) (set_cell (result_region h).1 i b).
Proof.
  intros Hi. apply respects_updates. intros c. destruct (wasm_memory c) as [m|] eqn:Em; [|reflexivity].
  unfold call_frame. split; [|done]. split; cbn; rewrite Em; cbn.
  - by rewrite length_insert.
  - intros j Hj. apply list_lookup_insert_ne. lia.
Qed.

(** The cells of an array are those of its region. *)
Lemma deref_length mem p l bs : deref mem p l = Some bs -> (0 <= l)%Z -> length bs = Z.to_nat l.
Proof.
  unfold deref. destruct (in_bounds _ _ _) eqn:E; [|done]. intros [= <-] Hl. apply in_bounds_sound in E.
  unfold fetch. rewrite length_take, length_drop. lia.
Qed.

Lemma cast_u_range w x : (0 <= w)%Z -> (0 <= cast_u w x < 2 ^ w)%Z.
Proof. intros. unfold cast_u. apply Z.mod_pos_bound. lia. Qed.

Lemma read_bytes_ret p l c bs c' :
  read_bytes p l c = Ret (Ok bs, c') -> c' = c /\ exists mem, wasm_memory c = Some mem /\
    in_bounds (Z.of_nat (length mem)) (Z.of_nat p) (cast_u 32 l) = true /\
    length bs = Z.to_nat (cast_u 32 l).
Proof.
  unfold read_bytes, get_memory, mbind, host_bind, reads, ok_or. destruct (wasm_memory c) as [mem|]; [|done].
  unfold mret, host_ret. destruct (deref _ _ _) as [b|] eqn:E; intros Hr; [|done]. simplify_eq.
  split; [done|]. exists mem. split; [done|]. pose proof (cast_u_range 32 l). split; [|eapply deref_length; [done|lia]].
  unfold deref in E. by destruct (in_bounds _ _ _).
Qed.

Lemma write_cells_frame h cells i v :
  cells <= (result_region h).2 -> respects (call_frame h) (write_cells (result_region h).1 cells i v).
Proof.
  intros Hc. revert i. induction v as [|b v IH]; intros i; cbn [write_cells]; [apply respects_ret; apply _|].
  case_decide; [|apply respects_fail; apply _].
  apply respects_bind; [apply _|apply set_cell_frame; lia|intros _; apply IH].
Qed.
Lemma status_cells_frame h cells i n v :
  cells <= (result_region h).2 -> respects (call_frame h) (status_cells (result_region h).1 cells i n v).
Proof.
  intros Hc. revert i. induction n as [|n IH]; intros i; cbn [status_cells]; [apply respects_ret; apply _|].
  case_decide; [|apply respects_fail; apply _]. destruct (v !! i); [|intros ? ? ? ?; done].
  apply respects_bind; [apply _|apply set_cell_frame; lia|intros _; apply IH].
Qed.

(** After reading an array, the rest of a function knows its size. *)
Lemma respects_read_bytes R `{!PreOrder R} {T} p l (k : bytes -> host T) :
  (forall bs, length bs = Z.to_nat (cast_u 32 l) -> respects R (k bs)) -> respects R (read_bytes p l ≫= k).
Proof.
  intros Hk c r c'. unfold mbind, host_bind. destruct (read_bytes p l c) as [[[bs|e] c1]|] eqn:E; [|intros Hr|done].
  - apply read_bytes_ret in E as (-> & _ & _ & _ & Hl). by apply Hk.
  - simplify_eq. revert E. unfold read_bytes, get_memory, mbind, host_bind, reads, ok_or, fail.
    unfold mret, host_ret. repeat case_match; intros; simplify_eq; reflexivity.
Qed.

Lemma write_result_frame h p l v :
  result_region h = (p, Z.to_nat (cast_u 32 l)) -> respects (call_frame h) (write_result v p l).
Proof.
  intros Hh. unfold write_result. case_match; [apply respects_fail; apply _|].
  apply respects_read_bytes; [apply _|]. intros bs Hl.
  pose proof (write_cells_frame h (length bs) 0 (take (Z.to_nat (cast_u 64 l)) v)) as Hw.
  rewrite Hh in Hw. apply Hw. cbn. lia.
Qed.

End effects.

(** ** The host is safe from its guests *)

Section safety.
Context `{WP : WasmPointers} `{SJ : SerdeJson} `{BN : Bn254}.

Lemma promise_at_pure i c r c' : promise_at i c = Ret (r, c') -> c' = c.
Proof.
  unfold promise_at, mbind, host_bind, reads, ok_or, fail, mret, host_ret.
  repeat case_match; intros; by simplify_eq.
Qed.

Ltac frame_auto :=
  repeat first
    [ apply respects_bind; [apply _| |intros ?]
    | apply respects_ret; apply _ | apply respects_fail; apply _ | apply respects_reads; apply _
    | apply respects_ok_or; apply _ | apply respects_json; apply _ | apply respects_bn254; apply _
    | apply respects_sdk; apply _
    | apply write_result_frame; reflexivity
    | apply respects_updates; intros; split_and!; done
    | progress unfold read_string, read_bytes, get_memory, promise_at, read_value ].

(** C25: A host call, successful or not, changes only what it is there to
    change: the guest's memory keeps its size and its bytes outside the result
    buffer the guest passed, the private and the shared key-value memory change
    only by their own write functions, and the queue of running promises and the
    node's key never do. *)
Theorem host_call_confined h c r c' : host_call h c = Ret (r, c') -> call_frame h c c'.
Proof.
  revert c r c'. change (respects (call_frame h) (host_call h)).
  destruct h; cbn [host_call wasm_imports snd]; unfold no_value, a_value;
    (apply respects_bind; [apply _| |intros; apply respects_ret; apply _]);
    try (unfold promise_then, promise_status_length, memory_read, memory_read_length, memory_write,
      shared_memory_read, shared_memory_read_length, shared_memory_contains_key, shared_memory_write,
      execution_result, log, bn254_verify, bn254_sign; frame_auto; fail).
  unfold promise_status_write. apply respects_bind; [apply _|frame_auto|]. intros _.
  apply respects_bind; [apply _|frame_auto|]. intros p. apply respects_bind; [apply _|frame_auto|]. intros j.
  apply respects_read_bytes; [apply _|]. intros bs Hl.
  apply (status_cells_frame (PromiseStatusWrite promise_index ptr len)). cbn. lia.
Qed.

Lemma string_len_bytes j : string_len j = Z.of_nat (length (string_bytes j)).
Proof. unfold string_len, string_bytes. f_equal. induction j; cbn; auto. Qed.

Lemma get_memory_eq c mem : wasm_memory c = Some mem -> get_memory c = Ret (Ok mem, c).
Proof. intros E. unfold get_memory, mbind, host_bind, reads. by rewrite E. Qed.
Lemma get_memory_ret c mem c' : get_memory c = Ret (Ok mem, c') -> c' = c /\ wasm_memory c = Some mem.
Proof.
  unfold get_memory, mbind, host_bind, reads, ok_or, mret, host_ret, fail.
  destruct (wasm_memory c); intros; by simplify_eq.
Qed.

Lemma read_bytes_in c mem p l :
  wasm_memory c = Some mem ->
  in_bounds (Z.of_nat (length mem)) (Z.of_nat p) (cast_u 32 l) = true ->
  read_bytes p l c = Ret (Ok (fetch p (Z.to_nat (cast_u 32 l)) mem), c) /\
  length (fetch p (Z.to_nat (cast_u 32 l)) mem) = Z.to_nat (cast_u 32 l).
Proof.
  intros Hm Hin. assert (deref mem p (cast_u 32 l) = Some (fetch p (Z.to_nat (cast_u 32 l)) mem)) as Hd
    by (unfold deref; by rewrite Hin).
  pose proof (cast_u_range 32 l). split; [|eapply deref_length; [exact Hd|lia]].
  unfold read_bytes. rewrite (host_bind_ok _ _ _ _ _ (get_memory_eq c mem Hm)). by rewrite Hd.
Qed.

(** What it takes for the write of a status to reach its loop *)
Lemma promise_status_write_reaches i p len c e :
  promise_status_write i p len c = Panic e ->
  exists mem pr j cells, wasm_memory c = Some mem /\ promise_at i c = Ret (Ok pr, c) /\
    status_to_json (status pr) = Ok j /\
    in_bounds (Z.of_nat (length mem)) (Z.of_nat p) (cast_u 32 len) = true /\
    cells = Z.to_nat (cast_u 32 len) /\
    status_cells p cells 0 (Z.to_nat len) (string_bytes j) c = Panic e.
Proof.
  unfold promise_status_write, mbind, host_bind. intros He.
  destruct (get_memory c) as [[[mem|] c1]|] eqn:Em; [|done|].
  2: { exfalso. revert Em. apply no_panic_bind; [apply no_panic_reads|intros; apply no_panic_ok_or]. }
  apply get_memory_ret in Em as [-> Hm].
  destruct (promise_at i c) as [[[pr|] c2]|] eqn:Ep; [|done|by apply no_panic_promise_at in Ep].
  pose proof (promise_at_pure _ _ _ _ Ep) as ->.
  destruct (status_to_json (status pr)) as [j|] eqn:Ej; [|done]. cbn in He.
  destruct (read_bytes p len c) as [[[bs|] c3]|] eqn:Eb; [|done|by apply no_panic_read_bytes in Eb].
  apply read_bytes_ret in Eb as (-> & mem' & Hm' & Hin & Hl). assert (mem' = mem) as -> by congruence.
  exists mem, pr, j, (length bs). done.
Qed.

(** The only host call that can panic is the one that writes a promise's
    status, and it does so exactly when the guest asks for more bytes than the
    status has, in a buffer that lies within its memory. *)
Theorem host_call_panics h c :
  (exists e, host_call h c = Panic e) <->
  exists i p len mem pr j, h = PromiseStatusWrite i p len /\ wasm_memory c = Some mem /\
    promise_at i c = Ret (Ok pr, c) /\ status_to_json (status pr) = Ok j /\
    in_bounds (Z.of_nat (length mem)) (Z.of_nat p) (cast_u 32 len) = true /\
    (string_len j < len)%Z /\ (string_len j < cast_u 32 len)%Z.
Proof.
  split.
  - intros [e He]. destruct h; try (exfalso; eapply host_call_no_panic; [|exact He]; done).
    cbn in He. unfold no_value, mbind, host_bind in He.
    destruct (promise_status_write _ _ _ c) as [[[] ?]|] eqn:Ew; [done..|].
    apply promise_status_write_reaches in Ew as (mem & pr & j & cells & Hm & Hp & Hj & Hin & -> & Hs).
    exists promise_index, ptr, len, mem, pr, j. do 5 (split; [done|]). rewrite string_len_bytes.
    pose proof (cast_u_range 32 len). destruct (proj1 (status_cells_panic _ _ _ _ _ _) (ex_intro _ _ Hs)); lia.
  - intros (i & p & len & mem & pr & j & -> & Hm & Hp & Ej & Hin & Hl1 & Hl2). cbn.
    rewrite string_len_bytes in *. destruct (read_bytes_in c mem p len Hm Hin) as [Hr Hlen].
    destruct (proj2 (status_cells_panic p (Z.to_nat (cast_u 32 len)) 0 (Z.to_nat len) (string_bytes j) c)) as [e He]; [lia|].
    exists e. unfold no_value, promise_status_write, mbind, host_bind.
    by rewrite (get_memory_eq c mem Hm), Hp, Ej; cbn; rewrite Hr, Hlen, He.
Qed.

End safety.

(** ** The protocol between guest and host *)

Section protocol.
Context `{WP : WasmPointers} `{SJ : SerdeJson} `{BN : Bn254}.

(** *** Memory *)

Lemma inserts_insert {A} (i j : nat) (b : A) k l :
  i < j -> list_inserts j k (<[i := b]> l) = <[i := b]> (list_inserts j k l).
Proof.
  revert j l. induction k as [|x k IH]; intros j l Hij; [done|]. cbn.
  rewrite IH by lia. by rewrite list_insert_insert_ne by lia.
Qed.

Lemma fetch_inserts p (bs mem : bytes) :
  p + length bs <= length mem -> fetch p (length bs) (list_inserts p bs mem) = bs.
Proof.
  intros Hl. unfold fetch. apply list_eq. intros i.
  destruct (decide (i < length bs)) as [Hi|Hi].
  - rewrite lookup_take_lt, lookup_drop by done. rewrite list_lookup_inserts by lia. f_equal. lia.
  - rewrite lookup_take_ge by lia. by rewrite lookup_ge_None_2 by lia.
Qed.

Definition separate (p n q m : nat) : Prop := p + n <= q \/ q + m <= p.

Lemma fetch_inserts_separate p n q (bs mem : bytes) :
  separate p n q (length bs) -> fetch p n (list_inserts q bs mem) = fetch p n mem.
Proof.
  intros Hs. unfold fetch. apply list_eq. intros i.
  destruct (decide (i < n)) as [Hi|Hi]; [|by rewrite !lookup_take_ge by lia].
  rewrite !lookup_take_lt, !lookup_drop by done.
  destruct Hs; [apply list_lookup_inserts_lt; lia|apply list_lookup_inserts_ge; lia].
Qed.

(** A buffer of [n] bytes at [p] that the engine's pointers can address *)
Definition placed (mem : bytes) (p n : nat) : Prop :=
  p < length mem /\ p + n <= length mem /\ (Z.of_nat n < 2 ^ 32)%Z.

Lemma placed_length mem mem' p n : length mem' = length mem -> placed mem p n -> placed mem' p n.
Proof. unfold placed. intros ->. done. Qed.

Lemma cast_u_32 n : (Z.of_nat n < 2 ^ 32)%Z -> cast_u 32 (Z.of_nat n) = Z.of_nat n.
Proof. intros. unfold cast_u. apply Z.mod_small. lia. Qed.
Lemma cast_i_64 n : (Z.of_nat n < 2 ^ 32)%Z -> cast_i 64 (Z.of_nat n) = Z.of_nat n.
Proof.
  intros. unfold cast_i. rewrite Z.mod_small by lia. cbn zeta. case_match; bool_to_prop; lia.
Qed.
Lemma cast_u_i_32 n : (Z.of_nat n < 2 ^ 32)%Z -> cast_u 32 (cast_i 32 (Z.of_nat n)) = Z.of_nat n.
Proof.
  intros. unfold cast_i, cast_u. rewrite (Z.mod_small (Z.of_nat n)) by lia.
  cbn zeta. case_match; [by apply Z.mod_small; lia|].
  rewrite <- (Z.mod_add _ 1) by lia. rewrite Z.mod_small; lia.
Qed.

Lemma placed_in_bounds mem p n :
  placed mem p n -> in_bounds (Z.of_nat (length mem)) (Z.of_nat p) (Z.of_nat n) = true.
Proof. intros (H1 & H2 & H3). apply in_bounds_complete; lia. Qed.

Lemma set_wasm_memory_id c mem : wasm_memory c = Some mem -> set_wasm_memory mem c = c.
Proof. destruct c. cbn. by intros ->. Qed.

Lemma read_bytes_placed c mem p n l :
  wasm_memory c = Some mem -> placed mem p n -> cast_u 32 l = Z.of_nat n ->
  read_bytes p l c = Ret (Ok (fetch p n mem), c).
Proof.
  intros Hm Hp Hl. destruct (read_bytes_in c mem p l Hm) as [Hr _].
  - rewrite Hl. by apply placed_in_bounds.
  - by rewrite Hr, Hl, Nat2Z.id.
Qed.

Lemma read_string_placed c mem p s l :
  wasm_memory c = Some mem -> placed mem p (length (string_bytes s)) -> valid_string s = true ->
  fetch p (length (string_bytes s)) mem = string_bytes s -> cast_u 32 l = string_len s ->
  read_string p l c = Ret (Ok s, c).
Proof.
  intros Hm Hp Hv Hf Hl. unfold read_string.
  rewrite (host_bind_ok _ _ _ _ _ (get_memory_eq c mem Hm)), Hl, string_len_bytes.
  unfold get_utf8_string, deref. rewrite placed_in_bounds by done. rewrite Nat2Z.id, Hf. cbn.
  unfold valid_string in Hv. rewrite Hv. unfold string_bytes. by rewrite String.string_of_list_byte_of_string.
Qed.

Lemma guest_store_eq c mem p bs :
  wasm_memory c = Some mem -> p + length bs <= length mem ->
  guest_store p bs c = Ret (Ok tt, set_wasm_memory (list_inserts p bs mem) c).
Proof.
  intros Hm Hl. unfold guest_store. rewrite (host_bind_ok _ _ _ _ _ (get_memory_eq c mem Hm)).
  by rewrite decide_True.
Qed.
Lemma guest_load_eq c mem p n :
  wasm_memory c = Some mem -> p + n <= length mem -> guest_load p n c = Ret (Ok (fetch p n mem), c).
Proof.
  intros Hm Hl. unfold guest_load. rewrite (host_bind_ok _ _ _ _ _ (get_memory_eq c mem Hm)).
  by rewrite decide_True.
Qed.

Lemma write_cells_eq c mem ptr cells i v :
  wasm_memory c = Some mem -> i + length v <= cells ->
  write_cells ptr cells i v c = Ret (Ok tt, set_wasm_memory (list_inserts (ptr + i) v mem) c).
Proof.
  revert c mem i. induction v as [|b v IH]; intros c mem i Hm Hl; cbn [write_cells].
  { cbn. by rewrite set_wasm_memory_id. }
  cbn in Hl. rewrite decide_True by lia. unfold set_cell, updates, mbind, host_bind. rewrite Hm.
  rewrite (IH _ (<[ptr + i := b]> mem)); [|done|lia]. cbn.
  rewrite inserts_insert by lia. by rewrite Nat.add_succ_r.
Qed.

Lemma status_cells_eq c mem ptr cells i n bs :
  wasm_memory c = Some mem -> i + n <= cells -> i + n <= length bs ->
  status_cells ptr cells i n bs c =
    Ret (Ok tt, set_wasm_memory (list_inserts (ptr + i) (fetch i n bs) mem) c).
Proof.
  revert c mem i. induction n as [|n IH]; intros c mem i Hm Hc Hl; cbn [status_cells].
  { cbn. by rewrite set_wasm_memory_id. }
  rewrite decide_True by lia. destruct (lookup_lt_is_Some_2 bs i) as [b Hb]; [lia|]. rewrite Hb.
  unfold set_cell, updates, mbind, host_bind. rewrite Hm.
  rewrite (IH _ (<[ptr + i := b]> mem)); [|done|lia..]. unfold fetch. rewrite (drop_S bs b i Hb). cbn.
  rewrite inserts_insert by lia. by rewrite Nat.add_succ_r.
Qed.

Lemma write_result_eq c mem v p :
  wasm_memory c = Some mem -> placed mem p (length v) ->
  write_result v p (Z.of_nat (length v)) c = Ret (Ok tt, set_wasm_memory (list_inserts p v mem) c).
Proof.
  intros Hm Hp. pose proof Hp as (H1 & H2 & H3). unfold write_result.
  assert (cast_u 64 (Z.of_nat (length v)) = Z.of_nat (length v)) as -> by (apply Z.mod_small; lia).
  rewrite Z.eqb_refl. cbn [negb].
  rewrite (host_bind_ok _ _ _ _ _ (read_bytes_placed c mem p (length v) _ Hm Hp (cast_u_32 _ H3))).
  rewrite Nat2Z.id, firstn_all. rewrite (write_cells_eq c mem); [by rewrite Nat.add_0_r|done|].
  unfold fetch. rewrite length_take, length_drop. lia.
Qed.

(** *** The key-value memories, through the guest's functions *)

Definition store_of (shared : bool) (c : VmContext) : InMemory :=
  if shared then shared_memory c else memory_adapter c.
Definition set_store (shared : bool) (m : InMemory) (c : VmContext) : VmContext :=
  if shared then set_shared_memory m c else set_memory_adapter m c.
Definition guest_get (shared : bool) : nat -> nat -> string -> host bytes :=
  if shared then guest_shared_memory_get else guest_memory_read.
Definition guest_put (shared : bool) : nat -> nat -> string -> bytes -> host unit :=
  if shared then guest_shared_memory_set else guest_memory_write.
Definition stored (shared : bool) (key : string) (c : VmContext) : bytes :=
  default [] (memory (store_of shared c) !! key).

Lemma read_value_eq sh c mem kp key :
  wasm_memory c = Some mem -> valid_string key = true -> placed mem kp (length (string_bytes key)) ->
  fetch kp (length (string_bytes key)) mem = string_bytes key ->
  read_value (store_of sh) kp (string_len key) c = Ret (Ok (stored sh key c), c).
Proof.
  intros Hm Hv Hp Hf. unfold read_value.
  assert (cast_u 32 (string_len key) = string_len key) as Hl
    by (rewrite string_len_bytes; apply cast_u_32; apply Hp).
  rewrite (host_bind_ok _ _ _ _ _ (read_string_placed c mem kp key _ Hm Hp Hv Hf Hl)).
  unfold stored, reads, sdk, mem_get, mbind, host_bind. by destruct (memory (store_of sh c) !! key).
Qed.

(** A read, in the steps that the two memories share *)
Lemma guest_get_steps sh kp rp key c :
  guest_get sh kp rp key c =
    (_ ← guest_store kp (string_bytes key);
     value_len ← (v ← read_value (store_of sh) kp (string_len key); mret (cast_i 64 (Z.of_nat (length v))));
     _ ← guest_buffer rp value_len;
     _ ← (v ← read_value (store_of sh) kp (string_len key); write_result v rp value_len);
     guest_load rp (Z.to_nat (cast_u 32 value_len))) c.
Proof. by destruct sh. Qed.
Lemma guest_put_steps sh kp vp key value c :
  guest_put sh kp vp key value c =
    (_ ← guest_store kp (string_bytes key);
     _ ← guest_store vp value;
     k ← read_string kp (string_len key);
     v ← read_bytes vp (Z.of_nat (length value));
     updates (fun c => set_store sh (mem_put (store_of sh c) k v).2 c)) c.
Proof. by destruct sh. Qed.

Lemma guest_get_eq sh kp rp key c mem :
  wasm_memory c = Some mem -> valid_string key = true ->
  placed mem kp (length (string_bytes key)) -> placed mem rp (length (stored sh key c)) ->
  separate kp (length (string_bytes key)) rp (length (stored sh key c)) ->
  exists mem', length mem' = length mem /\
    guest_get sh kp rp key c = Ret (Ok (stored sh key c), set_wasm_memory mem' c).
Proof.
  intros Hm Hv Hk Hr Hs. set (v := stored sh key c) in *. set (kb := string_bytes key) in *.
  set (m1 := list_inserts kp kb mem). set (m2 := list_inserts rp (replicate (length v) x00) m1).
  exists (list_inserts rp v m2).
  assert (length m1 = length mem) as L1 by apply length_inserts.
  assert (length m2 = length mem) as L2 by (unfold m2; by rewrite length_inserts).
  assert (fetch kp (length kb) m1 = kb) as F1 by (apply fetch_inserts; apply Hk).
  assert (fetch kp (length kb) m2 = kb) as F2
    by (unfold m2; rewrite fetch_inserts_separate; [done|by rewrite length_replicate]).
  split; [by rewrite length_inserts|]. pose proof Hr as (_ & Hr2 & Hr3). rewrite guest_get_steps.
  rewrite (host_bind_ok _ _ _ _ _ (guest_store_eq c mem kp kb Hm (proj1 (proj2 Hk)))). fold m1.
  assert (forall m c', stored sh key (set_wasm_memory m c') = stored sh key c') as Hst by (by destruct sh).
  erewrite host_bind_ok.
  2: { erewrite host_bind_ok; [reflexivity|]. apply (read_value_eq _ _ m1); auto. by eapply placed_length. }
  rewrite Hst. fold v. rewrite cast_i_64 by done. unfold guest_buffer. rewrite cast_u_32, Nat2Z.id by done.
  erewrite host_bind_ok; [|apply (guest_store_eq _ m1); [done|rewrite length_replicate; lia]]. fold m2.
  erewrite host_bind_ok.
  2: { erewrite host_bind_ok; [|apply (read_value_eq _ _ m2); auto; by eapply placed_length].
       rewrite !Hst. fold v. apply (write_result_eq _ m2); [done|by eapply placed_length]. }
  erewrite guest_load_eq; [|done|rewrite length_inserts; lia]. by rewrite fetch_inserts by lia.
Qed.

Lemma guest_put_eq sh kp vp key value c mem :
  wasm_memory c = Some mem -> valid_string key = true ->
  placed mem kp (length (string_bytes key)) -> placed mem vp (length value) ->
  separate kp (length (string_bytes key)) vp (length value) ->
  exists mem', length mem' = length mem /\
    guest_put sh kp vp key value c =
      Ret (Ok tt, set_store sh (mkInMemory (<[key := value]> (memory (store_of sh c)))) (set_wasm_memory mem' c)).
Proof.
  intros Hm Hv Hk Hr Hs. set (kb := string_bytes key) in *. pose proof Hr as (_ & Hr2 & Hr3).
  set (m1 := list_inserts kp kb mem). set (m2 := list_inserts vp value m1). exists m2.
  assert (length m1 = length mem) as L1 by apply length_inserts.
  assert (length m2 = length mem) as L2 by (unfold m2; by rewrite length_inserts).
  assert (fetch kp (length kb) m1 = kb) as F1 by (apply fetch_inserts; apply Hk).
  split; [done|]. rewrite guest_put_steps.
  rewrite (host_bind_ok _ _ _ _ _ (guest_store_eq c mem kp kb Hm (proj1 (proj2 Hk)))). fold m1.
  erewrite host_bind_ok; [|apply (guest_store_eq _ m1); [done|lia]]. fold m2.
  erewrite host_bind_ok.
  2: { apply (read_string_placed _ m2); [done|by eapply placed_length|done| |].
       - unfold m2. by rewrite fetch_inserts_separate.
       - rewrite string_len_bytes. apply cast_u_32, Hk. }
  erewrite host_bind_ok.
  2: { apply (read_bytes_placed _ m2 vp (length value)); [done|by eapply placed_length|by apply cast_u_32]. }
  assert (fetch vp (length value) m2 = value) as -> by (apply fetch_inserts; lia). by destruct sh.
Qed.

(** What a guest puts into its private memory or into the shared one is what
    it gets back from there under the same key; under any other key, and from
    the other memory, it gets what was there before. *)
Theorem guest_memory_roundtrip sh sh' kp vp key kp' rp key' value c mem :
  wasm_memory c = Some mem -> valid_string key = true -> valid_string key' = true ->
  placed mem kp (length (string_bytes key)) -> placed mem vp (length value) ->
  separate kp (length (string_bytes key)) vp (length value) ->
  let expected := if decide (sh' = sh /\ key' = key) then value else stored sh' key' c in
  placed mem kp' (length (string_bytes key')) -> placed mem rp (length expected) ->
  separate kp' (length (string_bytes key')) rp (length expected) ->
  exists c1 c2, guest_put sh kp vp key value c = Ret (Ok tt, c1) /\
    guest_get sh' kp' rp key' c1 = Ret (Ok expected, c2) /\
    store_of sh' c2 = store_of sh' c1.
Proof.
  intros Hm Hk Hk' Hp1 Hp2 Hs expected Hp3 Hp4 Hs'.
  destruct (guest_put_eq sh kp vp key value c mem) as (m1 & Hl1 & Hput); [done..|].
  set (c1 := set_store sh _ _) in Hput.
  assert (stored sh' key' c1 = expected) as He.
  { unfold expected, c1, stored. case_decide as E.
    - destruct E as [-> ->]. destruct sh; cbn; by rewrite lookup_insert_eq.
    - destruct sh, sh'; cbn; try done; rewrite lookup_insert_ne; naive_solver. }
  destruct (guest_get_eq sh' kp' rp key' c1 m1) as (m2 & Hl2 & Hget).
  - by destruct sh.
  - done.
  - by eapply placed_length.
  - rewrite He. by eapply placed_length.
  - by rewrite He.
  - rewrite He in Hget. exists c1, (set_wasm_memory m2 c1). split; [done|]. split; [done|]. by destruct sh'.
Qed.

(** *** Promises *)

Lemma promise_at_eq i p c :
  queue (current_promise_queue c) !! i = Some p -> (Z.of_nat i < 2 ^ 31)%Z ->
  promise_at (Z.of_nat i) c = Ret (Ok p, c).
Proof.
  intros Hi Hr. unfold promise_at, reads, mbind, host_bind. unfold cast_u. rewrite Z.mod_small by lia.
  pose proof (lookup_lt_Some _ _ _ Hi). rewrite (proj2 (Z.ltb_lt _ _)) by lia. by rewrite Nat2Z.id, Hi.
Qed.

(** A guest that asks for the result of a promise of the running queue gets its
    status, exactly as the host recorded it; nothing but the guest's own memory
    changes. *)
Lemma promise_result_eq rp i p c mem :
  wasm_memory c = Some mem -> queue (current_promise_queue c) !! i = Some p ->
  (Z.of_nat i < 2 ^ 31)%Z ->
  (forall j, status_to_json (status p) = Ok j -> placed mem rp (String.length j)) ->
  exists mem', length mem' = length mem /\
    promise_result rp (Z.of_nat i) c = Ret (Ok (status p), set_wasm_memory mem' c).
Proof.
  intros Hm Hi Hr Hp. destruct (status_json (status p)) as (j & Hj & Hback & Hval).
  specialize (Hp j Hj). pose proof Hp as (_ & Hp2 & Hp3).
  assert (String.length j = length (string_bytes j)) as Hlen by (apply Nat2Z.inj, string_len_bytes).
  set (m1 := list_inserts rp (replicate (String.length j) x00) mem).
  assert (length m1 = length mem) as L1 by apply length_inserts.
  exists (list_inserts rp (string_bytes j) m1). split; [by rewrite length_inserts|]. unfold promise_result.
  erewrite host_bind_ok.
  2: { unfold promise_status_length. erewrite host_bind_ok; [|by apply promise_at_eq].
       rewrite Hj. reflexivity. }
  rewrite cast_i_64 by done. unfold guest_buffer. rewrite cast_u_32, Nat2Z.id by done.
  erewrite host_bind_ok; [|apply (guest_store_eq _ mem); [done|rewrite length_replicate; lia]]. fold m1.
  erewrite host_bind_ok.
  2: { unfold promise_status_write. erewrite host_bind_ok; [|by apply get_memory_eq].
       erewrite host_bind_ok; [|by apply promise_at_eq]. rewrite Hj. erewrite host_bind_ok; [|reflexivity].
       erewrite host_bind_ok; [|apply (read_bytes_placed _ m1 rp (String.length j)); [done|by eapply placed_length|by apply cast_u_32]].
       rewrite Nat2Z.id. apply (status_cells_eq _ m1); [done| |lia]. unfold fetch. rewrite length_take, length_drop. lia. }
  rewrite Nat.add_0_r. assert (fetch 0 (String.length j) (string_bytes j) = string_bytes j) as ->
    by (unfold fetch; rewrite drop_0, Hlen; apply firstn_all).
  erewrite host_bind_ok; [|apply guest_load_eq; [done|rewrite length_inserts; lia]].
  rewrite Hlen, fetch_inserts by lia. unfold valid_string in Hval. rewrite Hval. unfold string_bytes.
  by rewrite String.string_of_list_byte_of_string, Hback.
Qed.

Lemma add_to_queue_eq ptr p c mem j :
  wasm_memory c = Some mem ->
  promise_to_json (mkPromise (guest_action p) (guest_status p)) = Ok j -> placed mem ptr (String.length j) ->
  exists mem', length mem' = length mem /\
    add_to_queue ptr p c =
      Ret (Ok tt, set_promise_queue (add_promise (promise_queue c) (mkPromise (guest_action p) (guest_status p)))
                    (set_wasm_memory mem' c)).
Proof.
  intros Hm Hj Hp. destruct (promise_json (mkPromise (guest_action p) (guest_status p))) as (j' & E & Hback & Hval).
  assert (j' = j) as -> by congruence. pose proof Hp as (_ & Hp2 & Hp3).
  assert (String.length j = length (string_bytes j)) as Hlen by (apply Nat2Z.inj, string_len_bytes).
  rewrite Hlen in *. exists (list_inserts ptr (string_bytes j) mem). split; [apply length_inserts|].
  unfold add_to_queue. rewrite Hj. erewrite host_bind_ok; [|by apply guest_store_eq].
  unfold promise_then. erewrite host_bind_ok.
  2: { eapply read_string_placed; [done|eapply placed_length; [apply length_inserts|done]|done|by apply fetch_inserts|].
       rewrite string_len_bytes. by apply cast_u_i_32. }
  rewrite Hback. by erewrite host_bind_ok by reflexivity.
Qed.

(** [p.start().then(q)] in a guest enqueues the two promises at the host, in
    this order and as the guest built them. *)
Theorem promise_chain_enqueued ptr ptr' p q c mem :
  wasm_memory c = Some mem ->
  (forall j, promise_to_json (mkPromise (guest_action p) (guest_status p)) = Ok j -> placed mem ptr (String.length j)) ->
  (forall j, promise_to_json (mkPromise (guest_action q) (guest_status q)) = Ok j -> placed mem ptr' (String.length j)) ->
  exists c' r, (p1 ← start ptr p; then_ ptr' p1 q) c = Ret (Ok r, c') /\
    queue (promise_queue c') = queue (promise_queue c) ++
      [mkPromise (guest_action p) (guest_status p); mkPromise (guest_action q) (guest_status q)].
Proof.
  intros Hm Hp Hq.
  destruct (promise_json (mkPromise (guest_action p) (guest_status p))) as (j & Ej & _).
  destruct (promise_json (mkPromise (guest_action q) (guest_status q))) as (j' & Ej' & _).
  destruct (add_to_queue_eq ptr p c mem j Hm Ej (Hp j Ej)) as (m1 & L1 & H1).
  set (c1 := set_promise_queue _ _) in H1.
  destruct (add_to_queue_eq ptr' q c1 m1 j' eq_refl Ej') as (m2 & L2 & H2).
  { eapply placed_length; [exact L1|by apply Hq]. }
  eexists _, _. split.
  - erewrite host_bind_ok; [|unfold start; by erewrite host_bind_ok by exact H1].
    unfold then_. by erewrite host_bind_ok by exact H2.
  - cbn. by rewrite <- app_assoc.
Qed.

(** A signature of 64 bytes reaches the guest; the host signs with its key. *)
Lemma guest_bn254_sign_eq mp rp message c mem sig bs :
  wasm_memory c = Some mem -> placed mem mp (length message) -> placed mem rp 64 ->
  separate mp (length message) rp 64 ->
  ecdsa_sign message (keypair_bn254_private c) = Some sig -> sig_to_uncompressed sig = Some bs -> length bs = 64 ->
  exists mem', length mem' = length mem /\
    guest_bn254_sign mp rp message c = Ret (Ok sig, set_wasm_memory mem' c).
Proof.
  intros Hm Hp Hr Hs Hsig Hbs Hl. pose proof Hp as (_ & Hp2 & Hp3). pose proof Hr as (_ & Hr2 & _).
  set (m1 := list_inserts mp message mem). set (m2 := list_inserts rp (replicate 64 x00) m1).
  assert (length m1 = length mem) as L1 by apply length_inserts.
  assert (length m2 = length mem) as L2 by (unfold m2; by rewrite length_inserts).
  exists (list_inserts rp bs m2). split; [by rewrite length_inserts|]. unfold guest_bn254_sign.
  erewrite host_bind_ok; [|apply (guest_store_eq _ mem); [done|lia]]. fold m1.
  erewrite host_bind_ok; [|apply (guest_store_eq _ m1); [done|rewrite length_replicate, L1; exact Hr2]].
  change (replicate (Z.to_nat (cast_u 32 64)) x00) with (replicate 64 x00). fold m2.
  erewrite host_bind_ok.
  2: { unfold bn254_sign. erewrite host_bind_ok.
       2: { apply (read_bytes_placed _ m2 mp (length message)); [done|by eapply placed_length|by apply cast_u_32]. }
       assert (fetch mp (length message) m2 = message) as ->.
       { unfold m2. rewrite fetch_inserts_separate by (by rewrite length_replicate). apply fetch_inserts. lia. }
       erewrite host_bind_ok by reflexivity. cbn [keypair_bn254_private set_wasm_memory]. rewrite Hsig.
       erewrite host_bind_ok by reflexivity. rewrite Hbs. erewrite host_bind_ok by reflexivity.
       replace 64%Z with (Z.of_nat (length bs)) by lia.
       apply (write_result_eq _ m2); [done|]. eapply placed_length; [exact L2|]. by rewrite Hl. }
  erewrite host_bind_ok; [|apply guest_load_eq; [done|rewrite length_inserts; lia]].
  rewrite <- Hl, fetch_inserts by lia. by rewrite (sig_roundtrip _ _ Hbs).
Qed.

(** Three buffers, none over another: what the host verifies is what the guest
    passed. *)
Lemma guest_bn254_verify_eq mp sp pp message sig pk c mem s k :
  wasm_memory c = Some mem -> sig_to_uncompressed sig = Some s -> pk_to_uncompressed pk = Some k ->
  placed mem mp (length message) -> placed mem sp (length s) -> placed mem pp (length k) ->
  separate mp (length message) sp (length s) -> separate mp (length message) pp (length k) ->
  separate sp (length s) pp (length k) ->
  exists mem', length mem' = length mem /\
    guest_bn254_verify mp sp pp message sig pk c = Ret (Ok (ecdsa_verify message sig pk), set_wasm_memory mem' c).
Proof.
  intros Hm Hs Hk Pm Ps Pp S1 S2 S3.
  set (m1 := list_inserts mp message mem). set (m2 := list_inserts sp s m1). set (m3 := list_inserts pp k m2).
  assert (length m1 = length mem) as L1 by apply length_inserts.
  assert (length m2 = length mem) as L2 by (unfold m2; by rewrite length_inserts).
  assert (length m3 = length mem) as L3 by (unfold m3; by rewrite length_inserts).
  pose proof Pm as (_ & Pm2 & Pm3). pose proof Ps as (_ & Ps2 & Ps3). pose proof Pp as (_ & Pp2 & Pp3).
  exists m3. split; [done|]. unfold guest_bn254_verify. rewrite Hs, Hk.
  erewrite host_bind_ok; [|by apply (guest_store_eq _ mem)]. fold m1.
  erewrite host_bind_ok; [|apply (guest_store_eq _ m1); [done|lia]]. fold m2.
  erewrite host_bind_ok; [|apply (guest_store_eq _ m2); [done|lia]]. fold m3.
  assert (forall p n, placed mem p n ->
    read_bytes p (Z.of_nat n) (set_wasm_memory m3 (set_wasm_memory m2 (set_wasm_memory m1 c))) =
    Ret (Ok (fetch p n m3), set_wasm_memory m3 (set_wasm_memory m2 (set_wasm_memory m1 c)))) as Hr.
  { intros p n Hp. apply read_bytes_placed; [done|by eapply placed_length|apply cast_u_32, Hp]. }
  unfold bn254_verify. erewrite host_bind_ok.
  2: { do 3 (erewrite host_bind_ok by (by apply Hr)).
       assert (fetch mp (length message) m3 = message) as ->.
       { unfold m3, m2. rewrite !fetch_inserts_separate by done. by apply fetch_inserts. }
       assert (fetch sp (length s) m3 = s) as ->.
       { unfold m3. rewrite fetch_inserts_separate by done. apply fetch_inserts. lia. }
       assert (fetch pp (length k) m3 = k) as -> by (apply fetch_inserts; lia).
       rewrite (sig_roundtrip _ _ Hs), (pk_roundtrip _ _ Hk). reflexivity. }
  by destruct (ecdsa_verify message sig pk).
Qed.

Lemma guest_contains_eq kp key c mem :
  wasm_memory c = Some mem -> valid_string key = true -> placed mem kp (length (string_bytes key)) ->
  exists mem', length mem' = length mem /\
    guest_shared_memory_contains_key kp key c =
      Ret (Ok (bool_decide (is_Some (memory (shared_memory c) !! key))), set_wasm_memory mem' c).
Proof.
  intros Hm Hv Hk. exists (list_inserts kp (string_bytes key) mem). split; [apply length_inserts|].
  unfold guest_shared_memory_contains_key. erewrite host_bind_ok; [|apply (guest_store_eq _ mem); [done|apply Hk]].
  erewrite host_bind_ok.
  2: { unfold shared_memory_contains_key. erewrite host_bind_ok; [reflexivity|].
       eapply read_string_placed; [done|eapply placed_length; [apply length_inserts|done]|done|by apply fetch_inserts, Hk|].
       rewrite string_len_bytes. apply cast_u_32, Hk. }
  cbn. unfold mem_contains_key. by destruct (bool_decide _).
Qed.

End protocol.

(** ** A concrete engine and encoding *)

Module RefWasm.

#[export] Program Instance ref_pointers : WasmPointers := {|
  in_bounds size offset len := (offset <? size)%Z && (offset + len <=? size)%Z;
|}.
Next Obligation. cbn. intros. bool_to_prop. lia. Qed.
Next Obligation. cbn. intros. bool_to_prop. lia. Qed.

(** Values as numbers, written in binary *)
Fixpoint pos_string (p : positive) : string :=
  match p with
  | xH => EmptyString
  | xO p => String.String "0" (pos_string p)
  | xI p => String.String "1" (pos_string p)
  end%char.
Fixpoint string_pos (s : string) : positive :=
  match s with
  | EmptyString => xH
  | String.String a s => if decide (a = "0"%char) then xO (string_pos s) else xI (string_pos s)
  end.

Lemma string_pos_string p : string_pos (pos_string p) = p.
Proof. induction p as [p IH|p IH|]; cbn; rewrite ?IH; done. Qed.
Lemma pos_string_valid p : valid_string (pos_string p) = true.
Proof.
  apply bool_decide_eq_true. generalize 0. unfold string_bytes.
  induction p as [p IH|p IH|]; intros n; cbn; [apply IH..|done].
Qed.

Definition to_json {T} `{Countable T} (x : T) : result string string := Ok (pos_string (encode x)).
Definition of_json {T} `{Countable T} (s : string) : result T string :=
  match decode (string_pos s) with Some x => Ok x | None => Err "invalid"%string end.
Lemma to_of_json {T} `{Countable T} (x : T) :
  exists j, to_json x = Ok j /\ of_json j = Ok x /\ valid_string j = true.
Proof.
  eexists. split; [reflexivity|]. split; [|apply pos_string_valid].
  unfold of_json. by rewrite string_pos_string, decode_encode.
Qed.

#[export] Instance Chain_eq_dec : EqDecision Chain. Proof. solve_decision. Defined.
#[export] Instance Level_eq_dec : EqDecision Level. Proof. solve_decision. Defined.
#[export] Instance P2PMessage_eq_dec : EqDecision P2PMessage. Proof. solve_decision. Defined.
#[export] Instance EventData_eq_dec : EqDecision EventData. Proof. solve_decision. Defined.
#[export] Instance Event_eq_dec : EqDecision Event. Proof. solve_decision. Defined.
#[export] Instance CallSelfAction_eq_dec : EqDecision CallSelfAction. Proof. solve_decision. Defined.
#[export] Instance DatabaseSetAction_eq_dec : EqDecision DatabaseSetAction. Proof. solve_decision. Defined.
#[export] Instance DatabaseGetAction_eq_dec : EqDecision DatabaseGetAction. Proof. solve_decision. Defined.
#[export] Instance HttpAction_eq_dec : EqDecision HttpAction. Proof. solve_decision. Defined.
#[export] Instance ChainViewAction_eq_dec : EqDecision ChainViewAction. Proof. solve_decision. Defined.
#[export] Instance ChainCallAction_eq_dec : EqDecision ChainCallAction. Proof. solve_decision. Defined.
#[export] Instance TriggerEventAction_eq_dec : EqDecision TriggerEventAction. Proof. solve_decision. Defined.
#[export] Instance P2PBroadcastAction_eq_dec : EqDecision P2PBroadcastAction. Proof. solve_decision. Defined.
#[export] Instance PromiseAction_eq_dec : EqDecision PromiseAction. Proof. solve_decision. Defined.
#[export] Instance PromiseStatus_eq_dec : EqDecision PromiseStatus. Proof. solve_decision. Defined.
#[export] Instance Promise_eq_dec : EqDecision Promise. Proof. solve_decision. Defined.

Definition level_nat (l : Level) : nat :=
  match l with Debug => 0 | LevelError => 1 | Info => 2 | Trace => 3 | Warn => 4 end.
Definition nat_level (n : nat) : Level :=
  match n with 0 => Debug | 1 => LevelError | 2 => Info | 3 => Trace | _ => Warn end.
#[export] Instance Level_countable : Countable Level.
Proof. apply (inj_countable' level_nat nat_level). by intros []. Defined.

Definition event_sum (e : Event) : string * (bool + (option string * bytes) + list string) :=
  (event_id e, match event_data e with
               | BatchChainTick => inl (inl true)
               | ChainTick => inl (inl false)
               | EventP2PMessage m => inl (inr (source m, message_data m))
               | CliCall l => inr l
               end).
Definition sum_event (x : string * (bool + (option string * bytes) + list string)) : Event :=
  mkEvent x.1 match x.2 with
              | inl (inl true) => BatchChainTick
              | inl (inl false) => ChainTick
              | inl (inr (s, d)) => EventP2PMessage (mkP2PMessage s d)
              | inr l => CliCall l
              end.
#[export] Instance Event_countable : Countable Event.
Proof. apply (inj_countable' event_sum sum_event). by intros [? [| |[]|]]. Defined.

Definition chain_bool (c : Chain) : bool := match c with Another => true | Near => false end.
Definition bool_chain (b : bool) : Chain := if b then Another else Near.
Lemma bool_chain_bool c : bool_chain (chain_bool c) = c.
Proof. by destruct c. Qed.

Definition action_sum (a : PromiseAction) :=
  match a with
  | CallSelf a => inl (inl (inl (function_name a, call_args a)))
  | DatabaseSet a => inl (inl (inr (set_key a, set_value a)))
  | DatabaseGet a => inl (inr (inl (get_key a)))
  | Http a => inl (inr (inr (url a)))
  | ChainView a => inr (inl (inl (chain_bool (view_chain a), view_contract_id a, view_method_name a, view_args a)))
  | ChainCall a => inr (inl (inr (chain_bool (call_chain a), call_contract_id a, call_method_name a, call_chain_args a, call_deposit a)))
  | TriggerEvent a => inr (inr (inl (event a)))
  | P2PBroadcast a => inr (inr (inr (broadcast_data a)))
  end.
Definition sum_action x : PromiseAction :=
  match x with
  | inl (inl (inl (f, l))) => CallSelf (mkCallSelf f l)
  | inl (inl (inr (k, v))) => DatabaseSet (mkDatabaseSet k v)
  | inl (inr (inl k)) => DatabaseGet (mkDatabaseGet k)
  | inl (inr (inr u)) => Http (mkHttp u)
  | inr (inl (inl (c, i, m, a))) => ChainView (mkChainView (bool_chain c) i m a)
  | inr (inl (inr (c, i, m, a, d))) => ChainCall (mkChainCall (bool_chain c) i m a d)
  | inr (inr (inl e)) => TriggerEvent (mkTriggerEvent e)
  | inr (inr (inr b)) => P2PBroadcast (mkP2PBroadcast b)
  end.
#[export] Instance PromiseAction_countable : Countable PromiseAction.
Proof. apply (inj_countable' action_sum sum_action). intros [[]|[]|[]|[]|[]|[]|[]|[]]; cbn; by rewrite ?bool_chain_bool. Defined.

Definition status_sum (s : PromiseStatus) : bool + (option bytes + bytes) :=
  match s with
  | Unfulfilled => inl true | Pending => inl false
  | Fulfilled d => inr (inl d) | Rejected d => inr (inr d)
  end.
Definition sum_status (x : bool + (option bytes + bytes)) : PromiseStatus :=
  match x with
  | inl true => Unfulfilled | inl false => Pending
  | inr (inl d) => Fulfilled d | inr (inr d) => Rejected d
  end.
#[export] Instance PromiseStatus_countable : Countable PromiseStatus.
Proof. apply (inj_countable' status_sum sum_status). by intros []. Defined.
#[export] Instance Promise_countable : Countable Promise.
Proof.
  apply (inj_countable' (fun p => (action p, status p)) (fun x => mkPromise x.1 x.2)). by intros [].
Defined.

#[export] Instance ref_json : SerdeJson := {|
  promise_to_json := to_json; promise_of_json := of_json; promise_json := to_of_json;
  status_to_json := to_json; status_of_json := of_json; status_json := to_of_json;
  level_to_json := to_json; level_of_json := of_json; level_json := to_of_json;
|}.

End RefWasm.

Section witnesses.
Import RefSdk RefWasm.

Definition done_promise : Promise := mkPromise (Http (mkHttp "http://x")) (Fulfilled (Some [x2a])).
Definition ref_context : VmContext :=
  mkContext [] (Some (replicate 200 x00)) InMemory_default (mkInMemory {["shared"%string := [x07]]})
    PromiseQueue_new (mkQueue [done_promise]) 5%Z [].

Lemma placed_200 p n : p + n <= 199 -> placed (replicate 200 x00) p n.
Proof. intros H. unfold placed. rewrite length_replicate. lia. Qed.

Lemma host_call_confined_witness :
  exists r c', host_call (MemoryRead 0 0 8 0) ref_context = Ret (r, c') /\
    call_frame (MemoryRead 0 0 8 0) ref_context c'.
Proof.
  destruct (host_call (MemoryRead 0 0 8 0) ref_context) as [[r c']|e] eqn:E.
  - exists r, c'. split; [reflexivity|]. exact (host_call_confined (MemoryRead 0 0 8 0) ref_context r c' E).
  - exfalso. revert E. apply host_call_no_panic. intros i p l Hne. discriminate Hne.
Defined.

Lemma guest_memory_roundtrip_witness :
  exists c1 c2, guest_put false 0 8 "key" [x01; x02] ref_context = Ret (Ok tt, c1) /\
    guest_get true 0 20 "shared" c1 = Ret (Ok [x07], c2) /\ store_of true c2 = store_of true c1.
Proof.
  apply (guest_memory_roundtrip false true 0 8 "key" 0 20 "shared" [x01; x02] ref_context (replicate 200 x00)).
  - reflexivity.
  - vm_compute. reflexivity.
  - vm_compute. reflexivity.
  - apply placed_200. cbn. lia.
  - apply placed_200. cbn. lia.
  - left. cbn. lia.
  - apply placed_200. cbn. lia.
  - apply placed_200. apply Nat.leb_le. vm_compute. reflexivity.
  - left. apply Nat.leb_le. vm_compute. reflexivity.
Defined.

Lemma promise_chain_enqueued_witness :
  exists c' r, (p1 ← start 0 (guest_http_fetch "u"); then_ 0 p1 (call_self "f" [])) ref_context = Ret (Ok r, c') /\
    queue (promise_queue c') = [mkPromise (Http (mkHttp "u")) Unfulfilled; mkPromise (CallSelf (mkCallSelf "f" [])) Unfulfilled].
Proof.
  apply (promise_chain_enqueued 0 0 (guest_http_fetch "u") (call_self "f" []) ref_context (replicate 200 x00)).
  - reflexivity.
  - intros j Hj. apply placed_200. injection Hj as <-. apply Nat.leb_le. vm_compute. reflexivity.
  - intros j Hj. apply placed_200. injection Hj as <-. apply Nat.leb_le. vm_compute. reflexivity.
Defined.

End witnesses.
