(* ===== verification/AdapterMacro.v ===== *)
(** * The derive macro for host adapters

    Models [src/runtime/macros/src/lib.rs]: the attributes
    [#[adapter(database = .., http = .., chain_interactor = ..)]] of a type are
    collected and checked, and an implementation of a trait is generated from
    them.  The theorem says exactly which attributes are accepted.

    The [syn] crate is a parameter: its tokens, the primitives of its parser, and
    what it documents of lists with separators. *)

From S2P Require Import Prelude.

(** ** [syn] *)

(** The messages of an error; combined errors have several *)
Definition SynError := list string.
Definition syn_result (T : Type) : Type := result T SynError.
Definition combine (error another : SynError) : SynError := error ++ another.

#[export] Instance syn_bind : MBind syn_result := fun A B f m =>
  match m with Ok x => f x | Err e => Err e end.
#[export] Instance syn_ret : MRet syn_result := fun A x => Ok x.

(** The elements of a list that [Punctuated::parse_terminated] accepts are ones
    that the element's parser returned. *)
Class Syn := {
  Ident : Type;
  ParseStream : Type;
  peek : string -> ParseStream -> bool;
  parse_keyword : string -> ParseStream -> syn_result ParseStream;
  parse_eq : ParseStream -> syn_result ParseStream;
  parse_ident : ParseStream -> syn_result (Ident * ParseStream);
  parse_terminated : forall {T}, (ParseStream -> syn_result (T * ParseStream)) -> ParseStream -> syn_result (list T);
  terminated_elements {T} (p : ParseStream -> syn_result (T * ParseStream)) s l :
    parse_terminated p s = Ok l -> Forall (fun x => exists s1 s2, p s1 = Ok (x, s2)) l;
}.

Section macro.
Context `{SY : Syn}.

(** An attribute: its path, and what is between its parentheses, or the error
    where there are none *)
Record Attribute := mkAttribute { path : string; args : syn_result ParseStream }.
Definition is_ident (name : string) (a : Attribute) : bool := bool_decide (path a = name).
Definition parse_args_with {T} (p : ParseStream -> syn_result T) (a : Attribute) : syn_result T := s ← args a; p s.

Record DeriveInput := mkDeriveInput { ident : Ident; attrs : list Attribute }.

(** ** [AdapterActions] *)

Record AdapterActions := mkActions { db : option Ident; http : option Ident; chain_interactor : option Ident }.
Definition AdapterActions_default : AdapterActions := mkActions None None None.
Definition into_iter (a : AdapterActions) : list (string * option Ident) :=
  [("database", db a); ("http", http a); ("chain_interactor", chain_interactor a)]%string.

Definition either (a b : option Ident) : syn_result (option Ident) :=
  match a, b with
  | None, None => Ok None
  | Some val, None | None, Some val => Ok (Some val)
  | Some lhs, Some rhs => Err (combine ["redundant attribute argument"%string] ["note: first one here"%string])
  end.
Definition merge (self other : AdapterActions) : syn_result AdapterActions :=
  d ← either (db self) (db other);
  h ← either (http self) (http other);
  c ← either (chain_interactor self) (chain_interactor other);
  mret (mkActions d h c).

Definition parse_after (keyword : string) (build : Ident -> AdapterActions) (input : ParseStream)
    : syn_result (AdapterActions * ParseStream) :=
  s ← parse_keyword keyword input; s ← parse_eq s; '(x, s) ← parse_ident s; mret (build x, s).
Definition parse (input : ParseStream) : syn_result (AdapterActions * ParseStream) :=
  if peek "database" input then parse_after "database" (fun x => mkActions (Some x) None None) input
  else if peek "http" input then parse_after "http" (fun x => mkActions None (Some x) None) input
  else if peek "chain_interactor" input then parse_after "chain_interactor" (fun x => mkActions None None (Some x)) input
  else Err ["Unknown adapter type or empty parse stream"%string].

(** [Iterator::try_fold] and [try_for_each] *)
Fixpoint try_fold {A B} (f : B -> A -> syn_result B) (acc : B) (l : list A) : syn_result B :=
  match l with [] => Ok acc | x :: l => acc ← f acc x; try_fold f acc l end.
Fixpoint try_for_each {A} (f : A -> syn_result unit) (l : list A) : syn_result unit :=
  match l with [] => Ok tt | x :: l => _ ← f x; try_for_each f l end.

Definition from_attrs (attrs : list Attribute) : syn_result AdapterActions :=
  actions ← try_fold (fun act attr => l ← parse_args_with (parse_terminated parse) attr; try_fold merge act l)
              AdapterActions_default (List.filter (is_ident "adapter") attrs);
  _ ← try_for_each (fun '(field, action) =>
        match action with
        | Some _ => Ok tt
        | None => Err [("Missing Adapter Type: " +:+ field +:+ ".")%string]
        end) (into_iter actions);
  mret actions.

(** What the macro expands to: the implementation of the trait, with its three
    types, or the error of the compiler *)
Inductive expansion :=
| ImplHostAdapterTypes (name database http chain_interactor : Ident)
| CompileError (e : SynError).

Definition adapter (derive : DeriveInput) : outcome expansion :=
  match from_attrs (attrs derive) with
  | Err err => Ret (CompileError err)
  | Ok actions =>
      d ← unwrap unwrap_none (db actions);
      h ← unwrap unwrap_none (http actions);
      c ← unwrap unwrap_none (chain_interactor actions);
      mret (ImplHostAdapterTypes (ident derive) d h c)
  end.

(** ** Correctness *)

Inductive kind := KDatabase | KHttp | KChainInteractor.
#[local] Instance kind_eq_dec : EqDecision kind.
Proof. solve_decision. Defined.
Definition field (k : kind) (a : AdapterActions) : option Ident :=
  match k with KDatabase => db a | KHttp => http a | KChainInteractor => chain_interactor a end.
Lemma field_ext a b : (forall k, field k a = field k b) -> a = b.
Proof.
  intros H. pose proof (H KDatabase). pose proof (H KHttp). pose proof (H KChainInteractor). destruct a, b. cbn in *. congruence.
Qed.
Definition of_fields (f : kind -> option Ident) : AdapterActions := mkActions (f KDatabase) (f KHttp) (f KChainInteractor).
Lemma field_of_fields f k : field k (of_fields f) = f k.
Proof. by destruct k. Qed.

Lemma bind_ok {A B} (m : syn_result A) (f : A -> syn_result B) y :
  m ≫= f = Ok y <-> exists x, m = Ok x /\ f x = Ok y.
Proof. destruct m as [x|e]; cbn; split; [eauto|by intros (? & [= <-] & ?)|done|by intros (? & ? & _)]. Qed.

(** Attributes are merged field by field. *)
Lemma merge_ok a b r : merge a b = Ok r <-> forall k, either (field k a) (field k b) = Ok (field k r).
Proof.
  unfold merge. split.
  - intros (d & Hd & (h & Hh & (c & Hc & [= <-])%bind_ok)%bind_ok)%bind_ok k. by destruct k.
  - intros H. apply bind_ok. exists (db r). split; [apply (H KDatabase)|]. apply bind_ok. exists (http r).
    split; [apply (H KHttp)|]. apply bind_ok. exists (chain_interactor r). split; [apply (H KChainInteractor)|]. by destruct r.
Qed.
Lemma fold_merge_ok acc l r :
  try_fold merge acc l = Ok r <-> forall k, try_fold either (field k acc) (field k <$> l) = Ok (field k r).
Proof.
  revert acc. induction l as [|x l IH]; intros acc; cbn [try_fold fmap list_fmap].
  - split; [by intros [= ->]|]. intros H. f_equal. apply field_ext. intros k. specialize (H k). by injection H.
  - split.
    + intros (a & Ha & Hr)%bind_ok k. apply bind_ok. exists (field k a). split; [by apply merge_ok|by apply IH].
    + intros H. assert (forall k, exists o, either (field k acc) (field k x) = Ok o /\ try_fold either o (field k <$> l) = Ok (field k r)) as Hk
        by (intros k; by apply bind_ok, H).
      destruct (Hk KDatabase) as (d & Hd1 & Hd2), (Hk KHttp) as (h & Hh1 & Hh2), (Hk KChainInteractor) as (c & Hc1 & Hc2).
      apply bind_ok. exists (mkActions d h c). split; [apply merge_ok; by intros []|]. apply IH. by intros [].
Qed.

(** A field is fine as long as it is given at most once. *)
Lemma fold_either_ok o l r :
  try_fold either o l = Ok r <-> length (omap id (o :: l)) <= 1 /\ r = head (omap id (o :: l)).
Proof.
  revert o. induction l as [|x l IH]; intros o; cbn [try_fold].
  - destruct o; cbn; split; [intros [= <-]|intros [_ ->]|intros [= <-]|intros [_ ->]]; auto with lia.
  - rewrite bind_ok. destruct o as [a|], x as [b|]; cbn [either].
    1: split; [by intros (? & ? & _)|cbn; lia].
    all: split; [intros (y & [= <-] & Hr); by apply IH in Hr|intros H; eexists; split; [reflexivity|]; by apply IH].
Qed.

Definition given (k : kind) (l : list AdapterActions) : list Ident := omap (field k) l.

Lemma omap_field k l : omap id (field k <$> l) = given k l.
Proof. unfold given. induction l as [|x l IH]; [done|]. cbn. destruct (field k x); cbn; [f_equal|]; apply IH. Qed.

Lemma fold_merge_given l r :
  try_fold merge AdapterActions_default l = Ok r <-> forall k, length (given k l) <= 1 /\ field k r = head (given k l).
Proof.
  rewrite fold_merge_ok. setoid_rewrite fold_either_ok. split; intros H k; specialize (H k).
  - rewrite <- omap_field. by destruct k.
  - rewrite <- omap_field in H. by destruct k.
Qed.

Lemma try_fold_app {A B} (f : B -> A -> syn_result B) acc l1 l2 r :
  try_fold f acc (l1 ++ l2) = Ok r <-> exists a, try_fold f acc l1 = Ok a /\ try_fold f a l2 = Ok r.
Proof.
  revert acc. induction l1 as [|x l1 IH]; intros acc; cbn [app try_fold].
  - split; [eauto|by intros (? & [= <-] & ?)].
  - rewrite bind_ok. setoid_rewrite IH. setoid_rewrite bind_ok. naive_solver.
Qed.

(** All entries of all attributes are merged in one go. *)
Lemma fold_attrs_ok (parse_list : Attribute -> syn_result (list AdapterActions)) acc l r :
  try_fold (fun act attr => l ← parse_list attr; try_fold merge act l) acc l = Ok r <->
  exists lists, Forall2 (fun a x => parse_list a = Ok x) l lists /\ try_fold merge acc (concat lists) = Ok r.
Proof.
  revert acc. induction l as [|a l IH]; intros acc; cbn [try_fold].
  - split; [intros H; exists []; by split|]. intros (lists & H & Hr). apply Forall2_nil_inv_l in H as ->. exact Hr.
  - rewrite bind_ok. setoid_rewrite IH. setoid_rewrite bind_ok. split.
    + intros (act & (x & Hx & Hact) & lists & Hl & Hr). exists (x :: lists). split; [by constructor|]. cbn. apply try_fold_app. eauto.
    + intros (lists & (x & lists' & Hx & Hl & ->)%Forall2_cons_inv_l & Hr). cbn in Hr. apply try_fold_app in Hr as (act & Hact & Hr). eauto 10.
Qed.

Definition check_field : string * option Ident -> syn_result unit := fun '(field, action) =>
  match action with
  | Some _ => Ok tt
  | None => Err [("Missing Adapter Type: " +:+ field +:+ ".")%string]
  end.
Lemma all_given a : try_for_each check_field (into_iter a) = Ok tt <-> forall k, is_Some (field k a).
Proof.
  destruct a as [d h c]. split.
  - intros H k. destruct d, h, c; try discriminate H; destruct k; by eexists.
  - intros H. destruct (H KDatabase) as [x Hx], (H KHttp) as [y Hy], (H KChainInteractor) as [z Hz]. cbn in *. by subst.
Qed.

Abbreviation entries attrs lists :=
  (Forall2 (fun a x => parse_args_with (parse_terminated parse) a = Ok x) (List.filter (is_ident "adapter") attrs) lists).

Lemma from_attrs_ok l r :
  from_attrs l = Ok r <-> exists lists, entries l lists /\ forall k, exists x, given k (concat lists) = [x] /\ field k r = Some x.
Proof.
  unfold from_attrs. split.
  - intros (a & (lists & Hl & Hm)%fold_attrs_ok & ([] & Hc & [= <-])%bind_ok)%bind_ok. exists lists. split; [done|]. intros k.
    pose proof (proj1 (all_given a) Hc k) as Hs. destruct (proj1 (fold_merge_given _ _) Hm k) as [Hn Hf].
    destruct (given k (concat lists)) as [|x [|]]; cbn in *; [by rewrite Hf in Hs; destruct Hs|by exists x|lia].
  - intros (lists & Hl & Hk). apply bind_ok. exists r.
    split; [apply fold_attrs_ok; exists lists; split; [done|]|apply bind_ok; exists tt; split; [|done]].
    + apply fold_merge_given. intros k. destruct (Hk k) as (x & -> & ->). cbn. by split; [lia|].
    + apply all_given. intros k. destruct (Hk k) as (x & _ & ->). by eexists.
Qed.

(** Each entry names one adapter. *)
Lemma parse_one s a s' : parse s = Ok (a, s') -> exists k x, forall k', field k' a = if decide (k' = k) then Some x else None.
Proof.
  unfold parse, parse_after. repeat (destruct (peek _ s)); [..|done].
  all: intros (s1 & _ & (s2 & _ & ([x s3] & _ & [= <- _])%bind_ok)%bind_ok)%bind_ok.
  - exists KDatabase, x. by intros [].
  - exists KHttp, x. by intros [].
  - exists KChainInteractor, x. by intros [].
Qed.

(** The entries that are given, counted by adapter *)
Lemma given_length l :
  Forall (fun a => exists s s', parse s = Ok (a, s')) l ->
  length l = length (given KDatabase l) + length (given KHttp l) + length (given KChainInteractor l).
Proof.
  induction 1 as [|a l (s & s' & Ha) _ IH]; [done|]. destruct (parse_one _ _ _ Ha) as (k & x & Hf). cbn [length].
  assert (forall k', length (given k' (a :: l)) = (if decide (k' = k) then 1 else 0) + length (given k' l)) as Hl.
  { intros k'. unfold given. cbn. rewrite Hf. by destruct (decide (k' = k)). }
  rewrite !Hl, IH. destruct k; repeat case_decide; try congruence; lia.
Qed.

Lemma entries_parsed l lists : entries l lists -> Forall (fun a => exists s s', parse s = Ok (a, s')) (concat lists).
Proof.
  induction 1 as [|a x l' lists Hx _ IH]; [constructor|]. cbn. apply Forall_app. split; [|done].
  unfold parse_args_with in Hx. apply bind_ok in Hx as (s & _ & Hp). by eapply terminated_elements.
Qed.

(** The macro never panics, and expands to an implementation of the trait
    exactly if the attributes named [adapter] can be parsed and have, taken
    together, three entries, one for each of the three adapters, in whatever
    order and however they are spread over the attributes; the implementation
    then has the types of these entries.  Everything else is an error of the
    compiler. *)
Theorem adapter_correct derive :
  (forall d h c, adapter derive = Ret (ImplHostAdapterTypes (ident derive) d h c) <->
    exists lists, entries (attrs derive) lists /\ length (concat lists) = 3 /\
      given KDatabase (concat lists) = [d] /\ given KHttp (concat lists) = [h] /\ given KChainInteractor (concat lists) = [c]) /\
  ((exists d h c, adapter derive = Ret (ImplHostAdapterTypes (ident derive) d h c)) \/
   exists e, adapter derive = Ret (CompileError e)).
Proof.
  unfold adapter. destruct (from_attrs (attrs derive)) as [r|e] eqn:E.
  - pose proof (proj1 (from_attrs_ok _ _) E) as (lists & Hl & Hk).
    destruct (Hk KDatabase) as (d & Gd & Fd), (Hk KHttp) as (h & Gh & Fh), (Hk KChainInteractor) as (c & Gc & Fc).
    cbn [field] in Fd, Fh, Fc. rewrite Fd, Fh, Fc. cbn. split; [|left; by eexists _, _, _].
    intros d' h' c'. split.
    + intros [= <- <- <-]. exists lists. split_and!; try done. rewrite given_length by (by eapply entries_parsed). by rewrite Gd, Gh, Gc.
    + intros (lists' & Hl' & _ & Gd' & Gh' & Gc').
      assert (from_attrs (attrs derive) = Ok (mkActions (Some d') (Some h') (Some c'))) as E'.
      { apply from_attrs_ok. exists lists'. split; [done|]. intros []; eauto. }
      rewrite E in E'. injection E' as ->. cbn in *. by simplify_eq.
  - split; [|right; by eexists]. intros d h c. split; [done|]. intros (lists & Hl & _ & Gd & Gh & Gc).
    assert (from_attrs (attrs derive) = Ok (mkActions (Some d) (Some h) (Some c))) as E'.
    { apply from_attrs_ok. exists lists. split; [done|]. intros []; eauto. }
    by rewrite E in E'.
Qed.

(** Which error is reported: the first adapter that is missing, in the order
    database, HTTP, chain interactor; an adapter that is given twice comes before
    that. *)
Lemma missing_reported l lists k :
  entries l lists -> (forall k, length (given k (concat lists)) <= 1) -> given k (concat lists) = [] ->
  exists field, from_attrs l = Err [("Missing Adapter Type: " +:+ field +:+ ".")%string].
Proof.
  intros Hl Hn Hk. unfold from_attrs.
  set (r := of_fields (fun k => head (given k (concat lists)))).
  assert (try_fold (fun act attr => l ← parse_args_with (parse_terminated parse) attr; try_fold merge act l)
    AdapterActions_default (List.filter (is_ident "adapter") l) = Ok r) as ->.
  { apply fold_attrs_ok. exists lists. split; [done|]. apply fold_merge_given. intros k'. unfold r. by rewrite field_of_fields. }
  assert (field k r = None) as Hr by (unfold r; by rewrite field_of_fields, Hk).
  clearbody r. cbn. destruct (db r) eqn:E1; [|by eexists]. destruct (http r) eqn:E2; [|by eexists].
  destruct (chain_interactor r) eqn:E3; [|by eexists]. destruct k; cbn in Hr; congruence.
Qed.

End macro.

(** ** A concrete parser *)

Module RefSyn.

Inductive token := Word (s : string) | Equals | Comma.

Definition take_word (s : list token) : syn_result (string * list token) :=
  match s with Word x :: s => Ok (x, s) | _ => Err ["expected identifier"%string] end.
Fixpoint terminated {T} (fuel : nat) (p : list token -> syn_result (T * list token)) (s : list token) : syn_result (list T) :=
  match s, fuel with
  | [], _ => Ok []
  | _, O => Err ["too long"%string]
  | _, S fuel =>
      '(x, s) ← p s;
      match s with
      | [] => Ok [x]
      | Comma :: s => l ← terminated fuel p s; mret (x :: l)
      | _ => Err ["expected `,`"%string]
      end
  end.
Lemma terminated_parsed {T} fuel (p : list token -> syn_result (T * list token)) s l :
  terminated fuel p s = Ok l -> Forall (fun x => exists s1 s2, p s1 = Ok (x, s2)) l.
Proof.
  revert s l. induction fuel as [|fuel IH]; intros [|t s] l; cbn; try (intros [= <-]; constructor); try done.
  intros ([x s1] & Hp & Hr)%bind_ok. destruct s1 as [|[| |] s1]; try done.
  - injection Hr as <-. constructor; [eauto|constructor].
  - apply bind_ok in Hr as (l' & Hl & [= <-]). constructor; [eauto|]. by eapply IH.
Qed.

#[export] Instance tokens : Syn.
Proof.
  refine {|
    Ident := string; ParseStream := list token;
    peek k s := match s with Word x :: _ => bool_decide (x = k) | _ => false end;
    parse_keyword k s := '(x, s) ← take_word s; mret s;
    parse_eq s := match s with Equals :: s => Ok s | _ => Err ["expected `=`"%string] end;
    parse_ident := take_word;
    parse_terminated T p s := terminated (length s) p s;
  |}. intros T p s l. apply terminated_parsed.
Defined.

End RefSyn.

Section witnesses.
Import RefSyn.

(** Two attributes with the three adapters between them, and a foreign one *)
Definition node_adapter : DeriveInput := mkDeriveInput ("Node"%string : Ident (Syn := tokens))
  [mkAttribute "adapter" (Ok [Word "http"; Equals; Word "Reqwest"; Comma]);
   mkAttribute "doc" (Err []);
   mkAttribute "adapter" (Ok [Word "database"; Equals; Word "Sqlite"; Comma; Word "chain_interactor"; Equals; Word "Near"])]%string.

Lemma adapter_correct_witness :
  adapter node_adapter = Ret (ImplHostAdapterTypes ("Node" : Ident (Syn := tokens)) "Sqlite" "Reqwest" "Near")%string.
Proof.
  apply (adapter_correct node_adapter). eexists. split.
  - repeat (constructor; [reflexivity|]). constructor.
  - done.
Defined.

End witnesses.
