(* ===== verification/Crypto.v ===== *)
(** * Keys, files and the process environment

    Models [src/crypto/src]: the master key of a node, how it is read from and
    written to a file, and the key pairs derived from it.  The state that the
    configuration code reads and changes (files, environment variables, the
    source of random seeds) is the record [Sys] below; it is shared with
    [Config.v].

    The [hex], [concat_kdf], [bn254] and [ed25519_dalek] crates are parameters. *)

From S2P Require Import Prelude NearSdk Sdk.

(** ** The system a process sees *)

Record Sys := mkSys {
  files : gmap string string;
  env_vars : gmap string string;
  current_dir : option string;
  (** which paths can be written to *)
  writable : string -> bool;
  (** [OsRng]: the seeds it yields, and how many were taken *)
  os_rng : nat -> bytes;
  taken : nat;
}.
Definition set_files (f : gmap string string) (s : Sys) : Sys :=
  mkSys f (env_vars s) (current_dir s) (writable s) (os_rng s) (taken s).
Definition take_seed (s : Sys) : Sys :=
  mkSys (files s) (env_vars s) (current_dir s) (writable s) (os_rng s) (S (taken s)).

(** Seeds fill an array of 32 bytes. *)
Definition sys_ok (s : Sys) : Prop := forall n, length (os_rng s n) = 32.

(** Fallible code with access to the system *)
Definition io (E T : Type) : Type := Sys -> outcome (result T E * Sys).

#[export] Instance io_ret {E} : MRet (io E) := fun T x s => Ret (Ok x, s).
#[export] Instance io_bind {E} : MBind (io E) := fun A B f m s =>
  match m s with
  | Ret (Ok x, s) => f x s
  | Ret (Err e, s) => Ret (Err e, s)
  | Panic msg => Panic msg
  end.

Definition io_result {E T} (r : result T E) : io E T := fun s => Ret (r, s).
Definition io_reads {E T} (f : Sys -> T) : io E T := fun s => Ret (Ok (f s), s).
Definition io_lift {E T} (o : outcome T) : io E T := fun s =>
  match o with Ret x => Ret (Ok x, s) | Panic msg => Panic msg end.
(** [?] with a [From] conversion of the error *)
Definition io_err {E E' T} (f : E -> E') (m : io E T) : io E' T := fun s =>
  match m s with
  | Ret (Ok x, s) => Ret (Ok x, s)
  | Ret (Err e, s) => Ret (Err (f e), s)
  | Panic msg => Panic msg
  end.

Lemma io_bind_ok {E A B} (m : io E A) (k : A -> io E B) s x s1 :
  m s = Ret (Ok x, s1) -> (m ≫= k) s = k x s1.
Proof. intros H. unfold mbind, io_bind. by rewrite H. Qed.

(** [std::io] errors are held as their text. *)
Definition read_to_string (path : string) : io string string := fun s =>
  match files s !! path with
  | Some c => Ret (Ok c, s)
  | None => Ret (Err "No such file or directory (os error 2)"%string, s)
  end.
Definition write_file (path contents : string) : io string unit := fun s =>
  if writable s path then Ret (Ok tt, set_files (<[path := contents]> (files s)) s)
  else Ret (Err "Permission denied (os error 13)"%string, s).
Definition path_exists (path : string) {E} : io E bool :=
  io_reads (fun s => bool_decide (is_Some (files s !! path))).

(** ** Errors and keys *)

Inductive CryptoError :=
| CryptoIo (err : string)
| KeyDerivation
| CryptoBn254Error
| InvalidMasterKeyLength
| FromHex.

Inductive KeyType := KeyBn254 | KeyEd25519.

Record KeyPair (Private Public : Type) := mkKeyPair { private_key : Private; public_key : Public }.
Arguments mkKeyPair {Private Public}.
Arguments private_key {Private Public}.
Arguments public_key {Private Public}.

(** The crates: [hex]; [derive_key::<Sha256>] of [concat_kdf] for keys of 32
    bytes; [ed25519_dalek] and the constructors of [bn254] keys. *)
Class KeyCrates `{BN : Bn254} := {
  to_hex : bytes -> string;
  of_hex : string -> option bytes;
  of_to_hex bs : of_hex (to_hex bs) = Some bs;
  derive_key : bytes -> bytes -> option bytes;
  bn254_private_try_from : bytes -> option PrivateKey;
  bn254_from_private_key : PrivateKey -> PublicKey;
  Ed25519PrivateKey : Type;
  Ed25519PublicKey : Type;
  ed25519_from_bytes : bytes -> option Ed25519PrivateKey;
  ed25519_public : Ed25519PrivateKey -> Ed25519PublicKey;
  ed25519_private_bytes : Ed25519PrivateKey -> bytes;
  ed25519_public_bytes : Ed25519PublicKey -> bytes;
}.

Section keys.
Context `{BN : Bn254} `{KC : !KeyCrates}.

Definition Ed25519KeyPair := KeyPair Ed25519PrivateKey Ed25519PublicKey.
Definition Bn254KeyPair := KeyPair PrivateKey PublicKey.

(** [From<&Ed25519KeyPair> for Vec<u8>] *)
Definition ed25519_keypair_bytes (val : Ed25519KeyPair) : bytes :=
  ed25519_private_bytes (private_key val) ++ ed25519_public_bytes (public_key val).

Record MasterKey := mkMasterKey { seed : bytes }.

Definition random {E} : io E MasterKey := fun s =>
  Ret (Ok (mkMasterKey (os_rng s (taken s))), take_seed s).

(** [hex::decode(..)?.as_slice().try_into()?] *)
Definition master_key_of_hex (hex_string : string) : result MasterKey CryptoError :=
  match of_hex hex_string with
  | None => Err FromHex
  | Some bs => if decide (length bs = 32) then Ok (mkMasterKey bs) else Err InvalidMasterKeyLength
  end.
Definition master_key_to_hex (k : MasterKey) : string := to_hex (seed k).

Definition read_from_path (path : string) : io CryptoError MasterKey :=
  hex ← io_err CryptoIo (read_to_string path);
  io_result (master_key_of_hex hex).
Definition write_to_path (k : MasterKey) (path : string) : io CryptoError unit :=
  io_err CryptoIo (write_file path (master_key_to_hex k)).

(** [index.to_ne_bytes()] of a 64-bit [usize], on a little-endian machine *)
Definition index_bytes (index : Z) : bytes := le_bytes 8 index.

Definition derive_bn254 (k : MasterKey) (index : Z) : outcome (result Bn254KeyPair CryptoError) :=
  match derive_key (seed k) (string_bytes "bn254") with
  | None => Ret (Err KeyDerivation)
  | Some master_sk =>
      match derive_key master_sk (index_bytes index) with
      | None => Ret (Err KeyDerivation)
      | Some sk =>
          private_key ← unwrap "called `Result::unwrap()` on an `Err` value" (bn254_private_try_from sk);
          mret (Ok (mkKeyPair private_key (bn254_from_private_key private_key)))
      end
  end.

Definition derive_ed25519 (k : MasterKey) (index : Z) : outcome (result Ed25519KeyPair CryptoError) :=
  match derive_key (seed k) (string_bytes "ed25519") with
  | None => Ret (Err KeyDerivation)
  | Some master_sk =>
      match derive_key master_sk (index_bytes index) with
      | None => Ret (Err KeyDerivation)
      | Some sk =>
          private_key ← unwrap "called `Result::unwrap()` on an `Err` value" (ed25519_from_bytes sk);
          mret (Ok (mkKeyPair private_key (ed25519_public private_key)))
      end
  end.

(** ** Round trips *)

Lemma master_key_hex_roundtrip k : length (seed k) = 32 -> master_key_of_hex (master_key_to_hex k) = Ok k.
Proof.
  intros Hl. unfold master_key_of_hex, master_key_to_hex. rewrite of_to_hex, decide_True by done. by destruct k.
Qed.

(** A key that was written to a file is read back from it, as long as nothing
    else is written there. *)
Lemma write_then_read k path s :
  length (seed k) = 32 -> writable s path = true ->
  exists s', write_to_path k path s = Ret (Ok tt, s') /\ files s' = <[path := master_key_to_hex k]> (files s) /\
    forall s'', files s'' !! path = files s' !! path -> read_from_path path s'' = Ret (Ok k, s'').
Proof.
  intros Hl Hw. eexists. unfold write_to_path, write_file, io_err. rewrite Hw.
  split; [reflexivity|]. split; [reflexivity|]. intros s'' Hf. cbn in Hf. rewrite lookup_insert_eq in Hf.
  unfold read_from_path, read_to_string, io_err, mbind, io_bind. rewrite Hf. cbn.
  unfold io_result. by rewrite master_key_hex_roundtrip.
Qed.

End keys.
