(* ===== verification/Config.v ===== *)
(** * The configuration of a node

    Models [src/config/src]: the partial configurations read from the
    configuration file and from the command line, how they are merged and
    completed with defaults, how environment variables overwrite them, the
    configuration file that a first start creates, and the node's identity, which
    is read from a key file or generated.

    TOML and the crates behind the keys are parameters. *)

From stdpp Require Import pretty.
From S2P Require Import Prelude NearSdk Sdk Crypto.

(** ** Errors ([errors.rs]) *)

Inductive TomlError := TomlDeserialize (err : string) | TomlSerialize (err : string).

Inductive ConfigError :=
| ConfigIoError (err : string)
| InvalidTomlConfig (err : TomlError)
| MustProvideField (field : string)
| FailedToGetCurrentDir (err : string)
| UnwantedConfig (field : string)
| ConfigCryptoError (err : CryptoError).

(** Code that may fail with a [ConfigError] *)
Abbreviation conf := (io ConfigError).
Definition must_provide {T} (field : string) : conf T := io_result (Err (MustProvideField field)).

(** ** Merging ([configs/macros.rs]) *)

(** [merge_config_cli!] without, with a default, and with a conversion *)
Definition merge_option {T} (self cli : option T) : option T :=
  match self, cli with
  | None, None => None
  | None, Some field | Some field, None | Some _, Some field => Some field
  end.
Definition merge_config_cli {T} (self cli : option T) (def : conf T) : conf T :=
  match self, cli with
  | None, None => def
  | None, Some field | Some field, None | Some _, Some field => mret field
  end.
Definition merge_config_cli_parse {T U} (self cli : option T) (def : conf U) (parse : T -> outcome U) : conf U :=
  match self, cli with
  | None, None => def
  | None, Some field | Some field, None | Some _, Some field => io_lift (parse field)
  end.

(** [env_overwrite!] *)
Definition env_overwrite {T} (s : Sys) (field : T) (name : string) (parse : string -> outcome T) : outcome T :=
  match env_vars s !! name with
  | Some var => parse var
  | None => Ret field
  end.

(** [trait Config] *)
Class ConfigTrait (T : Type) := {
  config_default : T;
  template : Sys -> T;
  overwrite_from_env : Sys -> T -> outcome T;
}.

(** [str::parse::<u64>] *)
Definition parse_u64 (s : string) : option Z :=
  match parse_u128 s with
  | Some v => if in_width 64 v then Some v else None
  | None => None
  end.

(** ** Peer to peer ([configs/p2p.rs]); durations are in nanoseconds *)

Definition from_millis (ms : Z) : Z := (ms * 1000000)%Z.
Definition from_secs (secs : Z) : Z := (secs * 1000000000)%Z.

Record PartialP2PConfig := mkPartialP2P {
  opt_in_peers : option Z;
  opt_out_peers : option Z;
  opt_p2p_server_address : option string;
  opt_p2p_known_peers : option (list string);
  opt_disable_mdns : option bool;
  opt_max_mdns_peers : option Z;
  opt_max_manual_peers : option Z;
  opt_disable_manual_peers : option bool;
  opt_max_kademlia_peers : option Z;
  opt_disable_kademlia_peers : option bool;
  opt_cooldown_duration : option Z;
}.

Record P2PConfig := mkP2PConfig {
  p2p_server_address : string;
  p2p_known_peers : list string;
  disable_mdns : bool;
  max_mdns_peers : Z;
  in_peers : Z;
  out_peers : Z;
  disable_manual_peers : bool;
  max_manual_peers : Z;
  max_kademlia_peers : Z;
  disable_kademlia_peers : bool;
  cooldown_duration : Z;
}.

Definition COOLDOWN_DURATION : Z := 30000.
Definition IN_PEERS : Z := 25.
Definition MAX_KADEMLIA_PEERS : Z := 1000.
Definition MAX_MANUAL_PEERS : Z := 1000.
Definition MAX_MDNS_PEERS : Z := 1000.
Definition OUT_PEERS : Z := 100.
Definition P2P_SERVER_ADDRESS : string := "/ip4/0.0.0.0/tcp/0".

Definition p2p_to_config (self cli : PartialP2PConfig) : conf P2PConfig :=
  p2p_server_address ← merge_config_cli (opt_p2p_server_address self) (opt_p2p_server_address cli) (mret P2P_SERVER_ADDRESS);
  p2p_known_peers ← merge_config_cli (opt_p2p_known_peers self) (opt_p2p_known_peers cli) (mret []);
  disable_mdns ← merge_config_cli (opt_disable_mdns self) (opt_disable_mdns cli) (mret false);
  max_mdns_peers ← merge_config_cli (opt_max_mdns_peers self) (opt_max_mdns_peers cli) (mret MAX_MDNS_PEERS);
  in_peers ← merge_config_cli (opt_in_peers self) (opt_in_peers cli) (mret IN_PEERS);
  out_peers ← merge_config_cli (opt_out_peers self) (opt_out_peers cli) (mret OUT_PEERS);
  max_manual_peers ← merge_config_cli (opt_max_manual_peers self) (opt_max_manual_peers cli) (mret MAX_MANUAL_PEERS);
  disable_manual_peers ← merge_config_cli (opt_disable_manual_peers self) (opt_disable_manual_peers cli) (mret false);
  disable_kademlia_peers ← merge_config_cli (opt_disable_kademlia_peers self) (opt_disable_kademlia_peers cli) (mret false);
  max_kademlia_peers ← merge_config_cli (opt_max_kademlia_peers self) (opt_max_kademlia_peers cli) (mret MAX_KADEMLIA_PEERS);
  cooldown_duration ← merge_config_cli_parse (opt_cooldown_duration self) (opt_cooldown_duration cli)
                        (mret (from_millis COOLDOWN_DURATION)) (fun ms => Ret (from_millis ms));
  mret (mkP2PConfig p2p_server_address p2p_known_peers disable_mdns max_mdns_peers in_peers out_peers
          disable_manual_peers max_manual_peers max_kademlia_peers disable_kademlia_peers cooldown_duration).

#[export] Instance p2p_config_trait : ConfigTrait PartialP2PConfig := {|
  config_default := mkPartialP2P None None None None None None None None None None None;
  template _ := {|
    opt_p2p_server_address := Some P2P_SERVER_ADDRESS;
    opt_p2p_known_peers := None;
    opt_disable_mdns := None;
    opt_disable_manual_peers := None;
    opt_max_manual_peers := Some MAX_MANUAL_PEERS;
    opt_in_peers := Some IN_PEERS;
    opt_out_peers := Some OUT_PEERS;
    opt_max_mdns_peers := Some MAX_MDNS_PEERS;
    opt_disable_kademlia_peers := None;
    opt_max_kademlia_peers := Some MAX_KADEMLIA_PEERS;
    opt_cooldown_duration := Some COOLDOWN_DURATION;
  |};
  overwrite_from_env _ c := Ret c;
|}.

Definition p2p_test_config : P2PConfig := {|
  p2p_server_address := P2P_SERVER_ADDRESS;
  p2p_known_peers := [];
  disable_mdns := false;
  disable_manual_peers := false;
  max_manual_peers := MAX_MANUAL_PEERS;
  in_peers := IN_PEERS;
  out_peers := OUT_PEERS;
  max_mdns_peers := MAX_MDNS_PEERS;
  disable_kademlia_peers := false;
  max_kademlia_peers := MAX_KADEMLIA_PEERS;
  cooldown_duration := from_secs COOLDOWN_DURATION;
|}.

(** ** Chains ([configs/main_chain]) *)

Definition RPC_URL : string := "https://rpc.testnet.near.org".

Record PartialNearConfig := mkPartialNear { opt_near_rpc_url : option string }.
Record NearConfig := mkNear { near_rpc_url : string }.

Definition near_to_config (self cli : PartialNearConfig) : conf NearConfig :=
  chain_rpc_url ← merge_config_cli (opt_near_rpc_url self) (opt_near_rpc_url cli) (must_provide "near.chain_rpc_url");
  mret (mkNear chain_rpc_url).

#[export] Instance near_config_trait : ConfigTrait PartialNearConfig := {|
  config_default := mkPartialNear None;
  template _ := mkPartialNear (Some RPC_URL);
  overwrite_from_env s c :=
    url ← env_overwrite s (opt_near_rpc_url c) "SEDA_NEAR_RPC_URL" (fun v => Ret (Some v));
    mret (mkPartialNear url);
|}.
Definition near_test_config : NearConfig := mkNear RPC_URL.

Record PartialAnotherConfig := mkPartialAnother { opt_another_rpc_url : option string }.
Record AnotherConfig := mkAnother { another_rpc_url : string }.
Definition another_to_config (self : PartialAnotherConfig) : AnotherConfig :=
  mkAnother (default RPC_URL (opt_another_rpc_url self)).
#[export] Instance another_config_trait : ConfigTrait PartialAnotherConfig := {|
  config_default := mkPartialAnother None;
  template _ := mkPartialAnother (Some RPC_URL);
  overwrite_from_env _ c := Ret c;
|}.
Definition another_test_config : AnotherConfig := mkAnother RPC_URL.

Record PartialChainConfigs := mkPartialChains { opt_another : PartialAnotherConfig; opt_near : PartialNearConfig }.
Record ChainConfigs := mkChains { conf_another : AnotherConfig; conf_near : NearConfig }.
Definition chains_to_config (self cli : PartialChainConfigs) : conf ChainConfigs :=
  let another := another_to_config (opt_another self) in
  near ← near_to_config (opt_near self) (opt_near cli);
  mret (mkChains another near).
#[export] Instance chains_config_trait : ConfigTrait PartialChainConfigs := {|
  config_default := mkPartialChains config_default config_default;
  template s := mkPartialChains (template s) (template s);
  overwrite_from_env s c :=
    a ← overwrite_from_env s (opt_another c);
    n ← overwrite_from_env s (opt_near c);
    mret (mkPartialChains a n);
|}.
Definition chains_test_config : ChainConfigs := mkChains another_test_config near_test_config.

(** ** Logging ([configs/logger.rs]) *)

Record PartialLoggerConfig := mkPartialLogger { opt_log_file_path : option string }.
Record LoggerConfig := mkLogger { log_file_path : string }.

Definition std_current_dir : conf string :=
  d ← io_reads current_dir;
  io_result match d with
            | Some d => Ok d
            | None => Err (FailedToGetCurrentDir "No such file or directory (os error 2)")
            end.
Definition logger_to_config (self cli : PartialLoggerConfig) : conf LoggerConfig :=
  p ← merge_config_cli (opt_log_file_path self) (opt_log_file_path cli) std_current_dir;
  mret (mkLogger p).
#[export] Instance logger_config_trait : ConfigTrait PartialLoggerConfig := {|
  config_default := mkPartialLogger None;
  template s := mkPartialLogger (current_dir s);
  overwrite_from_env s c :=
    p ← env_overwrite s (opt_log_file_path c) "SEDA_LOG_FILE_PATH" (fun v => Ret (Some v));
    mret (mkPartialLogger p);
|}.

(** ** Delegation ([configs/delegate.rs]) *)

Record PartialDelegateConfig := mkPartialDelegate {
  opt_validator_secret_key : option string;
  opt_account_secret_key : option string;
  opt_signer_account_id : option string;
  opt_delegate_contract_id : option string;
  opt_rpc_url : option string;
  opt_delegate_gas : option Z;
}.
Record DelegateConfig := mkDelegateConfig {
  account_secret_key : string;
  validator_master_key : string;
  delegate_signer_account_id : string;
  delegate_contract_id : string;
  rpc_url : string;
  delegate_gas : Z;
}.
Definition DELEGATE_GAS : Z := 300000000000000.

Definition delegate_to_config (self cli : PartialDelegateConfig) : conf DelegateConfig :=
  validator_master_key ← merge_config_cli (opt_validator_secret_key self) (opt_validator_secret_key cli) (mret EmptyString);
  account_secret_key ← merge_config_cli (opt_account_secret_key self) (opt_account_secret_key cli)
                         (must_provide "node.secret_key");
  signer_account_id ← merge_config_cli (opt_signer_account_id self) (opt_signer_account_id cli)
                        (must_provide "node.signer_account_id");
  delegate_contract_id ← merge_config_cli (opt_delegate_contract_id self) (opt_delegate_contract_id cli) (mret EmptyString);
  rpc_url ← merge_config_cli (opt_rpc_url self) (opt_rpc_url cli) (mret RPC_URL);
  gas ← merge_config_cli (opt_delegate_gas self) (opt_delegate_gas cli) (mret DELEGATE_GAS);
  mret (mkDelegateConfig account_secret_key validator_master_key signer_account_id delegate_contract_id rpc_url gas).

#[export] Instance delegate_config_trait : ConfigTrait PartialDelegateConfig := {|
  config_default := mkPartialDelegate None None None None None None;
  template _ := mkPartialDelegate None None None None None (Some DELEGATE_GAS);
  overwrite_from_env s c :=
    v ← env_overwrite s (opt_validator_secret_key c) "VALIDATOR_SECRET_KEY" (fun v => Ret (Some v));
    a ← env_overwrite s (opt_account_secret_key c) "ACCOUNT_SECRET_KEY" (fun v => Ret (Some v));
    i ← env_overwrite s (opt_signer_account_id c) "SIGNER_ACCOUNT_ID" (fun v => Ret (Some v));
    mret (mkPartialDelegate v a i (opt_delegate_contract_id c) (opt_rpc_url c) (opt_delegate_gas c));
|}.
Definition delegate_test_config : DelegateConfig :=
  mkDelegateConfig EmptyString EmptyString EmptyString EmptyString EmptyString DELEGATE_GAS.

(** ** The node ([configs/node.rs]) *)

Record PartialNodeConfig := mkPartialNode {
  opt_deposit : option string;
  opt_gas : option Z;
  opt_master_key : option string;
  opt_seda_sk_file_path : option string;
  opt_contract_account_id : option string;
  opt_job_manager_interval_ms : option Z;
  opt_runtime_worker_threads : option Z;
  opt_consensus_wasm_path : option string;
}.

Definition DEPOSIT : Z := 87 * 10 ^ 19.
Definition GAS : Z := 300000000000000.
Definition JOB_MANAGER_INTERVAL_MS : Z := 10.
Definition RUNTIME_WORKER_THREADS : Z := 2.
Definition SEDA_SECRET_KEY_PATH : string := "./seda_secret_key".

#[export] Instance node_config_trait : ConfigTrait PartialNodeConfig := {|
  config_default := mkPartialNode None None None None None None None None;
  template _ := mkPartialNode None None None None None None None None;
  overwrite_from_env s c :=
    k ← env_overwrite s (opt_master_key c) "SEDA_SECRET_KEY" (fun v => Ret (Some v));
    mret (mkPartialNode (opt_deposit c) (opt_gas c) k (opt_seda_sk_file_path c) (opt_contract_account_id c)
            (opt_job_manager_interval_ms c) (opt_runtime_worker_threads c) (opt_consensus_wasm_path c));
|}.

(** [CARGO_MANIFEST_DIR] and whether this is a debug build *)
Record Build := mkBuild { manifest_dir : string; debug_assertions : bool }.

Definition default_consensus_wasm_path (b : Build) : string :=
  manifest_dir b +:+ "/" +:+
  (if debug_assertions b then "../target/wasm32-wasi/debug/consensus.wasm"
   else "../target/wasm32-wasi/release/consensus.wasm").

Section node.
Context `{BN : Bn254} `{KC : !KeyCrates} (build : Build).

Record NodeConfig := mkNodeConfig {
  node_deposit : Z;
  node_gas : Z;
  keypair_bn254 : Bn254KeyPair;
  keypair_ed25519 : Ed25519KeyPair;
  node_contract_account_id : string;
  job_manager_interval_ms : Z;
  runtime_worker_threads : Z;
  consensus_wasm_path : string;
}.

(** [outcome (result ..)] of a derivation, with [?] *)
Definition derived {T} (r : outcome (result T CryptoError)) : conf T := fun s =>
  match r with
  | Ret (Ok x) => Ret (Ok x, s)
  | Ret (Err e) => Ret (Err (ConfigCryptoError e), s)
  | Panic msg => Panic msg
  end.

(** The key given, else the key of the file, else a new key, which is kept *)
Definition load_master_key (key : option string) (seda_sk_file_path : string) : conf MasterKey :=
  match key with
  | Some key => io_err ConfigCryptoError (io_result (master_key_of_hex key))
  | None =>
      e ← path_exists seda_sk_file_path;
      if (e : bool) then io_err ConfigCryptoError (read_from_path seda_sk_file_path)
      else
        mk ← random;
        _ ← io_err ConfigCryptoError (write_to_path mk SEDA_SECRET_KEY_PATH);
        mret mk
  end.

Definition get_node_public_key (self : PartialNodeConfig) : conf bytes :=
  let cli := config_default in
  seda_sk_file_path ← merge_config_cli (opt_seda_sk_file_path self) (opt_seda_sk_file_path cli) (mret SEDA_SECRET_KEY_PATH);
  mk ← load_master_key (merge_option (opt_master_key self) (opt_master_key cli)) seda_sk_file_path;
  k ← derived (derive_ed25519 mk 0);
  mret (ed25519_public_bytes (public_key k)).

Definition node_to_config (self cli : PartialNodeConfig) : conf NodeConfig :=
  deposit ← merge_config_cli_parse (opt_deposit self) (opt_deposit cli) (mret DEPOSIT)
              (fun f => unwrap "called `Result::unwrap()` on an `Err` value" (parse_u128 f));
  gas ← merge_config_cli (opt_gas self) (opt_gas cli) (mret GAS);
  seda_sk_file_path ← merge_config_cli (opt_seda_sk_file_path self) (opt_seda_sk_file_path cli) (mret SEDA_SECRET_KEY_PATH);
  mk ← load_master_key (merge_option (opt_master_key self) (opt_master_key cli)) seda_sk_file_path;
  ed25519 ← derived (derive_ed25519 mk 0);
  bn254 ← derived (derive_bn254 mk 0);
  contract_account_id ← merge_config_cli (opt_contract_account_id self) (opt_contract_account_id cli)
                          (must_provide "node.contract_account_id");
  interval ← merge_config_cli (opt_job_manager_interval_ms self) (opt_job_manager_interval_ms cli)
               (mret JOB_MANAGER_INTERVAL_MS);
  threads ← merge_config_cli_parse (opt_runtime_worker_threads self) (opt_runtime_worker_threads cli)
              (mret RUNTIME_WORKER_THREADS) (fun f => Ret (cast_u 64 f));
  wasm ← merge_config_cli (opt_consensus_wasm_path self) (opt_consensus_wasm_path cli)
           (mret (default_consensus_wasm_path build));
  account_key ← io_reads (fun s => bool_decide (is_Some (env_vars s !! "ACCOUNT_SECRET_KEY"%string)));
  if (account_key : bool) then io_result (Err (UnwantedConfig "ACCOUNT_SECRET_KEY"))
  else mret (mkNodeConfig deposit gas bn254 ed25519 contract_account_id interval threads wasm).

Definition node_test_config (master_key : option MasterKey) : conf NodeConfig :=
  mk ← match master_key with Some k => mret k | None => random end;
  bn254 ← io_lift (r ← derive_bn254 mk 0; match r with Ok k => Ret k | Err _ => Panic "called `Result::unwrap()` on an `Err` value" end);
  ed25519 ← io_lift (r ← derive_ed25519 mk 0; match r with Ok k => Ret k | Err _ => Panic "called `Result::unwrap()` on an `Err` value" end);
  mret (mkNodeConfig DEPOSIT GAS bn254 ed25519 EmptyString JOB_MANAGER_INTERVAL_MS RUNTIME_WORKER_THREADS
          (default_consensus_wasm_path build)).

End node.

(** ** The application ([config.rs], [lib.rs]) *)

Record PartialAppConfig := mkPartialApp {
  seda_server_address : string;
  seda_server_port : Z;
  app_chains : PartialChainConfigs;
  app_node : PartialNodeConfig;
  app_logging : PartialLoggerConfig;
  app_p2p : PartialP2PConfig;
}.
Record AppConfig := mkApp {
  seda_server_url : string;
  chains : PartialChainConfigs;
  node : PartialNodeConfig;
  p2p : PartialP2PConfig;
}.

Definition app_overwrite_from_env (s : Sys) (c : PartialAppConfig) : outcome PartialAppConfig :=
  a ← env_overwrite s (seda_server_address c) "SEDA_SERVER_ADDRESS" Ret;
  p ← env_overwrite s (seda_server_port c) "SEDA_SERVER_PORT"
        (fun p => unwrap "Invalid port number specified." (parse_u64 p));
  ch ← overwrite_from_env s (app_chains c);
  n ← overwrite_from_env s (app_node c);
  l ← overwrite_from_env s (app_logging c);
  mret (mkPartialApp a p ch n l (app_p2p c)).

#[export] Instance app_config_trait : ConfigTrait PartialAppConfig := {|
  config_default := mkPartialApp "127.0.0.1" 12345 config_default config_default config_default config_default;
  template s := mkPartialApp "127.0.0.1" 12345 (template s) (template s) (template s) (template s);
  overwrite_from_env := app_overwrite_from_env;
|}.

(** [PartialAppConfig::default] reads the environment. *)
Definition app_default (s : Sys) : outcome PartialAppConfig := overwrite_from_env s config_default.

(** [From<PartialAppConfig> for (AppConfig, PartialLoggerConfig)] *)
Definition app_into (value : PartialAppConfig) : AppConfig * PartialLoggerConfig :=
  (mkApp (seda_server_address value +:+ ":" +:+ pretty (seda_server_port value))
     (app_chains value) (app_node value) (app_p2p value), app_logging value).

(** The [toml] crate: what it writes, it reads. *)
Class Toml := {
  to_string_pretty : PartialAppConfig -> result string string;
  from_str : string -> result PartialAppConfig string;
  toml_roundtrip c t : to_string_pretty c = Ok t -> from_str t = Ok c;
}.

(** [char::is_whitespace] for every character, on UTF-8 bytes *)
Fixpoint blank (bs : bytes) : bool :=
  match bs with
  | [] => true
  | b :: r =>
      if in_range 9 13 b || in_range 32 32 b then blank r
      else match r with
           | c :: r =>
               if in_range 194 194 b then (in_range 133 133 c || in_range 160 160 c) && blank r
               else match r with
                    | d :: r =>
                        ((in_range 225 225 b && in_range 154 154 c && in_range 128 128 d) ||
                         (in_range 226 226 b && in_range 128 128 c &&
                            (in_range 128 138 d || in_range 168 169 d || in_range 175 175 d)) ||
                         (in_range 226 226 b && in_range 129 129 c && in_range 159 159 d) ||
                         (in_range 227 227 b && in_range 128 128 c && in_range 128 128 d)) && blank r
                    | [] => false
                    end
           | [] => false
           end
  end.

Definition FULL_CONFIG_PATH : string := "./config.toml".
Definition default_config_path (s : Sys) : string :=
  let config_path := default EmptyString (env_vars s !! "SEDA_CONFIG_PATH"%string) in
  if blank (string_bytes config_path) then FULL_CONFIG_PATH else config_path.

Section app.
Context `{TM : Toml}.

Definition from_read (content : string) : conf PartialAppConfig :=
  config ← io_result match from_str content with Ok c => Ok c | Err e => Err (InvalidTomlConfig (TomlDeserialize e)) end;
  s ← io_reads (fun s => s);
  io_lift (overwrite_from_env s config).
Definition app_read_from_path (path : string) : conf PartialAppConfig :=
  content ← io_err ConfigIoError (read_to_string path);
  from_read content.

(** [OpenOptions::new().create(true).write(true).open(path)], which does not
    truncate, and [write_all] from the start of the file; the directories above
    are created on the way *)
Definition open_create (path : string) : io string unit := fun s =>
  write_file path (default EmptyString (files s !! path)) s.
Definition write_all (path content : string) : io string unit := fun s =>
  let old := string_bytes (default EmptyString (files s !! path)) in
  write_file path (String.string_of_list_byte
    (string_bytes content ++ drop (length (string_bytes content)) old)) s.

Definition write_template (path : string) : conf unit :=
  t ← io_reads template;
  content ← io_result match to_string_pretty t with Ok c => Ok c | Err e => Err (InvalidTomlConfig (TomlSerialize e)) end;
  io_err ConfigIoError (write_all path content).
Definition create_template_from_path (path : string) : conf unit :=
  _ ← io_err ConfigIoError (open_create path);
  write_template path.

Definition process_exit {T} : io ConfigError T := fun _ => Panic "exit code 1".
(** [if let Err(err) = .. { eprintln!(..); exit(1) }] *)
Definition or_exit {T} (m : conf T) : conf T := fun s =>
  match m s with
  | Ret (Err _, s) => process_exit s
  | r => r
  end.

Definition create_and_load_or_load_config (config_toml_path : option string) : conf (AppConfig * PartialLoggerConfig) :=
  s ← io_reads (fun s => s);
  let path := default (default_config_path s) config_toml_path in
  e ← path_exists path;
  _ ← (if (e : bool) then mret tt else or_exit (create_template_from_path path));
  c ← or_exit (app_read_from_path path);
  mret (app_into c).

End app.

(** ** Merging: the command line overrides the file, which overrides the default *)

Lemma merge_eq {T} (self cli : option T) d s :
  merge_config_cli self cli (mret d) s = Ret (Ok (default d (cli ∪ self)), s).
Proof. by destruct self, cli. Qed.
Lemma merge_parse_eq {T U} (self cli : option T) (d : U) f s :
  merge_config_cli_parse self cli (mret d) (fun x => Ret (f x)) s = Ret (Ok (default d (f <$> (cli ∪ self))), s).
Proof. by destruct self, cli. Qed.
Lemma merge_must {T} (self cli : option T) field s :
  merge_config_cli self cli (must_provide field) s =
    Ret (match cli ∪ self with Some x => Ok x | None => Err (MustProvideField field) end, s).
Proof. by destruct self, cli. Qed.
Lemma merge_option_eq {T} (self cli : option T) : merge_option self cli = cli ∪ self.
Proof. by destruct self, cli. Qed.

Ltac conf_step := erewrite io_bind_ok by (first [apply merge_eq | apply merge_parse_eq | eassumption | reflexivity]).

Lemma p2p_to_config_eq self cli s :
  p2p_to_config self cli s = Ret (Ok {|
    p2p_server_address := default P2P_SERVER_ADDRESS (opt_p2p_server_address cli ∪ opt_p2p_server_address self);
    p2p_known_peers := default [] (opt_p2p_known_peers cli ∪ opt_p2p_known_peers self);
    disable_mdns := default false (opt_disable_mdns cli ∪ opt_disable_mdns self);
    max_mdns_peers := default MAX_MDNS_PEERS (opt_max_mdns_peers cli ∪ opt_max_mdns_peers self);
    in_peers := default IN_PEERS (opt_in_peers cli ∪ opt_in_peers self);
    out_peers := default OUT_PEERS (opt_out_peers cli ∪ opt_out_peers self);
    disable_manual_peers := default false (opt_disable_manual_peers cli ∪ opt_disable_manual_peers self);
    max_manual_peers := default MAX_MANUAL_PEERS (opt_max_manual_peers cli ∪ opt_max_manual_peers self);
    max_kademlia_peers := default MAX_KADEMLIA_PEERS (opt_max_kademlia_peers cli ∪ opt_max_kademlia_peers self);
    disable_kademlia_peers := default false (opt_disable_kademlia_peers cli ∪ opt_disable_kademlia_peers self);
    cooldown_duration := default (from_millis COOLDOWN_DURATION)
                           (from_millis <$> (opt_cooldown_duration cli ∪ opt_cooldown_duration self));
  |}, s).
Proof. unfold p2p_to_config. by repeat conf_step. Qed.

Lemma default_union {T} (d : T) o : default d (o ∪ Some d) = default d (o ∪ None).
Proof. by destruct o. Qed.
Lemma default_union_map {T U} (f : T -> U) d o : default (f d) (f <$> (o ∪ Some d)) = default (f d) (f <$> (o ∪ None)).
Proof. by destruct o. Qed.

(** The template that a first start writes means the same as no file at all. *)
Lemma p2p_template_is_default cli s s' :
  p2p_to_config (template s') cli s = p2p_to_config config_default cli s.
Proof.
  rewrite !p2p_to_config_eq. cbn. by rewrite !default_union, default_union_map.
Qed.

(** ** The node's identity *)

Lemma io_bind_ret {E A B} (m : io E A) (k : A -> io E B) s y s' :
  (m ≫= k) s = Ret (Ok y, s') -> exists x s1, m s = Ret (Ok x, s1) /\ k x s1 = Ret (Ok y, s').
Proof. unfold mbind, io_bind. destruct (m s) as [[[x|e] s1]|]; [eauto|done..]. Qed.

Section identity.
Context `{BN : Bn254} `{KC : !KeyCrates} (build : Build).

Definition key_given (self cli : PartialNodeConfig) : option string := opt_master_key cli ∪ opt_master_key self.
Definition key_path (self cli : PartialNodeConfig) : string :=
  default SEDA_SECRET_KEY_PATH (opt_seda_sk_file_path cli ∪ opt_seda_sk_file_path self).

(** The key pairs are those of the master key that was loaded. *)
Definition keys_of (mk : MasterKey) (c : NodeConfig) : Prop :=
  derive_ed25519 mk 0 = Ret (Ok (keypair_ed25519 c)) /\ derive_bn254 mk 0 = Ret (Ok (keypair_bn254 c)).

Lemma keys_of_inj mk c1 c2 : keys_of mk c1 -> keys_of mk c2 ->
  keypair_ed25519 c1 = keypair_ed25519 c2 /\ keypair_bn254 c1 = keypair_bn254 c2.
Proof. intros [H1 H2] [H3 H4]. split; congruence. Qed.

Lemma derived_ret {T} (r : outcome (result T CryptoError)) s x s' :
  derived r s = Ret (Ok x, s') -> r = Ret (Ok x) /\ s' = s.
Proof. unfold derived. destruct r as [[]|]; intros; by simplify_eq. Qed.

Lemma node_to_config_ret self cli s c s' :
  node_to_config build self cli s = Ret (Ok c, s') ->
  exists mk, load_master_key (key_given self cli) (key_path self cli) s = Ret (Ok mk, s') /\ keys_of mk c /\
    opt_contract_account_id cli ∪ opt_contract_account_id self = Some (node_contract_account_id c) /\
    env_vars s' !! "ACCOUNT_SECRET_KEY"%string = None.
Proof.
  unfold node_to_config. intros Hr. rewrite merge_option_eq in Hr.
  apply io_bind_ret in Hr as (d & s1 & Hd & Hr).
  assert (s1 = s) as ->.
  { unfold merge_config_cli_parse, io_lift, mret, io_ret in Hd.
    repeat case_match; by simplify_eq. }
  do 2 (rewrite (io_bind_ok _ _ _ _ _ (merge_eq _ _ _ _)) in Hr).
  apply io_bind_ret in Hr as (mk & s2 & Hmk & Hr).
  apply io_bind_ret in Hr as (ed & s3 & [He ->]%derived_ret & Hr).
  apply io_bind_ret in Hr as (bn & s4 & [Hb ->]%derived_ret & Hr).
  apply io_bind_ret in Hr as (id & s5 & Hid & Hr). rewrite merge_must in Hid.
  destruct (opt_contract_account_id cli ∪ _) as [id'|]; [|done]. injection Hid as -> <-.
  rewrite (io_bind_ok _ _ _ _ _ (merge_eq _ _ _ _)) in Hr.
  rewrite (io_bind_ok _ _ _ _ _ (merge_parse_eq _ _ _ _ _)) in Hr.
  rewrite (io_bind_ok _ _ _ _ _ (merge_eq _ _ _ _)) in Hr.
  erewrite io_bind_ok in Hr by reflexivity. case_bool_decide as Ha; [done|].
  unfold mret, io_ret in Hr. simplify_eq. exists mk. split; [done|]. split; [done|]. split; [done|].
  by apply eq_None_not_Some.
Qed.

(** What loading the key from a file leaves behind *)
Lemma load_master_key_file path s mk s' :
  sys_ok s -> load_master_key None path s = Ret (Ok mk, s') ->
  (is_Some (files s !! path) /\ s' = s /\ read_from_path path s = Ret (Ok mk, s)) \/
  (files s !! path = None /\ mk = mkMasterKey (os_rng s (taken s)) /\
   files s' = <[SEDA_SECRET_KEY_PATH := master_key_to_hex mk]> (files s) /\
   taken s' = S (taken s) /\ os_rng s' = os_rng s).
Proof.
  intros Hok. unfold load_master_key. erewrite io_bind_ok by reflexivity. case_bool_decide as He.
  - intros Hr. left. split; [done|]. unfold io_err in Hr.
    destruct (read_from_path path s) as [[[k|e] s1]|] eqn:E; [|done..]. simplify_eq.
    assert (s' = s) as ->; [|done].
    unfold read_from_path, read_to_string, io_err, io_result, mbind, io_bind in E. repeat case_match; by simplify_eq.
  - intros Hr. right. erewrite io_bind_ok in Hr by reflexivity.
    apply io_bind_ret in Hr as ([] & s1 & Hw & Hr). unfold mret, io_ret in Hr. simplify_eq.
    unfold io_err, write_to_path, write_file in Hw. cbn in Hw. case_match; unfold io_err in *; simplify_eq/=.
    destruct (writable s SEDA_SECRET_KEY_PATH); simplify_eq/=. split; [by apply eq_None_not_Some|done].
Qed.

(** C33: A node keeps its identity: when no key is configured and the key file is
    the default one, or one that exists, every later start that finds the key
    file as the first one left it has the same key pairs. *)
Theorem identity_kept self cli s c s' self2 cli2 s2 c2 s2' :
  sys_ok s -> key_given self cli = None ->
  key_path self cli = SEDA_SECRET_KEY_PATH \/ is_Some (files s !! key_path self cli) ->
  node_to_config build self cli s = Ret (Ok c, s') ->
  key_given self2 cli2 = None -> key_path self2 cli2 = key_path self cli -> sys_ok s2 ->
  files s2 !! key_path self cli = files s' !! key_path self cli ->
  node_to_config build self2 cli2 s2 = Ret (Ok c2, s2') ->
  keypair_ed25519 c2 = keypair_ed25519 c /\ keypair_bn254 c2 = keypair_bn254 c.
Proof.
  intros Hs Hk Hp (mk & Hl & Hd & _)%node_to_config_ret Hk2 Hp2 Hs2 Hf (mk2 & Hl2 & Hd2 & _)%node_to_config_ret.
  rewrite Hk in Hl. rewrite Hk2, Hp2 in Hl2. set (p := key_path self cli) in *.
  enough (mk2 = mk) as -> by (by eapply keys_of_inj).
  apply load_master_key_file in Hl2; [|done].
  apply load_master_key_file in Hl as [(Hx & -> & Hr)|(Hn & -> & Hfs & _)]; [| |done].
  - destruct Hl2 as [(_ & _ & Hr2)|(Hn2 & _)]; [|rewrite Hn2 in Hf; destruct Hx; congruence].
    unfold Crypto.read_from_path, read_to_string, io_err, io_result, mbind, io_bind in Hr, Hr2.
    rewrite Hf in Hr2. destruct (files s !! p); [|done]. congruence.
  - assert (p = SEDA_SECRET_KEY_PATH) as Hpe by (destruct Hp as [?|[? ?]]; congruence).
    rewrite Hfs, Hpe, lookup_insert_eq in Hf. rewrite Hpe in Hl2.
    destruct Hl2 as [(_ & _ & Hr2)|(Hn2 & _)]; [|congruence].
    unfold Crypto.read_from_path, read_to_string, io_err, io_result, mbind, io_bind in Hr2. rewrite Hf in Hr2.
    rewrite master_key_hex_roundtrip in Hr2 by apply Hs. congruence.
Qed.

(** A node with another, missing key file has a new identity at every start:
    the generated key is written to the default path, over the key that may be
    there, and never to the configured one. *)
Theorem identity_lost self cli s c s' c2 s2 :
  sys_ok s -> key_given self cli = None -> key_path self cli <> SEDA_SECRET_KEY_PATH ->
  files s !! key_path self cli = None ->
  node_to_config build self cli s = Ret (Ok c, s') ->
  node_to_config build self cli s' = Ret (Ok c2, s2) ->
  keys_of (mkMasterKey (os_rng s (taken s))) c /\ keys_of (mkMasterKey (os_rng s (S (taken s)))) c2 /\
  files s2 = <[SEDA_SECRET_KEY_PATH := to_hex (os_rng s (S (taken s)))]> (files s).
Proof.
  intros Hs Hk Hp Hn (mk & Hl & Hd & _)%node_to_config_ret (mk2 & Hl2 & Hd2 & _)%node_to_config_ret.
  rewrite Hk in Hl, Hl2. set (p := key_path self cli) in *.
  apply load_master_key_file in Hl as [(Hx & _)|(_ & -> & Hf & Ht & Ho)]; [rewrite Hn in Hx; by destruct Hx| |done].
  assert (files s' !! p = None) as Hn' by (rewrite Hf; by rewrite lookup_insert_ne).
  apply load_master_key_file in Hl2 as [(Hx & _)|(_ & -> & Hf2 & _)]; [by rewrite Hn' in Hx; destruct Hx| |unfold sys_ok; by rewrite Ho].
  rewrite Ho, Ht in Hd2, Hf2. split; [done|]. split; [done|]. rewrite Hf2, Hf. apply insert_insert_eq.
Qed.

End identity.

(** ** The first start *)

Section first_start.
Context `{TM : Toml}.

Lemma string_of_to_bytes (t : string) : String.string_of_list_byte (string_bytes t) = t.
Proof. apply String.string_of_list_byte_of_string. Qed.

Lemma create_template_eq path s t :
  files s !! path = None -> writable s path = true -> to_string_pretty (template s) = Ok t ->
  create_template_from_path path s = Ret (Ok tt, set_files (<[path := t]> (files s)) s).
Proof.
  intros Hf Hw Ht. unfold create_template_from_path, open_create, write_file.
  erewrite io_bind_ok; [|unfold io_err; by rewrite Hw]. rewrite Hf. cbn [default].
  unfold write_template. erewrite io_bind_ok by reflexivity.
  change (template (set_files _ s)) with (template s). rewrite Ht. erewrite io_bind_ok by reflexivity.
  unfold io_err, write_all, write_file. cbn [writable set_files files]. rewrite Hw, lookup_insert_eq. cbn [default].
  change (string_bytes (id EmptyString)) with (@nil byte). rewrite drop_nil, app_nil_r, string_of_to_bytes. unfold set_files. cbn. by rewrite insert_insert_eq.
Qed.

Lemma app_read_eq path s t c c' :
  files s !! path = Some t -> from_str t = Ok c -> overwrite_from_env s c = Ret c' ->
  app_read_from_path path s = Ret (Ok c', s).
Proof.
  intros Hf Ht Hc. unfold app_read_from_path, read_to_string.
  erewrite io_bind_ok; [|unfold io_err; by rewrite Hf]. unfold from_read. rewrite Ht.
  erewrite io_bind_ok by reflexivity. erewrite io_bind_ok by reflexivity. unfold io_lift. by rewrite Hc.
Qed.

(** A first start creates the configuration file and runs with the template
    as the environment overwrites it; a second start finds that file, leaves it
    alone and runs with the same configuration. *)
Theorem first_start_creates_config path s t c :
  files s !! path = None -> writable s path = true -> to_string_pretty (template s) = Ok t ->
  overwrite_from_env s (template s) = Ret c ->
  let s' := set_files (<[path := t]> (files s)) s in
  create_and_load_or_load_config (Some path) s = Ret (Ok (app_into c), s') /\
  create_and_load_or_load_config (Some path) s' = Ret (Ok (app_into c), s').
Proof.
  intros Hf Hw Ht Hc s'. assert (files s' !! path = Some t) as Hf' by apply lookup_insert_eq.
  assert (or_exit (app_read_from_path path) s' = Ret (Ok c, s')) as Hr
    by (unfold or_exit; by erewrite app_read_eq by eauto using toml_roundtrip).
  unfold create_and_load_or_load_config. split; (erewrite io_bind_ok by reflexivity);
    change (default _ (Some path)) with path; unfold path_exists; erewrite io_bind_ok by reflexivity.
  - rewrite bool_decide_eq_false_2 by (rewrite Hf; apply is_Some_None).
    erewrite io_bind_ok; [|unfold or_exit; by erewrite create_template_eq]. by erewrite io_bind_ok.
  - rewrite bool_decide_eq_true_2 by (by rewrite Hf'). erewrite io_bind_ok by reflexivity. by erewrite io_bind_ok.
Qed.

End first_start.

(** ** A concrete system *)

Module RefSystem.
Import RefSdk.

#[export] Instance ref_crates : KeyCrates.
Proof.
  refine {|
    to_hex := String.string_of_list_byte;
    of_hex s := Some (string_bytes s);
    derive_key k info := Some (k ++ info);
    bn254_private_try_from bs := Some (le_val bs);
    bn254_from_private_key k := k;
    Ed25519PrivateKey := bytes;
    Ed25519PublicKey := bytes;
    ed25519_from_bytes bs := Some bs;
    ed25519_public k := k;
    ed25519_private_bytes k := k;
    ed25519_public_bytes k := k;
  |}.
  intros bs. unfold string_bytes. by rewrite String.list_byte_of_string_of_list_byte.
Defined.

Definition fresh_sys : Sys :=
  mkSys ∅ ∅ None (fun _ => true) (fun n => le_bytes 32 (Z.of_nat (S n))) 0.

Lemma fresh_sys_ok s : os_rng s = os_rng fresh_sys -> sys_ok s.
Proof. intros E n. rewrite E. apply length_le_bytes. Qed.

#[export] Instance PartialP2PConfig_eq_dec : EqDecision PartialP2PConfig. Proof. solve_decision. Defined.
#[export] Instance PartialNearConfig_eq_dec : EqDecision PartialNearConfig. Proof. solve_decision. Defined.
#[export] Instance PartialAnotherConfig_eq_dec : EqDecision PartialAnotherConfig. Proof. solve_decision. Defined.
#[export] Instance PartialChainConfigs_eq_dec : EqDecision PartialChainConfigs. Proof. solve_decision. Defined.
#[export] Instance PartialLoggerConfig_eq_dec : EqDecision PartialLoggerConfig. Proof. solve_decision. Defined.
#[export] Instance PartialNodeConfig_eq_dec : EqDecision PartialNodeConfig. Proof. solve_decision. Defined.
#[export] Instance PartialAppConfig_eq_dec : EqDecision PartialAppConfig. Proof. solve_decision. Defined.

(** A format with one document *)
#[export] Instance ref_toml : Toml.
Proof.
  refine {|
    to_string_pretty c := if decide (c = template fresh_sys) then Ok "template"%string else Err "unknown"%string;
    from_str s := if decide (s = "template"%string) then Ok (template fresh_sys) else Err "unknown"%string;
  |}.
  intros c t. case_decide; intros [= <-]. by subst.
Defined.

Definition ref_build : Build := mkBuild "/seda/config" false.
Definition ref_node (path : option string) : PartialNodeConfig :=
  mkPartialNode None None None path (Some "oracle.near"%string) None None None.
Definition started (path : option string) (s : Sys) : Sys :=
  match node_to_config ref_build (ref_node path) config_default s with
  | Ret (_, s') => s'
  | Panic _ => s
  end.

End RefSystem.

Section witnesses.
Import RefSdk RefSystem.

Definition node_config_of (path : option string) (s : Sys) : NodeConfig :=
  match node_to_config ref_build (ref_node path) config_default s with
  | Ret (Ok c, _) => c
  | _ => mkNodeConfig 0 0 (mkKeyPair 0%Z 0%Z) (mkKeyPair [] []) EmptyString 0 0 EmptyString
  end.

Lemma identity_kept_witness :
  let s := fresh_sys in let s1 := started None s in
  keypair_ed25519 (node_config_of None s1) = keypair_ed25519 (node_config_of None s) /\
  keypair_bn254 (node_config_of None s1) = keypair_bn254 (node_config_of None s).
Proof.
  apply (identity_kept ref_build (ref_node None) config_default fresh_sys (node_config_of None fresh_sys)
           (started None fresh_sys) (ref_node None) config_default (started None fresh_sys)
           (node_config_of None (started None fresh_sys)) (started None (started None fresh_sys))).
  - apply fresh_sys_ok. reflexivity.
  - reflexivity.
  - left. reflexivity.
  - reflexivity.
  - reflexivity.
  - reflexivity.
  - apply fresh_sys_ok. reflexivity.
  - reflexivity.
  - reflexivity.
Defined.

Lemma identity_lost_witness :
  let path := Some "/etc/seda.key"%string in
  let s1 := started path fresh_sys in
  keys_of (mkMasterKey (le_bytes 32 1)) (node_config_of path fresh_sys) /\
  keys_of (mkMasterKey (le_bytes 32 2)) (node_config_of path s1) /\
  keypair_bn254 (node_config_of path fresh_sys) <> keypair_bn254 (node_config_of path s1).
Proof.
  set (path := Some "/etc/seda.key"%string). cbn zeta.
  destruct (identity_lost ref_build (ref_node path) config_default fresh_sys (node_config_of path fresh_sys)
              (started path fresh_sys) (node_config_of path (started path fresh_sys))
              (started path (started path fresh_sys))) as (H1 & H2 & _).
  - apply fresh_sys_ok. reflexivity.
  - reflexivity.
  - discriminate.
  - reflexivity.
  - reflexivity.
  - reflexivity.
  - split; [exact H1|]. split; [exact H2|]. vm_compute. discriminate.
Defined.

Lemma first_start_creates_config_witness :
  let s' := set_files (<["c.toml" := "template"]> (files fresh_sys)) fresh_sys in
  create_and_load_or_load_config (Some "c.toml"%string) fresh_sys = Ret (Ok (app_into (template fresh_sys)), s') /\
  create_and_load_or_load_config (Some "c.toml"%string) s' = Ret (Ok (app_into (template fresh_sys)), s').
Proof.
  apply (first_start_creates_config "c.toml" fresh_sys "template" (template fresh_sys)); reflexivity.
Defined.

End witnesses.
