(* ===== verification/Logger.v ===== *)
(** * The set-up of the log

    Models [src/logger/src/lib.rs]: the filter of the log, its two writers, and
    the subscriber that the process installs once.

    The [tracing] crates are parameters: the directives of a filter, of which one
    for the same target replaces the one before, and the parser of the variable
    [RUST_LOG]. *)

From S2P Require Import Prelude Crypto Config.

Inductive LevelFilter := LevelTrace | LevelDebug | LevelInfo | LevelWarn | LevelError | LevelOff.

Class Tracing := {
  EnvFilter : Type;
  filter_default : EnvFilter;
  filter_of_env : option string -> option EnvFilter;
  add_directive : string -> LevelFilter -> EnvFilter -> EnvFilter;
  directive : EnvFilter -> string -> option LevelFilter;
  directive_add t l f t' : directive (add_directive t l f) t' = if decide (t' = t) then Some l else directive f t';
}.

Section logger.
Context `{TR : Tracing}.

(** The writers hold the worker threads by their guards. *)
Inductive WorkerGuard := StdoutGuard | FileGuard (directory prefix : string).
Record Subscriber := mkSubscriber {
  level_filter : EnvFilter;
  stdout_pretty : bool;
  stdout_thread_ids : bool;
  stdout_source_lines : bool;
  file_ansi : bool;
}.
(** The process: the variable, and the subscriber, if there is one *)
Record LogState := mkLogState { rust_log : option string; global_default : option Subscriber }.

Definition seda_crates : list string := ["seda_chains"; "seda_p2p"; "seda_cli"; "seda_node"; "seda_runtime"]%string.
(** The level of the build, with or without [debug_assertions] *)
Definition build_level (debug_assertions : bool) : LevelFilter := if debug_assertions then LevelTrace else LevelInfo.
Definition init_filter (debug_assertions : bool) (env : option string) : EnvFilter :=
  fold_left (fun f crate => add_directive crate (build_level debug_assertions) f) seda_crates
    (default filter_default (filter_of_env env)).

(** [fmt::Layer] shows files and lines by default in its pretty format. *)
Definition logger_init (debug_assertions : bool) (config : LoggerConfig) : M LogState (list WorkerGuard) :=
  env ← gets rust_log;
  let subscriber := mkSubscriber (init_filter debug_assertions env) true true debug_assertions false in
  global ← gets global_default;
  match global with
  | Some _ => panic "Failed to set logger."
  | None =>
      _ ← modify (fun s => mkLogState (rust_log s) (Some subscriber));
      mret [StdoutGuard; FileGuard (log_file_path config) "seda_log"]
  end.

Lemma directive_fold l cs f t :
  directive (fold_left (fun f crate => add_directive crate l f) cs f) t = if decide (t ∈ cs) then Some l else directive f t.
Proof.
  revert f. induction cs as [|c cs IH]; intros f; cbn [fold_left].
  - by rewrite decide_False by apply not_elem_of_nil.
  - rewrite IH, directive_add. repeat case_decide; set_solver.
Qed.

(** The log is set up once, with a writer to the terminal and one to a daily file
    in the configured directory; the level of the five crates is that of the
    build, whatever the variable [RUST_LOG] says about them, and for every other
    target it is what the variable says.  A second set-up panics. *)
Theorem logger_levels debug_assertions config env :
  exists sub guards, logger_init debug_assertions config (mkLogState env None) = Ret (guards, mkLogState env (Some sub)) /\
    guards = [StdoutGuard; FileGuard (log_file_path config) "seda_log"] /\
    (forall crate, crate ∈ seda_crates -> directive (level_filter sub) crate = Some (build_level debug_assertions)) /\
    (forall target, target ∉ seda_crates ->
      directive (level_filter sub) target = directive (default filter_default (filter_of_env env)) target) /\
    is_ret (logger_init debug_assertions config (mkLogState env (Some sub))) = false.
Proof.
  exists (mkSubscriber (init_filter debug_assertions env) true true debug_assertions false),
    [StdoutGuard; FileGuard (log_file_path config) "seda_log"]. split; [reflexivity|]. split; [done|]. split; [|split; [|done]]; cbn [level_filter]; intros t Ht; unfold init_filter; rewrite directive_fold.
  - by rewrite decide_True.
  - by rewrite decide_False.
Qed.

End logger.

(** ** A concrete filter *)

Module RefLogger.

(** A directive of [RUST_LOG] that only names a crate *)
#[export] Instance ref_tracing : Tracing.
Proof.
  refine {|
    EnvFilter := list (string * LevelFilter);
    filter_default := [];
    filter_of_env e := (fun crate => [(crate, LevelTrace)]) <$> e;
    add_directive t l f := (t, l) :: f;
    directive f t := snd <$> head (filter (fun p => p.1 = t) f);
  |}.
  intros t l f t'. rewrite filter_cons. cbn. repeat case_decide; by subst.
Defined.

(** Debug lines of the node, asked for by the variable, are off in a release. *)
Example release_ignores_rust_log :
  directive (default filter_default (filter_of_env (Some "seda_node"%string))) "seda_node" = Some LevelTrace /\
  directive (init_filter false (Some "seda_node"%string)) "seda_node" = Some LevelInfo.
Proof. split; reflexivity. Qed.

End RefLogger.
