(* ===== verification/PeerList.v ===== *)
(** * Lists of peers

    Models [src/p2p/src/libp2p/peer_list.rs]: peers indexed by address and by
    identifier.  Addresses and identifiers are types of the [libp2p] crate, given
    by the class below. *)

From S2P Require Import Prelude.

(** [Multiaddr] and [PeerId]: hashable, with a textual form *)
Class Libp2p := {
  Multiaddr : Type;
  Multiaddr_eq_dec :: EqDecision Multiaddr;
  Multiaddr_countable :: Countable Multiaddr;
  PeerId : Type;
  PeerId_eq_dec :: EqDecision PeerId;
  PeerId_countable :: Countable PeerId;
  multiaddr_from_str : string -> option Multiaddr;
  multiaddr_to_string : Multiaddr -> string;
  peer_id_from_str : string -> option PeerId;
  peer_id_to_base58 : PeerId -> string;
}.

(** The discriminants order the ways to find a peer. *)
Inductive ConnectionType := CNone | Manual | MDns | CChain | Kademlia.
Definition discriminant (t : ConnectionType) : Z :=
  match t with CNone => -1 | Manual => 0 | MDns => 1 | CChain => 2 | Kademlia => 3 end.
Definition conn_lt (a b : ConnectionType) : bool := (discriminant a <? discriminant b)%Z.

#[export] Instance ConnectionType_eq_dec : EqDecision ConnectionType.
Proof. solve_decision. Defined.

Section peer_list.
Context `{LP : Libp2p}.

Record PeerInfo := mkPeerInfo { peer_id : option PeerId; conn_type : ConnectionType }.

Record PeerList := mkPeerList {
  addr_to_peer : gmap Multiaddr PeerInfo;
  peer_to_addr : gmap PeerId Multiaddr;
}.
Definition PeerList_default : PeerList := mkPeerList ∅ ∅.

(** [PeerList::from_vec]; an address that does not parse panics *)
Fixpoint insert_addrs (m : gmap Multiaddr PeerInfo) (l : list string) : outcome (gmap Multiaddr PeerInfo) :=
  match l with
  | [] => Ret m
  | unparsed_addr :: l =>
      addr ← unwrap "called `Result::unwrap()` on an `Err` value" (multiaddr_from_str unparsed_addr);
      insert_addrs (<[addr := mkPeerInfo None Manual]> m) l
  end.
Definition from_vec (unparsed_multi_addresses : list string) : outcome PeerList :=
  addr_to_peer ← insert_addrs ∅ unparsed_multi_addresses;
  mret (mkPeerList addr_to_peer ∅).

Definition peers_len (l : PeerList) : nat := size (peer_to_addr l).
Definition peers_is_empty (l : PeerList) : bool := bool_decide (peer_to_addr l = ∅).

Definition add_peer (multi_addr : Multiaddr) (peer_id : option PeerId) (conn_type : ConnectionType) (l : PeerList) : PeerList :=
  let addrs := <[multi_addr := mkPeerInfo peer_id conn_type]> (addr_to_peer l) in
  match peer_id with
  | Some peer => mkPeerList addrs (<[peer := multi_addr]> (peer_to_addr l))
  | None => mkPeerList addrs (peer_to_addr l)
  end.

Definition get_peer_by_id (l : PeerList) (peer_id : PeerId) : option (Multiaddr * PeerInfo) :=
  match peer_to_addr l !! peer_id with
  | Some addr =>
      match addr_to_peer l !! addr with
      | Some peer_info => Some (addr, peer_info)
      | None => None
      end
  | None => None
  end.
Definition get_peer_by_addr (l : PeerList) (addr : Multiaddr) : option PeerInfo := addr_to_peer l !! addr.

(** An unknown address panics. *)
Definition set_peer_id (multi_addr : Multiaddr) (id : PeerId) (l : PeerList) : outcome PeerList :=
  peer_info ← unwrap unwrap_none (addr_to_peer l !! multi_addr);
  mret (mkPeerList (<[multi_addr := mkPeerInfo (Some id) (conn_type peer_info)]> (addr_to_peer l))
                   (<[id := multi_addr]> (peer_to_addr l))).

Definition remove_peer_by_addr (multi_addr : Multiaddr) (l : PeerList) : PeerList :=
  let peers := match addr_to_peer l !! multi_addr with
               | Some peer_info =>
                   match peer_id peer_info with
                   | Some id => delete id (peer_to_addr l)
                   | None => peer_to_addr l
                   end
               | None => peer_to_addr l
               end in
  mkPeerList (delete multi_addr (addr_to_peer l)) peers.

Definition remove_peer_by_id (id : PeerId) (l : PeerList) : PeerList :=
  let addrs := match peer_to_addr l !! id with
               | Some multi_addr => delete multi_addr (addr_to_peer l)
               | None => addr_to_peer l
               end in
  mkPeerList addrs (delete id (peer_to_addr l)).

Definition has_peer_id (l : PeerList) (id : PeerId) : bool := bool_decide (is_Some (peer_to_addr l !! id)).
Definition has_addr (l : PeerList) (addr : Multiaddr) : bool := bool_decide (is_Some (addr_to_peer l !! addr)).

(** [get_json], up to the [serde_json] value: the address of every known peer *)
Definition get_json (l : PeerList) : gmap string string :=
  map_fold (fun peer addr m => <[multiaddr_to_string addr := peer_id_to_base58 peer]> m) ∅ (peer_to_addr l).
Definition get_all (l : PeerList) : gmap PeerId Multiaddr := peer_to_addr l.
Definition get_all_info (l : PeerList) : gmap Multiaddr PeerInfo := addr_to_peer l.

(** ** Consistency of the two indexes *)

(** The indexes are inverse to each other. *)
Definition peers_ok (l : PeerList) : Prop :=
  forall id a, peer_to_addr l !! id = Some a <-> exists t, addr_to_peer l !! a = Some (mkPeerInfo (Some id) t).

(** An address and an identifier that can be put together: neither is known with
    another partner *)
Definition free_for (l : PeerList) (a : Multiaddr) (id : PeerId) : Prop :=
  (forall i, addr_to_peer l !! a = Some i -> peer_id i = None \/ peer_id i = Some id) /\
  (forall a', peer_to_addr l !! id = Some a' -> a' = a).

Lemma peers_ok_default : peers_ok PeerList_default.
Proof. intros id a. cbn. rewrite lookup_empty. split; [done|]. intros [t Ht]. by rewrite lookup_empty in Ht. Qed.

(** Putting [id] at [a], whatever the type *)
Lemma peers_ok_put l a id t :
  peers_ok l -> free_for l a id ->
  peers_ok (mkPeerList (<[a := mkPeerInfo (Some id) t]> (addr_to_peer l)) (<[id := a]> (peer_to_addr l))).
Proof.
  intros Hok [Ha Hid] id' a'. cbn. destruct (decide (id' = id)) as [->|Hne].
  - rewrite lookup_insert_eq. split.
    + intros [= <-]. exists t. by rewrite lookup_insert_eq.
    + intros [t' Ht]. destruct (decide (a' = a)) as [->|Hna]; [done|].
      rewrite lookup_insert_ne in Ht by done. f_equal. symmetry. apply Hid, Hok. by exists t'.
  - rewrite lookup_insert_ne by done. destruct (decide (a' = a)) as [->|Hna].
    + rewrite lookup_insert_eq. split; [|by intros [t' [= ? _]]].
      intros (t' & Ht)%Hok. destruct (Ha _ Ht); naive_solver.
    + rewrite lookup_insert_ne by done. apply Hok.
Qed.

Lemma peers_ok_add l a id t :
  peers_ok l -> (forall i, id = Some i -> free_for l a i) ->
  (id = None -> forall i, addr_to_peer l !! a = Some i -> peer_id i = None) -> peers_ok (add_peer a id t l).
Proof.
  intros Hok Hfree Hnone. unfold add_peer. destruct id as [id|]; [by apply peers_ok_put; auto|].
  intros id a'. cbn. rewrite (Hok id a'). destruct (decide (a' = a)) as [->|Hna]; [|by rewrite lookup_insert_ne].
  rewrite lookup_insert_eq. split; intros [t' Ht]; [|done]. by specialize (Hnone eq_refl _ Ht).
Qed.

Lemma peers_ok_set l a id l' :
  peers_ok l -> free_for l a id -> set_peer_id a id l = Ret l' -> peers_ok l'.
Proof.
  intros Hok Hf Hr. unfold set_peer_id in Hr. apply outcome_bind_ret in Hr as (i & _ & Hr). inv_run.
  by apply peers_ok_put.
Qed.

Lemma peers_ok_remove_addr l a : peers_ok l -> peers_ok (remove_peer_by_addr a l).
Proof.
  intros Hok id a'. unfold remove_peer_by_addr. cbn.
  destruct (decide (a' = a)) as [->|Hna].
  - rewrite lookup_delete_eq. split; [|by intros [? ?]]. intros Hp. exfalso.
    destruct (addr_to_peer l !! a) as [[[i|] t]|] eqn:E; cbn in Hp.
    + assert (peer_to_addr l !! i = Some a) as Hi by (apply Hok; eauto).
      destruct (decide (id = i)) as [->|Hni]; [by rewrite lookup_delete_eq in Hp|].
      rewrite lookup_delete_ne in Hp by done. apply Hok in Hp as [t' Ht]. congruence.
    + apply Hok in Hp as [t' Ht]. congruence.
    + apply Hok in Hp as [t' Ht]. congruence.
  - rewrite lookup_delete_ne by done. rewrite <- (Hok id a').
    destruct (addr_to_peer l !! a) as [[[i|] t]|] eqn:E; cbn; try done.
    destruct (decide (id = i)) as [->|Hni]; [|by rewrite lookup_delete_ne].
    rewrite lookup_delete_eq. split; [done|]. intros Hp.
    assert (peer_to_addr l !! i = Some a) as Hi by (apply Hok; eauto). congruence.
Qed.

Lemma peers_ok_remove_id l i : peers_ok l -> peers_ok (remove_peer_by_id i l).
Proof.
  intros Hok id a. unfold remove_peer_by_id. cbn.
  destruct (decide (id = i)) as [->|Hni].
  - rewrite lookup_delete_eq. split; [done|]. intros [t Ht]. exfalso.
    destruct (peer_to_addr l !! i) as [a'|] eqn:E.
    + apply lookup_delete_Some in Ht as [Hne Ht]. apply Hne.
      enough (peer_to_addr l !! i = Some a) by congruence. apply Hok. eauto.
    + enough (peer_to_addr l !! i = Some a) by congruence. apply Hok. eauto.
  - rewrite lookup_delete_ne by done. rewrite (Hok id a).
    destruct (peer_to_addr l !! i) as [a'|] eqn:E; [|done].
    destruct (decide (a = a')) as [->|Hna]; [|by rewrite lookup_delete_ne].
    rewrite lookup_delete_eq. split; [|by intros [? ?]]. intros [t Ht].
    apply Hok in E as [t' Ht']. naive_solver.
Qed.

(** As long as every address is put together with one identifier only, the
    two indexes of a list stay inverse to each other; a peer that is found by its
    identifier is found by its address too, and removing it by either key is the
    same and leaves neither. *)
Theorem peer_removal_complete l id a i :
  peers_ok l -> get_peer_by_id l id = Some (a, i) ->
  get_peer_by_addr l a = Some i /\ peer_id i = Some id /\
  remove_peer_by_addr a l = remove_peer_by_id id l /\
  let l' := remove_peer_by_id id l in
  peers_ok l' /\ has_addr l' a = false /\ has_peer_id l' id = false /\
  S (peers_len l') = peers_len l.
Proof.
  intros Hok Hg. unfold get_peer_by_id in Hg.
  destruct (peer_to_addr l !! id) as [a'|] eqn:Ep; [|done].
  destruct (addr_to_peer l !! a') as [i'|] eqn:Ea; [|done]. simplify_eq.
  pose proof Ep as Ep'. apply Hok in Ep' as [t Ht]. assert (i = mkPeerInfo (Some id) t) as -> by congruence.
  split; [done|]. split; [done|]. split.
  { unfold remove_peer_by_addr, remove_peer_by_id. by rewrite Ea, Ep. }
  split; [by apply peers_ok_remove_id|]. unfold has_addr, has_peer_id, remove_peer_by_id, peers_len. cbn. rewrite Ep.
  rewrite !lookup_delete_eq. split; [done|]. split; [done|].
  rewrite <- (insert_delete_id (peer_to_addr l) id a Ep) at 2.
  by rewrite map_size_insert_None by apply lookup_delete_eq.
Qed.

(** An address that is found again under a second identifier leaves the first
    one behind: when the address is removed, the list still counts the first
    peer, although it has no address any more. *)
Theorem renamed_peer_leaks l a id1 id2 t1 t2 :
  id1 <> id2 -> addr_to_peer l !! a = None -> peer_to_addr l !! id1 = None -> peer_to_addr l !! id2 = None ->
  let l' := remove_peer_by_addr a (add_peer a (Some id2) t2 (add_peer a (Some id1) t1 l)) in
  has_addr l' a = false /\ has_peer_id l' id1 = true /\ get_peer_by_id l' id1 = None /\
  peers_len l' = S (peers_len l).
Proof.
  intros Hne Ha H1 H2 l'. unfold l', remove_peer_by_addr, add_peer, has_addr, has_peer_id, get_peer_by_id, peers_len. cbn.
  rewrite lookup_insert_eq. cbn. rewrite (delete_insert_id (<[id1 := a]> (peer_to_addr l)) id2) by (by rewrite lookup_insert_ne).
  rewrite lookup_delete_eq, lookup_insert_eq, lookup_delete_eq. split_and!; try done.
  by rewrite map_size_insert_None.
Qed.

End peer_list.

(** ** Peers with names for addresses and identifiers *)

Module RefPeers.

#[export] Instance ref_libp2p : Libp2p := {|
  Multiaddr := string;
  PeerId := string;
  multiaddr_from_str s := if decide (s = EmptyString) then None else Some s;
  multiaddr_to_string s := s;
  peer_id_from_str s := if decide (s = EmptyString) then None else Some s;
  peer_id_to_base58 s := s;
|}.

Definition maddr (s : string) : Multiaddr (Libp2p := ref_libp2p) := s.
Definition pid (s : string) : PeerId (Libp2p := ref_libp2p) := s.

End RefPeers.

Section witnesses.
Import RefPeers.

Lemma peer_removal_complete_witness :
  let l := add_peer (maddr "addr") (Some (pid "id")) MDns PeerList_default in
  remove_peer_by_addr (maddr "addr") l = remove_peer_by_id (pid "id") l.
Proof.
  destruct (peer_removal_complete (add_peer (maddr "addr") (Some (pid "id")) MDns PeerList_default)
              (pid "id") (maddr "addr") (mkPeerInfo (Some (pid "id")) MDns)) as (_ & _ & E & _).
  - apply peers_ok_add; [apply peers_ok_default| |done]. intros i [= <-]. split; intros ? Hl; discriminate Hl.
  - reflexivity.
  - exact E.
Defined.

Lemma renamed_peer_leaks_witness :
  let l' := remove_peer_by_addr (maddr "addr")
              (add_peer (maddr "addr") (Some (pid "new")) MDns
                 (add_peer (maddr "addr") (Some (pid "old")) MDns PeerList_default)) in
  has_addr l' (maddr "addr") = false /\ has_peer_id l' (pid "old") = true /\
  get_peer_by_id l' (pid "old") = None /\ peers_len l' = S (peers_len PeerList_default).
Proof.
  apply (renamed_peer_leaks PeerList_default (maddr "addr") (pid "old") (pid "new") MDns MDns);
    [discriminate|reflexivity..].
Defined.

End witnesses.
