(* ===== verification/Discovery.v ===== *)
(** * Which peer to connect to next

    Models [src/p2p/src/libp2p/discovery_status.rs]: the peers found by each
    discovery method, the peers connected to, and the addresses that cool down
    after a failure.

    Two things a traversal depends on are arguments of the definitions: the order
    in which a [HashMap] is iterated, [it], which is any permutation of its
    entries; and the clock, [now], read once for every address looked at. *)

From S2P Require Import Prelude PeerList Crypto Config.

Section discovery.
Context `{LP : Libp2p}.

Record DiscoveryStatus := mkDiscovery {
  p2p_config : P2PConfig;
  connected_peers : PeerList;
  cooldown_addrs : gmap Multiaddr Z;
  found_manual_peers : PeerList;
  found_chain_peers : PeerList;
  found_mdns_peers : PeerList;
  found_kademlia_peers : PeerList;
}.

Definition set_connected (x : PeerList) (d : DiscoveryStatus) : DiscoveryStatus :=
  mkDiscovery (p2p_config d) x (cooldown_addrs d) (found_manual_peers d) (found_chain_peers d)
    (found_mdns_peers d) (found_kademlia_peers d).
Definition set_cooldown (x : gmap Multiaddr Z) (d : DiscoveryStatus) : DiscoveryStatus :=
  mkDiscovery (p2p_config d) (connected_peers d) x (found_manual_peers d) (found_chain_peers d)
    (found_mdns_peers d) (found_kademlia_peers d).
Definition set_found_chain (x : PeerList) (d : DiscoveryStatus) : DiscoveryStatus :=
  mkDiscovery (p2p_config d) (connected_peers d) (cooldown_addrs d) (found_manual_peers d) x
    (found_mdns_peers d) (found_kademlia_peers d).
Definition set_found_mdns (x : PeerList) (d : DiscoveryStatus) : DiscoveryStatus :=
  mkDiscovery (p2p_config d) (connected_peers d) (cooldown_addrs d) (found_manual_peers d) (found_chain_peers d)
    x (found_kademlia_peers d).
Definition set_found_kademlia (x : PeerList) (d : DiscoveryStatus) : DiscoveryStatus :=
  mkDiscovery (p2p_config d) (connected_peers d) (cooldown_addrs d) (found_manual_peers d) (found_chain_peers d)
    (found_mdns_peers d) x.

Definition DiscoveryStatus_new (p2p_config : P2PConfig) (inital_manual_peers : PeerList) : DiscoveryStatus :=
  mkDiscovery p2p_config PeerList_default ∅ inital_manual_peers PeerList_default PeerList_default PeerList_default.

Definition of_type (t : ConnectionType) (x : Multiaddr * PeerInfo) : Prop := conn_type x.2 = t.
#[export] Instance of_type_dec t x : Decision (of_type t x) := decide (conn_type x.2 = t).

Definition get_connected_len_by_type (d : DiscoveryStatus) (t : ConnectionType) : nat :=
  length (filter (of_type t) (map_to_list (get_all_info (connected_peers d)))).
Definition get_connected_list (d : DiscoveryStatus) : PeerList := connected_peers d.

(** [now > cooled_at + cooldown_duration] ends the cooldown. *)
Definition is_unused_addr (now : Z) (addr : Multiaddr) (d : DiscoveryStatus) : bool * DiscoveryStatus :=
  if has_addr (connected_peers d) addr then (false, d)
  else match cooldown_addrs d !! addr with
       | Some peer_cooldowned_time =>
           if (peer_cooldowned_time + cooldown_duration (p2p_config d) <? now)%Z
           then (true, set_cooldown (delete addr (cooldown_addrs d)) d)
           else (false, d)
       | None => (true, d)
       end.

(** [max as usize] of an [i32] *)
Definition below_max (d : DiscoveryStatus) (t : ConnectionType) (max : Z) : bool :=
  (Z.of_nat (get_connected_len_by_type d t) <? cast_u 64 max)%Z.

Definition get_current_discovery_method (d : DiscoveryStatus) (skip : option ConnectionType) : ConnectionType :=
  let c := p2p_config d in
  if (out_peers c <=? cast_i 32 (Z.of_nat (peers_len (connected_peers d))))%Z then CNone
  else
    let skip := default CNone skip in
    if negb (disable_manual_peers c) && below_max d Manual (max_manual_peers c) && conn_lt skip Manual then Manual
    else if negb (disable_mdns c) && below_max d MDns (max_mdns_peers c) && conn_lt skip MDns then MDns
    else if negb (disable_kademlia_peers c) && below_max d Kademlia (max_kademlia_peers c) && conn_lt skip Kademlia
    then Kademlia
    else CNone.

Definition cooldown_addr (now : Z) (addr : Multiaddr) (d : DiscoveryStatus) : DiscoveryStatus :=
  set_cooldown (<[addr := now]> (cooldown_addrs d)) d.

Definition add_connected_peer (addr : Multiaddr) (id : PeerId) (d : DiscoveryStatus) : outcome DiscoveryStatus :=
  l ← set_peer_id addr id (connected_peers d);
  mret (set_connected l d).

(** The found list that loses a peer when its connection ends *)
Definition forget_found (t : ConnectionType) (remove : PeerList -> PeerList) (d : DiscoveryStatus) : DiscoveryStatus :=
  match t with
  | CChain => set_found_chain (remove (found_chain_peers d)) d
  | Kademlia => set_found_kademlia (remove (found_kademlia_peers d)) d
  | MDns => set_found_mdns (remove (found_mdns_peers d)) d
  | _ => d
  end.

Definition remove_connected_by_id (id : PeerId) (d : DiscoveryStatus) : DiscoveryStatus :=
  let d := match get_peer_by_id (connected_peers d) id with
           | Some (_, peer_info) => forget_found (conn_type peer_info) (remove_peer_by_id id) d
           | None => d
           end in
  set_connected (remove_peer_by_id id (connected_peers d)) d.
Definition remove_connected_by_addr (addr : Multiaddr) (d : DiscoveryStatus) : DiscoveryStatus :=
  let d := match get_peer_by_addr (connected_peers d) addr with
           | Some peer_info => forget_found (conn_type peer_info) (remove_peer_by_addr addr) d
           | None => d
           end in
  set_connected (remove_peer_by_addr addr (connected_peers d)) d.
Definition remove_connected_peer (peer_id : option PeerId) (address : option Multiaddr) (d : DiscoveryStatus) : DiscoveryStatus :=
  let d := match peer_id with Some id => remove_connected_by_id id d | None => d end in
  match address with Some addr => remove_connected_by_addr addr d | None => d end.

(** The loop of [get_next_manual_peer], [get_next_mdns_peer] and
    [get_next_kademlia_peer], which differ in the list and in the type *)
Fixpoint next_unused (now : Multiaddr -> Z) (t : ConnectionType) (found : list (Multiaddr * PeerInfo))
    (d : DiscoveryStatus) : option (Multiaddr * PeerInfo) * DiscoveryStatus :=
  match found with
  | [] => (None, d)
  | (addr, info) :: found =>
      let '(unused, d) := is_unused_addr (now addr) addr d in
      if unused
      then (Some (addr, info), set_connected (add_peer addr (peer_id info) t (connected_peers d)) d)
      else next_unused now t found d
  end.

Definition iteration : Type := gmap Multiaddr PeerInfo -> list (Multiaddr * PeerInfo).

Definition get_next_manual_peer (now : Multiaddr -> Z) (it : iteration) (d : DiscoveryStatus) :=
  next_unused now Manual (it (get_all_info (found_manual_peers d))) d.
Definition get_next_mdns_peer (now : Multiaddr -> Z) (it : iteration) (d : DiscoveryStatus) :=
  next_unused now MDns (it (get_all_info (found_mdns_peers d))) d.
Definition get_next_kademlia_peer (now : Multiaddr -> Z) (it : iteration) (d : DiscoveryStatus) :=
  next_unused now Kademlia (it (get_all_info (found_kademlia_peers d))) d.

Definition add_mdns_peer (addr : Multiaddr) (id : PeerId) (d : DiscoveryStatus) : DiscoveryStatus :=
  set_found_mdns (add_peer addr (Some id) MDns (found_mdns_peers d)) d.
Definition add_kademlia_peer (addr : Multiaddr) (id : PeerId) (d : DiscoveryStatus) : DiscoveryStatus :=
  set_found_kademlia (add_peer addr (Some id) Kademlia (found_kademlia_peers d)) d.
Definition add_manual_peer (addr : Multiaddr) (id : option PeerId) (d : DiscoveryStatus) : DiscoveryStatus :=
  set_found_kademlia (add_peer addr id Kademlia (found_kademlia_peers d)) d.

(** ** What a search yields *)


(** An address that is neither connected nor cooling down *)
Definition usable (now : Multiaddr -> Z) (d : DiscoveryStatus) (addr : Multiaddr) : Prop :=
  addr_to_peer (connected_peers d) !! addr = None /\
  forall t0, cooldown_addrs d !! addr = Some t0 -> (t0 + cooldown_duration (p2p_config d) < now addr)%Z.

(** The state after [addr] was picked *)
Definition picked (addr : Multiaddr) (id : option PeerId) (t : ConnectionType) (d : DiscoveryStatus) : DiscoveryStatus :=
  set_connected (add_peer addr id t (connected_peers d)) (set_cooldown (delete addr (cooldown_addrs d)) d).

Lemma is_unused_spec now addr d :
  match is_unused_addr (now addr) addr d with
  | (true, d') => usable now d addr /\ d' = set_cooldown (delete addr (cooldown_addrs d)) d
  | (false, d') => ~ usable now d addr /\ d' = d
  end.
Proof.
  unfold is_unused_addr, usable, has_addr. case_bool_decide as Hc.
  { split; [|done]. intros [Hn _]. rewrite Hn in Hc. by destruct Hc. }
  apply eq_None_not_Some in Hc.
  destruct (cooldown_addrs d !! addr) as [t0|] eqn:Ec.
  - destruct (Z.ltb_spec (t0 + cooldown_duration (p2p_config d)) (now addr)).
    + split; [|done]. split; [done|]. intros ? [= <-]. done.
    + split; [|done]. intros [_ Hu]. specialize (Hu t0 eq_refl). lia.
  - split; [by split|]. rewrite delete_id by done. by destruct d.
Qed.

Lemma next_unused_spec now t found d :
  match next_unused now t found d with
  | (Some (a, i), d') => (a, i) ∈ found /\ usable now d a /\ d' = picked a (peer_id i) t d
  | (None, d') => Forall (fun x => ~ usable now d x.1) found /\ d' = d
  end.
Proof.
  induction found as [|[a i] found IH]; cbn; [by split|].
  pose proof (is_unused_spec now a d) as Hu. destruct (is_unused_addr (now a) a d) as [[] d1].
  - destruct Hu as [Hu ->]. split; [by left|]. split; [done|]. reflexivity.
  - destruct Hu as [Hu ->]. destruct (next_unused now t found d) as [[[a' i']|] d'].
    + destruct IH as (Hin & Hus & ->). split; [by right|]. done.
    + destruct IH as [Hall ->]. split; [|done]. by constructor.
Qed.

(** ** The discovery method *)

Definition enabled (c : P2PConfig) (t : ConnectionType) : bool :=
  match t with
  | Manual => negb (disable_manual_peers c)
  | MDns => negb (disable_mdns c)
  | Kademlia => negb (disable_kademlia_peers c)
  | _ => false
  end.
Definition max_peers (c : P2PConfig) (t : ConnectionType) : Z :=
  match t with
  | Manual => max_manual_peers c
  | MDns => max_mdns_peers c
  | Kademlia => max_kademlia_peers c
  | _ => 0
  end.
(** A method that may be used now *)
Definition available (d : DiscoveryStatus) (t : ConnectionType) : bool :=
  enabled (p2p_config d) t && below_max d t (max_peers (p2p_config d) t).
Definition full (d : DiscoveryStatus) : bool :=
  (out_peers (p2p_config d) <=? cast_i 32 (Z.of_nat (peers_len (connected_peers d))))%Z.

(** The method is the first available one after [skip]. *)
Lemma method_spec d skip :
  match get_current_discovery_method d skip with
  | CNone => full d = true \/ forall t, conn_lt (default CNone skip) t = true -> available d t = false
  | t => full d = false /\ available d t = true /\ conn_lt (default CNone skip) t = true /\
         forall t', conn_lt (default CNone skip) t' = true -> conn_lt t' t = true -> available d t' = false
  end.
Proof.
  unfold get_current_discovery_method. fold (full d). destruct (full d); [by left|].
  set (sk := default CNone skip).
  change (negb (disable_manual_peers (p2p_config d)) && below_max d Manual (max_manual_peers (p2p_config d)))
    with (available d Manual).
  change (negb (disable_mdns (p2p_config d)) && below_max d MDns (max_mdns_peers (p2p_config d)))
    with (available d MDns).
  change (negb (disable_kademlia_peers (p2p_config d)) && below_max d Kademlia (max_kademlia_peers (p2p_config d)))
    with (available d Kademlia).
  assert (available d CChain = false) as Hc by done. assert (available d CNone = false) as Hn by done.
  destruct (available d Manual) eqn:E1, (available d MDns) eqn:E2, (available d Kademlia) eqn:E3; destruct sk; cbn;
    try (right; intros []; done); split_and!; try done; intros []; done.
Qed.

Lemma method_not_chain d skip : get_current_discovery_method d skip <> CChain.
Proof. pose proof (method_spec d skip) as Hm. intros E. rewrite E in Hm. by destruct Hm as (_ & ? & _). Qed.

(** ** How many peers of each type are connected *)

Lemma count_insert_new (m : gmap Multiaddr PeerInfo) a i t :
  m !! a = None ->
  length (filter (of_type t) (map_to_list (<[a := i]> m))) =
    (if decide (conn_type i = t) then 1 else 0) + length (filter (of_type t) (map_to_list m)).
Proof.
  intros Ha. rewrite map_to_list_insert by done. rewrite filter_cons.
  change (decide (of_type t (a, i))) with (decide (conn_type i = t)). by destruct (decide (conn_type i = t)).
Qed.
Lemma count_delete (m : gmap Multiaddr PeerInfo) a i t :
  m !! a = Some i ->
  length (filter (of_type t) (map_to_list m)) =
    (if decide (conn_type i = t) then 1 else 0) + length (filter (of_type t) (map_to_list (delete a m))).
Proof.
  intros Ha. rewrite <- (insert_delete_id m a i) at 1 by done. apply count_insert_new, lookup_delete_eq.
Qed.
Lemma count_delete_le (m : gmap Multiaddr PeerInfo) a t :
  length (filter (of_type t) (map_to_list (delete a m))) <= length (filter (of_type t) (map_to_list m)).
Proof.
  destruct (m !! a) as [i|] eqn:E; [rewrite (count_delete m a i t E); lia|by rewrite delete_id].
Qed.

Definition within_limits (d : DiscoveryStatus) : Prop :=
  forall t, (Z.of_nat (get_connected_len_by_type d t) <= cast_u 64 (max_peers (p2p_config d) t))%Z.

Lemma picked_within a id t d :
  within_limits d -> available d t = true -> addr_to_peer (connected_peers d) !! a = None ->
  within_limits (picked a id t d).
Proof.
  intros Hw Hav Ha t'. specialize (Hw t'). unfold get_connected_len_by_type in *.
  assert (addr_to_peer (connected_peers (picked a id t d)) =
    <[a := mkPeerInfo id t]> (addr_to_peer (connected_peers d))) as E by (by destruct id).
  unfold get_all_info in *. rewrite E. rewrite count_insert_new by done. cbn [conn_type].
  change (p2p_config (picked a id t d)) with (p2p_config d). case_decide; [|lia]. subst t'.
  apply andb_prop in Hav as [_ Hb]. unfold below_max, get_connected_len_by_type, get_all_info in Hb. bool_to_prop. lia.
Qed.

End discovery.
