(* ===== verification/P2PServer.v ===== *)
(** * The peer-to-peer server

    Models [src/p2p/src/libp2p/mod.rs]: the loop that reacts to the timer, to the
    events of the [libp2p] swarm and to the commands of the node.  What the loop
    asks of the swarm and the messages it hands on are listed as outputs, in
    order; the swarm's answers are part of the inputs. *)

From S2P Require Import Prelude Sdk PeerList Crypto Config Discovery.

Section server.
Context `{LP : Libp2p}.

Definition GOSSIP_TOPIC : string := "testnet".
Definition SEARCH_PEER_INTERVAL : Z := 10000.

(** Calls of the swarm and its behaviours, and messages to the node *)
Inductive output :=
| Dial (addr : Multiaddr)
| GetClosestPeers
| KademliaAddAddress (peer : PeerId) (addr : Multiaddr)
| KademliaRemovePeer (peer : PeerId)
| AddExplicitPeer (peer : PeerId)
| DisconnectPeer (peer : PeerId)
| Publish (topic : string) (data : bytes)
| SendMessage (m : P2PMessage).

(** One traversal per discovery method, and the clock *)
Record Oracle := mkOracle {
  orders : ConnectionType -> iteration;
  clock : Multiaddr -> Z;
}.
Definition oracle_ok (o : Oracle) : Prop := forall t m, orders o t m ≡ₚ map_to_list m.

(** [search_new_peer] and the three [search_*_peers]; [fuel] bounds the methods
    tried *)
Fixpoint search_new_peer (fuel : nat) (o : Oracle) (skip : option ConnectionType) (d : DiscoveryStatus)
    : outcome (DiscoveryStatus * list output) :=
  match fuel with
  | O => Panic "out of fuel"
  | S fuel =>
      match get_current_discovery_method d skip with
      | Manual =>
          match get_next_manual_peer (clock o) (orders o Manual) d with
          | (Some (addr, _), d) => Ret (d, [Dial addr])
          | (None, d) => search_new_peer fuel o (Some Manual) d
          end
      | MDns =>
          match get_next_mdns_peer (clock o) (orders o MDns) d with
          | (Some (addr, _), d) => Ret (d, [Dial addr])
          | (None, d) => search_new_peer fuel o (Some MDns) d
          end
      | CChain => search_new_peer fuel o (Some CChain) d
      | Kademlia =>
          match get_next_kademlia_peer (clock o) (orders o Kademlia) d with
          | (Some (addr, _), d) => Ret (d, [Dial addr])
          | (None, d) => Ret (d, [GetClosestPeers])
          end
      | CNone => Ret (d, [])
      end
  end.

(** Four methods at most: see [search_total] *)
Definition search (o : Oracle) (skip : option ConnectionType) (d : DiscoveryStatus) :=
  search_new_peer 4 o skip d.

(** What the loop reacts to.  [failed] lists the addresses of a transport error;
    [addresses] is what Kademlia knows of the addresses of a peer. *)
Inductive input :=
| Tick
| NewListenAddr (addr : Multiaddr)
| DialerConnectionEstablished (peer : PeerId) (addr : Multiaddr)
| ConnectionClosed (peer : PeerId)
| OutgoingConnectionError (failed : option (list Multiaddr))
| GossipMessage (source : option PeerId) (data : bytes)
| MdnsDiscovered (peers : list (PeerId * Multiaddr))
| ClosestPeers (peers : result (list PeerId) string) (addresses : PeerId -> list Multiaddr)
| OtherEvent
| ChannelClosed
| Command (c : P2PCommand).

Definition after_search (o : Oracle) (d : DiscoveryStatus) (before after : list output)
    : outcome (DiscoveryStatus * list output) :=
  '(d, l) ← search o None d;
  mret (d, before ++ l ++ after).

Definition add_closest (addresses : PeerId -> list Multiaddr) (d : DiscoveryStatus) (peer : PeerId) : DiscoveryStatus :=
  match addresses peer with
  | first_address :: _ => add_kademlia_peer first_address peer d
  | [] => d
  end.

Definition fail_addr (now : Multiaddr -> Z) (d : DiscoveryStatus) (addr : Multiaddr) : DiscoveryStatus :=
  cooldown_addr (now addr) addr (remove_connected_peer None (Some addr) d).

Definition handle_command (o : Oracle) (c : P2PCommand) (d : DiscoveryStatus) : outcome (DiscoveryStatus * list output) :=
  match c with
  | Broadcast data => Ret (d, [Publish GOSSIP_TOPIC data])
  | Unicast _ _ => Panic "not implemented: Todo unicast"
  | AddPeer multi_addr =>
      match multiaddr_from_str multi_addr with
      | Some addr => after_search o (add_manual_peer addr None d) [] []
      | None => Ret (d, [])
      end
  | RemovePeer peer_id =>
      match peer_id_from_str peer_id with
      | Some id => after_search o (remove_connected_peer (Some id) None d) [DisconnectPeer id] []
      | None => Ret (d, [])
      end
  | DiscoverPeers => after_search o d [] []
  end.

(** One turn of [loop_stream] *)
Definition loop_step (o : Oracle) (i : input) (d : DiscoveryStatus) : outcome (DiscoveryStatus * list output) :=
  match i with
  | Tick => after_search o d [] []
  | NewListenAddr _ => Ret (d, [])
  | DialerConnectionEstablished peer addr =>
      d ← add_connected_peer addr peer d;
      after_search o d [KademliaAddAddress peer addr; AddExplicitPeer peer] []
  | ConnectionClosed peer =>
      after_search o (remove_connected_peer (Some peer) None d) [] [KademliaRemovePeer peer]
  | OutgoingConnectionError failed =>
      let d := match failed with
               | Some addrs => foldl (fail_addr (clock o)) d addrs
               | None => d
               end in
      after_search o d [] []
  | GossipMessage source data =>
      Ret (d, [SendMessage (mkP2PMessage (peer_id_to_base58 <$> source) data)])
  | MdnsDiscovered peers =>
      after_search o (foldl (fun d '(peer, addr) => add_mdns_peer addr peer d) d peers) [] []
  | ClosestPeers (Ok peers) addresses => Ret (foldl (add_closest addresses) d peers, [])
  | ClosestPeers (Err _) _ => Ret (d, [])
  | OtherEvent => Ret (d, [])
  | ChannelClosed => Ret (d, [])
  | Command c => handle_command o c d
  end.

(** [P2PServer::start] and the states the loop goes through *)
Definition start_server (o : Oracle) (d : DiscoveryStatus) : outcome (DiscoveryStatus * list output) :=
  search o None d.

Inductive served (c : P2PConfig) (known : PeerList) : DiscoveryStatus -> Prop :=
| served_start o d l : oracle_ok o ->
    start_server o (DiscoveryStatus_new c known) = Ret (d, l) -> served c known d
| served_step o i d d' l : served c known d -> oracle_ok o ->
    loop_step o i d = Ret (d', l) -> served c known d'.

(** ** Searching *)

Definition found_of (d : DiscoveryStatus) (t : ConnectionType) : PeerList :=
  match t with
  | Manual => found_manual_peers d
  | MDns => found_mdns_peers d
  | Kademlia => found_kademlia_peers d
  | _ => PeerList_default
  end.

(** A peer that a search may dial: found by a method that is enabled and below
    its limit, neither connected nor cooling down *)
Definition candidate (o : Oracle) (d : DiscoveryStatus) (t : ConnectionType) (a : Multiaddr) (i : PeerInfo) : Prop :=
  available d t = true /\ addr_to_peer (found_of d t) !! a = Some i /\ usable (clock o) d a.

(** What a search after [skip] does *)
Definition search_result (o : Oracle) (skip : option ConnectionType) (d d' : DiscoveryStatus) (l : list output) : Prop :=
  (exists t a i, full d = false /\ candidate o d t a i /\ conn_lt (default CNone skip) t = true /\
     (forall t' a' i', conn_lt (default CNone skip) t' = true -> conn_lt t' t = true -> ~ candidate o d t' a' i') /\
     d' = picked a (peer_id i) t d /\ l = [Dial a]) \/
  (d' = d /\ (l = [] \/ l = [GetClosestPeers]) /\
   (full d = true \/ forall t a i, conn_lt (default CNone skip) t = true -> ~ candidate o d t a i)).

(** One method: it dials, or it has no candidate. *)
Lemma method_step o d t it found :
  it (addr_to_peer found) ≡ₚ map_to_list (addr_to_peer found) -> found = found_of d t ->
  available d t = true ->
  match next_unused (clock o) t (it (get_all_info found)) d with
  | (Some (a, i), d') => candidate o d t a i /\ d' = picked a (peer_id i) t d
  | (None, d') => d' = d /\ forall a i, ~ candidate o d t a i
  end.
Proof.
  intros Hit -> Hav. pose proof (next_unused_spec (clock o) t (it (get_all_info (found_of d t))) d) as Hn.
  destruct (next_unused _ _ _ _) as [[[a i]|] d'].
  - destruct Hn as (Hin & Hu & ->). split; [|done]. split; [done|]. split; [|done].
    unfold get_all_info in Hin. rewrite Hit in Hin. by apply elem_of_map_to_list.
  - destruct Hn as [Hall ->]. split; [done|]. intros a i (_ & Hf & Hu).
    rewrite Forall_forall in Hall. apply (Hall (a, i)); [|done].
    unfold get_all_info. rewrite Hit. by apply elem_of_map_to_list.
Qed.

Lemma conn_lt_spec a b : conn_lt a b = true <-> (discriminant a < discriminant b)%Z.
Proof. apply Z.ltb_lt. Qed.

(** Falling through a method that has no candidate *)
Lemma search_result_next o skip t d d' l :
  full d = false -> available d t = true -> conn_lt (default CNone skip) t = true ->
  (forall t', conn_lt (default CNone skip) t' = true -> conn_lt t' t = true -> available d t' = false) ->
  (forall a i, ~ candidate o d t a i) ->
  search_result o (Some t) d d' l -> search_result o skip d d' l.
Proof.
  intros Hfull Hav Hlt Hbefore Hnone Hres.
  assert (forall t' a i, conn_lt (default CNone skip) t' = true -> conn_lt t t' = false -> ~ candidate o d t' a i) as Hup.
  { intros t' a i H1 H2 Hc. destruct (decide (t' = t)) as [->|Hne]; [by eapply Hnone|].
    destruct Hc as (Hav' & _). rewrite Hbefore in Hav'; [done..|]. unfold conn_lt in *.
    destruct t, t'; cbn in *; done. }
  destruct Hres as [(t1 & a & i & _ & Hc & Hlt1 & Hmin & -> & ->)|(-> & Hl & Hno)].
  - left. exists t1, a, i. split; [done|]. split; [done|]. cbn in Hlt1.
    split; [rewrite conn_lt_spec in *; lia|]. split; [|done]. intros t' a' i' H1 H2.
    destruct (conn_lt t t') eqn:E; [by apply Hmin|by apply Hup].
  - right. split; [done|]. split; [done|]. right. destruct Hno as [?|Hno]; [congruence|].
    intros t' a i H1. destruct (conn_lt t t') eqn:E; [by apply Hno|by apply Hup].
Qed.

Lemma search_result_dial o skip t d a i :
  full d = false -> conn_lt (default CNone skip) t = true ->
  (forall t', conn_lt (default CNone skip) t' = true -> conn_lt t' t = true -> available d t' = false) ->
  candidate o d t a i -> search_result o skip d (picked a (peer_id i) t d) [Dial a].
Proof.
  intros Hfull Hlt Hbefore Hc. left. exists t, a, i. split_and!; try done.
  intros t' a' i' H1 H2 (Hav' & _). by rewrite Hbefore in Hav'.
Qed.

Definition tries (t : ConnectionType) : nat :=
  match t with CNone => 4 | Manual => 3 | MDns => 2 | CChain | Kademlia => 1 end.

(** A search always returns, and it does what it should. *)
Lemma search_new_peer_spec o fuel skip d :
  oracle_ok o -> tries (default CNone skip) <= fuel ->
  exists d' l, search_new_peer fuel o skip d = Ret (d', l) /\ search_result o skip d d' l.
Proof.
  intros Ho. revert skip. induction fuel as [|fuel IH]; intros skip Hf.
  { destruct (default CNone skip); cbn in Hf; lia. }
  cbn [search_new_peer]. pose proof (method_spec d skip) as Hm.
  destruct (get_current_discovery_method d skip) eqn:Em.
  - exists d, []. split; [done|]. right. split; [done|]. split; [by left|].
    destruct Hm as [?|Hno]; [by left|]. right. intros t a i Hlt (Hav & _). by rewrite Hno in Hav.
  - destruct Hm as (Hfull & Hav & Hlt & Hbefore).
    pose proof (method_step o d Manual (orders o Manual) _ (Ho _ _) eq_refl Hav) as Hs.
    unfold get_next_manual_peer. cbn [found_of] in Hs. destruct (next_unused _ _ _ _) as [[[a i]|] d1].
    + destruct Hs as [Hc ->]. eexists _, _. split; [done|]. by eapply search_result_dial.
    + destruct Hs as [-> Hnone]. destruct (IH (Some Manual)) as (d' & l & -> & Hr).
      { destruct (default CNone skip); cbn in *; try done; lia. }
      exists d', l. split; [done|]. by eapply search_result_next.
  - destruct Hm as (Hfull & Hav & Hlt & Hbefore).
    pose proof (method_step o d MDns (orders o MDns) _ (Ho _ _) eq_refl Hav) as Hs.
    unfold get_next_mdns_peer. cbn [found_of] in Hs. destruct (next_unused _ _ _ _) as [[[a i]|] d1].
    + destruct Hs as [Hc ->]. eexists _, _. split; [done|]. by eapply search_result_dial.
    + destruct Hs as [-> Hnone]. destruct (IH (Some MDns)) as (d' & l & -> & Hr).
      { destruct (default CNone skip); cbn in *; try done; lia. }
      exists d', l. split; [done|]. by eapply search_result_next.
  - by destruct (method_not_chain d skip).
  - destruct Hm as (Hfull & Hav & Hlt & Hbefore).
    pose proof (method_step o d Kademlia (orders o Kademlia) _ (Ho _ _) eq_refl Hav) as Hs.
    unfold get_next_kademlia_peer. cbn [found_of] in Hs. destruct (next_unused _ _ _ _) as [[[a i]|] d1].
    + destruct Hs as [Hc ->]. eexists _, _. split; [done|]. by eapply search_result_dial.
    + destruct Hs as [-> Hnone]. exists d, [GetClosestPeers]. split; [done|]. right. split; [done|].
      split; [by right|]. right. intros t a i H1 Hc. destruct (decide (t = Kademlia)) as [->|Hne]; [by eapply Hnone|].
      destruct Hc as (Hav' & _). rewrite Hbefore in Hav'; [done..|]. by destruct t.
Qed.

(** A search always ends after at most four methods.  It dials one peer at
    most: of the first discovery method, in the order manual, mDNS, Kademlia,
    that is enabled, below its limit and has a peer that is neither connected nor
    cooling down; it marks this peer as connected and changes nothing else.  It
    dials none only if the node has its peers or no method has a candidate. *)
Theorem search_correct o d :
  oracle_ok o -> exists d' l, search o None d = Ret (d', l) /\ search_result o None d d' l.
Proof. intros Ho. by apply search_new_peer_spec. Qed.

(** ** Limits *)

(** A change that starts no connection: the configuration and the manual peers
    stay, and no method has more connected peers than before. *)
Definition kept (d d' : DiscoveryStatus) : Prop :=
  p2p_config d' = p2p_config d /\ found_manual_peers d' = found_manual_peers d /\
  forall t, get_connected_len_by_type d' t <= get_connected_len_by_type d t.

#[export] Instance kept_preorder : PreOrder kept.
Proof.
  split; [done|]. intros d1 d2 d3 (E1 & E2 & E3) (F1 & F2 & F3).
  split; [congruence|]. split; [congruence|]. intros t. etransitivity; [apply F3|apply E3].
Qed.

(** Nothing but the connected peers' addresses is counted. *)
Lemma kept_same d d' :
  p2p_config d' = p2p_config d -> found_manual_peers d' = found_manual_peers d ->
  connected_peers d' = connected_peers d -> kept d d'.
Proof. intros E1 E2 E3. split_and!; try done. intros t. unfold get_connected_len_by_type. by rewrite E3. Qed.
Lemma kept_delete d d' a :
  p2p_config d' = p2p_config d -> found_manual_peers d' = found_manual_peers d ->
  addr_to_peer (connected_peers d') = delete a (addr_to_peer (connected_peers d)) -> kept d d'.
Proof.
  intros E1 E2 E3. split_and!; try done. intros t. unfold get_connected_len_by_type, get_all_info.
  rewrite E3. apply count_delete_le.
Qed.

Lemma kept_forget_found t f d : kept d (forget_found t f d).
Proof. by destruct t; apply kept_same. Qed.

Lemma kept_remove_addr a d : kept d (remove_connected_by_addr a d).
Proof.
  unfold remove_connected_by_addr. set (d1 := match get_peer_by_addr _ _ with Some _ => _ | None => _ end).
  transitivity d1; [|by apply (kept_delete _ _ a)].
  unfold d1. destruct (get_peer_by_addr _ _); [apply kept_forget_found|reflexivity].
Qed.
Lemma kept_remove_id id d : kept d (remove_connected_by_id id d).
Proof.
  unfold remove_connected_by_id. set (d1 := match get_peer_by_id _ _ with Some _ => _ | None => _ end).
  transitivity d1.
  - unfold d1. destruct (get_peer_by_id _ _) as [[a i]|]; [apply kept_forget_found|reflexivity].
  - destruct (peer_to_addr (connected_peers d1) !! id) as [a|] eqn:E.
    + apply (kept_delete _ _ a); [done..|]. cbn. by rewrite E.
    + split_and!; try done. intros t. unfold get_connected_len_by_type. cbn. by rewrite E.
Qed.
Lemma kept_remove id a d : kept d (remove_connected_peer id a d).
Proof.
  unfold remove_connected_peer. transitivity (match id with Some id => remove_connected_by_id id d | None => d end).
  - destruct id; [apply kept_remove_id|reflexivity].
  - destruct a; [apply kept_remove_addr|reflexivity].
Qed.

Lemma kept_connected a id d d' : add_connected_peer a id d = Ret d' -> kept d d'.
Proof.
  unfold add_connected_peer, set_peer_id. intros Hr. apply outcome_bind_ret in Hr as (l & Hl & Hr).
  apply outcome_bind_ret in Hl as (i & Hi%unwrap_ret & Hl). inv_run. split_and!; try done.
  intros t. unfold get_connected_len_by_type, get_all_info. cbn.
  rewrite <- insert_delete_eq, count_insert_new by apply lookup_delete_eq.
  by rewrite (count_delete _ _ _ _ Hi).
Qed.

Lemma kept_foldl {A} (f : DiscoveryStatus -> A -> DiscoveryStatus) l d :
  (forall d x, kept d (f d x)) -> kept d (foldl f d l).
Proof.
  intros Hf. revert d. induction l as [|x l IH]; intros d; cbn; [reflexivity|].
  transitivity (f d x); [apply Hf|apply IH].
Qed.
Lemma kept_fail now d a : kept d (fail_addr now d a).
Proof. transitivity (remove_connected_peer None (Some a) d); [apply kept_remove|by apply kept_same]. Qed.
Lemma kept_closest addresses d p : kept d (add_closest addresses d p).
Proof. unfold add_closest. destruct (addresses p); [reflexivity|by apply kept_same]. Qed.

(** A turn of the loop keeps what it has, and then searches or does not. *)
Definition turn (o : Oracle) (d d' : DiscoveryStatus) (l : list output) : Prop :=
  exists d1 before l1 after, kept d d1 /\ l = before ++ l1 ++ after /\
    ((l1 = [] /\ d' = d1) \/ search o None d1 = Ret (d', l1)) /\ forall a, Dial a ∉ before ++ after.

Lemma turn_search o d d1 before after d' l :
  kept d d1 -> (forall a, Dial a ∉ before ++ after) ->
  after_search o d1 before after = Ret (d', l) -> turn o d d' l.
Proof.
  intros Hk Hn Hr. unfold after_search in Hr. apply outcome_bind_ret in Hr as ([d2 l1] & Hs & Hr). inv_run.
  exists d1, before, l1, after. split; [done|]. split; [done|]. split; [by right|done].
Qed.
Lemma turn_quiet o d d' l : kept d d' -> (forall a, Dial a ∉ l) -> turn o d d' l.
Proof.
  intros Hk Hn. exists d', l, [], []. split; [done|]. split; [by rewrite app_nil_r|].
  split; [by left|]. by rewrite app_nil_r.
Qed.

Ltac by_search Hr := refine (turn_search _ _ _ _ _ _ _ _ _ Hr); [|intros ?; set_solver].

Lemma loop_step_turn o i d d' l : loop_step o i d = Ret (d', l) -> turn o d d' l.
Proof.
  intros Hr. destruct i as [| |peer addr|peer|failed|src data|peers|[peers|e] addresses| | |c]; cbn [loop_step] in Hr.
  - by_search Hr. reflexivity.
  - inv_run. apply turn_quiet; [reflexivity|set_solver].
  - apply outcome_bind_ret in Hr as (d1 & Hd%kept_connected & Hr).
    by_search Hr. exact Hd.
  - by_search Hr. apply kept_remove.
  - by_search Hr. destruct failed; [|reflexivity].
    apply kept_foldl. intros. apply kept_fail.
  - inv_run. apply turn_quiet; [reflexivity|set_solver].
  - by_search Hr. apply kept_foldl. intros d0 [p a]. by apply kept_same.
  - inv_run. apply turn_quiet; [|set_solver]. apply kept_foldl. apply kept_closest.
  - inv_run. apply turn_quiet; [reflexivity|set_solver].
  - inv_run. apply turn_quiet; [reflexivity|set_solver].
  - inv_run. apply turn_quiet; [reflexivity|set_solver].
  - destruct c as [data|p data|addr|p|]; cbn [handle_command] in Hr.
    + inv_run. apply turn_quiet; [reflexivity|set_solver].
    + done.
    + destruct (multiaddr_from_str addr) as [a|]; [|inv_run; apply turn_quiet; [reflexivity|set_solver]].
      by_search Hr. by apply kept_same.
    + destruct (peer_id_from_str p) as [id|]; [|inv_run; apply turn_quiet; [reflexivity|set_solver]].
      by_search Hr. apply kept_remove.
    + by_search Hr. reflexivity.
Qed.

Lemma within_kept d d' : kept d d' -> within_limits d -> within_limits d'.
Proof. intros (E1 & _ & E3) Hw t. specialize (Hw t). specialize (E3 t). rewrite E1. lia. Qed.

Lemma search_frame o d d' l :
  oracle_ok o -> search o None d = Ret (d', l) -> search_result o None d d' l.
Proof.
  intros Ho Hs. destruct (search_new_peer_spec o 4 None d Ho) as (d1 & l1 & E & Hr); [done|].
  unfold search in Hs. congruence.
Qed.

Lemma within_search o d d' l :
  oracle_ok o -> search o None d = Ret (d', l) -> within_limits d -> within_limits d'.
Proof.
  intros Ho Hs Hw. apply search_frame in Hs as [(t & a & i & _ & (Hav & _ & Hu & _) & _ & _ & -> & _)|(-> & _)]; [|done..].
  by apply picked_within.
Qed.

(** C32: However long the server runs, and whatever the swarm reports and the node
    commands, no discovery method ever has more connected peers, dialing ones
    included, than its configured maximum. *)
Theorem connection_limits_kept c known d : served c known d -> within_limits d.
Proof.
  induction 1 as [o d l Ho Hs|o i d d' l _ IH Ho Hs].
  - eapply within_search; [done|exact Hs|]. intros t. unfold get_connected_len_by_type. cbn.
    rewrite map_to_list_empty. cbn. apply Z.mod_pos_bound. lia.
  - apply loop_step_turn in Hs as (d1 & before & l1 & after & Hk & _ & [[_ ->]|Hs] & _).
    + by eapply within_kept.
    + eapply within_search; [done|exact Hs|]. by eapply within_kept.
Qed.

(** A turn of the loop panics exactly on a unicast command and on a
    connection, dialed by this node, to an address that it has not marked as
    connected. *)
Theorem loop_step_panics o i d :
  oracle_ok o ->
  ((exists e, loop_step o i d = Panic e) <->
   (exists p data, i = Command (Unicast p data)) \/
   (exists p a, i = DialerConnectionEstablished p a /\ addr_to_peer (connected_peers d) !! a = None)).
Proof.
  intros Ho. assert (forall d b a e, after_search o d b a <> Panic e) as Hns.
  { intros d0 b a e. unfold after_search. unfold search.
    destruct (search_new_peer_spec o 4 None d0 Ho) as (d1 & l & -> & _); done. }
  split.
  - intros [e He]. destruct i as [| |peer addr|peer|failed|src data|peers|[peers|err] addresses| | |c];
      cbn [loop_step] in He; try done; try (by exfalso; eapply Hns).
    + right. exists peer, addr. split; [done|]. destruct (addr_to_peer (connected_peers d) !! addr) as [inf|] eqn:E; [|done].
      assert (exists d1, add_connected_peer addr peer d = Ret d1) as [d1 E1]
        by (unfold add_connected_peer, set_peer_id; rewrite E; by eexists).
      rewrite (outcome_bind_eq _ _ _ E1) in He. by exfalso; eapply Hns.
    + destruct c as [data|p data|addr|p|]; cbn [handle_command] in He; [done|left; eauto|..].
      * destruct (multiaddr_from_str addr); [by exfalso; eapply Hns|done].
      * destruct (peer_id_from_str p); [by exfalso; eapply Hns|done].
      * by exfalso; eapply Hns.
  - intros [(p & data & ->)|(p & a & -> & Ha)]; [by eexists|].
    cbn [loop_step]. unfold add_connected_peer, set_peer_id. rewrite Ha. by eexists.
Qed.

(** Without known peers, a server never finds a manual one. *)
Lemma served_manual c known d : served c known d -> p2p_config d = c /\ found_manual_peers d = known.
Proof.
  assert (forall o d d' l, oracle_ok o -> search o None d = Ret (d', l) ->
    p2p_config d' = p2p_config d /\ found_manual_peers d' = found_manual_peers d) as Hsearch.
  { intros o d0 d' l Ho Hs. by apply search_frame in Hs as [(t & a & i & _ & _ & _ & _ & -> & _)|(-> & _)]. }
  induction 1 as [o d l Ho Hs|o i d d' l _ [IH1 IH2] Ho Hs].
  - by apply Hsearch in Hs.
  - apply loop_step_turn in Hs as (d1 & before & l1 & after & (E1 & E2 & _) & _ & [[_ ->]|Hs] & _).
    + split; congruence.
    + apply Hsearch in Hs as [F1 F2]; [|done]. split; congruence.
Qed.

(** A peer added by command is not a manual peer: a server that was started
    without known peers, with mDNS and Kademlia switched off, never dials
    anybody, whatever peers it is told to add. *)
Theorem added_peers_never_dialed c d o i d' l a :
  served c PeerList_default d -> disable_mdns c = true -> disable_kademlia_peers c = true ->
  oracle_ok o -> loop_step o i d = Ret (d', l) -> Dial a ∉ l.
Proof.
  intros [Hc Hm]%served_manual Hd Hk Ho Hs.
  apply loop_step_turn in Hs as (d1 & before & l1 & after & (E1 & E2 & _) & -> & Hs & Hn).
  rewrite !elem_of_app. specialize (Hn a). rewrite elem_of_app in Hn.
  enough (Dial a ∉ l1) by tauto. destruct Hs as [[-> _]|Hs]; [set_solver|].
  apply search_frame in Hs as [(t & a' & inf & _ & (Hav & Hf & _) & _)|(_ & [-> | ->] & _)]; [|set_solver..|done].
  exfalso. unfold available, enabled in Hav. rewrite E1, Hc in Hav. destruct t; cbn in Hav; try done.
  - cbn in Hf. rewrite E2, Hm in Hf. cbn in Hf. by rewrite lookup_empty in Hf.
  - by rewrite Hd in Hav.
  - by rewrite Hk in Hav.
Qed.

End server.

(** ** A concrete network *)

Section witnesses.
Import RefPeers.

Definition sorted_oracle : Oracle := mkOracle (fun _ m => map_to_list m) (fun _ => 0%Z).
Lemma sorted_oracle_ok : oracle_ok sorted_oracle.
Proof. intros t m. reflexivity. Qed.

(** One outgoing peer is allowed; two are known. *)
Definition one_peer : P2PConfig := mkP2PConfig "/ip4" ["a"; "b"]%string true 0 0 1 false 10 0 true 0.
Definition two_known : PeerList :=
  mkPeerList {[maddr "a" := mkPeerInfo None Manual; maddr "b" := mkPeerInfo None Manual]} ∅.

(** A run of the loop over a list of inputs *)
Fixpoint loop_run (l : list input) (d : DiscoveryStatus) : outcome (DiscoveryStatus * list output) :=
  match l with
  | [] => Ret (d, [])
  | i :: l =>
      '(d, o1) ← loop_step sorted_oracle i d;
      '(d, o2) ← loop_run l d;
      mret (d, o1 ++ o2)
  end.
Definition server_run (c : P2PConfig) (known : PeerList) (l : list input) : outcome (DiscoveryStatus * list output) :=
  '(d, o1) ← start_server sorted_oracle (DiscoveryStatus_new c known);
  '(d, o2) ← loop_run l d;
  mret (d, o1 ++ o2).

Lemma loop_run_served c known l d d' o :
  served c known d -> loop_run l d = Ret (d', o) -> served c known d'.
Proof.
  revert d o. induction l as [|i l IH]; intros d o Hd Hr; cbn [loop_run] in Hr; [by inv_run|].
  apply outcome_bind_ret in Hr as ([d1 o1] & H1 & Hr). apply outcome_bind_ret in Hr as ([d2 o2] & H2 & Hr). inv_run.
  eapply IH; [|exact H2]. eapply served_step; [done|apply sorted_oracle_ok|exact H1].
Qed.
Lemma server_run_served c known l d o : server_run c known l = Ret (d, o) -> served c known d.
Proof.
  unfold server_run. intros Hr.
  apply outcome_bind_ret in Hr as ([d1 o1] & H1 & Hr). apply outcome_bind_ret in Hr as ([d2 o2] & H2 & Hr). inv_run.
  eapply loop_run_served; [|exact H2]. eapply served_start; [apply sorted_oracle_ok|exact H1].
Qed.

Definition final (c : P2PConfig) (known : PeerList) (l : list input) : DiscoveryStatus :=
  match server_run c known l with Ret (d, _) => d | Panic _ => DiscoveryStatus_new c known end.

(** The limit on outgoing peers is not kept: connections that are still being
    dialed are not counted, so with a limit of one a server can end up with two
    established connections. *)
Theorem out_peers_exceeded :
  exists c known d, served c known d /\ out_peers c = 1%Z /\ peers_len (connected_peers d) = 2.
Proof.
  set (h := [Tick; DialerConnectionEstablished (pid "p") (maddr "a");
             DialerConnectionEstablished (pid "q") (maddr "b")]).
  exists one_peer, two_known, (final one_peer two_known h). split; [|vm_compute; split; reflexivity].
  eapply (server_run_served one_peer two_known h). vm_compute. reflexivity.
Qed.

Lemma search_correct_witness :
  exists d' l, search sorted_oracle None (DiscoveryStatus_new one_peer two_known) = Ret (d', l) /\
    search_result sorted_oracle None (DiscoveryStatus_new one_peer two_known) d' l.
Proof. apply (search_correct sorted_oracle). exact sorted_oracle_ok. Defined.

Lemma connection_limits_kept_witness : within_limits (final one_peer two_known [Tick; Tick]).
Proof.
  apply (connection_limits_kept one_peer two_known). eapply (server_run_served one_peer two_known [Tick; Tick]).
  vm_compute. reflexivity.
Defined.

Lemma loop_step_panics_witness :
  exists e, loop_step sorted_oracle (DialerConnectionEstablished (pid "p") (maddr "z"))
    (DiscoveryStatus_new one_peer two_known) = Panic e.
Proof.
  apply (loop_step_panics sorted_oracle); [exact sorted_oracle_ok|]. right. eexists _, _. split; reflexivity.
Defined.

Lemma added_peers_never_dialed_witness :
  exists d l, loop_step sorted_oracle Tick (final one_peer PeerList_default [Command (AddPeer "a")]) = Ret (d, l) /\
    Dial (maddr "a") ∉ l.
Proof.
  set (d0 := final one_peer PeerList_default [Command (AddPeer "a")]).
  destruct (search_new_peer_spec sorted_oracle 4 None d0 sorted_oracle_ok) as (d & l & E & _); [cbn; lia|].
  assert (loop_step sorted_oracle Tick d0 = Ret (d, l)) as Hs.
  { cbn [loop_step]. unfold after_search, search. rewrite (outcome_bind_eq _ _ _ E). cbn. by rewrite app_nil_r. }
  exists d, l. split; [exact Hs|].
  apply (added_peers_never_dialed one_peer d0 sorted_oracle Tick d l (maddr "a")).
  - eapply (server_run_served one_peer PeerList_default [Command (AddPeer "a")]). vm_compute. reflexivity.
  - reflexivity.
  - reflexivity.
  - exact sorted_oracle_ok.
  - exact Hs.
Defined.

End witnesses.
