(* ===== verification/Gossip.v ===== *)
(** * The protocols of the peer-to-peer server

    Models [src/p2p/src/libp2p/behaviour.rs], [transport.rs] and the construction
    of the server in [mod.rs]: the identity, the gossip protocol with the ids of
    its messages, the discovery protocols, and the address it listens on.  Then
    what becomes of the messages that the loop ([P2PServer]) publishes.

    The [libp2p] crate is a parameter: the constructors of its protocols, which
    may fail, and the cache with which its gossip protocol recognizes
    duplicates. *)

From stdpp Require Import pretty.
From S2P Require Import Prelude Sdk PeerList Crypto Config Discovery P2PServer.

(** [P2PAdapterError] *)
Inductive P2PAdapterError :=
| TransportError (err : string)
| GossipError (err : string)
| GossipSubscription (err : string)
| IoError (err : string)
| MultiAddrError (err : string)
| DialError (err : string).
#[export] Instance P2PAdapterError_error : Error P2PAdapterError := fun e =>
  match e with
  | TransportError e => "libp2p transport error: " +:+ e
  | GossipError e => "libp2p gossip error " +:+ e
  | GossipSubscription e => "libp2p gossip subscription error " +:+ e
  | IoError e => "libp2p io error " +:+ e
  | MultiAddrError e => "libp2p multi addr error: " +:+ e
  | DialError e => "libp2p dial error: " +:+ e
  end%string.

Definition p2p_result (T : Type) : Type := result T P2PAdapterError.
#[export] Instance p2p_bind : MBind p2p_result := fun A B f m => match m with Ok x => f x | Err e => Err e end.
#[export] Instance p2p_ret : MRet p2p_result := fun A x => Ok x.
Definition map_err {T E} (f : E -> P2PAdapterError) (r : result T E) : p2p_result T :=
  match r with Ok x => Ok x | Err e => Err (f e) end.

(** ** Configuration *)

Inductive ValidationMode := Strict | Permissive | Anonymous | NoValidation.
Inductive KademliaBucketInserts := OnConnected | ManualInserts.

(** What the configuration of the gossip protocol sets, its other settings being
    the defaults *)
Record GossipsubConfig := mkGossipsubConfig {
  heartbeat_interval : Z;
  validation_mode : ValidationMode;
  message_id_fn : bytes -> string;
}.
Record KademliaConfig := mkKademliaConfig { disjoint_query_paths : bool; kbucket_inserts : KademliaBucketInserts }.
Record TransportConfig := mkTransportConfig { nodelay : bool; transport_timeout : Z }.

(** ** [libp2p] *)

(** [duplicate_cache_time], in seconds: messages with an id that was seen within
    this time are duplicates, and the protocol does not publish them. *)
Definition DUPLICATE_CACHE_TIME : Z := 60.

Class Libp2pStack `{LP : Libp2p} := {
  Keypair : Type;
  public_id : Keypair -> PeerId;
  default_hash : bytes -> Z;
  Gossipsub : Type;
  Mdns : Type;
  Kademlia : Type;
  Transport : Type;
  gossipsub_new : Keypair -> GossipsubConfig -> result Gossipsub string;
  subscribe : string -> Gossipsub -> result Gossipsub string;
  mdns_new : result Mdns string;
  kademlia_new : PeerId -> KademliaConfig -> Kademlia;
  transport_new : Keypair -> TransportConfig -> option Transport;
  listen_on : Multiaddr -> Transport -> result unit string;
  (** the topics it is subscribed to, the function for the ids of its messages,
      and when it last saw an id *)
  topics : Gossipsub -> list string;
  id_fn : Gossipsub -> bytes -> string;
  seen_at : Gossipsub -> string -> option Z;
  publish : string -> bytes -> Z -> Gossipsub -> result string string * Gossipsub;
  gossipsub_fresh k c g : gossipsub_new k c = Ok g -> topics g = [] /\ id_fn g = message_id_fn c;
  subscribe_topics t g g' : subscribe t g = Ok g' -> topics g' = topics g ++ [t] /\ id_fn g' = id_fn g;
  publish_seen t d now g id g' : publish t d now g = (Ok id, g') ->
    id = id_fn g d /\ id_fn g' = id_fn g /\ seen_at g' id = Some now;
  publish_duplicate t d now g t0 : seen_at g (id_fn g d) = Some t0 -> (now < t0 + DUPLICATE_CACHE_TIME)%Z ->
    exists e, publish t d now g = (Err e, g);
}.

Section server.
Context `{LP : Libp2p} `{LS : !Libp2pStack}.

(** ** [SedaBehaviour] *)

Record SedaBehaviour := mkBehaviour { gossipsub : Gossipsub; mdns : Mdns; kademlia : Kademlia }.

(** The id of a message is the hash of its data. *)
Definition create_message_id (data : bytes) : string := pretty (default_hash data).

Definition gossipsub_config : GossipsubConfig := mkGossipsubConfig 5 Strict create_message_id.
Definition kademlia_config : KademliaConfig := mkKademliaConfig true ManualInserts.

Definition SedaBehaviour_new (key_pair : Keypair) : p2p_result SedaBehaviour :=
  g ← map_err GossipError (gossipsub_new key_pair gossipsub_config);
  g ← map_err GossipSubscription (subscribe GOSSIP_TOPIC g);
  let local_peer_id := public_id key_pair in
  let k := kademlia_new local_peer_id kademlia_config in
  m ← map_err IoError mdns_new;
  mret (mkBehaviour g m k).

(** ** The transport and the server *)

(** [.into_authentic(..).unwrap()] *)
Definition build_tcp_transport (key_pair : Keypair) : outcome Transport :=
  unwrap "called `Result::unwrap()` on an `Err` value" (transport_new key_pair (mkTransportConfig true 20)).

Record P2PServer := mkServer {
  swarm : Transport * SedaBehaviour * PeerId;
  discovery_status : DiscoveryStatus;
  local_peer_id : PeerId;
}.

(** [local_key] is the key pair that [generate_ed25519] returned. *)
Definition P2PServer_new (local_key : Keypair) (d : DiscoveryStatus) (p2p_server_address : string)
    : outcome (p2p_result P2PServer) :=
  let peer := public_id local_key in
  transport ← build_tcp_transport local_key;
  mret (b ← SedaBehaviour_new local_key;
        addr ← match multiaddr_from_str p2p_server_address with
               | Some a => Ok a
               | None => Err (MultiAddrError "invalid multiaddr")
               end : p2p_result Multiaddr;
        _ ← map_err TransportError (listen_on addr transport);
        mret (mkServer (transport, b, peer) d peer)).

(** What the loop asks of the gossip protocol; an error is only logged *)
Definition publish_output (now : Z) (g : Gossipsub) (o : output) : Gossipsub :=
  match o with Publish topic data => (publish topic data now g).2 | _ => g end.
Definition published (now : Z) (g : Gossipsub) (o : output) : Prop :=
  match o with Publish topic data => exists id, (publish topic data now g).1 = Ok id | _ => False end.

(** ** Correctness *)

Lemma p2p_bind_ok {A B} (m : p2p_result A) (f : A -> p2p_result B) y :
  m ≫= f = Ok y <-> exists x, m = Ok x /\ f x = Ok y.
Proof. destruct m as [x|e]; cbn; split; [eauto|by intros (? & [= <-] & ?)|done|by intros (? & ? & _)]. Qed.
Lemma map_err_ok {T E} (f : E -> P2PAdapterError) (r : result T E) x : map_err f r = Ok x <-> r = Ok x.
Proof. destruct r; cbn; split; congruence. Qed.

(** A behaviour that was built takes part in exactly one topic, and identifies
    messages by their data alone. *)
Lemma behaviour_new_ok k b :
  SedaBehaviour_new k = Ok b -> topics (gossipsub b) = [GOSSIP_TOPIC] /\ id_fn (gossipsub b) = create_message_id.
Proof.
  intros (g & Hg%map_err_ok & (g' & Hs%map_err_ok & (m & _ & [= <-])%p2p_bind_ok)%p2p_bind_ok)%p2p_bind_ok. cbn.
  apply gossipsub_fresh in Hg as [Ht Hi]. apply subscribe_topics in Hs as [-> ->]. by rewrite Ht, Hi.
Qed.

(** A server that was built: it has the identity of its key, it listens on the
    configured address, its gossip is on the one topic; its discovery status is
    the one it was given, so that the loop starts as [P2PServer.served] says. *)
Theorem server_new_ok k d address s :
  P2PServer_new k d address = Ret (Ok s) ->
  exists addr transport, multiaddr_from_str address = Some addr /\ listen_on addr transport = Ok tt /\
    local_peer_id s = public_id k /\ (swarm s).2 = local_peer_id s /\ discovery_status s = d /\
    topics (gossipsub (swarm s).1.2) = [GOSSIP_TOPIC] /\ id_fn (gossipsub (swarm s).1.2) = create_message_id.
Proof.
  unfold P2PServer_new, build_tcp_transport. destruct (transport_new k _) as [tr|]; [|done]. cbn [unwrap mbind outcome_bind].
  intros [= Hr].
  apply p2p_bind_ok in Hr as (b & Hb%behaviour_new_ok & (addr & Ha & ([] & Hl%map_err_ok & [= <-])%p2p_bind_ok)%p2p_bind_ok).
  exists addr, tr. destruct (multiaddr_from_str address); [|done]. injection Ha as ->. cbn. by destruct Hb.
Qed.

(** The message that a node broadcasts again within the time of the cache goes
    nowhere: the command is taken, the loop asks the protocol to publish, and
    the protocol refuses, since the same data has the same id. *)
Theorem rebroadcast_suppressed o data d now1 now2 g1 id :
  id_fn g1 = create_message_id -> (publish GOSSIP_TOPIC data now1 g1).1 = Ok id -> (now2 < now1 + DUPLICATE_CACHE_TIME)%Z ->
  exists out g2, loop_step o (Command (Broadcast data)) d = Ret (d, [out]) /\
    published now1 g1 out /\ g2 = publish_output now1 g1 out /\
    ~ published now2 g2 out /\ publish_output now2 g2 out = g2.
Proof.
  intros Hid Hok Hnow. destruct (publish GOSSIP_TOPIC data now1 g1) as [r g2] eqn:E. cbn in Hok. subst r.
  destruct (publish_seen _ _ _ _ _ _ E) as (-> & Hid2 & Hseen).
  destruct (publish_duplicate GOSSIP_TOPIC data now2 g2 now1) as [e He]; [by rewrite Hid2|done|].
  exists (Publish GOSSIP_TOPIC data), g2. split; [done|]. split; [cbn; rewrite E; eauto|]. split; [cbn; by rewrite E|].
  cbn. rewrite He. split; [by intros [? ?]|done].
Qed.

End server.

(** ** A concrete protocol *)

Module RefGossip.
Import RefPeers.

Record cache := mkCache { c_topics : list string; c_id : bytes -> string; c_seen : string -> option Z }.
Definition cached (c : cache) (id : string) (now : Z) : bool :=
  match c_seen c id with Some t => (now <? t + DUPLICATE_CACHE_TIME)%Z | None => false end.

#[export] Instance ref_stack : Libp2pStack.
Proof.
  refine {|
    Keypair := PeerId; public_id k := k; default_hash := le_val; Gossipsub := cache; Mdns := unit; Kademlia := PeerId;
    Transport := unit; gossipsub_new k c := Ok (mkCache [] (message_id_fn c) (fun _ => None));
    subscribe t g := Ok (mkCache (c_topics g ++ [t]) (c_id g) (c_seen g)); mdns_new := Ok tt; kademlia_new p _ := p;
    transport_new _ _ := Some tt; listen_on _ _ := Ok tt; topics := c_topics; id_fn := c_id; seen_at := c_seen;
    publish t d now g := if cached g (c_id g d) now then (Err "Duplicate"%string, g)
      else (Ok (c_id g d), mkCache (c_topics g) (c_id g) (fun i => if decide (i = c_id g d) then Some now else c_seen g i));
  |}.
  - by intros k c g [= <-].
  - by intros t g g' [= <-].
  - intros t d now g id g'. destruct (cached _ _ _); [done|]. intros [= <- <-]. cbn. by rewrite decide_True.
  - intros t d now g t0 Hs Hn. unfold cached. rewrite Hs. apply Z.ltb_lt in Hn. rewrite Hn. eauto.
Defined.

End RefGossip.

Section witnesses.
Import RefPeers RefGossip.

(** The message of a slot, and the same message in the next one, twelve seconds
    later *)
Definition quiet : Gossipsub := mkCache [GOSSIP_TOPIC] create_message_id (fun _ => None).
Lemma rebroadcast_suppressed_witness :
  exists out g2, loop_step sorted_oracle (Command (Broadcast [x01])) (DiscoveryStatus_new one_peer two_known) =
      Ret (DiscoveryStatus_new one_peer two_known, [out]) /\
    published 0 quiet out /\ g2 = publish_output 0 quiet out /\ ~ published 12 g2 out.
Proof.
  destruct (rebroadcast_suppressed sorted_oracle [x01] (DiscoveryStatus_new one_peer two_known) 0 12 quiet
    (create_message_id [x01])) as (out & g2 & H1 & H2 & H3 & H4 & _).
  - reflexivity.
  - reflexivity.
  - reflexivity.
  - exists out, g2. split; [exact H1|]. split; [exact H2|]. split; [exact H3|exact H4].
Defined.

End witnesses.
