(* ===== verification/Guest.v ===== *)
(** * The guest's view of the host

    The programs of [src/wasm] call the functions of [src/runtime/sdk/src/wasm].
    This file gives those functions an abstract semantics, without the linear
    memory and the JSON that carry the arguments, and proves that the functions
    of the SDK together with the host functions they import ([Imports])
    implement it.  The programs of the guest are modelled on top of it. *)

From stdpp Require Import pretty.
From S2P Require Import Prelude NearSdk Sdk Runtime Imports.

(** ** The abstract guest *)

Section guest.
Context `{BN : Bn254}.

(** What a running guest can observe and change: the two key-value memories, the
    results of the promises before it, the queue of promises it asks for, the
    node's key (to sign with) and the variables of its WASI environment *)
Record Guest := mkGuest {
  g_shared : gmap string bytes;
  g_private : gmap string bytes;
  g_results : list PromiseStatus;
  g_queue : list Promise;
  g_key : PrivateKey;
  g_env : gmap string string;
}.

Definition shared_memory_get (key : string) : M Guest bytes := gets (fun g => default [] (g_shared g !! key)).
Definition shared_memory_has (key : string) : M Guest bool := gets (fun g => bool_decide (is_Some (g_shared g !! key))).
Definition shared_memory_set (key : string) (value : bytes) : M Guest unit :=
  modify (fun g => mkGuest (<[key := value]> (g_shared g)) (g_private g) (g_results g) (g_queue g) (g_key g) (g_env g)).
Definition private_get (key : string) : M Guest bytes := gets (fun g => default [] (g_private g !! key)).
Definition private_set (key : string) (value : bytes) : M Guest unit :=
  modify (fun g => mkGuest (g_shared g) (<[key := value]> (g_private g)) (g_results g) (g_queue g) (g_key g) (g_env g)).

(** [Promise::result], [.start()] and [.then()] *)
Definition result_at (index : nat) : M Guest PromiseStatus :=
  g ← gets id; lift (unwrap "Could not find promise" (g_results g !! index)).
Definition enqueue (p : GuestPromise) : M Guest unit :=
  modify (fun g => mkGuest (g_shared g) (g_private g) (g_results g)
                     (g_queue g ++ [mkPromise (guest_action p) (guest_status p)]) (g_key g) (g_env g)).

(** The buffer of a signature has 64 bytes. *)
Definition sign (message : bytes) : M Guest Signature :=
  g ← gets id;
  s ← lift (unwrap "Bn254 error" (ecdsa_sign message (g_key g)));
  bs ← lift (unwrap "Bn254 error" (sig_to_uncompressed s));
  _ ← assert_ (bool_decide (length bs = 64)) "The result data length is not the same length for the value";
  mret s.
Definition verify (message : bytes) (s : Signature) (pk : PublicKey) : M Guest bool :=
  _ ← lift (unwrap "Signature should be valid" (sig_to_uncompressed s));
  _ ← lift (unwrap "Public Key should be valid" (pk_to_uncompressed pk));
  mret (ecdsa_verify message s pk).

(** [env.rs] *)
Definition env_var (name : string) : M Guest string :=
  g ← gets id; lift (unwrap ("Env '" +:+ name +:+ "' does not exist") (g_env g !! name)).
Definition get_oracle_contract_id : M Guest string := env_var "ORACLE_CONTRACT_ID".
Definition get_local_bn254_public_key : M Guest string := env_var "BN254_PUBLIC_KEY".
Definition get_local_ed25519_public_key : M Guest string := env_var "ED25519_PUBLIC_KEY".

(** ** Refinement *)

Context `{WP : WasmPointers} `{SJ : SerdeJson}.

(** The abstract guest that a host context stands for *)
Definition view (env : gmap string string) (c : VmContext) : Guest :=
  mkGuest (memory (shared_memory c)) (memory (memory_adapter c)) (status <$> queue (current_promise_queue c))
    (queue (promise_queue c)) (keypair_bn254_private c) env.

(** A function of the SDK implements an operation of the abstract guest, in the
    contexts where its buffers have [room]: whenever the operation returns, so
    does the function, with the same value; the new context stands for the new
    guest, and has a linear memory of the same size. *)
Definition implements (room : VmContext -> bytes -> Prop) {A} (f : host A) (op : M Guest A) : Prop :=
  forall env c mem x g', wasm_memory c = Some mem -> room c mem ->
    op (view env c) = Ret (x, g') ->
    exists c' mem', f c = Ret (Ok x, c') /\ view env c' = g' /\
      wasm_memory c' = Some mem' /\ length mem' = length mem.

(** *** The room that each function needs *)

Definition room_key (kp : nat) (key : string) (mem : bytes) : Prop :=
  valid_string key = true /\ placed mem kp (length (string_bytes key)).
Definition room_value (kp p : nat) (key : string) (value : bytes) (mem : bytes) : Prop :=
  room_key kp key mem /\ placed mem p (length value) /\
  separate kp (length (string_bytes key)) p (length value).
Definition room_sign (mp rp : nat) (message mem : bytes) : Prop :=
  placed mem mp (length message) /\ placed mem rp 64 /\ separate mp (length message) rp 64.
Definition room_verify (mp sp pp : nat) (message : bytes) (s : Signature) (pk : PublicKey) (mem : bytes) : Prop :=
  forall sb kb, sig_to_uncompressed s = Some sb -> pk_to_uncompressed pk = Some kb ->
    placed mem mp (length message) /\ placed mem sp (length sb) /\ placed mem pp (length kb) /\
    separate mp (length message) sp (length sb) /\ separate mp (length message) pp (length kb) /\
    separate sp (length sb) pp (length kb).
Definition room_status (rp i : nat) (c : VmContext) (mem : bytes) : Prop :=
  (Z.of_nat i < 2 ^ 31)%Z /\
  forall p j, queue (current_promise_queue c) !! i = Some p -> status_to_json (status p) = Ok j ->
    placed mem rp (String.length j).
Definition room_promise (ptr : nat) (p : GuestPromise) (mem : bytes) : Prop :=
  forall j, promise_to_json (mkPromise (guest_action p) (guest_status p)) = Ok j -> placed mem ptr (String.length j).

Lemma view_wasm_memory env c mem : view env (set_wasm_memory mem c) = view env c.
Proof. done. Qed.

Lemma get_implemented sh kp rp key :
  implements (fun c mem => room_value kp rp key (stored sh key c) mem)
    (guest_get sh kp rp key) (if sh then shared_memory_get key else private_get key).
Proof.
  intros env c mem x g' Hm [[Hv Hk] [Hp Hs]] Hop.
  destruct (guest_get_eq sh kp rp key c mem) as (mem' & Hl & He); [done..|].
  exists (set_wasm_memory mem' c), mem'. destruct sh; injection Hop as <- <-; (split; [exact He|done]).
Qed.

Lemma put_implemented sh kp vp key value :
  implements (fun c mem => room_value kp vp key value mem)
    (guest_put sh kp vp key value) (if sh then shared_memory_set key value else private_set key value).
Proof.
  intros env c mem x g' Hm [[Hv Hk] [Hp Hs]] Hop.
  destruct (guest_put_eq sh kp vp key value c mem) as (mem' & Hl & He); [done..|].
  eexists _, mem'. destruct sh; injection Hop as <- <-; (split; [exact He|done]).
Qed.

Lemma result_implemented rp i :
  implements (room_status rp i) (promise_result rp (Z.of_nat i)) (result_at i).
Proof.
  intros env c mem x g' Hm [Hi Hr] Hop. unfold result_at in Hop. inv_run.
  cbn in *. rewrite list_lookup_fmap in Hop. destruct (queue (current_promise_queue c) !! i) as [p|] eqn:Hp; [|done].
  injection Hop as <-. destruct (promise_result_eq rp i p c mem) as (mem' & Hl & He); [done..|eauto|].
  by exists (set_wasm_memory mem' c), mem'.
Qed.

Lemma enqueue_implemented ptr p :
  implements (fun _ => room_promise ptr p) (add_to_queue ptr p) (enqueue p).
Proof.
  intros env c mem x g' Hm Hr Hop. injection Hop as <- <-.
  destruct (promise_json (mkPromise (guest_action p) (guest_status p))) as (j & Ej & _).
  destruct (add_to_queue_eq ptr p c mem j Hm Ej (Hr j Ej)) as (mem' & Hl & He). by eexists _, mem'.
Qed.

Lemma sign_implemented mp rp message :
  implements (fun _ => room_sign mp rp message) (guest_bn254_sign mp rp message) (sign message).
Proof.
  intros env c mem x g' Hm (P1 & P2 & P3) Hop. unfold sign in Hop. inv_run. bool_to_prop. cbn in *.
  edestruct (guest_bn254_sign_eq mp rp message c mem) as (mem' & Hl & He); [eassumption..|]. by exists (set_wasm_memory mem' c), mem'.
Qed.

Lemma verify_implemented mp sp pp message s pk :
  implements (fun _ => room_verify mp sp pp message s pk) (guest_bn254_verify mp sp pp message s pk) (verify message s pk).
Proof.
  intros env c mem x g' Hm Hr Hop. unfold verify in Hop. inv_run.
  edestruct Hr as (? & ? & ? & ? & ? & ?); [eassumption..|].
  edestruct (guest_bn254_verify_eq mp sp pp message s pk c mem) as (mem' & Hl & He); [eassumption..|]. by exists (set_wasm_memory mem' c), mem'.
Qed.

(** C26: The functions of the SDK, running in the guest's linear memory against
    the host functions they import, implement the abstract guest: reads and
    writes of the two key-value memories, the test for a key, the result of a
    promise, enqueueing a promise, signing and verifying. *)
Theorem guest_interface_refined :
  (forall sh kp rp key, implements (fun c mem => room_value kp rp key (stored sh key c) mem)
     (guest_get sh kp rp key) (if sh then shared_memory_get key else private_get key)) /\
  (forall sh kp vp key value, implements (fun _ mem => room_value kp vp key value mem)
     (guest_put sh kp vp key value) (if sh then shared_memory_set key value else private_set key value)) /\
  (forall kp key, implements (fun _ => room_key kp key) (guest_shared_memory_contains_key kp key) (shared_memory_has key)) /\
  (forall rp i, implements (room_status rp i) (promise_result rp (Z.of_nat i)) (result_at i)) /\
  (forall ptr p, implements (fun _ => room_promise ptr p) (add_to_queue ptr p) (enqueue p)) /\
  (forall mp rp message, implements (fun _ => room_sign mp rp message) (guest_bn254_sign mp rp message) (sign message)) /\
  (forall mp sp pp message s pk, implements (fun _ => room_verify mp sp pp message s pk)
     (guest_bn254_verify mp sp pp message s pk) (verify message s pk)).
Proof.
  split_and!.
  - apply get_implemented.
  - apply put_implemented.
  - intros kp key env c mem x g' Hm [Hv Hk] [= <- <-].
    destruct (guest_contains_eq kp key c mem) as (mem' & Hl & He); [done..|]. by exists (set_wasm_memory mem' c), mem'.
  - apply result_implemented.
  - apply enqueue_implemented.
  - apply sign_implemented.
  - apply verify_implemented.
Qed.

(** Implementations compose, so that programs are implemented when their
    operations are. *)
Lemma implements_bind {A B} (room : VmContext -> bytes -> Prop) (room' : A -> VmContext -> bytes -> Prop)
    (f : host A) (op : M Guest A) (k : A -> host B) (kop : A -> M Guest B) :
  implements room f op -> (forall x, implements (room' x) (k x) (kop x)) ->
  (forall c mem x c' mem', room c mem -> f c = Ret (Ok x, c') -> wasm_memory c' = Some mem' ->
    length mem' = length mem -> room' x c' mem') ->
  implements room (f ≫= k) (op ≫= kop).
Proof.
  intros Hf Hk Hroom env c mem x g' Hm Hr Hop. apply M_bind_ret in Hop as (a & g1 & H1 & H2).
  destruct (Hf env c mem a g1) as (c1 & m1 & E1 & V1 & M1 & L1); [done..|]. subst g1.
  destruct (Hk a env c1 m1 x g') as (c2 & m2 & E2 & V2 & M2 & L2); [done|by eapply Hroom|done|].
  exists c2, m2. rewrite (host_bind_ok _ _ _ _ _ E1). split_and!; [done..|lia].
Qed.

End guest.

Section witnesses.
Import RefSdk RefWasm.

Lemma guest_interface_refined_witness :
  exists c' mem', guest_put true 0 8 "key" [x01; x02] ref_context = Ret (Ok tt, c') /\
    view ∅ c' = mkGuest (<["key"%string := [x01; x02]]> (memory (shared_memory ref_context)))
                  ∅ [Fulfilled (Some [x2a])] [] (keypair_bn254_private ref_context) ∅ /\
    wasm_memory c' = Some mem' /\ length mem' = length (replicate 200 x00).
Proof.
  apply (proj1 (proj2 guest_interface_refined) true 0 8 "key"%string [x01; x02] ∅ ref_context (replicate 200 x00) tt).
  - reflexivity.
  - split; [split; [vm_compute; reflexivity|apply placed_200; cbn; lia]|].
    split; [apply placed_200; cbn; lia|left; cbn; lia].
  - reflexivity.
Defined.

End witnesses.
