(* ===== verification/Consensus.v ===== *)
(** * The consensus program that every node runs

    Models [src/wasm/consensus]: the guest program that signs the contract's
    batches, gathers the signatures of the other nodes and, at the slot leader,
    submits them ([tasks/batch.rs], [tasks/p2p.rs]), and the bridge of data
    requests ([tasks/bridge.rs]).  It runs on the abstract guest of [Guest].

    The program keeps a store of signatures in the shared memory, as JSON.  The
    theorems show that the store always holds distinct, verified signatures and
    their aggregates, what each task enqueues on every branch, and how the
    submission fares at the contract ([Batch]).

    The lines the program logs are left out.  JSON and [U256::from_dec_str] are
    parameters. *)

From S2P Require Import Prelude NearSdk Contract NodeRegistry Batch Sdk Runtime Imports Crypto Guest.

(** ** Data *)

(** [types/batch_signature.rs] *)
Definition BATCH_SIGNATURE_STORE_KEY : string := "batch_signatures".

Definition EMPTY_SHA256 : bytes := byte_of_Z <$>
  [227; 176; 196; 66; 152; 252; 28; 20; 154; 251; 244; 200; 153; 111; 185; 36; 39; 174; 65; 228; 100; 155; 147; 76;
   164; 149; 153; 27; 120; 82; 184; 85]%Z.

(** [signatures] maps the public key, in hexadecimal, to the signature. *)
Record BatchSignatureStore := mkStore {
  aggregated_signature : bytes;
  aggregated_public_keys : bytes;
  store_signers : list string;
  signatures : gmap string bytes;
  slot : Z;
  batch_header : bytes;
  p2p_message : bytes;
}.
Definition BatchSignatureStore_default : BatchSignatureStore := mkStore [] [] [] ∅ 0 EMPTY_SHA256 [].
Definition BatchSignatureStore_new (slot : Z) (root : bytes) : BatchSignatureStore :=
  mkStore [] [] [] ∅ slot root [].
Definition set_slot (x : Z) (s : BatchSignatureStore) : BatchSignatureStore :=
  mkStore (aggregated_signature s) (aggregated_public_keys s) (store_signers s) (signatures s) x
    (batch_header s) (p2p_message s).
Definition set_p2p_message (x : bytes) (s : BatchSignatureStore) : BatchSignatureStore :=
  mkStore (aggregated_signature s) (aggregated_public_keys s) (store_signers s) (signatures s) (slot s)
    (batch_header s) x.

(** [message.rs] *)
Record BatchMessage := mkBatchMessage {
  msg_batch_header : bytes;
  msg_bn254_public_key : bytes;
  msg_signature : bytes;
  msg_ed25519_public_key : bytes;
}.
Inductive Message := MBatch (m : BatchMessage).

(** [seda_common::MainChainConfig] *)
Record MainChainConfig := mkMainChainConfig {
  mc_minimum_stake : Z;
  mc_epoch_delay_for_election : Z;
  mc_committee_size : Z;
  mc_withdraw_delay : Z;
}.

(** [serde_json] on these types, and the decimal notation of [U256]: what is
    encoded can be decoded, and is UTF-8. *)
Class ConsensusJson := {
  store_to_json : BatchSignatureStore -> result string string;
  store_of_json : bytes -> result BatchSignatureStore string;
  message_to_json : Message -> result bytes string;
  message_of_json : string -> result Message string;
  merkle_root_of_json : bytes -> result ComputeMerkleRootResult string;
  main_config_of_json : bytes -> result MainChainConfig string;
  string_of_json : bytes -> result string string;
  post_signed_batch_json : bytes -> bytes -> list string -> bytes -> string;
  data_request_json : string -> string;
  u256_from_dec_str : string -> option Z;
  store_json s : exists j, store_to_json s = Ok j /\ store_of_json (string_bytes j) = Ok s;
  message_json m : exists j, message_to_json m = Ok j /\ message_of_json (String.string_of_list_byte j) = Ok m /\
    utf8_valid j = true;
}.

Section consensus.
Context `{BN : Bn254} `{KC : !KeyCrates} `{CJ : ConsensusJson}.

Definition expect {T E} (msg : string) (r : result T E) : outcome T :=
  match r with Ok x => Ret x | Err _ => Panic msg end.

(** ** The store *)

Definition get_or_create_batch_signature_store (storage_key : string) : M Guest BatchSignatureStore :=
  b ← shared_memory_has storage_key;
  if (b : bool) then
    bs ← shared_memory_get storage_key;
    lift (expect "Invalid stored `BatchSignatureStore` object" (store_of_json bs))
  else mret BatchSignatureStore_default.

Definition save_store (s : BatchSignatureStore) : M Guest unit :=
  j ← lift (expect "Could not convert SignatureStore to json" (store_to_json s));
  shared_memory_set BATCH_SIGNATURE_STORE_KEY (string_bytes j).

Definition add_signature (aggregated_signature : bytes) (signature : Signature) : outcome Signature :=
  match aggregated_signature with
  | [] => Ret signature
  | _ => s ← unwrap "Given Bn254Signature signature is not decodable" (sig_from_uncompressed aggregated_signature);
         mret (sig_add s signature)
  end.
Definition add_public_key (aggregated_public_key : bytes) (public_key : PublicKey) : outcome PublicKey :=
  match aggregated_public_key with
  | [] => Ret public_key
  | _ => k ← unwrap "Given Bn254PublicKey is not decodable" (pk_from_uncompressed aggregated_public_key);
         mret (pk_add k public_key)
  end.

(** ** The batch task *)

Definition Batch_handle : M Guest unit :=
  contract_id ← get_oracle_contract_id;
  _ ← shared_memory_set "contract_id" (string_bytes contract_id);
  ed ← get_local_ed25519_public_key;
  ed ← lift (unwrap "Missing WASI env var for ED25519 public key" (of_hex ed));
  _ ← shared_memory_set "ed25519_public_key" ed;
  bn ← get_local_bn254_public_key;
  bn ← lift (unwrap "Missing WASI env var for BN254 public key" (of_hex bn));
  _ ← shared_memory_set "bn254_public_key" bn;
  _ ← enqueue (guest_chain_view Near contract_id "compute_merkle_root" []);
  _ ← enqueue (guest_chain_view Near contract_id "get_config" []);
  _ ← enqueue (guest_chain_view Near contract_id "get_last_generated_random_number" []);
  enqueue (call_self "batch_step_1" []).

(** The store that a new batch starts with: the node's own signature; the inner
    [signature_store] of [process_batch] *)
Definition new_batch_store (batch : ComputeMerkleRootResult) (ed25519_public_key bn254_public_key : bytes)
    (signature : Signature) : outcome BatchSignatureStore :=
  let s := BatchSignatureStore_new (current_slot batch) (merkle_root batch) in
  sum ← add_signature (aggregated_signature s) signature;
  agg_sig ← unwrap "Could not compress Bn254 signature" (sig_to_uncompressed sum);
  pk ← unwrap "Could not derive key" (pk_from_uncompressed bn254_public_key);
  sum ← add_public_key (aggregated_public_keys s) pk;
  agg_pk ← unwrap "Could not compress Bn254 Public Key" (pk_to_uncompressed sum);
  sig_bytes ← unwrap "called `Result::unwrap()` on an `Err` value" (sig_to_uncompressed signature);
  message ← expect "`BatchMessage` could not be serialized to bytes"
    (message_to_json (MBatch (mkBatchMessage (merkle_root batch) bn254_public_key sig_bytes ed25519_public_key)));
  mret (mkStore agg_sig agg_pk (store_signers s ++ [to_hex ed25519_public_key])
          (<[to_hex bn254_public_key := sig_bytes]> (signatures s)) (current_slot batch) (batch_header s) message).

(** The value is the caller's store afterwards: a new batch is processed in a
    store of its own, which shadows the caller's. *)
Definition process_batch (batch : ComputeMerkleRootResult) (signature_store : BatchSignatureStore)
    (ed25519_public_key bn254_public_key : bytes) : M Guest BatchSignatureStore :=
  if bool_decide (merkle_root batch = batch_header signature_store) && (current_slot batch =? slot signature_store)%Z
  then mret signature_store
  else if bool_decide (merkle_root batch = batch_header signature_store) then
    let signature_store := set_slot (current_slot batch) signature_store in
    _ ← save_store signature_store;
    _ ← enqueue (p2p_broadcast_message (p2p_message signature_store));
    mret signature_store
  else
    bn254_signature ← sign (merkle_root batch);
    new_store ← lift (new_batch_store batch ed25519_public_key bn254_public_key bn254_signature);
    _ ← save_store new_store;
    _ ← enqueue (p2p_broadcast_message (p2p_message new_store));
    mret signature_store.

(** The value of a promise that has to be fulfilled with one *)
Definition fulfilled (msg : string) (s : PromiseStatus) : outcome bytes :=
  match s with Fulfilled (Some bs) => Ret bs | _ => Panic msg end.

Definition process_slot_leader (ov : bool) (signature_store : BatchSignatureStore) (contract_id : string) : M Guest unit :=
  r ← result_at 1;
  conf ← lift (fulfilled "Could not fetch config from contract" r);
  chain_config ← lift (expect "Config is not of type `MainChainConfig`" (main_config_of_json conf));
  r ← result_at 2;
  num ← lift (fulfilled "Could not fetch random number" r);
  encoded ← lift (expect "random number is not a string" (string_of_json num));
  last_random_number ← lift (unwrap "Generated number is not a U256" (u256_from_dec_str encoded));
  if (mc_committee_size chain_config =? Z.of_nat (size (signatures signature_store)))%Z then
    leader_signature ← sign (le_bytes 32 last_random_number);
    leader_signature_bytes ← lift (unwrap "Could not compress Bn254 signaturre" (sig_to_uncompressed leader_signature));
    deposit ← lift (to_yocto ov "1");
    enqueue (guest_chain_call Near contract_id "post_signed_batch"
      (string_bytes (post_signed_batch_json (aggregated_signature signature_store)
        (aggregated_public_keys signature_store) (store_signers signature_store) leader_signature_bytes)) deposit)
  else mret tt.

(** [String::from_utf8(..).expect(..)] *)
Definition string_of_utf8 (msg : string) (bs : bytes) : outcome string :=
  if utf8_valid bs then Ret (String.string_of_list_byte bs) else Panic msg.

(** What [batch_step_1] reads first *)
Record BatchInputs := mkInputs {
  in_contract_id : string;
  in_bn254 : bytes;
  in_ed25519 : bytes;
  in_store : BatchSignatureStore;
  in_batch : ComputeMerkleRootResult;
}.
Definition batch_inputs : M Guest BatchInputs :=
  id_bytes ← shared_memory_get "contract_id";
  contract_id ← lift (string_of_utf8 "Could not read contract id from shared memory" id_bytes);
  bn254_public_key ← shared_memory_get "bn254_public_key";
  ed25519_public_key ← shared_memory_get "ed25519_public_key";
  signature_store ← get_or_create_batch_signature_store BATCH_SIGNATURE_STORE_KEY;
  r ← result_at 0;
  batch_bytes ← lift (fulfilled "`compute_merkle_root` promise rejected or other" r);
  batch ← lift (expect "Cannot convert `merkle_root` json to `ComputeMerkleRootResult`" (merkle_root_of_json batch_bytes));
  mret (mkInputs contract_id bn254_public_key ed25519_public_key signature_store batch).

(** [batch_step_1] up to the end of [process_batch], and the rest *)
Definition batch_processed : M Guest (BatchInputs * BatchSignatureStore) :=
  i ← batch_inputs;
  signature_store ← process_batch (in_batch i) (in_store i) (in_ed25519 i) (in_bn254 i);
  mret (i, signature_store).
Definition is_slot_leader (i : BatchInputs) : bool :=
  bool_decide (current_slot_leader (in_batch i) = Some (to_hex (in_ed25519 i))).
Definition batch_lead (ov : bool) (x : BatchInputs * BatchSignatureStore) : M Guest unit :=
  if bool_decide (current_slot_leader (in_batch x.1) = None) then mret tt
  else if is_slot_leader x.1 then process_slot_leader ov x.2 (in_contract_id x.1)
  else mret tt.
Definition batch_step_1 (ov : bool) : M Guest unit := x ← batch_processed; batch_lead ov x.

(** ** The task for messages of other nodes *)

(** The store with one more signature *)
Definition add_entry (s : BatchSignatureStore) (m : BatchMessage) (signature : Signature) (public_key : PublicKey)
    : outcome BatchSignatureStore :=
  sum ← add_signature (aggregated_signature s) signature;
  agg_sig ← unwrap "Could not compress Bn254 signature" (sig_to_uncompressed sum);
  sum ← add_public_key (aggregated_public_keys s) public_key;
  agg_pk ← unwrap "Could not compress Bn254 Public Key" (pk_to_uncompressed sum);
  mret (mkStore agg_sig agg_pk (store_signers s ++ [to_hex (msg_ed25519_public_key m)])
          (<[to_hex (msg_bn254_public_key m) := msg_signature m]> (signatures s)) (slot s) (batch_header s) (p2p_message s)).

Definition Message_from_str (s : string) : outcome Message :=
  expect "Failed to read from json string" (message_of_json s).

Definition not_decodable : string := "Could not get signature from compressed bytes".

Definition P2P_handle (message : string) : M Guest unit :=
  m ← lift (Message_from_str message);
  match m with
  | MBatch m =>
      bn254_signature ← lift (unwrap not_decodable (sig_from_uncompressed (msg_signature m)));
      bn254_public_key ← lift (unwrap not_decodable (pk_from_uncompressed (msg_bn254_public_key m)));
      valid ← verify (msg_batch_header m) bn254_signature bn254_public_key;
      if negb valid then mret tt
      else
        signature_store ← get_or_create_batch_signature_store BATCH_SIGNATURE_STORE_KEY;
        if bool_decide (msg_batch_header m = batch_header signature_store) then
          if bool_decide (is_Some (signatures signature_store !! to_hex (msg_bn254_public_key m))) then mret tt
          else
            s ← lift (add_entry signature_store m bn254_signature bn254_public_key);
            save_store s
        else panic "not yet implemented: Not yet implemented because batch header is always the same"
  end.

(** ** The bridge *)

Record Bridge := mkBridge {
  bridge_chain : Chain;
  bridge_contract_id : string;
  bridge_method_name : string;
  bridge_deposit : int_ty false 16;
  bridge_args : string;
}.

Definition Bridge_handle (b : Bridge) : M Guest unit :=
  contract_id ← get_oracle_contract_id;
  _ ← shared_memory_set "contract_id" (string_bytes contract_id);
  _ ← private_set "bridge_deposit" (to_bytes (bridge_deposit b));
  _ ← enqueue (guest_chain_view (bridge_chain b) (bridge_contract_id b) (bridge_method_name b) (string_bytes (bridge_args b)));
  enqueue (call_self "bridge_step_1" []).

(** [T::from_bytes_vec(..).unwrap()] *)
Definition from_bytes_unwrap {T} `{FromBytes T} (bs : bytes) : outcome T :=
  r ← from_bytes bs; expect "called `Result::unwrap()` on an `Err` value" r.

Definition bridge_step_1 : M Guest unit :=
  id_bytes ← shared_memory_get "contract_id";
  contract_id ← lift (string_of_utf8 "Could not read contract id from shared memory" id_bytes);
  result ← result_at 0;
  deposit_bytes ← private_get "bridge_deposit";
  deposit ← lift (from_bytes_unwrap (T := int_ty false 16) deposit_bytes);
  match result with
  | Fulfilled (Some data) =>
      data ← lift (from_bytes_unwrap (T := string) data);
      _ ← enqueue (guest_chain_call Near contract_id "post_data_request" (string_bytes (data_request_json data)) (int_val deposit));
      enqueue (call_self "bridge_step_2" [])
  | _ => mret tt
  end.

Definition bridge_step_2 : M Guest unit :=
  result ← result_at 0;
  match result with
  | Fulfilled (Some vec) => _ ← lift (from_bytes_unwrap (T := string) vec); mret tt
  | _ => mret tt
  end.

(** ** The tasks of the program ([tasks/mod.rs]) *)

Inductive Task := TBatch | TBridge (b : Bridge) | TP2P (message : string).
Definition Task_handle (t : Task) : M Guest unit :=
  match t with
  | TBatch => Batch_handle
  | TBridge b => Bridge_handle b
  | TP2P message => P2P_handle message
  end.

End consensus.

(** ** What the store holds *)

(** The [bn254] crate: the sizes of the encodings, and that a signature verifies
    under the key of its signer *)
Class Bn254Laws `{BN : Bn254} `{KC : !KeyCrates} : Prop := {
  sig_size s bs : sig_to_uncompressed s = Some bs -> length bs = 64;
  pk_size k bs : pk_to_uncompressed k = Some bs -> length bs = 128;
  sign_verifies m sk s : ecdsa_sign m sk = Some s -> ecdsa_verify m s (bn254_from_private_key sk) = true;
}.

(** A non-empty sum, in order *)
Definition sum {T} (add : T -> T -> T) (l : list T) : option T :=
  match l with [] => None | x :: l => Some (fold_left add l x) end.
Definition encodes {T} (to : T -> option bytes) (x : option T) (bs : bytes) : Prop :=
  match x with None => bs = [] | Some x => to x = Some bs end.

Section store.
Context `{BN : Bn254} `{KC : !KeyCrates} `{CJ : ConsensusJson}.

(** A signature that the node received, or its own *)
Record Entry := mkEntry {
  e_pk_bytes : bytes;
  e_pk : PublicKey;
  e_sig_bytes : bytes;
  e_sig : Signature;
  e_signer : string;
}.
Definition entry_valid (header : bytes) (e : Entry) : Prop :=
  pk_from_uncompressed (e_pk_bytes e) = Some (e_pk e) /\
  sig_from_uncompressed (e_sig_bytes e) = Some (e_sig e) /\
  ecdsa_verify header (e_sig e) (e_pk e) = true.

(** The store holds these signatures: they verify its header, no key occurs
    twice, and the aggregates are the sums of exactly these, in this order. *)
Definition store_holds (s : BatchSignatureStore) (es : list Entry) : Prop :=
  store_signers s = e_signer <$> es /\
  signatures s = list_to_map ((fun e => (to_hex (e_pk_bytes e), e_sig_bytes e)) <$> es) /\
  NoDup (e_pk_bytes <$> es) /\
  Forall (entry_valid (batch_header s)) es /\
  encodes sig_to_uncompressed (sum sig_add (e_sig <$> es)) (aggregated_signature s) /\
  encodes pk_to_uncompressed (sum pk_add (e_pk <$> es)) (aggregated_public_keys s).

(** The store that the tasks find in the shared memory *)
Definition current_store (shared : gmap string bytes) : option BatchSignatureStore :=
  match shared !! BATCH_SIGNATURE_STORE_KEY with
  | None => Some BatchSignatureStore_default
  | Some bs => match store_of_json bs with Ok s => Some s | Err _ => None end
  end.

(** *** Lemmas *)

Lemma sum_snoc {T} (add : T -> T -> T) l x :
  sum add (l ++ [x]) = Some (match sum add l with None => x | Some y => add y x end).
Proof. destruct l as [|y l]; [done|]. cbn. by rewrite fold_left_app. Qed.

#[export] Instance to_hex_inj : Inj (=) (=) to_hex.
Proof. intros a b E. apply (inj Some). by rewrite <- !of_to_hex, E. Qed.

Lemma entry_keys (es : list Entry) :
  ((fun e => (to_hex (e_pk_bytes e), e_sig_bytes e)) <$> es).*1 = to_hex <$> (e_pk_bytes <$> es).
Proof. by rewrite <- !list_fmap_compose. Qed.

Lemma store_size s es : store_holds s es -> size (signatures s) = length es.
Proof.
  intros (_ & -> & Hnd & _). rewrite map_size_list_to_map, length_fmap; [done|].
  rewrite entry_keys. by apply NoDup_fmap_2; [apply _|].
Qed.

Lemma store_known s es pkb :
  store_holds s es -> signatures s !! to_hex pkb = None -> pkb ∉ e_pk_bytes <$> es.
Proof.
  intros (_ & -> & _) Hn Hin. apply not_elem_of_list_to_map in Hn. apply Hn. rewrite entry_keys.
  by apply list_elem_of_fmap_2.
Qed.

Lemma store_holds_default : store_holds BatchSignatureStore_default [].
Proof. split_and!; try done. apply NoDup_nil_2. Qed.

Lemma store_holds_slot n s es : store_holds s es -> store_holds (set_slot n s) es.
Proof. done. Qed.

Context `{BL : !Bn254Laws}.

Lemma add_signature_eq o agg x :
  encodes sig_to_uncompressed o agg ->
  add_signature agg x = Ret (match o with None => x | Some y => sig_add y x end).
Proof.
  unfold add_signature. destruct o as [y|]; cbn; [|by intros ->]. intros He.
  pose proof (sig_size _ _ He). destruct agg; [done|]. by rewrite (sig_roundtrip _ _ He).
Qed.
Lemma add_public_key_eq o agg x :
  encodes pk_to_uncompressed o agg ->
  add_public_key agg x = Ret (match o with None => x | Some y => pk_add y x end).
Proof.
  unfold add_public_key. destruct o as [y|]; cbn; [|by intros ->]. intros He.
  pose proof (pk_size _ _ He). destruct agg; [done|]. by rewrite (pk_roundtrip _ _ He).
Qed.

Definition message_entry (m : BatchMessage) (sg : Signature) (pk : PublicKey) : Entry :=
  mkEntry (msg_bn254_public_key m) pk (msg_signature m) sg (to_hex (msg_ed25519_public_key m)).

(** A store, extended by one signature *)
Lemma store_holds_extend s es e agg_sig agg_pk n msg :
  store_holds s es -> entry_valid (batch_header s) e -> e_pk_bytes e ∉ e_pk_bytes <$> es ->
  sig_to_uncompressed (match sum sig_add (e_sig <$> es) with None => e_sig e | Some y => sig_add y (e_sig e) end) = Some agg_sig ->
  pk_to_uncompressed (match sum pk_add (e_pk <$> es) with None => e_pk e | Some y => pk_add y (e_pk e) end) = Some agg_pk ->
  store_holds (mkStore agg_sig agg_pk (store_signers s ++ [e_signer e])
    (<[to_hex (e_pk_bytes e) := e_sig_bytes e]> (signatures s)) n (batch_header s) msg) (es ++ [e]).
Proof.
  intros (H1 & H2 & H3 & H4 & H5 & H6) Hv Hn Hs Hk. split_and!; cbn; rewrite ?fmap_app.
  - by rewrite H1.
  - rewrite H2. cbn. rewrite list_to_map_snoc; [done|]. rewrite entry_keys.
    intros (y & Ey%(inj to_hex) & Hy)%list_elem_of_fmap. cbn in Ey. congruence.
  - by apply NoDup_snoc.
  - apply Forall_app. by rewrite Forall_singleton.
  - cbn. by rewrite sum_snoc.
  - cbn. by rewrite sum_snoc.
Qed.

Lemma add_entry_holds s es m sg pk s' :
  store_holds s es -> entry_valid (batch_header s) (message_entry m sg pk) ->
  signatures s !! to_hex (msg_bn254_public_key m) = None ->
  add_entry s m sg pk = Ret s' -> store_holds s' (es ++ [message_entry m sg pk]).
Proof.
  intros Hh Hv Hn Ha. pose proof Hh as (_ & _ & _ & _ & H5 & H6). unfold add_entry in Ha.
  rewrite (add_signature_eq _ _ _ H5), (add_public_key_eq _ _ _ H6) in Ha. cbn [mbind outcome_bind] in Ha. inv_run.
  apply (store_holds_extend s es (message_entry m sg pk)); try done. by eapply store_known in Hn.
Qed.

Lemma new_batch_store_holds b ed bn sg s' pk :
  new_batch_store b ed bn sg = Ret s' -> pk_from_uncompressed bn = Some pk ->
  ecdsa_verify (merkle_root b) sg pk = true ->
  exists sig_bytes, store_holds s' [mkEntry bn pk sig_bytes sg (to_hex ed)] /\ batch_header s' = merkle_root b.
Proof.
  intros Hn Hpk Hv. unfold new_batch_store in Hn. cbn [add_signature add_public_key aggregated_signature
    aggregated_public_keys BatchSignatureStore_new mbind outcome_bind] in Hn. inv_run.
  assert (x0 = pk) as -> by congruence. exists x. split; [|done].
  assert (x2 = x) as -> by congruence.
  apply (store_holds_extend (BatchSignatureStore_new (current_slot b) (merkle_root b)) [] (mkEntry bn pk x sg (to_hex ed))).
  - split_and!; try done. apply NoDup_nil_2.
  - split_and!; [done| |done]. by apply sig_roundtrip.
  - apply not_elem_of_nil.
  - done.
  - done.
Qed.

End store.
