(* ===== verification/ConsensusTheorems.v ===== *)
(** * Correctness of the consensus program

    What the tasks of [Consensus] do on each of their branches; the invariant of
    the signature store over everything that can happen to the shared memory;
    and how a submission fares at the contract. *)

From S2P Require Import Scenario.
From S2P Require Import Prelude NearSdk Contract NodeRegistry Batch Sdk Runtime Imports Crypto Guest Consensus.

Section tasks.
Context `{BN : Bn254} `{KC : !KeyCrates} `{CJ : ConsensusJson}.

(** ** Effects of the tasks' steps *)

Definition with_shared (sh : gmap string bytes) (g : Guest) : Guest :=
  mkGuest sh (g_private g) (g_results g) (g_queue g) (g_key g) (g_env g).
Definition with_queue (q : list Promise) (g : Guest) : Guest :=
  mkGuest (g_shared g) (g_private g) (g_results g) q (g_key g) (g_env g).
Definition promised (p : GuestPromise) : Promise := mkPromise (guest_action p) (guest_status p).

Lemma get_store_eq g :
  get_or_create_batch_signature_store BATCH_SIGNATURE_STORE_KEY g =
    match current_store (g_shared g) with
    | Some s => Ret (s, g)
    | None => Panic "Invalid stored `BatchSignatureStore` object"
    end.
Proof.
  unfold get_or_create_batch_signature_store, current_store, shared_memory_has, shared_memory_get, gets, mbind, M_bind.
  destruct (g_shared g !! BATCH_SIGNATURE_STORE_KEY) as [bs|] eqn:E; cbn; [|done].
  rewrite ?E. cbn. by destruct (store_of_json bs).
Qed.

Lemma get_store_ret g s g' :
  get_or_create_batch_signature_store BATCH_SIGNATURE_STORE_KEY g = Ret (s, g') ->
  current_store (g_shared g) = Some s /\ g' = g.
Proof. rewrite get_store_eq. destruct (current_store _); intros; by simplify_eq. Qed.

(** The shared memory with another store *)
Definition stores (sh : gmap string bytes) (s : BatchSignatureStore) (sh' : gmap string bytes) : Prop :=
  exists bs, sh' = <[BATCH_SIGNATURE_STORE_KEY := bs]> sh /\ store_of_json bs = Ok s.

Lemma stores_current sh s sh' : stores sh s sh' -> current_store sh' = Some s.
Proof. intros (bs & -> & E). unfold current_store. by rewrite lookup_insert_eq, E. Qed.

Lemma save_store_eq s g :
  exists sh, save_store s g = Ret (tt, with_shared sh g) /\ stores (g_shared g) s sh.
Proof.
  destruct (store_json s) as (j & E1 & E2). unfold save_store, lift, mbind, M_bind. rewrite E1.
  eexists. split; [reflexivity|]. by eexists.
Qed.
Lemma save_store_ret s g u g' :
  save_store s g = Ret (u, g') -> exists sh, g' = with_shared sh g /\ stores (g_shared g) s sh.
Proof. destruct (save_store_eq s g) as (sh & -> & Hs). intros [= <- <-]. eauto. Qed.

Lemma sign_ret m g s g' :
  sign m g = Ret (s, g') -> ecdsa_sign m (g_key g) = Some s /\ is_Some (sig_to_uncompressed s) /\ g' = g.
Proof. unfold sign. intros Hr. inv_run. split_and!; [done|by eexists|done]. Qed.

Lemma result_at_ret i g s g' : result_at i g = Ret (s, g') -> g_results g !! i = Some s /\ g' = g.
Proof. unfold result_at. intros Hr. inv_run. done. Qed.

Lemma batch_inputs_ret g i g' :
  batch_inputs g = Ret (i, g') ->
  g' = g /\ current_store (g_shared g) = Some (in_store i) /\
  in_bn254 i = default [] (g_shared g !! "bn254_public_key"%string) /\
  in_ed25519 i = default [] (g_shared g !! "ed25519_public_key"%string).
Proof.
  unfold batch_inputs, shared_memory_get. intros Hr.
  repeat first [inv_run_step; cbn beta iota zeta in * | match goal with
    | H : get_or_create_batch_signature_store _ _ = _ |- _ => apply get_store_ret in H as [? ->]
    | H : result_at _ _ = _ |- _ => apply result_at_ret in H as [? ->] end].
  done.
Qed.

(** The leader's signature of the last random number that the contract reported *)
Definition leader_signed (g : Guest) (leader_signature : bytes) : Prop :=
  exists bs t random sg,
    g_results g !! 2 = Some (Fulfilled (Some bs)) /\ string_of_json bs = Ok t /\ u256_from_dec_str t = Some random /\
    ecdsa_sign (le_bytes 32 random) (g_key g) = Some sg /\ sig_to_uncompressed sg = Some leader_signature.

Lemma process_slot_leader_ret ov s cid g u g' :
  process_slot_leader ov s cid g = Ret (u, g') ->
  exists conf conf_bytes,
    g_results g !! 1 = Some (Fulfilled (Some conf_bytes)) /\ main_config_of_json conf_bytes = Ok conf /\
    if decide (mc_committee_size conf = Z.of_nat (size (signatures s))) then
      exists leader_signature deposit, leader_signed g leader_signature /\
        to_yocto ov "1" = Ret deposit /\
        g' = with_queue (g_queue g ++ [promised (guest_chain_call Near cid "post_signed_batch"
          (string_bytes (post_signed_batch_json (aggregated_signature s) (aggregated_public_keys s)
             (store_signers s) leader_signature)) deposit)]) g
    else g' = g.
Proof.
  unfold process_slot_leader. intros Hr. inv_run.
  repeat match goal with
    | H : result_at _ _ = _ |- _ => apply result_at_ret in H as [? ->]
    | H : fulfilled _ ?x = Ret _ |- _ => destruct x as [| |[]|]; cbn in H; try discriminate H; injection H as <-
    | H : expect _ ?x = Ret _ |- _ => destruct x eqn:?; cbn in H; [injection H as <-|discriminate H] end.
  eexists _, _. split; [eassumption|]. split; [eassumption|].
  case_match; bool_to_prop; [rewrite decide_True by done|rewrite decide_False by done].
  - inv_run. match goal with H : sign _ _ = _ |- _ => apply sign_ret in H as (? & _ & ->) end.
    eexists _, _. split; [do 4 eexists; by repeat (split; [eassumption|])|]. split; [eassumption|]. match goal with H : enqueue _ _ = _ |- _ => injection H as _ <- end. done.
  - inv_run. done.
Qed.

Lemma batch_lead_shared ov x g u g' : batch_lead ov x g = Ret (u, g') -> g_shared g' = g_shared g.
Proof.
  unfold batch_lead. case_bool_decide; [intros Hr; by inv_run|]. destruct (is_slot_leader x.1); [|intros Hr; by inv_run].
  intros (conf & cb & _ & _ & Hd)%process_slot_leader_ret. case_decide; [|by subst]. by destruct Hd as (? & ? & _ & _ & ->).
Qed.

(** The three cases of a batch *)
Inductive batch_case (i : BatchInputs) (g : Guest) : BatchSignatureStore -> Guest -> Prop :=
| batch_known :
    merkle_root (in_batch i) = batch_header (in_store i) -> current_slot (in_batch i) = slot (in_store i) ->
    batch_case i g (in_store i) g
| batch_other_slot sh :
    merkle_root (in_batch i) = batch_header (in_store i) -> current_slot (in_batch i) <> slot (in_store i) ->
    stores (g_shared g) (set_slot (current_slot (in_batch i)) (in_store i)) sh ->
    batch_case i g (set_slot (current_slot (in_batch i)) (in_store i))
      (with_queue (g_queue g ++ [promised (p2p_broadcast_message (p2p_message (in_store i)))]) (with_shared sh g))
| batch_new sg s sh :
    merkle_root (in_batch i) <> batch_header (in_store i) ->
    ecdsa_sign (merkle_root (in_batch i)) (g_key g) = Some sg ->
    new_batch_store (in_batch i) (in_ed25519 i) (in_bn254 i) sg = Ret s ->
    stores (g_shared g) s sh ->
    batch_case i g (in_store i)
      (with_queue (g_queue g ++ [promised (p2p_broadcast_message (p2p_message s))]) (with_shared sh g)).

Lemma process_batch_ret i g s g' :
  process_batch (in_batch i) (in_store i) (in_ed25519 i) (in_bn254 i) g = Ret (s, g') -> batch_case i g s g'.
Proof.
  unfold process_batch. case_bool_decide as Hroot; cbn [andb].
  - destruct (_ =? _)%Z eqn:Es; bool_to_prop; intros Hr; inv_run; [by apply batch_known|].
    match goal with H : save_store _ _ = _ |- _ => apply save_store_ret in H as (sh & -> & Hs) end.
    match goal with H : enqueue _ _ = _ |- _ => injection H as _ <- end. by apply (batch_other_slot i g sh).
  - intros Hr. inv_run.
    match goal with H : sign _ _ = _ |- _ => apply sign_ret in H as (Hsg & _ & ->) end.
    match goal with H : save_store _ _ = _ |- _ => apply save_store_ret in H as (sh & -> & Hs) end.
    match goal with H : enqueue _ _ = _ |- _ => injection H as _ <- end. by eapply (batch_new i g).
Qed.

Lemma batch_processed_ret g x g' :
  batch_processed g = Ret (x, g') -> batch_inputs g = Ret (x.1, g) /\ batch_case x.1 g x.2 g'.
Proof.
  unfold batch_processed. intros Hr. inv_run.
  match goal with H : batch_inputs _ = _ |- _ => pose proof H as (-> & _)%batch_inputs_ret end.
  split; [done|]. by apply process_batch_ret.
Qed.

(** *** When the second step of the batch task returns *)

Definition can_sign (key : PrivateKey) : Prop :=
  forall m, exists sg bs, ecdsa_sign m key = Some sg /\ sig_to_uncompressed sg = Some bs /\ length bs = 64.
Definition is_key (bn : bytes) : Prop :=
  exists pk kb, pk_from_uncompressed bn = Some pk /\ pk_to_uncompressed pk = Some kb.

(** The results of the three views of the contract are there, and decode. *)
Record step_ready (g : Guest) (i : BatchInputs) (conf : MainChainConfig) (random : Z) : Prop := {
  ready_contract : valid_string (in_contract_id i) = true /\
    g_shared g !! "contract_id"%string = Some (string_bytes (in_contract_id i));
  ready_bn254 : g_shared g !! "bn254_public_key"%string = Some (in_bn254 i) /\ is_key (in_bn254 i);
  ready_ed25519 : g_shared g !! "ed25519_public_key"%string = Some (in_ed25519 i);
  ready_store : current_store (g_shared g) = Some (in_store i);
  ready_key : can_sign (g_key g);
  ready_batch : exists bs, g_results g !! 0 = Some (Fulfilled (Some bs)) /\ merkle_root_of_json bs = Ok (in_batch i);
  ready_config : exists bs, g_results g !! 1 = Some (Fulfilled (Some bs)) /\ main_config_of_json bs = Ok conf;
  ready_random : exists bs t, g_results g !! 2 = Some (Fulfilled (Some bs)) /\ string_of_json bs = Ok t /\
    u256_from_dec_str t = Some random;
}.

Lemma batch_inputs_eq g i conf random : step_ready g i conf random -> batch_inputs g = Ret (i, g).
Proof.
  intros [[Hv Hc] [Hb _] He Hs _ (bs & Hr & Hj) _ _]. unfold batch_inputs, shared_memory_get.
  run_step. rewrite Hc. change (default [] (Some ?x)) with x.
  unfold string_of_utf8. unfold valid_string in Hv. rewrite Hv. unfold string_bytes.
  rewrite String.string_of_list_byte_of_string. do 3 run_step. rewrite Hb, He. change (default [] (Some ?x)) with x.
  erewrite M_bind_eq by (rewrite get_store_eq, Hs; reflexivity).
  erewrite M_bind_eq by (unfold result_at; run_step; unfold lift; cbn; rewrite Hr; reflexivity).
  cbn [fulfilled lift]. run_step. rewrite Hj. run_step. by destruct i.
Qed.

Lemma sign_eq m g : can_sign (g_key g) -> exists sg bs, sign m g = Ret (sg, g) /\
  ecdsa_sign m (g_key g) = Some sg /\ sig_to_uncompressed sg = Some bs.
Proof.
  intros Hc. destruct (Hc m) as (sg & bs & H1 & H2 & H3). exists sg, bs. split; [|done].
  unfold sign. run_step. unfold lift. cbn. unfold mbind, M_bind. by rewrite H1; cbn; rewrite H2; cbn; rewrite H3.
Qed.

Lemma new_batch_store_eq b ed bn sg bs :
  is_key bn -> sig_to_uncompressed sg = Some bs -> exists s, new_batch_store b ed bn sg = Ret s.
Proof.
  intros (pk & kb & H1 & H2) Hs. unfold new_batch_store. cbn. rewrite Hs. cbn. rewrite H1. cbn. rewrite H2. cbn.
  destruct (message_json (MBatch (mkBatchMessage (merkle_root b) bn bs ed))) as (j & -> & _). cbn. eauto.
Qed.

Lemma batch_processed_eq g i conf random :
  step_ready g i conf random ->
  exists s g1, batch_processed g = Ret ((i, s), g1) /\ g_results g1 = g_results g /\ g_key g1 = g_key g /\
    g_env g1 = g_env g.
Proof.
  intros Hr. unfold batch_processed. rewrite (M_bind_eq _ _ _ _ _ (batch_inputs_eq _ _ _ _ Hr)).
  unfold process_batch. case_bool_decide; cbn [andb]; [destruct (_ =? _)%Z|].
  - eexists _, _. done.
  - destruct (save_store_eq (set_slot (current_slot (in_batch i)) (in_store i)) g) as (sh & Hs & _).
    eexists _, _. erewrite M_bind_eq; [|erewrite M_bind_eq by exact Hs; reflexivity]. done.
  - destruct (sign_eq (merkle_root (in_batch i)) g (ready_key _ _ _ _ Hr)) as (sg & bs & Hsg & _ & Hbs).
    destruct (new_batch_store_eq (in_batch i) (in_ed25519 i) (in_bn254 i) sg bs) as [s Hn]; [apply Hr|done|].
    destruct (save_store_eq s g) as (sh & Hs & _). eexists _, _. erewrite M_bind_eq; cycle 1.
    { erewrite M_bind_eq by exact Hsg. rewrite Hn. run_step. erewrite M_bind_eq by exact Hs. reflexivity. }
    done.
Qed.

Lemma to_yocto_one ov : to_yocto ov "1" = Ret (10 ^ 24)%Z.
Proof. by destruct ov; vm_compute. Qed.

Lemma batch_step_1_returns ov g i conf random :
  step_ready g i conf random -> exists g', batch_step_1 ov g = Ret (tt, g').
Proof.
  intros Hr. destruct (batch_processed_eq _ _ _ _ Hr) as (s & g1 & Hp & Hres & Hkey & _).
  unfold batch_step_1. rewrite (M_bind_eq _ _ _ _ _ Hp). unfold batch_lead. cbn [fst snd].
  case_bool_decide; [by eexists|]. destruct (is_slot_leader i); [|by eexists]. unfold process_slot_leader, result_at.
  destruct Hr as [_ _ _ _ Hcan _ (cb & Hc1 & Hc2) (rb & t & Hr1 & Hr2 & Hr3)].
  rewrite <- Hres in Hc1, Hr1. rewrite <- Hkey in Hcan.
  assert (forall i x, g_results g1 !! i = Some x ->
    (g ← gets id; lift (unwrap "Could not find promise" (g_results g !! i))) g1 = Ret (x, g1)) as Hat.
  { intros j x Hx. run_step. unfold id. by rewrite Hx. }
  rewrite (M_bind_eq _ _ _ _ _ (Hat _ _ Hc1)). cbn [fulfilled lift]. run_step. rewrite Hc2. run_step.
  rewrite (M_bind_eq _ _ _ _ _ (Hat _ _ Hr1)). cbn [fulfilled lift]. run_step. rewrite Hr2. run_step.
  rewrite Hr3. run_step. destruct (_ =? _)%Z; [|by eexists].
  destruct (sign_eq (le_bytes 32 random) g1 Hcan) as (sg & bs & Hsg & _ & Hbs).
  rewrite (M_bind_eq _ _ _ _ _ Hsg), Hbs. run_step. rewrite to_yocto_one. run_step. by eexists.
Qed.

End tasks.

(** ** The invariant of the store *)

Section invariant.
Context `{BN : Bn254} `{KC : !KeyCrates} `{CJ : ConsensusJson} `{BL : !Bn254Laws}.

(** The node's key pair: the private key signs, the public one is in the
    environment of the program *)
Context (own_sk : PrivateKey) (own_pk : bytes).

Definition runs_here (g : Guest) : Prop :=
  g_key g = own_sk /\ g_env g !! "BN254_PUBLIC_KEY"%string = Some (to_hex own_pk).

(** What happens to the shared memory: any task of the program; the second step
    of the batch task, which the first one enqueues after it has stored the
    keys, whatever becomes of the leader's part; other programs and tasks that
    panicked, as long as they leave the store and the node's key alone *)
Inductive history : gmap string bytes -> Prop :=
| history_start : history ∅
| history_other sh sh' :
    history sh -> sh' !! BATCH_SIGNATURE_STORE_KEY = sh !! BATCH_SIGNATURE_STORE_KEY ->
    sh' !! "bn254_public_key"%string = sh !! "bn254_public_key"%string -> history sh'
| history_task t g u g' :
    history (g_shared g) -> runs_here g -> Task_handle t g = Ret (u, g') -> history (g_shared g')
| history_batch g x g' :
    history (g_shared g) -> runs_here g -> is_Some (g_shared g !! "bn254_public_key"%string) ->
    batch_processed g = Ret (x, g') -> history (g_shared g').

Definition shared_ok (sh : gmap string bytes) : Prop :=
  (exists s es, current_store sh = Some s /\ store_holds s es) /\
  (forall k, sh !! "bn254_public_key"%string = Some k -> k = own_pk).

Lemma shared_ok_ext sh sh' :
  sh' !! BATCH_SIGNATURE_STORE_KEY = sh !! BATCH_SIGNATURE_STORE_KEY ->
  sh' !! "bn254_public_key"%string = sh !! "bn254_public_key"%string -> shared_ok sh -> shared_ok sh'.
Proof. unfold shared_ok, current_store. by intros -> ->. Qed.

Lemma shared_ok_stores sh s es sh' :
  shared_ok sh -> stores sh s sh' -> store_holds s es -> shared_ok sh'.
Proof.
  intros [_ Hk] Hs Hh. split; [exists s, es; split; [by eapply stores_current|done]|].
  intros k. destruct Hs as (bs & -> & _). rewrite lookup_insert_ne by done. apply Hk.
Qed.

Lemma batch_handle_ok g u g' : shared_ok (g_shared g) -> runs_here g -> Batch_handle g = Ret (u, g') -> shared_ok (g_shared g').
Proof.
  intros [Hs Hk] [_ He] Hr. unfold Batch_handle, get_oracle_contract_id, get_local_ed25519_public_key,
    get_local_bn254_public_key, env_var, shared_memory_set, enqueue in Hr. inv_run. cbn in *.
  unfold shared_ok, current_store in *. rewrite !lookup_insert_ne by done. split; [done|].
  intros k. rewrite lookup_insert_eq. intros [= <-].
  match goal with H : of_hex ?x = Some _, H' : _ !! "BN254_PUBLIC_KEY"%string = Some ?x |- _ =>
    rewrite He in H'; injection H' as <-; rewrite of_to_hex in H; by injection H as <- end.
Qed.

Lemma bridge_handle_ok b g u g' : shared_ok (g_shared g) -> Bridge_handle b g = Ret (u, g') -> shared_ok (g_shared g').
Proof.
  intros Hs Hr. unfold Bridge_handle, get_oracle_contract_id, env_var, shared_memory_set, private_set, enqueue in Hr.
  inv_run. cbn in *. eapply shared_ok_ext; [..|exact Hs]; by rewrite lookup_insert_ne by done.
Qed.

(** A message that changes the store adds one verified signature to it. *)
Lemma p2p_handle_ret text g u g' :
  P2P_handle text g = Ret (u, g') -> g' = g \/
  exists m sg pk s s' sh, message_of_json text = Ok (MBatch m) /\ current_store (g_shared g) = Some s /\
    entry_valid (batch_header s) (message_entry m sg pk) /\
    signatures s !! to_hex (msg_bn254_public_key m) = None /\
    add_entry s m sg pk = Ret s' /\ g' = with_shared sh g /\ stores (g_shared g) s' sh.
Proof.
  unfold P2P_handle, Message_from_str. intros Hr. inv_run. destruct (message_of_json text) as [[m]|] eqn:Em; [|done].
  cbn in *. simplify_eq. inv_run.
  match goal with H : verify _ _ _ _ = _ |- _ => unfold verify in H; inv_run end.
  destruct (ecdsa_verify _ _ _) eqn:Ev; cbn [negb] in *; [|inv_run; by left].
  inv_run. match goal with H : get_or_create_batch_signature_store _ _ = _ |- _ => apply get_store_ret in H as [Hc ->] end.
  case_bool_decide as Hh; [|inv_run]. case_bool_decide as Hd; [inv_run; by left|]. inv_run.
  match goal with H : save_store _ _ = _ |- _ => apply save_store_ret in H as (sh & -> & Hs) end.
  right. eexists m, _, _, _, _, sh. split_and!; [done|exact Hc| | |eassumption|done|done].
  - split_and!; cbn; [done..|]. by rewrite <- Hh.
  - by apply eq_None_not_Some.
Qed.

Lemma history_ok sh :
  pk_from_uncompressed own_pk = Some (bn254_from_private_key own_sk) -> history sh -> shared_ok sh.
Proof.
  intros Hown. induction 1 as [|sh sh' _ IH H1 H2|t g u g' _ IH Hhere Hr|g x g' _ IH Hhere Hk Hr].
  - split; [|done]. eexists _, []. split; [done|apply store_holds_default].
  - by eapply shared_ok_ext.
  - destruct t as [|b|text]; cbn in Hr; [by eapply batch_handle_ok|by eapply bridge_handle_ok|].
    apply p2p_handle_ret in Hr as [->|(m & sg & pk & s & s' & sh & Hm & Hc & Hv & Hn & Ha & -> & Hs)]; [done|].
    destruct IH as [(s0 & es & Hc0 & Hh) Hk]. assert (s0 = s) as -> by congruence.
    eapply shared_ok_stores; [split; eauto|exact Hs|by eapply add_entry_holds].
  - apply batch_processed_ret in Hr as [Hi Hcase]. apply batch_inputs_ret in Hi as (_ & Hc & Hbn & _).
    pose proof IH as [(s0 & es & Hc0 & Hh) Hpk]. assert (s0 = in_store x.1) as -> by congruence.
    destruct Hcase as [? ?|sh ? ? Hs|sg s sh Hne Hsg Hn Hs]; cbn; [done|by eapply shared_ok_stores|].
    destruct Hk as [k Hk]. rewrite (Hpk _ Hk) in Hk. rewrite Hk in Hbn. cbn in Hbn.
    change (in_bn254 x.1 = own_pk) in Hbn. rewrite Hbn in Hn. destruct Hhere as [Hkey _]. rewrite Hkey in Hsg.
    destruct (new_batch_store_holds _ _ _ _ _ _ Hn Hown) as (sb & Hh' & _); [by apply sign_verifies|].
    by eapply shared_ok_stores.
Qed.

(** C8: Whatever batches the contract announces and whatever messages other nodes
    send, in any order: the signature store is readable and holds, for its batch
    header, signatures that verify it, at most one for each public key; the
    aggregate signature and the aggregate public key are the sums of exactly the
    counted ones. *)
Theorem signature_store_sound sh :
  pk_from_uncompressed own_pk = Some (bn254_from_private_key own_sk) -> history sh ->
  exists s es, current_store sh = Some s /\ store_holds s es /\ size (signatures s) = length es.
Proof.
  intros Hown Hh. destruct (history_ok sh Hown Hh) as [(s & es & Hc & Hs) _].
  exists s, es. split_and!; [done..|]. by apply store_size.
Qed.

End invariant.

(** ** The tasks, branch by branch *)

Section behaviour.
Context `{BN : Bn254} `{KC : !KeyCrates} `{CJ : ConsensusJson} `{BL : !Bn254Laws}.

(** The call that submits the signatures of a store *)
Definition submission (cid : string) (s : BatchSignatureStore) (leader_signature : bytes) (deposit : Z) : Promise :=
  promised (guest_chain_call Near cid "post_signed_batch"
    (string_bytes (post_signed_batch_json (aggregated_signature s) (aggregated_public_keys s)
       (store_signers s) leader_signature)) deposit).

(** The store whose signatures the leader counts and submits: the one that the
    step found, with the slot brought up to date *)
Definition led_store (i : BatchInputs) : BatchSignatureStore :=
  if bool_decide (merkle_root (in_batch i) = batch_header (in_store i))
  then set_slot (current_slot (in_batch i)) (in_store i) else in_store i.

Lemma set_slot_id s : set_slot (slot s) s = s.
Proof. by destruct s. Qed.

Lemma batch_case_led i g s g' : batch_case i g s g' -> s = led_store i.
Proof.
  unfold led_store. destruct 1 as [-> Hs|sh -> _ _|? ? ? Hne]; [..|by rewrite bool_decide_eq_false_2].
  - rewrite bool_decide_eq_true_2 by done. by rewrite Hs, set_slot_id.
  - by rewrite bool_decide_eq_true_2.
Qed.

(** What the leader's part appends to the queue *)
Lemma batch_lead_ret ov x g u g' :
  batch_lead ov x g = Ret (u, g') ->
  exists submitted, g' = with_queue (g_queue g ++ submitted) g /\
    (is_slot_leader x.1 = false -> submitted = []) /\
    (is_slot_leader x.1 = true -> exists conf cb, g_results g !! 1 = Some (Fulfilled (Some cb)) /\
      main_config_of_json cb = Ok conf /\
      if decide (mc_committee_size conf = Z.of_nat (size (signatures x.2)))
      then exists ls d, leader_signed g ls /\ to_yocto ov "1" = Ret d /\ submitted = [submission (in_contract_id x.1) x.2 ls d]
      else submitted = []).
Proof.
  assert (forall g, with_queue (g_queue g ++ []) g = g) as Hid by (intros []; unfold with_queue; cbn; by rewrite app_nil_r).
  unfold batch_lead, is_slot_leader. case_bool_decide as Hnone.
  { intros Hr. inv_run. exists []. rewrite Hid. split_and!; [done..|]. rewrite Hnone. by case_bool_decide. }
  case_bool_decide as Hl; intros Hr; [|inv_run; exists []; by rewrite Hid].
  apply process_slot_leader_ret in Hr as (conf & cb & H1 & H2 & Hd). case_decide as Hsz.
  - destruct Hd as (ls & d & Hls & Hy & ->). exists [submission (in_contract_id x.1) x.2 ls d]. split_and!; [done..|].
    intros _. exists conf, cb. rewrite decide_True by done. eauto 10.
  - subst g'. exists []. rewrite Hid. split_and!; [done..|]. intros _. exists conf, cb. by rewrite decide_False by done.
Qed.

(** A step of the batch task that returns has done exactly this.  For the
    known header in the known slot nothing is broadcast and the store stays; in
    another slot the stored message is broadcast again; for a new header the
    node signs it, starts a new store, and broadcasts its signature.  Only the
    slot leader submits, and it does so exactly if the store that the step found
    had as many signatures as the committee has members; it submits the
    aggregates of that store. *)
Lemma batch_step_1_correct ov g g' :
  batch_step_1 ov g = Ret (tt, g') ->
  exists i broadcast submitted, batch_inputs g = Ret (i, g) /\
    g_queue g' = g_queue g ++ (promised ∘ p2p_broadcast_message <$> broadcast) ++ submitted /\
    (merkle_root (in_batch i) = batch_header (in_store i) ->
      current_store (g_shared g') = Some (led_store i) /\
      broadcast = if decide (current_slot (in_batch i) = slot (in_store i)) then [] else [p2p_message (in_store i)]) /\
    (merkle_root (in_batch i) <> batch_header (in_store i) -> exists sg s,
      ecdsa_sign (merkle_root (in_batch i)) (g_key g) = Some sg /\
      new_batch_store (in_batch i) (in_ed25519 i) (in_bn254 i) sg = Ret s /\
      current_store (g_shared g') = Some s /\ broadcast = [p2p_message s]) /\
    (is_slot_leader i = false -> submitted = []) /\
    (is_slot_leader i = true -> exists conf cb, g_results g !! 1 = Some (Fulfilled (Some cb)) /\
      main_config_of_json cb = Ok conf /\
      if decide (mc_committee_size conf = Z.of_nat (size (signatures (in_store i))))
      then exists ls d, leader_signed g ls /\ to_yocto ov "1" = Ret d /\ submitted = [submission (in_contract_id i) (led_store i) ls d]
      else submitted = []).
Proof.
  unfold batch_step_1. intros Hr. inv_run.
  match goal with H : batch_processed _ = Ret (?x, _) |- _ => apply batch_processed_ret in H as [Hi Hcase];
    destruct x as [i s]; cbn in Hi, Hcase end.
  pose proof (batch_case_led _ _ _ _ Hcase) as ->.
  assert (size (signatures (led_store i)) = size (signatures (in_store i))) as Hsz
    by (unfold led_store; by case_bool_decide).
  apply batch_lead_ret in Hr as (submitted & -> & Hno & Hyes). cbn in Hno, Hyes. rewrite Hsz in Hyes.
  pose proof (batch_inputs_ret _ _ _ Hi) as (_ & Hc & _).
  assert (merkle_root (in_batch i) = batch_header (in_store i) ->
    led_store i = set_slot (current_slot (in_batch i)) (in_store i)) as Hled
    by (intros; unfold led_store; by rewrite bool_decide_eq_true_2).
  inversion Hcase as [Hroot Hslot|sh Hroot Hslot Hs Hst|sg s sh Hne Hsg Hn Hs]; subst.
  - exists i, [], submitted. split_and!; [done|done| |done|done|done]. intros _. rewrite decide_True by done.
    split; [|done]. by rewrite Hled, Hslot, set_slot_id.
  - exists i, [p2p_message (in_store i)], submitted.
    split_and!; [done|cbn; by rewrite <- app_assoc| |done|done|done]. intros _. rewrite decide_False by done.
    split; [|done]. rewrite Hled by done. by eapply stores_current.
  - exists i, [p2p_message s], submitted.
    split_and!; [done|cbn; by rewrite <- app_assoc|done| |done|done]. intros _. exists sg, s.
    split_and!; [done|done|by eapply stores_current|done].
Qed.

(** C40: The leader can submit signatures of a batch that is over: when the
    contract announces a new root and the store is complete for the old one, the
    step that signs the new root submits the aggregates of the old one.  The new
    batch is processed in a variable that shadows the store. *)
Theorem stale_signatures_submitted ov g g' i cb conf es :
  batch_step_1 ov g = Ret (tt, g') -> batch_inputs g = Ret (i, g) ->
  store_holds (in_store i) es -> merkle_root (in_batch i) <> batch_header (in_store i) ->
  is_slot_leader i = true -> g_results g !! 1 = Some (Fulfilled (Some cb)) ->
  main_config_of_json cb = Ok conf -> mc_committee_size conf = Z.of_nat (length es) ->
  exists ls d, last (g_queue g') = Some (submission (in_contract_id i) (in_store i) ls d) /\
    (exists s, current_store (g_shared g') = Some s /\ batch_header s = merkle_root (in_batch i)) /\
    Forall (entry_valid (batch_header (in_store i))) es.
Proof.
  unfold batch_step_1. intros Hr Hi Hh Hne Hl H1 H2 Hsz. inv_run.
  match goal with H : batch_processed _ = Ret (?x, _) |- _ => apply batch_processed_ret in H as [Hi' Hcase];
    destruct x as [i' s]; cbn in Hi', Hcase end.
  rewrite Hi in Hi'. injection Hi' as <-. rewrite (batch_case_led _ _ _ _ Hcase) in *.
  apply batch_lead_ret in Hr as (submitted & -> & _ & Hyes). cbn in Hyes.
  assert (led_store i = in_store i) as El by (unfold led_store; by rewrite bool_decide_eq_false_2).
  destruct (Hyes Hl) as (conf' & cb' & H1' & H2' & Hd). rewrite El in *.
  inversion Hcase as [|? ?|sg s' sh _ Hsg Hn Hs]; [done..|]. subst.
  cbn in H1'. rewrite H1 in H1'. injection H1' as <-. rewrite H2 in H2'. injection H2' as <-.
  rewrite decide_True in Hd by (rewrite (store_size _ _ Hh); done). destruct Hd as (ls & d & _ & _ & ->).
  exists ls, d. split_and!; [cbn [with_queue g_queue]; by rewrite last_snoc| |apply Hh].
  exists s'. split; [by eapply stores_current|]. unfold new_batch_store in Hn. by inv_run.
Qed.

(** A message whose parts decode, at a given store *)
Lemma p2p_handle_run text m sg pk g s :
  message_of_json text = Ok (MBatch m) ->
  sig_from_uncompressed (msg_signature m) = Some sg -> pk_from_uncompressed (msg_bn254_public_key m) = Some pk ->
  is_Some (sig_to_uncompressed sg) -> is_Some (pk_to_uncompressed pk) -> current_store (g_shared g) = Some s ->
  P2P_handle text g =
    if negb (ecdsa_verify (msg_batch_header m) sg pk) then Ret (tt, g)
    else if bool_decide (msg_batch_header m = batch_header s) then
      if bool_decide (is_Some (signatures s !! to_hex (msg_bn254_public_key m))) then Ret (tt, g)
      else (s ← lift (add_entry s m sg pk); save_store s) g
    else Panic "not yet implemented: Not yet implemented because batch header is always the same".
Proof.
  intros Hm Hsg Hpk [sb Hsb] [kb Hkb] Hc. unfold P2P_handle, Message_from_str, verify, mbind, M_bind, lift, unwrap, expect.
  rewrite Hm, Hsg, Hpk, Hsb, Hkb. cbn. destruct (negb _); [done|].
  rewrite get_store_eq, Hc. case_bool_decide; [|done]. by case_bool_decide.
Qed.

(** A message from another node.  If its signature does not verify, or its
    key is already in the store, nothing changes; if it verifies another header
    than the store's, the task panics; otherwise the store gets exactly this
    signature, and the same message again changes nothing. *)
Lemma p2p_handle_correct text g m s sg pk :
  message_of_json text = Ok (MBatch m) -> current_store (g_shared g) = Some s ->
  sig_from_uncompressed (msg_signature m) = Some sg -> pk_from_uncompressed (msg_bn254_public_key m) = Some pk ->
  is_Some (sig_to_uncompressed sg) -> is_Some (pk_to_uncompressed pk) ->
  let known := bool_decide (is_Some (signatures s !! to_hex (msg_bn254_public_key m))) in
  (ecdsa_verify (msg_batch_header m) sg pk = false -> P2P_handle text g = Ret (tt, g)) /\
  (ecdsa_verify (msg_batch_header m) sg pk = true ->
    (msg_batch_header m <> batch_header s -> is_ret (P2P_handle text g) = false) /\
    (msg_batch_header m = batch_header s -> known = true -> P2P_handle text g = Ret (tt, g)) /\
    (msg_batch_header m = batch_header s -> known = false -> forall s', add_entry s m sg pk = Ret s' ->
      exists sh, P2P_handle text g = Ret (tt, with_shared sh g) /\ stores (g_shared g) s' sh /\
        P2P_handle text (with_shared sh g) = Ret (tt, with_shared sh g))).
Proof.
  intros Hm Hc Hsg Hpk Hsb Hkb known. pose proof (fun g' s' => p2p_handle_run text m sg pk g' s' Hm Hsg Hpk Hsb Hkb) as Hrun.
  rewrite (Hrun g s Hc). fold known. split; [by intros ->|]. intros Hv. rewrite Hv. cbn [negb]. split_and!.
  - intros Hne. by rewrite bool_decide_eq_false_2.
  - intros He. rewrite bool_decide_eq_true_2 by done. by intros ->.
  - intros He. rewrite bool_decide_eq_true_2 by done. intros ->. intros s' Ha.
    destruct (save_store_eq s' g) as (sh & Hsave & Hst). exists sh. rewrite Ha. split_and!; [exact Hsave|done|].
    rewrite (Hrun _ s') by (by eapply stores_current). rewrite Hv. cbn [negb].
    unfold add_entry in Ha. inv_run. cbn. rewrite bool_decide_eq_true_2 by done.
    by rewrite lookup_insert_eq.
Qed.

(** *** At the contract *)

Context `{NS : NearSdk}.

(** The node of a committee member is registered with the key of its entry. *)
Definition registered (c : MainchainContract) (committee : list AccountId) (e : Entry) : Prop :=
  e_signer e ∈ committee /\
  exists node, um_get (active_nodes c) (e_signer e) = Some node /\ bn254_public_key node = e_pk_bytes e.

Lemma signer_public_key_eq c committee e header :
  entry_valid header e -> registered c committee e ->
  signer_public_key c committee (e_signer e) = Ret (e_pk e).
Proof.
  intros (Hpk & _) (Hin & node & Hn & Hk). unfold signer_public_key. rewrite bool_decide_eq_true_2 by done.
  by rewrite Hn; cbn; rewrite Hk, Hpk.
Qed.

Lemma fold_signers_eq c committee header es acc :
  Forall (entry_valid header) es -> Forall (registered c committee) es ->
  fold_signers c committee acc (e_signer <$> es) = Ret (fold_left pk_add (e_pk <$> es) acc).
Proof.
  intros Hv. revert acc. induction Hv as [|e es He _ IH]; intros acc; [done|].
  intros [Hr Hrs]%Forall_cons. cbn. by rewrite (signer_public_key_eq _ _ _ _ He Hr); cbn; apply IH.
Qed.

(** The public key that the contract reconstructs from the submitted signers
    is the aggregate that the leader submits, provided that every counted
    signer is a member of the committee and has registered the key it signed
    with: [post_signed_batch] accepts the pair. *)
Lemma submission_matches_contract c committee s es :
  store_holds s es -> es <> [] -> Forall (registered c committee) es ->
  exists pk, aggregate_signers c committee (store_signers s) = Ret pk /\
    pk_to_uncompressed pk = Some (aggregated_public_keys s).
Proof.
  intros (Hs & _ & _ & Hv & _ & Hk) Hne Hr. rewrite Hs. destruct es as [|e es]; [done|].
  apply Forall_cons in Hv as [He Hv]. apply Forall_cons in Hr as [Hre Hr]. cbn in Hk |- *.
  rewrite (signer_public_key_eq _ _ _ _ He Hre). cbn. rewrite (fold_signers_eq _ _ _ _ _ Hv Hr). eauto.
Qed.

Lemma fold_signers_foreign c committee x l acc :
  x ∉ committee -> x ∈ l -> is_ret (fold_signers c committee acc l) = false.
Proof.
  intros Hx. revert acc. induction l as [|y l IH]; intros acc Hl; [by apply not_elem_of_nil in Hl|]. cbn.
  destruct (signer_public_key c committee y) as [k|] eqn:E; [|done]. cbn.
  apply elem_of_cons in Hl as [<-|Hl]; [|by apply IH].
  unfold signer_public_key in E. by rewrite bool_decide_eq_false_2 in E.
Qed.

(** A message of a stranger blocks the batch: the account that a message
    names is neither signed nor checked.  Once a message with a valid signature
    of any key and an account outside the committee was added to the store,
    nothing that the store can grow to for this header is accepted by the
    contract. *)
Theorem foreign_signer_blocks_submission text g g' m s sg pk c committee later :
  message_of_json text = Ok (MBatch m) -> current_store (g_shared g) = Some s ->
  sig_from_uncompressed (msg_signature m) = Some sg -> pk_from_uncompressed (msg_bn254_public_key m) = Some pk ->
  ecdsa_verify (msg_batch_header m) sg pk = true -> msg_batch_header m = batch_header s ->
  signatures s !! to_hex (msg_bn254_public_key m) = None ->
  to_hex (msg_ed25519_public_key m) ∉ committee ->
  P2P_handle text g = Ret (tt, g') ->
  exists s', current_store (g_shared g') = Some s' /\ size (signatures s') = S (size (signatures s)) /\
    is_ret (aggregate_signers c committee (store_signers s' ++ later)) = false.
Proof.
  intros Hm Hc Hsg Hpk Hv Hh Hn Hx Hr. revert Hr.
  unfold P2P_handle, Message_from_str, verify. intros Hr.
  inv_run. rewrite Hm in *. cbn in *. simplify_eq. inv_run. simplify_eq. rewrite Hv in Hr. cbn [negb] in Hr. inv_run.
  match goal with H : get_or_create_batch_signature_store _ _ = _ |- _ => apply get_store_ret in H as [Hc' ->] end.
  rewrite Hc in Hc'. injection Hc' as <-. rewrite bool_decide_eq_true_2 in Hr by done.
  rewrite bool_decide_eq_false_2 in Hr by (rewrite Hn; by intros [? ?]). inv_run.
  match goal with H : save_store _ _ = _ |- _ => apply save_store_ret in H as (sh & -> & Hst) end.
  match goal with H : add_entry _ _ _ _ = Ret ?x |- _ => exists x; unfold add_entry in H; inv_run end.
  split_and!; [by eapply stores_current|cbn; by rewrite map_size_insert_None|]. cbn [store_signers].
  rewrite <- app_assoc. destruct (store_signers s) as [|y l]; cbn.
  - unfold signer_public_key. by rewrite bool_decide_eq_false_2.
  - destruct (signer_public_key c committee y); [cbn|done]. apply (fold_signers_foreign _ _ _ _ _ Hx). set_solver.
Qed.

Lemma from_bytes_unwrap_eq {T} `{BytesCodec T valid} (x : T) : valid x -> from_bytes_unwrap (to_bytes x) = Ret x.
Proof. intros Hx. unfold from_bytes_unwrap. by rewrite codec_roundtrip. Qed.

(** The bridge: the data that the other chain returned is posted to the oracle
    contract, with the deposit the caller chose. *)
Lemma bridge_forwards b g g1 u data results :
  in_int false 16 (int_val (bridge_deposit b)) ->
  valid_string data = true ->
  Bridge_handle b g = Ret (u, g1) ->
  exists cid, g_env g !! "ORACLE_CONTRACT_ID"%string = Some cid /\
    (valid_string cid = true -> exists g2,
      bridge_step_1 (mkGuest (g_shared g1) (g_private g1) (Fulfilled (Some (string_bytes data)) :: results) [] (g_key g1) (g_env g1))
        = Ret (tt, g2) /\
      g_queue g2 = promised <$> [guest_chain_call Near cid "post_data_request" (string_bytes (data_request_json data))
                                   (int_val (bridge_deposit b)); call_self "bridge_step_2" []]).
Proof.
  intros Hd Hv Hr. unfold Bridge_handle, get_oracle_contract_id, env_var, shared_memory_set, private_set, enqueue in Hr.
  inv_run. cbn -[to_bytes] in *. eexists. split; [eassumption|]. intros Hcid. eexists.
  unfold bridge_step_1, shared_memory_get, private_get, result_at, gets, mbind, M_bind, lift, unwrap.
  cbn -[from_bytes_unwrap to_bytes]. rewrite !lookup_insert_eq. cbn -[from_bytes_unwrap to_bytes].
  unfold string_of_utf8, valid_string, id in *. rewrite Hcid.
  cbn -[from_bytes_unwrap to_bytes]. rewrite lookup_insert_eq. cbn -[from_bytes_unwrap to_bytes].
  rewrite (from_bytes_unwrap_eq (T := int_ty false 16)) by done.
  change (string_bytes data) with (to_bytes data). rewrite (from_bytes_unwrap_eq (T := string)) by done.
  unfold string_bytes. rewrite String.string_of_list_byte_of_string. split; [reflexivity|done].
Qed.

End behaviour.

(** ** A concrete world *)

Module RefConsensus.

(** Keys and signatures are bytes, padded to their sizes: a signature is the sum
    of the key and of the message's first byte. *)
Definition byte_add (a b : byte) : byte := byte_of_Z (byte_val a + byte_val b).
Definition pad (n : nat) (b : byte) : bytes := b :: replicate n x00.
Definition unpad (n : nat) (bs : bytes) : option byte := if decide (length bs = n) then head bs else None.

#[export] Instance small_bn254 : Bn254.
Proof.
  refine {|
    PublicKey := byte; Signature := byte; PrivateKey := byte;
    pk_from_uncompressed := unpad 128; pk_to_uncompressed k := Some (pad 127 k); pk_add := byte_add;
    sig_from_uncompressed := unpad 64; sig_to_uncompressed k := Some (pad 63 k); sig_add := byte_add;
    ecdsa_sign m k := Some (byte_add k (default x00 (head m)));
    ecdsa_verify m s k := bool_decide (s = byte_add k (default x00 (head m)));
    format_pairing_check_uncompressed_values _ _ _ := None;
    alt_bn128_pairing_check _ := 0%Z;
  |}; by intros b bs [= <-].
Defined.

#[export] Instance small_crates : KeyCrates.
Proof.
  refine {|
    to_hex := String.string_of_list_byte; of_hex s := Some (string_bytes s);
    derive_key k info := None; bn254_private_try_from := head; bn254_from_private_key k := k;
    Ed25519PrivateKey := bytes; Ed25519PublicKey := bytes; ed25519_from_bytes := Some;
    ed25519_public k := k; ed25519_private_bytes k := k; ed25519_public_bytes k := k;
  |}.
  intros bs. unfold string_bytes. by rewrite String.list_byte_of_string_of_list_byte.
Defined.

#[export] Instance small_laws : Bn254Laws.
Proof. split; [by intros b bs [= <-]..|]. intros m sk s [= <-]. by apply bool_decide_eq_true. Qed.

Definition store_tuple (s : BatchSignatureStore) :=
  (aggregated_signature s, aggregated_public_keys s, store_signers s, signatures s, slot s, batch_header s, p2p_message s).
Definition tuple_store (x : bytes * bytes * list string * gmap string bytes * Z * bytes * bytes) : BatchSignatureStore :=
  let '(a, b, c, d, e, f, g) := x in mkStore a b c d e f g.
Definition message_tuple (m : Message) :=
  let 'MBatch m := m in (msg_batch_header m, msg_bn254_public_key m, msg_signature m, msg_ed25519_public_key m).
Definition tuple_message (x : bytes * bytes * bytes * bytes) : Message :=
  let '(a, b, c, d) := x in MBatch (mkBatchMessage a b c d).

(** The contract's answers: a root of one byte in the slot of the same number,
    with this node as its leader; a committee of as many members as the byte *)
Definition leader_account : string := String.string_of_list_byte [x61].
#[export] Instance small_json : ConsensusJson.
Proof.
  refine {|
    store_to_json s := RefWasm.to_json (store_tuple s);
    store_of_json bs := match RefWasm.of_json (String.string_of_list_byte bs) with Ok x => Ok (tuple_store x) | Err e => Err e end;
    message_to_json m := match RefWasm.to_json (message_tuple m) with Ok j => Ok (string_bytes j) | Err e => Err e end;
    message_of_json t := match RefWasm.of_json t with Ok x => Ok (tuple_message x) | Err e => Err e end;
    merkle_root_of_json bs := Ok (mkComputeMerkleRootResult bs (le_val bs) (Some leader_account));
    main_config_of_json bs := Ok (mkMainChainConfig 0 0 (le_val bs) 0);
    string_of_json bs := Ok (String.string_of_list_byte bs);
    post_signed_batch_json a b c d := EmptyString;
    data_request_json d := d;
    u256_from_dec_str t := Some 5%Z;
  |}.
  - intros s. destruct (RefWasm.to_of_json (store_tuple s)) as (j & E1 & E2 & _). exists j. split; [done|].
    unfold string_bytes. rewrite String.string_of_list_byte_of_string, E2. by destruct s.
  - intros m. destruct (RefWasm.to_of_json (message_tuple m)) as (j & E1 & E2 & E3). exists (string_bytes j).
    rewrite E1. split; [done|]. split; [|exact E3].
    unfold string_bytes. rewrite String.string_of_list_byte_of_string, E2. by destruct m as [[]].
Defined.

Definition own_key : byte := x05.
Definition own_public : bytes := pad 127 own_key.
Definition small_env : gmap string string :=
  <["ORACLE_CONTRACT_ID"%string := EmptyString]> (<["ED25519_PUBLIC_KEY"%string := to_hex [x61]]>
    {["BN254_PUBLIC_KEY"%string := to_hex own_public]}).

(** A run of the second step of the batch task: the shared memory it finds, the
    root and the size of the committee it gets from the contract *)
Definition step_guest (sh : gmap string bytes) (root members : byte) : Guest :=
  mkGuest sh ∅ [Fulfilled (Some [root]); Fulfilled (Some [members]); Fulfilled (Some [])] [] own_key small_env.
Definition keys_shared : gmap string bytes :=
  <["bn254_public_key"%string := own_public]> (<["ed25519_public_key"%string := [x61]]> {["contract_id"%string := []]}).

Definition step_inputs (s : BatchSignatureStore) (root : byte) : BatchInputs :=
  mkInputs EmptyString own_public [x61] s (mkComputeMerkleRootResult [root] (le_val [root]) (Some leader_account)).

Lemma step_guest_ready sh s root members :
  (forall k, k <> BATCH_SIGNATURE_STORE_KEY -> sh !! k = keys_shared !! k) -> current_store sh = Some s ->
  step_ready (step_guest sh root members) (step_inputs s root) (mkMainChainConfig 0 0 (le_val [members]) 0) 5%Z.
Proof.
  intros Hk Hs. split; cbn [step_guest g_shared g_key g_results step_inputs in_contract_id in_bn254 in_ed25519 in_store in_batch].
  - split; [done|]. by rewrite Hk.
  - split; [by rewrite Hk|]. exists own_key, own_public. done.
  - by rewrite Hk.
  - done.
  - intros m. eexists _, _. done.
  - by eexists.
  - by eexists.
  - by eexists [], _.
Qed.

Lemma keys_current : current_store keys_shared = Some BatchSignatureStore_default.
Proof. reflexivity. Qed.

(** The first batch: the store with the node's own signature *)
Definition first_store : BatchSignatureStore :=
  mkStore (pad 63 (byte_add own_key x09)) own_public [leader_account]
    {[to_hex own_public := pad 63 (byte_add own_key x09)]} 9 [x09] [].
Definition first_entry : Entry :=
  mkEntry own_public own_key (pad 63 (byte_add own_key x09)) (byte_add own_key x09) leader_account.
Lemma first_store_holds : store_holds first_store [first_entry].
Proof. split_and!; try reflexivity; [apply NoDup_singleton|]. by apply Forall_singleton. Qed.

Lemma first_shared : exists sh, current_store sh = Some first_store /\
  forall k, k <> BATCH_SIGNATURE_STORE_KEY -> sh !! k = keys_shared !! k.
Proof.
  destruct (store_json first_store) as (j & _ & E). exists (<[BATCH_SIGNATURE_STORE_KEY := string_bytes j]> keys_shared).
  split; [unfold current_store; by rewrite lookup_insert_eq, E|]. intros k Hk. by rewrite lookup_insert_ne.
Qed.

(** The program is started, then it processes a first batch. *)
Lemma started_history : history own_key own_public keys_shared.
Proof.
  refine (history_task own_key own_public TBatch (mkGuest ∅ ∅ [] [] own_key small_env) tt
    (mkGuest keys_shared ∅ [] (promised <$> [guest_chain_view Near EmptyString "compute_merkle_root" [];
       guest_chain_view Near EmptyString "get_config" [];
       guest_chain_view Near EmptyString "get_last_generated_random_number" [];
       call_self "batch_step_1" []]) own_key small_env) (history_start _ _) _ _).
  - by split.
  - reflexivity.
Qed.

(** The message of another node for the first batch *)
Definition other_message (account : bytes) : BatchMessage :=
  mkBatchMessage [x09] (pad 127 x07) (pad 63 (byte_add x07 x09)) account.
Lemma other_known account : signatures first_store !! to_hex (msg_bn254_public_key (other_message account)) = None.
Proof. apply lookup_singleton_ne. intros E%(inj to_hex). discriminate E. Qed.

Definition other_added (account : bytes) : BatchSignatureStore :=
  mkStore (pad 63 (byte_add (byte_add own_key x09) (byte_add x07 x09))) (pad 127 (byte_add own_key x07))
    [leader_account; to_hex account]
    (<[to_hex (pad 127 x07) := pad 63 (byte_add x07 x09)]> (signatures first_store)) 9 [x09] [].
Lemma other_add_entry account :
  add_entry first_store (other_message account) (byte_add x07 x09) x07 = Ret (other_added account).
Proof. reflexivity. Qed.

End RefConsensus.

Section witnesses.
Import RefConsensus.

Lemma signature_store_sound_witness :
  exists x g', batch_processed (step_guest keys_shared x09 x01) = Ret (x, g') /\
    exists s es, current_store (g_shared g') = Some s /\ store_holds s es /\ size (signatures s) = length es.
Proof.
  destruct (batch_processed_eq _ _ _ _ (step_guest_ready keys_shared _ x09 x01 (fun _ _ => eq_refl) keys_current))
    as (s & g' & Hp & _). eexists _, g'. split; [exact Hp|].
  apply (signature_store_sound (BN := small_bn254) own_key own_public (g_shared g')); [reflexivity|].
  refine (history_batch (BN := small_bn254) own_key own_public (step_guest keys_shared x09 x01) _ g' started_history _ _ Hp); [split; reflexivity|by eexists].
Defined.

Lemma stale_signatures_submitted_witness :
  exists g g' ls d, batch_step_1 true g = Ret (tt, g') /\ current_store (g_shared g) = Some first_store /\
    last (g_queue g') = Some (submission EmptyString first_store ls d) /\
    exists s, current_store (g_shared g') = Some s /\ batch_header s = [x0a].
Proof.
  destruct first_shared as (sh & Hs & Hk). pose proof (step_guest_ready sh _ x0a x01 Hk Hs) as Hr.
  destruct (batch_step_1_returns true _ _ _ _ Hr) as [g' Hg].
  destruct (stale_signatures_submitted true _ g' _ [x01] (mkMainChainConfig 0 0 1 0) [first_entry] Hg (batch_inputs_eq _ _ _ _ Hr))
    as (ls & d & Hl & Hc & _).
  - apply first_store_holds.
  - intros E. discriminate E.
  - reflexivity.
  - reflexivity.
  - reflexivity.
  - reflexivity.
  - eexists _, g', ls, d. split; [exact Hg|]. split; [exact Hs|]. split; [exact Hl|exact Hc].
Defined.

Lemma foreign_signer_blocks_submission_witness :
  exists text g g' s', P2P_handle text g = Ret (tt, g') /\ current_store (g_shared g') = Some s' /\
    size (signatures s') = 2 /\
    is_ret (aggregate_signers (H := RefSdk.ref_sdk) Scenario.genesis [leader_account] (store_signers s' ++ [])) = false.
Proof.
  destruct first_shared as (sh & Hs & Hk). destruct (message_json (MBatch (other_message [x7a]))) as (j & _ & Hj & _).
  destruct (save_store_eq (other_added [x7a]) (step_guest sh x09 x01)) as (sh' & Hsave & _).
  exists (String.string_of_list_byte j), (step_guest sh x09 x01), (with_shared sh' (step_guest sh x09 x01)).
  assert (P2P_handle (String.string_of_list_byte j) (step_guest sh x09 x01) = Ret (tt, with_shared sh' (step_guest sh x09 x01))) as Hr.
  { unfold P2P_handle, Message_from_str. rewrite Hj. do 4 run_step.
    change (negb _) with false. cbn beta iota.
    erewrite M_bind_eq by (rewrite get_store_eq; cbn [step_guest g_shared]; rewrite Hs; reflexivity).
    rewrite other_known. cbn beta iota. exact Hsave. }
  destruct (foreign_signer_blocks_submission (BN := small_bn254) (String.string_of_list_byte j) (step_guest sh x09 x01)
    (with_shared sh' (step_guest sh x09 x01)) (other_message [x7a]) first_store
    (byte_add x07 x09) x07 (NS := RefSdk.ref_sdk) Scenario.genesis [leader_account] [] Hj Hs eq_refl eq_refl eq_refl eq_refl
    (other_known _)) as (s' & Hc & Hsz & Ha); [|exact Hr|].
  - intros Hin. apply list_elem_of_singleton in Hin. discriminate Hin.
  - exists s'. split; [exact Hr|]. split; [exact Hc|]. split; [exact Hsz|exact Ha].
Defined.

(** A contract with the two nodes registered *)
Definition two_nodes : @MainchainContract RefSdk.ref_sdk :=
  set_active_nodes (H := RefSdk.ref_sdk)
    (um_insert (um_insert um_new leader_account (mkNode EmptyString 0 own_public [x61]))
       (to_hex [x62]) (mkNode EmptyString 0 (pad 127 x07) [x62])) Scenario.genesis.

Lemma submission_matches_contract_witness :
  exists pk, aggregate_signers (H := RefSdk.ref_sdk) two_nodes [leader_account; to_hex [x62]] (store_signers (other_added [x62])) = Ret pk /\
    pk_to_uncompressed pk = Some (aggregated_public_keys (other_added [x62])).
Proof.
  apply (submission_matches_contract (BN := small_bn254) (NS := RefSdk.ref_sdk) two_nodes [leader_account; to_hex [x62]] (other_added [x62])
    [first_entry; message_entry (BN := small_bn254) (other_message [x62]) (byte_add x07 x09) x07]).
  - refine (add_entry_holds (BN := small_bn254) first_store [first_entry] (other_message [x62]) (byte_add x07 x09) x07 _ first_store_holds _
      (other_known _) (other_add_entry _)). split; [reflexivity|]. split; reflexivity.
  - discriminate.
  - apply Forall_cons. split.
    + split; [by left|]. eexists. split; reflexivity.
    + apply Forall_singleton. split; [by right; left|]. eexists. split; reflexivity.
Defined.

End witnesses.
