(* ===== verification/Chains.v ===== *)
(** * Access to the chains

    Models [src/chains/src]: the clients, the interface of a chain
    ([chain_adapter_trait.rs]), the dispatch on the chain ([lib.rs]), the adapter for NEAR with its transactions and the loop that
    waits for their outcome ([near_chain.rs]), and the adapter of the chain that
    is not there yet ([another_chain.rs]).

    The NEAR crates are parameters: parsing of account ids, the keys and
    signatures of transactions, their encoding, and the calls over JSON RPC. *)

From S2P Require Import Prelude NearSdk Sdk Runtime Crypto Config.

(** ** Data *)

(** [ChainAdapterError]; foreign errors are held as their text *)
Inductive ChainAdapterError :=
| CallChangeMethod (err : string)
| CallViewMethod
| FailedTx (err : string)
| BadTransactionTimestamp
| FailedToExtractCurrentNonce
| BadParams (err : string)
| ParseAccountId
| JsonRpcQueryError (err : string)
| ParseKey
| JsonRpcTxError (err : string)
| MissingNearServerUrlConfig
| StdIoError (err : string)
| InvalidEd25519KeyPair.

Inductive Client :=
| ClientAnother
| ClientNear (rpc_url : string).

(** [near_primitives]: the actions and transactions in use *)
Inductive NearAction :=
| FunctionCall (method_name : string) (args : bytes) (gas deposit : Z)
| Transfer (deposit : Z).
Record Transaction := mkTransaction {
  tx_signer_id : string;
  tx_public_key : bytes;
  tx_nonce : Z;
  tx_receiver_id : string;
  tx_block_hash : bytes;
  tx_actions : list NearAction;
}.
Record SignedTransaction := mkSigned { transaction : Transaction; tx_signature : bytes }.

(** [near_crypto::InMemorySigner] *)
Record InMemorySigner := mkSigner { account_id : string; signer_public_key : bytes; secret_key : bytes }.

(** The answers of the RPC: to a query for an access key (nonce and block hash)
    or for a view call, and to a query for the status of a transaction *)
Inductive QueryResponseKind := AccessKey (nonce : Z) (block_hash : bytes) | CallResult (result : bytes) | OtherKind.
Inductive TxStatus :=
| UnknownTransaction
| TxRpcError (err : string)
| SuccessValue (value : bytes)
| OtherStatus (debug : string).

(** What the adapter uses of the NEAR crates, of the network and of the clock.
    Encoded transactions can be decoded; time does not run backwards, and sleeps
    last. *)
Class NearNet (W : Type) := {
  parse_account_id : string -> option string;
  keypair_public_key : bytes -> bytes;
  sign_transaction : Transaction -> bytes -> bytes;
  signed_to_vec : SignedTransaction -> option bytes;
  signed_of_slice : bytes -> option SignedTransaction;
  view_access_key : string -> string -> bytes -> W -> result QueryResponseKind string * W;
  call_function : string -> string -> string -> bytes -> W -> result QueryResponseKind string * W;
  broadcast_tx_async : string -> SignedTransaction -> W -> result bytes string * W;
  tx_status : string -> bytes -> string -> W -> TxStatus * W;
  now_ns : W -> Z;
  sleep_ns : Z -> W -> W;
  signed_roundtrip s bs : signed_to_vec s = Some bs -> signed_of_slice bs = Some s;
  broadcast_clock u s w : (now_ns w <= now_ns (broadcast_tx_async u s w).2)%Z;
  status_clock u h a w : (now_ns w <= now_ns (tx_status u h a w).2)%Z;
  sleep_clock n w : (now_ns w + n <= now_ns (sleep_ns n w))%Z;
}.

(** Fallible code with access to the network; [unimplemented!] and
    [unreachable!] panic *)
Definition net (W T : Type) : Type := W -> outcome (result T ChainAdapterError * W).
#[export] Instance net_ret {W} : MRet (net W) := fun T x w => Ret (Ok x, w).
#[export] Instance net_bind {W} : MBind (net W) := fun A B f m w =>
  match m w with
  | Ret (Ok x, w) => f x w
  | Ret (Err e, w) => Ret (Err e, w)
  | Panic msg => Panic msg
  end.
Definition net_result {W T} (r : result T ChainAdapterError) : net W T := fun w => Ret (r, w).
Definition net_ok_or {W T} (o : option T) (e : ChainAdapterError) : net W T :=
  net_result (match o with Some x => Ok x | None => Err e end).
Definition net_panic {W T} (msg : string) : net W T := fun _ => Panic msg.
(** [client.call(..).await?] *)
Definition net_call {W T E} (f : W -> result T E * W) (err : E -> ChainAdapterError) : net W T := fun w =>
  let '(r, w) := f w in Ret (match r with Ok x => Ok x | Err e => Err (err e) end, w).

Section chains.
Context {W : Type} `{NN : NearNet W} `{BN : Bn254} `{KC : !KeyCrates}.

(** ** NEAR *)

Definition get_in_memory_signer (signer_account_id : option string) (signer_keypair : bytes) : result InMemorySigner ChainAdapterError :=
  if decide (length signer_keypair = 64) then
    match parse_account_id (match signer_account_id with
                            | Some account_id => account_id
                            | None => to_hex (drop 32 signer_keypair)
                            end) with
    | Some a => Ok (mkSigner a (keypair_public_key signer_keypair) signer_keypair)
    | None => Err ParseAccountId
    end
  else Err InvalidEd25519KeyPair.

(** The nonce of the signer's access key, and the latest block *)
Definition access_key (rpc_url : string) (signer : InMemorySigner) : net W (Z * bytes) :=
  kind ← net_call (view_access_key rpc_url (account_id signer) (signer_public_key signer)) JsonRpcQueryError;
  match kind with
  | AccessKey nonce block_hash => mret (nonce, block_hash)
  | _ => net_result (Err FailedToExtractCurrentNonce)
  end.

(** [current_nonce + 1] on [u64], in a build with or without overflow checks *)
Definition next_nonce (ov : bool) (nonce : Z) : net W Z := fun w =>
  match add_w ov 64 nonce 1 with Ret n => Ret (Ok n, w) | Panic msg => Panic msg end.

(** [construct_tx], and [construct_signed_tx], which has the same steps *)
Definition construct_tx (ov : bool) (signer_account_id : option string) (signer_keypair : bytes)
    (receiver_id rpc_url : string) (actions : list NearAction) : net W bytes :=
  signer ← net_result (get_in_memory_signer signer_account_id signer_keypair);
  key ← access_key rpc_url signer;
  nonce ← next_nonce ov key.1;
  receiver ← net_ok_or (parse_account_id receiver_id) ParseAccountId;
  let tx := mkTransaction (account_id signer) (signer_public_key signer) nonce receiver key.2 actions in
  net_ok_or (signed_to_vec (mkSigned tx (sign_transaction tx (secret_key signer)))) (StdIoError "serialization").

Definition near_construct_signed_tx (ov : bool) (signer_account_id : option string) (signer_keypair : bytes)
    (contract_id method_name : string) (args : bytes) (gas deposit : Z) (server_url : string) : net W bytes :=
  construct_tx ov signer_account_id signer_keypair contract_id server_url [FunctionCall method_name args gas deposit].
Definition near_construct_transfer_tx (ov : bool) (signer_account_id : option string) (signer_keypair : bytes)
    (receiver_id : string) (deposit : Z) (server_url : string) : net W bytes :=
  construct_tx ov signer_account_id signer_keypair receiver_id server_url [Transfer deposit].

Definition second : Z := (10 ^ 9)%Z.
(** [(received_at - sent_at).as_secs()] *)
Definition elapsed_secs (sent_at received_at : Z) : Z := ((received_at - sent_at) / second)%Z.

(** The loop of [send_tx]; [fuel] bounds its turns. *)
Fixpoint await_tx (fuel : nat) (rpc_url : string) (tx_hash : bytes) (signer_id : string) (sent_at : Z) : net W bytes := fun w =>
  match fuel with
  | O => Panic "out of fuel"
  | S fuel =>
      let '(response, w) := tx_status rpc_url tx_hash signer_id w in
      if (60 <? elapsed_secs sent_at (now_ns w))%Z then Ret (Err BadTransactionTimestamp, w)
      else match response with
           | UnknownTransaction => await_tx fuel rpc_url tx_hash signer_id sent_at (sleep_ns (2 * second) w)
           | TxRpcError err => Ret (Err (CallChangeMethod err), w)
           | SuccessValue value => Ret (Ok value, w)
           | OtherStatus debug => Ret (Err (FailedTx debug), w)
           end
  end.

Definition near_send_tx (fuel : nat) (rpc_url : string) (signed_tx : bytes) : net W bytes :=
  tx ← net_ok_or (signed_of_slice signed_tx) (StdIoError "deserialization");
  sent_at ← (fun w => Ret (Ok (now_ns w), w));
  tx_hash ← net_call (broadcast_tx_async rpc_url tx) JsonRpcTxError;
  await_tx fuel rpc_url tx_hash (tx_signer_id (transaction tx)) sent_at.

Definition near_view (rpc_url contract_id method_name : string) (args : bytes) : net W bytes :=
  contract ← net_ok_or (parse_account_id contract_id) ParseAccountId;
  kind ← net_call (call_function rpc_url contract method_name args) JsonRpcQueryError;
  match kind with
  | CallResult r => mret r
  | _ => net_result (Err CallViewMethod)
  end.

(** ** The interface of a chain, and its two implementations *)

(** [trait ChainAdapterTrait]; the overflow checks and the turns of the loop that
    waits are those of the build *)
Record ChainAdapterTrait := mkChainAdapter {
  AdapterClient : Type;
  AdapterConfig : Type;
  new_client : AdapterConfig -> result AdapterClient ChainAdapterError;
  adapter_signed_tx : bool -> option string -> bytes -> string -> string -> bytes -> Z -> Z -> string -> net W bytes;
  adapter_transfer_tx : bool -> option string -> bytes -> string -> Z -> string -> net W bytes;
  adapter_send_tx : nat -> AdapterClient -> bytes -> net W bytes;
  adapter_view : AdapterClient -> string -> string -> bytes -> net W bytes;
}.

(** The client of NEAR is its URL. *)
Definition NearChain : ChainAdapterTrait := {|
  AdapterClient := string;
  AdapterConfig := NearConfig;
  new_client config := Ok (near_rpc_url config);
  adapter_signed_tx := near_construct_signed_tx;
  adapter_transfer_tx := near_construct_transfer_tx;
  adapter_send_tx := near_send_tx;
  adapter_view := near_view;
|}.

Definition not_implemented {T} : net W T := net_panic "not implemented".
Definition AnotherChain : ChainAdapterTrait := {|
  AdapterClient := unit;
  AdapterConfig := AnotherConfig;
  new_client _ := Ok tt;
  adapter_signed_tx _ _ _ _ _ _ _ _ _ := not_implemented;
  adapter_transfer_tx _ _ _ _ _ _ := not_implemented;
  adapter_send_tx _ _ _ := not_implemented;
  adapter_view _ _ _ _ := not_implemented;
|}.

(** ** Dispatch *)

(** Neither [new_client] fails. *)
Definition Client_new (chain : Chain) (chains_config : ChainConfigs) : Client :=
  match chain with
  | Another => ClientAnother
  | Near => ClientNear (near_rpc_url (conf_near chains_config))
  end.
Definition client_another (c : Client) : net W unit :=
  match c with ClientAnother => mret tt | _ => net_panic "internal error: entered unreachable code" end.
Definition client_near (c : Client) : net W string :=
  match c with ClientNear url => mret url | _ => net_panic "internal error: entered unreachable code" end.

Definition construct_signed_tx (ov : bool) (chain : Chain) (signer_account_id : option string) (signer_keypair : bytes)
    (contract_id method_name : string) (args : bytes) (gas deposit : Z) (server_url : string) : net W bytes :=
  match chain with
  | Another => adapter_signed_tx AnotherChain ov signer_account_id signer_keypair contract_id method_name args gas deposit server_url
  | Near => adapter_signed_tx NearChain ov signer_account_id signer_keypair contract_id method_name args gas deposit server_url
  end.
Definition construct_transfer_tx (ov : bool) (chain : Chain) (signer_account_id : option string) (signer_keypair : bytes)
    (receiver_id : string) (amount : Z) (server_url : string) : net W bytes :=
  match chain with
  | Another => adapter_transfer_tx AnotherChain ov signer_account_id signer_keypair receiver_id amount server_url
  | Near => adapter_transfer_tx NearChain ov signer_account_id signer_keypair receiver_id amount server_url
  end.
Definition send_tx (fuel : nat) (chain : Chain) (client : Client) (signed_tx : bytes) : net W bytes :=
  match chain with
  | Another => c ← client_another client; adapter_send_tx AnotherChain fuel c signed_tx
  | Near => c ← client_near client; adapter_send_tx NearChain fuel c signed_tx
  end.
Definition chain_view_client (chain : Chain) (client : Client) (contract_id method_name : string) (args : bytes) : net W bytes :=
  match chain with
  | Another => c ← client_another client; adapter_view AnotherChain c contract_id method_name args
  | Near => c ← client_near client; adapter_view NearChain c contract_id method_name args
  end.

(** [ChainCall::call_bytes] of [src/node/src/host/chain_call.rs] *)
Definition call_bytes (ov : bool) (fuel : nat) (chain : Chain) (contract_id method_name : string) (args : bytes)
    (client : Client) (deposit : Z) (node_config : NodeConfig) (chains_config : ChainConfigs) : net W bytes :=
  let server_url := match chain with
                    | Another => another_rpc_url (conf_another chains_config)
                    | Near => near_rpc_url (conf_near chains_config)
                    end in
  signed_txn ← construct_signed_tx ov chain None (ed25519_keypair_bytes (keypair_ed25519 node_config)) contract_id
                 method_name args (node_gas node_config) deposit server_url;
  send_tx fuel chain client signed_txn.

End chains.

(** ** Correctness *)

Section correctness.
Context {W : Type} `{NN : NearNet W} `{BN : Bn254} `{KC : !KeyCrates}.

Lemma net_bind_ret {A B} (m : net W A) (k : A -> net W B) w r w' :
  (m ≫= k) w = Ret (r, w') ->
  (exists x w1, m w = Ret (Ok x, w1) /\ k x w1 = Ret (r, w')) \/ (exists e, m w = Ret (Err e, w') /\ r = Err e).
Proof.
  unfold mbind, net_bind. destruct (m w) as [[[x|e] w1]|]; intros Hr; [left; eauto|right|done].
  simplify_eq. eauto.
Qed.
Lemma net_bind_ok {A B} (m : net W A) (k : A -> net W B) w v w' :
  (m ≫= k) w = Ret (Ok v, w') -> exists x w1, m w = Ret (Ok x, w1) /\ k x w1 = Ret (Ok v, w').
Proof. intros [?|(e & _ & ?)]%net_bind_ret; [done|discriminate]. Qed.

(** Turns that are left: each one that goes on takes two seconds. *)
Definition turns_left (sent_at now : Z) : nat := Z.to_nat (31 - (now - sent_at) / (2 * second)).

Lemma await_tx_returns fuel url h a sent_at w :
  (sent_at <= now_ns w)%Z -> turns_left sent_at (now_ns w) < fuel ->
  exists r w', await_tx fuel url h a sent_at w = Ret (r, w').
Proof.
  unfold turns_left. revert w. induction fuel as [|fuel IH]; intros w Hc Hf; [lia|]. cbn [await_tx].
  pose proof (status_clock url h a w) as Hs. destruct (tx_status url h a w) as [response w1] eqn:E. cbn in Hs.
  destruct (60 <? elapsed_secs sent_at (now_ns w1))%Z eqn:Ed; [by eexists _, _|]. bool_to_prop.
  destruct response; [|by eexists _, _..]. pose proof (sleep_clock (2 * second) w1) as Hsl.
  unfold second, elapsed_secs in *.
  apply IH; [lia|]. clear IH E.
  assert ((now_ns w1 - sent_at) / 10 ^ 9 <= 60)%Z as Hd by exact Ed.
  assert ((now_ns w - sent_at) / (2 * 10 ^ 9) + 1 <= (now_ns (sleep_ns (2 * 10 ^ 9) w1) - sent_at) / (2 * 10 ^ 9))%Z.
  { rewrite <- (Z.div_add _ 1) by lia. apply Z.div_le_mono; lia. }
  assert ((now_ns w - sent_at) / (2 * 10 ^ 9) <= 30)%Z by lia_div. lia.
Qed.

(** What an answer within the time limit is taken for *)
Definition tx_result (s : TxStatus) : option (result bytes ChainAdapterError) :=
  match s with
  | UnknownTransaction => None
  | TxRpcError err => Some (Err (CallChangeMethod err))
  | SuccessValue value => Some (Ok value)
  | OtherStatus debug => Some (Err (FailedTx debug))
  end.

Lemma await_tx_result fuel url h a sent_at w r w' :
  await_tx fuel url h a sent_at w = Ret (r, w') ->
  exists w0 s, tx_status url h a w0 = (s, w') /\
    if (60 <? elapsed_secs sent_at (now_ns w'))%Z then r = Err BadTransactionTimestamp else tx_result s = Some r.
Proof.
  revert w. induction fuel as [|fuel IH]; intros w; [done|]. cbn [await_tx].
  destruct (tx_status url h a w) as [response w1] eqn:E.
  destruct (60 <? elapsed_secs sent_at (now_ns w1))%Z eqn:Ed.
  - intros [= <- <-]. exists w, response. by rewrite Ed.
  - destruct response; [apply IH|..]; intros [= <- <-]; eexists w, _; (split; [exact E|]); by rewrite Ed.
Qed.

Lemma near_send_tx_returns fuel url signed_tx w :
  32 <= fuel -> exists r w', near_send_tx fuel url signed_tx w = Ret (r, w').
Proof.
  intros Hf. unfold near_send_tx, net_ok_or, net_result, net_call, mbind, net_bind.
  destruct (signed_of_slice signed_tx) as [tx|]; [|by eexists _, _]. pose proof (broadcast_clock url tx w) as Hb.
  destruct (broadcast_tx_async url tx w) as [[h|e] w1]; cbn in Hb; [|by eexists _, _].
  apply await_tx_returns; [done|]. unfold turns_left, second.
  assert (0 <= (now_ns w1 - now_ns w) / (2 * 10 ^ 9))%Z by (apply Z.div_pos; lia). lia.
Qed.

(** C31: Sending a transaction ends: after at most 32 requests for its status,
    since the node waits two seconds between them and gives up after a minute.
    What it returns is the last answer, a success as its value, unless a minute
    has passed: then it is a failure, also if the answer says that the
    transaction succeeded. *)
Theorem send_tx_terminates fuel url signed_tx w :
  32 <= fuel ->
  exists r w', near_send_tx fuel url signed_tx w = Ret (r, w') /\
    forall tx h w1, signed_of_slice signed_tx = Some tx -> broadcast_tx_async url tx w = (Ok h, w1) ->
      exists w0 s, tx_status url h (tx_signer_id (transaction tx)) w0 = (s, w') /\
        if (60 <? elapsed_secs (now_ns w) (now_ns w'))%Z then r = Err BadTransactionTimestamp else tx_result s = Some r.
Proof.
  intros Hf. destruct (near_send_tx_returns fuel url signed_tx w Hf) as (r & w' & Hr). exists r, w'. split; [done|].
  intros tx h w1 Htx Hb. unfold near_send_tx, net_ok_or, net_result, net_call, mbind, net_bind in Hr.
  rewrite Htx, Hb in Hr. by eapply await_tx_result.
Qed.

(** The function call that a transaction makes *)
Definition function_call (signer receiver : string) (public_key : bytes) (nonce : Z) (block_hash : bytes)
    (method_name : string) (args : bytes) (gas deposit : Z) : Transaction :=
  mkTransaction signer public_key nonce receiver block_hash [FunctionCall method_name args gas deposit].

Lemma access_key_ok url signer w x w1 :
  access_key url signer w = Ret (Ok x, w1) ->
  view_access_key url (account_id signer) (signer_public_key signer) w = (Ok (AccessKey x.1 x.2), w1).
Proof.
  unfold access_key. intros (kind & w2 & Hc & Hk)%net_bind_ok. unfold net_call in Hc.
  destruct (view_access_key _ _ _ w) as [[] w3]; simplify_eq.
  destruct kind; unfold net_result, mret, net_ret in Hk; by simplify_eq.
Qed.

(** A constructed transaction is the signer's next one, signed with its key. *)
Lemma construct_tx_ok ov signer keypair receiver_id url actions w bs w1 :
  construct_tx ov signer keypair receiver_id url actions w = Ret (Ok bs, w1) ->
  length keypair = 64 /\ exists me receiver nonce block_hash next,
    parse_account_id (default (to_hex (drop 32 keypair)) signer) = Some me /\
    parse_account_id receiver_id = Some receiver /\
    view_access_key url me (keypair_public_key keypair) w = (Ok (AccessKey nonce block_hash), w1) /\
    add_w ov 64 nonce 1 = Ret next /\
    let tx := mkTransaction me (keypair_public_key keypair) next receiver block_hash actions in
    signed_of_slice bs = Some (mkSigned tx (sign_transaction tx keypair)).
Proof.
  unfold construct_tx. intros Hc.
  apply net_bind_ok in Hc as (sg & wa & Hsg & Hc). unfold net_result in Hsg. injection Hsg as Hsg <-.
  unfold get_in_memory_signer in Hsg. case_decide as Hl; [|done]. split; [done|].
  destruct (parse_account_id (match signer with Some _ => _ | None => _ end)) as [me|] eqn:Hme; [|done]. injection Hsg as <-.
  apply net_bind_ok in Hc as (key & wb & Hk & Hc). apply access_key_ok in Hk. cbn in Hk.
  apply net_bind_ok in Hc as (nonce & wc & Hn & Hc). unfold next_nonce, add_w in Hn.
  destruct (arith _ _ _ _) as [n|] eqn:Ea; [|done]. injection Hn as <- <-.
  apply net_bind_ok in Hc as (receiver & wd & Hrec & Hc). unfold net_ok_or, net_result in Hrec.
  destruct (parse_account_id receiver_id) as [rec|] eqn:Hrc; [|done]. injection Hrec as <- <-.
  unfold net_ok_or, net_result in Hc. destruct (signed_to_vec _) as [bs'|] eqn:Ev; [|done]. injection Hc as <- <-.
  exists me, rec, key.1, key.2, n. destruct signer; (do 4 (split; [done|])); by apply signed_roundtrip.
Qed.

(** [tx] was broadcast and succeeded with the value [v], within a minute. *)
Definition tx_succeeds (url : string) (tx : SignedTransaction) (w : W) (v : bytes) (w' : W) : Prop :=
  exists h w2, broadcast_tx_async url tx w = (Ok h, w2) /\
    (elapsed_secs (now_ns w) (now_ns w') <= 60)%Z /\
    exists w0, tx_status url h (tx_signer_id (transaction tx)) w0 = (SuccessValue v, w').

Lemma send_tx_ok fuel url bs tx w v w' :
  signed_of_slice bs = Some tx -> send_tx fuel Near (ClientNear url) bs w = Ret (Ok v, w') -> tx_succeeds url tx w v w'.
Proof.
  intros Ev Hs. cbn [send_tx client_near] in Hs. apply net_bind_ok in Hs as (u & we & [= <- <-] & Hs).
  cbn [adapter_send_tx NearChain] in Hs. unfold near_send_tx, net_ok_or, net_result, mbind, net_bind, net_call in Hs. rewrite Ev in Hs.
  destruct (broadcast_tx_async url _ w) as [[h|e] w2] eqn:Eb; [|done].
  apply await_tx_result in Hs as (w0 & s & Hst & Hd). exists h, w2. split; [done|].
  destruct (60 <? _)%Z eqn:Ed; [done|]. bool_to_prop. split; [done|]. destruct s; cbn in Hd; simplify_eq; eauto.
Qed.

(** C30: A call of a contract that succeeds was broadcast as exactly that call:
    by the implicit account of the node's public key, signed with the node's
    key, with the next nonce of its access key, the configured gas and the given
    deposit; and its execution succeeded with the returned value, within a
    minute. *)
Theorem chain_call_broadcasts_call fuel contract_id method_name args deposit conf chains url w v w' :
  length (ed25519_private_bytes (private_key (keypair_ed25519 conf))) = 32 ->
  call_bytes true fuel Near contract_id method_name args (ClientNear url) deposit conf chains w = Ret (Ok v, w') ->
  let keypair := ed25519_keypair_bytes (keypair_ed25519 conf) in
  exists me receiver nonce block_hash h w1 w2,
    parse_account_id (to_hex (ed25519_public_bytes (public_key (keypair_ed25519 conf)))) = Some me /\
    parse_account_id contract_id = Some receiver /\
    view_access_key (near_rpc_url (conf_near chains)) me (keypair_public_key keypair) w = (Ok (AccessKey nonce block_hash), w1) /\
    let tx := function_call me receiver (keypair_public_key keypair) (nonce + 1) block_hash method_name args (node_gas conf) deposit in
    broadcast_tx_async url (mkSigned tx (sign_transaction tx keypair)) w1 = (Ok h, w2) /\
    (elapsed_secs (now_ns w1) (now_ns w') <= 60)%Z /\ exists w0, tx_status url h me w0 = (SuccessValue v, w').
Proof.
  intros Hlen Hr keypair. apply net_bind_ok in Hr as (bs & w1 & Hc & Hs). fold keypair in Hc.
  apply construct_tx_ok in Hc as (_ & me & rec & nonce & bh & next & Hme & Hrec & Hk & [-> _]%arith_checked & Ev).
  replace (drop 32 keypair) with (ed25519_public_bytes (public_key (keypair_ed25519 conf))) in Hme
    by (unfold keypair, ed25519_keypair_bytes; by rewrite drop_app_length').
  apply (send_tx_ok _ _ _ _ _ _ _ Ev) in Hs as (h & w2 & Hb & Hd & Ht).
  exists me, rec, nonce, bh, h, w1, w2. by repeat split.
Qed.

(** A call that reaches the network waits for its transaction. *)
Lemma call_bytes_sent ov fuel contract_id method_name args deposit conf chains url w me receiver nonce block_hash bs h w1 w2 :
  let keypair := ed25519_keypair_bytes (keypair_ed25519 conf) in
  let tx := function_call me receiver (keypair_public_key keypair) (nonce + 1) block_hash method_name args (node_gas conf) deposit in
  length keypair = 64 -> parse_account_id (to_hex (drop 32 keypair)) = Some me ->
  parse_account_id contract_id = Some receiver ->
  view_access_key (near_rpc_url (conf_near chains)) me (keypair_public_key keypair) w = (Ok (AccessKey nonce block_hash), w1) ->
  (0 <= nonce < 2 ^ 64 - 1)%Z -> signed_to_vec (mkSigned tx (sign_transaction tx keypair)) = Some bs ->
  broadcast_tx_async url (mkSigned tx (sign_transaction tx keypair)) w1 = (Ok h, w2) ->
  call_bytes ov fuel Near contract_id method_name args (ClientNear url) deposit conf chains w =
    await_tx fuel url h me (now_ns w1) w2.
Proof.
  intros keypair tx Hl Hme Hr Hk Hn Hv Hb. unfold call_bytes, construct_signed_tx, send_tx. cbn [adapter_signed_tx adapter_send_tx NearChain]. unfold near_construct_signed_tx, construct_tx.
  unfold access_key, next_nonce, add_w, net_ok_or, net_result, net_call, near_send_tx, mbind, net_bind. fold keypair.
  unfold get_in_memory_signer. rewrite decide_True, Hme by done. cbn [account_id signer_public_key secret_key].
  rewrite Hk. cbn [mret net_ret fst snd]. rewrite arith_in by lia. rewrite Hr.
  change (mkTransaction _ _ _ _ _ _) with tx. rewrite Hv. cbn [client_near mret net_ret].
  unfold net_ok_or, net_result. rewrite (signed_roundtrip _ _ Hv). unfold net_call. by rewrite Hb.
Qed.

(** On NEAR nothing panics, whatever the network answers. *)
Lemma near_view_returns url contract_id method_name args w :
  is_ret (chain_view_client Near (ClientNear url) contract_id method_name args w) = true.
Proof.
  unfold chain_view_client. cbn [adapter_view NearChain]. unfold near_view, net_ok_or, net_result, net_call, mbind, net_bind. cbn.
  destruct (parse_account_id contract_id); [|done]. by destruct (call_function _ _ _ _ _) as [[[]|] ?].
Qed.
Lemma near_call_returns contract_id method_name args url deposit conf chains w :
  is_ret (call_bytes false 32 Near contract_id method_name args (ClientNear url) deposit conf chains w) = true.
Proof.
  unfold call_bytes, construct_signed_tx, send_tx. cbn [adapter_signed_tx adapter_send_tx NearChain].
  unfold near_construct_signed_tx, construct_tx, access_key, next_nonce, add_w, arith, net_ok_or, net_result, net_call, mbind, net_bind.
  cbn -[near_send_tx].
  destruct (get_in_memory_signer _ _); [|done]. destruct (view_access_key _ _ _ _) as [[[]|] x]; cbn -[near_send_tx]; try done.
  destruct (in_width _ _); cbn -[near_send_tx]; (destruct (parse_account_id contract_id); [|done]);
    (destruct (signed_to_vec _); [|done]);
    match goal with |- context [near_send_tx 32 _ ?b] =>
      destruct (near_send_tx_returns 32 url b x) as (? & ? & He); [lia|];
      unfold mbind, net_bind, mret, net_ret; by rewrite He end.
Qed.

End correctness.

(** ** A concrete network *)

Module RefNet.
Import RefSdk RefSystem.

Definition action_tuple (a : NearAction) : string * bytes * Z * Z + Z :=
  match a with FunctionCall m a g d => inl (m, a, g, d) | Transfer d => inr d end.
Definition tuple_action (x : string * bytes * Z * Z + Z) : NearAction :=
  match x with inl (m, a, g, d) => FunctionCall m a g d | inr d => Transfer d end.
#[export] Instance NearAction_eq_dec : EqDecision NearAction. Proof. solve_decision. Defined.
#[export] Instance NearAction_countable : Countable NearAction.
Proof. apply (inj_countable' action_tuple tuple_action). by intros []. Defined.

Definition signed_tuple (s : SignedTransaction) :=
  let t := transaction s in
  (tx_signer_id t, tx_public_key t, tx_nonce t, tx_receiver_id t, tx_block_hash t, tx_actions t, tx_signature s).
Definition tuple_signed (x : string * bytes * Z * string * bytes * list NearAction * bytes) : SignedTransaction :=
  let '(a, b, c, d, e, f, g) := x in mkSigned (mkTransaction a b c d e f) g.

Fixpoint pos_bytes (p : positive) : bytes :=
  match p with xH => [] | xO p => x00 :: pos_bytes p | xI p => x01 :: pos_bytes p end.
Fixpoint bytes_pos (bs : bytes) : positive :=
  match bs with [] => xH | b :: bs => if decide (b = x00) then xO (bytes_pos bs) else xI (bytes_pos bs) end.
Lemma bytes_pos_bytes p : bytes_pos (pos_bytes p) = p.
Proof. induction p as [p IH|p IH|]; cbn; rewrite ?IH; done. Qed.

(** The world is the clock, in nanoseconds; a transaction is known after three
    seconds. *)
#[export] Instance ref_net : NearNet Z.
Proof.
  refine {|
    parse_account_id s := Some s;
    keypair_public_key := drop 32;
    sign_transaction _ k := k;
    signed_to_vec s := Some (pos_bytes (encode (signed_tuple s)));
    signed_of_slice bs := tuple_signed <$> decode (bytes_pos bs);
    view_access_key _ _ _ w := (Ok (AccessKey 7 []), w);
    call_function _ _ _ args w := (Ok (CallResult args), w);
    broadcast_tx_async _ _ w := (Ok [x01], w);
    tx_status _ _ _ w := (if (w <? 3 * second)%Z then UnknownTransaction else SuccessValue [x2a], w);
    now_ns w := w;
    sleep_ns n w := (w + n)%Z;
  |}; cbn; try done.
  intros s bs [= <-]. rewrite bytes_pos_bytes, decode_encode. cbn. by destruct s as [[]].
Defined.

Definition ref_conf : NodeConfig :=
  mkNodeConfig 0 300 (mkKeyPair 5%Z 5%Z) (mkKeyPair (replicate 32 x00) (replicate 32 x01)) "seda.near" 0 1 EmptyString.
Definition ref_chains : ChainConfigs := mkChains (mkAnother EmptyString) (mkNear "rpc").

End RefNet.

Section witnesses.
Import RefSdk RefSystem RefNet.

Definition ref_tx : SignedTransaction := mkSigned (function_call "a" "b" [] 8 [] "m" [] 300 0) [].

Lemma send_tx_terminates_witness :
  exists bs r w', signed_to_vec ref_tx = Some bs /\ near_send_tx 32 "rpc" bs 0%Z = Ret (r, w') /\
    exists w0 s, tx_status "rpc" [x01] "a" w0 = (s, w') /\
      if (60 <? elapsed_secs 0 w')%Z then r = Err BadTransactionTimestamp else tx_result s = Some r.
Proof.
  eexists. destruct (send_tx_terminates 32 "rpc" (pos_bytes (encode (signed_tuple ref_tx))) 0%Z) as (r & w' & Hr & Hs); [lia|].
  exists r, w'. split; [reflexivity|]. split; [exact Hr|].
  apply (Hs ref_tx [x01] 0%Z); [|reflexivity]. by apply signed_roundtrip.
Defined.

Lemma chain_call_broadcasts_call_witness :
  exists v w', call_bytes true 32 Near "oracle" "m" [x07] (ClientNear "rpc") 1 ref_conf ref_chains 0%Z = Ret (Ok v, w') /\
    exists h w2, broadcast_tx_async "rpc" (mkSigned (function_call (to_hex (replicate 32 x01)) "oracle" (replicate 32 x01) 8 [] "m" [x07] 300 1)
      (replicate 32 x00 ++ replicate 32 x01)) 0%Z = (Ok h, w2).
Proof.
  assert (call_bytes true 32 Near "oracle" "m" [x07] (ClientNear "rpc") 1 ref_conf ref_chains 0%Z =
    Ret (Ok [x2a], 4 * second)%Z) as Hr.
  { erewrite call_bytes_sent; [|reflexivity..|lia|reflexivity|reflexivity]. reflexivity. }
  exists [x2a], (4 * second)%Z. split; [exact Hr|].
  destruct (chain_call_broadcasts_call 32 "oracle" "m" [x07] 1 ref_conf ref_chains "rpc" 0%Z [x2a] (4 * second)%Z eq_refl Hr)
    as (me & receiver & nonce & bh & h & w1 & w2 & Hme & Hrec & Hkey & Hb & _).
  injection Hme as <-. injection Hrec as <-. injection Hkey as <- <- <-. exists h, w2. exact Hb.
Defined.

End witnesses.
