(* ===== verification/Node.v ===== *)
(** * The node: its actors and how they work together

    Models the actors of [src/node/src]: the queue of events ([event_queue.rs],
    [event_queue_handler.rs]), the job manager and the worker threads that run
    the guest ([app/job_manager.rs], [runtime_job.rs]), and the sources of events
    ([host/batch_tick.rs], [app/p2p_message_handler.rs],
    [host/trigger_event.rs], the "cli" method of [rpc.rs]).

    The actors are a transition system: each step handles one message. *)

From S2P Require Import Prelude NearSdk Sdk Runtime Crypto Config.

(** ** Events *)

Record EventQueue := mkEvents { items : list Event }.
Definition EventQueue_default : EventQueue := mkEvents [].

(** [EventQueue::add] and [EventQueue::get_next], as the loop over the items *)
Definition add_event (q : EventQueue) (e : Event) : EventQueue := mkEvents (items q ++ [e]).
Fixpoint remove_first (skip_ids : list string) (l : list Event) : option (Event * list Event) :=
  match l with
  | [] => None
  | e :: l =>
      if bool_decide (event_id e ∈ skip_ids) then
        match remove_first skip_ids l with
        | Some (x, l) => Some (x, e :: l)
        | None => None
        end
      else Some (e, l)
  end.
Definition get_next (skip_ids : list string) (q : EventQueue) : option Event * EventQueue :=
  match remove_first skip_ids (items q) with
  | Some (e, l) => (Some e, mkEvents l)
  | None => (None, q)
  end.

(** The sources of events *)
Definition batch_tick_event : Event := mkEvent "BatchChainTick" BatchChainTick.
Definition p2p_event (m : P2PMessage) : Event := mkEvent "p2p-message" (EventP2PMessage m).
Definition cli_event (args : list string) : Event := mkEvent "test" (CliCall args).

(** The arguments that [Handler<RuntimeJob>] starts the guest with *)
Definition job_args (e : Event) : outcome (list string) :=
  match event_data e with
  | BatchChainTick => Ret ["batch"%string]
  | ChainTick => Ret []
  | CliCall args => Ret args
  | EventP2PMessage m =>
      r ← from_bytes (T := string) (message_data m);
      match r with
      | Ok text => Ret ["p2p"%string; text]
      | Err _ => Panic "called `Result::unwrap()` on an `Err` value"
      end
  end.
Definition job_config (e : Event) : outcome VmConfig :=
  args ← job_args e; mret (mkVmConfig "test" None args false).

(** ** The actors *)

Inductive AppMessage := AddEventToQueue (e : Event) | StartJobManager.

(** The state of the node: the app actor ([mailbox], [event_queue],
    [running_event_ids]); whether the timer of the job manager runs; the address
    of the app at the host; the mailbox of the worker threads and what they are
    working on *)
Record NodeState := mkNodeState {
  mailbox : list AppMessage;
  event_queue : EventQueue;
  running_event_ids : list string;
  timer : bool;
  app_actor_addr : bool;
  jobs : list Event;
  busy : list Event;
}.

(** [App::new], and [App::started] with the message to the host delivered *)
Definition App_started : NodeState := mkNodeState [StartJobManager] EventQueue_default [] false true [] [].

Definition post (m : AppMessage) (n : NodeState) : NodeState :=
  mkNodeState (mailbox n ++ [m]) (event_queue n) (running_event_ids n) (timer n) (app_actor_addr n) (jobs n) (busy n).
Definition send_job (e : Event) (n : NodeState) : NodeState :=
  mkNodeState (mailbox n) (event_queue n) (running_event_ids n) (timer n) (app_actor_addr n) (jobs n ++ [e]) (busy n).
Definition set_event_queue (q : EventQueue) (n : NodeState) : NodeState :=
  mkNodeState (mailbox n) q (running_event_ids n) (timer n) (app_actor_addr n) (jobs n) (busy n).
Definition set_timer (b : bool) (n : NodeState) : NodeState :=
  mkNodeState (mailbox n) (event_queue n) (running_event_ids n) b (app_actor_addr n) (jobs n) (busy n).

(** [Handler<AddEventToQueue>] and [Handler<StartJobManager>] *)
Definition handle_add_event (e : Event) (n : NodeState) : NodeState :=
  set_event_queue (add_event (event_queue n) e) n.
Definition handle_job_manager (n : NodeState) : NodeState :=
  let '(next, q) := get_next (running_event_ids n) (event_queue n) in
  let n := set_event_queue q n in
  set_timer true (match next with Some e => send_job e n | None => n end).

(** [Handler<BatchTickManager>] and [Handler<TriggerEvent>] of the host, one turn
    of [P2PMessageHandler::listen], [CliServer::cli] *)
Definition handle_batch_tick (n : NodeState) : NodeState :=
  if app_actor_addr n then post (AddEventToQueue batch_tick_event) n else n.
Definition handle_trigger_event (e : Event) (n : NodeState) : result unit string * NodeState :=
  if app_actor_addr n then (Ok tt, post (AddEventToQueue e) n)
  else (Err "Missing app actor address in host adapter, was the node booted?"%string, n).
Definition handle_p2p_message (m : P2PMessage) (n : NodeState) : NodeState :=
  post (AddEventToQueue (p2p_event m)) n.
Definition rpc_cli (args : list string) (n : NodeState) : NodeState := send_job (cli_event args) n.

(** What a step of the system does, as seen from outside *)
Inductive label :=
| Arrives (e : Event)
| Queued (e : Event)
| Dispatched (e : Event)
| RpcJob (e : Event)
| Started (e : Event)
| Finished (e : Event)
| Internal.

Section system.
Context (threads : nat).

Definition pop_mailbox (n : NodeState) (l : list AppMessage) : NodeState :=
  mkNodeState l (event_queue n) (running_event_ids n) (timer n) (app_actor_addr n) (jobs n) (busy n).

Inductive node_step (n : NodeState) : label -> NodeState -> Prop :=
| step_batch_tick : app_actor_addr n = true -> node_step n (Arrives batch_tick_event) (handle_batch_tick n)
| step_p2p_message m : node_step n (Arrives (p2p_event m)) (handle_p2p_message m n)
| step_trigger_event e n' : handle_trigger_event e n = (Ok tt, n') -> node_step n (Arrives e) n'
| step_rpc_cli args : node_step n (RpcJob (cli_event args)) (rpc_cli args n)
| step_add_event e l :
    mailbox n = AddEventToQueue e :: l -> node_step n (Queued e) (handle_add_event e (pop_mailbox n l))
| step_dispatch e q l :
    mailbox n = StartJobManager :: l -> get_next (running_event_ids n) (event_queue n) = (Some e, q) ->
    node_step n (Dispatched e) (handle_job_manager (pop_mailbox n l))
| step_no_job q l :
    mailbox n = StartJobManager :: l -> get_next (running_event_ids n) (event_queue n) = (None, q) ->
    node_step n Internal (handle_job_manager (pop_mailbox n l))
| step_timer : timer n = true -> node_step n Internal (post StartJobManager (set_timer false n))
| step_start e l :
    jobs n = e :: l -> length (busy n) < threads ->
    node_step n (Started e) (mkNodeState (mailbox n) (event_queue n) (running_event_ids n) (timer n)
                               (app_actor_addr n) l (busy n ++ [e]))
| step_finish i e :
    busy n !! i = Some e ->
    node_step n (Finished e) (mkNodeState (mailbox n) (event_queue n) (running_event_ids n) (timer n)
                                (app_actor_addr n) (jobs n) (delete i (busy n))).

Inductive node_run : list label -> NodeState -> Prop :=
| run_start : node_run [] App_started
| run_step ls n a n' : node_run ls n -> node_step n a n' -> node_run (ls ++ [a]) n'.

End system.

(** ** Queues are fair *)

Definition arrived (a : label) : option Event := match a with Arrives e => Some e | _ => None end.
Definition queued (a : label) : option Event := match a with Queued e => Some e | _ => None end.
Definition dispatched (a : label) : option Event := match a with Dispatched e => Some e | _ => None end.
Definition job_sent (a : label) : option Event :=
  match a with Dispatched e | RpcJob e => Some e | _ => None end.
Definition job_started (a : label) : option Event := match a with Started e => Some e | _ => None end.
Definition pending_events (l : list AppMessage) : list Event :=
  omap (fun m => match m with AddEventToQueue e => Some e | StartJobManager => None end) l.

(** The events with this id, in order *)
Definition with_id (id : string) (l : list Event) : list Event := filter (fun e => event_id e = id) l.

Lemma remove_first_spec skip l e l' :
  remove_first skip l = Some (e, l') <->
  exists l1 l2, l = l1 ++ e :: l2 /\ l' = l1 ++ l2 /\ (event_id e ∉ skip) /\ Forall (fun x => event_id x ∈ skip) l1.
Proof.
  split.
  - revert l'. induction l as [|x l IH]; intros l'; cbn; [done|]. case_bool_decide as Hx.
    + destruct (remove_first skip l) as [[y l0]|]; [|done]. intros [= <- <-].
      destruct (IH l0 eq_refl) as (l1 & l2 & -> & -> & He & Hl). exists (x :: l1), l2. auto.
    + intros [= <- <-]. by exists [], l.
  - intros (l1 & l2 & -> & -> & He & Hl). induction Hl as [|x l1 Hx Hl IH]; cbn.
    + by rewrite bool_decide_eq_false_2.
    + by rewrite bool_decide_eq_true_2, IH.
Qed.

Lemma remove_first_none skip l : remove_first skip l = None <-> Forall (fun x => event_id x ∈ skip) l.
Proof.
  induction l as [|x l IH]; cbn; [done|]. rewrite Forall_cons. case_bool_decide as Hx.
  - destruct (remove_first skip l) as [[]|]; split; [done| |tauto|tauto].
    intros [_ Hl]. by apply IH in Hl.
  - split; [done|]. by intros [? _].
Qed.

(** What is taken out of the queue is the first event of its id. *)
Lemma get_next_with_id skip q e q' id :
  get_next skip q = (Some e, q') -> with_id id (items q) = with_id id [e] ++ with_id id (items q').
Proof.
  unfold get_next. destruct (remove_first skip (items q)) as [[x l]|] eqn:E; [|done]. intros [= -> <-].
  apply remove_first_spec in E as (l1 & l2 & -> & -> & He & Hl). unfold with_id. cbn [items].
  rewrite !filter_app, !filter_cons, filter_nil. destruct (decide (event_id e = id)) as [Hid|]; [|done].
  enough (filter (fun e => event_id e = id) l1 = []) as ->; [done|].
  induction Hl as [|x l1 Hx _ IH]; [done|]. rewrite filter_cons, decide_False; [done|congruence].
Qed.

Lemma get_next_none skip q q' : get_next skip q = (None, q') -> q' = q /\ Forall (fun x => event_id x ∈ skip) (items q).
Proof.
  unfold get_next. destruct (remove_first skip (items q)) as [[x l]|] eqn:E; [done|]. intros [= <-].
  split; [done|]. by apply remove_first_none.
Qed.

Definition manager_messages (l : list AppMessage) : nat :=
  length (omap (fun m => match m with StartJobManager => Some tt | AddEventToQueue _ => None end) l).

(** The events of an id wait in the mailbox and then in the queue; the job manager
    is either in the mailbox or waiting for its timer. *)
Record run_ok (ls : list label) (n : NodeState) : Prop := {
  ok_addr : app_actor_addr n = true;
  ok_arrived : omap queued ls ++ pending_events (mailbox n) = omap arrived ls;
  ok_queued : forall id, with_id id (omap dispatched ls) ++ with_id id (items (event_queue n)) = with_id id (omap queued ls);
  ok_jobs : omap job_started ls ++ jobs n = omap job_sent ls;
  ok_manager : (if timer n then 1 else 0) + manager_messages (mailbox n) = 1;
}.

Lemma pending_app l m : pending_events (l ++ m) = pending_events l ++ pending_events m.
Proof. apply omap_app. Qed.
Lemma manager_app l m : manager_messages (l ++ m) = manager_messages l + manager_messages m.
Proof. unfold manager_messages. by rewrite omap_app, length_app. Qed.

Lemma with_id_app id l m : with_id id (l ++ m) = with_id id l ++ with_id id m.
Proof. apply filter_app. Qed.

Ltac run_ok_auto Ho :=
  split; intros; cbn -[manager_messages pending_events omap with_id]; rewrite ?Ho, ?pending_app, ?manager_app, ?with_id_app; cbn -[with_id];
  change (with_id _ []) with (@nil Event); rewrite ?app_nil_r, ?Nat.add_0_r, ?app_assoc; try congruence.

Lemma run_ok_holds threads ls n : node_run threads ls n -> run_ok ls n.
Proof.
  induction 1 as [|ls n a n' _ [Ha Hq Hd Hj Hm] Hs]; [by split|].
  assert (forall f : label -> option Event, omap f (ls ++ [a]) = omap f ls ++ omap f [a]) as Ho by (intros; apply omap_app).
  destruct Hs as [Happ|m|e n' Ht|args|e l Hl|e q l Hl Hg|q l Hl Hg|Ht|e l Hl Hlt|i e Hb];
    try (rewrite Hl in *; cbn in Hq, Hm; try (fold (pending_events l) in Hq; fold (manager_messages l) in Hm)).
  - unfold handle_batch_tick. rewrite Ha. run_ok_auto Ho.
  - run_ok_auto Ho.
  - unfold handle_trigger_event in Ht. rewrite Ha in Ht. injection Ht as <-. run_ok_auto Ho.
  - run_ok_auto Ho.
  - run_ok_auto Ho. by rewrite <- app_assoc.
  - unfold handle_job_manager. cbn. rewrite Hg.
    destruct (timer n); cbn in Hm; [lia|]. run_ok_auto Ho. by rewrite <- Hd, (get_next_with_id _ _ _ _ id Hg), app_assoc.
  - unfold handle_job_manager. cbn. rewrite Hg. apply get_next_none in Hg as [-> _].
    destruct (timer n); cbn in Hm; [lia|]. run_ok_auto Ho.
  - rewrite Ht in Hm. run_ok_auto Ho. lia.
  - run_ok_auto Ho. by rewrite <- Hj, <- app_assoc.
  - run_ok_auto Ho.
Qed.


(** ** What the job manager does not prevent *)

(** The events whose jobs are being worked on have different ids. *)
Definition exclusive (n : NodeState) : Prop := NoDup (event_id <$> busy n).

(** Steps in a row from a state *)
Inductive node_steps (threads : nat) : NodeState -> list label -> NodeState -> Prop :=
| steps_nil n : node_steps threads n [] n
| steps_cons n a n1 ls n' : node_step threads n a n1 -> node_steps threads n1 ls n' -> node_steps threads n (a :: ls) n'.

Lemma node_run_steps threads ls n ls' n' :
  node_run threads ls n -> node_steps threads n ls' n' -> node_run threads (ls ++ ls') n'.
Proof.
  intros Hr Hs. revert ls Hr. induction Hs as [n|n a n1 ls' n' Hs _ IH]; intros ls Hr; [by rewrite app_nil_r|].
  replace (ls ++ a :: ls') with ((ls ++ [a]) ++ ls') by (by rewrite <- app_assoc). apply IH. by eapply run_step.
Qed.

Lemma node_steps_app threads n ls1 n1 ls2 n2 :
  node_steps threads n ls1 n1 -> node_steps threads n1 ls2 n2 -> node_steps threads n (ls1 ++ ls2) n2.
Proof. induction 1; [done|]. intros ?. econstructor; eauto. Qed.

(** A node with nothing in its queue *)
Definition idle (js bs : list Event) : NodeState := mkNodeState [] EventQueue_default [] true true js bs.

Lemma started_idle threads : node_run threads [Internal] (idle [] []).
Proof. by refine (run_step _ [] App_started _ _ (run_start _) (step_no_job _ App_started EventQueue_default [] _ _)). Qed.

(** A message that arrives at an idle node becomes a job. *)
Lemma message_delivered threads m js bs :
  let e := p2p_event m in
  node_steps threads (idle js bs) [Arrives e; Queued e; Internal; Dispatched e] (idle (js ++ [e]) bs).
Proof.
  intros e. eapply steps_cons; [apply (step_p2p_message _ _ m)|].
  eapply steps_cons; [by apply (step_add_event _ _ e [])|].
  eapply steps_cons; [by apply step_timer|].
  eapply steps_cons; [by apply (step_dispatch _ _ e EventQueue_default [])|]. apply steps_nil.
Qed.

(** Two messages from the network are processed at the same time, with the
    default of two worker threads, although their events have the same id: the
    ids of running events are read, never written. *)
Theorem same_id_runs_concurrently m1 m2 :
  exists ls n, node_run (Z.to_nat RUNTIME_WORKER_THREADS) ls n /\
    busy n = [p2p_event m1; p2p_event m2] /\ ~ exclusive n.
Proof.
  eexists _, (idle [] [p2p_event m1; p2p_event m2]). split_and!.
  - eapply node_run_steps; [apply started_idle|]. eapply node_steps_app; [apply (message_delivered _ m1)|].
    eapply node_steps_app; [apply (message_delivered _ m2)|].
    eapply steps_cons; [apply (step_start _ _ (p2p_event m1) [p2p_event m2]); [done|by apply Nat.ltb_lt]|].
    eapply steps_cons; [apply (step_start _ _ (p2p_event m2) []); [done|by apply Nat.ltb_lt]|]. apply steps_nil.
  - done.
  - cbn. intros [Hn _]%NoDup_cons. apply Hn. by left.
Qed.

(** An event is never handed out while its id is among those to skip, and the
    first one that is not is. *)
Lemma get_next_spec skip q e q' :
  get_next skip q = (Some e, q') <->
  exists l1 l2, items q = l1 ++ e :: l2 /\ q' = mkEvents (l1 ++ l2) /\ (event_id e ∉ skip) /\
    Forall (fun x => event_id x ∈ skip) l1.
Proof.
  unfold get_next. destruct (remove_first skip (items q)) as [[x l]|] eqn:E.
  - rewrite remove_first_spec in E. destruct E as (l1 & l2 & E1 & -> & Hx & Hl). split.
    + intros [= <- <-]. eauto 10.
    + intros (l1' & l2' & E2 & -> & He & Hl').  
      assert (remove_first skip (items q) = Some (x, l1 ++ l2)) as H1 by (apply remove_first_spec; eauto 10).
      assert (remove_first skip (items q) = Some (e, l1' ++ l2')) as H2 by (apply remove_first_spec; eauto 10). congruence.
  - split; [done|]. intros (l1 & l2 & E2 & _ & He & Hl). apply remove_first_none in E. rewrite E2, Forall_app, Forall_cons in E. tauto.
Qed.

