(* ===== verification/Execution.v ===== *)
(** * Guest programs on the runtime

    Puts the guest's programs ([Guest]) on the runtime ([Runtime]): a program is
    a table of functions over the abstract guest, and the engine that runs it is
    an instance of the interface that the runtime is written against.  Then the
    worker of the node ([src/node/src/runtime_job.rs]) that runs a job, and what
    a queue of promises does to the host.

    The engine proper (loading, WASI, traps) stays a parameter: which arguments
    WASI accepts, what a function that traps leaves behind, and the lines that a
    function prints. *)

From S2P Require Import Prelude NearSdk Sdk Runtime Imports Crypto Guest Node.

(** ** Programs *)

Section programs.
Context `{BN : Bn254} `{KC : !KeyCrates}.

(** A call of a function of the program: the guest, and the bytes that it set as
    its result *)
Record Process := mkProcess { proc_guest : Guest; proc_result : bytes }.

Definition in_guest {A} (m : M Guest A) : M Process A := fun p =>
  match m (proc_guest p) with
  | Ret (x, g) => Ret (x, mkProcess g (proc_result p))
  | Panic msg => Panic msg
  end.
Definition execution_result (result : bytes) : M Process unit :=
  modify (fun p => mkProcess (proc_guest p) result).

(** The exported functions, with the arguments that [env::args()] gives: the name
    of the function first *)
Record Program := mkProgram { exported : string -> option (list string -> M Process unit) }.

(** ** The world of a job *)

(** The memory that all jobs share, the memory of this job, and the host *)
Record VmWorld (H : Type) := mkVmWorld {
  vm_shared : gmap string bytes;
  vm_private : gmap string bytes;
  vm_host : H;
}.
#[global] Arguments mkVmWorld {H}.
#[global] Arguments vm_shared {H}.
#[global] Arguments vm_private {H}.
#[global] Arguments vm_host {H}.

Definition on_host {H T} (f : H -> T * H) (w : VmWorld H) : T * VmWorld H :=
  let '(x, h) := f (vm_host w) in (x, mkVmWorld (vm_shared w) (vm_private w) h).

#[export] Instance vm_host_adapter {H} `{HA : HostAdapter H} : HostAdapter (VmWorld H) := {|
  HostError := HostError;
  db_get k := on_host (db_get k);
  db_set k v := on_host (db_set k v);
  http_fetch u := on_host (http_fetch u);
  chain_call c id f args d keys := on_host (chain_call c id f args d keys);
  chain_view c id f args := on_host (chain_view c id f args);
  trigger_event e := on_host (trigger_event e);
|}.
#[export] Instance vm_p2p_channel {H} `{PC : P2PChannel H} : P2PChannel (VmWorld H) := fun c w =>
  mkVmWorld (vm_shared w) (vm_private w) <$> p2p_send c (vm_host w).

(** ** The engine *)

Record EngineParams (H : Type) := mkEngineParams {
  compile : bytes -> option Program;
  wasi_ok : string -> list (string * string) -> list string -> bool;
  printed : string -> list string -> VmWorld H -> string * string;
  trapped : string -> list string -> VmWorld H -> VmWorld H;
  signing_key : PrivateKey;
}.
#[global] Arguments compile {H}.
#[global] Arguments wasi_ok {H}.
#[global] Arguments printed {H}.
#[global] Arguments trapped {H}.
#[global] Arguments signing_key {H}.

(** The guest that a call starts with *)
Definition process_at {H} (P : EngineParams H) (env : list (string * string)) (current : PromiseQueue) (w : VmWorld H)
    : Process :=
  mkProcess (mkGuest (vm_shared w) (vm_private w) (status <$> queue current) [] (signing_key P) (list_to_map env)) [].

Definition run_function {H} (P : EngineParams H) (prog : Program) (name : string) (env : list (string * string))
    (args : list string) (current : PromiseQueue) (w : VmWorld H) : call_outcome (VmWorld H) :=
  let out := PipeText (printed P name args w).1 in
  let err := PipeText (printed P name args w).2 in
  let trap msg := mkCallOutcome _ (trapped P name args w) (Some msg) out err PromiseQueue_new [] in
  match exported prog name with
  | None => trap "no such function"%string
  | Some f =>
      match f (name :: args) (process_at P env current w) with
      | Panic msg => trap msg
      | Ret (_, p) =>
          mkCallOutcome _ (mkVmWorld (g_shared (proc_guest p)) (g_private (proc_guest p)) (vm_host w)) None out err
            (mkQueue (g_queue (proc_guest p))) (proc_result p)
      end
  end.

#[export] Instance program_engine {H} (P : EngineParams H) : WasmEngine (VmWorld H) := {|
  Module_ := Program;
  module_new := compile P;
  hex_encode := to_hex;
  wasi_finalize := wasi_ok P;
  create_wasm_imports _ := true;
  instance_new _ := true;
  get_function prog name := bool_decide (is_Some (exported prog name));
  main_call := run_function P;
|}.

End programs.

(** ** The worker *)

Section worker.
Context `{BN : Bn254} `{KC : !KeyCrates}.
Context {H : Type} `{HA : HostAdapter H} `{PC : P2PChannel H} (P : EngineParams H).

#[local] Existing Instance program_engine.
Abbreviation Runtime := (Runtime (WE := program_engine P)).

Record RuntimeWorker := mkWorker {
  worker_runtime : option Runtime;
  worker_keys : NodeKeys;
  consensus_wasm_path : string;
}.

(** [RuntimeWorker::started]: the files are those the worker can read *)
Definition worker_started (files : gmap string bytes) (x : RuntimeWorker) : outcome RuntimeWorker :=
  let runtime := Runtime_new (WE := program_engine P) (worker_keys x) false in
  binary ← unwrap "called `Result::unwrap()` on an `Err` value" (files !! consensus_wasm_path x);
  match init (WE := program_engine P) runtime binary with
  | Ok runtime => mret (mkWorker (Some runtime) (worker_keys x) (consensus_wasm_path x))
  | Err _ => Panic "called `Result::unwrap()` on an `Err` value"
  end.

(** [Handler<RuntimeJob>]: the job has a private memory of its own *)
Definition handle_runtime_job (fuel : nat) (x : RuntimeWorker) (e : Event) (w : VmWorld H)
    : outcome (VmResult * VmWorld H) :=
  vm_config ← job_config e;
  runtime ← unwrap unwrap_none (worker_runtime x);
  start_runtime (WE := program_engine P) fuel runtime vm_config (mkVmWorld (vm_shared w) ∅ (vm_host w)).

End worker.

(** ** What a queue of promises does to the host *)

Section queues.
Context {W : Type} `{HA : HostAdapter W} `{WE : WasmEngine W} `{PC : P2PChannel W}.
Context (r : Runtime) (m : Module_).

Definition answer_with {T} (f : W -> T * W) (st : T -> PromiseStatus) (w : W) : option (PromiseStatus * W) :=
  let '(x, w) := f w in Some (st x, w).

(** The status of a promise to the host, and the world afterwards; [None] for a
    call of the guest, and where the runtime panics *)
Definition answer (act : PromiseAction) (w : W) : option (PromiseStatus * W) :=
  if limited r && is_limited_action act then Some (Rejected (string_bytes (limited_message act)), w)
  else
    match act with
    | CallSelf _ => None
    | DatabaseSet a =>
        match from_bytes (T := string) (set_value a) with
        | Ret (Err e) => Some (status_of_result (T := string) (Err e), w)
        | Ret (Ok value) => answer_with (db_set (set_key a) value) status_of_result w
        | Panic _ => None
        end
    | DatabaseGet a => answer_with (db_get (get_key a)) status_of_result_option w
    | Http a => answer_with (http_fetch (url a)) status_of_result w
    | ChainView a =>
        answer_with (chain_view (view_chain a) (view_contract_id a) (view_method_name a) (view_args a)) status_of_result w
    | ChainCall a =>
        answer_with (chain_call (call_chain a) (call_contract_id a) (call_method_name a) (call_chain_args a)
          (call_deposit a) (node_config r)) status_of_result w
    | TriggerEvent a => answer_with (trigger_event (event a)) status_of_result w
    | P2PBroadcast a => (Pending,.) <$> p2p_send (Broadcast (broadcast_data a)) w
    end.
Fixpoint answers (acts : list PromiseAction) (w : W) : option (list PromiseStatus * W) :=
  match acts with
  | [] => Some ([], w)
  | act :: acts =>
      match answer act w with
      | None => None
      | Some (s, w) => '(ss, w) ← answers acts w; Some (s :: ss, w)
      end
  end.

Definition with_statuses (q : list Promise) (ss : list PromiseStatus) : list Promise :=
  zip_with (fun p s => mkPromise (action p) s) q ss.

Lemma answers_length acts w ss w' : answers acts w = Some (ss, w') -> length ss = length acts.
Proof.
  revert w ss. induction acts as [|a acts IH]; cbn; intros w ss; [by intros [= <- _]|].
  destruct (answer a w) as [[s w1]|]; [|done]. destruct (answers acts w1) as [[ss1 w2]|] eqn:E; [|done].
  cbn. intros [= <- <-]. cbn. f_equal. by eapply IH.
Qed.

Lemma set_status_middle pre p post s :
  set_status (pre ++ p :: post) (length pre) s = pre ++ mkPromise (action p) s :: post.
Proof. unfold set_status. induction pre as [|x pre IH]; [done|]. cbn. by f_equal. Qed.

Lemma process_answer act i x q next s w :
  answer act (world x) = Some (s, w) ->
  process_promise r m i act x q next = Ret (Continue (set_world w x) (set_status q i s) next).
Proof.
  unfold answer, process_promise, answer_with, host_arm. destruct (limited r && is_limited_action act).
  { intros [= <- <-]. rewrite set_status_twice. by destruct x. }
  destruct act; try (intros; simplify_eq; rewrite set_status_twice; done).
  - destruct (from_bytes (set_value a)) as [[v|e]|]; [|intros [= <- <-]; cbn; rewrite set_status_twice; by destruct x|done].
    cbn. destruct (db_set _ _ _). intros [= <- <-]. by rewrite set_status_twice.
  - destruct (db_get _ _). intros [= <- <-]. by rewrite set_status_twice.
  - destruct (http_fetch _ _). intros [= <- <-]. by rewrite set_status_twice.
  - destruct (chain_view _ _ _ _ _). intros [= <- <-]. by rewrite set_status_twice.
  - destruct (chain_call _ _ _ _ _ _ _). intros [= <- <-]. by rewrite set_status_twice.
  - destruct (trigger_event _ _). intros [= <- <-]. by rewrite set_status_twice.
  - destruct (p2p_send _ _); [|done]. intros [= <- <-]. done.
Qed.

(** The promises to the host at the front of a queue are answered in order. *)
Lemma process_answers pre todo post x next ss w :
  answers (action <$> todo) (world x) = Some (ss, w) ->
  process_promises r m (todo ++ post) (length pre) x (pre ++ todo ++ post) next =
  process_promises r m post (length pre + length todo) (set_world w x) (pre ++ with_statuses todo ss ++ post) next.
Proof.
  revert pre x ss. induction todo as [|p todo IH]; intros pre x ss.
  { intros [= <- <-]. rewrite Nat.add_0_r. by destruct x. }
  cbn. destruct (answer (action p) (world x)) as [[s w1]|] eqn:E1; [|done].
  destruct (answers (action <$> todo) w1) as [[ss1 w2]|] eqn:E2; [|done]. cbn. intros [= <- <-].
  rewrite (process_answer _ _ _ _ _ _ _ E1). cbn. rewrite set_status_middle.
  specialize (IH (pre ++ [mkPromise (action p) s]) (set_world w1 x) ss1 E2).
  rewrite length_app, <- !app_assoc in IH. cbn in IH. rewrite Nat.add_1_r in IH. rewrite IH. cbn.
  by rewrite Nat.add_succ_r.
Qed.

Definition traced (q : list Promise) (w : W) (x : run_state (W := W)) : run_state (W := W) :=
  mkRun w (stdout x) (stderr x) (promise_queue_trace x ++ [mkQueue q]).

Lemma execute_eq fuel q x :
  q <> [] ->
  execute_promise_queue (S fuel) r m (mkQueue q) x =
    (res ← process_promises r m q 0 x q PromiseQueue_new;
     match res with
     | Stop x e => Ret (x, e)
     | Continue x q next => execute_promise_queue fuel r m next (traced q (world x) x)
     end).
Proof. by destruct q. Qed.

(** A queue of promises to the host, and nothing else *)
Lemma execute_answers fuel q x ss w :
  answers (action <$> q) (world x) = Some (ss, w) ->
  exists x', execute_promise_queue (S (S fuel)) r m (mkQueue q) x = Ret (x', Ok EmptyQueue) /\ world x' = w /\
    promise_queue_trace x' = promise_queue_trace x ++ (if decide (q = []) then [] else [mkQueue (with_statuses q ss)]).
Proof.
  intros Ha. destruct q as [|p q].
  { injection Ha as <- <-. exists x. cbn. by rewrite app_nil_r. }
  eexists (traced (with_statuses (p :: q) ss) w x). split; [|done]. cbn [execute_promise_queue queue].
  pose proof (process_answers [] (p :: q) [] x PromiseQueue_new ss w Ha) as Hp. rewrite !app_nil_r in Hp.
  change ([] ++ ?l) with l in Hp. cbn [length] in Hp. cbn [length app] in Hp. rewrite Hp.
  done.
Qed.

(** Only queues with promises are traced, so that a run that ends has a result to
    report. *)
Lemma execute_nonempty fuel q x x' e :
  Forall (fun q => queue q <> []) (promise_queue_trace x) ->
  execute_promise_queue fuel r m q x = Ret (x', e) -> Forall (fun q => queue q <> []) (promise_queue_trace x').
Proof.
  revert q x. induction fuel as [|fuel IH]; intros q x Hx Hr; cbn in Hr; [done|].
  destruct (queue q) as [|p l] eqn:Eq; [by simplify_eq|].
  apply outcome_bind_ret in Hr as ([x1 q1 next1|x1 e1] & Hp & Hr).
  - apply (process_promises_ret _ _ []) in Hp as (Ht & todo' & -> & Hpr); [|done].
    eapply IH; [|exact Hr]. cbn. rewrite Ht. apply Forall_app. split; [done|]. constructor; [|constructor].
    by inversion Hpr.
  - apply process_stop in Hp. simplify_eq. by rewrite Hp.
Qed.

Lemma start_runtime_eq fuel config w x e :
  wasm_module r = Some m ->
  execute_promise_queue fuel r m
    (mkQueue [mkPromise (CallSelf (mkCallSelf (default "_start"%string (start_func config)) (vm_args config))) Unfulfilled])
    (mkRun w [] [] []) = Ret (x, e) ->
  exists res, start_runtime fuel r config w = Ret (res, world x) /\ exit_info res = ExitInfo_of_result e /\
    vm_result res = match q ← last (promise_queue_trace x); status <$> last (queue q) with
                    | Some (Fulfilled (Some d)) | Some (Rejected d) => Some d
                    | _ => None
                    end.
Proof.
  intros Hm Hx. pose proof (fun H => execute_nonempty _ _ _ _ _ H Hx) as Hne. specialize (Hne (List.Forall_nil _)).
  unfold start_runtime. rewrite Hm. cbn [unwrap mbind outcome_bind].
  change (add_promise PromiseQueue_new ?p) with (mkQueue [p]). rewrite Hx. cbn [mbind outcome_bind]. unfold last_status.
  destruct (last (promise_queue_trace x)) as [q|] eqn:E.
  - pose proof (last_Some_elem_of _ _ E) as Hq. rewrite Forall_forall in Hne. specialize (Hne q Hq).
    destruct (last (queue q)) as [p|] eqn:El; [|by apply last_None in El].
    eexists. split; [reflexivity|]. split; [done|]. cbn. by rewrite El.
  - eexists. split; [reflexivity|]. done.
Qed.

End queues.

(** A queue that ends with a call of the program's function [name] *)
Section calls.
Context `{BN : Bn254} `{KC : !KeyCrates}.
Context {H : Type} `{HA : HostAdapter H} `{PC : P2PChannel H} (P : EngineParams H).
Context (r : Runtime (WE := program_engine P)) (prog : Program) (bn : bytes).

Definition call_promise (name : string) (args : list string) (s : PromiseStatus) : Promise :=
  mkPromise (CallSelf (mkCallSelf name args)) s.
Definition guest_env : list (string * string) := wasi_env (WE := program_engine P) r bn.

(** The world after a call that returned *)
Definition returned (p : Process) (w : VmWorld H) : VmWorld H :=
  mkVmWorld (g_shared (proc_guest p)) (g_private (proc_guest p)) (vm_host w).

(** The arm of the call, once its environment and its function are there *)
Lemma process_call hosts name args f x ss w :
  keypair_bn254_public (node_config r) = Some bn -> wasi_ok P name guest_env args = true ->
  exported prog name = Some f ->
  answers (WE := program_engine P) r (action <$> hosts) (world x) = Some (ss, w) ->
  let co := run_function P prog name guest_env args
              (mkQueue (with_statuses hosts ss ++ [call_promise name args Pending])) w in
  let x1 := mkRun (co_world co) (push_nonempty (printed P name args w).1 (stdout x))
              (push_nonempty (printed P name args w).2 (stderr x)) (promise_queue_trace x) in
  process_promises (WE := program_engine P) r prog (hosts ++ [call_promise name args Unfulfilled]) 0 x
      (hosts ++ [call_promise name args Unfulfilled]) PromiseQueue_new =
    Ret (match co_trap co with
         | Some err => Stop x1 (Ok (ExecutionError err))
         | None => Continue x1 (with_statuses hosts ss ++ [call_promise name args (Fulfilled (Some (co_result co)))]) (co_next co)
         end).
Proof.
  intros Hbn Hw Hf Ha co x1.
  pose proof (process_answers (WE := program_engine P) r prog [] hosts [call_promise name args Unfulfilled] x
    PromiseQueue_new ss w Ha) as Hp. cbn [length app Nat.add] in Hp. rewrite Hp.
  assert (length (with_statuses hosts ss) = length hosts) as <-.
  { unfold with_statuses. rewrite length_zip_with. rewrite (answers_length _ _ _ _ _ Ha), length_fmap. lia. }
  cbn [process_promises call_promise action]. unfold process_promise, call_self_arm.
  rewrite set_status_middle, Hbn, andb_false_r. cbn [unwrap mbind outcome_bind function_name call_args].
  change (wasi_finalize name (wasi_env r bn) args) with (wasi_ok P name guest_env args). rewrite Hw.
  cbn [program_engine create_wasm_imports instance_new get_function main_call negb].
  rewrite bool_decide_eq_true_2 by (by rewrite Hf). cbn [negb world set_world action].
  change (mkPromise (action (call_promise name args Unfulfilled)) Pending) with (call_promise name args Pending).
  change (wasi_env r bn) with guest_env. fold co.
  assert (co_stdout co = PipeText (printed P name args w).1 /\ co_stderr co = PipeText (printed P name args w).2)
    as [-> ->] by (unfold co, run_function; rewrite Hf; by destruct (f _ _) as [[]|]).
  subst x1. destruct (co_trap co); [done|]. cbn [mbind outcome_bind]. by rewrite set_status_middle.
Qed.

Lemma execute_call fuel hosts name args f x ss w u p :
  keypair_bn254_public (node_config r) = Some bn -> wasi_ok P name guest_env args = true ->
  exported prog name = Some f ->
  answers (WE := program_engine P) r (action <$> hosts) (world x) = Some (ss, w) ->
  f (name :: args) (process_at P guest_env (mkQueue (with_statuses hosts ss ++ [call_promise name args Pending])) w)
    = Ret (u, p) ->
  exists x', execute_promise_queue (WE := program_engine P) (S fuel) r prog
      (mkQueue (hosts ++ [call_promise name args Unfulfilled])) x =
      execute_promise_queue (WE := program_engine P) fuel r prog (mkQueue (g_queue (proc_guest p))) x' /\
    world x' = returned p w /\
    promise_queue_trace x' = promise_queue_trace x ++
      [mkQueue (with_statuses hosts ss ++ [call_promise name args (Fulfilled (Some (proc_result p)))])].
Proof.
  intros Hbn Hw Hf Ha Hr. eexists. split.
  - rewrite execute_eq by (by destruct hosts). rewrite (process_call hosts name args f x ss w Hbn Hw Hf Ha).
    unfold run_function. rewrite Hf, Hr. reflexivity.
  - done.
Qed.

(** A call that traps ends the run. *)
Lemma execute_trap fuel hosts name args f x ss w msg :
  keypair_bn254_public (node_config r) = Some bn -> wasi_ok P name guest_env args = true ->
  exported prog name = Some f ->
  answers (WE := program_engine P) r (action <$> hosts) (world x) = Some (ss, w) ->
  f (name :: args) (process_at P guest_env (mkQueue (with_statuses hosts ss ++ [call_promise name args Pending])) w)
    = Panic msg ->
  exists x', execute_promise_queue (WE := program_engine P) (S fuel) r prog
      (mkQueue (hosts ++ [call_promise name args Unfulfilled])) x = Ret (x', Ok (ExecutionError msg)) /\
    world x' = trapped P name args w /\ promise_queue_trace x' = promise_queue_trace x.
Proof.
  intros Hbn Hw Hf Ha Hr. eexists. split.
  - rewrite execute_eq by (by destruct hosts). rewrite (process_call hosts name args f x ss w Hbn Hw Hf Ha).
    unfold run_function. rewrite Hf, Hr. reflexivity.
  - done.
Qed.

(** Runs in big steps: [runs n prev q w e w' l] is a run of at most [n] queues
    that starts with the queue [q] in the world [w], after a queue whose last
    promise has the status [prev]; it ends with [e] in the world [w'], and [l]
    is the status of the last promise of the last queue. *)
Inductive runs : nat -> option PromiseStatus -> list Promise -> VmWorld H -> ExecutionResult -> VmWorld H ->
    option PromiseStatus -> Prop :=
| runs_empty n prev w : runs (S n) prev [] w (Ok EmptyQueue) w prev
| runs_hosts n prev q w ss w' :
    answers (WE := program_engine P) r (action <$> q) w = Some (ss, w') ->
    runs (S (S n)) prev q w (Ok EmptyQueue) w' (if decide (q = []) then prev else last ss)
| runs_call n prev hosts name args f w ss w1 u p e w' l :
    wasi_ok P name guest_env args = true -> exported prog name = Some f ->
    answers (WE := program_engine P) r (action <$> hosts) w = Some (ss, w1) ->
    f (name :: args) (process_at P guest_env (mkQueue (with_statuses hosts ss ++ [call_promise name args Pending])) w1)
      = Ret (u, p) ->
    runs n (Some (Fulfilled (Some (proc_result p)))) (g_queue (proc_guest p)) (returned p w1) e w' l ->
    runs (S n) prev (hosts ++ [call_promise name args Unfulfilled]) w e w' l
| runs_trap n prev hosts name args f w ss w1 msg :
    wasi_ok P name guest_env args = true -> exported prog name = Some f ->
    answers (WE := program_engine P) r (action <$> hosts) w = Some (ss, w1) ->
    f (name :: args) (process_at P guest_env (mkQueue (with_statuses hosts ss ++ [call_promise name args Pending])) w1)
      = Panic msg ->
    runs (S n) prev (hosts ++ [call_promise name args Unfulfilled]) w (Ok (ExecutionError msg)) (trapped P name args w1) prev.

Definition last_traced (trace : list PromiseQueue) : option PromiseStatus :=
  q ← last trace; status <$> last (queue q).

Lemma last_with_statuses q ss : length ss = length q -> status <$> last (with_statuses q ss) = last ss.
Proof.
  revert ss. induction q as [|p q IH]; intros [|s ss]; cbn; try done. intros [= Hl].
  destruct q as [|p2 q], ss as [|s2 ss]; try done. by apply (IH (s2 :: ss)).
Qed.

Lemma runs_sound n prev q w e w' l x :
  keypair_bn254_public (node_config r) = Some bn ->
  runs n prev q w e w' l -> world x = w -> last_traced (promise_queue_trace x) = prev ->
  exists x', execute_promise_queue (WE := program_engine P) n r prog (mkQueue q) x = Ret (x', e) /\ world x' = w' /\
    last_traced (promise_queue_trace x') = l.
Proof.
  intros Hbn Hruns. revert x.
  induction Hruns as [n prev w|n prev q w ss w' Ha|n prev hosts name args f w ss w1 u p e w' l Hw Hf Ha Hr _ IH
    |n prev hosts name args f w ss w1 msg Hw Hf Ha Hr]; intros x <- Hprev.
  - by exists x.
  - destruct (execute_answers (WE := program_engine P) r prog n q x ss w' Ha) as (x' & E & W & T).
    exists x'. split_and!; [done..|]. rewrite T. unfold last_traced. case_decide as Hq; [by rewrite app_nil_r|].
    rewrite last_snoc. cbn. apply last_with_statuses. rewrite (answers_length _ _ _ _ _ Ha). apply length_fmap.
  - destruct (execute_call n hosts name args f x ss w1 u p Hbn Hw Hf Ha Hr) as (x1 & E & W & T).
    destruct (IH x1 W) as (x' & E' & W' & L); [|exists x'; by rewrite E].
    rewrite T. unfold last_traced. rewrite last_snoc. cbn. by rewrite last_snoc.
  - destruct (execute_trap n hosts name args f x ss w1 msg Hbn Hw Hf Ha Hr) as (x' & E & W & T).
    exists x'. by rewrite T.
Qed.

Lemma start_runtime_runs n config w e w' l :
  keypair_bn254_public (node_config r) = Some bn -> wasm_module r = Some prog ->
  runs n None [call_promise (default "_start"%string (start_func config)) (vm_args config) Unfulfilled] w e w' l ->
  exists res, start_runtime (WE := program_engine P) n r config w = Ret (res, w') /\
    exit_info res = ExitInfo_of_result e /\
    vm_result res = match l with Some (Fulfilled (Some d)) | Some (Rejected d) => Some d | _ => None end.
Proof.
  intros Hbn Hm Hruns. destruct (runs_sound _ _ _ _ _ _ _ (mkRun w [] [] []) Hbn Hruns eq_refl eq_refl) as (x & E & W & L).
  destruct (start_runtime_eq (WE := program_engine P) r prog n config w x e Hm E) as (res & Hres & Hx & Hd).
  exists res. rewrite Hres, W. split; [done|]. split; [done|]. rewrite Hd, <- L. unfold last_traced. done.
Qed.

End calls.
