(* ===== verification/NodeLife.v ===== *)
(** * The life of a node: start and shutdown

    Models [src/node/src/lib.rs] ([run]), the construction and the start of the
    app and of the host ([app/mod.rs], [host/mod.rs], [host/set_app_addr.rs],
    [host/batch_tick.rs]), the RPC server's [start] and [stop] ([rpc.rs]), and
    the shutdown ([app/shutdown.rs]).  The actors that work in between are those
    of [Node]: the theorems show that a node that has started behaves like them,
    and how it stops.

    Opening sockets and the database are parameters: they succeed or fail. *)

From S2P Require Import Prelude NearSdk Sdk Runtime Crypto Config PeerList Discovery P2PServer Node.

(** ** The host actor *)

(** Its mailbox, the app's address, and the timer of the batch ticks *)
Inductive HostMessage := SetAppAddress | BatchTickManager.
Record Host := mkHost { host_mailbox : list HostMessage; host_app : bool; tick_timer : bool }.

Definition BATCH_TICK_INTERVAL : Z := 1000 * 10.

(** [Host::default]: the database and its table *)
Definition Host_default (open_ok create_ok : bool) : outcome Host :=
  if negb open_ok then Panic "Couldn't open db conn"
  else if negb create_ok then Panic "couldn't create db table"
  else Ret (mkHost [] false false).
Definition host_send (m : HostMessage) (h : Host) : Host := mkHost (host_mailbox h ++ [m]) (host_app h) (tick_timer h).

(** ** The system *)

Inductive Rpc := RpcRunning | RpcStopped.

(** [JsonRpcServer::start] and [stop]; [stop] fails on a server that is already
    stopped *)
Definition rpc_start (build_ok start_ok : bool) : result Rpc string :=
  if build_ok && start_ok then Ok RpcRunning else Err "cannot start"%string.
Definition rpc_stop (r : Rpc) : result unit string * Rpc :=
  match r with RpcRunning => (Ok tt, RpcStopped) | RpcStopped => (Err "already stopped"%string, RpcStopped) end.

(** [shutdown] is the number of messages that are before the message [Shutdown]
    in the mailbox of the app; [stop_code] is the code that [System::stop] was
    called with, which [run_with_code] returns and the process exits with.  Until
    it does, the actors can go on. *)
Record NodeSystem := mkSystem {
  sys_app : NodeState;
  sys_host : Host;
  sys_rpc : Rpc;
  shutdown : option nat;
  stop_code : option Z;
}.

(** [App::new] up to its [expect], and [App::started] *)
Definition App_new (build_ok start_ok : bool) : outcome (NodeState * Rpc) :=
  match rpc_start build_ok start_ok with
  | Ok rpc => Ret (mkNodeState [] EventQueue_default [] false false [] [], rpc)
  | Err _ => Panic "Error starting jsonrpsee server"
  end.
Definition app_started (n : NodeState) (h : Host) : NodeState * Host :=
  (post StartJobManager n, host_send BatchTickManager (host_send SetAppAddress h)).

(** What the environment grants to [run]: the sockets of the RPC server and of
    the P2P server, the database *)
Record Resources := mkResources { rpc_build : bool; rpc_run : bool; db_open : bool; db_create : bool; p2p_new : bool }.

(** [run], up to the tasks that it spawns *)
Definition run_boot (r : Resources) : outcome NodeSystem :=
  '(app, rpc) ← App_new (rpc_build r) (rpc_run r);
  host ← Host_default (db_open r) (db_create r);
  let '(app, host) := app_started app host in
  _ ← (if p2p_new r then Ret tt else Panic "P2P swarm cannot be started");
  mret (mkSystem app host RpcRunning None None).

(** ** Steps *)

Definition set_app (n : NodeState) (s : NodeSystem) : NodeSystem :=
  mkSystem n (sys_host s) (sys_rpc s) (shutdown s) (stop_code s).
Definition set_host (h : Host) (s : NodeSystem) : NodeSystem :=
  mkSystem (sys_app s) h (sys_rpc s) (shutdown s) (stop_code s).
Definition with_address (n : NodeState) : NodeState :=
  mkNodeState (mailbox n) (event_queue n) (running_event_ids n) (timer n) true (jobs n) (busy n).

(** [Handler<SetAppAddress>] and [Handler<BatchTickManager>] *)
Definition handle_set_app_address (s : NodeSystem) : NodeSystem :=
  set_host (mkHost (host_mailbox (sys_host s)) true (tick_timer (sys_host s))) (set_app (with_address (sys_app s)) s).
Definition handle_tick_manager (s : NodeSystem) : NodeSystem :=
  set_host (mkHost (host_mailbox (sys_host s)) (host_app (sys_host s)) true) (set_app (handle_batch_tick (sys_app s)) s).
Definition pop_host (l : list HostMessage) (s : NodeSystem) : NodeSystem :=
  set_host (mkHost l (host_app (sys_host s)) (tick_timer (sys_host s))) s.

(** [Handler<Shutdown>]; an error of the RPC server is only logged *)
Definition handle_shutdown (s : NodeSystem) : NodeSystem :=
  mkSystem (sys_app s) (sys_host s) (rpc_stop (sys_rpc s)).2 None (Some 0%Z).

(** The steps of the app's mailbox, and those of the timers, the workers and the
    sources of messages other than the ticks *)
Definition from_mailbox (a : label) (n n' : NodeState) : Prop :=
  (exists e l, a = Queued e /\ mailbox n = AddEventToQueue e :: l /\ n' = handle_add_event e (pop_mailbox n l)) \/
  (exists e q l, a = Dispatched e /\ mailbox n = StartJobManager :: l /\
     get_next (running_event_ids n) (event_queue n) = (Some e, q) /\ n' = handle_job_manager (pop_mailbox n l)) \/
  (exists q l, a = Internal /\ mailbox n = StartJobManager :: l /\
     get_next (running_event_ids n) (event_queue n) = (None, q) /\ n' = handle_job_manager (pop_mailbox n l)).

Section steps.
Context (threads : nat).

Definition from_elsewhere (a : label) (n n' : NodeState) : Prop :=
  (exists m, a = Arrives (p2p_event m) /\ n' = handle_p2p_message m n) \/
  (exists e, a = Arrives e /\ handle_trigger_event e n = (Ok tt, n')) \/
  (exists args, a = RpcJob (cli_event args) /\ n' = rpc_cli args n) \/
  (a = Internal /\ timer n = true /\ n' = post StartJobManager (set_timer false n)) \/
  (exists e l, a = Started e /\ jobs n = e :: l /\ length (busy n) < threads /\
     n' = mkNodeState (mailbox n) (event_queue n) (running_event_ids n) (timer n) (app_actor_addr n) l (busy n ++ [e])) \/
  (exists i e, a = Finished e /\ busy n !! i = Some e /\
     n' = mkNodeState (mailbox n) (event_queue n) (running_event_ids n) (timer n) (app_actor_addr n) (jobs n) (delete i (busy n))).

(** The app handles its next message, which may be [Shutdown]. *)
Inductive app_step (s : NodeSystem) : label -> NodeSystem -> Prop :=
| app_message a n :
    shutdown s <> Some 0 -> from_mailbox a (sys_app s) n ->
    app_step s a (mkSystem n (sys_host s) (sys_rpc s) (pred <$> shutdown s) (stop_code s))
| app_shutdown :
    shutdown s = Some 0 -> app_step s Internal (handle_shutdown s).

(** Everything else; the task that waits for the interrupt ends with the first
    one. *)
Inductive other_step (s : NodeSystem) : label -> NodeSystem -> Prop :=
| other_set_address l :
    host_mailbox (sys_host s) = SetAppAddress :: l ->
    other_step s Internal (handle_set_app_address (pop_host l s))
| other_host_tick l :
    host_mailbox (sys_host s) = BatchTickManager :: l ->
    other_step s (if app_actor_addr (sys_app s) then Arrives batch_tick_event else Internal) (handle_tick_manager (pop_host l s))
| other_tick :
    tick_timer (sys_host s) = true ->
    other_step s Internal (set_host (mkHost (host_mailbox (sys_host s) ++ [BatchTickManager]) (host_app (sys_host s)) false) s)
| other_actor a n :
    from_elsewhere a (sys_app s) n -> (forall e, a = RpcJob e -> sys_rpc s = RpcRunning) ->
    other_step s a (set_app n s)
| other_ctrl_c :
    shutdown s = None -> stop_code s = None ->
    other_step s Internal (mkSystem (sys_app s) (sys_host s) (sys_rpc s) (Some (length (mailbox (sys_app s)))) None).

Definition life_step (s : NodeSystem) (a : label) (s' : NodeSystem) : Prop := app_step s a s' \/ other_step s a s'.

Inductive life (r : Resources) : list label -> NodeSystem -> Prop :=
| life_boot s : run_boot r = Ret s -> life r [] s
| life_next ls s a s' : life r ls s -> life_step s a s' -> life r (ls ++ [a]) s'.

(** Steps in a row, in which the app handles so many messages *)
Inductive life_steps : NodeSystem -> nat -> NodeSystem -> Prop :=
| steps_done s : life_steps s 0 s
| steps_app s a s1 k s2 : app_step s a s1 -> life_steps s1 k s2 -> life_steps s (S k) s2
| steps_other s a s1 k s2 : other_step s a s1 -> life_steps s1 k s2 -> life_steps s k s2.

(** ** Correctness *)

(** A node starts exactly if it gets all it needs. *)
Lemma boot_ok r :
  is_ret (run_boot r) = rpc_build r && rpc_run r && db_open r && db_create r && p2p_new r.
Proof. by destruct r as [[] [] [] [] []]. Qed.

(** Every step is one of the actors' ([Node]), or leaves the app alone. *)
Lemma mailbox_node_step a n n' :
  from_mailbox a n n' -> node_step threads n a n'.
Proof.
  intros [(e & l & -> & Hm & ->)|[(e & q & l & -> & Hm & Hg & ->)|(q & l & -> & Hm & Hg & ->)]].
  - by apply step_add_event.
  - by eapply step_dispatch.
  - by eapply step_no_job.
Qed.
Lemma elsewhere_node_step a n n' :
  from_elsewhere a n n' -> node_step threads n a n'.
Proof.
  intros [(m & -> & ->)|[(e & -> & He)|[(args & -> & ->)|[(-> & Ht & ->)|[(e & l & -> & Hj & Hl & ->)|(i & e & -> & Hb & ->)]]]]].
  - apply step_p2p_message.
  - by apply step_trigger_event.
  - apply step_rpc_cli.
  - by apply step_timer.
  - by apply step_start.
  - by apply step_finish.
Qed.

(** The app before it has told the host its address takes the same steps. *)
Lemma mailbox_with_address a n n' : from_mailbox a n n' -> from_mailbox a (with_address n) (with_address n').
Proof.
  intros [(e & l & -> & Hm & ->)|[(e & q & l & -> & Hm & Hg & ->)|(q & l & -> & Hm & Hg & ->)]].
  - left. by exists e, l.
  - right; left. exists e, q, l. split_and!; [done..|]. unfold handle_job_manager. cbn. by rewrite Hg.
  - right; right. exists q, l. split_and!; [done..|]. unfold handle_job_manager. cbn. by rewrite Hg.
Qed.
Lemma elsewhere_with_address a n n' : from_elsewhere a n n' -> from_elsewhere a (with_address n) (with_address n').
Proof.
  intros [(m & -> & ->)|[(e & -> & He)|[(args & -> & ->)|[(-> & Ht & ->)|[(e & l & -> & Hj & Hl & ->)|(i & e & -> & Hb & ->)]]]]].
  - left. by exists m.
  - right; left. exists e. split; [done|]. unfold handle_trigger_event in *. cbn. by destruct (app_actor_addr n); [injection He as <-|].
  - do 2 right; left. by exists args.
  - do 3 right; left. done.
  - do 4 right; left. by exists e, l.
  - do 5 right. by exists i, e.
Qed.

Definition visible (a : label) : bool := match a with Internal => false | _ => true end.

(** The invariant of a life: the app is one of [Node]; the host learns the app's
    address before the first tick; the message that stops the app is in its
    mailbox. *)
Record life_ok (ls : list label) (s : NodeSystem) : Prop := {
  lo_node : exists ls', node_run threads ls' (with_address (sys_app s)) /\ List.filter visible ls' = List.filter visible ls;
  lo_address : app_actor_addr (sys_app s) = false /\ host_mailbox (sys_host s) = [SetAppAddress; BatchTickManager] /\
      tick_timer (sys_host s) = false \/
    app_actor_addr (sys_app s) = true /\ SetAppAddress ∉ host_mailbox (sys_host s);
  lo_shutdown : forall k, shutdown s = Some k -> k <= length (mailbox (sys_app s));
  lo_stop : match stop_code s with
            | None => sys_rpc s = RpcRunning
            | Some c => c = 0%Z /\ sys_rpc s = RpcStopped /\ shutdown s = None
            end;
}.

Lemma visible_snoc ls a : List.filter visible (ls ++ [a]) = List.filter visible ls ++ (if visible a then [a] else []).
Proof. rewrite List.filter_app. cbn. by destruct (visible a). Qed.

Lemma mailbox_effect a n n' :
  from_mailbox a n n' -> app_actor_addr n' = app_actor_addr n /\ length (mailbox n) = S (length (mailbox n')).
Proof.
  intros [(e & l & -> & Hm & ->)|[(e & q & l & -> & Hm & Hg & ->)|(q & l & -> & Hm & Hg & ->)]]; rewrite Hm; try done.
  all: unfold handle_job_manager; cbn; by rewrite Hg.
Qed.
Lemma elsewhere_effect a n n' :
  from_elsewhere a n n' -> app_actor_addr n' = app_actor_addr n /\ length (mailbox n) <= length (mailbox n').
Proof.
  intros [(m & -> & ->)|[(e & -> & He)|[(args & -> & ->)|[(-> & Ht & ->)|[(e & l & -> & Hj & Hl & ->)|(i & e & -> & Hb & ->)]]]]];
    try (cbn; rewrite ?length_app; split; [done|lia]).
  unfold handle_trigger_event in He. destruct (app_actor_addr n) eqn:E; [|done]. injection He as <-. cbn. rewrite length_app. split; [done|lia].
Qed.

(** A step of the app alone *)
Lemma life_ok_app ls s a n k :
  life_ok ls s -> from_mailbox a (sys_app s) n \/ from_elsewhere a (sys_app s) n ->
  (forall j, k = Some j -> j <= length (mailbox n)) -> (shutdown s = None -> k = None) ->
  life_ok (ls ++ [a]) (mkSystem n (sys_host s) (sys_rpc s) k (stop_code s)).
Proof.
  intros [(ls' & Hrun & Hv) Ha _ He] Hstep Hk Hnone.
  assert (node_step threads (with_address (sys_app s)) a (with_address n) /\ app_actor_addr n = app_actor_addr (sys_app s)) as [Hn Haddr].
  { destruct Hstep as [Hs|Hs].
    - split; [by apply mailbox_node_step, mailbox_with_address|exact (proj1 (mailbox_effect _ _ _ Hs))].
    - split; [by apply elsewhere_node_step, elsewhere_with_address|exact (proj1 (elsewhere_effect _ _ _ Hs))]. }
  split; cbn.
  - exists (ls' ++ [a]). split; [by eapply run_step|]. by rewrite !visible_snoc, Hv.
  - by rewrite Haddr.
  - done.
  - destruct (stop_code s); [|done]. destruct He as (? & ? & ?). auto.
Qed.

(** A step of the host that nobody sees *)
Lemma life_ok_internal ls s s' :
  life_ok ls s -> with_address (sys_app s') = with_address (sys_app s) ->
  (app_actor_addr (sys_app s') = true /\ SetAppAddress ∉ host_mailbox (sys_host s') \/
   app_actor_addr (sys_app s') = app_actor_addr (sys_app s) /\ sys_host s' = sys_host s) ->
  (forall k, shutdown s' = Some k -> k <= length (mailbox (sys_app s'))) ->
  match stop_code s' with None => sys_rpc s' = RpcRunning | Some c => c = 0%Z /\ sys_rpc s' = RpcStopped /\ shutdown s' = None end ->
  life_ok (ls ++ [Internal]) s'.
Proof.
  intros [(ls' & Hrun & Hv) Ha _ _] Happ Haddr Hk He. split; [|..|done|done].
  - exists ls'. rewrite Happ. split; [done|]. by rewrite visible_snoc, app_nil_r.
  - destruct Haddr as [H|[-> ->]]; [by right|done].
Qed.

Lemma life_ok_app_step ls s a s' : life_ok ls s -> app_step s a s' -> life_ok (ls ++ [a]) s'.
Proof.
  intros IH Hs. pose proof IH as [_ _ Hk He]. destruct Hs as [a n Hs Hmb|Hs].
  - apply life_ok_app; [done|by left| |by intros ->]. apply mailbox_effect in Hmb as [_ Hlen]. intros j Hj.
    destruct (shutdown s) as [[|k]|] eqn:Es; [done| |done]. injection Hj as <-. specialize (Hk _ eq_refl). cbn. lia.
  - apply (life_ok_internal ls s); [done|done|by right|done|]. cbn.
    destruct (stop_code s); [by destruct He as (_ & _ & ?); congruence|]. by rewrite He.
Qed.

Lemma life_ok_other_step ls s a s' : life_ok ls s -> other_step s a s' -> life_ok (ls ++ [a]) s'.
Proof.
  intros IH Hs. pose proof IH as [_ Haddr Hk He]. destruct Hs as [l Hm|l Hm|Ht|a n Hel Hrpc|Hs Hc].
  - destruct Haddr as [(Hf & Hl & Ht)|[_ Hn]]; [|by rewrite Hm in Hn; set_solver]. rewrite Hl in Hm. injection Hm as <-.
    apply (life_ok_internal ls s); [done|done| |exact Hk|exact He]. left. split; [done|]. set_solver.
  - destruct Haddr as [(Hf & Hl & Ht)|[Ha Hn]]; [by rewrite Hl in Hm|]. rewrite Ha.
    destruct IH as [(ls' & Hrun & Hv) _ _ _]. split; cbn.
    + exists (ls' ++ [Arrives batch_tick_event]). rewrite !visible_snoc, Hv. split; [|done].
      eapply run_step; [exact Hrun|]. assert (with_address (handle_batch_tick (sys_app s)) = handle_batch_tick (with_address (sys_app s))) as ->
        by (unfold handle_batch_tick; by rewrite Ha). by apply step_batch_tick.
    + right. unfold handle_batch_tick. rewrite Ha. rewrite Hm in Hn. split; [done|set_solver].
    + intros k Hs. apply Hk in Hs. unfold handle_batch_tick. rewrite Ha. cbn. rewrite length_app. lia.
    + exact He.
  - destruct Haddr as [(_ & _ & Hf)|[Ha Hn]]; [congruence|].
    apply (life_ok_internal ls s); [done|done| |exact Hk|exact He]. left. split; [done|]. cbn. set_solver.
  - apply life_ok_app; [done|by right| |done]. apply elsewhere_effect in Hel as [_ Hlen]. intros j Hj.
    specialize (Hk _ Hj). lia.
  - apply (life_ok_internal ls s); [done|done|by right|by intros k [= <-]|]. cbn. by rewrite Hc in He.
Qed.

Lemma life_invariant r ls s : life r ls s -> life_ok ls s.
Proof.
  induction 1 as [s Hb|ls s a s' _ IH [Hs|Hs]]; [|by eapply life_ok_app_step|by eapply life_ok_other_step].
  assert (s = mkSystem (mkNodeState [StartJobManager] EventQueue_default [] false false [] [])
    (mkHost [SetAppAddress; BatchTickManager] false false) RpcRunning None None) as ->
    by (destruct r as [[] [] [] [] []]; by inversion Hb).
  split; [exists []; split; [apply run_start|done]|by left|done|done].
Qed.

(** The app can always handle the next message. *)
Lemma mailbox_progress n m l : mailbox n = m :: l -> exists a n', from_mailbox a n n'.
Proof.
  intros Hm. destruct m as [e|].
  - eexists (Queued e), _. left. by exists e, l.
  - destruct (get_next (running_event_ids n) (event_queue n)) as [[e|] q] eqn:Hg.
    + eexists (Dispatched e), _. right; left. by exists e, q, l.
    + eexists Internal, _. right; right. by exists q, l.
Qed.

(** While [Shutdown] waits, the app can handle a message. *)
Lemma shutdown_enabled ls s k : life_ok ls s -> shutdown s = Some k -> exists a s', app_step s a s'.
Proof.
  intros [_ _ Hk _] Hs. specialize (Hk _ Hs). destruct k as [|k]; [eexists _, _; by apply app_shutdown|].
  destruct (mailbox (sys_app s)) as [|m l] eqn:Em; [cbn in Hk; lia|]. destruct (mailbox_progress _ _ _ Em) as (a & n & Hf).
  eexists a, _. apply app_message; [by rewrite Hs|exact Hf].
Qed.

Lemma stopped_stays ls s n s' :
  life_ok ls s -> life_steps s n s' -> is_Some (stop_code s) -> stop_code s' = stop_code s /\ sys_rpc s' = RpcStopped.
Proof.
  intros Hok Hst. revert ls Hok. induction Hst as [s|s a s1 n s2 Hs _ IH|s a s1 n s2 Hs _ IH]; intros ls Hok Hc; pose proof Hok as [_ _ _ He];
    destruct (stop_code s) as [c|] eqn:Ec; try (by destruct Hc); destruct He as (-> & Hrpc & Hsd); [done|..].
  - assert (stop_code s1 = Some 0%Z) as E1 by (destruct Hs as [a n' _ _|Hs]; [done|congruence]).
    rewrite <- E1. eapply IH; [by eapply life_ok_app_step|]. by rewrite E1.
  - assert (stop_code s1 = Some 0%Z) as E1 by (destruct Hs; [done..|congruence]).
    rewrite <- E1. eapply IH; [by eapply life_ok_other_step|]. by rewrite E1.
Qed.

(** After an interrupt: the messages that came before it, then the stop *)
Lemma shutdown_steps ls s n s' k :
  life_ok ls s -> life_steps s n s' -> shutdown s = Some k ->
  (n <= k -> shutdown s' = Some (k - n) /\ stop_code s' = None /\ exists a s'', app_step s' a s'') /\
  (k < n -> stop_code s' = Some 0%Z /\ sys_rpc s' = RpcStopped).
Proof.
  intros Hok Hst. revert ls k Hok. induction Hst as [s|s a s1 n s2 Hs Hst IH|s a s1 n s2 Hs _ IH]; intros ls k Hok Hk; pose proof Hok as [_ _ _ He].
  - split; [|lia]. intros _. rewrite Nat.sub_0_r. split; [done|]. split; [|by eapply shutdown_enabled].
    destruct (stop_code s); [|done]. destruct He as (_ & _ & ?). congruence.
  - pose proof (life_ok_app_step _ _ _ _ Hok Hs) as Hok1. destruct k as [|k].
    + split; [lia|]. intros _. destruct Hs as [a n' Hs _|_]; [done|].
      destruct (stopped_stays _ _ _ _ Hok1 Hst) as [-> ?]; [by eexists|done].
    + assert (shutdown s1 = Some k) as Hk1 by (destruct Hs as [a n' _ _|Hs]; cbn; [by rewrite Hk|congruence]).
      destruct (IH _ k Hok1 Hk1) as [H1 H2]. split; [intros; apply H1; lia|intros; apply H2; lia].
  - eapply (IH _ k); [by eapply life_ok_other_step|]. by destruct Hs; [..|congruence].
Qed.

(** C28: The life of a node.  What happens in it is a run of the actors of [Node],
    so that all that is shown of them holds; no tick of the batch chain is lost,
    since the host has the app's address before it handles the first one; the RPC
    server is up until the system is told to stop.  After an interrupt, whatever
    the workers, the host and the network do in between: as long as the app has
    not handled more messages than were in its mailbox before the interrupt, it
    has not been stopped and can handle its next message, and as soon as it has
    handled one more, the system has been told to stop with exit code 0, and the
    RPC server is down. *)
Theorem node_life_correct r ls s :
  life r ls s ->
  (exists ls', node_run threads ls' (with_address (sys_app s)) /\ List.filter visible ls' = List.filter visible ls) /\
  (head (host_mailbox (sys_host s)) = Some BatchTickManager -> app_actor_addr (sys_app s) = true) /\
  (stop_code s = None -> sys_rpc s = RpcRunning) /\
  (forall k n s', shutdown s = Some k -> life_steps s n s' ->
     (n <= k -> shutdown s' = Some (k - n) /\ stop_code s' = None /\ exists a s'', app_step s' a s'') /\
     (k < n -> stop_code s' = Some 0%Z /\ sys_rpc s' = RpcStopped)).
Proof.
  intros Hl. pose proof (life_invariant _ _ _ Hl) as Hok. pose proof Hok as [Hn Ha _ He]. split_and!; [done|..].
  - intros Hh. destruct Ha as [(_ & Hm & _)|[? _]]; [|done]. by rewrite Hm in Hh.
  - intros Hx. by rewrite Hx in He.
  - intros k n s' Hk Hst. by eapply shutdown_steps.
Qed.

End steps.

Section witnesses.

(** A node is started and interrupted at once: it handles the job manager's
    message, and stops. *)
Definition granted : Resources := mkResources true true true true true.
Definition interrupted : NodeSystem :=
  mkSystem (mkNodeState [StartJobManager] EventQueue_default [] false false [] [])
    (mkHost [SetAppAddress; BatchTickManager] false false) RpcRunning (Some 1) None.

Lemma node_life_correct_witness :
  life 2 granted [Internal] interrupted /\
  exists s, life_steps 2 interrupted 2 s /\ stop_code s = Some 0%Z /\ sys_rpc s = RpcStopped.
Proof.
  assert (life 2 granted [Internal] interrupted) as Hl.
  { apply (life_next 2 granted [] (mkSystem (mkNodeState [StartJobManager] EventQueue_default [] false false [] [])
      (mkHost [SetAppAddress; BatchTickManager] false false) RpcRunning None None) Internal).
    - by apply life_boot.
    - right. by apply other_ctrl_c. }
  split; [exact Hl|].
  assert (exists s, life_steps 2 interrupted 2 s) as [s Hs].
  { eexists. eapply steps_app; [apply (app_message interrupted Internal); [discriminate|]|].
    - right; right. exists EventQueue_default, []. split_and!; reflexivity.
    - eapply steps_app; [apply app_shutdown; reflexivity|apply steps_done]. }
  exists s. split; [exact Hs|].
  destruct (node_life_correct 2 granted [Internal] interrupted Hl) as (_ & _ & _ & Hstop).
  apply (Hstop 1 2 s eq_refl Hs). repeat constructor.
Defined.

End witnesses.
