(* ===== verification/NodeHost.v ===== *)
(** * The host actor, the runtime's adapter to it, and the RPC server

    Models [src/node/src/host] (database, HTTP, chains), the implementation of
    the runtime's [HostAdapter] ([host/runtime_host.rs]), and [rpc.rs].  The
    adapter is an instance of the interface that [Runtime] is written against.

    SQLite and the HTTP client are parameters. *)

From S2P Require Import Prelude NearSdk Sdk Runtime Crypto Config PeerList Discovery P2PServer Chains Node.

(** ** Data *)

Inductive NodeError :=
| RPCError (err : string)
| MailboxError
| P2PError (err : string)
| ReqwestError (err : string)
| RuqliteError (err : string)
| NodeChainAdapterError (err : ChainAdapterError)
| MissingAppActorAddress.

#[export] Instance ChainAdapterError_error : Error ChainAdapterError := fun e =>
  match e with
  | CallChangeMethod _ => "error calling contract change method"
  | CallViewMethod => "error calling contract view method"
  | FailedTx err => "error failed to send tx: `" +:+ err +:+ "`"
  | BadTransactionTimestamp => "time limit exceeded for the transaction to be recognized"
  | FailedToExtractCurrentNonce => "failed to extract current nonce"
  | BadParams err => "Bad Parameters for method `" +:+ err +:+ "`"
  | ParseAccountId => "error parsing string to near secretkey"
  | JsonRpcQueryError err => "near json rpc query error " +:+ err
  | ParseKey => "error parsing string to near AccountId"
  | JsonRpcTxError _ => "near json rpc tx error"
  | MissingNearServerUrlConfig => "Config error: chain_rpc_url from env var or config [main_chain] section."
  | StdIoError _ => "error serializing to vec"
  | InvalidEd25519KeyPair => "error converting slice to Ed25519 keypair"
  end%string.
#[export] Instance NodeError_error : Error NodeError := fun e =>
  match e with
  | RPCError err | P2PError err => err
  | MailboxError => "Mailbox has closed"
  | ReqwestError err => "Reqwest Error: " +:+ err
  | RuqliteError err => "Rusqlite Error: " +:+ err
  | NodeChainAdapterError err => "Chain Adapter Error: " +:+ error_to_string err
  | MissingAppActorAddress => "Missing app actor address in host adapter, was the node booted?"
  end%string.

(** The table "data", with its rows; a query for one row returns one of those
    that match, and fails if there is none *)
Definition rows := list (string * string).
Class Sqlite := {
  insert_row : string -> string -> rows -> result rows string;
  query_row : string -> rows -> result string string;
  insert_row_ok k v t t' : insert_row k v t = Ok t' -> t' = t ++ [(k, v)];
  query_row_ok k v t : query_row k t = Ok v -> (k, v) ∈ t;
  query_row_err k t : (exists e, query_row k t = Err e) <-> forall v, (k, v) ∉ t;
}.

(** [reqwest::get(..).await.unwrap().text().await.unwrap()] *)
Class HttpClient (N : Type) := http_get : string -> N -> outcome string * N.

(** The world of the runtime: the node's actors, the host's database, the
    network, the channel to the P2P server *)
Record NodeWorld (N : Type) := mkNodeWorld {
  w_node : NodeState;
  w_rows : rows;
  w_net : N;
  w_commands : list P2PCommand;
  w_p2p_alive : bool;
}.
Arguments mkNodeWorld {N}. Arguments w_node {N}. Arguments w_rows {N}. Arguments w_net {N}.
Arguments w_commands {N}. Arguments w_p2p_alive {N}.

Section host.
Context {N : Type} `{NN : NearNet N} `{HC : HttpClient N} `{SQ : Sqlite}.
Context `{BN : Bn254} `{KC : !KeyCrates}.

Definition set_rows (t : rows) (w : NodeWorld N) : NodeWorld N :=
  mkNodeWorld (w_node w) t (w_net w) (w_commands w) (w_p2p_alive w).
Definition set_net (x : N) (w : NodeWorld N) : NodeWorld N :=
  mkNodeWorld (w_node w) (w_rows w) x (w_commands w) (w_p2p_alive w).
Definition set_node (n : NodeState) (w : NodeWorld N) : NodeWorld N :=
  mkNodeWorld n (w_rows w) (w_net w) (w_commands w) (w_p2p_alive w).

(** ** The handlers of the host *)

Definition handle_database_get (key : string) (w : NodeWorld N) : result (option string) NodeError * NodeWorld N :=
  (match query_row key (w_rows w) with Ok v => Ok (Some v) | Err e => Err (RuqliteError e) end, w).
Definition handle_database_set (key value : string) (w : NodeWorld N) : result unit NodeError * NodeWorld N :=
  match insert_row key value (w_rows w) with
  | Ok t => (Ok tt, set_rows t w)
  | Err e => (Err (RuqliteError e), w)
  end.

(** A handler that panics does not answer: its sender gets a [MailboxError]. *)
Definition handle_http_fetch (url : string) (w : NodeWorld N) : result string NodeError * NodeWorld N :=
  let '(r, x) := http_get url (w_net w) in
  (match r with Ret text => Ok text | Panic _ => Err MailboxError end, set_net x w).
Definition handle_net (m : net N bytes) (w : NodeWorld N) : result bytes NodeError * NodeWorld N :=
  match m (w_net w) with
  | Ret (Ok v, x) => (Ok v, set_net x w)
  | Ret (Err e, x) => (Err (NodeChainAdapterError e), set_net x w)
  | Panic _ => (Err MailboxError, w)
  end.
Definition handle_trigger (e : Event) (w : NodeWorld N) : result unit NodeError * NodeWorld N :=
  match handle_trigger_event e (w_node w) with
  | (Ok _, n) => (Ok tt, set_node n w)
  | (Err _, n) => (Err MissingAppActorAddress, set_node n w)
  end.

(** ** [RuntimeAdapter] *)

Section adapter.
(** The build's overflow checks, and the configuration *)
Context (ov : bool) (conf : NodeConfig) (chains : ChainConfigs).

Record RuntimeAdapter := mkAdapter { another_client : Client; near_client : Client }.
Definition RuntimeAdapter_new : RuntimeAdapter :=
  mkAdapter ClientAnother (ClientNear (near_rpc_url (conf_near chains))).
Definition select_client_from_chain (a : RuntimeAdapter) (chain : Chain) : Client :=
  match chain with Another => another_client a | Near => near_client a end.

(** 32 requests are enough for a transaction ([Chains.send_tx_terminates]). *)
Definition adapter_chain_call (chain : Chain) (contract_id method_name : string) (args : bytes) (deposit : Z)
    (w : NodeWorld N) : result bytes NodeError * NodeWorld N :=
  handle_net (call_bytes ov 32 chain contract_id method_name args (select_client_from_chain RuntimeAdapter_new chain)
    deposit conf chains) w.
Definition adapter_chain_view (chain : Chain) (contract_id method_name : string) (args : bytes)
    (w : NodeWorld N) : result bytes NodeError * NodeWorld N :=
  handle_net (chain_view_client chain (select_client_from_chain RuntimeAdapter_new chain) contract_id method_name args) w.

#[export] Instance runtime_adapter : HostAdapter (NodeWorld N) := {|
  HostError := NodeError;
  db_get := handle_database_get;
  db_set := handle_database_set;
  http_fetch := handle_http_fetch;
  chain_call chain contract_id method_name args deposit _ := adapter_chain_call chain contract_id method_name args deposit;
  chain_view := adapter_chain_view;
  trigger_event := handle_trigger;
|}.

End adapter.

(** The runtime's end of the channel to the P2P server *)
#[export] Instance p2p_channel : P2PChannel (NodeWorld N) := fun c w =>
  if w_p2p_alive w then Some (mkNodeWorld (w_node w) (w_rows w) (w_net w) (w_commands w ++ [c]) true) else None.

(** ** RPC *)

Context `{LP : Libp2p}.

Definition rpc_send (c : P2PCommand) (w : NodeWorld N) : result unit string * NodeWorld N :=
  match p2p_send c w with Some w => (Ok tt, w) | None => (Err "channel closed"%string, w) end.

Definition rpc_add_peer (multi_addr : string) (w : NodeWorld N) : result unit string * NodeWorld N :=
  match multiaddr_from_str multi_addr with
  | None => (Err "invalid multiaddr"%string, w)
  | Some _ => rpc_send (AddPeer multi_addr) w
  end.
Definition rpc_remove_peer (peer_id : string) (w : NodeWorld N) : result unit string * NodeWorld N :=
  match peer_id_from_str peer_id with
  | None => (Err "invalid peer id"%string, w)
  | Some _ => rpc_send (RemovePeer peer_id) w
  end.
Definition rpc_discover_peers (w : NodeWorld N) : result unit string * NodeWorld N := rpc_send DiscoverPeers w.
Definition rpc_list_peers (d : DiscoveryStatus) : gmap string string := get_json (connected_peers d).

(** ** Correctness *)

Lemma set_rows_app k v w w' :
  handle_database_set k v w = (Ok tt, w') -> w_rows w' = w_rows w ++ [(k, v)].
Proof.
  unfold handle_database_set. destruct (insert_row k v (w_rows w)) eqn:E; intros [= <-]. by apply insert_row_ok in E.
Qed.

(** What a guest reads from the database under a key is a value that was
    stored under this key, the stored one if there is only one; reading a key
    that was never stored is an error, never the empty result. *)
Theorem database_reads_stored_values k v w w' :
  handle_database_set k v w = (Ok tt, w') ->
  (exists v', handle_database_get k w' = (Ok (Some v'), w') /\ (k, v') ∈ w_rows w ++ [(k, v)]) /\
  ((forall v', (k, v') ∈ w_rows w -> v' = v) -> handle_database_get k w' = (Ok (Some v), w')) /\
  (forall k', k' <> k -> (forall v', (k', v') ∉ w_rows w) -> exists e, handle_database_get k' w' = (Err (RuqliteError e), w')).
Proof.
  intros Hs%set_rows_app. unfold handle_database_get. rewrite Hs. split_and!.
  - destruct (query_row k _) as [v'|e] eqn:E; [exists v'; split; [done|by apply query_row_ok]|].
    destruct (proj1 (query_row_err k (w_rows w ++ [(k, v)])) (ex_intro _ _ E) v). set_solver.
  - intros Hu. destruct (query_row k _) as [v'|e] eqn:E.
    + apply query_row_ok, elem_of_app in E as [E|E]; [by apply Hu in E as ->|]. by apply list_elem_of_singleton in E as [= ->].
    + destruct (proj1 (query_row_err k (w_rows w ++ [(k, v)])) (ex_intro _ _ E) v). set_solver.
  - intros k' Hne Hk. destruct (proj2 (query_row_err k' (w_rows w ++ [(k, v)]))) as [e He].
    + intros v' [?|E]%elem_of_app; [by eapply Hk|]. apply list_elem_of_singleton in E. congruence.
    + exists e. by rewrite He.
Qed.

(** The adapter has a client of the right kind for every chain: on NEAR no
    handler panics, whatever the network answers. *)
Lemma near_calls_answered conf chains contract_id method_name args deposit w :
  (forall r w', adapter_chain_view chains Near contract_id method_name args w = (r, w') -> r <> Err MailboxError) /\
  (forall r w', adapter_chain_call false conf chains Near contract_id method_name args deposit w = (r, w') -> r <> Err MailboxError).
Proof.
  assert (forall (m : net N bytes), is_ret (m (w_net w)) = true ->
    forall r w', handle_net m w = (r, w') -> r <> Err MailboxError) as Hm.
  { intros m Hr r w'. unfold handle_net. destruct (m (w_net w)) as [[[] ?]|]; [| |done]; intros [= <- <-]; done. }
  split; apply Hm; [apply near_view_returns|apply near_call_returns].
Qed.

(** A command that the RPC server sends is one that the P2P server can parse. *)
Lemma rpc_commands_parse s w w' :
  (rpc_add_peer s w = (Ok tt, w') -> exists a, multiaddr_from_str s = Some a /\ w_commands w' = w_commands w ++ [AddPeer s]) /\
  (rpc_remove_peer s w = (Ok tt, w') -> exists p, peer_id_from_str s = Some p /\ w_commands w' = w_commands w ++ [RemovePeer s]).
Proof.
  unfold rpc_add_peer, rpc_remove_peer, rpc_send, p2p_send, p2p_channel. split.
  - destruct (multiaddr_from_str s); [|done]. destruct (w_p2p_alive w); [|done]. intros [= <-]. eauto.
  - destruct (peer_id_from_str s); [|done]. destruct (w_p2p_alive w); [|done]. intros [= <-]. eauto.
Qed.

End host.

(** ** A concrete database *)

Module RefDb.

Definition first_row (k : string) (t : rows) : result string string :=
  match list_find (fun r => r.1 = k) t with
  | Some (_, r) => Ok r.2
  | None => Err "Query returned no rows"%string
  end.

#[export] Instance ref_sqlite : Sqlite.
Proof.
  refine {| insert_row k v t := Ok (t ++ [(k, v)]); query_row := first_row |}; unfold first_row.
  - by intros k v t t' [= <-].
  - intros k v t. destruct (list_find _ t) as [[i [a b]]|] eqn:E; [|done]. intros [= <-].
    apply list_find_Some in E as (Hl & <- & _). by apply list_elem_of_lookup_2 in Hl.
  - intros k t. destruct (list_find _ t) as [[i [a b]]|] eqn:E.
    + apply list_find_Some in E as (Hl & <- & _). apply list_elem_of_lookup_2 in Hl. split; [by intros [e He]|].
      intros Hn. by destruct (Hn b).
    + apply list_find_None in E. rewrite Forall_forall in E. split; [|by eexists]. intros _ v Hv. by apply (E _ Hv).
Defined.

Definition empty_world : NodeWorld unit := mkNodeWorld (idle [] []) [] tt [] true.

End RefDb.

Section witnesses.
Import RefDb.

Lemma database_reads_stored_values_witness :
  let w' := set_rows [("k"%string, "v"%string)] empty_world in
  handle_database_get "k" w' = (Ok (Some "v"%string), w') /\
  exists e, handle_database_get "other" w' = (Err (RuqliteError e), w').
Proof.
  destruct (database_reads_stored_values (SQ := ref_sqlite) "k" "v" empty_world (set_rows [("k"%string, "v"%string)] empty_world) eq_refl)
    as (_ & H1 & H2). split.
  - apply H1. intros v' Hin. by apply not_elem_of_nil in Hin.
  - apply H2; [discriminate|]. intros v'. apply not_elem_of_nil.
Defined.

End witnesses.
