(* ===== verification/NodeTheorems.v ===== *)
(** * The node and the consensus program together

    How a signature travels from the node that made it to the store of another
    one, through the P2P server, the event queue, the worker and the guest
    ([P2PServer], [Node], [Consensus]); and what happens to the store when two
    worker threads handle messages at the same time. *)

From S2P Require Import Prelude NearSdk Contract Sdk Runtime Imports Crypto Config PeerList Discovery P2PServer Guest.
From S2P Require Import Consensus ConsensusTheorems Node.

Section travel.
Context `{BN : Bn254} `{KC : !KeyCrates} `{CJ : ConsensusJson} `{LP : Libp2p}.

(** A message of the network becomes a job, and the job's argument is the text
    that the sender published. *)
Lemma message_job_args m :
  utf8_valid (message_data m) = true -> job_args (p2p_event m) = Ret ["p2p"%string; String.string_of_list_byte (message_data m)].
Proof. unfold utf8_valid, job_args. cbn -[utf8_check]. by intros ->%bool_decide_eq_true. Qed.
Lemma gossip_becomes_job o source data d :
  utf8_valid data = true ->
  exists m, loop_step o (GossipMessage source data) d = Ret (d, [SendMessage m]) /\
    job_args (p2p_event m) = Ret ["p2p"%string; String.string_of_list_byte data].
Proof.
  intros Hu. eexists. split; [reflexivity|]. by apply message_job_args.
Qed.

(** What a new store broadcasts is a message. *)
Lemma new_batch_store_publishes b ed bn sg s :
  new_batch_store b ed bn sg = Ret s -> exists m, message_to_json m = Ok (p2p_message s).
Proof.
  unfold new_batch_store. cbn [add_signature add_public_key aggregated_signature aggregated_public_keys
    BatchSignatureStore_new mbind outcome_bind]. intros Hn. inv_run.
  match goal with Hm : expect _ ?r = Ret _ |- _ => destruct r eqn:Ej; [injection Hm as <-|discriminate Hm] end. by eexists.
Qed.

(** The message that a new store broadcasts *)
Lemma new_batch_store_message b ed bn sg s :
  new_batch_store b ed bn sg = Ret s ->
  exists sb, sig_to_uncompressed sg = Some sb /\ utf8_valid (p2p_message s) = true /\
    message_of_json (String.string_of_list_byte (p2p_message s)) = Ok (MBatch (mkBatchMessage (merkle_root b) bn sb ed)).
Proof.
  unfold new_batch_store. cbn [add_signature add_public_key aggregated_signature aggregated_public_keys
    BatchSignatureStore_new mbind outcome_bind]. intros Hr. inv_run.
  match goal with H : expect _ (message_to_json ?m) = _ |- _ =>
    destruct (message_json m) as (j & Ej & Hj & Hu); rewrite Ej in H; cbn in H; injection H as <- end.
  eexists. split; [eassumption|]. done.
Qed.

(** ** Two workers at once *)

(** A task of the guest as the sequence of its accesses to the shared memory.
    Each one is a host call that takes the lock of the memory and gives it back
    ([runtime/core/src/imports.rs]); between two of them other workers run. *)
Inductive task :=
| Finish (o : outcome unit)
| ContainsKey (key : string) (k : bool -> task)
| ReadKey (key : string) (k : bytes -> task)
| WriteKey (key : string) (value : bytes) (k : task).
Definition and_then {A} (o : outcome A) (k : A -> task) : task :=
  match o with Ret x => k x | Panic e => Finish (Panic e) end.

(** [bn254_verify], [get_or_create_batch_signature_store] and [P2P::handle] *)
Definition verified (message : bytes) (s : Signature) (pk : PublicKey) : outcome bool :=
  _ ← unwrap "Signature should be valid" (sig_to_uncompressed s);
  _ ← unwrap "Public Key should be valid" (pk_to_uncompressed pk);
  mret (ecdsa_verify message s pk).
Definition store_task (k : BatchSignatureStore -> task) : task :=
  ContainsKey BATCH_SIGNATURE_STORE_KEY (fun b =>
    if b then ReadKey BATCH_SIGNATURE_STORE_KEY (fun bs =>
      and_then (expect "Invalid stored `BatchSignatureStore` object" (store_of_json bs)) k)
    else k BatchSignatureStore_default).
Definition p2p_task (text : string) : task :=
  and_then (Message_from_str text) (fun m =>
    match m with
    | MBatch m =>
        and_then (unwrap not_decodable (sig_from_uncompressed (msg_signature m))) (fun bn254_signature =>
        and_then (unwrap not_decodable (pk_from_uncompressed (msg_bn254_public_key m))) (fun bn254_public_key =>
        and_then (verified (msg_batch_header m) bn254_signature bn254_public_key) (fun valid =>
        if negb valid then Finish (Ret tt)
        else store_task (fun s =>
          if bool_decide (msg_batch_header m = batch_header s) then
            if bool_decide (is_Some (signatures s !! to_hex (msg_bn254_public_key m))) then Finish (Ret tt)
            else
              and_then (add_entry s m bn254_signature bn254_public_key) (fun s =>
              and_then (expect "Could not convert SignatureStore to json" (store_to_json s)) (fun j =>
              WriteKey BATCH_SIGNATURE_STORE_KEY (string_bytes j) (Finish (Ret tt))))
          else Finish (Panic "not yet implemented: Not yet implemented because batch header is always the same")))))
    end).

(** One access *)
Definition access (t : task) (memory : gmap string bytes) : option (task * gmap string bytes) :=
  match t with
  | Finish _ => None
  | ContainsKey key k => Some (k (bool_decide (is_Some (memory !! key))), memory)
  | ReadKey key k => Some (k (default [] (memory !! key)), memory)
  | WriteKey key value k => Some (k, <[key := value]> memory)
  end.

(** Without interruption, the accesses are the task of [Consensus]. *)
Fixpoint run_task (t : task) (memory : gmap string bytes) : outcome (gmap string bytes) :=
  match t with
  | Finish o => _ ← o; mret memory
  | ContainsKey key k => run_task (k (bool_decide (is_Some (memory !! key)))) memory
  | ReadKey key k => run_task (k (default [] (memory !! key))) memory
  | WriteKey key value k => run_task k (<[key := value]> memory)
  end.

Lemma p2p_task_eq text g :
  P2P_handle text g = (sh ← run_task (p2p_task text) (g_shared g); mret (tt, with_shared sh g)).
Proof.
  unfold P2P_handle, p2p_task, mbind, M_bind, lift, mret, M_ret. destruct (Message_from_str text) as [[m]|]; [|done]. cbn [and_then].
  destruct (unwrap _ (sig_from_uncompressed _)) as [sg|]; [|done]. cbn [and_then].
  destruct (unwrap _ (pk_from_uncompressed _)) as [pk|]; [|done]. cbn [and_then].
  unfold verify, verified, mbind, M_bind, lift. destruct (unwrap _ (sig_to_uncompressed sg)); [|done]. cbn.
  destruct (unwrap _ (pk_to_uncompressed pk)); [|done]. cbn. destruct (ecdsa_verify _ _ _); [|by destruct g]. cbn.
  rewrite get_store_eq. unfold current_store.
  assert (forall s, (if bool_decide (msg_batch_header m = batch_header s) then
      if bool_decide (is_Some (signatures s !! to_hex (msg_bn254_public_key m))) then mret tt
      else s ← lift (add_entry s m sg pk); save_store s
    else panic "not yet implemented: Not yet implemented because batch header is always the same") g =
    (sh ← run_task (if bool_decide (msg_batch_header m = batch_header s) then
      if bool_decide (is_Some (signatures s !! to_hex (msg_bn254_public_key m))) then Finish (Ret tt)
      else and_then (add_entry s m sg pk) (fun s =>
        and_then (expect "Could not convert SignatureStore to json" (store_to_json s)) (fun j =>
        WriteKey BATCH_SIGNATURE_STORE_KEY (string_bytes j) (Finish (Ret tt))))
      else Finish (Panic "not yet implemented: Not yet implemented because batch header is always the same")) (g_shared g);
     mret (tt, with_shared sh g))) as Hrest.
  { intros s. case_bool_decide; [|done]. case_bool_decide; [by destruct g|].
    unfold save_store, mbind, M_bind, lift. destruct (add_entry s m sg pk) as [s'|]; [|done]. cbn [and_then].
    by destruct (expect _ (store_to_json s')). }
  destruct (g_shared g !! BATCH_SIGNATURE_STORE_KEY) as [bs|] eqn:E.
  - rewrite (bool_decide_eq_true_2 (is_Some (Some bs))) by done. cbn [run_task]. rewrite E. cbn [from_option default id].
    destruct (store_of_json bs) as [s|e]; [apply Hrest|done].
  - rewrite (bool_decide_eq_false_2 (is_Some None)) by (by intros []). apply Hrest.
Qed.

(** The node of [Node] with what its workers do: a task for each busy worker *)
Record Workers := mkWorkers { wk_node : NodeState; wk_memory : gmap string bytes; wk_tasks : list task }.
Definition task_of (e : Event) : option task :=
  match job_args e with Ret ["p2p"%string; text] => Some (p2p_task text) | _ => None end.
Definition finished_job (i : nat) (n : NodeState) : NodeState :=
  mkNodeState (mailbox n) (event_queue n) (running_event_ids n) (timer n) (app_actor_addr n) (jobs n) (delete i (busy n)).
Definition finished (a : label) : option Event := match a with Finished e => Some e | _ => None end.
Definition is_work (a : label) : bool := match a with Started _ | Finished _ => true | _ => false end.

Inductive work_step (threads : nat) (s : Workers) : label -> Workers -> Prop :=
| work_actors a n :
    is_work a = false -> node_step threads (wk_node s) a n -> work_step threads s a (mkWorkers n (wk_memory s) (wk_tasks s))
| work_start e n t :
    task_of e = Some t -> node_step threads (wk_node s) (Started e) n ->
    work_step threads s (Started e) (mkWorkers n (wk_memory s) (wk_tasks s ++ [t]))
| work_access i t t' memory :
    wk_tasks s !! i = Some t -> access t (wk_memory s) = Some (t', memory) ->
    work_step threads s Internal (mkWorkers (wk_node s) memory (<[i := t']> (wk_tasks s)))
| work_finish i e o :
    busy (wk_node s) !! i = Some e -> wk_tasks s !! i = Some (Finish o) ->
    work_step threads s (Finished e)
      (mkWorkers (finished_job i (wk_node s)) (wk_memory s) (delete i (wk_tasks s))).
Inductive work_steps (threads : nat) : Workers -> list label -> Workers -> Prop :=
| work_nil s : work_steps threads s [] s
| work_cons s a s1 ls s2 : work_step threads s a s1 -> work_steps threads s1 ls s2 -> work_steps threads s (a :: ls) s2.

(** A message for the store's header, from a key that the store does not have *)
Record accepted (s : BatchSignatureStore) (text : string) (m : BatchMessage) (s' : BatchSignatureStore) : Prop := {
  acc_message : message_of_json text = Ok (MBatch m);
  acc_entry : exists sg pk, sig_from_uncompressed (msg_signature m) = Some sg /\
    pk_from_uncompressed (msg_bn254_public_key m) = Some pk /\ is_Some (sig_to_uncompressed sg) /\
    is_Some (pk_to_uncompressed pk) /\ ecdsa_verify (msg_batch_header m) sg pk = true /\ add_entry s m sg pk = Ret s';
  acc_header : msg_batch_header m = batch_header s;
  acc_new : signatures s !! to_hex (msg_bn254_public_key m) = None;
}.


(** The actors and workers only take steps of [Node]. *)
Lemma work_step_node threads s a s' :
  work_step threads s a s' -> node_step threads (wk_node s) a (wk_node s') \/ a = Internal /\ wk_node s' = wk_node s.
Proof. intros [a' n _ Hs|e n t _ Hs|i t t' memory _ _|i e o Hb _]; [by left..|by right|left]. by apply step_finish. Qed.

Lemma work_steps_app threads s ls1 s1 ls2 s2 :
  work_steps threads s ls1 s1 -> work_steps threads s1 ls2 s2 -> work_steps threads s (ls1 ++ ls2) s2.
Proof. induction 1; [done|]. intros ?. econstructor; eauto. Qed.

Lemma work_node_steps threads n ls n' memory ts :
  node_steps threads n ls n' -> forallb (negb ∘ is_work) ls = true ->
  work_steps threads (mkWorkers n memory ts) ls (mkWorkers n' memory ts).
Proof.
  induction 1 as [n|n a n1 ls n' Hs _ IH]; [constructor|]. cbn. intros [Ha Hls]%andb_true_iff.
  econstructor; [|by apply IH]. by apply (work_actors threads (mkWorkers n memory ts)); [apply negb_true_iff|].
Qed.

(** A worker reads the store and computes the new one. *)
Lemma accepted_reads threads n memory ts i s text m s' :
  current_store memory = Some s -> accepted s text m s' -> ts !! i = Some (p2p_task text) ->
  exists ls j, omap arrived ls = [] /\ omap finished ls = [] /\ store_to_json s' = Ok j /\
    work_steps threads (mkWorkers n memory ts) ls
      (mkWorkers n memory (<[i := WriteKey BATCH_SIGNATURE_STORE_KEY (string_bytes j) (Finish (Ret tt))]> ts)).
Proof.
  intros Hc [Hm (sg & pk & Hsg & Hpk & [sb Hsb] & [kb Hkb] & Hv & Ha) Hh Hn] Hi.
  destruct (store_json s') as (j & Ej & _).
  unfold p2p_task, Message_from_str, expect, unwrap, verified in Hi.
  rewrite Hm in Hi. cbn [and_then] in Hi. rewrite Hsg in Hi. cbn [and_then] in Hi. rewrite Hpk in Hi. cbn [and_then] in Hi.
  rewrite Hsb, Hkb in Hi. cbn in Hi. rewrite Hv in Hi. cbn in Hi.
  set (rest := fun s : BatchSignatureStore => _) in Hi.
  assert (rest s = WriteKey BATCH_SIGNATURE_STORE_KEY (string_bytes j) (Finish (Ret tt))) as Hrest.
  { unfold rest. rewrite bool_decide_eq_true_2 by done. rewrite bool_decide_eq_false_2 by (rewrite Hn; by intros []).
    rewrite Ha. cbn [and_then]. by rewrite Ej. }
  pose proof (lookup_lt_Some _ _ _ Hi) as Hlt. unfold current_store in Hc.
  destruct (memory !! BATCH_SIGNATURE_STORE_KEY) as [bs|] eqn:E.
  - destruct (store_of_json bs) as [s0|] eqn:Es; [injection Hc as ->|done].
    exists [Internal; Internal], j. split_and!; [done..|].
    eapply work_cons; [eapply (work_access _ (mkWorkers n memory ts) i); [exact Hi|cbn; rewrite E; reflexivity]|].
    eapply work_cons; [|rewrite <- Hrest; apply work_nil]. cbn.
    rewrite <- (list_insert_insert_eq ts i (rest s) (ReadKey BATCH_SIGNATURE_STORE_KEY
      (fun bs => and_then (expect "Invalid stored `BatchSignatureStore` object" (store_of_json bs)) rest))).
    eapply work_access; [by apply list_lookup_insert_eq|]. cbn. rewrite E. cbn. by rewrite Es.
  - injection Hc as <-. exists [Internal], j. split_and!; [done..|].
    eapply work_cons; [|apply work_nil]. rewrite <- Hrest.
    eapply (work_access _ (mkWorkers n memory ts) i); [exact Hi|]. cbn. by rewrite E.
Qed.

(** Both messages are at the node, and the workers have started on them. *)
Lemma both_started msg1 msg2 t1 t2 memory :
  let e1 := p2p_event msg1 in let e2 := p2p_event msg2 in
  task_of e1 = Some t1 -> task_of e2 = Some t2 ->
  exists ls, omap arrived ls = [e1; e2] /\ omap finished ls = [] /\
    work_steps (Z.to_nat RUNTIME_WORKER_THREADS) (mkWorkers App_started memory []) ls (mkWorkers (idle [] [e1; e2]) memory [t1; t2]).
Proof.
  intros e1 e2 H1 H2. set (threads := Z.to_nat RUNTIME_WORKER_THREADS).
  exists (([Internal] ++ [Arrives e1; Queued e1; Internal; Dispatched e1]) ++ [Arrives e2; Queued e2; Internal; Dispatched e2] ++ [Started e1; Started e2]).
  split_and!; [done..|]. eapply work_steps_app; [|eapply work_steps_app].
  - apply work_node_steps; [|done]. eapply node_steps_app; [|apply (message_delivered _ msg1)].
    eapply steps_cons; [by apply (step_no_job _ App_started EventQueue_default [])|apply steps_nil].
  - apply work_node_steps; [|done]. apply (message_delivered _ msg2).
  - eapply work_cons; [eapply (work_start _ (mkWorkers (idle [e1; e2] []) memory []) e1); [exact H1|]|].
    { apply (step_start _ (idle [e1; e2] []) e1 [e2]); [done|by apply Nat.ltb_lt]. }
    eapply work_cons; [eapply (work_start _ (mkWorkers (idle [e2] [e1]) memory [t1]) e2); [exact H2|]|apply work_nil].
    apply (step_start _ (idle [e2] [e1]) e2 []); [done|by apply Nat.ltb_lt].
Qed.

(** C39: Two messages of other nodes that arrive at a node with the default number
    of worker threads can cost a signature.  The job manager hands out both, since
    nothing records that an event with their id is running, each worker takes one,
    and the lock of the shared memory is held for one access only: there is a run
    in which both jobs finish, and the store has the signature of the second
    message and lacks that of the first, although the store would have accepted
    either of them. *)
Theorem concurrent_messages_lose_signature memory s msg1 text1 m1 s1 msg2 text2 m2 s2 :
  current_store memory = Some s -> accepted s text1 m1 s1 -> accepted s text2 m2 s2 ->
  job_args (p2p_event msg1) = Ret ["p2p"%string; text1] -> job_args (p2p_event msg2) = Ret ["p2p"%string; text2] ->
  msg_bn254_public_key m1 <> msg_bn254_public_key m2 ->
  exists ls n memory',
    work_steps (Z.to_nat RUNTIME_WORKER_THREADS) (mkWorkers App_started memory []) ls (mkWorkers n memory' []) /\
    omap arrived ls = [p2p_event msg1; p2p_event msg2] /\ omap finished ls = [p2p_event msg1; p2p_event msg2] /\
    current_store memory' = Some s2 /\ is_Some (signatures s2 !! to_hex (msg_bn254_public_key m2)) /\
    signatures s2 !! to_hex (msg_bn254_public_key m1) = None.
Proof.
  intros Hc H1 H2 Hj1 Hj2 Hne.
  destruct (both_started msg1 msg2 (p2p_task text1) (p2p_task text2) memory) as (ls0 & A0 & F0 & W0);
    [unfold task_of; by rewrite Hj1|unfold task_of; by rewrite Hj2|].
  set (e1 := p2p_event msg1) in *. set (e2 := p2p_event msg2) in *.
  set (threads := Z.to_nat RUNTIME_WORKER_THREADS) in *.
  destruct (accepted_reads threads (idle [] [e1; e2]) memory [p2p_task text1; p2p_task text2] 0 _ _ _ _ Hc H1 eq_refl)
    as (ls1 & j1 & A1 & F1 & E1 & W1).
  destruct (accepted_reads threads (idle [] [e1; e2]) memory _ 1 _ _ _ _ Hc H2
    (eq_refl : [WriteKey BATCH_SIGNATURE_STORE_KEY (string_bytes j1) (Finish (Ret tt)); p2p_task text2] !! 1 = _))
    as (ls2 & j2 & A2 & F2 & E2 & W2). cbn in W1, W2.
  eexists (ls0 ++ ls1 ++ ls2 ++ [Internal; Internal; Finished e1; Finished e2]), _,
    (<[BATCH_SIGNATURE_STORE_KEY := string_bytes j2]> (<[BATCH_SIGNATURE_STORE_KEY := string_bytes j1]> memory)). split_and!.
  - do 3 (eapply work_steps_app; [eassumption|]).
    eapply work_cons; [by eapply (work_access _ _ 0)|]. eapply work_cons; [by eapply (work_access _ _ 1)|].
    eapply work_cons; [by apply (work_finish _ _ 0 e1 (Ret tt))|]. eapply work_cons; [by apply (work_finish _ _ 0 e2 (Ret tt))|]. apply work_nil.
  - by rewrite !omap_app, A0, A1, A2.
  - by rewrite !omap_app, F0, F1, F2.
  - destruct (store_json s2) as (j & Ej & Hj). rewrite E2 in Ej. injection Ej as <-.
    unfold current_store. by rewrite lookup_insert_eq, Hj.
  - destruct H2 as [_ (? & ? & _ & _ & _ & _ & _ & A) _ _]. unfold add_entry in A. inv_run. cbn. rewrite lookup_insert_eq. by eexists.
  - destruct H2 as [_ (? & ? & _ & _ & _ & _ & _ & A) _ _]. unfold add_entry in A. inv_run. cbn.
    rewrite lookup_insert_ne; [by apply H1|]. intros E%(inj to_hex). congruence.
Qed.

End travel.

Section witnesses.
Import RefConsensus RefPeers.

(** A third node's message for the same batch *)
Definition third_message : BatchMessage := mkBatchMessage [x09] (pad 127 x08) (pad 63 (byte_add x08 x09)) [x63].
Lemma third_known : signatures first_store !! to_hex (msg_bn254_public_key third_message) = None.
Proof. apply lookup_singleton_ne. intros E%(inj to_hex). discriminate E. Qed.

Lemma concurrent_messages_lose_signature_witness :
  exists memory ls n memory' s2,
    work_steps 2 (mkWorkers App_started memory []) ls (mkWorkers n memory' []) /\
    length (omap finished ls) = 2 /\ current_store memory' = Some s2 /\ signatures s2 !! to_hex (pad 127 x07) = None.
Proof.
  destruct first_shared as (sh & Hs & _).
  destruct (message_json (MBatch (other_message [x62]))) as (j1 & _ & Hj1 & Hu1).
  destruct (message_json (MBatch third_message)) as (j2 & _ & Hj2 & Hu2).
  destruct (concurrent_messages_lose_signature (BN := small_bn254) sh first_store
    (mkP2PMessage None j1) (String.string_of_list_byte j1) (other_message [x62]) (other_added [x62])
    (mkP2PMessage None j2) (String.string_of_list_byte j2) third_message
    (mkStore (pad 63 (byte_add (byte_add own_key x09) (byte_add x08 x09))) (pad 127 (byte_add own_key x08))
      [leader_account; to_hex [x63]] (<[to_hex (pad 127 x08) := pad 63 (byte_add x08 x09)]> (signatures first_store)) 9 [x09] [])
    Hs) as (ls & n & memory' & H1 & _ & H2 & H3 & _ & H4).
  - split; [exact Hj1| |reflexivity|apply (other_known [x62])]. exists (byte_add x07 x09), x07.
    split_and!; [reflexivity|reflexivity|by eexists|by eexists|reflexivity|apply other_add_entry].
  - split; [exact Hj2| |reflexivity|apply third_known]. exists (byte_add x08 x09), x08.
    split_and!; [reflexivity|reflexivity|by eexists|by eexists|reflexivity|reflexivity].
  - exact (message_job_args (mkP2PMessage None j1) Hu1).
  - exact (message_job_args (mkP2PMessage None j2) Hu2).
  - discriminate.
  - exists sh, ls, n, memory'. eexists. split; [exact H1|]. split; [rewrite H2; reflexivity|]. split; [exact H3|exact H4].
Defined.

End witnesses.
