(* ===== verification/Cli.v ===== *)
(** * The command line tools

    Models [src/cli/src/cli/commands] (the tool of a node operator),
    [src/delegate-cli/src/cli] (the tool for delegation) and [src/wasm/cli] (a
    guest program with a command for each kind of promise): which transactions,
    requests and promises the commands make.

    Theorem [delegate_setup_correct] shows the transactions of a set-up, and
    [node_registration_signs_key] compares the registration of [seda] with what
    the contract accepts.

    Parsing of the command line, printing and the JSON RPC client are left out;
    printing of JSON, base58 and compressed keys are methods of [CliFormats]. *)

From stdpp Require Import pretty.
From S2P Require Import Prelude NearSdk Contract NodeRegistry Batch ContractInvariants Sdk Runtime Imports Crypto Config Guest Consensus Chains Node NodeLife.

(** ** Arguments of contract calls *)

Inductive JValue := JString (s : string) | JBytes (bs : bytes) | JObject (fields : list (string * string)).
Definition json_object := list (string * JValue).

(** [serde_json], [bs58], and the compressed form of [bn254] keys *)
Class CliFormats `{BN : Bn254} := {
  json_print : json_object -> string;
  bs58_decode : string -> option bytes;
  bs58_encode : bytes -> string;
  pk_to_compressed : PublicKey -> option bytes;
}.

(** [seda_common]: [RegisterNodeArgs], [GetNodeArgs], [GetNodesArgs], [UpdateNode] *)
Definition register_node_args (multi_addr : string) (bn254_public_key signature : bytes) : json_object :=
  [("multi_addr", JString multi_addr); ("bn254_public_key", JBytes bn254_public_key); ("signature", JBytes signature)]%string.
Definition get_node_args (account_id : string) : json_object := [("account_id", JString account_id)]%string.
Definition get_nodes_args (limit offset : Z) : json_object :=
  [("limit", JString (pretty limit)); ("offset", JString (pretty offset))]%string.
Definition update_node_args (c : UpdateNode) : json_object :=
  match c with SetSocketAddress a => [("SetSocketAddress", JObject [("new_multi_addr", a)])]%string end.
Definition unregister_args (node_id : Z) : json_object := [("node_id", JString (pretty node_id))]%string.
Definition deposit_args (amount : Z) (ed25519_public_key : bytes) : json_object :=
  [("amount", JString (pretty amount)); ("ed25519_public_key", JBytes ed25519_public_key)]%string.

(** ** Commands: fallible code that reads and writes files and uses the network *)

(** [CliError] of both tools; errors of crates that no command below raises are
    held as their text. *)
Inductive CliError :=
| JsonRpcClient (msg : string)
| ChainAdapter (e : ChainAdapterError)
| LoadConfig (e : ConfigError)
| CliConfig (msg : string)
| CliNode (msg : string)
| CliJson
| CliBn254
| CLIDocument (msg : string)
| CliCrypto (e : CryptoError).

Definition command (W T : Type) : Type := Sys * W -> outcome (result T CliError * (Sys * W)).
#[export] Instance command_ret {W} : MRet (command W) := fun T x w => Ret (Ok x, w).
#[export] Instance command_bind {W} : MBind (command W) := fun A B f m w =>
  match m w with
  | Ret (Ok x, w) => f x w
  | Ret (Err e, w) => Ret (Err e, w)
  | Panic msg => Panic msg
  end.

(** [?] on a call of the chain, on code of the configuration, and on a value *)
Definition map_error {T E} (f : E -> CliError) (r : result T E) : result T CliError :=
  match r with Ok x => Ok x | Err e => Err (f e) end.
Definition on_chain {W T} (m : net W T) : command W T := fun w =>
  match m w.2 with Ret (r, w2) => Ret (map_error ChainAdapter r, (w.1, w2)) | Panic msg => Panic msg end.
Definition on_system {W T E} (f : E -> CliError) (m : io E T) : command W T := fun w =>
  match m w.1 with Ret (r, s) => Ret (map_error f r, (s, w.2)) | Panic msg => Panic msg end.
Definition try_result {W T} (r : result T CliError) : command W T := fun w => Ret (r, w).
Definition try_option {W T} (o : option T) (e : CliError) : command W T :=
  try_result (match o with Some x => Ok x | None => Err e end).
Definition compute {W T} (o : outcome T) : command W T := fun w =>
  match o with Ret x => Ret (Ok x, w) | Panic msg => Panic msg end.
Definition try_crypto {W T} (o : outcome (result T CryptoError)) : command W T :=
  r ← compute o; try_result (map_error CliCrypto r).
(** [expect] and [unwrap] *)
Definition expect_ok {W T} (msg : string) (m : command W T) : command W T := fun w =>
  match m w with Ret (Err _, _) => Panic msg | r => r end.

Section cli.
Context {W : Type} `{NN : NearNet W} `{BN : Bn254} `{KC : !KeyCrates} `{CF : !CliFormats}.
(** Whether the build checks overflow *)
Context (ov : bool) (build : Build).

(** ** [seda] *)

(** [call] and [view]; [decode] is [serde_json::from_slice] at the expected type,
    and 32 status requests are enough ([near_send_tx_returns]). *)
Definition call {T} (decode : bytes -> option T) (chain : Chain) (contract_id method_name : string) (deposit : Z)
    (args : string) (node_config : NodeConfig) (chains_config : ChainConfigs) : command W T :=
  let client := Client_new chain chains_config in
  let server_url := match chain with
                    | Another => another_rpc_url (conf_another chains_config)
                    | Near => near_rpc_url (conf_near chains_config)
                    end in
  signed_txn ← on_chain (construct_signed_tx ov chain None (ed25519_keypair_bytes (keypair_ed25519 node_config))
    contract_id method_name (string_bytes args) (node_gas node_config) deposit server_url);
  result ← on_chain (send_tx 32 chain client signed_txn);
  try_option (decode result) CliJson.

Definition view {T} (decode : bytes -> option T) (chain : Chain) (contract_id method_name : string) (args : option string)
    (chains_config : ChainConfigs) : command W T :=
  result ← on_chain (chain_view_client chain (Client_new chain chains_config) contract_id method_name
    (string_bytes (default EmptyString args)));
  try_option (decode result) CliJson.

Definition chains_of (config : AppConfig) (cli : PartialChainConfigs) : command W ChainConfigs :=
  on_system LoadConfig (chains_to_config (chains config) cli).
Definition node_of (config : AppConfig) (cli : PartialNodeConfig) : command W NodeConfig :=
  on_system LoadConfig (node_to_config build (node config) cli).

(** The subcommands of [seda node] *)
Definition register_signature (kp : Bn254KeyPair) : command W (bytes * bytes) :=
  message ← try_option (pk_to_uncompressed (public_key kp)) CliBn254;
  sig ← try_option (ecdsa_sign message (private_key kp)) CliBn254;
  pk ← try_option (pk_to_uncompressed (public_key kp)) CliBn254;
  s ← try_option (sig_to_uncompressed sig) CliBn254;
  mret (pk, s).
Definition Register_handle {T} (decode : bytes -> option T) (register_deposit : Z) (socket_address : string)
    (cli : PartialNodeConfig) (config : AppConfig) (chains_cli : PartialChainConfigs) : command W T :=
  chains_config ← chains_of config chains_cli;
  node_config ← node_of config cli;
  x ← register_signature (keypair_bn254 node_config);
  call decode Near (node_contract_account_id node_config) "register_node" register_deposit
    (json_print (register_node_args socket_address x.1 x.2)) node_config chains_config.
Definition Unregister_handle {T} (decode : bytes -> option T) (node_id : Z)
    (cli : PartialNodeConfig) (config : AppConfig) (chains_cli : PartialChainConfigs) : command W T :=
  chains_config ← chains_of config chains_cli;
  node_config ← node_of config cli;
  call decode Near (node_contract_account_id node_config) "unregister_node" 0
    (json_print (unregister_args node_id)) node_config chains_config.
Definition Update_handle {T} (decode : bytes -> option T) (update : UpdateNode)
    (cli : PartialNodeConfig) (config : AppConfig) (chains_cli : PartialChainConfigs) : command W T :=
  chains_config ← chains_of config chains_cli;
  node_config ← node_of config cli;
  call decode Near (node_contract_account_id node_config) "update_node" 0
    (json_print (update_node_args update)) node_config chains_config.

Definition default_node (config : AppConfig) : command W NodeConfig :=
  expect_ok "Could not get default node configuration" (node_of config config_default).
Definition GetNode_handle {T} (decode : bytes -> option T) (contract_id node_id : option string)
    (config : AppConfig) (chains_cli : PartialChainConfigs) : command W T :=
  chains_config ← chains_of config chains_cli;
  node_config ← default_node config;
  let contract_id := default (node_contract_account_id node_config) contract_id in
  let node_id := default (to_hex (ed25519_public_bytes (public_key (keypair_ed25519 node_config)))) node_id in
  view decode Near contract_id "get_node" (Some (json_print (get_node_args node_id))) chains_config.
Definition GetNodes_handle {T} (decode : bytes -> option T) (limit offset : Z) (contract_id : option string)
    (config : AppConfig) (chains_cli : PartialChainConfigs) : command W T :=
  chains_config ← chains_of config chains_cli;
  node_config ← default_node config;
  let contract_id := default (node_contract_account_id node_config) contract_id in
  view decode Near contract_id "get_nodes" (Some (json_print (get_nodes_args limit offset))) chains_config.

(** [seda sub-chain] *)
Definition SubChainCall_handle {T} (decode : bytes -> option T) (chain : Chain) (contract_id method_name args : string)
    (call_deposit : Z) (cli : PartialNodeConfig) (config : AppConfig) (chains_cli : PartialChainConfigs) : command W T :=
  node_config ← node_of config cli;
  chains_config ← chains_of config chains_cli;
  call decode chain contract_id method_name call_deposit args node_config chains_config.
Definition SubChainView_handle {T} (decode : bytes -> option T) (chain : Chain) (contract_id method_name : string)
    (args : option string) (config : AppConfig) (chains_cli : PartialChainConfigs) : command W T :=
  chains_config ← chains_of config chains_cli;
  view decode chain contract_id method_name args chains_config.

(** [seda run]: the node is started, and the process becomes its system; [grants]
    is what [seda_node::run] gets from the operating system. *)
Record RunningNode := mkRunningNode {
  rn_server_url : string; rn_node : NodeConfig; rn_p2p : P2PConfig; rn_chains : ChainConfigs; rn_system : NodeSystem;
}.
Definition seda_node_run (grants : Sys * W -> Resources) (url : string) (n : NodeConfig) (p : P2PConfig) (c : ChainConfigs)
    : command W RunningNode := fun w =>
  (s ← compute (run_boot (grants w)); mret (mkRunningNode url n p c s)) w.
Definition Run_handle (grants : Sys * W -> Resources) (cli : PartialNodeConfig) (chains_cli : PartialChainConfigs)
    (p2p_cli : PartialP2PConfig) (config : AppConfig) : command W RunningNode :=
  node_config ← node_of config cli;
  chains_config ← chains_of config chains_cli;
  p2p_config ← on_system LoadConfig (p2p_to_config (p2p config) p2p_cli);
  seda_node_run grants (seda_server_url config) node_config p2p_config chains_config.

(** [seda init]: the account and the keys that it prints *)
Definition init_master_key (key_path : string) : io CryptoError MasterKey :=
  env_secret_key ← io_reads (fun s => env_vars s !! "SEDA_SECRET_KEY"%string);
  match env_secret_key with
  | Some k => io_result (master_key_of_hex k)
  | None =>
      e ← path_exists key_path;
      if (e : bool) then read_from_path key_path
      else key ← random; _ ← write_to_path key key_path; mret key
  end.
Definition Init_handle `{TM : Toml} (key_path config_path : string) : command W (string * string * string) :=
  master_key ← on_system CliCrypto (init_master_key key_path);
  bn254_key ← try_crypto (derive_bn254 master_key 0);
  ed25519_key ← try_crypto (derive_ed25519 master_key 0);
  let ed25519_public_key := ed25519_public_bytes (public_key ed25519_key) in
  bn254_public_key ← try_option (pk_to_compressed (public_key bn254_key)) CliBn254;
  _ ← on_system LoadConfig (create_and_load_or_load_config (Some config_path));
  mret (to_hex ed25519_public_key, "ed25519:" +:+ bs58_encode ed25519_public_key,
        "bn254:" +:+ bs58_encode bn254_public_key)%string.

(** The request of [seda node bridge] to the node: the arguments of the guest *)
Definition bridge_request (chain : Chain) (contract_id method_name : string) (bridge_deposit : Z) (args : string) : list string :=
  ["bridge"; Chain_to_string chain; contract_id; method_name; pretty bridge_deposit; args]%string.

(** The requests of [seda node peers]: the method of the RPC server and its
    parameter *)
Inductive Peers := PeersAdd (multi_addr : string) | PeersList | PeersRemove (peer_id : string) | PeersDiscover.
Definition AddPeer_request (multi_addr : string) : string * option string := ("add_peer", Some multi_addr)%string.
Definition ListPeers_request : string * option string := ("list_peers", None)%string.
Definition RemovePeer_request (peer_id : string) : string * option string := ("remove_peer", Some peer_id)%string.
Definition DiscoverPeers_request : string * option string := ("discover_peers", None)%string.
Definition peers_request (c : Peers) : string * option string :=
  match c with
  | PeersAdd multi_addr => AddPeer_request multi_addr
  | PeersList => ListPeers_request
  | PeersRemove peer_id => RemovePeer_request peer_id
  | PeersDiscover => DiscoverPeers_request
  end.

(** ** [seda-delegate] *)

Definition ed25519_prefix : string := "ed25519:".

(** [str::strip_prefix] *)
Fixpoint strip_prefix (prefix s : string) : option string :=
  match prefix, s with
  | EmptyString, _ => Some s
  | String.String a prefix, String.String b s => if decide (a = b) then strip_prefix prefix s else None
  | String.String _ _, EmptyString => None
  end.

Definition get_signer_keypair_from_config (account_secret_key : string) : command W bytes :=
  s ← try_option (strip_prefix ed25519_prefix account_secret_key)
        (CliConfig "`account_secret_key` should contain prefix `ed25519:`");
  expect_ok "Base58-encoded ed25519 keypair should be valid" (try_option (bs58_decode s) (CliConfig EmptyString)).

(** The commands send their transaction with the client of the test
    configuration. *)
Definition delegate_send (signed_tx : bytes) : command W bytes :=
  on_chain (send_tx 32 Near (Client_new Near chains_test_config) signed_tx).

Definition TopUp_handle (receiver : string) (amount : Z) (config : DelegateConfig) : command W bytes :=
  amount_yocto ← compute (to_yocto ov (pretty amount));
  signer_keypair ← get_signer_keypair_from_config (account_secret_key config);
  signed_tx ← on_chain (construct_transfer_tx ov Near (Some (delegate_signer_account_id config)) signer_keypair receiver
    amount_yocto (rpc_url config));
  delegate_send signed_tx.

Definition validator_key (config : DelegateConfig) : command W MasterKey :=
  try_result (map_error CliCrypto (master_key_of_hex (validator_master_key config))).

Definition DelegateRegister_handle (delegation_contract_id multi_addr : string) (config : DelegateConfig) : command W bytes :=
  key ← validator_key config;
  bn254_key ← try_crypto (derive_bn254 key 0);
  ed25519_key ← try_crypto (derive_ed25519 key 0);
  let account_id := to_hex (ed25519_public_bytes (public_key ed25519_key)) in
  sig ← try_option (ecdsa_sign (string_bytes account_id) (private_key bn254_key)) CliBn254;
  pk ← try_option (pk_to_uncompressed (public_key bn254_key)) CliBn254;
  s ← try_option (sig_to_uncompressed sig) CliBn254;
  deposit ← compute (to_yocto ov "0.01");
  signed_tx ← on_chain (construct_signed_tx ov Near None (ed25519_keypair_bytes ed25519_key) delegation_contract_id
    "register_node" (string_bytes (json_print (register_node_args multi_addr pk s))) 80000000000000 deposit (rpc_url config));
  delegate_send signed_tx.

Definition Stake_handle (delegation_contract_id : string) (amount : Z) (config : DelegateConfig) : command W bytes :=
  amount_yocto ← compute (to_yocto ov (pretty amount));
  key ← validator_key config;
  ed25519_key ← try_crypto (derive_ed25519 key 0);
  let ed25519_public_key := x00 :: ed25519_public_bytes (public_key ed25519_key) in
  signer_keypair ← get_signer_keypair_from_config (account_secret_key config);
  deposit ← compute (to_yocto ov "0.01");
  signed_tx ← on_chain (construct_signed_tx ov Near (Some (delegate_signer_account_id config)) signer_keypair
    delegation_contract_id "deposit" (string_bytes (json_print (deposit_args amount_yocto ed25519_public_key)))
    (delegate_gas config) deposit (rpc_url config));
  delegate_send signed_tx.

Definition Setup_handle (delegation_contract_id : string) (topup_amount stake_amount : Z) (multi_addr : string)
    (config : DelegateConfig) : command W bytes :=
  key ← expect_ok "called `Result::unwrap()` on an `Err` value" (validator_key config);
  ed25519_key ← expect_ok "called `Result::unwrap()` on an `Err` value" (try_crypto (derive_ed25519 key 0));
  _ ← TopUp_handle (to_hex (ed25519_public_bytes (public_key ed25519_key))) topup_amount config;
  _ ← DelegateRegister_handle delegation_contract_id multi_addr config;
  Stake_handle delegation_contract_id stake_amount config.

(** [main] and [Command::handle] of [seda-delegate]: the environment is merged
    over the command line. *)
Inductive DelegateCommand :=
| TopUp (receiver : string) (amount : Z)
| DelegateRegister (delegation_contract_id multi_addr : string)
| Stake (delegation_contract_id : string) (amount : Z)
| Setup (delegation_contract_id : string) (topup_amount stake_amount : Z) (multi_addr : string).
Definition DelegateCommand_handle (c : DelegateCommand) (config : DelegateConfig) : command W bytes :=
  match c with
  | TopUp receiver amount => TopUp_handle receiver amount config
  | DelegateRegister contract_id multi_addr => DelegateRegister_handle contract_id multi_addr config
  | Stake contract_id amount => Stake_handle contract_id amount config
  | Setup contract_id topup stake multi_addr => Setup_handle contract_id topup stake multi_addr config
  end.
Definition delegate_main (options : PartialDelegateConfig) (c : DelegateCommand) : command W bytes :=
  env_config ← on_system LoadConfig (s ← io_reads (fun s => s); io_lift (overwrite_from_env s config_default));
  config ← expect_ok "called `Result::unwrap()` on an `Err` value"
             (on_system LoadConfig (delegate_to_config options env_config));
  DelegateCommand_handle c config.

End cli.

(** ** The guest program of [src/wasm/cli] *)

Inductive WasmCommand :=
| WasmP2p (message : string)
| WasmHello
| WasmHttpFetch (url : string)
| WasmView (chain : Chain) (contract_id method_name args : string)
| WasmCall (chain : Chain) (contract_id method_name args : string) (deposit : Z).

Section wasm_cli.
Context `{BN : Bn254}.

Definition wasm_cli_main (command : option WasmCommand) : M Guest unit :=
  match command with
  | None | Some WasmHello => mret tt
  | Some (WasmHttpFetch url) =>
      _ ← enqueue (guest_http_fetch url); enqueue (call_self "http_fetch_result" [])
  | Some (WasmP2p message) => enqueue (p2p_broadcast_message [x17])
  | Some (WasmView chain contract_id method_name args) =>
      _ ← enqueue (guest_chain_view chain contract_id method_name (string_bytes args));
      enqueue (call_self "chain_view_test_success" [])
  | Some (WasmCall chain contract_id method_name args deposit) =>
      _ ← enqueue (guest_chain_call chain contract_id method_name (string_bytes args) deposit);
      enqueue (call_self "chain_call_test_success" [])
  end.

(** The text that the second steps work with *)
Definition value_to_store : M Guest string :=
  result ← result_at 0;
  match result with
  | Fulfilled (Some vec) =>
      r ← lift (from_bytes (T := string) vec);
      match r with Ok s => mret s | Err _ => panic "called `Result::unwrap()` on an `Err` value" end
  | _ => mret "Promise failed.."%string
  end.
Definition http_fetch_result : M Guest unit := _ ← value_to_store; mret tt.
Definition chain_view_test_success : M Guest unit :=
  v ← value_to_store; enqueue (guest_db_set "chain_view_result" v).
Definition chain_call_test_success : M Guest unit :=
  v ← value_to_store; enqueue (guest_db_set "chain_call_result" v).

End wasm_cli.

(** ** Amounts: whole numbers of tokens in yocto *)

Lemma digit_char n : (n < 10)%N -> is_digit (pretty_N_char n) = true /\ digit_val (pretty_N_char n) = Z.of_N n.
Proof.
  intros Hn. destruct n as [|p]; [done|]. by do 4 (destruct p as [p|p|]; try done).
Qed.
Lemma pretty_N_go_val n s : digits_val 0 (pretty_N_go n s) = digits_val (Z.of_N n) s.
Proof.
  revert s. induction (N.lt_wf_0 n) as [n _ IH]. intros s. destruct (decide (n = 0)%N) as [->|Hn]; [done|].
  rewrite pretty_N_go_step by lia. rewrite IH by (apply N.div_lt; lia). cbn [digits_val].
  destruct (digit_char (n `mod` 10)%N) as [-> ->]; [apply N.mod_lt; lia|].
  f_equal. pose proof (N.div_mod n 10). lia.
Qed.
Lemma pretty_val a : (0 <= a)%Z -> digits_val 0 (pretty a) = Some a.
Proof.
  intros Ha. destruct a as [|p|p]; [done| |lia].
  change (pretty (Z.pos p)) with (pretty_N_go (N.pos p) EmptyString). by rewrite pretty_N_go_val.
Qed.

Lemma digits_only acc s v :
  digits_val acc s = Some v -> Forall (fun c => is_digit c = true) (String.list_ascii_of_string s).
Proof.
  revert acc. induction s as [|c s IH]; intros acc; cbn; [constructor|].
  destruct (is_digit c) eqn:E; [|done]. intros Hv. constructor; [done|by eapply IH].
Qed.

Lemma parse_u128_pretty a : (0 <= a < 2 ^ 128)%Z -> parse_u128 (pretty a) = Some a.
Proof.
  intros Ha. pose proof (pretty_val a ltac:(lia)) as Hv. pose proof (digits_only _ _ _ Hv) as Hd. unfold parse_u128.
  assert (pretty a <> EmptyString) as Hne.
  { intros He. rewrite He in Hv. injection Hv as <-. discriminate He. }
  destruct (pretty a) as [|c r] eqn:E; [done|]. cbv zeta.
  destruct (decide (c = Ascii.Ascii true true false true false true false false)) as [->|]; [by inversion Hd|].
  rewrite decide_False by done. rewrite Hv. cbn [mbind option_bind]. by rewrite (proj2 (in_width_spec 128 a) Ha).
Qed.

(** With overflow checks, the amount in yocto is exact or the command panics;
    without them, it is exact if it fits. *)
Lemma to_yocto_pretty ov a : (0 <= a < 2 ^ 64)%Z -> to_yocto ov (pretty a) = mul_w ov 128 a (10 ^ 24).
Proof.
  intros Ha. unfold to_yocto. pose proof (digits_only _ _ _ (pretty_val a ltac:(lia))) as Hd.
  rewrite split_dot_single.
  2: { eapply Forall_impl; [exact Hd|]. by intros c Hc ->. }
  cbv zeta. change ([pretty a] !! 0) with (Some (pretty a)). change ([pretty a] !! 1) with (@None string).
  cbn [unwrap mbind outcome_bind]. rewrite parse_u128_pretty by lia. cbn [unwrap mbind outcome_bind].
  unfold pow10. rewrite arith_in by lia. cbn [mbind outcome_bind]. by destruct (mul_w _ _ _ _).
Qed.
Definition amount_fits (ov : bool) (a : Z) : Prop := (0 <= a < 2 ^ 64)%Z /\ (ov = true \/ a * 10 ^ 24 < 2 ^ 128)%Z.
Lemma to_yocto_whole ov a x : amount_fits ov a -> to_yocto ov (pretty a) = Ret x -> x = (a * 10 ^ 24)%Z.
Proof.
  intros [Ha Hov]. rewrite to_yocto_pretty by done. destruct Hov as [->|Hs]; [by intros [-> _]%arith_checked|].
  unfold mul_w. rewrite arith_in by lia. by intros [= <-].
Qed.
Lemma to_yocto_cent ov : to_yocto ov "0.01" = Ret (10 ^ 22)%Z.
Proof. destruct ov; vm_compute; reflexivity. Qed.

(** ** What [seda-delegate] sends *)

Section delegate.
Context {W : Type} `{NN : NearNet W} `{BN : Bn254} `{KC : !KeyCrates} `{CF : !CliFormats}.

Lemma command_bind_ok {A B} (m : command W A) (k : A -> command W B) w v w' :
  (m ≫= k) w = Ret (Ok v, w') -> exists x w1, m w = Ret (Ok x, w1) /\ k x w1 = Ret (Ok v, w').
Proof. unfold mbind, command_bind. destruct (m w) as [[[x|e] w1]|]; [eauto|done..]. Qed.
Lemma on_chain_ok {T} (m : net W T) w v w' :
  on_chain m w = Ret (Ok v, w') -> m w.2 = Ret (Ok v, w'.2) /\ w'.1 = w.1.
Proof. unfold on_chain. destruct (m w.2) as [[[x|e] w1]|]; [|done..]. by intros [= <- <-]. Qed.
Lemma compute_ok {T} (o : outcome T) (w : Sys * W) v w' : compute o w = Ret (Ok v, w') -> o = Ret v /\ w' = w.
Proof. unfold compute. destruct o; [|done]. by intros [= <- <-]. Qed.
Lemma try_option_ok {T} (o : option T) e (w : Sys * W) v w' : try_option o e w = Ret (Ok v, w') -> o = Some v /\ w' = w.
Proof. unfold try_option, try_result. destruct o; [|done]. by intros [= <- <-]. Qed.
Lemma expect_ok_ok {T} msg (m : command W T) w v w' : expect_ok msg m w = Ret (Ok v, w') -> m w = Ret (Ok v, w').
Proof. unfold expect_ok. by destruct (m w) as [[[x|e] w1]|]. Qed.
Lemma try_crypto_ok {T} (o : outcome (result T CryptoError)) (w : Sys * W) v w' :
  try_crypto o w = Ret (Ok v, w') -> o = Ret (Ok v) /\ w' = w.
Proof.
  unfold try_crypto. intros (r & w1 & (-> & ->)%compute_ok & Hr)%command_bind_ok. unfold try_result in Hr.
  destruct r; cbn in Hr; by simplify_eq.
Qed.
Lemma validator_key_ok config (w : Sys * W) k w' :
  validator_key config w = Ret (Ok k, w') -> master_key_of_hex (validator_master_key config) = Ok k /\ w' = w.
Proof. unfold validator_key, try_result. destruct (master_key_of_hex _); cbn; by intros [= <- <-]. Qed.
Lemma signer_keypair_ok key (w : Sys * W) k w' :
  get_signer_keypair_from_config key w = Ret (Ok k, w') ->
  (strip_prefix ed25519_prefix key ≫= bs58_decode) = Some k /\ w' = w.
Proof.
  unfold get_signer_keypair_from_config.
  intros (s & w1 & (Hs & ->)%try_option_ok & (Hd & ->)%expect_ok_ok%try_option_ok)%command_bind_ok.
  by rewrite Hs.
Qed.

(** A transaction of the account [signer], by default the implicit account of the
    key, that was built with the nonce after that of the access key that
    [view_url] reports, and that succeeded after it was sent to [send_url] *)
Definition transacted (view_url send_url : string) (signer : option string) (keypair : bytes)
    (receiver_id : string) (actions : list NearAction) (w : W) (v : bytes) (w' : W) : Prop :=
  length keypair = 64 /\ exists me receiver nonce block_hash w1,
    parse_account_id (default (to_hex (drop 32 keypair)) signer) = Some me /\
    parse_account_id receiver_id = Some receiver /\
    view_access_key view_url me (keypair_public_key keypair) w = (Ok (AccessKey nonce block_hash), w1) /\
    let tx := mkTransaction me (keypair_public_key keypair) (wrap 64 (nonce + 1)) receiver block_hash actions in
    tx_succeeds send_url (mkSigned tx (sign_transaction tx keypair)) w1 v w'.

Lemma delegate_transacted ov signer keypair receiver_id url actions w v w' :
  (signed_tx ← on_chain (construct_tx ov signer keypair receiver_id url actions); delegate_send signed_tx) w = Ret (Ok v, w') ->
  transacted url RPC_URL signer keypair receiver_id actions w.2 v w'.2.
Proof.
  intros (bs & w1 & (Hc & _)%on_chain_ok & (Hs & _)%on_chain_ok)%command_bind_ok.
  apply construct_tx_ok in Hc as (Hl & me & rec & nonce & bh & next & Hme & Hrec & Hk & ->%arith_wrap & Ev); [|done].
  split; [done|]. exists me, rec, nonce, bh, w1.2. do 3 (split; [done|]). by eapply send_tx_ok.
Qed.

(** The transactions of the three commands *)
Definition topped_up (config : DelegateConfig) (receiver : string) (amount : Z) (w : W) (v : bytes) (w' : W) : Prop :=
  exists keypair, (strip_prefix ed25519_prefix (account_secret_key config) ≫= bs58_decode) = Some keypair /\
    transacted (rpc_url config) RPC_URL (Some (delegate_signer_account_id config)) keypair receiver
      [Transfer (amount * 10 ^ 24)] w v w'.
Definition registered_with (config : DelegateConfig) (bn254_key : Bn254KeyPair) (ed25519_key : Ed25519KeyPair)
    (contract_id multi_addr : string) (w : W) (v : bytes) (w' : W) : Prop :=
  exists sig pk s,
    ecdsa_sign (string_bytes (to_hex (ed25519_public_bytes (public_key ed25519_key)))) (private_key bn254_key) = Some sig /\
    pk_to_uncompressed (public_key bn254_key) = Some pk /\ sig_to_uncompressed sig = Some s /\
    transacted (rpc_url config) RPC_URL None (ed25519_keypair_bytes ed25519_key) contract_id
      [FunctionCall "register_node" (string_bytes (json_print (register_node_args multi_addr pk s))) 80000000000000 (10 ^ 22)] w v w'.
Definition staked_for (config : DelegateConfig) (ed25519_key : Ed25519KeyPair) (contract_id : string) (amount : Z)
    (w : W) (v : bytes) (w' : W) : Prop :=
  exists keypair, (strip_prefix ed25519_prefix (account_secret_key config) ≫= bs58_decode) = Some keypair /\
    transacted (rpc_url config) RPC_URL (Some (delegate_signer_account_id config)) keypair contract_id
      [FunctionCall "deposit" (string_bytes (json_print (deposit_args (amount * 10 ^ 24)
         (x00 :: ed25519_public_bytes (public_key ed25519_key))))) (delegate_gas config) (10 ^ 22)] w v w'.

Ltac command_steps :=
  repeat match goal with
  | H : (_ ≫= _) _ = Ret (Ok _, _) |- _ => apply command_bind_ok in H as (? & ? & ? & ?)
  | H : compute _ _ = Ret (Ok _, _) |- _ => apply compute_ok in H as [? ->]
  | H : try_option _ _ _ = Ret (Ok _, _) |- _ => apply try_option_ok in H as [? ->]
  | H : try_crypto _ _ = Ret (Ok _, _) |- _ => apply try_crypto_ok in H as [? ->]
  | H : validator_key _ _ = Ret (Ok _, _) |- _ => apply validator_key_ok in H as [? ->]
  | H : get_signer_keypair_from_config _ _ = Ret (Ok _, _) |- _ => apply signer_keypair_ok in H as [? ->]
  | H : expect_ok _ _ _ = Ret (Ok _, _) |- _ => apply expect_ok_ok in H
  | H : to_yocto _ "0.01" = Ret _ |- _ => rewrite to_yocto_cent in H; injection H as <-
  | H : to_yocto _ (pretty _) = Ret _ |- _ => apply to_yocto_whole in H as ->; [|done]
  end.

Lemma top_up_ok ov receiver amount config w v w' :
  amount_fits ov amount -> TopUp_handle ov receiver amount config w = Ret (Ok v, w') ->
  topped_up config receiver amount w.2 v w'.2.
Proof.
  intros Ha Hr. unfold TopUp_handle in Hr. do 2 (apply command_bind_ok in Hr as (? & ? & ? & Hr)).
  apply delegate_transacted in Hr. command_steps.
  eexists. split; [done|]. exact Hr.
Qed.

Lemma delegate_register_ok ov contract_id multi_addr config w v w' :
  DelegateRegister_handle ov contract_id multi_addr config w = Ret (Ok v, w') ->
  exists key bn254_key ed25519_key, master_key_of_hex (validator_master_key config) = Ok key /\
    derive_bn254 key 0 = Ret (Ok bn254_key) /\ derive_ed25519 key 0 = Ret (Ok ed25519_key) /\
    registered_with config bn254_key ed25519_key contract_id multi_addr w.2 v w'.2.
Proof.
  intros Hr. unfold DelegateRegister_handle in Hr. do 7 (apply command_bind_ok in Hr as (? & ? & ? & Hr)).
  apply delegate_transacted in Hr. command_steps.
  do 3 eexists. do 3 (split; [done|]). do 3 eexists. do 3 (split; [done|]). exact Hr.
Qed.

Lemma stake_ok ov contract_id amount config w v w' :
  amount_fits ov amount -> Stake_handle ov contract_id amount config w = Ret (Ok v, w') ->
  exists key ed25519_key, master_key_of_hex (validator_master_key config) = Ok key /\
    derive_ed25519 key 0 = Ret (Ok ed25519_key) /\ staked_for config ed25519_key contract_id amount w.2 v w'.2.
Proof.
  intros Ha Hr. unfold Stake_handle in Hr. do 5 (apply command_bind_ok in Hr as (? & ? & ? & Hr)).
  apply delegate_transacted in Hr. command_steps.
  do 2 eexists. do 2 (split; [done|]). eexists. split; [done|]. exact Hr.
Qed.

(** C35: A set-up that succeeds has made three transactions, in this order: a
    transfer of the top-up, in yocto, to the implicit account of the validator's
    key; the registration of the validator's keys by that account, with a
    signature of its account id; and a stake of the given amount for it.  Each
    was signed with the nonce after the one that the configured node reports, and
    each was sent to the testnet, whatever the configuration says.  This holds for
    builds with and without overflow checks, but without them (as in the release
    profile) only for amounts that are below [2 ^ 128] in yocto: larger ones wrap
    around. *)
Theorem delegate_setup_correct ov contract_id topup_amount stake_amount multi_addr config w v w' :
  amount_fits ov topup_amount -> amount_fits ov stake_amount ->
  Setup_handle ov contract_id topup_amount stake_amount multi_addr config w = Ret (Ok v, w') ->
  exists key bn254_key ed25519_key v1 w1 v2 w2, master_key_of_hex (validator_master_key config) = Ok key /\
    derive_bn254 key 0 = Ret (Ok bn254_key) /\ derive_ed25519 key 0 = Ret (Ok ed25519_key) /\
    topped_up config (to_hex (ed25519_public_bytes (public_key ed25519_key))) topup_amount w.2 v1 w1 /\
    registered_with config bn254_key ed25519_key contract_id multi_addr w1 v2 w2 /\
    staked_for config ed25519_key contract_id stake_amount w2 v w'.2.
Proof.
  intros Ht Hs Hr. unfold Setup_handle in Hr. do 4 (apply command_bind_ok in Hr as (? & ? & ? & Hr)). command_steps.
  match goal with H : TopUp_handle _ _ _ _ _ = _ |- _ => apply top_up_ok in H; [|done] end.
  match goal with H : DelegateRegister_handle _ _ _ _ _ = _ |- _ =>
    apply delegate_register_ok in H as (k & bn & ed & Hk & Hbn & Hed & Hreg) end.
  apply stake_ok in Hr as (k' & ed' & Hk' & Hed' & Hst); [|done].
  assert (k = x /\ k' = x) as [-> ->] by (split; congruence). assert (ed = x1 /\ ed' = x1) as [-> ->] by (split; congruence).
  do 7 eexists. do 3 (split; [eassumption|]). by repeat (split; [eassumption|]).
Qed.

End delegate.

(** ** Registrations and the contract *)

(** Verification by the pairing check of the host agrees with the crate's, and a
    message has one signature under a key, as BLS signatures do. *)
Class SignatureLaws `{BN : Bn254} `{KC : !KeyCrates} : Prop := {
  pairing_verifies m s pk sb pb : sig_to_uncompressed s = Some sb -> pk_to_uncompressed pk = Some pb ->
    NodeRegistry.bn254_verify m sb pb = Ret (ecdsa_verify m s pk);
  signature_unique m s sk : ecdsa_verify m s (bn254_from_private_key sk) = true -> ecdsa_sign m sk = Some s;
}.

Section registration.
Context {W : Type} `{NN : NearNet W} `{BN : Bn254} `{KC : !KeyCrates} `{CF : !CliFormats}.
Context `{BL : !Bn254Laws} `{SL : !SignatureLaws} `{SDK : NearSdk}.

(** The signature that [seda-delegate] submits passes the check of [register_node]. *)
Lemma delegate_signature_accepted account sk sig pk s :
  ecdsa_sign (string_bytes account) sk = Some sig -> pk_to_uncompressed (bn254_from_private_key sk) = Some pk ->
  sig_to_uncompressed sig = Some s -> NodeRegistry.bn254_verify (string_bytes account) s pk = Ret true.
Proof. intros Hg Hp Hs. rewrite (pairing_verifies _ _ _ _ _ Hs Hp). by rewrite (sign_verifies _ _ _ Hg). Qed.

(** The registration that [seda node register] submits carries a signature of
    the BN254 key, while the contract expects one of the account id: it is
    accepted only if these two messages, which differ, have the same signature. *)
Theorem node_registration_signs_key sk pk s (w w' : Sys * W) env addr v u v' :
  register_signature (mkKeyPair sk (bn254_from_private_key sk)) w = Ret (Ok (pk, s), w') ->
  length (string_bytes (signer_account_id env)) = 64 ->
  register_node env addr pk s v = Ret (u, v') ->
  string_bytes (signer_account_id env) <> pk /\
  exists sig, ecdsa_sign pk sk = Some sig /\ ecdsa_sign (string_bytes (signer_account_id env)) sk = Some sig.
Proof.
  intros Hr Hl (_ & _ & Hv & _)%register_node_ret. unfold register_signature in Hr.
  do 4 (apply command_bind_ok in Hr as (? & ? & [? ->]%try_option_ok & Hr)). cbn [public_key private_key] in *.
  injection Hr as -> -> <-. split.
  - intros He. apply (f_equal length) in He. erewrite Hl, pk_size in He by eassumption. discriminate He.
  - eexists. split; [simplify_eq; eassumption|]. apply signature_unique. erewrite pairing_verifies in Hv by eassumption.
    by injection Hv.
Qed.

End registration.

(** ** A concrete set-up *)

Module RefCli.
Import RefSdk RefNet.

(** Keys of 32 bytes, whose hexadecimal form is the bytes themselves *)
#[export] Instance cli_crates : KeyCrates.
Proof.
  refine {|
    to_hex := String.string_of_list_byte; of_hex s := Some (string_bytes s);
    derive_key k info := Some (take 32 (info ++ k));
    bn254_private_try_from bs := Some (le_val bs); bn254_from_private_key k := k;
    Ed25519PrivateKey := bytes; Ed25519PublicKey := bytes; ed25519_from_bytes bs := Some bs;
    ed25519_public k := k; ed25519_private_bytes k := k; ed25519_public_bytes k := k;
  |}.
  intros bs. unfold string_bytes. by rewrite String.list_byte_of_string_of_list_byte.
Defined.

#[export] Instance cli_formats : CliFormats := {|
  json_print o := match o with (k, _) :: _ => k | [] => EmptyString end;
  bs58_decode s := Some (replicate 64 x07);
  bs58_encode := String.string_of_list_byte;
  pk_to_compressed _ := None;
|}.

Definition cli_config : DelegateConfig :=
  mkDelegateConfig "ed25519:7" (String.string_of_list_byte (replicate 32 x01)) "signer.near" EmptyString "rpc" 300.

(** The clock of this world is past the time at which transactions are known. *)
Definition cli_world : Sys * Z := (mkSys ∅ ∅ None (fun _ => true) (fun _ => []) 0, 5 * second)%Z.

Lemma command_bind_eq {W A B} (m : command W A) (k : A -> command W B) w x w1 :
  m w = Ret (Ok x, w1) -> (m ≫= k) w = k x w1.
Proof. intros Hm. unfold mbind, command_bind. by rewrite Hm. Qed.

Lemma ref_sent signer keypair receiver url actions :
  length keypair = 64 ->
  (signed_tx ← on_chain (construct_tx true signer keypair receiver url actions); delegate_send signed_tx) cli_world =
    Ret (Ok [x2a], cli_world).
Proof.
  intros Hl. unfold construct_tx, get_in_memory_signer. rewrite decide_True by done.
  erewrite command_bind_eq by reflexivity. unfold delegate_send, on_chain, send_tx. cbn [adapter_send_tx NearChain]. unfold near_send_tx, mbind, net_bind.
  cbn [client_near Client_new mret net_ret]. unfold net_ok_or, net_result.
  erewrite signed_roundtrip by reflexivity. reflexivity.
Qed.

End RefCli.

Section witnesses.
Import RefSdk RefNet RefCli.

Lemma ref_amount a : (0 <= a < 2 ^ 40)%Z -> compute (to_yocto true (pretty a)) cli_world = Ret (Ok (a * 10 ^ 24)%Z, cli_world).
Proof. intros Ha. rewrite to_yocto_pretty by lia. unfold mul_w. by rewrite arith_in by lia. Qed.
Lemma ref_cent : compute (to_yocto true "0.01") cli_world = Ret (Ok (10 ^ 22)%Z, cli_world).
Proof. by rewrite to_yocto_cent. Qed.

Lemma ref_topped_up receiver : TopUp_handle true receiver 1 cli_config cli_world = Ret (Ok [x2a], cli_world).
Proof.
  unfold TopUp_handle. rewrite (command_bind_eq _ _ _ _ _ (ref_amount 1 ltac:(lia))).
  erewrite command_bind_eq by reflexivity. by apply ref_sent.
Qed.
Lemma ref_registered : DelegateRegister_handle true "pool" EmptyString cli_config cli_world = Ret (Ok [x2a], cli_world).
Proof.
  unfold DelegateRegister_handle. do 6 erewrite command_bind_eq by reflexivity.
  rewrite (command_bind_eq _ _ _ _ _ ref_cent). by apply ref_sent.
Qed.
Lemma ref_staked : Stake_handle true "pool" 100 cli_config cli_world = Ret (Ok [x2a], cli_world).
Proof.
  unfold Stake_handle. rewrite (command_bind_eq _ _ _ _ _ (ref_amount 100 ltac:(lia))).
  do 3 erewrite command_bind_eq by reflexivity. rewrite (command_bind_eq _ _ _ _ _ ref_cent). by apply ref_sent.
Qed.
Lemma ref_set_up : Setup_handle true "pool" 1 100 EmptyString cli_config cli_world = Ret (Ok [x2a], cli_world).
Proof.
  unfold Setup_handle. do 2 erewrite command_bind_eq by reflexivity.
  rewrite (command_bind_eq _ _ _ _ _ (ref_topped_up _)), (command_bind_eq _ _ _ _ _ ref_registered). exact ref_staked.
Qed.

Lemma delegate_setup_correct_witness :
  Setup_handle true "pool" 1 100 EmptyString cli_config cli_world = Ret (Ok [x2a], cli_world) /\
  exists account v1 w1, topped_up cli_config account 1 (5 * second)%Z v1 w1.
Proof.
  split; [exact ref_set_up|].
  destruct (delegate_setup_correct true "pool" 1 100 EmptyString cli_config cli_world [x2a] cli_world)
    as (key & bn & ed & v1 & w1 & v2 & w2 & _ & _ & _ & Ht & _); [split; [lia|left; reflexivity]|split; [lia|left; reflexivity]|exact ref_set_up|].
  exists (to_hex (ed25519_public_bytes (public_key ed))), v1, w1. exact Ht.
Defined.

(** The laws of signatures hold in the reference. *)
Lemma ref_signature_laws : SignatureLaws.
Proof.
  split.
  - intros m s pk sb pb. cbn [sig_to_uncompressed pk_to_uncompressed ref_bn254]. destruct (in_width 512 s) eqn:Es; [|done]. destruct (in_width 1024 pk) eqn:Ep; [|done].
    intros <-%(inj Some) <-%(inj Some). unfold NodeRegistry.bn254_verify. cbn [format_pairing_check_uncompressed_values ref_bn254].
    rewrite decide_True by (split; apply length_le_bytes). cbn [unwrap mbind outcome_bind alt_bn128_pairing_check ref_bn254].
    rewrite take_app_length', drop_app_length', take_app_length' by (symmetry; apply length_le_bytes).
    rewrite app_assoc, drop_app_length' by (by rewrite length_app, !length_le_bytes).
    rewrite (le_val_le_bytes_in 64), (le_val_le_bytes_in 128) by (by apply in_width_spec).
    cbn [ecdsa_verify ref_bn254]. match goal with |- context [if ?b then _ else _] => by destruct b end.
  - intros m s sk. cbn [ecdsa_verify ecdsa_sign ref_bn254]. by intros ->%Z.eqb_eq.
Qed.

End witnesses.
