(* ===== verification/CliMain.v ===== *)
(** * The [seda] command

    Models [src/cli/src/main.rs] and the dispatch of its subcommands
    ([src/cli/src/cli/mod.rs], [commands/node/mod.rs], [commands/node/peers],
    [commands/node/bridge.rs], [commands/sub_chain/mod.rs]) over the handlers of
    [Cli]: the configuration is read first, then one handler runs.

    Theorem [command_transactions] shows which commands make a transaction,
    and [main_runs_command] that a command runs with the configuration of the
    file, the environment and the command line.

    Parsing of the command line ([clap]), the [dotenv] crate and the client of
    the RPC server ([jsonrpsee]) are parameters. *)

From stdpp Require Import pretty.
From S2P Require Import Prelude NearSdk Contract NodeRegistry Batch Sdk Runtime Imports Crypto Config Guest Consensus Chains Node NodeLife Cli.

(** ** Commands *)

(** [node::Node], [sub_chain::SubChain] and [Command] *)
Inductive NodeCommand :=
| NodeBridge (chain : Chain) (sub_chain_contract_id sub_chain_method_name : string) (deposit : Z) (args : string)
| NodeGet (contract_id node_id : option string)
| NodeGetNodes (limit offset : Z) (contract_id : option string)
| NodeRegister (register_deposit : Z) (socket_address : string) (cli : PartialNodeConfig)
| NodeUpdate (update : UpdateNode) (cli : PartialNodeConfig)
| NodeUnregister (node_id : Z) (cli : PartialNodeConfig)
| NodePeers (sub_peers_command : Peers).
Inductive SubChain :=
| SubChainCall (chain : Chain) (contract_id method_name args : string) (call_deposit : Z) (cli : PartialNodeConfig)
| SubChainView (chain : Chain) (contract_id method_name : string) (args : option string).
Inductive Command :=
| CmdDocument
| CmdGenerate (shell : string)
| CmdRun (cli : PartialNodeConfig) (chains_cli : PartialChainConfigs) (p2p_cli : PartialP2PConfig)
| CmdNode (chains_config : PartialChainConfigs) (sub_node_command : NodeCommand)
| CmdSubChain (chains_config : PartialChainConfigs) (sub_chain_command : SubChain)
| CmdInit (key_path config_path : string).

(** The parameters of a request, and the client: a response has the type that
    the caller expects, or the request fails *)
Inductive RpcParam := ParamText (s : string) | ParamTexts (l : list string).
Class RpcClient (W : Type) := {
  ws_request : string -> string -> list RpcParam -> W -> result string string * W;
}.

(** [serde_json::from_slice] at the types of the answers, printed again *)
Class Answers := {
  as_value : bytes -> option string;
  as_option_value : bytes -> option string;
  as_string : bytes -> option string;
  as_nodes : bytes -> option string;
  as_node : bytes -> option string;
}.

Section seda.
Context {W : Type} `{NN : NearNet W} `{RC : !RpcClient W} `{BN : Bn254} `{KC : !KeyCrates} `{CF : !CliFormats} `{AN : Answers} `{TM : Toml}.
(** What a command prints, or the node that it starts *)
Inductive Output :=
| Printed (text : string)
| Success (result : string)
| KeyInformation (account_id ed25519_public_key bn254_public_key : string)
| NodeRuns (n : RunningNode).
Context (ov : bool) (build : Build) (grants : Sys * W -> Resources).
(** The generated texts: [clap_markdown::help_markdown], the completions of
    [clap_complete]; the directory of the sources *)
Context (help_markdown : string) (completions : string -> string) (cli_md : string).

Definition rpc (config : AppConfig) (method : string) (params : list RpcParam) : command W string := fun w =>
  match ws_request ("ws://" +:+ seda_server_url config) method params w.2 with
  | (Ok r, w2) => Ret (Ok r, (w.1, w2))
  | (Err e, w2) => Ret (Err (JsonRpcClient e), (w.1, w2))
  end.

Definition NodeBridge_handle (chain : Chain) (contract_id method_name : string) (deposit : Z) (args : string)
    (config : AppConfig) : command W Output :=
  response ← rpc config "cli" [ParamTexts (bridge_request chain contract_id method_name deposit args)];
  mret (Printed response).

Definition peers_text (c : Peers) (response : string) : string :=
  match c with
  | PeersAdd multi_addr => "Peer " +:+ multi_addr +:+ " has been added"
  | PeersRemove peer_id => "Peer " +:+ peer_id +:+ " has been removed"
  | PeersList => response
  | PeersDiscover => EmptyString
  end.
Definition Peers_handle (c : Peers) (config : AppConfig) : command W Output :=
  response ← rpc config (peers_request c).1 (from_option (fun p => [ParamText p]) [] (peers_request c).2);
  mret (Printed (peers_text c response)).

Definition Node_handle (c : NodeCommand) (config : AppConfig) (chains_cli : PartialChainConfigs) : command W Output :=
  match c with
  | NodeBridge chain contract_id method_name deposit args => NodeBridge_handle chain contract_id method_name deposit args config
  | NodeGet contract_id node_id => v ← GetNode_handle build as_node contract_id node_id config chains_cli; mret (Printed v)
  | NodeGetNodes limit offset contract_id => v ← GetNodes_handle build as_nodes limit offset contract_id config chains_cli; mret (Printed v)
  | NodeRegister deposit addr cli => v ← Register_handle ov build as_option_value deposit addr cli config chains_cli; mret (Success v)
  | NodeUpdate update cli => v ← Update_handle ov build as_option_value update cli config chains_cli; mret (Success v)
  | NodeUnregister node_id cli => v ← Unregister_handle ov build as_string node_id cli config chains_cli; mret (Success v)
  | NodePeers c => Peers_handle c config
  end.

Definition SubChain_handle (c : SubChain) (config : AppConfig) (chains_cli : PartialChainConfigs) : command W Output :=
  match c with
  | SubChainCall chain contract_id method_name args deposit cli =>
      v ← SubChainCall_handle ov build as_value chain contract_id method_name args deposit cli config chains_cli; mret (Success v)
  | SubChainView chain contract_id method_name args =>
      v ← SubChainView_handle as_value chain contract_id method_name args config chains_cli; mret (Printed v)
  end.

(** [OpenOptions::new().write(true).open(path)], which neither creates nor
    truncates the file, and [write_all] *)
Definition open_existing (path : string) : io string unit := fun s =>
  if negb (bool_decide (is_Some (files s !! path))) then Ret (Err "No such file or directory (os error 2)"%string, s)
  else if writable s path then Ret (Ok tt, s) else Ret (Err "Permission denied (os error 13)"%string, s).
Definition Document_handle : command W Output :=
  _ ← on_system CLIDocument (_ ← open_existing cli_md; write_all cli_md help_markdown);
  mret (Printed EmptyString).

Definition Command_handle (c : Command) (config : AppConfig) : command W Output :=
  match c with
  | CmdDocument => Document_handle
  | CmdInit key_path config_path =>
      x ← Init_handle key_path config_path; mret (KeyInformation x.1.1 x.1.2 x.2)
  | CmdGenerate shell => mret (Printed (completions shell))
  | CmdNode chains_cli c => Node_handle c config chains_cli
  | CmdRun cli chains_cli p2p_cli =>
      x ← Run_handle build grants cli chains_cli p2p_cli config; mret (NodeRuns x)
  | CmdSubChain chains_cli c => SubChain_handle c config chains_cli
  end.

(** [main]; [dotenv] adds the variables of the file [.env] *)
Definition seda_main (dotenv : Sys -> Sys) (log_options : PartialLoggerConfig) (c : Command) : command W Output := fun w =>
  (x ← on_system LoadConfig (create_and_load_or_load_config None);
   _ ← on_system LoadConfig (logger_to_config x.2 log_options);
   Command_handle c x.1) (dotenv w.1, w.2).

End seda.

(** ** The transactions of the commands *)

Section transactions.
Context {W : Type} `{NN : NearNet W} `{RC : !RpcClient W} `{BN : Bn254} `{KC : !KeyCrates} `{CF : !CliFormats} `{AN : Answers} `{TM : Toml}.
Context (ov : bool) (build : Build) (grants : Sys * W -> Resources).
Context (help_markdown : string) (completions : string -> string) (cli_md : string).

(** The commands that call a contract: whose configuration they use, and what
    they call with it *)
Definition command_config (c : Command) : option (PartialNodeConfig * PartialChainConfigs) :=
  match c with
  | CmdNode chains_cli (NodeRegister _ _ cli | NodeUpdate _ cli | NodeUnregister _ cli) => Some (cli, chains_cli)
  | CmdSubChain chains_cli (SubChainCall _ _ _ _ _ cli) => Some (cli, chains_cli)
  | _ => None
  end.
Inductive calls (n : NodeConfig) : Command -> string -> NearAction -> Prop :=
| calls_register chains_cli cli deposit addr pk sig s :
    pk_to_uncompressed (public_key (keypair_bn254 n)) = Some pk -> ecdsa_sign pk (private_key (keypair_bn254 n)) = Some sig ->
    sig_to_uncompressed sig = Some s ->
    calls n (CmdNode chains_cli (NodeRegister deposit addr cli)) (node_contract_account_id n)
      (FunctionCall "register_node" (string_bytes (json_print (register_node_args addr pk s))) (node_gas n) deposit)
| calls_update chains_cli cli u :
    calls n (CmdNode chains_cli (NodeUpdate u cli)) (node_contract_account_id n)
      (FunctionCall "update_node" (string_bytes (json_print (update_node_args u))) (node_gas n) 0)
| calls_unregister chains_cli cli id :
    calls n (CmdNode chains_cli (NodeUnregister id cli)) (node_contract_account_id n)
      (FunctionCall "unregister_node" (string_bytes (json_print (unregister_args id))) (node_gas n) 0)
| calls_sub_chain chains_cli cli contract_id f args deposit :
    calls n (CmdSubChain chains_cli (SubChainCall Near contract_id f args deposit cli)) contract_id
      (FunctionCall f (string_bytes args) (node_gas n) deposit).

Lemma on_system_ok {T E} (f : E -> CliError) (m : io E T) (w : Sys * W) v w' :
  on_system f m w = Ret (Ok v, w') -> m w.1 = Ret (Ok v, w'.1) /\ w'.2 = w.2.
Proof. unfold on_system. destruct (m w.1) as [[[x|e] s]|]; [|done..]. by intros [= <- <-]. Qed.

(** A call that succeeds is one transaction, on NEAR. *)
Lemma call_ok {T} (decode : bytes -> option T) chain contract_id f deposit args n cs w v w' :
  call ov decode chain contract_id f deposit args n cs w = Ret (Ok v, w') ->
  chain = Near /\ exists r, decode r = Some v /\
    transacted (near_rpc_url (conf_near cs)) (near_rpc_url (conf_near cs)) None (ed25519_keypair_bytes (keypair_ed25519 n)) contract_id
      [FunctionCall f (string_bytes args) (node_gas n) deposit] w.2 r w'.2.
Proof.
  unfold call. intros (bs & w1 & (Hc & _)%on_chain_ok & Hr)%command_bind_ok.
  apply command_bind_ok in Hr as (r & w2 & (Hs & _)%on_chain_ok & (Hd & ->)%try_option_ok).
  destruct chain; [done|]. split; [done|]. exists r. split; [done|].
  apply construct_tx_ok in Hc as (Hl & me & rec & nonce & bh & next & Hme & Hrec & Hk & ->%arith_wrap & Ev); [|done].
  split; [done|]. exists me, rec, nonce, bh, w1.2. do 3 (split; [done|]). by eapply send_tx_ok.
Qed.

Lemma register_signature_ok kp (w : Sys * W) x w' :
  register_signature kp w = Ret (Ok x, w') ->
  w' = w /\ pk_to_uncompressed (public_key kp) = Some x.1 /\
  exists sig, ecdsa_sign x.1 (private_key kp) = Some sig /\ sig_to_uncompressed sig = Some x.2.
Proof.
  unfold register_signature. intros (m & w1 & (Hm & ->)%try_option_ok & H)%command_bind_ok.
  apply command_bind_ok in H as (sig & w2 & (Hs & ->)%try_option_ok & H).
  apply command_bind_ok in H as (pk & w3 & (Hpk & ->)%try_option_ok & H).
  apply command_bind_ok in H as (s & w4 & (Hs' & ->)%try_option_ok & [= <- <-]).
  rewrite Hm in Hpk. injection Hpk as <-. eauto.
Qed.

(** Commands that leave alone what views and requests to the node leave alone *)
Section kept.
Context (I : W -> Prop).
Context (views_keep : forall url contract f args w, I w -> I (call_function url contract f args w).2).
Context (requests_keep : forall url m ps w, I w -> I (ws_request url m ps w).2).

Definition keeps {T} (m : command W T) : Prop := forall w r w', I w.2 -> m w = Ret (r, w') -> I w'.2.
Lemma keeps_ret {T} (x : T) : keeps (mret x).
Proof. by intros w r w' HI [= <- <-]. Qed.
Lemma keeps_bind {A B} (m : command W A) (k : A -> command W B) : keeps m -> (forall x, keeps (k x)) -> keeps (m ≫= k).
Proof.
  intros Hm Hk w r w' HI. unfold mbind, command_bind. destruct (m w) as [[[x|e] w1]|] eqn:E; [|intros [= <- <-]|done].
  - apply Hk. by eapply Hm.
  - by eapply Hm.
Qed.
Lemma keeps_system {T E} (f : E -> CliError) (m : io E T) : keeps (on_system f m).
Proof. intros w r w' HI. unfold on_system. destruct (m w.1) as [[? s]|]; [|done]. by intros [= <- <-]. Qed.
Lemma keeps_result {T} (x : result T CliError) : keeps (try_result x).
Proof. by intros w r w' HI [= <- <-]. Qed.
Lemma keeps_compute {T} (o : outcome T) : keeps (compute o).
Proof. intros w r w' HI. unfold compute. destruct o; [|done]. by intros [= <- <-]. Qed.
Lemma keeps_expect {T} msg (m : command W T) : keeps m -> keeps (expect_ok msg m).
Proof. intros Hm w r w' HI. unfold expect_ok. destruct (m w) as [[[x|e] w1]|] eqn:E; [|done..]. intros [= <- <-]. by eapply Hm. Qed.
Lemma keeps_node_run url n p c : keeps (seda_node_run grants url n p c).
Proof. intros w. apply (keeps_bind (compute (run_boot (grants w)))); [apply keeps_compute|intros; apply keeps_ret]. Qed.
Lemma keeps_rpc config m ps : keeps (rpc config m ps).
Proof.
  intros w r w' HI. unfold rpc. pose proof (requests_keep ("ws://" +:+ seda_server_url config) m ps w.2 HI) as Hk.
  destruct (ws_request _ _ _ _) as [[x|e] w2]; by intros [= <- <-].
Qed.
Lemma keeps_view {T} (decode : bytes -> option T) chain contract_id f args cs : keeps (view decode chain contract_id f args cs).
Proof.
  apply keeps_bind; [|intros; apply keeps_result]. intros w r w' HI. unfold on_chain.
  destruct chain; [done|]. cbn [chain_view_client Client_new client_near adapter_view NearChain]. unfold near_view, net_ok_or, net_result, net_call, mbind, net_bind, mret, net_ret.
  destruct (parse_account_id contract_id) as [c|]; [|by intros [= <- <-]].
  pose proof (views_keep (near_rpc_url (conf_near cs)) c f (string_bytes (default EmptyString args)) w.2 HI) as Hk.
  destruct (call_function _ _ _ _ _) as [[[| |]|e] w2]; by intros [= <- <-].
Qed.

Lemma queries_keep c config : command_config c = None -> keeps (Command_handle ov build grants help_markdown completions cli_md c config).
Proof.
  assert (forall T E f (m : io E T), keeps (on_system f m)) as Hsys by (intros; apply keeps_system).
  assert (forall cfg, keeps (default_node build cfg)) as Hdef by (intros; apply keeps_expect, keeps_system).
  assert (forall T (o : outcome (result T CryptoError)), keeps (try_crypto o)) as Hcr.
  { intros. apply keeps_bind; [apply keeps_compute|intros; apply keeps_result]. }
  destruct c as [|shell|cli ch p|ch []|ch []|k p]; intros Hc; try done; cbn [Command_handle Node_handle SubChain_handle].
  all: repeat first
    [ apply keeps_ret | apply keeps_rpc | apply keeps_node_run | apply keeps_view | apply keeps_result | apply Hsys | apply Hdef | apply Hcr
    | apply keeps_bind; [|intros] ].
Qed.

End kept.

Definition command_url (config : AppConfig) (chains_cli : PartialChainConfigs) : option string :=
  opt_near_rpc_url (opt_near chains_cli) ∪ opt_near_rpc_url (opt_near (chains config)).

Lemma chains_of_ok config chains_cli (w : Sys * W) cs w' :
  chains_of config chains_cli w = Ret (Ok cs, w') -> w' = w /\ command_url config chains_cli = Some (near_rpc_url (conf_near cs)).
Proof.
  unfold chains_of, command_url. intros (Hc & H2)%on_system_ok. destruct w as [s x], w' as [s' x']. cbn in *. subst x'.
  unfold chains_to_config, near_to_config, merge_config_cli in Hc.
  destruct (opt_near_rpc_url (opt_near chains_cli)), (opt_near_rpc_url (opt_near (chains config))); by inversion Hc.
Qed.
Lemma node_of_ok config cli (w : Sys * W) n w' :
  node_of build config cli w = Ret (Ok n, w') -> node_to_config build (node config) cli w.1 = Ret (Ok n, w'.1) /\ w'.2 = w.2.
Proof. apply on_system_ok. Qed.

(** What a successful command that calls a contract has done *)
Definition called (c : Command) (config : AppConfig) (cli : PartialNodeConfig) (chains_cli : PartialChainConfigs) (w w' : Sys * W) : Prop :=
  exists n url contract_id a r,
    node_to_config build (node config) cli w.1 = Ret (Ok n, w'.1) /\ command_url config chains_cli = Some url /\
    calls n c contract_id a /\
    transacted url url None (ed25519_keypair_bytes (keypair_ed25519 n)) contract_id [a] w.2 r w'.2.

Lemma call_called {T} (decode : bytes -> option T) c config cli chains_cli chain contract_id f deposit args n cs w w1 v w' :
  node_of build config cli w = Ret (Ok n, w1) -> command_url config chains_cli = Some (near_rpc_url (conf_near cs)) ->
  (chain = Near -> calls n c contract_id (FunctionCall f (string_bytes args) (node_gas n) deposit)) ->
  call ov decode chain contract_id f deposit args n cs w1 = Ret (Ok v, w') -> w'.1 = w1.1 /\ called c config cli chains_cli w w'.
Proof.
  intros (Hn & Hw)%node_of_ok Hu Hc Hr. assert (w'.1 = w1.1) as Hs.
  { unfold call in Hr. apply command_bind_ok in Hr as (? & ? & (_ & H1)%on_chain_ok & Hr).
    apply command_bind_ok in Hr as (? & ? & (_ & H2)%on_chain_ok & (_ & ->)%try_option_ok). congruence. }
  split; [done|]. apply call_ok in Hr as (-> & r & _ & Ht). exists n, (near_rpc_url (conf_near cs)), contract_id. eexists _, r.
  rewrite Hs. split_and!; [done|done|by apply Hc|]. by rewrite <-Hw.
Qed.

Lemma command_called c config w out w' cli chains_cli :
  command_config c = Some (cli, chains_cli) ->
  Command_handle ov build grants help_markdown completions cli_md c config w = Ret (Ok out, w') -> called c config cli chains_cli w w'.
Proof.
  destruct c as [|?|? ? ?|ch []|ch []|? ?]; intros [= -> ->]; cbn [Command_handle Node_handle SubChain_handle];
    intros (v & ? & Hr & [= _ ->])%command_bind_ok;
    apply command_bind_ok in Hr as (x1 & w1 & H1 & Hr); apply command_bind_ok in Hr as (x2 & w2 & H2 & Hr).
  - apply chains_of_ok in H1 as [-> Hu]. apply command_bind_ok in Hr as ([pk s] & w3 & (-> & Hpk & sig & Hsig & Hs)%register_signature_ok & Hr).
    eapply call_called in Hr as [_ ?]; [done..|]. intros _. by eapply calls_register.
  - apply chains_of_ok in H1 as [-> Hu]. eapply call_called in Hr as [_ ?]; [done..|]. intros _. apply calls_update.
  - apply chains_of_ok in H1 as [-> Hu]. eapply call_called in Hr as [_ ?]; [done..|]. intros _. apply calls_unregister.
  - apply chains_of_ok in H2 as [-> Hu]. eapply call_called in Hr as [_ ?]; [done..|]. intros ->. apply calls_sub_chain.
Qed.

(** [seda run] ends in a node that has just been started. *)
Lemma run_started cli chains_cli p2p_cli config w n w' :
  Run_handle build grants cli chains_cli p2p_cli config w = Ret (Ok n, w') ->
  exists w1, run_boot (grants w1) = Ret (rn_system n).
Proof.
  intros Hr. unfold Run_handle in Hr. do 3 (apply command_bind_ok in Hr as (? & ? & _ & Hr)).
  apply command_bind_ok in Hr as (sys & w1 & (Hb & _)%compute_ok & [= <- _]). by eexists.
Qed.

(** C34: What the commands of [seda] do to the chains.  A command that registers,
    updates or unregisters a node, or calls a contract, and that succeeds has made
    one transaction, on NEAR, at the address of the command line or else of the
    configuration, with the key of the node: exactly the call that the command
    stands for.  The other commands do not send any themselves: what views and
    requests to the node leave alone, they leave alone, whether they succeed or
    not.  The command [seda run] is among these up to the start of the node: its
    process then goes on as the node, from the beginning of a life of it
    ([NodeLife]), in which the jobs send transactions. *)
Theorem command_transactions c config w :
  match command_config c with
  | Some (cli, chains_cli) => forall out w',
      Command_handle ov build grants help_markdown completions cli_md c config w = Ret (Ok out, w') -> called c config cli chains_cli w w'
  | None => forall (I : W -> Prop) r w',
      (forall url contract f args w, I w -> I (call_function url contract f args w).2) ->
      (forall url m ps w, I w -> I (ws_request url m ps w).2) ->
      I w.2 -> Command_handle ov build grants help_markdown completions cli_md c config w = Ret (r, w') -> I w'.2 /\
      match c with
      | CmdRun _ _ _ => forall out, r = Ok out -> exists n w1, out = NodeRuns n /\
          forall threads, life threads (grants w1) [] (rn_system n)
      | _ => True
      end
  end.
Proof.
  destruct (command_config c) as [[cli chains_cli]|] eqn:E.
  - intros out w'. by apply command_called.
  - intros I r w' Hv Hr HI Hrun. split; [by eapply (queries_keep I Hv Hr c config E)|].
    destruct c; try done. intros out ->. cbn in Hrun. apply command_bind_ok in Hrun as (n & w1 & Hb & [= <- _]).
    apply run_started in Hb as [w2 Hb]. exists n, w2. split; [done|]. intros threads. by apply life_boot.
Qed.

(** [main] does nothing on the network before the command, and the command runs
    with the configuration that was read. *)
Theorem main_runs_command dotenv log c w r w' :
  seda_main ov build grants help_markdown completions cli_md dotenv log c w = Ret (r, w') ->
  (exists config s, Command_handle ov build grants help_markdown completions cli_md c config (s, w.2) = Ret (r, w')) \/
  (exists e, r = Err e /\ w'.2 = w.2).
Proof.
  unfold seda_main, mbind, command_bind, on_system. cbn [fst snd].
  destruct (create_and_load_or_load_config None _) as [[[[config p]|e] s]|]; [|intros [= <- <-]; right; eauto|done].
  cbn [fst snd map_error]. destruct (logger_to_config p log s) as [[[l|e] s']|]; [|intros [= <- <-]; right; eauto|done].
  cbn [map_error]. intros H. left. by exists config, s'.
Qed.

(** The page of the help is only overwritten: what was longer before stays. *)
Lemma document_keeps_tail (w : Sys * W) old :
  files w.1 !! cli_md = Some old -> writable w.1 cli_md = true ->
  Document_handle help_markdown cli_md w = Ret (Ok (Printed EmptyString),
    (set_files (<[cli_md := String.string_of_list_byte (string_bytes help_markdown ++
       drop (length (string_bytes help_markdown)) (string_bytes old))]> (files w.1)) w.1, w.2)).
Proof.
  intros Hf Hw. unfold Document_handle, mbind, command_bind, on_system, io_bind, open_existing, write_all, write_file.
  rewrite Hf, Hw. cbn [is_Some]. rewrite bool_decide_eq_true_2 by done. cbn [negb]. by rewrite Hw, Hf.
Qed.

End transactions.

(** ** A concrete command *)

Section witnesses.
Import RefSdk RefSystem RefNet RefCli.

#[local] Instance ref_client : RpcClient Z := {| ws_request _ m _ w := (Ok m, w) |}.
#[local] Instance ref_answers : Answers :=
  {| as_value _ := Some EmptyString; as_option_value _ := Some EmptyString; as_string _ := None; as_nodes _ := None; as_node _ := None |}.
Definition seda_config : AppConfig :=
  mkApp "127.0.0.1:12345" (mkPartialChains config_default (mkPartialNear (Some "rpc"%string))) (ref_node None) config_default.
Definition seda_command : Command :=
  CmdSubChain config_default (SubChainCall Near "pool" "ping" "{}" 1 config_default).
Definition seda_world : Sys * Z := (fresh_sys, 5 * second)%Z.
Abbreviation ref_handle := (Command_handle true ref_build (fun _ => granted) EmptyString id "CLI.md").

Lemma ref_called : exists w', ref_handle seda_command seda_config seda_world = Ret (Ok (Success EmptyString), w').
Proof.
  eexists. unfold seda_command, Command_handle, SubChain_handle, SubChainCall_handle.
  erewrite command_bind_eq; [reflexivity|]. do 2 erewrite command_bind_eq by reflexivity.
  unfold call. erewrite command_bind_eq by reflexivity. erewrite command_bind_eq; [reflexivity|].
  unfold on_chain, send_tx. cbn [adapter_send_tx NearChain]. unfold near_send_tx, mbind, net_bind.
  cbn [client_near Client_new mret net_ret]. unfold net_ok_or, net_result.
  erewrite signed_roundtrip by reflexivity. reflexivity.
Qed.

(** The call is one transaction; the list of the peers, none. *)
Lemma command_transactions_witness :
  (exists w', called ref_build seda_command seda_config config_default config_default seda_world w') /\
  (forall r w', ref_handle (CmdNode config_default (NodePeers PeersList)) seda_config seda_world = Ret (r, w') -> w'.2 = (5 * second)%Z).
Proof.
  split.
  - destruct ref_called as [w' Hw]. exists w'.
    exact (command_transactions true ref_build (fun _ => granted) EmptyString id "CLI.md" seda_command seda_config seda_world _ w' Hw).
  - intros r w' Hr.
    exact (proj1 (command_transactions true ref_build (fun _ => granted) EmptyString id "CLI.md" (CmdNode config_default (NodePeers PeersList))
      seda_config seda_world (fun w => w = (5 * second)%Z) r w' (fun _ _ _ _ w H => H) (fun _ _ _ w H => H) eq_refl Hr)).
Defined.

End witnesses.
