(* ===== verification/MockRpc.v ===== *)
(** * The test RPC server

    Models [src/tooling/debug/src] (a server that stands in for a NEAR node, and
    the commands that start and stop it) and the random node information that it answers with
    ([src/common/src/node/mod.rs]).  The server is an instance of the network
    that the chain adapter is written against ([Chains]), so that the theorems
    show what the node and the commands get from it.

    The formats and hashes of the NEAR crates, the random generator of the thread
    and what a client is told when a method panics are parameters. *)

From Stdlib Require Import Ascii.
From stdpp Require Import pretty.
From S2P Require Import Prelude NearSdk Contract Sdk Imports Crypto Config Node NodeLife Chains Cli.

(** ** Crates *)

Definition alphanumeric (c : ascii) : bool :=
  let n := N_of_ascii c in
  ((48 <=? n) && (n <=? 57) || (65 <=? n) && (n <=? 90) || (97 <=? n) && (n <=? 122))%N.

(** [thread_rng]: numbers of a range without its end, and letters and digits;
    the formats *)
Class MockCrates := {
  Seed : Type;
  gen_range : Z -> Z -> Seed -> Z * Seed;
  sample_alphanumeric : Seed -> ascii * Seed;
  hash_bytes : bytes -> bytes;
  get_hash : SignedTransaction -> bytes;
  to_base64 : bytes -> string;
  from_base64 : string -> option bytes;
  node_to_json : NodeInfo -> bytes;
  nodes_to_json : list NodeInfo -> bytes;
  bytes_to_json : bytes -> bytes;
  gen_range_in lo hi s : (lo < hi)%Z -> (lo <= (gen_range lo hi s).1 < hi)%Z;
  sample_alphanumeric_ok s : alphanumeric (sample_alphanumeric s).1 = true;
  base64_roundtrip bs : from_base64 (to_base64 bs) = Some bs;
}.

Section mock.
Context `{BN : Bn254} `{KC : !KeyCrates} `{MC : MockCrates}.

(** The process: its system, the generator of its thread, the clock, and what was
    sent on the channel for the shutdown *)
Record Mock := mkMock { m_sys : Sys; m_seed : Seed; m_now : Z; shutdown_channel : list bool }.
Definition draw_seed {T} (f : Seed -> T * Seed) : M Mock T := fun m =>
  let '(x, s) := f (m_seed m) in Ret (x, mkMock (m_sys m) s (m_now m) (shutdown_channel m)).

(** ** [NodeInfo::random] *)

Fixpoint sample (n : nat) : M Mock string :=
  match n with
  | O => mret EmptyString
  | S n => c ← draw_seed sample_alphanumeric; s ← sample n; mret (String c s)
  end.
Definition random_master_key : M Mock MasterKey := fun m =>
  match random (E := CryptoError) (m_sys m) with
  | Ret (Ok k, s) => Ret (k, mkMock s (m_seed m) (m_now m) (shutdown_channel m))
  | Ret (Err _, _) => Panic "random"
  | Panic msg => Panic msg
  end.
Definition unwrap_key {T} (o : outcome (result T CryptoError)) : M Mock T :=
  r ← lift o; match r with Ok k => mret k | Err _ => panic "called `Result::unwrap()` on an `Err` value" end.
Definition NodeInfo_random : M Mock NodeInfo :=
  account_id_stem ← sample 7;
  master_key ← random_master_key;
  a ← draw_seed (gen_range 1 255);
  b ← draw_seed (gen_range 1 255);
  c ← draw_seed (gen_range 1 255);
  d ← draw_seed (gen_range 1 255);
  port ← draw_seed (gen_range 1 65535);
  balance ← draw_seed (gen_range 0 (2 ^ 128 - 1));
  bn254_key ← unwrap_key (derive_bn254 master_key 0);
  bn254_public_key ← lift (unwrap "called `Result::unwrap()` on an `Err` value" (pk_to_uncompressed (public_key bn254_key)));
  ed25519_key ← unwrap_key (derive_ed25519 master_key 0);
  mret (mkNodeInfo (account_id_stem +:+ ".testnet")
    (pretty a +:+ "." +:+ pretty b +:+ "." +:+ pretty c +:+ "." +:+ pretty d +:+ ":" +:+ pretty port)
    balance bn254_public_key (ed25519_public_bytes (public_key ed25519_key))).

(** ** [MockNearRpc] *)

(** [OsRng.gen()] *)
Definition random_crypto_hash : M Mock bytes := fun m =>
  Ret (hash_bytes (os_rng (m_sys m) (taken (m_sys m))), mkMock (take_seed (m_sys m)) (m_seed m) (m_now m) (shutdown_channel m)).

(** The answer of a view, with the hash of a block *)
Definition call_result (m : M Mock bytes) : M Mock QueryResponseKind :=
  result ← m; _ ← random_crypto_hash; mret (CallResult result).
Definition mock_query (method_name : option string) (request_type : string) : M Mock QueryResponseKind :=
  if decide (request_type = "call_function"%string) then
    match method_name with
    | Some name =>
        if decide (name = "get_node"%string) then call_result (a ← NodeInfo_random; mret (node_to_json a))
        else if decide (name = "get_active_nodes"%string) then
          call_result (a ← NodeInfo_random; b ← NodeInfo_random; c ← NodeInfo_random; mret (nodes_to_json [a; b; c]))
        else if decide (name = "compute_merkle_root"%string) then call_result (h ← random_crypto_hash; mret (bytes_to_json h))
        else if decide (name = "get_latest_batch_id"%string) then call_result (h ← random_crypto_hash; mret (bytes_to_json h))
        else panic "not implemented"
    | None => panic "not implemented"
    end
  else if decide (request_type = "view_access_key"%string) then h ← random_crypto_hash; mret (AccessKey 100288680000299 h)
  else panic "not implemented".

(** The transaction is decoded with what the client encodes with. *)
Definition mock_broadcast_tx_async {W} `{NN : NearNet W} (params : string) : M Mock (result bytes string) :=
  non_base_64 ← lift (unwrap "called `Result::unwrap()` on an `Err` value" (from_base64 params));
  mret match signed_of_slice non_base_64 with Some tx => Ok (get_hash tx) | None => Err "invalid transaction"%string end.

(** The outcome is made up, with six hashes. *)
Definition mock_tx : M Mock TxStatus :=
  _ ← random_crypto_hash; _ ← random_crypto_hash; _ ← random_crypto_hash;
  _ ← random_crypto_hash; _ ← random_crypto_hash; _ ← random_crypto_hash;
  mret (SuccessValue [x08]).

Definition stop_server : M Mock unit := fun m =>
  Ret (tt, mkMock (m_sys m) (m_seed m) (m_now m) (shutdown_channel m ++ [true])).

(** [Start::handle]: the loop over the messages that come before the channel is
    closed *)
Fixpoint start_loop (received : list bool) (handle : Rpc) : result unit string * Rpc :=
  match received with
  | [] => (Ok tt, handle)
  | true :: received =>
      match rpc_stop handle with (Ok _, handle) => start_loop received handle | (Err e, handle) => (Err e, handle) end
  | false :: received => start_loop received handle
  end.

End mock.

(** ** The server as a network *)

Section network.
Context {W : Type} `{NN : NearNet W} `{BN : Bn254} `{KC : !KeyCrates} `{MC : MockCrates}.
(** What a client gets from a method that panics *)
Context (lost : string).

(** A request, and its answer *)
Definition respond {T} (m : M Mock (result T string)) (s : Mock) : result T string * Mock :=
  match m s with Ret x => x | Panic _ => (Err lost, s) end.
Definition ask_query (method_name : option string) (request_type : string) : Mock -> result QueryResponseKind string * Mock :=
  respond (kind ← mock_query method_name request_type; mret (Ok kind)).

Lemma respond_now {T} (m : M Mock (result T string)) s :
  (forall x s', m s = Ret (x, s') -> m_now s' = m_now s) -> m_now (respond m s).2 = m_now s.
Proof. intros H. unfold respond. destruct (m s) as [[x s']|] eqn:E; [|done]. by apply (H x). Qed.

(** Accounts, keys and encodings are those of the client. *)
#[export] Instance mock_net : NearNet Mock.
Proof.
  refine {|
    parse_account_id := parse_account_id;
    keypair_public_key := keypair_public_key;
    sign_transaction := sign_transaction;
    signed_to_vec := signed_to_vec;
    signed_of_slice := signed_of_slice;
    view_access_key _ _ _ := ask_query None "view_access_key";
    call_function _ _ f _ := ask_query (Some f) "call_function";
    broadcast_tx_async _ tx s :=
      match signed_to_vec tx with
      | Some bs => respond (mock_broadcast_tx_async (to_base64 bs)) s
      | None => (Err "serialization"%string, s)
      end;
    tx_status _ _ _ s :=
      match mock_tx s with Ret x => x | Panic _ => (TxRpcError lost, s) end;
    now_ns := m_now;
    sleep_ns n s := mkMock (m_sys s) (m_seed s) (m_now s + n) (shutdown_channel s);
  |}.
  - apply signed_roundtrip.
  - intros u tx s. destruct (signed_to_vec tx) as [bs|]; [|done]. rewrite respond_now; [done|].
    intros x s'. unfold mock_broadcast_tx_async, mbind, M_bind, lift. by rewrite base64_roundtrip; intros [= _ <-].
  - done.
  - done.
Defined.

(** ** What clients get *)

Lemma mock_access_key url a k m :
  exists h m', view_access_key url a k m = (Ok (AccessKey 100288680000299 h), m') /\ m_now m' = m_now m.
Proof. by eexists _, _. Qed.
Lemma mock_broadcast url tx bs m : signed_to_vec tx = Some bs -> broadcast_tx_async url tx m = (Ok (get_hash tx), m).
Proof.
  intros Hb. cbn in *. rewrite Hb. unfold respond, mock_broadcast_tx_async, mbind, M_bind, lift.
  rewrite base64_roundtrip. cbn [unwrap]. by rewrite (signed_roundtrip _ _ Hb).
Qed.
Lemma mock_status url h a m : exists m', tx_status url h a m = (SuccessValue [x08], m') /\ m_now m' = m_now m.
Proof. by eexists. Qed.

Lemma net_bind_eq {A B} (m : net Mock A) (k : A -> net Mock B) w x w1 : m w = Ret (Ok x, w1) -> (m ≫= k) w = k x w1.
Proof. intros Hm. unfold mbind, net_bind. by rewrite Hm. Qed.

(** Clients whose transactions can be encoded *)
Context (encodes : forall tx, is_Some (signed_to_vec (NearNet := mock_net) tx)).

Lemma mock_send fuel url bs tx m :
  signed_of_slice bs = Some tx -> exists m', send_tx (S fuel) Near (ClientNear url) bs m = Ret (Ok [x08], m').
Proof.
  intros Htx. destruct (encodes tx) as [bs' Hbs].
  destruct (mock_status url (get_hash tx) (tx_signer_id (transaction tx)) m) as (m' & Hs & Hn). exists m'.
  unfold send_tx. cbn [adapter_send_tx NearChain]. unfold near_send_tx. erewrite net_bind_eq by reflexivity. unfold net_ok_or. rewrite Htx.
  do 2 erewrite net_bind_eq by reflexivity.
  rewrite (net_bind_eq _ _ _ (get_hash tx) m) by (unfold net_call; by rewrite (mock_broadcast _ _ _ _ Hbs)).
  cbn [await_tx]. rewrite Hs. unfold elapsed_secs. cbn [now_ns mock_net]. by rewrite Hn, Z.sub_diag.
Qed.

Lemma mock_construct signer keypair receiver url actions me rec m :
  length keypair = 64 -> parse_account_id (default (to_hex (drop 32 keypair)) signer) = Some me -> parse_account_id receiver = Some rec ->
  exists bs tx m', construct_tx true signer keypair receiver url actions m = Ret (Ok bs, m') /\ signed_of_slice bs = Some tx.
Proof.
  intros Hl Hme Hrec. destruct (mock_access_key url me (keypair_public_key keypair) m) as (h & m' & Hk & _).
  pose (tx := mkTransaction me (keypair_public_key keypair) (100288680000299 + 1) rec h actions).
  destruct (encodes (mkSigned tx (sign_transaction tx keypair))) as [bs Hbs]. exists bs, (mkSigned tx (sign_transaction tx keypair)), m'.
  split; [|by apply signed_roundtrip]. unfold construct_tx.
  rewrite (net_bind_eq _ _ _ (mkSigner me (keypair_public_key keypair) keypair) m).
  2: { unfold net_result, get_in_memory_signer. rewrite decide_True by done. destruct signer; cbn [default from_option id] in Hme; by rewrite Hme. }
  rewrite (net_bind_eq _ _ _ (100288680000299%Z, h) m').
  2: { unfold access_key. rewrite (net_bind_eq _ _ _ (AccessKey 100288680000299 h) m'); [done|].
    unfold net_call. cbn [account_id signer_public_key]. by rewrite Hk. }
  erewrite net_bind_eq by reflexivity. unfold net_ok_or. rewrite Hrec. erewrite net_bind_eq by reflexivity.
  cbn [account_id signer_public_key secret_key fst snd]. fold tx. by rewrite Hbs.
Qed.

(** Every call of a contract succeeds at once, with the same value: the server
    keeps no state. *)
Theorem mock_call_succeeds fuel contract_id f args deposit n cs m :
  let keypair := ed25519_keypair_bytes (keypair_ed25519 n) in
  length keypair = 64 -> is_Some (parse_account_id (to_hex (drop 32 keypair))) -> is_Some (parse_account_id contract_id) ->
  exists m', call_bytes true (S fuel) Near contract_id f args (Client_new Near cs) deposit n cs m = Ret (Ok [x08], m').
Proof.
  intros keypair Hl [me Hme] [rec Hrec].
  destruct (mock_construct None keypair contract_id (near_rpc_url (conf_near cs)) [FunctionCall f args (node_gas n) deposit] me rec m Hl Hme Hrec)
    as (bs & tx & m1 & Hc & Htx).
  destruct (mock_send fuel (near_rpc_url (conf_near cs)) bs tx m1 Htx) as [m' Hs]. exists m'.
  unfold call_bytes. by rewrite (net_bind_eq _ _ _ _ _ Hc).
Qed.

(** The commands of [seda] expect JSON, and report the value, which is none, as an
    error, although the call succeeded. *)
Theorem mock_command_fails {T} (decode : bytes -> option T) contract_id f args deposit n cs s m :
  let keypair := ed25519_keypair_bytes (keypair_ed25519 n) in
  decode [x08] = None ->
  length keypair = 64 -> is_Some (parse_account_id (to_hex (drop 32 keypair))) -> is_Some (parse_account_id contract_id) ->
  exists w', call true decode Near contract_id f deposit args n cs (s, m) = Ret (Err CliJson, w').
Proof.
  intros keypair Hd Hl [me Hme] [rec Hrec].
  destruct (mock_construct None keypair contract_id (near_rpc_url (conf_near cs)) [FunctionCall f (string_bytes args) (node_gas n) deposit] me rec m Hl Hme Hrec)
    as (bs & tx & m1 & Hc & Htx).
  destruct (mock_send 31 (near_rpc_url (conf_near cs)) bs tx m1 Htx) as [m' Hs]. exists (s, m').
  unfold call. unfold mbind at 1, command_bind at 1, on_chain at 1. cbn [snd fst construct_signed_tx adapter_signed_tx NearChain]. unfold near_construct_signed_tx. fold keypair.
  rewrite Hc. cbn [map_error]. unfold mbind, command_bind, on_chain. cbn [snd fst Client_new]. rewrite Hs. unfold map_error, try_option, try_result. by rewrite Hd.
Qed.

(** The views of a batch tick are not all served. *)
Lemma mock_no_config url contract_id args m : call_function url contract_id "get_config" args m = (Err lost, m).
Proof. done. Qed.

End network.

(** ** Random nodes *)

Section random_nodes.
Context `{BN : Bn254} `{KC : !KeyCrates} `{MC : MockCrates}.

Lemma sample_ok n m : exists s m', sample n m = Ret (s, m') /\ m_sys m' = m_sys m /\
  String.length s = n /\ Forall (fun c => alphanumeric c = true) (String.list_ascii_of_string s).
Proof.
  revert m. induction n as [|n IH]; intros m; [by exists EmptyString, m|]. cbn [sample]. unfold mbind, M_bind, draw_seed.
  pose proof (sample_alphanumeric_ok (m_seed m)) as Ha. destruct (sample_alphanumeric (m_seed m)) as [c sd]. cbn in Ha.
  destruct (IH (mkMock (m_sys m) sd (m_now m) (shutdown_channel m))) as (s & m' & -> & Hs & Hl & Hf).
  exists (String c s), m'. split; [done|]. split; [done|]. cbn. split; [by rewrite Hl|by constructor].
Qed.
Lemma draw_seed_in lo hi m : (lo < hi)%Z -> exists x m', draw_seed (gen_range lo hi) m = Ret (x, m') /\ (lo <= x < hi)%Z /\ m_sys m' = m_sys m.
Proof.
  intros Hlt. pose proof (gen_range_in lo hi (m_seed m) Hlt) as Hin. unfold draw_seed.
  destruct (gen_range lo hi (m_seed m)) as [x s]. by eexists x, _.
Qed.

(** A random node has seven letters or digits in its account, the address of a
    socket that is not unspecified, a balance that fits its type, and two keys of
    one master key; it is there whenever keys can be derived. *)
Theorem random_node_ok m bk ek pk :
  let key := mkMasterKey (os_rng (m_sys m) (taken (m_sys m))) in
  derive_bn254 key 0 = Ret (Ok bk) -> derive_ed25519 key 0 = Ret (Ok ek) -> pk_to_uncompressed (public_key bk) = Some pk ->
  exists node m' stem a b c d port, NodeInfo_random m = Ret (node, m') /\
    info_account_id node = (stem +:+ ".testnet")%string /\ String.length stem = 7 /\
    Forall (fun c => alphanumeric c = true) (String.list_ascii_of_string stem) /\
    info_multi_addr node = (pretty a +:+ "." +:+ pretty b +:+ "." +:+ pretty c +:+ "." +:+ pretty d +:+ ":" +:+ pretty port)%string /\
    Forall (fun x => 1 <= x < 255)%Z [a; b; c; d] /\ (1 <= port < 65535)%Z /\ (0 <= info_balance node < 2 ^ 128 - 1)%Z /\
    info_bn254_public_key node = pk /\ info_ed25519_public_key node = ed25519_public_bytes (public_key ek).
Proof.
  intros key Hb He Hp. unfold NodeInfo_random, mbind, M_bind.
  destruct (sample_ok 7 m) as (stem & m0 & -> & Hm0 & Hl & Hf). unfold random_master_key, random. rewrite Hm0. fold key.
  destruct (draw_seed_in 1 255 (mkMock (take_seed (m_sys m)) (m_seed m0) (m_now m0) (shutdown_channel m0))) as (a & m1 & -> & Ha & _); [lia|].
  destruct (draw_seed_in 1 255 m1) as (b & m2 & -> & Hb' & _); [lia|].
  destruct (draw_seed_in 1 255 m2) as (c & m3 & -> & Hc & _); [lia|].
  destruct (draw_seed_in 1 255 m3) as (d & m4 & -> & Hd & _); [lia|].
  destruct (draw_seed_in 1 65535 m4) as (port & m5 & -> & Hport & _); [lia|].
  destruct (draw_seed_in 0 (2 ^ 128 - 1) m5) as (bal & m6 & -> & Hbal & _); [lia|].
  unfold unwrap_key, lift, mbind, M_bind. rewrite Hb, He. cbn [mret M_ret]. rewrite Hp. cbn [unwrap].
  eexists _, m6, stem, a, b, c, d, port. split; [reflexivity|]. cbn.
  do 4 (split; [done|]). split; [by rewrite !Forall_cons|done].
Qed.

End random_nodes.

(** ** Stopping the server *)

(** One request stops it; a second one that was received before the channel is
    closed makes the tool report an error. *)
Lemma start_loop_stops l : start_loop (replicate l false ++ [true]) RpcRunning = (Ok tt, RpcStopped).
Proof. by induction l. Qed.
Lemma start_loop_twice l : exists e, start_loop (true :: true :: l) RpcRunning = (Err e, RpcStopped).
Proof. by eexists. Qed.

(** *** The tool *)

Inductive DebugRpc := DebugStart | DebugStop.
Inductive DebugMode := TestRpc (addr : string) (rpc : DebugRpc).

(** What the process that runs the server sees: a message on the channel, which is
    closed in the end, or Ctrl-C, for which a task of its own stops the server *)
Inductive StartEvent := Received (shutdown : bool) | CtrlC.
Fixpoint start_events (l : list StartEvent) (handle : Rpc) : result unit string * Rpc :=
  match l with
  | [] => (Ok tt, handle)
  | Received true :: l =>
      match rpc_stop handle with (Ok _, handle) => start_events l handle | (Err e, handle) => (Err e, handle) end
  | Received false :: l => start_events l handle
  | CtrlC :: l => start_events l (rpc_stop handle).2
  end.

Lemma start_events_loop l h : start_events (Received <$> l) h = start_loop l h.
Proof. revert h. induction l as [|[] l IH]; intros h; cbn; [done| |apply IH]. destruct (rpc_stop h) as [[] ?]; [apply IH|done]. Qed.
Lemma ctrl_c_stops l : start_events ((fun _ => CtrlC) <$> (0 :: l)) RpcRunning = (Ok tt, RpcStopped).
Proof. cbn. by induction l. Qed.

(** The sockets: a server is bound to its address and started, a client is built
    for a URL and makes a request, which a method of the server answers *)
Class DebugNet (M : Type) := {
  bind_server : string -> result unit string;
  build_client : string -> result unit string;
  debug_request : string -> string -> M -> result unit string * M;
}.

Section tool.
Context `{BN : Bn254} `{KC : !KeyCrates} `{MC : MockCrates} `{DN : !DebugNet Mock}.

Definition Start_handle (addr : string) (events : list StartEvent) (m : Mock) : result unit string * Mock :=
  match bind_server addr with
  | Err e => (Err e, m)
  | Ok _ => ((start_events events RpcRunning).1, m)
  end.
Definition Stop_handle (addr : string) (m : Mock) : result unit string * Mock :=
  match build_client ("http://" +:+ addr) with
  | Err e => (Err e, m)
  | Ok _ => debug_request ("http://" +:+ addr) "stop_server" m
  end.
Definition DebugRpc_handle (rpc : DebugRpc) (addr : string) (events : list StartEvent) : Mock -> result unit string * Mock :=
  match rpc with
  | DebugStart => Start_handle addr events
  | DebugStop => Stop_handle addr
  end.
Definition DebugMode_handle (mode : DebugMode) (events : list StartEvent) : Mock -> result unit string * Mock :=
  match mode with TestRpc addr rpc => DebugRpc_handle rpc addr events end.

(** The command that stops the server makes the one that started it end well,
    provided that the address is the server's and no other request came before. *)
Lemma stop_ends_start addr m m' :
  is_Some (match bind_server addr with Ok _ => Some tt | Err _ => None end) -> shutdown_channel m = [] ->
  (forall m, debug_request ("http://" +:+ addr) "stop_server" m =
     match stop_server m with Ret (_, m') => (Ok tt, m') | Panic e => (Err e, m) end) ->
  DebugMode_handle (TestRpc addr DebugStop) [] m = (Ok tt, m') ->
  DebugMode_handle (TestRpc addr DebugStart) (Received <$> shutdown_channel m') m' = (Ok tt, m').
Proof.
  intros [? Hb] Hm Hreq. cbn [DebugMode_handle DebugRpc_handle]. unfold Stop_handle, Start_handle.
  destruct (build_client _); [|done]. rewrite Hreq. intros [= <-]. cbn. rewrite Hm.
  by destruct (bind_server addr).
Qed.

End tool.

(** The laws hold of a generator that counts, and of hexadecimal text. *)
Module RefMock.
Import RefSystem RefNet.
Definition ref_crates : MockCrates.
Proof.
  refine {| Seed := nat; gen_range lo hi s := (lo, S s); sample_alphanumeric s := ("a"%char, S s);
    hash_bytes bs := bs; get_hash tx := tx_signature tx;
    to_base64 := String.string_of_list_byte; from_base64 s := Some (String.list_byte_of_string s);
    node_to_json n := string_bytes (info_account_id n); nodes_to_json _ := []; bytes_to_json bs := bs |}; [cbn; lia|done|].
  intros bs. by rewrite String.list_byte_of_string_of_list_byte.
Defined.
End RefMock.
