(* ===== verification/RpcServer.v ===== *)
(** * The RPC server of the node, and its client

    Models the interface of [src/node/src/rpc.rs]: the methods of the server by
    their names, on a node with its worker ([Execution]), its channel to the P2P
    server ([NodeHost]) and the peers that the two share ([P2PServer]).  The node
    is an instance of the client's interface of [CliMain], so that the theorems
    follow the commands [seda node peers] and [seda node bridge] into the node.

    The JSON of the answers is a parameter. *)

From S2P Require Import Prelude NearSdk Sdk Runtime Crypto Config PeerList Discovery P2PServer Chains Node NodeHost Execution Cli CliMain.

Class RpcJson := {
  texts_json : list string -> string;
  peers_json : gmap string string -> string;
}.

(** What the methods of the server share: the worker's world, and the peers *)
Record NodeProcess `{Libp2p} (N : Type) := mkNodeProcess { np_vm : VmWorld (NodeWorld N); np_peers : DiscoveryStatus }.
Arguments mkNodeProcess {_ N}. Arguments np_vm {_ N}. Arguments np_peers {_ N}.

Section server.
Context {N : Type} `{NN : NearNet N} `{HC : !HttpClient N} `{SQ : Sqlite} `{BN : Bn254} `{KC : !KeyCrates}.
Context `{LP : Libp2p} `{RJ : RpcJson}.
Context (ov : bool) (conf : NodeConfig) (chains : ChainConfigs) (P : EngineParams (NodeWorld N)).
#[local] Instance rpc_host : HostAdapter (NodeWorld N) := runtime_adapter ov conf chains.

(** [CliServer]; the calls of a job are bounded by [fuel] *)
Context (fuel : nat) (runtime_worker : RuntimeWorker P).

Definition null_json : string := "null".
(** A worker that panics does not answer. *)
Definition method_cli (args : list string) (p : NodeProcess N) : result string string * NodeProcess N :=
  match handle_runtime_job P fuel runtime_worker (cli_event args) (np_vm p) with
  | Ret (res, w) => (Ok (texts_json (vm_stderr res)), mkNodeProcess w (np_peers p))
  | Panic _ => (Err "Mailbox has closed"%string, p)
  end.
Definition on_node_world (f : NodeWorld N -> result unit string * NodeWorld N) (p : NodeProcess N) : result string string * NodeProcess N :=
  let w := np_vm p in
  let '(r, h) := f (vm_host w) in
  (match r with Ok _ => Ok null_json | Err e => Err e end,
   mkNodeProcess (mkVmWorld (vm_shared w) (vm_private w) h) (np_peers p)).

(** [trait Rpc] *)
Definition rpc_method (name : string) (params : list RpcParam) : NodeProcess N -> result string string * NodeProcess N := fun p =>
  if decide (name = "cli"%string) then
    match params with [ParamTexts args] => method_cli args p | _ => (Err "Invalid params"%string, p) end
  else if decide (name = "add_peer"%string) then
    match params with [ParamText a] => on_node_world (rpc_add_peer a) p | _ => (Err "Invalid params"%string, p) end
  else if decide (name = "list_peers"%string) then (Ok (peers_json (rpc_list_peers (np_peers p))), p)
  else if decide (name = "remove_peer"%string) then
    match params with [ParamText a] => on_node_world (rpc_remove_peer a) p | _ => (Err "Invalid params"%string, p) end
  else if decide (name = "discover_peers"%string) then on_node_world rpc_discover_peers p
  else (Err "Method not found"%string, p).

(** The client reaches the server at its address. *)
#[export] Instance node_client (server_url : string) : RpcClient (NodeProcess N) := {|
  ws_request url m ps p := if decide (url = ("ws://" +:+ server_url)%string) then rpc_method m ps p else (Err "connection refused"%string, p);
|}.

Definition sent_command (c : P2PCommand) (p : NodeProcess N) : NodeProcess N :=
  let w := np_vm p in let h := vm_host w in
  mkNodeProcess (mkVmWorld (vm_shared w) (vm_private w)
    (mkNodeWorld (w_node h) (w_rows h) (w_net h) (w_commands h ++ [c]) (w_p2p_alive h))) (np_peers p).

Lemma sent_eq c p : w_p2p_alive (vm_host (np_vm p)) = true -> on_node_world (rpc_send c) p = (Ok null_json, sent_command c p).
Proof. intros Ha. unfold on_node_world, rpc_send, p2p_send, p2p_channel, sent_command. by rewrite Ha. Qed.
Lemma failed_eq e p : on_node_world (fun w => (Err e, w)) p = (Err e, p).
Proof. unfold on_node_world. by destruct p as [[]]. Qed.

(** The commands about peers, from the command line to the P2P server, when the
    node runs at the configured address.  A peer is added or removed by exactly
    one command to the server, if the address or the id can be parsed; the server
    then acts on it.  Otherwise the command fails, and the node is not touched.
    The list is that of the connected peers. *)
Theorem peers_commands_correct config c sys p :
  w_p2p_alive (vm_host (np_vm p)) = true ->
  let run := Peers_handle (RC := node_client (seda_server_url config)) c config (sys, p) in
  let accepted cmd := run = Ret (Ok (Printed (peers_text c null_json)), (sys, sent_command cmd p)) in
  let refused := exists e, run = Ret (Err (JsonRpcClient e), (sys, p)) in
  match c with
  | PeersAdd a =>
      match multiaddr_from_str a with
      | Some addr => accepted (AddPeer a) /\ forall o d, loop_step o (P2PServer.Command (AddPeer a)) d = after_search o (add_manual_peer addr None d) [] []
      | None => refused
      end
  | PeersRemove a =>
      match peer_id_from_str a with
      | Some id => accepted (RemovePeer a) /\
          forall o d, loop_step o (P2PServer.Command (RemovePeer a)) d = after_search o (remove_connected_peer (Some id) None d) [DisconnectPeer id] []
      | None => refused
      end
  | PeersDiscover => accepted DiscoverPeers
  | PeersList => run = Ret (Ok (Printed (peers_json (get_json (connected_peers (np_peers p))))), (sys, p))
  end.
Proof.
  intros Ha run accepted refused. subst run accepted refused.
  assert (forall m ps, rpc (RC := node_client (seda_server_url config)) config m ps (sys, p) =
    match rpc_method m ps p with (Ok r, p') => Ret (Ok r, (sys, p')) | (Err e, p') => Ret (Err (JsonRpcClient e), (sys, p')) end) as Hrpc.
  { intros m ps. unfold rpc. cbn [ws_request node_client fst snd]. by rewrite decide_True by done. }
  destruct c as [a| |a|]; unfold Peers_handle, mbind, command_bind; rewrite Hrpc; unfold rpc_method; cbn -[on_node_world].
  - unfold rpc_add_peer. destruct (multiaddr_from_str a) as [addr|] eqn:E.
    + rewrite sent_eq by done. done.
    + rewrite failed_eq. by eexists.
  - done.
  - unfold rpc_remove_peer. destruct (peer_id_from_str a) as [id|] eqn:E.
    + rewrite sent_eq by done. done.
    + rewrite failed_eq. by eexists.
  - unfold rpc_discover_peers. by rewrite sent_eq.
Qed.

(** The command [seda node bridge] runs exactly one job at the node, that of its
    arguments, and prints what the job wrote to its standard error. *)
Lemma bridge_command_runs_job config chain id f deposit args sys p res w :
  handle_runtime_job P fuel runtime_worker (cli_event (bridge_request chain id f deposit args)) (np_vm p) = Ret (res, w) ->
  NodeBridge_handle (RC := node_client (seda_server_url config)) chain id f deposit args config (sys, p) =
    Ret (Ok (Printed (texts_json (vm_stderr res))), (sys, mkNodeProcess w (np_peers p))).
Proof.
  intros Hj. unfold NodeBridge_handle, mbind, command_bind, rpc. cbn [ws_request node_client fst snd].
  rewrite decide_True by done. unfold rpc_method. cbn -[bridge_request handle_runtime_job]. unfold method_cli. by rewrite Hj.
Qed.

End server.
