(* ===== verification/Jobs.v ===== *)
(** * The jobs of the node

    The consensus program ([Consensus]) on the runtime of a worker
    ([Execution]): what a tick of the batch chain, a message of another node and
    a call of the bridge do to the node, from the event to the promises that the
    host has answered.

    The command line of the program ([src/wasm/consensus/src/main.rs]) is parsed
    by the [clap] crate, which is a parameter. *)

From Stdlib Require Import Ascii.
From stdpp Require Import pretty.
From S2P Require Import Prelude NearSdk Contract NodeRegistry Batch Sdk Runtime Imports Crypto Guest Node.
From S2P Require Import Config PeerList Discovery P2PServer Consensus ConsensusTheorems NodeTheorems Execution Cli.

(** ** The program *)

(** [Options::parse()], with the name of the program first: the subcommands are
    named like the tasks, and take their arguments in order; an argument is any
    text that does not look like a flag *)
Definition plain_argument (text : string) : bool :=
  match text with EmptyString => false | String c _ => bool_decide (c <> "-"%char) end.
Class TaskParser := {
  parse_options : list string -> option Task;
  parse_batch name : parse_options [name; "batch"%string] = Some TBatch;
  parse_p2p name text : plain_argument text = true -> parse_options [name; "p2p"%string; text] = Some (TP2P text);
  parse_bridge name chain id f deposit args : in_int false 16 deposit ->
    plain_argument id = true -> plain_argument f = true -> plain_argument args = true ->
    parse_options [name; "bridge"%string; Chain_to_string chain; id; f; pretty deposit; args] = Some (TBridge (mkBridge chain id f (mkInt deposit) args));
}.

Section program.
Context `{BN : Bn254} `{KC : !KeyCrates} `{CJ : ConsensusJson} `{TP : TaskParser}.
(** The overflow checks of the build *)
Context (ov : bool).

Definition consensus_main (args : list string) : M Process unit :=
  match parse_options args with
  | Some task => in_guest (Task_handle task)
  | None => panic "usage"
  end.

Definition consensus_program : Program := mkProgram (fun name =>
  if decide (name = "_start"%string) then Some consensus_main
  else if decide (name = "batch_step_1"%string) then Some (fun _ => in_guest (batch_step_1 ov))
  else if decide (name = "bridge_step_1"%string) then Some (fun _ => in_guest bridge_step_1)
  else if decide (name = "bridge_step_2"%string) then Some (fun _ => in_guest bridge_step_2)
  else None).

End program.

Section jobs.
Context `{BN : Bn254} `{KC : !KeyCrates} `{CJ : ConsensusJson} `{TP : TaskParser}.
Context {H : Type} `{HA : HostAdapter H} `{PC : P2PChannel H} (P : EngineParams H).
Context (ov : bool) (keys : NodeKeys) (path : string).

(** The worker, once it has started with the consensus program *)
Definition consensus_runtime : Runtime (WE := program_engine P) :=
  mkRuntime (WE := program_engine P) (Some (consensus_program ov)) false keys.
Definition consensus_worker : RuntimeWorker P := mkWorker P (Some consensus_runtime) keys path.

Lemma worker_started_eq files binary :
  files !! path = Some binary -> compile P binary = Some (consensus_program ov) ->
  worker_started P files (mkWorker P None keys path) = Ret consensus_worker.
Proof. intros Hf Hc. unfold worker_started. cbn [consensus_wasm_path]. rewrite Hf. cbn [unwrap mbind outcome_bind].
  unfold init. cbn [module_new program_engine]. by rewrite Hc. Qed.

Lemma in_guest_eq {A} (m : M Guest A) p x g :
  m (proc_guest p) = Ret (x, g) -> in_guest m p = Ret (x, mkProcess g (proc_result p)).
Proof. unfold in_guest. by intros ->. Qed.

(** ** A tick of the batch chain *)

Context (bn : bytes).
Abbreviation env := (guest_env P consensus_runtime bn).

(** The guest's memory once the batch task has stored the node's keys *)
Definition keys_stored (sh : gmap string bytes) : gmap string bytes :=
  <["bn254_public_key"%string := bn]> (<["ed25519_public_key"%string := keypair_ed25519_public keys]>
    (<["contract_id"%string := string_bytes (contract_account_id keys)]> sh)).

Definition view_promise (f : string) : Promise := promised (guest_chain_view Near (contract_account_id keys) f []).
Definition batch_views : list Promise :=
  [view_promise "compute_merkle_root"; view_promise "get_config"; view_promise "get_last_generated_random_number"].

Lemma env_lookups :
  list_to_map (M := gmap string string) env !! "ORACLE_CONTRACT_ID"%string = Some (contract_account_id keys) /\
  list_to_map (M := gmap string string) env !! "ED25519_PUBLIC_KEY"%string = Some (to_hex (keypair_ed25519_public keys)) /\
  list_to_map (M := gmap string string) env !! "BN254_PUBLIC_KEY"%string = Some (to_hex bn).
Proof. done. Qed.

Lemma batch_handle_eq q w :
  Batch_handle (proc_guest (process_at P env q w)) =
    Ret (tt, mkGuest (keys_stored (vm_shared w)) (vm_private w) (status <$> queue q)
               (batch_views ++ [call_promise "batch_step_1" [] Unfulfilled]) (signing_key P) (list_to_map env)).
Proof.
  destruct env_lookups as (E1 & E2 & E3).
  unfold Batch_handle, get_oracle_contract_id, get_local_ed25519_public_key, get_local_bn254_public_key, env_var.
  cbn [process_at proc_guest]. unfold gets, modify, lift, mbind, M_bind, shared_memory_set, enqueue, id, modify, mret, M_ret.
  cbn [g_env g_shared g_private g_results g_queue g_key].
  rewrite E1. cbn [unwrap g_env g_shared]. rewrite E2. cbn [unwrap]. rewrite of_to_hex. cbn [unwrap g_env]. rewrite E3.
  cbn [unwrap]. rewrite of_to_hex. reflexivity.
Qed.

(** The contract answers the three views one after the other *)
Definition views_answered (h : H) (b0 b1 b2 : bytes) (h3 : H) : Prop :=
  exists h1 h2,
    chain_view Near (contract_account_id keys) "compute_merkle_root" [] h = (Ok b0, h1) /\
    chain_view Near (contract_account_id keys) "get_config" [] h1 = (Ok b1, h2) /\
    chain_view Near (contract_account_id keys) "get_last_generated_random_number" [] h2 = (Ok b2, h3).

(** What a tick needs to go through: WASI accepts the arguments, the node's keys
    are keys, the store in the shared memory can be read, the contract answers,
    and the P2P server takes a message *)
Record tick_ready (w : VmWorld H) (h3 : H) (i : BatchInputs) (conf : MainChainConfig) (random : Z) : Prop := {
  tr_wasi : wasi_ok P "_start" env ["batch"%string] = true /\ wasi_ok P "batch_step_1" env [] = true;
  tr_keys : keypair_bn254_public keys = Some bn /\ is_key bn /\ can_sign (signing_key P) /\
    valid_string (contract_account_id keys) = true;
  tr_inputs : in_contract_id i = contract_account_id keys /\ in_bn254 i = bn /\
    in_ed25519 i = keypair_ed25519_public keys /\ current_store (vm_shared w) = Some (in_store i);
  tr_views : exists b0 b1 b2 t, views_answered (vm_host w) b0 b1 b2 h3 /\
    merkle_root_of_json b0 = Ok (in_batch i) /\ main_config_of_json b1 = Ok conf /\
    string_of_json b2 = Ok t /\ u256_from_dec_str t = Some random;
  tr_p2p : forall d, is_Some (p2p_send (Broadcast d) h3);
}.

Lemma keys_stored_store sh : current_store (keys_stored sh) = current_store sh.
Proof. unfold current_store, keys_stored. by rewrite !lookup_insert_ne. Qed.

(** The views are answered, and the second step finds what it needs. *)
Lemma views_eq w h3 b0 b1 b2 :
  views_answered (vm_host w) b0 b1 b2 h3 ->
  answers (WE := program_engine P) consensus_runtime (action <$> batch_views) w =
    Some ([Fulfilled (Some b0); Fulfilled (Some b1); Fulfilled (Some b2)], mkVmWorld (vm_shared w) (vm_private w) h3).
Proof.
  intros (h1 & h2 & E1 & E2 & E3). cbn. unfold answer_with, on_host. cbn. by rewrite E1; cbn; rewrite E2; cbn; rewrite E3.
Qed.

Lemma step_inputs_ready w h3 i conf random :
  tick_ready w h3 i conf random ->
  exists b0 b1 b2, views_answered (vm_host w) b0 b1 b2 h3 /\
    step_ready (mkGuest (keys_stored (vm_shared w)) ∅ [Fulfilled (Some b0); Fulfilled (Some b1); Fulfilled (Some b2); Pending]
      [] (signing_key P) (list_to_map env)) i conf random.
Proof.
  intros [_ (Hbn & Hk & Hs & Hv) (E1 & E2 & E3 & E4) (b0 & b1 & b2 & t & Hviews & Hj & Hc & Ht & Hr) _].
  exists b0, b1, b2. split; [done|]. split; cbn [g_shared g_results g_key]; rewrite ?E1, ?E2, ?E3.
  - split; [done|]. unfold keys_stored. do 2 rewrite lookup_insert_ne by done. apply lookup_insert_eq.
  - split; [apply lookup_insert_eq|done].
  - unfold keys_stored. rewrite lookup_insert_ne by done. apply lookup_insert_eq.
  - by rewrite keys_stored_store.
  - done.
  - by exists b0.
  - by exists b1.
  - by exists b2, t.
Qed.

(** Promises to the host leave the guest's memories alone. *)
Lemma answer_memory r act w s w' :
  answer (WE := program_engine P) r act w = Some (s, w') -> vm_shared w' = vm_shared w /\ vm_private w' = vm_private w.
Proof.
  unfold answer, answer_with. destruct (limited r && is_limited_action act); [by intros [= <- <-]|].
  destruct act; try done; cbn [db_set db_get http_fetch chain_view chain_call trigger_event vm_host_adapter]; unfold on_host.
  - destruct (from_bytes (set_value a)) as [[v|e]|]; [|by intros [= <- <-]|done]. destruct (db_set _ _ _). by intros [= <- <-].
  - destruct (db_get _ _). by intros [= <- <-].
  - destruct (http_fetch _ _). by intros [= <- <-].
  - destruct (chain_view _ _ _ _ _). by intros [= <- <-].
  - destruct (chain_call _ _ _ _ _ _ _). by intros [= <- <-].
  - destruct (trigger_event _ _). by intros [= <- <-].
  - unfold p2p_send at 1, vm_p2p_channel. destruct (p2p_send _ (vm_host w)); [|done]. by intros [= <- <-].
Qed.
Lemma answers_memory r acts w ss w' :
  answers (WE := program_engine P) r acts w = Some (ss, w') -> vm_shared w' = vm_shared w /\ vm_private w' = vm_private w.
Proof.
  revert w ss. induction acts as [|a acts IH]; cbn; intros w ss; [by intros [= <- <-]|].
  destruct (answer r a w) as [[s w1]|] eqn:E1; [|done]. destruct (answers r acts w1) as [[ss1 w2]|] eqn:E2; [|done].
  cbn. intros [= <- <-]. apply answer_memory in E1 as [<- <-]. by eapply IH.
Qed.

Abbreviation runs := (runs P consensus_runtime (consensus_program ov) bn).

(** The job for an event is the run of the program with the event's arguments. *)
Lemma job_runs n event args w e w' l :
  keypair_bn254_public keys = Some bn -> job_args event = Ret args ->
  runs n None [call_promise "_start" args Unfulfilled] (mkVmWorld (vm_shared w) ∅ (vm_host w)) e w' l ->
  exists res, handle_runtime_job P n consensus_worker event w = Ret (res, w') /\ exit_info res = ExitInfo_of_result e.
Proof.
  intros Hbn Hargs Hruns. unfold handle_runtime_job, job_config. rewrite Hargs.
  destruct (start_runtime_runs P consensus_runtime (consensus_program ov) bn n (mkVmConfig "test" None args false)
    (mkVmWorld (vm_shared w) ∅ (vm_host w)) e w' l Hbn eq_refl Hruns) as (res & Hres & Hx & _).
  exists res. split; [exact Hres|exact Hx].
Qed.

Lemma broadcast_answer d sh pm h h' :
  p2p_send (Broadcast d) h = Some h' ->
  answer (WE := program_engine P) consensus_runtime (action (promised (p2p_broadcast_message d))) (mkVmWorld sh pm h) =
    Some (Pending, mkVmWorld sh pm h').
Proof. intros Hd. cbn. unfold vm_p2p_channel, p2p_send in *. cbn. by rewrite Hd. Qed.

Lemma effects_answered broadcast submitted sh h3 :
  (forall d, is_Some (p2p_send (Broadcast d) h3)) -> length broadcast <= 1 ->
  (submitted = [] \/ exists cid s ls d, submitted = [submission cid s ls d]) ->
  is_Some (answers (WE := program_engine P) consensus_runtime
    (action <$> (promised ∘ p2p_broadcast_message <$> broadcast) ++ submitted) (mkVmWorld sh ∅ h3)).
Proof.
  intros Hp Hb Hs.
  assert (forall h, is_Some (answers (WE := program_engine P) consensus_runtime (action <$> submitted) (mkVmWorld sh ∅ h))) as Hsub.
  { intros h. destruct Hs as [->|(cid & s & ls & d & ->)]; [by eexists|]. cbn. unfold answer_with, on_host.
    destruct (chain_call _ _ _ _ _ _ _). by eexists. }
  destruct broadcast as [|d [|]]; [apply Hsub| |cbn in Hb; lia].
  destruct (Hp d) as [h4 Hd]. destruct (Hsub h4) as [[ss w'] Hw]. exists (Pending :: ss, w').
  change (action <$> (promised ∘ p2p_broadcast_message <$> [d]) ++ submitted)
    with (action (promised (p2p_broadcast_message d)) :: (action <$> submitted)).
  cbn [answers]. rewrite (broadcast_answer d sh ∅ h3 h4 Hd), Hw. done.
Qed.

(** What the second step asks of the host, when it has what it needs *)
Lemma batch_step_1_private g g' : batch_step_1 ov g = Ret (tt, g') -> g_private g' = g_private g.
Proof.
  unfold batch_step_1. intros Hr. inv_run.
  match goal with Hb : batch_processed _ = _ |- _ => apply batch_processed_ret in Hb as [_ Hcase] end.
  apply batch_lead_ret in Hr as (submitted & -> & _). by destruct Hcase.
Qed.

Lemma batch_step_1_asks g g' i conf random :
  step_ready g i conf random -> g_queue g = [] -> batch_step_1 ov g = Ret (tt, g') ->
  exists broadcast submitted,
    g_queue g' = (promised ∘ p2p_broadcast_message <$> broadcast) ++ submitted /\ length broadcast <= 1 /\
    (merkle_root (in_batch i) = batch_header (in_store i) ->
      current_store (g_shared g') = Some (led_store i) /\
      broadcast = if decide (current_slot (in_batch i) = slot (in_store i)) then [] else [p2p_message (in_store i)]) /\
    (merkle_root (in_batch i) <> batch_header (in_store i) -> exists sg s,
      ecdsa_sign (merkle_root (in_batch i)) (g_key g) = Some sg /\
      new_batch_store (in_batch i) (in_ed25519 i) (in_bn254 i) sg = Ret s /\
      current_store (g_shared g') = Some s /\ broadcast = [p2p_message s]) /\
    (submitted <> [] <-> is_slot_leader i = true /\ mc_committee_size conf = Z.of_nat (size (signatures (in_store i)))) /\
    (submitted = [] \/ exists lsg ls, ecdsa_sign (le_bytes 32 random) (g_key g) = Some lsg /\ sig_to_uncompressed lsg = Some ls /\
      submitted = [submission (in_contract_id i) (led_store i) ls (10 ^ 24)]).
Proof.
  intros Hready Hq0 Hg.
  destruct (batch_step_1_correct ov _ _ Hg) as (i' & broadcast & submitted & Hi & Hq & Hknown & Hnew & Hno & Hyes).
  rewrite (batch_inputs_eq _ _ _ _ Hready) in Hi. injection Hi as <-. rewrite Hq0 in Hq.
  exists broadcast, submitted. split; [done|]. split.
  { destruct (decide (merkle_root (in_batch i) = batch_header (in_store i))) as [He|He].
    - destruct (Hknown He) as [_ ->]. case_decide; cbn; lia.
    - destruct (Hnew He) as (? & ? & _ & _ & _ & ->). cbn. lia. }
  do 2 (split; [done|]). destruct (is_slot_leader i); [|rewrite Hno by done; split; [naive_solver|by left]].
  destruct (Hyes eq_refl) as (conf' & cb & H1 & H2 & Hd). destruct (ready_config _ _ _ _ Hready) as (cb' & H1' & H2').
  assert (conf' = conf) as -> by congruence. case_decide; [|subst; split; [naive_solver|by left]].
  destruct Hd as (ls & d & (rb & t & r & lsg & Hr1 & Hr2 & Hr3 & Hlsg & Hls) & Hy & ->). rewrite to_yocto_one in Hy. injection Hy as <-.
  destruct (ready_random _ _ _ _ Hready) as (rb' & t' & Hr1' & Hr2' & Hr3'). assert (r = random) as -> by congruence.
  split; [naive_solver|right]. by exists lsg, ls.
Qed.

(** The run of a tick, with what it asks of the host *)
Lemma batch_tick_runs w h3 i conf random :
  tick_ready w h3 i conf random ->
  exists res w' broadcast submitted ss,
    handle_runtime_job P 4 consensus_worker batch_tick_event w = Ret (res, w') /\ exit_code (exit_info res) = 0%Z /\
    answers (WE := program_engine P) consensus_runtime
      (action <$> (promised ∘ p2p_broadcast_message <$> broadcast) ++ submitted) (mkVmWorld (vm_shared w') ∅ h3) = Some (ss, w') /\
    (merkle_root (in_batch i) = batch_header (in_store i) ->
      current_store (vm_shared w') = Some (led_store i) /\
      broadcast = if decide (current_slot (in_batch i) = slot (in_store i)) then [] else [p2p_message (in_store i)]) /\
    (merkle_root (in_batch i) <> batch_header (in_store i) -> exists sg s,
      ecdsa_sign (merkle_root (in_batch i)) (signing_key P) = Some sg /\
      new_batch_store (in_batch i) (in_ed25519 i) bn sg = Ret s /\
      current_store (vm_shared w') = Some s /\ broadcast = [p2p_message s]) /\
    (submitted <> [] <-> is_slot_leader i = true /\ mc_committee_size conf = Z.of_nat (size (signatures (in_store i)))) /\
    (submitted = [] \/ exists lsg ls, ecdsa_sign (le_bytes 32 random) (signing_key P) = Some lsg /\ sig_to_uncompressed lsg = Some ls /\
      submitted = [submission (contract_account_id keys) (led_store i) ls (10 ^ 24)]).
Proof.
  intros Hr. destruct (step_inputs_ready _ _ _ _ _ Hr) as (b0 & b1 & b2 & Hviews & Hready).
  destruct (batch_step_1_returns ov _ _ _ _ Hready) as [g' Hg]. pose proof (batch_step_1_private _ _ Hg) as Hpriv.
  destruct (batch_step_1_asks _ _ _ _ _ Hready eq_refl Hg) as (broadcast & submitted & Hq & Hb & Hknown & Hnew & Hiff & Hshape).
  destruct Hr as [[Hw1 Hw2] (Hbn & _) (E1 & E2 & E3 & E4) _ Hp2p]. rewrite E1 in Hshape. rewrite E2 in Hnew.
  destruct (effects_answered broadcast submitted (g_shared g') h3 Hp2p Hb) as [[ss w'] Ha].
  { destruct Hshape as [->|(lsg & ls & _ & _ & ->)]; [by left|right]. by eexists _, _, _, _. }
  assert (vm_shared w' = g_shared g') as Hsh by (by apply answers_memory in Ha as [-> _]).
  destruct (job_runs 4 batch_tick_event ["batch"%string] w (Ok EmptyQueue) w'
    (if decide (g_queue g' = []) then Some (Fulfilled (Some [])) else last ss) Hbn eq_refl) as (res & Hres & Hcode).
  - apply (runs_call _ _ _ _ 3 None [] "_start" ["batch"%string] consensus_main _ [] (mkVmWorld (vm_shared w) ∅ (vm_host w)) tt
      (mkProcess (mkGuest (keys_stored (vm_shared w)) ∅ [Pending]
        (batch_views ++ [call_promise "batch_step_1" [] Unfulfilled]) (signing_key P) (list_to_map env)) [])); [done..| |].
    { unfold consensus_main. rewrite parse_batch. apply (in_guest_eq _ (process_at _ _ _ _)), batch_handle_eq. }
    apply (runs_call _ _ _ _ 2 _ batch_views "batch_step_1" [] (fun _ => in_guest (batch_step_1 ov)) _
      [Fulfilled (Some b0); Fulfilled (Some b1); Fulfilled (Some b2)] (mkVmWorld (keys_stored (vm_shared w)) ∅ h3) tt (mkProcess g' []));
      [done|done|by apply views_eq|by apply (in_guest_eq _ (process_at _ _ _ _))|].
    apply (runs_hosts _ _ _ _ 0 _ (g_queue g') _ ss). unfold returned. cbn [proc_guest vm_host]. rewrite Hq, Hpriv. exact Ha.
  - exists res, w', broadcast, submitted, ss. rewrite Hsh, Hcode.
    by refine (conj Hres (conj eq_refl (conj Ha (conj Hknown (conj Hnew (conj Hiff Hshape)))))).
Qed.

(** C9: A tick of the batch chain, from the event to its effects.  When the
    contract answers the node's views, the job ends with exit code 0, and the
    host has been asked for exactly this, after the views.  For the root that
    the store is at, nothing is broadcast within the slot, and the stored message
    again in another one; for a new root the node signs it, starts a new store
    with its signature in the shared memory, and broadcasts it.  Only the slot
    leader submits, exactly if the store that the tick found has as many
    signatures as the committee has members; it submits the aggregates of that
    store, with its signature of the last random number and a deposit of one
    NEAR. *)
Theorem batch_tick_correct w h3 i conf random :
  tick_ready w h3 i conf random ->
  exists res w' broadcast submitted ss,
    handle_runtime_job P 4 consensus_worker batch_tick_event w = Ret (res, w') /\ exit_code (exit_info res) = 0%Z /\
    answers (WE := program_engine P) consensus_runtime
      (action <$> (promised ∘ p2p_broadcast_message <$> broadcast) ++ submitted) (mkVmWorld (vm_shared w') ∅ h3) = Some (ss, w') /\
    (merkle_root (in_batch i) = batch_header (in_store i) ->
      current_store (vm_shared w') = Some (led_store i) /\
      broadcast = if decide (current_slot (in_batch i) = slot (in_store i)) then [] else [p2p_message (in_store i)]) /\
    (merkle_root (in_batch i) <> batch_header (in_store i) -> exists sg s,
      ecdsa_sign (merkle_root (in_batch i)) (signing_key P) = Some sg /\
      new_batch_store (in_batch i) (in_ed25519 i) bn sg = Ret s /\
      current_store (vm_shared w') = Some s /\ broadcast = [p2p_message s]) /\
    (submitted <> [] <-> is_slot_leader i = true /\ mc_committee_size conf = Z.of_nat (size (signatures (in_store i)))) /\
    (submitted = [] \/ exists lsg ls, ecdsa_sign (le_bytes 32 random) (signing_key P) = Some lsg /\ sig_to_uncompressed lsg = Some ls /\
      submitted = [submission (contract_account_id keys) (led_store i) ls (10 ^ 24)]).
Proof. apply batch_tick_runs. Qed.

(** ** A message of another node *)

(** The job for a message runs the task on its text. *)
Definition message_guest (w : VmWorld H) : Guest :=
  mkGuest (vm_shared w) ∅ [Pending] [] (signing_key P) (list_to_map env).

Lemma message_job_runs m text w g :
  keypair_bn254_public keys = Some bn -> wasi_ok P "_start" env ["p2p"%string; text] = true -> plain_argument text = true ->
  job_args (p2p_event m) = Ret ["p2p"%string; text] ->
  P2P_handle text (message_guest w) = Ret (tt, g) -> g_queue g = [] -> 
  exists res, handle_runtime_job P 3 consensus_worker (p2p_event m) w =
      Ret (res, mkVmWorld (g_shared g) (g_private g) (vm_host w)) /\ exit_code (exit_info res) = 0%Z.
Proof.
  intros Hbn Hw Hp Hj Hg Hq.
  destruct (job_runs 3 (p2p_event m) ["p2p"%string; text] w (Ok EmptyQueue) (mkVmWorld (g_shared g) (g_private g) (vm_host w))
    (Some (Fulfilled (Some []))) Hbn Hj) as (res & Hres & Hx); [|exists res; by rewrite Hx].
  apply (runs_call _ _ _ _ 2 None [] "_start" ["p2p"%string; text] consensus_main _ [] (mkVmWorld (vm_shared w) ∅ (vm_host w)) tt
    (mkProcess g [])); [done..| |].
  - unfold consensus_main. rewrite parse_p2p by done. by apply (in_guest_eq _ (process_at _ _ _ _)).
  - cbn [proc_guest]. rewrite Hq. apply runs_empty.
Qed.

(** The text is a message whose signature and key are points with an encoding. *)
Definition decodes (text : string) (m : BatchMessage) (sg : Signature) (pk : PublicKey) : Prop :=
  message_of_json text = Ok (MBatch m) /\ sig_from_uncompressed (msg_signature m) = Some sg /\
  pk_from_uncompressed (msg_bn254_public_key m) = Some pk /\ is_Some (sig_to_uncompressed sg) /\ is_Some (pk_to_uncompressed pk).

Lemma p2p_handle_undecodable text g : (forall m sg pk, ~ decodes text m sg pk) -> is_ret (P2P_handle text g) = false.
Proof.
  intros Hn. unfold P2P_handle, Message_from_str, mbind, M_bind, lift, expect, unwrap, verify.
  destruct (message_of_json text) as [[m]|] eqn:Em; [|done].
  destruct (sig_from_uncompressed (msg_signature m)) as [sg|] eqn:Es; [|done].
  destruct (pk_from_uncompressed (msg_bn254_public_key m)) as [pk|] eqn:Ep; [|done].
  destruct (sig_to_uncompressed sg) as [sb|] eqn:Esb; [|done]. destruct (pk_to_uncompressed pk) as [kb|] eqn:Ekb; [|done].
  exfalso. apply (Hn m sg pk). split_and!; [done..|by eexists|by eexists].
Qed.

(** A task that panics traps. *)
Lemma message_job_traps msg text w :
  keypair_bn254_public keys = Some bn -> wasi_ok P "_start" env ["p2p"%string; text] = true -> plain_argument text = true ->
  job_args (p2p_event msg) = Ret ["p2p"%string; text] -> is_ret (P2P_handle text (message_guest w)) = false ->
  exists res w', handle_runtime_job P 3 consensus_worker (p2p_event msg) w = Ret (res, w') /\ exit_code (exit_info res) = 8%Z.
Proof.
  intros Hbn Hw Hp Hj Hpanic. destruct (P2P_handle text (message_guest w)) as [|msg'] eqn:E; [done|].
  destruct (job_runs 3 (p2p_event msg) ["p2p"%string; text] w (Ok (ExecutionError msg'))
    (trapped P "_start" ["p2p"%string; text] (mkVmWorld (vm_shared w) ∅ (vm_host w))) None Hbn Hj) as (res & Hres & Hx);
    [|eexists res, _; split; [exact Hres|by rewrite Hx]].
  apply (runs_trap _ _ _ _ 2 None [] "_start" ["p2p"%string; text] consensus_main _ []); [done..|].
  unfold consensus_main. rewrite parse_p2p by done. unfold in_guest. cbn [Task_handle]. change (proc_guest _) with (message_guest w).
  by rewrite E.
Qed.

(** C27: A message of another node, from the event to the store, for a text that
    WASI and the parser of the guest's command line accept.  If it is no message,
    or its signature or key does not decode, the guest traps and the job reports
    exit code 8.  If the signature decodes but does not verify, or the message is
    for the store's header and its key is already in the store, the job ends well
    and changes nothing.  If it verifies, but for another header than the store's,
    the guest traps: the doc of the function says that such a message is kept for
    later.  Otherwise, whoever signed it, the shared memory holds the store with
    exactly this signature added, and handling the same message again changes
    nothing; or the guest traps, if the new aggregate has no encoding.  A job that
    ends well asks nothing of the host. *)
Theorem message_job_correct msg text w s :
  keypair_bn254_public keys = Some bn -> wasi_ok P "_start" env ["p2p"%string; text] = true -> plain_argument text = true ->
  job_args (p2p_event msg) = Ret ["p2p"%string; text] -> current_store (vm_shared w) = Some s ->
  let run w := handle_runtime_job P 3 consensus_worker (p2p_event msg) w in
  let ends_well w' := exists res, run w = Ret (res, w') /\ exit_code (exit_info res) = 0%Z in
  let traps := exists res w', run w = Ret (res, w') /\ exit_code (exit_info res) = 8%Z in
  ((forall m sg pk, ~ decodes text m sg pk) -> traps) /\
  forall m sg pk, decodes text m sg pk ->
    let known := bool_decide (is_Some (signatures s !! to_hex (msg_bn254_public_key m))) in
    let verified := ecdsa_verify (msg_batch_header m) sg pk in
    (verified = false \/ msg_batch_header m = batch_header s /\ known = true -> ends_well (mkVmWorld (vm_shared w) ∅ (vm_host w))) /\
    (verified = true -> msg_batch_header m <> batch_header s -> traps) /\
    (verified = true -> msg_batch_header m = batch_header s -> known = false ->
      match add_entry s m sg pk with
      | Ret s' => exists sh, ends_well (mkVmWorld sh ∅ (vm_host w)) /\ stores (vm_shared w) s' sh /\
          exists res, run (mkVmWorld sh ∅ (vm_host w)) = Ret (res, mkVmWorld sh ∅ (vm_host w)) /\ exit_code (exit_info res) = 0%Z
      | Panic _ => traps
      end).
Proof.
  intros Hbn Hw Hp Hj Hc run ends_well traps. split; [by intros Hn; apply (message_job_traps msg text), p2p_handle_undecodable|].
  intros m sg pk (Hm & Hsg & Hpk & Hsb & Hkb) known verified.
  destruct (p2p_handle_correct text (message_guest w) m s sg pk Hm Hc Hsg Hpk Hsb Hkb) as [Hinv Hval].
  fold verified in Hinv, Hval. fold known in Hval. split_and!.
  - intros Hn. apply (message_job_runs msg text w (message_guest w)); try done.
    destruct Hn as [Hv|[He Hk]]; [by apply Hinv|]. destruct verified eqn:Hv; [|by apply Hinv]. by apply (Hval eq_refl).
  - intros Hv Hne. apply (message_job_traps msg text); [done..|]. by apply (Hval Hv).
  - intros Hv He Hk. destruct (add_entry s m sg pk) as [s'|e] eqn:Ha.
    + destruct (Hval Hv) as (_ & _ & Hadd). destruct (Hadd He Hk s' eq_refl) as (sh & H1 & H2 & H3). exists sh. split_and!; [|done|].
      * by apply (message_job_runs msg text w (with_shared sh (message_guest w))).
      * by apply (message_job_runs msg text (mkVmWorld sh ∅ (vm_host w)) (with_shared sh (message_guest w))).
    + apply (message_job_traps msg text); [done..|]. rewrite (p2p_handle_run text m sg pk _ s) by done.
      fold known verified. by rewrite Hv, (bool_decide_eq_true_2 _ He), Hk; cbn; rewrite Ha.
Qed.

(** The message of a node that signed a new root adds its signature to a store
    that is at this root and does not have it. *)
Lemma message_job_adds m b ed bn' pk sg s w s1 s2 sb text :
  pk_from_uncompressed bn' = Some pk -> is_Some (pk_to_uncompressed pk) ->
  ecdsa_verify (merkle_root b) sg pk = true -> sig_to_uncompressed sg = Some sb ->
  new_batch_store b ed bn' sg = Ret s -> text = String.string_of_list_byte (p2p_message s) ->
  job_args (p2p_event m) = Ret ["p2p"%string; text] ->
  keypair_bn254_public keys = Some bn -> wasi_ok P "_start" env ["p2p"%string; text] = true -> plain_argument text = true ->
  current_store (vm_shared w) = Some s1 -> batch_header s1 = merkle_root b -> signatures s1 !! to_hex bn' = None ->
  add_entry s1 (mkBatchMessage (merkle_root b) bn' sb ed) sg pk = Ret s2 ->
  exists res w', handle_runtime_job P 3 consensus_worker (p2p_event m) w = Ret (res, w') /\ exit_code (exit_info res) = 0%Z /\
    current_store (vm_shared w') = Some s2 /\ vm_host w' = vm_host w.
Proof.
  intros Hpk Hkb Hv Hsb Hn -> Hargs Hbn Hw Hp Hc Hh Hnew Ha.
  destruct (new_batch_store_message _ _ _ _ _ Hn) as (sb' & Hsb' & Hu & Hj). assert (sb' = sb) as -> by congruence.
  set (text := String.string_of_list_byte (p2p_message s)) in *.
  destruct (save_store_eq s2 (message_guest w)) as (sh & Hsave & Hst).
  destruct (message_job_runs m text w (with_shared sh (message_guest w))) as (res & Hres & Hx); [done..| |done|].
  - rewrite (p2p_handle_run _ _ sg pk (message_guest w) s1 Hj) by (done || by eapply sig_roundtrip). cbn [msg_batch_header msg_bn254_public_key].
    rewrite Hv, bool_decide_eq_true_2 by done. cbn [negb]. rewrite Hnew. cbn. by rewrite Ha.
  - eexists res, _. split; [exact Hres|]. split; [done|]. split; [by eapply stores_current|done].
Qed.

Context `{LP : Libp2p}.

(** A signature reaches the other nodes: what a node publishes when it signs
    a new root is, at every node that receives it, delivered by the P2P server,
    queued as an event, and worked off by a job of the consensus program; if the
    receiving node is at the same root and has no signature of this key yet,
    the job ends well, and the node's store has afterwards exactly one signature
    more, that of the sender. *)
Theorem signature_travels b ed bn' pk sg s o source d w s1 s2 sb text :
  pk_from_uncompressed bn' = Some pk -> is_Some (pk_to_uncompressed pk) ->
  ecdsa_verify (merkle_root b) sg pk = true -> sig_to_uncompressed sg = Some sb ->
  new_batch_store b ed bn' sg = Ret s -> text = String.string_of_list_byte (p2p_message s) ->
  keypair_bn254_public keys = Some bn -> wasi_ok P "_start" env ["p2p"%string; text] = true -> plain_argument text = true ->
  current_store (vm_shared w) = Some s1 -> batch_header s1 = merkle_root b -> signatures s1 !! to_hex bn' = None ->
  add_entry s1 (mkBatchMessage (merkle_root b) bn' sb ed) sg pk = Ret s2 ->
  exists m res w', loop_step o (GossipMessage source (p2p_message s)) d = Ret (d, [SendMessage m]) /\
    handle_runtime_job P 3 consensus_worker (p2p_event m) w = Ret (res, w') /\ exit_code (exit_info res) = 0%Z /\
    current_store (vm_shared w') = Some s2 /\ vm_host w' = vm_host w /\
    signatures s2 = <[to_hex bn' := sb]> (signatures s1) /\ store_signers s2 = store_signers s1 ++ [to_hex ed].
Proof.
  intros Hpk Hkb Hv Hsb Hn -> Hbn Hw Hp Hc Hh Hnew Ha.
  destruct (new_batch_store_message _ _ _ _ _ Hn) as (_ & _ & Hu & _).
  destruct (gossip_becomes_job o source _ d Hu) as (m & Hl & Hargs).
  destruct (message_job_adds m b ed bn' pk sg s w s1 s2 sb _ Hpk Hkb Hv Hsb Hn eq_refl Hargs Hbn Hw Hp Hc Hh Hnew Ha)
    as (res & w' & Hres & Hx & Hs2 & Hw'). exists m, res, w'.
    do 5 (split; [done|]). unfold add_entry in Ha. by inv_run.
Qed.

(** ** A call of the bridge *)

Lemma string_unwrap_ok bs : utf8_valid bs = true -> from_bytes_unwrap (T := string) bs = Ret (String.string_of_list_byte bs).
Proof. unfold utf8_valid. intros Hu%bool_decide_eq_true. unfold from_bytes_unwrap. cbn. by rewrite Hu. Qed.
Lemma string_unwrap_panics bs : utf8_valid bs = false -> exists msg, from_bytes_unwrap (T := string) bs = Panic msg.
Proof.
  unfold utf8_valid. intros Hu%bool_decide_eq_false. unfold from_bytes_unwrap. cbn.
  destruct (utf8_check _ _); [by eexists|done].
Qed.

(** The arguments that the command sends to the RPC server of the node *)
Definition bridge_command (b : Bridge) : list string :=
  bridge_request (bridge_chain b) (bridge_contract_id b) (bridge_method_name b) (int_val (bridge_deposit b)) (bridge_args b).

Definition bridge_view (b : Bridge) : Promise :=
  promised (guest_chain_view (bridge_chain b) (bridge_contract_id b) (bridge_method_name b) (string_bytes (bridge_args b))).
Definition bridge_post (b : Bridge) (data : string) : Promise :=
  promised (guest_chain_call Near (contract_account_id keys) "post_data_request" (string_bytes (data_request_json data))
    (int_val (bridge_deposit b))).
Definition bridge_shared (w : VmWorld H) : gmap string bytes :=
  <["contract_id"%string := string_bytes (contract_account_id keys)]> (vm_shared w).
Definition bridge_private (b : Bridge) : gmap string bytes := <["bridge_deposit"%string := to_bytes (bridge_deposit b)]> ∅.

Lemma bridge_handle_eq b q w :
  vm_private w = ∅ ->
  Bridge_handle b (proc_guest (process_at P env q w)) =
    Ret (tt, mkGuest (bridge_shared w) (bridge_private b) (status <$> queue q)
               [bridge_view b; call_promise "bridge_step_1" [] Unfulfilled] (signing_key P) (list_to_map env)).
Proof.
  intros Hp. destruct env_lookups as (E1 & _). unfold Bridge_handle, get_oracle_contract_id, env_var. cbn [process_at proc_guest].
  unfold gets, modify, lift, mbind, M_bind, shared_memory_set, private_set, enqueue, id, modify, mret, M_ret.
  cbn [g_env g_shared g_private g_results g_queue g_key]. rewrite E1, Hp. reflexivity.
Qed.

Definition bridge_guest (b : Bridge) (w : VmWorld H) (results : list PromiseStatus) (q : list Promise) : Guest :=
  mkGuest (bridge_shared w) (bridge_private b) results q (signing_key P) (list_to_map env).

(** The second step, up to the data *)
Lemma bridge_step_1_eq b w result results :
  in_int false 16 (int_val (bridge_deposit b)) -> valid_string (contract_account_id keys) = true ->
  bridge_step_1 (bridge_guest b w (result :: results) []) =
    match result with
    | Fulfilled (Some data) =>
        match from_bytes_unwrap (T := string) data with
        | Ret data => Ret (tt, bridge_guest b w (result :: results) [bridge_post b data; call_promise "bridge_step_2" [] Unfulfilled])
        | Panic msg => Panic msg
        end
    | _ => Ret (tt, bridge_guest b w (result :: results) [])
    end.
Proof.
  intros Hd Hv. unfold bridge_step_1, shared_memory_get, private_get, result_at, gets, mbind, M_bind, lift, unwrap, bridge_guest.
  cbn [g_shared g_private]. unfold bridge_shared, bridge_private. rewrite !lookup_insert_eq. cbn [default id].
  unfold string_of_utf8, valid_string, id in *. rewrite Hv. cbn [g_results lookup list_lookup g_private].
  rewrite lookup_insert_eq. cbn [default id]. rewrite (from_bytes_unwrap_eq (T := int_ty false 16)) by done.
  unfold string_bytes at 1. rewrite String.string_of_list_byte_of_string.
  destruct result as [| |[data|]|]; try reflexivity. by destruct (from_bytes_unwrap data).
Qed.

Lemma bridge_step_2_eq reply g results :
  g_results g = Fulfilled (Some reply) :: results -> utf8_valid reply = true -> bridge_step_2 g = Ret (tt, g).
Proof.
  intros Hg Hr. unfold bridge_step_2, result_at, gets, mbind, M_bind, lift, unwrap, id. rewrite Hg. cbn [lookup list_lookup].
  rewrite string_unwrap_ok by done. done.
Qed.

(** What the command [seda node bridge] needs to go through *)
Record bridge_ready (b : Bridge) : Prop := {
  br_plain : plain_argument (bridge_contract_id b) = true /\ plain_argument (bridge_method_name b) = true /\
    plain_argument (bridge_args b) = true;
  br_wasi : wasi_ok P "_start" env (bridge_command b) = true /\ wasi_ok P "bridge_step_1" env [] = true /\
    wasi_ok P "bridge_step_2" env [] = true;
  br_keys : keypair_bn254_public keys = Some bn /\ valid_string (contract_account_id keys) = true;
  br_deposit : in_int false 16 (int_val (bridge_deposit b));
}.

Definition bridge_world (b : Bridge) (w : VmWorld H) (h : H) : VmWorld H :=
  mkVmWorld (bridge_shared w) (bridge_private b) h.
Definition seen (result : result bytes HostError) : PromiseStatus := status_of_result result.

Lemma bridge_view_answer b w view h1 :
  chain_view (bridge_chain b) (bridge_contract_id b) (bridge_method_name b) (string_bytes (bridge_args b)) (vm_host w) = (view, h1) ->
  answers (WE := program_engine P) consensus_runtime (action <$> [bridge_view b]) (bridge_world b w (vm_host w)) =
    Some ([seen view], bridge_world b w h1).
Proof. intros E. cbn. unfold answer_with, on_host. cbn. by rewrite E. Qed.
Lemma bridge_post_answer b w data posted h1 h2 :
  chain_call Near (contract_account_id keys) "post_data_request" (string_bytes (data_request_json data))
    (int_val (bridge_deposit b)) keys h1 = (posted, h2) ->
  answers (WE := program_engine P) consensus_runtime (action <$> [bridge_post b data]) (bridge_world b w h1) =
    Some ([seen posted], bridge_world b w h2).
Proof. intros E. cbn. unfold answer_with, on_host. cbn. by rewrite E. Qed.

(** The first call, and whatever follows the other chain's answer *)
Lemma bridge_starts b w e w' l :
  bridge_ready b ->
  runs 3 (Some (Fulfilled (Some []))) ([bridge_view b] ++ [call_promise "bridge_step_1" [] Unfulfilled])
    (bridge_world b w (vm_host w)) e w' l ->
  exists res, handle_runtime_job P 4 consensus_worker (cli_event (bridge_command b)) w = Ret (res, w') /\ exit_info res = ExitInfo_of_result e.
Proof.
  intros [(Hp1 & Hp2 & Hp3) (Hw & _) (Hbn & _) Hd] Hruns. apply (job_runs 4 (cli_event (bridge_command b)) (bridge_command b) w e w' l Hbn eq_refl).
  apply (runs_call _ _ _ _ 3 None [] "_start" (bridge_command b) consensus_main _ [] (mkVmWorld (vm_shared w) ∅ (vm_host w)) tt
    (mkProcess (bridge_guest b w [Pending] [bridge_view b; call_promise "bridge_step_1" [] Unfulfilled]) [])); [done..| |exact Hruns].
  unfold consensus_main, bridge_command. unfold bridge_request. rewrite parse_bridge by done.
  assert (mkBridge (bridge_chain b) (bridge_contract_id b) (bridge_method_name b) (mkInt (int_val (bridge_deposit b))) (bridge_args b) = b)
    as -> by (by destruct b as [? ? ? [] ?]). by apply (in_guest_eq _ (process_at _ _ _ _)), bridge_handle_eq.
Qed.

(** What the other chain answers is posted. *)
Lemma bridge_job_posts b w data h1 posted h2 :
  bridge_ready b ->
  chain_view (bridge_chain b) (bridge_contract_id b) (bridge_method_name b) (string_bytes (bridge_args b)) (vm_host w) = (Ok data, h1) ->
  utf8_valid data = true ->
  chain_call Near (contract_account_id keys) "post_data_request" (string_bytes (data_request_json (String.string_of_list_byte data)))
    (int_val (bridge_deposit b)) keys h1 = (posted, h2) ->
  (forall reply, posted = Ok reply -> utf8_valid reply = true) ->
  exists res w', handle_runtime_job P 4 consensus_worker (cli_event (bridge_command b)) w = Ret (res, w') /\
    exit_code (exit_info res) = 0%Z /\ vm_host w' = h2.
Proof.
  intros Hr Hview Hu Hpost Hreply. pose proof Hr as [_ (_ & Hw1 & Hw2) (Hbn & Hv) Hd].
  pose proof (bridge_step_1_eq b w (seen (Ok data)) [Pending] Hd Hv) as Hstep. set (text := String.string_of_list_byte data) in *.
  edestruct (bridge_starts b w (Ok EmptyQueue) (bridge_world b w h2)) as (res & Hres & Hx); [done| |].
  - eapply (runs_call _ _ _ _ 2 _ [bridge_view b] "bridge_step_1" [] (fun _ => in_guest bridge_step_1) _ [seen (Ok data)]
      (bridge_world b w h1) tt (mkProcess (bridge_guest b w [seen (Ok data); Pending]
        [bridge_post b text; call_promise "bridge_step_2" [] Unfulfilled]) [])); [done|done|by apply bridge_view_answer| |].
    { apply (in_guest_eq _ (process_at _ _ _ _)). etransitivity; [apply Hstep|].
      cbn [seen status_of_result]. change (to_bytes data) with data. by rewrite string_unwrap_ok. }
    eapply (runs_call _ _ _ _ 1 _ [bridge_post b text] "bridge_step_2" [] (fun _ => in_guest bridge_step_2) _ [seen posted]
      (bridge_world b w h2) tt (mkProcess (bridge_guest b w [seen posted; Pending] []) [])); [done|done|by apply bridge_post_answer| |].
    { apply (in_guest_eq _ (process_at _ _ _ _)). destruct posted as [reply|]; [|reflexivity]. specialize (Hreply reply eq_refl).
      change (proc_guest _) with (bridge_guest b w [seen (Ok reply); Pending] []). by apply (bridge_step_2_eq reply _ [Pending]). }
    apply runs_empty.
  - exists res, (bridge_world b w h2). split; [exact Hres|]. by rewrite Hx.
Qed.


End jobs.

(** ** A concrete node *)

Module RefJobs.
Import RefConsensus RefPeers.

(** A host that answers views with one byte, accepts calls, and keeps a log of
    what it was asked for *)
Record Log := mkLog { asked : list string; published : list P2PCommand }.
Definition ask {T} (what : string) (x : T) (l : Log) : T * Log := (x, mkLog (asked l ++ [what]) (published l)).

#[export] Instance string_error : Error string := id.
#[export] Instance log_host : HostAdapter Log := {|
  HostError := string;
  db_get k := ask k (Err k);
  db_set k _ := ask k (Err k);
  http_fetch u := ask u (Err u);
  chain_call _ _ f _ _ _ := ask f (Ok []);
  chain_view _ _ f _ := ask f (Ok [if decide (f = "get_config"%string) then x01 else x09]);
  trigger_event e := ask (event_id e) (Ok tt);
|}.
#[export] Instance log_channel : P2PChannel Log := fun c l => Some (mkLog (asked l) (published l ++ [c])).

Definition small_bridge : Bridge := mkBridge Another "foreign" "value" (mkInt 5) "{}".
Definition small_chain (s : string) : Chain := if decide (s = "near"%string) then Near else Another.
#[export] Instance small_parser : TaskParser.
Proof.
  refine {| parse_options args :=
    match args with
    | [_; t] => if decide (t = "batch"%string) then Some TBatch else None
    | [_; t; text] => if decide (t = "p2p"%string) then Some (TP2P text) else None
    | [_; _; c; id; f; d; a] => TBridge ∘ (fun d => mkBridge (small_chain c) id f (mkInt d) a) <$> digits_val 0 d
    | _ => None
    end |}; [done..|].
  intros name chain id f deposit args Hd _ _ _. cbn -[digits_val pretty].
  rewrite pretty_val by apply Hd. by destruct chain.
Defined.

Definition small_engine : EngineParams Log :=
  {| compile _ := Some (consensus_program true); wasi_ok _ _ _ := true; printed _ _ _ := (EmptyString, EmptyString);
     trapped _ _ w := w; signing_key := own_key |}.
Definition small_keys : NodeKeys := mkNodeKeys EmptyString [x61] (Some own_public).
Definition small_worker : RuntimeWorker small_engine := consensus_worker small_engine true small_keys EmptyString.

Lemma encoded_plain p q : plain_argument (RefWasm.pos_string (prod_encode p q)) = true.
Proof. by destruct p, q. Qed.
Lemma message_plain m j : message_to_json m = Ok j -> plain_argument (String.string_of_list_byte j) = true.
Proof.
  unfold message_to_json. cbn -[RefWasm.to_json]. unfold RefWasm.to_json. intros [= <-]. unfold string_bytes.
  rewrite String.string_of_list_byte_of_string. destruct m as [m]. apply encoded_plain.
Qed.

End RefJobs.

Section witnesses.
Import RefConsensus RefPeers RefJobs.

(** A tick at a node that starts, and is the leader: it signs and publishes. *)
Definition tick_inputs : BatchInputs :=
  mkInputs EmptyString own_public [x61] BatchSignatureStore_default
    (mkComputeMerkleRootResult [x09] (le_val [x09]) (Some leader_account)).
Definition tick_log : Log := mkLog ["compute_merkle_root"; "get_config"; "get_last_generated_random_number"]%string [].

Lemma tick_ready_small :
  tick_ready small_engine true small_keys own_public (mkVmWorld ∅ ∅ (mkLog [] [])) tick_log tick_inputs
    (mkMainChainConfig 0 0 1 0) 5%Z.
Proof.
  split.
  - done.
  - split; [done|]. split; [exists own_key, own_public; done|]. split; [|done]. intros m. eexists _, _. done.
  - done.
  - exists [x09], [x01], [x09]. eexists. split; [by eexists _, _|done].
  - intros d. by eexists.
Qed.

Lemma batch_tick_correct_witness :
  exists res w' data submitted ss,
    handle_runtime_job small_engine 4 small_worker batch_tick_event (mkVmWorld ∅ ∅ (mkLog [] [])) = Ret (res, w') /\
    exit_code (exit_info res) = 0%Z /\
    answers (WE := program_engine small_engine) (consensus_runtime small_engine true small_keys)
      (action <$> (promised ∘ p2p_broadcast_message <$> [data]) ++ submitted) (mkVmWorld (vm_shared w') ∅ tick_log) = Some (ss, w').
Proof.
  destruct (batch_tick_correct small_engine true small_keys EmptyString own_public (mkVmWorld ∅ ∅ (mkLog [] [])) tick_log
    tick_inputs (mkMainChainConfig 0 0 1 0) 5%Z tick_ready_small)
    as (res & w' & broadcast & submitted & ss & H1 & H2 & H3 & _ & H4 & _).
  destruct H4 as (sg & s & _ & _ & _ & ->); [intros E; discriminate E|].
  exists res, w', (p2p_message s), submitted, ss. split; [exact H1|]. split; [exact H2|exact H3].
Defined.

Lemma message_job_correct_witness :
  exists msg w res sh, handle_runtime_job small_engine 3 small_worker (p2p_event msg) w = Ret (res, mkVmWorld sh ∅ (vm_host w)) /\
    exit_code (exit_info res) = 0%Z /\ stores (vm_shared w) (other_added [x62]) sh.
Proof.
  destruct first_shared as (sh & Hs & Hk). destruct (message_json (MBatch (other_message [x62]))) as (j & Ej & Hj & Hu).
  exists (mkP2PMessage None j), (mkVmWorld sh ∅ (mkLog [] [])).
  destruct (message_job_correct small_engine true small_keys EmptyString own_public (mkP2PMessage None j)
    (String.string_of_list_byte j) (mkVmWorld sh ∅ (mkLog [] [])) first_store eq_refl eq_refl (message_plain _ _ Ej)) as (_ & Hjob).
  - unfold job_args, utf8_valid in *. cbn -[utf8_check]. apply bool_decide_eq_true in Hu. rewrite Hu. reflexivity.
  - exact Hs.
  - destruct (Hjob (other_message [x62]) (byte_add x07 x09) x07) as (_ & _ & Hadd).
    { split_and!; [exact Hj|reflexivity|reflexivity|by eexists|by eexists]. }
    assert (add_entry first_store (other_message [x62]) (byte_add x07 x09) x07 = Ret (other_added [x62])) as Ha by apply other_add_entry.
    rewrite Ha in Hadd. destruct Hadd as (sh' & (res & H1 & H2) & H3 & _).
    + reflexivity.
    + reflexivity.
    + rewrite other_known. reflexivity.
    + exists res, sh'. split; [exact H1|]. split; [exact H2|exact H3].
Defined.

Definition first_batch : ComputeMerkleRootResult := mkComputeMerkleRootResult [x09] 9 None.

Lemma signature_travels_witness :
  exists s o source d m w res w',
    new_batch_store (BN := small_bn254) first_batch [x62] (pad 127 x07) (byte_add x07 x09) = Ret s /\
    loop_step o (GossipMessage source (p2p_message s)) d = Ret (d, [SendMessage m]) /\
    handle_runtime_job small_engine 3 small_worker (p2p_event m) w = Ret (res, w') /\
    current_store (vm_shared w') = Some (other_added [x62]).
Proof.
  destruct first_shared as (sh & Hs & _).
  destruct (new_batch_store_eq (BN := small_bn254) first_batch [x62] (pad 127 x07) (byte_add x07 x09) (pad 63 (byte_add x07 x09))) as [s Hn].
  { exists x07, (pad 127 x07). split; reflexivity. }
  { reflexivity. }
  destruct (new_batch_store_publishes _ _ _ _ _ Hn) as [mj Ej].
  destruct (signature_travels small_engine true small_keys EmptyString own_public first_batch [x62] (pad 127 x07) x07
    (byte_add x07 x09) s sorted_oracle None (DiscoveryStatus_new one_peer two_known) (mkVmWorld sh ∅ (mkLog [] [])) first_store
    (other_added [x62]) (pad 63 (byte_add x07 x09)) (String.string_of_list_byte (p2p_message s)))
    as (m & res & w' & H1 & H2 & _ & H4 & _).
  - reflexivity.
  - by eexists.
  - reflexivity.
  - reflexivity.
  - exact Hn.
  - reflexivity.
  - reflexivity.
  - reflexivity.
  - exact (message_plain _ _ Ej).
  - exact Hs.
  - reflexivity.
  - apply (other_known [x62]).
  - apply other_add_entry.
  - eexists s, _, _, _, m, _, res, w'. split; [exact Hn|]. split; [exact H1|]. split; [exact H2|exact H4].
Defined.


End witnesses.
