(* ===== verification/Oracle.v ===== *)
(** * The oracle: nodes and contract together

    Puts what the nodes do ([Jobs]) and what the contract does ([Batch],
    [Contract]) together.  The theorems are about a whole round of the protocol:
    the nodes of a committee, each with its own keys and memory, sign the root of
    the accumulated requests, their messages travel to the slot leader, and the
    transaction that its tick sends closes these requests into the next batch;
    and about a data request on its way from another contract into the
    accumulator.

    The chain between them is a parameter: a node knows the contract through
    the answers to its views ([sees]), given by any host, and what it sends is a
    call that the chain executes in a block of its own, on the state that the
    contract has by then.  What [near_bindgen] generates around the methods
    (arguments and results as JSON) is a parameter too. *)

From S2P Require Import Scenario.
From S2P Require Import Prelude NearSdk Merkle Contract Committee NodeRegistry Batch ContractInvariants EpochTheorems Sdk Runtime Imports Crypto Guest Node.
From S2P Require Import PeerList Discovery P2PServer Consensus ConsensusTheorems NodeTheorems Execution Cli Jobs.

(** [serde_json] at the contract: what the contract prints, the node reads, and
    the other way round. *)
Class OracleJson `{CJ : ConsensusJson} `{NS : NearSdk} := {
  root_to_json : ComputeMerkleRootResult -> bytes;
  config_to_json : Config -> bytes;
  u256_to_json : Z -> bytes;
  call_of_json : string -> bytes -> option Call;
  root_json r : merkle_root_of_json (root_to_json r) = Ok r;
  config_json c : main_config_of_json (config_to_json c) =
    Ok (mkMainChainConfig (minimum_stake c) (epoch_delay_for_election c) (committee_size c) (withdraw_delay c));
  u256_json n : (0 <= n < 2 ^ 256)%Z -> exists t, string_of_json (u256_to_json n) = Ok t /\ u256_from_dec_str t = Some n;
  signed_batch_json a b c d :
    call_of_json "post_signed_batch" (string_bytes (post_signed_batch_json a b c d)) = Some (PostSignedBatch a b c d);
  data_request_json_of t : call_of_json "post_data_request" (string_bytes (data_request_json t)) = Some (PostDataRequest t);
}.

(** BLS signatures aggregate: the sum of two signatures of a message verifies
    under the sum of their keys. *)
Class AggregateLaws `{BN : Bn254} : Prop := {
  aggregate_verifies m s1 k1 s2 k2 : ecdsa_verify m s1 k1 = true -> ecdsa_verify m s2 k2 = true ->
    ecdsa_verify m (sig_add s1 s2) (pk_add k1 k2) = true;
}.

(** ** The contract accepts *)

Section contract.
Context `{NS : NearSdk} `{BN : Bn254} (env : Env).

(** Storage that grows is paid for by the deposit, and nothing overflows. *)
Definition storage_affordable (s s' : MainchainContract) : Prop :=
  let diff := Z.abs (storage_usage env s' - storage_usage env s) in
  (diff < 2 ^ 64 /\ 0 <= storage_byte_cost env * diff < 2 ^ 128)%Z /\
  (storage_byte_cost env * diff <= attached_deposit env)%Z.

Lemma lift_bind {S A B} (o : outcome A) (x : A) (k : A -> M S B) (s : S) :
  o = Ret x -> (lift o ≫= k) s = k x s.
Proof. by intros ->. Qed.

Lemma require_deposit_eq s0 v :
  storage_affordable s0 (self v) -> (storage_usage env s0 <= storage_usage env (self v))%Z ->
  require_storage_deposit env (storage_usage env s0) v = Ret (tt, v).
Proof.
  intros [[Hd Hc] Ha] Hle. rewrite Z.abs_eq in Hd, Hc, Ha by lia. unfold require_storage_deposit, get_self, u64_sub, u128_mul.
  run_step. erewrite lift_bind by (apply arith_in; lia). erewrite lift_bind by (by apply arith_in).
  unfold assert_. by rewrite (proj2 (Z.leb_le _ _) Ha).
Qed.
Lemma refund_deposit_eq s0 v :
  storage_affordable s0 (self v) -> (storage_usage env (self v) <= storage_usage env s0)%Z ->
  exists r, refund_storage_deposit env (storage_usage env s0) v = Ret (tt, mkVm (self v) (receipts v ++ [r])).
Proof.
  intros [[Hd Hc] _] Hle. rewrite Z.abs_neq, Z.opp_sub_distr, Z.add_comm, Z.add_opp_r in Hd, Hc by lia.
  eexists. unfold refund_storage_deposit, get_self, u64_sub, u128_mul.
  run_step. erewrite lift_bind by (apply arith_in; lia). erewrite lift_bind by (by apply arith_in). reflexivity.
Qed.

(** A method whose body returns, and whose storage is paid for, returns. *)
Lemma manage_eq (body : M vm flow) v v1 :
  body v = Ret (Next, v1) -> storage_affordable (self v) (self v1) ->
  exists v', manage_storage_deposit env body v = Ret (tt, v') /\ self v' = self v1.
Proof.
  intros Hb Hs. unfold manage_storage_deposit, get_self. run_step. rewrite (M_bind_eq _ _ _ _ _ Hb). run_step.
  destruct (Z.ltb_spec (storage_usage env (self v)) (storage_usage env (self v1))).
  - exists v1. split; [|done]. apply require_deposit_eq; [done|lia].
  - destruct (refund_deposit_eq (self v) v1 Hs) as [r ->]; [lia|]. by eexists.
Qed.
Lemma manage_require_eq {A} (body : M vm A) v v1 x :
  body v = Ret (x, v1) -> storage_affordable (self v) (self v1) ->
  (storage_usage env (self v) <= storage_usage env (self v1))%Z ->
  manage_storage_deposit_require env body v = Ret (tt, v1).
Proof.
  intros Hb Hs Hle. unfold manage_storage_deposit_require, get_self. run_step. rewrite (M_bind_eq _ _ _ _ _ Hb).
  by apply require_deposit_eq.
Qed.

(** The epoch has been processed already. *)
Lemma process_epoch_eq v : (get_current_epoch env <= last_processed_epoch (self v))%Z -> process_epoch env v = Ret (tt, v).
Proof.
  intros He. unfold process_epoch, manage_storage_deposit, process_epoch_body, get_self. run_step.
  rewrite (M_bind_eq _ _ v Return v); [done|]. run_step. by rewrite (proj2 (Z.leb_le _ _) He).
Qed.

Lemma check_slot_leader_eq sig v :
  leads_slot env (self v) sig ->
  check_slot_leader env sig v = Ret (tt, mkVm (set_last_generated_random_number (next_random env sig) (self v)) (receipts v)).
Proof.
  intros (Hl & n & Hn & Hv). unfold check_slot_leader, get_self. run_step. unfold id.
  erewrite lift_bind by exact Hl. cbn [unwrap]. erewrite lift_bind by reflexivity.
  rewrite bool_decide_eq_true_2 by done. run_step. rewrite Hn. erewrite lift_bind by reflexivity.
  erewrite lift_bind by exact Hv. run_step. reflexivity.
Qed.

Lemma check_signers_eq sig pk signers v :
  signed_by env (self v) sig pk signers -> check_signers env sig pk signers v = Ret (requests_root (self v), v).
Proof.
  intros (c & k & Hc & _ & _ & Ha & Hk & Hv). unfold check_signers, get_self. run_step. unfold id.
  rewrite Hc. erewrite lift_bind by reflexivity. erewrite lift_bind by exact Ha.
  rewrite Hk. erewrite lift_bind by reflexivity. rewrite bool_decide_eq_true_2 by done. run_step.
  erewrite lift_bind by apply internal_compute_merkle_root_eq. erewrite lift_bind by exact Hv. run_step. reflexivity.
Qed.

Lemma store_batch_eq root v :
  (0 <= num_batches (self v) < 2 ^ 64 - 1)%Z -> exists v', store_batch env root v = Ret (tt, v').
Proof.
  intros Hn. unfold store_batch, get_self, u64_add. run_step. unfold id.
  do 2 (erewrite lift_bind by (apply arith_in; lia)). by eexists.
Qed.

(** The state after a batch: the accumulated requests are the next batch, and the
    leader's signature yields the next random number. *)
Definition batch_posted (leader_sig : bytes) (s : MainchainContract) : MainchainContract :=
  batch_stored (requests_root s) (set_last_generated_random_number (next_random env leader_sig) s).

Lemma post_signed_batch_eq sig pk signers leader_sig v :
  (get_current_epoch env <= last_processed_epoch (self v))%Z -> leads_slot env (self v) leader_sig ->
  signed_by env (self v) sig pk signers -> (0 <= num_batches (self v) < 2 ^ 64 - 1)%Z ->
  storage_affordable (self v) (batch_posted leader_sig (self v)) ->
  exists v', post_signed_batch env sig pk signers leader_sig v = Ret (tt, v') /\ self v' = batch_posted leader_sig (self v).
Proof.
  intros He Hl (c & k & Hc & ? & ? & Hk & Hs) Hn Ha.
  set (v1 := mkVm (set_last_generated_random_number (next_random env leader_sig) (self v)) (receipts v)).
  assert (signed_by env (self v1) sig pk signers) as Hs1.
  { exists c, k. split_and!; try apply Hs; try done. by unfold v1; cbn [self]; rewrite aggregate_signers_set_random. }
  destruct (store_batch_eq (requests_root (self v)) v1 Hn) as [v2 Hst].
  pose proof (store_batch_ret _ _ _ _ _ Hst) as Hv2.
  destruct (manage_eq (_ ← process_epoch env; _ ← check_slot_leader env leader_sig;
    root ← check_signers env sig pk signers; _ ← store_batch env root; mret Next) v v2) as (v' & Hr & Hv').
  - rewrite (M_bind_eq _ _ _ _ _ (process_epoch_eq _ He)), (M_bind_eq _ _ _ _ _ (check_slot_leader_eq _ _ Hl)).
    fold v1. rewrite (M_bind_eq _ _ _ _ _ (check_signers_eq _ _ _ _ Hs1)).
    by rewrite (M_bind_eq _ _ _ _ _ Hst).
  - by rewrite Hv2.
  - exists v'. split; [exact Hr|]. by rewrite Hv', Hv2.
Qed.

Lemma post_data_request_eq r v :
  let s' := set_data_request_accumulator (vec_push (data_request_accumulator (self v)) r) (self v) in
  storage_affordable (self v) s' -> (storage_usage env (self v) <= storage_usage env s')%Z ->
  post_data_request env r v = Ret (tt, mkVm s' (receipts v)).
Proof. intros s' Ha Hle. by eapply (manage_require_eq _ _ (mkVm s' (receipts v))). Qed.

(** What closing a batch means: exactly one more batch, the latest, which holds
    the requests that were accumulated; none are left. *)
Definition closes_batch (s s' : MainchainContract) : Prop :=
  num_batches s' = (num_batches s + 1)%Z /\ vec_to_vec (data_request_accumulator s') = [] /\
  exists b, lm_get (batch_by_id s') (get_latest_batch_id s') = Some b /\
    transactions b = vec_to_vec (data_request_accumulator s).

Lemma batch_posted_closes ls s : (0 <= num_batches s < 2 ^ 64 - 1)%Z -> closes_batch s (batch_posted ls s).
Proof.
  intros Hb. split; [cbn; apply wrap_small; lia|]. split; [apply vec_to_vec_clear|].
  eexists. unfold batch_posted. rewrite latest_batch_stored. split; [cbn; by rewrite lm_get_insert, decide_True|done].
Qed.
End contract.

(** ** The signatures of a complete store at the contract *)

Section aggregates.
Context `{BN : Bn254} `{KC : !KeyCrates} `{CJ : ConsensusJson} `{AL : !AggregateLaws} `{SL : !SignatureLaws} `{NS : NearSdk}.

Lemma fold_verifies m es s k :
  ecdsa_verify m s k = true -> Forall (fun e => ecdsa_verify m (e_sig e) (e_pk e) = true) es ->
  ecdsa_verify m (fold_left sig_add (e_sig <$> es) s) (fold_left pk_add (e_pk <$> es) k) = true.
Proof.
  intros Hv He. revert s k Hv. induction He as [|e es He _ IH]; intros s k Hv; [done|]. cbn.
  by apply IH, aggregate_verifies.
Qed.

(** A store of signatures of registered members of the committee passes the
    contract's check. *)
Lemma store_signed_by env c committee s es :
  store_holds s es -> es <> [] -> batch_header s = requests_root c ->
  lm_get (committees c) (get_current_epoch env) = Some committee -> Forall (registered c committee) es ->
  signed_by env c (aggregated_signature s) (aggregated_public_keys s) (store_signers s).
Proof.
  intros Hs Hne Hh Hc Hr. destruct (submission_matches_contract c committee s es Hs Hne Hr) as (k & Hk & Hkb).
  destruct Hs as (Hsg & _ & _ & Hv & Has & Hap). destruct es as [|e es]; [done|]. cbn in Has, Hap.
  assert (k = fold_left pk_add (e_pk <$> es) (e_pk e)) as ->.
  { apply pk_roundtrip in Hap. apply pk_roundtrip in Hkb. congruence. }
  exists committee, (fold_left pk_add (e_pk <$> es) (e_pk e)). split_and!; try done.
  - rewrite Hsg. done.
  - rewrite Hsg. intros a (x & -> & Hx)%list_elem_of_fmap. rewrite Forall_forall in Hr. by destruct (Hr x Hx).
  - rewrite (pairing_verifies _ _ _ _ _ Has Hap). f_equal. apply Forall_cons in Hv as [(_ & _ & He) Hv].
    rewrite Hh in He, Hv. apply fold_verifies; [done|]. eapply Forall_impl; [exact Hv|]. by intros x (_ & _ & ?).
Qed.

End aggregates.

(** The answer to a submission is that of the chain. *)
Lemma submission_answer `{BN : Bn254} `{KC : !KeyCrates} `{CJ : ConsensusJson} `{TP : TaskParser} {H} `{HA : HostAdapter H} `{PC : P2PChannel H}
    (P : EngineParams H) ov keys cid s ls d sh pm h r h' :
  chain_call Near cid "post_signed_batch" (string_bytes (post_signed_batch_json (aggregated_signature s) (aggregated_public_keys s)
    (store_signers s) ls)) d keys h = (r, h') ->
  answers (WE := program_engine P) (consensus_runtime P ov keys) (action <$> [submission cid s ls d]) (mkVmWorld sh pm h) =
    Some ([seen r], mkVmWorld sh pm h').
Proof. intros E. cbn. unfold answer_with, on_host. cbn. by rewrite E. Qed.

(** ** Members and their signatures *)

Section members.
Context `{NS : NearSdk} `{BN : Bn254} `{KC : !KeyCrates} `{CJ : ConsensusJson} `{BL : !Bn254Laws} `{LP : Libp2p}.

(** A member of the committee: its ed25519 key, which names its account, and its
    BN254 keys *)
Record Member := mkMember { mb_ed : bytes; mb_bn : bytes; mb_sk : PrivateKey }.
Definition member_key (m : Member) : PublicKey := bn254_from_private_key (mb_sk m).

Definition member_registered (c : MainchainContract) (committee : list AccountId) (m : Member) : Prop :=
  pk_to_uncompressed (member_key m) = Some (mb_bn m) /\ to_hex (mb_ed m) ∈ committee /\
  exists node, um_get (active_nodes c) (to_hex (mb_ed m)) = Some node /\ bn254_public_key node = mb_bn m.

Definition signs (root : bytes) (m : Member) (sg : Signature) : Prop := ecdsa_sign root (mb_sk m) = Some sg.

(** No sum of the first keys or signatures is the point at infinity, which has no
    encoding. *)
Definition sums_encode (root : bytes) (ms : list Member) : Prop :=
  forall ms1 ms2 sgs, ms = ms1 ++ ms2 -> ms1 <> [] -> Forall2 (signs root) ms1 sgs ->
    is_Some (sum sig_add sgs ≫= sig_to_uncompressed) /\ is_Some (sum pk_add (member_key <$> ms1) ≫= pk_to_uncompressed).

(** What the node of a member publishes when it signs the root *)
Definition publishes (root : bytes) (m : Member) (data : bytes) : Prop :=
  exists b sg s, merkle_root b = root /\ signs root m sg /\ new_batch_store b (mb_ed m) (mb_bn m) sg = Ret s /\ data = p2p_message s.

Definition entry_of (root : bytes) (m : Member) (e : Entry) : Prop :=
  e_pk_bytes e = mb_bn m /\ e_pk e = member_key m /\ signs root m (e_sig e) /\ e_signer e = to_hex (mb_ed m).

(** The store has the signatures of exactly these members. *)
Definition gathered (root : bytes) (ms : list Member) (s : BatchSignatureStore) : Prop :=
  exists es, store_holds s es /\ batch_header s = root /\ Forall2 (entry_of root) ms es.

Lemma gathered_registered root c committee ms s :
  gathered root ms s -> Forall (member_registered c committee) ms ->
  exists es, store_holds s es /\ length es = length ms /\ batch_header s = root /\ Forall (registered c committee) es.
Proof.
  intros (es & Hs & Hh & He) Hr. exists es. split; [done|]. split; [symmetry; by eapply Forall2_length|]. split; [done|].
  clear Hs Hh. induction He as [|m e ms es (E1 & _ & _ & E2) _ IH]; [done|].
  apply Forall_cons in Hr as [(_ & Hin & Hn) Hr]. constructor; [|by apply IH]. split; [by rewrite E2|].
  destruct Hn as (node & Hn & Hb). exists node. by rewrite E1, E2.
Qed.

Lemma gathered_size root ms s : gathered root ms s -> size (signatures s) = length ms.
Proof. intros (es & Hs & _ & He). rewrite (store_size _ _ Hs). symmetry. by eapply Forall2_length. Qed.

Lemma entries_sums root ms es :
  Forall2 (entry_of root) ms es -> Forall2 (signs root) ms (e_sig <$> es) /\ e_pk <$> es = member_key <$> ms /\
    e_pk_bytes <$> es = mb_bn <$> ms.
Proof.
  induction 1 as [|m e ms es (E1 & E2 & Hs & _) _ (H1 & H2 & H3)]; [done|]. cbn. rewrite E1, E2, H2, H3. split_and!; [by constructor|done..].
Qed.

(** A store takes one more signature. *)
Lemma add_member root ms rest s m sg sb :
  gathered root ms s -> sums_encode root (ms ++ m :: rest) -> mb_bn m ∉ mb_bn <$> ms ->
  pk_to_uncompressed (member_key m) = Some (mb_bn m) -> signs root m sg -> sig_to_uncompressed sg = Some sb ->
  signatures s !! to_hex (mb_bn m) = None /\
  exists s', add_entry s (mkBatchMessage root (mb_bn m) sb (mb_ed m)) sg (member_key m) = Ret s' /\ gathered root (ms ++ [m]) s'.
Proof.
  intros (es & Hs & Hh & He) Hsum Hnew Hpk Hsg Hsb. destruct (entries_sums _ _ _ He) as (Hsgs & Hpks & Hbns).
  destruct (Hsum (ms ++ [m]) rest ((e_sig <$> es) ++ [sg])) as [[asg Hasg] [apk Hapk]].
  { by rewrite <- app_assoc. }
  { by destruct ms. }
  { apply Forall2_app; [done|]. by constructor. }
  rewrite fmap_app in Hapk. change (member_key <$> [m]) with [member_key m] in Hapk. rewrite sum_snoc in Hasg. rewrite sum_snoc in Hapk. cbn in Hasg, Hapk. rewrite <- Hpks in Hapk.
  assert (signatures s !! to_hex (mb_bn m) = None) as Hno.
  { destruct Hs as (_ & -> & _). apply not_elem_of_list_to_map. rewrite entry_keys, Hbns.
    intros (y & Ey%(inj to_hex) & Hy)%list_elem_of_fmap. by subst. }
  split; [done|]. set (msg := mkBatchMessage root (mb_bn m) sb (mb_ed m)).
  pose proof Hs as (_ & _ & _ & _ & H5 & H6).
  assert (exists s', add_entry s msg sg (member_key m) = Ret s') as [s' Ha].
  { unfold add_entry. rewrite (add_signature_eq _ _ _ H5), (add_public_key_eq _ _ _ H6). cbn. rewrite Hasg. cbn. rewrite Hapk. by eexists. }
  exists s'. split; [done|]. exists (es ++ [message_entry msg sg (member_key m)]). split_and!.
  - eapply add_entry_holds; [done| |done|done]. split_and!; cbn; [by apply pk_roundtrip|by apply sig_roundtrip|].
    rewrite Hh. by apply sign_verifies.
  - unfold add_entry in Ha. by inv_run.
  - apply Forall2_app; [done|]. constructor; [done|constructor].
Qed.

(** The P2P server of a node hands over what arrives. *)
Definition arrives (data : bytes) (msg : P2PMessage) : Prop :=
  exists o source d, loop_step o (GossipMessage source data) d = Ret (d, [SendMessage msg]).

Lemma arrives_data data msg : arrives data msg -> message_data msg = data.
Proof. intros (o & source & d & Hl). cbn in Hl. by injection Hl as <-. Qed.

End members.

(** ** A node at the contract *)

Section round.
Context `{NS : NearSdk} `{BN : Bn254} `{KC : !KeyCrates} `{CJ : ConsensusJson} `{OJ : !OracleJson} `{TP : TaskParser}.
Context `{BL : !Bn254Laws} `{SL : !SignatureLaws} `{AL : !AggregateLaws} `{LP : Libp2p}.
Context {H : Type} `{HA : HostAdapter H} `{PC : P2PChannel H} (P : EngineParams H).
Context (ov : bool) (keys : NodeKeys) (path : string) (bn : bytes).

Abbreviation worker := (consensus_worker P ov keys path).
Abbreviation rt := (consensus_runtime P ov keys).
Abbreviation env := (guest_env P rt bn).

(** The implicit account of the node *)
Definition node_account : AccountId := to_hex (keypair_ed25519_public keys).
Definition myself : Member := mkMember (keypair_ed25519_public keys) bn (signing_key P).

(** The node is set up: its keys belong together, and WASI accepts the arguments
    of the task. *)
Record node_ready : Prop := {
  nd_contract : valid_string (contract_account_id keys) = true;
  nd_bn254 : keypair_bn254_public keys = Some bn /\ pk_to_uncompressed (bn254_from_private_key (signing_key P)) = Some bn /\
    can_sign (signing_key P);
  nd_wasi : wasi_ok P "_start" env ["batch"%string] = true /\ wasi_ok P "batch_step_1" env [] = true;
}.

(** The node's views are answered by the contract [c] in the block of [e]: with
    what its methods return.  After them the P2P server takes a message. *)
Record sees (c : MainchainContract) (e : Env) (h h3 : H) : Prop := {
  sees_views : exists r, compute_merkle_root e c = Ret r /\
    views_answered keys h (root_to_json r) (config_to_json (config c)) (u256_to_json (last_generated_random_number c)) h3;
  sees_random : (0 <= last_generated_random_number c < 2 ^ 256)%Z;
  sees_p2p : forall d, is_Some (p2p_send (Broadcast d) h3);
}.

Definition announced (c : MainchainContract) (e : Env) (leader : option AccountId) : ComputeMerkleRootResult :=
  mkComputeMerkleRootResult (requests_root c) (get_current_slot e) leader.
Definition node_inputs (c : MainchainContract) (e : Env) (s : BatchSignatureStore) (leader : option AccountId) : BatchInputs :=
  mkInputs (contract_account_id keys) bn (keypair_ed25519_public keys) s (announced c e leader).

Lemma node_tick_ready c e w h3 s leader :
  node_ready -> sees c e (vm_host w) h3 -> current_store (vm_shared w) = Some s -> get_current_slot_leader e c = Ret leader ->
  exists cf, mc_committee_size cf = committee_size (config c) /\
    tick_ready P ov keys bn w h3 (node_inputs c e s leader) cf (last_generated_random_number c).
Proof.
  intros [Hv (Hp & Hb & Hs) Hw] [(r & Hr & Hviews) Hrnd Hp2p] Hst Hl.
  assert (r = announced c e leader) as ->.
  { unfold compute_merkle_root in Hr. rewrite internal_compute_merkle_root_eq in Hr. cbn in Hr. rewrite Hl in Hr. by injection Hr as <-. }
  destruct (u256_json _ Hrnd) as (t & Ht1 & Ht2).
  exists (mkMainChainConfig (minimum_stake (config c)) (epoch_delay_for_election (config c)) (committee_size (config c)) (withdraw_delay (config c))).
  split; [done|]. split; [exact Hw| |done| |exact Hp2p].
  - split_and!; [done|by eexists _, bn; split; [apply pk_roundtrip|]|done|exact Hv].
  - eexists _, _, _, t. split; [exact Hviews|]. by split; [apply root_json|split; [apply config_json|]].
Qed.

(** What a tick asks of the host after the views *)
Lemma broadcast_then d submitted sh h ss w' :
  answers (WE := program_engine P) rt (action <$> (promised ∘ p2p_broadcast_message <$> [d]) ++ submitted) (mkVmWorld sh ∅ h)
    = Some (ss, w') ->
  exists h4 ss', p2p_send (Broadcast d) h = Some h4 /\
    answers (WE := program_engine P) rt (action <$> submitted) (mkVmWorld sh ∅ h4) = Some (ss', w').
Proof.
  change (action <$> (promised ∘ p2p_broadcast_message <$> [d]) ++ submitted)
    with (action (promised (p2p_broadcast_message d)) :: (action <$> submitted)).
  cbn [answers]. destruct (p2p_send (Broadcast d) h) as [h1|] eqn:Ep.
  - rewrite (broadcast_answer P ov keys d sh ∅ h h1 Ep).
    destruct (answers rt _ (mkVmWorld sh ∅ h1)) as [[ss1 w1]|] eqn:Ea; [|done]. intros [= _ <-]. by exists h1, ss1.
  - cbn. unfold vm_p2p_channel, p2p_send in *. cbn. by rewrite Ep.
Qed.

(** *** The tick that signs *)

(** The node finds a new root.  It must not find its store complete for the old
    one in a slot it leads, since it would submit that one. *)
Definition new_root (c : MainchainContract) (e : Env) (s : BatchSignatureStore) : Prop :=
  requests_root c <> batch_header s /\
  exists leader, get_current_slot_leader e c = Ret leader /\
    (leader <> Some node_account \/ committee_size (config c) <> Z.of_nat (size (signatures s))).

Lemma first_tick c e w h3 s0 :
  node_ready -> sees c e (vm_host w) h3 -> current_store (vm_shared w) = Some s0 -> new_root c e s0 ->
  exists res w' s data, handle_runtime_job P 4 worker batch_tick_event w = Ret (res, w') /\ exit_code (exit_info res) = 0%Z /\
    p2p_send (Broadcast data) h3 = Some (vm_host w') /\ publishes (requests_root c) myself data /\
    current_store (vm_shared w') = Some s /\ gathered (requests_root c) [myself] s.
Proof.
  intros Hr Hsees Hst (Hroot & leader & Hl & Hold). destruct (node_tick_ready _ _ _ _ _ _ Hr Hsees Hst Hl) as (cf & Hcf & Ht).
  destruct (batch_tick_runs P ov keys path bn _ _ _ _ _ Ht)
    as (res & w' & broadcast & submitted & ss & Hjob & Hx & Ha & _ & Hnew & Hiff & _).
  assert (submitted = []) as ->.
  { destruct submitted; [done|]. destruct (proj1 Hiff) as [Hlead Hsz]; [done|]. unfold is_slot_leader in Hlead.
    apply bool_decide_eq_true in Hlead. cbn in Hlead, Hsz. rewrite Hcf in Hsz. by destruct Hold. }
  destruct (Hnew Hroot) as (sg & s & Hsg & Hn & Hs & ->). apply broadcast_then in Ha as (h4 & ss' & Hp & Ha).
  injection Ha as _ Hw'. apply (f_equal vm_host) in Hw'. cbn in Hw'. subst h4.
  exists res, w', s, (p2p_message s). split_and!; [exact Hjob|done|exact Hp|by exists (announced c e leader), sg, s|exact Hs|].
  destruct (nd_bn254 Hr) as (_ & Hpk & _). apply pk_roundtrip in Hpk.
  destruct (new_batch_store_holds _ _ _ _ _ _ Hn Hpk) as (sb & Hh' & Hb); [by apply sign_verifies|].
  eexists. split_and!; [exact Hh'|exact Hb|]. by repeat constructor.
Qed.

(** *** The messages of the other members *)

Definition with_host (h : H) (w : VmWorld H) : VmWorld H := mkVmWorld (vm_shared w) (vm_private w) h.

(** The jobs end well one after the other, whatever the host has become when one
    begins, and leave a world with [Q]. *)
Fixpoint proceeds (es : list Event) (w : VmWorld H) (Q : VmWorld H -> Prop) : Prop :=
  match es with
  | [] => Q w
  | e :: es => forall h, exists n res w', handle_runtime_job P n worker e (with_host h w) = Ret (res, w') /\
      exit_code (exit_info res) = 0%Z /\ proceeds es w' Q
  end.

(** WASI and the parser of the task's options take the message. *)
Definition deliverable (msg : P2PMessage) : Prop :=
  let text := String.string_of_list_byte (message_data msg) in
  wasi_ok P "_start" env ["p2p"%string; text] = true /\ plain_argument text = true.

Lemma message_gathers root ms rest m msg w s :
  node_ready -> current_store (vm_shared w) = Some s -> gathered root ms s -> sums_encode root (ms ++ m :: rest) ->
  mb_bn m ∉ mb_bn <$> ms -> pk_to_uncompressed (member_key m) = Some (mb_bn m) -> publishes root m (message_data msg) ->
  deliverable msg ->
  exists res w' s', handle_runtime_job P 3 worker (p2p_event msg) w = Ret (res, w') /\ exit_code (exit_info res) = 0%Z /\
    current_store (vm_shared w') = Some s' /\ gathered root (ms ++ [m]) s'.
Proof.
  intros Hr Hst Hg Hsum Hnew Hpk (b & sg & sm & <- & Hsg & Hn & Hdata) [Hw Hp]. set (text := String.string_of_list_byte _) in *.
  destruct (new_batch_store_message _ _ _ _ _ Hn) as (sb & Hsb & Hu & _). rewrite <- Hdata in Hu.
  destruct (add_member _ _ _ _ _ _ _ Hg Hsum Hnew Hpk Hsg Hsb) as (Hno & s' & Ha & Hg').
  pose proof (nd_bn254 Hr) as (Hbn & Hown & _). destruct Hg as (_ & _ & Hhd & _).
  destruct (message_job_adds P ov keys path bn msg b (mb_ed m) (mb_bn m) (member_key m) sg sm w s s' sb text)
    as (res & w' & Hjob & Hx & Hs' & _); try done.
  - by apply pk_roundtrip.
  - by apply sign_verifies.
  - unfold text. by rewrite Hdata.
  - by apply message_job_args.
  - by exists res, w', s'.
Qed.

Lemma messages_gather root ms rest msgs w s (Q : VmWorld H -> Prop) :
  node_ready -> current_store (vm_shared w) = Some s -> gathered root ms s -> sums_encode root (ms ++ rest) ->
  NoDup (mb_bn <$> ms ++ rest) -> Forall (fun m => pk_to_uncompressed (member_key m) = Some (mb_bn m)) rest ->
  Forall2 (fun m msg => publishes root m (message_data msg) /\ deliverable msg) rest msgs ->
  (forall w' s', current_store (vm_shared w') = Some s' -> gathered root (ms ++ rest) s' -> Q w') ->
  proceeds (p2p_event <$> msgs) w Q.
Proof.
  intros Hr Hst Hg Hsum Hnd Hpk Hms HQ. revert ms w s Hst Hg Hsum Hnd HQ.
  induction Hms as [|m msg rest msgs [Hpub Hdel] _ IH]; intros ms w s Hst Hg Hsum Hnd HQ.
  { apply (HQ w s); [done|by rewrite app_nil_r]. }
  apply Forall_cons in Hpk as [Hm Hpk].
  assert (mb_bn m ∉ mb_bn <$> ms) as Hnew.
  { rewrite fmap_app in Hnd. apply NoDup_app in Hnd as (_ & Hd & _). intros Hin. apply (Hd _ Hin). left. }
  intros h. destruct (message_gathers _ _ _ _ _ (with_host h w) _ Hr Hst Hg Hsum Hnew Hm Hpub Hdel) as (res & w1 & s1 & Hjob & Hx & Hs1 & Hg1).
  exists 3, res, w1. split_and!; [done|done|]. apply (IH Hpk (ms ++ [m]) w1 s1); rewrite <- ?app_assoc; done.
Qed.

(** *** The tick that submits *)

(** The transaction of the node closes the batch when it is executed in the block
    of [e] on the state [c]: the node is the caller, with a deposit of one NEAR
    that pays for the batch, and leads the slot of this block, with its key
    registered; the requests and the random number are still those that the
    node saw; the epoch has been processed, its committee has the members, and they
    are registered with their keys. *)
Record batch_due (root : bytes) (random : Z) (ms : list Member) (e : Env) (c : MainchainContract) : Prop := {
  bd_caller : signer_account_id e = node_account /\ attached_deposit e = (10 ^ 24)%Z;
  bd_leader : get_current_slot_leader e c = Ret (Some node_account);
  bd_key : exists node, um_get (active_nodes c) node_account = Some node /\ bn254_public_key node = bn;
  bd_same : requests_root c = root /\ last_generated_random_number c = random;
  bd_epoch : (get_current_epoch e <= last_processed_epoch c)%Z;
  bd_committee : exists committee, lm_get (committees c) (get_current_epoch e) = Some committee /\ Forall (member_registered c committee) ms;
  bd_batches : (0 <= num_batches c < 2 ^ 64 - 1)%Z;
  bd_storage : forall ls, storage_affordable e c (batch_posted e ls c);
}.

Lemma leader_signature_valid root random ms e c lsg ls :
  node_ready -> batch_due root random ms e c -> ecdsa_sign (le_bytes 32 random) (signing_key P) = Some lsg ->
  sig_to_uncompressed lsg = Some ls -> leads_slot e c ls.
Proof.
  intros Hr [[Hme _] Hl (node & Hn & Hb) [_ Hrnd] _ _ _ _] Hs Hls. unfold leads_slot. rewrite Hme. split; [exact Hl|].
  exists node. split; [exact Hn|]. destruct (nd_bn254 Hr) as (_ & Hpk & _). rewrite Hb, Hrnd. unfold U256_to_le_bytes.
  rewrite (pairing_verifies _ _ _ _ _ Hls Hpk). f_equal. by apply sign_verifies.
Qed.

Lemma submission_accepted root random ms s lsg ls e c :
  node_ready -> gathered root ms s -> ms <> [] -> ecdsa_sign (le_bytes 32 random) (signing_key P) = Some lsg ->
  sig_to_uncompressed lsg = Some ls -> batch_due root random ms e c ->
  exists v', exec e (PostSignedBatch (aggregated_signature s) (aggregated_public_keys s) (store_signers s) ls) (mkVm c []) = Ret (tt, v') /\
    closes_batch c (self v').
Proof.
  intros Hr Hg Hne Hs Hls Hd. pose proof (leader_signature_valid _ _ _ _ _ _ _ Hr Hd Hs Hls) as Hlead.
  destruct Hd as [_ _ _ [Hroot _] He (committee & Hc & Hreg) Hb Hst].
  destruct (gathered_registered _ _ _ _ _ Hg Hreg) as (es & Hh & Hlen & Hhd & Hes).
  destruct (post_signed_batch_eq e (aggregated_signature s) (aggregated_public_keys s) (store_signers s) ls (mkVm c []))
    as (v' & Hx & Hv'); [exact He|exact Hlead| |exact Hb|apply Hst|].
  { eapply store_signed_by; [exact Hh| |by rewrite Hhd|exact Hc|exact Hes]. intros ->. by destruct ms. }
  exists v'. split; [exact Hx|]. rewrite Hv'. by apply batch_posted_closes.
Qed.

(** The tick of [w] ends well, having made one call on the chain with the node's
    keys and a deposit of one NEAR: a call that closes the batch wherever it is
    due. *)
Definition submits (root : bytes) (random : Z) (ms : list Member) (h3 : H) (w : VmWorld H) : Prop :=
  exists res w' h4 args reply call,
    handle_runtime_job P 4 worker batch_tick_event w = Ret (res, w') /\ exit_code (exit_info res) = 0%Z /\
    (h4 = h3 \/ exists d, p2p_send (Broadcast d) h3 = Some h4) /\
    chain_call Near (contract_account_id keys) "post_signed_batch" args (10 ^ 24) keys h4 = (reply, vm_host w') /\
    call_of_json "post_signed_batch" args = Some call /\
    forall e c, batch_due root random ms e c -> exists v', exec e call (mkVm c []) = Ret (tt, v') /\ closes_batch c (self v').

Lemma leader_tick_submits c e w h3 s ms :
  node_ready -> sees c e (vm_host w) h3 -> current_store (vm_shared w) = Some s -> gathered (requests_root c) ms s -> ms <> [] ->
  get_current_slot_leader e c = Ret (Some node_account) -> committee_size (config c) = Z.of_nat (length ms) ->
  submits (requests_root c) (last_generated_random_number c) ms h3 w.
Proof.
  intros Hr Hsees Hst Hg Hne Hl Hsz. destruct (node_tick_ready _ _ _ _ _ _ Hr Hsees Hst Hl) as (cf & Hcf & Ht).
  destruct (batch_tick_runs P ov keys path bn _ _ _ _ _ Ht)
    as (res & w' & broadcast & submitted & ss & Hjob & Hx & Ha & Hold & _ & Hiff & Hshape).
  assert (submitted <> []) as Hsub.
  { apply Hiff. split; [by apply bool_decide_eq_true|]. cbn. by rewrite Hcf, (gathered_size _ _ _ Hg). }
  destruct Hshape as [?|(lsg & ls & Hsg & Hls & ->)]; [done|].
  set (led := led_store (node_inputs c e s (Some node_account))) in *.
  assert (gathered (requests_root c) ms led) as Hled.
  { unfold led, led_store. cbn. case_bool_decide; [|done]. destruct Hg as (es & ? & ?). by exists es. }
  assert (requests_root c = batch_header s) as Hhd by (by destruct Hg as (? & _ & -> & _)).
  destruct (Hold Hhd) as [_ Hbc].
  assert (exists h4 ss', (h4 = h3 \/ exists d, p2p_send (Broadcast d) h3 = Some h4) /\
    answers (WE := program_engine P) rt (action <$> [submission (contract_account_id keys) led ls (10 ^ 24)])
      (mkVmWorld (vm_shared w') ∅ h4) = Some (ss', w')) as (h4 & ss' & Hh4 & Hsubm).
  { revert Ha Hbc. case_decide; intros Ha ->; [exists h3, ss; by split; [left|]|].
    apply broadcast_then in Ha as (h4 & ss' & Hp & Ha). exists h4, ss'. split; [right; by eexists|done]. }
  destruct (chain_call Near (contract_account_id keys) "post_signed_batch" (string_bytes (post_signed_batch_json
    (aggregated_signature led) (aggregated_public_keys led) (store_signers led) ls)) (10 ^ 24) keys h4) as [reply h5] eqn:Ecall.
  rewrite (submission_answer P ov keys _ led ls _ _ ∅ h4 _ _ Ecall) in Hsubm. injection Hsubm as _ Hw'.
  eexists res, w', h4, _, reply, _. split_and!; [exact Hjob|done|exact Hh4|by rewrite <- Hw'|apply signed_batch_json|].
  intros e' c' Hd. by eapply submission_accepted.
Qed.

(** ** A request of another contract *)


End round.

(** ** The committee *)

Section committee.
Context `{NS : NearSdk} `{BN : Bn254} `{KC : !KeyCrates} `{CJ : ConsensusJson} `{OJ : !OracleJson} `{TP : TaskParser}.
Context `{BL : !Bn254Laws} `{SL : !SignatureLaws} `{AL : !AggregateLaws} `{LP : Libp2p}.
Context {H : Type} `{HA : HostAdapter H} `{PC : P2PChannel H}.

(** A node: its build, keys and engine, and its world *)
Record Peer := mkPeer {
  p_overflow : bool; p_keys : NodeKeys; p_path : string; p_bn : bytes; p_engine : EngineParams H; p_world : VmWorld H;
}.

Definition peer_member (p : Peer) : Member := myself (p_engine p) (p_keys p) (p_bn p).
Definition peer_account (p : Peer) : AccountId := node_account (p_keys p).
Definition peer_tick (p : Peer) : outcome (VmResult * VmWorld H) :=
  handle_runtime_job (p_engine p) 4 (consensus_worker (p_engine p) (p_overflow p) (p_keys p) (p_path p)) batch_tick_event (p_world p).

(** The node is set up and sees the contract with this root, in a state and a block
    of its own; the root is new to it. *)
Definition peer_ready (root : bytes) (p : Peer) (h3 : H) : Prop :=
  node_ready (p_engine p) (p_overflow p) (p_keys p) (p_bn p) /\
  exists c e s, sees (p_keys p) c e (vm_host (p_world p)) h3 /\ requests_root c = root /\
    current_store (vm_shared (p_world p)) = Some s /\ new_root (p_keys p) c e s.

(** The tick of the node ends well, and after the views it has done one thing: to
    hand this message to the P2P server. *)
Definition broadcasts (p : Peer) (h3 : H) (data : bytes) (w' : VmWorld H) : Prop :=
  exists res, peer_tick p = Ret (res, w') /\ exit_code (exit_info res) = 0%Z /\ p2p_send (Broadcast data) h3 = Some (vm_host w').

Lemma ready_broadcasts root p h3 :
  peer_ready root p h3 ->
  exists w' s data, broadcasts p h3 data w' /\ publishes root (peer_member p) data /\
    current_store (vm_shared w') = Some s /\ gathered root [peer_member p] s.
Proof.
  intros (Hr & c & e & s0 & Hsees & <- & Hst & Hnew).
  destruct (first_tick _ _ _ (p_path p) _ _ _ _ _ _ Hr Hsees Hst Hnew) as (res & w' & s & data & Hjob & Hx & Hp & Hpub & Hs & Hg).
  exists w', s, data. split_and!; [by exists res|done..].
Qed.

Lemma all_broadcast root ps h3s :
  Forall2 (peer_ready root) ps h3s ->
  exists datas, Forall2 (fun '(p, h3) data => (exists w', broadcasts p h3 data w') /\ publishes root (peer_member p) data)
    (zip ps h3s) datas.
Proof.
  induction 1 as [|p h3 ps h3s Hp _ [datas Hd]]; [by exists []|].
  destruct (ready_broadcasts _ _ _ Hp) as (w' & _ & data & Hb & Hpub & _). exists (data :: datas). constructor; [|done]. split; [by exists w'|done].
Qed.

Lemma ready_key root p h3 : peer_ready root p h3 -> pk_to_uncompressed (member_key (peer_member p)) = Some (p_bn p).
Proof. intros (Hr & _). by destruct (nd_bn254 _ _ _ _ Hr) as (_ & ? & _). Qed.

Lemma members_published root ps h3s datas msgs (D : P2PMessage -> Prop) :
  length ps = length h3s ->
  Forall2 (fun '(p, h3) data => (exists w', broadcasts p h3 data w') /\ publishes root (peer_member p) data) (zip ps h3s) datas ->
  Forall2 arrives datas msgs -> Forall D msgs ->
  Forall2 (fun m msg => publishes root m (message_data msg) /\ D msg) (peer_member <$> ps) msgs.
Proof.
  revert h3s datas msgs. induction ps as [|p ps IH]; intros [|h3 h3s] datas msgs Hlen Hd Ha HD; try done.
  - inversion Hd; subst. inversion Ha; subst. constructor.
  - apply Forall2_cons_inv_l in Hd as (data & ds & [_ Hp] & Hds & ->). apply Forall2_cons_inv_l in Ha as (msg & ms & Hm & Hms & ->).
    cbn in Hlen. apply Forall_cons in HD as [HD1 HD2]. constructor; [by rewrite (arrives_data _ _ Hm)|]. eapply IH; [|done..]. lia.
Qed.


End committee.

(** ** A concrete oracle *)

Module RefOracle.
Import RefSdk RefConsensus RefJobs.

(** A signature is the product of the key and a number that stands for the point
    of the message. *)
Definition point (m : bytes) : Z := (1 + le_val m)%Z.
Definition bls_sign (m : bytes) (k : Z) : Z := wrap 512 (k * point m).

#[refine] Instance bls_bn254 : Bn254 := {|
  PublicKey := Z; Signature := Z; PrivateKey := Z;
  pk_from_uncompressed := pk_from_uncompressed (Bn254 := ref_bn254);
  pk_to_uncompressed := pk_to_uncompressed (Bn254 := ref_bn254);
  pk_add a b := wrap 1024 (a + b);
  sig_from_uncompressed := sig_from_uncompressed (Bn254 := ref_bn254);
  sig_to_uncompressed := sig_to_uncompressed (Bn254 := ref_bn254);
  sig_add a b := wrap 512 (a + b);
  ecdsa_sign m k := Some (bls_sign m k);
  ecdsa_verify m s k := (s =? bls_sign m k)%Z;
  format_pairing_check_uncompressed_values := format_pairing_check_uncompressed_values (Bn254 := ref_bn254);
  alt_bn128_pairing_check v :=
    if (le_val (take 64 v) =? wrap 512 (le_val (take 128 (drop 64 v)) * point (drop 192 v)))%Z then 1%Z else 0%Z
|}.
Proof.
  - apply (@pk_roundtrip ref_bn254).
  - apply (@sig_roundtrip ref_bn254).
Defined.

#[export] Instance bls_crates : KeyCrates (BN := bls_bn254).
Proof.
  refine {|
    to_hex := String.string_of_list_byte; of_hex s := Some (string_bytes s);
    derive_key k info := None; bn254_private_try_from bs := Some (le_val bs); bn254_from_private_key k := k;
    Ed25519PrivateKey := bytes; Ed25519PublicKey := bytes; ed25519_from_bytes := Some;
    ed25519_public k := k; ed25519_private_bytes k := k; ed25519_public_bytes k := k;
  |}.
  intros bs. unfold string_bytes. by rewrite String.list_byte_of_string_of_list_byte.
Defined.

#[export] Instance bls_laws : Bn254Laws (BN := bls_bn254).
Proof.
  split.
  - intros s bs. cbn [sig_to_uncompressed bls_bn254 ref_bn254]. destruct (in_width 512 s); [|done]. intros <-%(inj Some). apply length_le_bytes.
  - intros k bs. cbn [pk_to_uncompressed bls_bn254 ref_bn254]. destruct (in_width 1024 k); [|done]. intros <-%(inj Some). apply length_le_bytes.
  - intros m sk s [= <-]. apply Z.eqb_refl.
Qed.

#[export] Instance bls_signature_laws : SignatureLaws (BN := bls_bn254).
Proof.
  split.
  - intros m s pk sb pb. cbn [sig_to_uncompressed pk_to_uncompressed bls_bn254 ref_bn254].
    destruct (in_width 512 s) eqn:Es; [|done]. destruct (in_width 1024 pk) eqn:Ep; [|done].
    intros <-%(inj Some) <-%(inj Some). unfold NodeRegistry.bn254_verify.
    cbn [format_pairing_check_uncompressed_values bls_bn254 ref_bn254].
    rewrite decide_True by (split; apply length_le_bytes). cbn [unwrap mbind outcome_bind alt_bn128_pairing_check bls_bn254].
    rewrite take_app_length', drop_app_length', take_app_length' by (symmetry; apply length_le_bytes).
    rewrite app_assoc, drop_app_length' by (by rewrite length_app, !length_le_bytes).
    rewrite (le_val_le_bytes_in 64), (le_val_le_bytes_in 128) by (by apply in_width_spec).
    cbn [ecdsa_verify bls_bn254]. unfold bls_sign. match goal with |- context [if ?b then _ else _] => by destruct b end.
  - intros m s sk. cbn [ecdsa_verify ecdsa_sign bls_bn254]. by intros ->%Z.eqb_eq.
Qed.

#[export] Instance bls_aggregate_laws : AggregateLaws (BN := bls_bn254).
Proof.
  split. intros m s1 k1 s2 k2. cbn [ecdsa_verify sig_add pk_add bls_bn254]. intros ->%Z.eqb_eq ->%Z.eqb_eq. apply Z.eqb_eq. unfold bls_sign, wrap.
  rewrite <- Z.add_mod, <- Z.mul_add_distr_r by done.
  rewrite <- (Z.mul_mod_idemp_l _ (point m) (2 ^ 512)), <- (Z.mul_mod_idemp_l ((k1 + k2) mod 2 ^ 1024)) by done.
  f_equal. f_equal. symmetry. apply Z.mod_mod_divide. by exists (2 ^ 512)%Z.
Qed.

(** JSON as an encoding of tuples *)
Definition enc {T} `{Countable T} (x : T) : string := RefWasm.pos_string (encode x).
Lemma dec_enc {T} `{Countable T} (x : T) : RefWasm.of_json (enc x) = Ok x.
Proof. unfold RefWasm.of_json, enc. by rewrite RefWasm.string_pos_string, decode_encode. Qed.
Definition of_bytes {T} `{Countable T} (bs : bytes) : result T string := RefWasm.of_json (String.string_of_list_byte bs).
Lemma of_bytes_enc {T} `{Countable T} (x : T) : of_bytes (string_bytes (enc x)) = Ok x.
Proof. unfold of_bytes, string_bytes. rewrite String.string_of_list_byte_of_string. apply dec_enc. Qed.
Definition mapped {A B} (f : A -> B) (r : result A string) : result B string :=
  match r with Ok x => Ok (f x) | Err e => Err e end.

#[export] Instance oracle_texts : ConsensusJson.
Proof.
  refine {|
    store_to_json := store_to_json (ConsensusJson := small_json); store_of_json := store_of_json (ConsensusJson := small_json);
    message_to_json := message_to_json (ConsensusJson := small_json); message_of_json := message_of_json (ConsensusJson := small_json);
    merkle_root_of_json bs := mapped (fun x => mkComputeMerkleRootResult x.1.1 x.1.2 x.2) (of_bytes bs);
    main_config_of_json bs := mapped (fun x => mkMainChainConfig x.1.1.1 x.1.1.2 x.1.2 x.2) (of_bytes bs);
    string_of_json bs := Ok (String.string_of_list_byte bs);
    post_signed_batch_json a b c d := enc (a, b, c, d);
    data_request_json d := d;
    u256_from_dec_str t := match RefWasm.of_json t with Ok n => Some n | Err _ => None end;
  |}.
  - apply (@store_json small_json).
  - apply (@message_json small_json).
Defined.

#[export] Instance oracle_json : OracleJson (NS := ref_sdk).
Proof.
  refine {|
    root_to_json r := string_bytes (enc (merkle_root r, current_slot r, current_slot_leader r));
    config_to_json c := string_bytes (enc (minimum_stake c, epoch_delay_for_election c, committee_size c, withdraw_delay c));
    u256_to_json n := string_bytes (enc n);
    call_of_json f args :=
      if decide (f = "post_signed_batch"%string) then
        match of_bytes args with Ok (a, b, c, d) => Some (PostSignedBatch a b c d) | Err _ => None end
      else if decide (f = "post_data_request"%string) then Some (PostDataRequest (String.string_of_list_byte args))
      else None;
  |}.
  - intros []. cbn -[enc of_bytes]. by rewrite of_bytes_enc.
  - intros c. cbn -[enc of_bytes]. by rewrite of_bytes_enc.
  - intros n _. exists (enc n). unfold string_bytes. cbn -[enc RefWasm.of_json].
    by rewrite String.string_of_list_byte_of_string, dec_enc.
  - intros a b c d. rewrite decide_True by done. cbn [post_signed_batch_json oracle_texts]. by rewrite of_bytes_enc.
  - intros t. rewrite decide_False, decide_True by done. unfold string_bytes. cbn [data_request_json oracle_texts].
    by rewrite String.string_of_list_byte_of_string.
Defined.

(** Two nodes are active and form the committee of epoch 2; one request has been
    accumulated. *)
Definition ann_ed : bytes := replicate 32 x61.
Definition ben_ed : bytes := replicate 32 x62.
Definition ann_bn : bytes := le_bytes 128 5.
Definition ben_bn : bytes := le_bytes 128 7.
Definition ann : AccountId := String.string_of_list_byte ann_ed.
Definition ben : AccountId := String.string_of_list_byte ben_ed.

Definition oracle_start : MainchainContract :=
  set_active_nodes (um_insert (um_insert um_new ann (mkNode EmptyString 0 ann_bn ann_ed)) ben (mkNode EmptyString 0 ben_bn ben_ed))
    (set_committees (lm_insert lm_new 2%Z [ann; ben])
      (set_last_processed_epoch 2
        (set_data_request_accumulator (vec_push vec_new "price"%string) Scenario.genesis))).

(** Storage is counted in batches and requests.  The caller is Ann. *)
Definition block_at (h : Z) : Env :=
  mkEnv h ann ann_ed (10 ^ 24) (10 ^ 19) (fun s => 1000 * num_batches s + 10 * Z.of_nat (length (vec_to_vec (data_request_accumulator s))))%Z
    true true 4.

Definition paying (deposit : Z) (e : Env) : Env :=
  mkEnv (block_height e) (signer_account_id e) (signer_account_pk e) deposit (storage_byte_cost e) (storage_usage e) (state_exists e)
    (overflow_checks e) (gas e).

(** A host that answers the views of the oracle contract in a block, and those of
    another contract with a price, and keeps a log of the calls and messages *)
Record RefHost := mkRefHost {
  host_contract : MainchainContract; host_block : Env;
  host_calls : list (string * bytes * Z); host_sent : list P2PCommand;
}.
Definition oracle_view (env : Env) (f : string) (s : MainchainContract) : option bytes :=
  if decide (f = "compute_merkle_root"%string) then
    match compute_merkle_root env s with Ret r => Some (root_to_json r) | Panic _ => None end
  else if decide (f = "get_config"%string) then Some (config_to_json (config s))
  else if decide (f = "get_last_generated_random_number"%string) then
    Some (u256_to_json (last_generated_random_number s))
  else None.

#[export] Instance ref_host : HostAdapter RefHost := {|
  HostError := string;
  db_get k h := (Err k, h);
  db_set k _ h := (Err k, h);
  http_fetch u h := (Err u, h);
  chain_call _ _ f args deposit _ h :=
    (Ok [], mkRefHost (host_contract h) (host_block h) (host_calls h ++ [(f, args, deposit)]) (host_sent h));
  chain_view _ a f _ h :=
    (if decide (a = "oracle"%string) then
       match oracle_view (host_block h) f (host_contract h) with Some bs => Ok bs | None => Err f end
     else Ok [x34; x32], h);
  trigger_event e h := (Ok tt, h);
|}.
#[export] Instance ref_channel : P2PChannel RefHost :=
  fun c h => Some (mkRefHost (host_contract h) (host_block h) (host_calls h) (host_sent h ++ [c])).

Definition host_at (h : Z) : RefHost := mkRefHost oracle_start (block_at h) [] [].
Definition keys_of (ed : bytes) (k : Z) : NodeKeys := mkNodeKeys "oracle" ed (Some (le_bytes 128 k)).
Definition engine_of (k : Z) : EngineParams RefHost :=
  {| compile _ := None; wasi_ok _ _ _ := true; printed _ _ _ := (EmptyString, EmptyString); trapped _ _ w := w; signing_key := k |}.
Definition peer_at (ed : bytes) (k h : Z) : Peer :=
  mkPeer true (keys_of ed k) EmptyString (le_bytes 128 k) (engine_of k) (mkVmWorld ∅ ∅ (host_at h)).

Lemma sig_encodes n : is_Some (sig_to_uncompressed (Bn254 := bls_bn254) (wrap 512 n)).
Proof.
  cbn [sig_to_uncompressed bls_bn254 ref_bn254]. rewrite (proj2 (in_width_spec 512 (wrap 512 n))); [by eexists|]. by apply Z.mod_pos_bound.
Qed.

Lemma ref_ready ed k :
  pk_to_uncompressed (Bn254 := bls_bn254) k = Some (le_bytes 128 k) ->
  node_ready (KC := bls_crates) (engine_of k) true (keys_of ed k) (le_bytes 128 k).
Proof.
  intros Hk. split; [done| |done]. split; [done|]. split; [exact Hk|].
  intros m. eexists _. destruct (sig_encodes (k * point m)) as [sb Hsb].
  exists sb. split; [done|]. split; [exact Hsb|by eapply sig_size].
Qed.

Lemma ref_view f bs h :
  oracle_view (host_block h) f (host_contract h) = Some bs -> chain_view Near "oracle" f [] h = (Ok bs, h).
Proof. intros E. cbn [chain_view ref_host]. by rewrite decide_True, E by done. Qed.

Lemma ref_sees ed k h calls sent :
  let w := mkRefHost oracle_start (block_at h) calls sent in
  is_ret (compute_merkle_root (block_at h) oracle_start) = true -> sees (keys_of ed k) oracle_start (block_at h) w w.
Proof.
  intros w Hr. destruct (compute_merkle_root (block_at h) oracle_start) as [r|] eqn:E; [|done]. split; [|by vm_compute|by intros d; eexists].
  exists r. split; [exact E|]. exists w, w. cbn [keys_of contract_account_id].
  split_and!; apply ref_view; unfold oracle_view; cbn [host_block host_contract w].
  - rewrite decide_True by reflexivity. by rewrite E.
  - rewrite decide_False, decide_True by done. reflexivity.
  - do 2 rewrite decide_False by done. rewrite decide_True by reflexivity. reflexivity.
Qed.

Lemma ref_peer_ready ed k h :
  pk_to_uncompressed (Bn254 := bls_bn254) k = Some (le_bytes 128 k) ->
  is_ret (compute_merkle_root (block_at h) oracle_start) = true -> is_ret (get_current_slot_leader (block_at h) oracle_start) = true ->
  peer_ready (requests_root oracle_start) (peer_at ed k h) (host_at h).
Proof.
  intros Hk Hr Hl. split; [by apply ref_ready|]. exists oracle_start, (block_at h), BatchSignatureStore_default.
  split; [by apply ref_sees|]. split; [done|]. split; [done|]. split; [by vm_compute|].
  destruct (get_current_slot_leader (block_at h) oracle_start) as [leader|]; [|done]. exists leader. split; [done|right; by vm_compute].
Qed.

Lemma pk_encodes n : is_Some (pk_to_uncompressed (Bn254 := bls_bn254) (wrap 1024 n)).
Proof.
  cbn [pk_to_uncompressed bls_bn254 ref_bn254]. rewrite (proj2 (in_width_spec 1024 (wrap 1024 n))); [by eexists|]. by apply Z.mod_pos_bound.
Qed.

Lemma two_sums root m1 m2 :
  is_Some (pk_to_uncompressed (member_key (KC := bls_crates) m1)) -> sums_encode (KC := bls_crates) root [m1; m2].
Proof.
  intros Hk ms1 ms2 sgs Hms Hne Hs. destruct ms1 as [|x1 [|x2 [|x3 ms1]]]; [done|injection Hms as <- _|injection Hms as <- <- _|].
  - inversion Hs as [|? sg ? ? H1 H2]; subst. inversion H2; subst. injection H1 as <-. split; [apply sig_encodes|exact Hk].
  - inversion Hs as [|? sg ? ? H1 H2]; subst. inversion H2 as [|? sg' ? ? H3 H4]; subst. inversion H4; subst.
    split; [apply sig_encodes|apply pk_encodes].
  - apply (f_equal length) in Hms. cbn in Hms. lia.
Qed.

Lemma both_registered :
  Forall (member_registered (KC := bls_crates) oracle_start [ann; ben]) (peer_member <$> [peer_at ann_ed 5 650; peer_at ben_ed 7 640]).
Proof.
  apply Forall_cons. split; [|apply Forall_cons; split; [|apply Forall_nil_2]].
  - split; [by vm_compute|]. split; [left|]. eexists. split; by vm_compute.
  - split; [by vm_compute|]. split; [right; left|]. eexists. split; by vm_compute.
Qed.

Lemma ann_due :
  batch_due (KC := bls_crates) (keys_of ann_ed 5) ann_bn (requests_root oracle_start) (last_generated_random_number oracle_start)
    (peer_member <$> [peer_at ann_ed 5 650; peer_at ben_ed 7 640]) (block_at 661) oracle_start.
Proof.
  split; [done|by vm_compute|eexists; split; by vm_compute|done|by vm_compute| |by vm_compute|].
  - exists [ann; ben]. split; [by vm_compute|exact both_registered].
  - intros ls. split; [split|]; by vm_compute.
Qed.

End RefOracle.

Section witnesses.
Import RefSdk RefConsensus RefPeers RefJobs RefOracle.

Abbreviation ann_peer := (peer_at ann_ed 5 650).
Abbreviation ben_peer := (peer_at ben_ed 7 640).
Abbreviation ann_worker := (consensus_worker (engine_of 5) true (keys_of ann_ed 5) EmptyString).


Definition price_bridge : Bridge := mkBridge Another "feed" "price" (mkInt (10 ^ 23)) "{}".


End witnesses.
