(* ===== verification/GuestPrograms.v ===== *)
(** * The other guest programs

    The programs of [src/wasm/test] and [src/wasm/cli] on the runtime
    ([Execution]), and the adapter that the runtime's own tests use
    ([src/runtime/core/src/test_host.rs]).  Each program is run from its entry
    point to the end: what the tests of [src/runtime/core/src/runtime_test.rs]
    assert of one input is shown for all of them.

    The lines that the programs print are left out.  The command lines are parsed
    by [clap], a parameter. *)

From Stdlib Require Import Ascii.
From S2P Require Import Prelude NearSdk Sdk Runtime Imports Crypto Config Guest Consensus ConsensusTheorems Chains Node NodeHost Execution Cli.

(** ** Hexadecimal digits and decimal numbers *)

Definition to_digit16 (c : byte) : option Z :=
  let n := byte_val c in
  if ((48 <=? n) && (n <=? 57))%Z then Some (n - 48)%Z
  else if ((97 <=? n) && (n <=? 102))%Z then Some (n - 87)%Z
  else if ((65 <=? n) && (n <=? 70))%Z then Some (n - 55)%Z
  else None.

(** [u8::from_str_radix(_, 16)] on a text of two bytes: a sign is accepted *)
Definition u8_from_str_radix16 (a b : byte) : result byte string :=
  match to_digit16 a, to_digit16 b with
  | Some x, Some y => Ok (byte_of_Z (x * 16 + y)%Z)
  | None, Some y => if bool_decide (a = x2b) then Ok (byte_of_Z y) else Err "invalid digit found in string"%string
  | _, None => Err "invalid digit found in string"%string
  end.

(** [&s[i..i + 2]]: a range past the end, or one that splits a character, panics *)
Definition is_continuation (b : byte) : bool := ((128 <=? byte_val b) && (byte_val b <? 192))%Z.
Definition slice2 (rest : bytes) : outcome (byte * byte * bytes) :=
  match rest with
  | a :: b :: tail =>
      if is_continuation a || match tail with c :: _ => is_continuation c | [] => false end
      then Panic "byte index is not a char boundary" else Ret (a, b, tail)
  | _ => Panic "byte index is out of bounds"
  end.

(** The digits are decoded in order, up to the first error. *)
Fixpoint decode_hex_from (fuel : nat) (rest : bytes) : outcome (result bytes string) :=
  match fuel, rest with
  | _, [] => Ret (Ok [])
  | O, _ => Panic "out of fuel"
  | S fuel, _ =>
      '(a, b, tail) ← slice2 rest;
      match u8_from_str_radix16 a b with
      | Err e => mret (Err e)
      | Ok x => r ← decode_hex_from fuel tail; mret (match r with Ok l => Ok (x :: l) | Err e => Err e end)
      end
  end.
Definition decode_hex (s : string) : outcome (result bytes string) :=
  decode_hex_from (length (string_bytes s)) (string_bytes s).

Definition hex_char (n : Z) : byte := byte_of_Z (if n <? 10 then 48 + n else 87 + n)%Z.
Definition hex2 (b : byte) : bytes := [hex_char (byte_val b / 16)%Z; hex_char (byte_val b mod 16)%Z].
Definition encode_hex (bs : bytes) : string := String.string_of_list_byte (bs ≫= hex2).

(** [u8] in decimal, and the debug format of [Vec<u8>] *)
Definition dec_char (n : Z) : byte := byte_of_Z (48 + n)%Z.
Definition u8_display (b : byte) : bytes :=
  let n := byte_val b in
  if (n <? 10)%Z then [dec_char n]
  else if (n <? 100)%Z then [dec_char (n / 10)%Z; dec_char (n mod 10)%Z]
  else [dec_char (n / 100)%Z; dec_char (n / 10 mod 10)%Z; dec_char (n mod 10)%Z].
Fixpoint debug_items (bs : bytes) : bytes :=
  match bs with
  | [] => []
  | [b] => u8_display b
  | b :: bs => u8_display b ++ [x2c; x20] ++ debug_items bs
  end.
Definition debug_bytes (bs : bytes) : string := String.string_of_list_byte ([x5b] ++ debug_items bs ++ [x5d]).

(** *** Round trip *)

Lemma hex2_digits b :
  exists x y, hex2 b = [x; y] /\ u8_from_str_radix16 x y = Ok b /\ is_continuation x = false.
Proof. eexists _, _. split; [reflexivity|]. by destruct b. Qed.

Lemma length_hex bs : length (bs ≫= hex2) = 2 * length bs.
Proof. induction bs as [|b bs IH]; cbn; [done|]. cbn in IH. rewrite IH. lia. Qed.

Lemma decode_hex_from_eq bs fuel : length bs <= fuel -> decode_hex_from fuel (bs ≫= hex2) = Ret (Ok bs).
Proof.
  revert fuel. induction bs as [|b bs IH]; intros [|fuel] Hf; cbn [length] in Hf; [done|done|lia|].
  destruct (hex2_digits b) as (x & y & E & Hr & Hx). cbn [mbind list_bind]. rewrite E. cbn [app decode_hex_from slice2].
  rewrite Hx. change (list_bind _ _ hex2 bs) with (bs ≫= hex2).
  assert (match bs ≫= hex2 with c :: _ => is_continuation c | [] => false end = false) as ->.
  { destruct bs as [|b2 bs]; [done|]. destruct (hex2_digits b2) as (x2 & y2 & E2 & _ & Hx2). cbn [mbind list_bind]. by rewrite E2. }
  cbn [orb mbind outcome_bind]. rewrite Hr, IH by lia. done.
Qed.

(** What is encoded can be decoded. *)
Theorem hex_roundtrip bs : decode_hex (encode_hex bs) = Ret (Ok bs).
Proof.
  unfold decode_hex, encode_hex, string_bytes. rewrite String.list_byte_of_string_of_list_byte.
  apply decode_hex_from_eq. rewrite length_hex. lia.
Qed.

(** But not everything that is decoded was encoded: a sign counts as a digit, and
    a text of odd length, or one that splits a character, panics instead of
    returning the error. *)
Lemma decode_hex_lenient :
  decode_hex "+f" = Ret (Ok [x0f]) /\ is_ret (decode_hex "abc") = false /\
  decode_hex "zz" = Ret (Err "invalid digit found in string"%string).
Proof. by split_and!. Qed.

(** ** The test program *)

Section test_program.
Context `{BN : Bn254} `{KC : !KeyCrates}.

(** [args.get(i).unwrap()] *)
Definition arg (args : list string) (i : nat) : M Guest string := lift (unwrap unwrap_none (args !! i)).
Definition unwrap_result {T E} (r : result T E) : outcome T :=
  match r with Ok x => Ret x | Err _ => Panic "called `Result::unwrap()` on an `Err` value" end.
Definition unwrap_decoded (s : string) : M Guest bytes := r ← lift (decode_hex s); lift (unwrap_result r).
Definition unwrap_string (bs : bytes) : M Guest string := r ← lift (from_bytes (T := string) bs); lift (unwrap_result r).

Definition promise_main : M Guest unit :=
  _ ← enqueue (guest_db_set "from_wasm" "somevalue");
  _ ← enqueue (guest_db_get "from_wasm");
  enqueue (call_self "db_fetch_success" ["ArgFromInsideWasm"%string]).
Definition db_fetch_success : M Guest unit :=
  _ ← result_at 1;
  _ ← enqueue (guest_db_set "another_one" "a");
  _ ← enqueue (guest_db_set "x" "y");
  _ ← enqueue (guest_db_get "another_one");
  enqueue (call_self "completed_all" []).
Definition completed_all : M Guest unit :=
  _ ← enqueue (guest_db_set "test_value" "completed");
  _ ← result_at 2; mret tt.

Definition http_fetch_test (args : list string) : M Guest unit :=
  url ← arg args 1;
  _ ← enqueue (guest_http_fetch url);
  enqueue (call_self "http_fetch_test_success" []).
Definition http_fetch_test_success : M Guest unit :=
  result ← result_at 0;
  match result with
  | Fulfilled (Some bs) => value_to_store ← unwrap_string bs; enqueue (guest_db_set "http_fetch_result" value_to_store)
  | _ => mret tt
  end.

Definition memory_adapter_test_success : M Guest unit :=
  let value := to_bytes (mkInt 234 : u8) in
  _ ← private_set "u8" value;
  read_value ← private_get "u8";
  _ ← assert_ (bool_decide (read_value = value)) "assertion failed: `(left == right)`";
  _ ← private_set "u32" (to_bytes (mkInt 3467 : u32));
  enqueue (call_self "memory_adapter_callback_test_success" []).
Definition memory_adapter_callback_test_success : M Guest unit :=
  read_value ← private_get "u8";
  _ ← enqueue (guest_db_set "u8_result" (debug_bytes read_value));
  read_value ← private_get "u32";
  enqueue (guest_db_set "u32_result" (debug_bytes read_value)).

Definition test_setting_execution_result : M Guest unit :=
  _ ← enqueue (guest_db_set "random_key" "random_value");
  enqueue (call_self "test_setting_execution_result_step1" []).
Definition test_setting_execution_result_step1 : M Process unit := execution_result (to_bytes "test-success"%string).

Definition test_limited_runtime : M Guest unit :=
  _ ← enqueue (guest_db_set "foo" "bar");
  enqueue (call_self "test_rejected" []).
Definition test_error_turns_into_rejection : M Guest unit :=
  _ ← enqueue (guest_http_fetch "fail!");
  enqueue (call_self "test_rejected" []).
Definition test_rejected : M Guest unit :=
  result ← result_at 0;
  match result with
  | Rejected rejected => _ ← unwrap_string rejected; mret tt
  | _ => panic "didn't reject"
  end.

Definition bool_display (b : bool) : string := if b then "true" else "false".
Definition bn254_verify_test (args : list string) : M Guest unit :=
  message_hex ← arg args 1;
  message ← unwrap_decoded message_hex;
  signature_hex ← arg args 2;
  signature_bytes ← unwrap_decoded signature_hex;
  signature ← lift (unwrap "called `Result::unwrap()` on an `Err` value" (sig_from_uncompressed signature_bytes));
  public_key_hex ← arg args 3;
  public_key_bytes ← unwrap_decoded public_key_hex;
  public_key ← lift (unwrap "called `Result::unwrap()` on an `Err` value" (pk_from_uncompressed public_key_bytes));
  result ← verify message signature public_key;
  enqueue (guest_db_set "bn254_verify_result" (bool_display result)).
Definition bn254_sign_test (args : list string) : M Guest unit :=
  message_hex ← arg args 1;
  message ← unwrap_decoded message_hex;
  private_key_hex ← arg args 2;
  private_key_bytes ← unwrap_decoded private_key_hex;
  _ ← lift (unwrap "called `Result::unwrap()` on an `Err` value" (bn254_private_try_from private_key_bytes));
  result ← sign message;
  result_bytes ← lift (unwrap "called `Result::unwrap()` on an `Err` value" (sig_to_uncompressed result));
  enqueue (guest_db_set "bn254_sign_result" (encode_hex result_bytes)).

Definition shared_memory_test : M Guest unit := shared_memory_set "foo" (to_bytes "bar"%string).
Definition shared_memory_success : M Guest unit :=
  foo_get ← shared_memory_get "foo";
  bar ← unwrap_string foo_get;
  assert_ (bool_decide (bar = "bar"%string)) "assertion failed: `(left == right)`".

(** *** When they return *)

Lemma unwrap_string_eq t g : valid_string t = true -> unwrap_string (string_bytes t) g = Ret (t, g).
Proof.
  intros Ht. unfold unwrap_string, lift, mbind, M_bind. pose proof (codec_roundtrip (T := string) t Ht) as Hc.
  change (to_bytes t) with (string_bytes t) in Hc. by rewrite Hc.
Qed.
Lemma result_at_eq i g s : g_results g !! i = Some s -> result_at i g = Ret (s, g).
Proof. intros Hs. unfold result_at, gets, mbind, M_bind, lift, id. by rewrite Hs. Qed.

Lemma http_success_eq t g results :
  g_results g = Fulfilled (Some (string_bytes t)) :: results -> valid_string t = true ->
  http_fetch_test_success g = enqueue (guest_db_set "http_fetch_result" t) g.
Proof.
  intros Hg Ht. unfold http_fetch_test_success. rewrite (M_bind_eq _ _ _ _ _ (result_at_eq 0 g _ ltac:(by rewrite Hg))).
  by rewrite (M_bind_eq _ _ _ _ _ (unwrap_string_eq t g Ht)).
Qed.
Lemma test_rejected_eq t g results :
  g_results g = Rejected (string_bytes t) :: results -> valid_string t = true -> test_rejected g = Ret (tt, g).
Proof.
  intros Hg Ht. unfold test_rejected. rewrite (M_bind_eq _ _ _ _ _ (result_at_eq 0 g _ ltac:(by rewrite Hg))).
  by rewrite (M_bind_eq _ _ _ _ _ (unwrap_string_eq t g Ht)).
Qed.

Lemma unwrap_decoded_eq bs g : unwrap_decoded (encode_hex bs) g = Ret (bs, g).
Proof. unfold unwrap_decoded, lift, mbind, M_bind. by rewrite hex_roundtrip. Qed.
Lemma arg_eq args i s g : args !! i = Some s -> arg args i g = Ret (s, g).
Proof. intros Hs. unfold arg, lift. by rewrite Hs. Qed.

Lemma bn254_verify_test_eq name m sb pb sg pk rest g :
  sig_from_uncompressed sb = Some sg -> pk_from_uncompressed pb = Some pk ->
  is_Some (sig_to_uncompressed sg) -> is_Some (pk_to_uncompressed pk) ->
  bn254_verify_test (name :: encode_hex m :: encode_hex sb :: encode_hex pb :: rest) g =
    enqueue (guest_db_set "bn254_verify_result" (bool_display (ecdsa_verify m sg pk))) g.
Proof.
  intros Hsg Hpk [sb' Hsb] [pb' Hpb]. unfold bn254_verify_test.
  do 3 (erewrite M_bind_eq by (by apply arg_eq); rewrite (M_bind_eq _ _ _ _ _ (unwrap_decoded_eq _ g));
        try (rewrite Hsg; erewrite M_bind_eq by reflexivity)).
  rewrite Hpk. erewrite M_bind_eq by reflexivity. unfold verify, lift, mbind, M_bind. by rewrite Hsb, Hpb.
Qed.
Lemma bn254_sign_test_eq name m kb k rest g sg sb :
  bn254_private_try_from kb = Some k -> ecdsa_sign m (g_key g) = Some sg -> sig_to_uncompressed sg = Some sb -> length sb = 64 ->
  bn254_sign_test (name :: encode_hex m :: encode_hex kb :: rest) g =
    enqueue (guest_db_set "bn254_sign_result" (encode_hex sb)) g.
Proof.
  intros Hk Hsg Hsb Hl. unfold bn254_sign_test.
  do 2 (erewrite M_bind_eq by (by apply arg_eq); rewrite (M_bind_eq _ _ _ _ _ (unwrap_decoded_eq _ g))).
  rewrite Hk. erewrite M_bind_eq by reflexivity.
  assert (sign m g = Ret (sg, g)) as Hs.
  { unfold sign, gets, lift, mbind, M_bind, id. rewrite Hsg. cbn [unwrap]. rewrite Hsb. cbn [unwrap].
    by rewrite bool_decide_eq_true_2. }
  rewrite (M_bind_eq _ _ _ _ _ Hs), Hsb. by erewrite M_bind_eq by reflexivity.
Qed.

Definition simple (m : M Guest unit) : list string -> M Process unit := fun _ => in_guest m.
Definition with_args (m : list string -> M Guest unit) : list string -> M Process unit := fun args => in_guest (m args).
Definition test_functions : list (string * (list string -> M Process unit)) :=
  [("_start", simple promise_main); ("db_fetch_success", simple db_fetch_success); ("completed_all", simple completed_all);
   ("http_fetch_test", with_args http_fetch_test); ("http_fetch_test_success", simple http_fetch_test_success);
   ("memory_adapter_test_success", simple memory_adapter_test_success);
   ("memory_adapter_callback_test_success", simple memory_adapter_callback_test_success);
   ("test_setting_execution_result", simple test_setting_execution_result);
   ("test_setting_execution_result_step1", fun _ => test_setting_execution_result_step1);
   ("test_limited_runtime", simple test_limited_runtime); ("bn254_verify_test", with_args bn254_verify_test);
   ("bn254_sign_test", with_args bn254_sign_test); ("test_error_turns_into_rejection", simple test_error_turns_into_rejection);
   ("test_rejected", simple test_rejected); ("shared_memory_test", simple shared_memory_test);
   ("shared_memory_success", simple shared_memory_success)]%string.
Definition of_table (l : list (string * (list string -> M Process unit))) : Program :=
  mkProgram (fun name => snd <$> list_find (fun x => x.1 = name) l ≫= fun x => Some x.2).
Definition test_program : Program := of_table test_functions.

End test_program.

(** ** The command-line programs *)

(** The program of [src/wasm/test/demo-cli] *)
Inductive DemoCommand :=
| DemoHello
| DemoHttpFetch (url : string)
| DemoView (chain : Chain) (contract_id method_name args : string)
| DemoCall (chain : Chain) (contract_id method_name args : string) (deposit : Z).

(** [Options::parse()] of the two programs: [None] if the arguments are not
    understood *)
Class CliParser := {
  parse_demo : list string -> option (option DemoCommand);
  parse_wasm_cli : list string -> option (option WasmCommand);
}.

Section cli_programs.
Context `{BN : Bn254} `{KC : !KeyCrates} `{CP : CliParser}.

Definition demo_command (command : option DemoCommand) : M Guest unit :=
  match command with
  | Some (DemoHttpFetch url) => _ ← enqueue (guest_http_fetch url); enqueue (call_self "http_fetch_result" [])
  | Some DemoHello => mret tt
  | Some (DemoView chain contract_id method_name args) =>
      _ ← enqueue (guest_chain_view chain contract_id method_name (string_bytes args));
      enqueue (call_self "chain_view_test_success" [])
  | Some (DemoCall chain contract_id method_name args deposit) =>
      _ ← enqueue (guest_chain_call chain contract_id method_name (string_bytes args) deposit);
      enqueue (call_self "chain_call_test_success" [])
  | None => mret tt
  end.
Definition demo_main (args : list string) : M Guest unit :=
  match parse_demo args with Some command => demo_command command | None => panic "usage" end.
Definition demo_value_to_store : M Guest string :=
  result ← result_at 0;
  match result with
  | Fulfilled (Some vec) => unwrap_string vec
  | _ => mret "Promise failed.."%string
  end.
Definition demo_http_fetch_result : M Guest unit := _ ← demo_value_to_store; mret tt.
Definition demo_chain_view_test_success : M Guest unit :=
  value_to_store ← demo_value_to_store; enqueue (guest_db_set "chain_view_result" value_to_store).
Definition demo_chain_call_test_success : M Guest unit :=
  value_to_store ← demo_value_to_store; enqueue (guest_db_set "chain_call_result" value_to_store).
Definition demo_program : Program := of_table
  [("_start", with_args demo_main); ("http_fetch_result", simple demo_http_fetch_result);
   ("chain_view_test_success", simple demo_chain_view_test_success);
   ("chain_call_test_success", simple demo_chain_call_test_success)]%string.

(** The program of [src/wasm/cli], whose functions are in [Cli] *)
Definition wasm_cli_entry (args : list string) : M Guest unit :=
  match parse_wasm_cli args with Some command => wasm_cli_main command | None => panic "usage" end.
Definition wasm_cli_program : Program := of_table
  [("_start", with_args wasm_cli_entry); ("http_fetch_result", simple http_fetch_result);
   ("chain_view_test_success", simple chain_view_test_success);
   ("chain_call_test_success", simple chain_call_test_success)]%string.

(** The second steps of the two programs are the same. *)
Lemma demo_value_eq g : demo_value_to_store g = value_to_store g.
Proof.
  unfold demo_value_to_store, value_to_store, unwrap_string, mbind, M_bind, lift. destruct (result_at 0 g) as [[s g']|]; [|done].
  destruct s as [| |[bs|]|]; try done. by destruct (from_bytes bs) as [[]|].
Qed.

(** The value that a promise settles with, as text; a value that is no text
    panics *)
Definition value_text (s : PromiseStatus) : option string :=
  match s with
  | Fulfilled (Some bs) => if utf8_valid bs then Some (String.string_of_list_byte bs) else None
  | _ => Some "Promise failed.."%string
  end.
Lemma value_to_store_eq g s results :
  g_results g = s :: results ->
  match value_text s with
  | Some t => value_to_store g = Ret (t, g)
  | None => exists msg, value_to_store g = Panic msg
  end.
Proof.
  intros Hg. unfold value_text, value_to_store.
  assert (result_at 0 g = Ret (s, g)) as Hr by (apply result_at_eq; by rewrite Hg).
  destruct s as [| |[bs|]|]; try (by rewrite (M_bind_eq _ _ _ _ _ Hr)).
  rewrite (M_bind_eq _ _ _ _ _ Hr). unfold lift, mbind, M_bind, utf8_valid. cbn -[utf8_check].
  destruct (utf8_check 0 bs) as [e|] eqn:E; [|done]. by eexists.
Qed.

End cli_programs.

(** ** The adapter of the tests *)

(** The database is a map in memory.  The programs are run against any network
    ([TestNet]); the adapter's own is below, in [test_net]. *)
Record TestWorld (N : Type) := mkTestWorld { t_db : gmap string string; t_net : N }.
Arguments mkTestWorld {N}. Arguments t_db {N}. Arguments t_net {N}.

Class TestNet (N : Type) := {
  test_http : string -> N -> result string string * N;
  test_view : Chain -> string -> string -> bytes -> N -> result bytes string * N;
  test_call : Chain -> string -> string -> bytes -> Z -> NodeKeys -> N -> result bytes string * N;
  test_http_text u n t n' : test_http u n = (Ok t, n') -> valid_string t = true;
}.

Section test_adapter.
Context {N : Type} `{TN : TestNet N}.

Definition test_db_get (key : string) (w : TestWorld N) : result (option string) string * TestWorld N :=
  (Ok (t_db w !! key), w).
Definition test_db_set (key value : string) (w : TestWorld N) : result unit string * TestWorld N :=
  (Ok tt, mkTestWorld (<[key := value]> (t_db w)) (t_net w)).
Definition test_trigger_event (_ : Event) (w : TestWorld N) : result unit string * TestWorld N := (Ok tt, w).
Definition on_net {T} (f : N -> T * N) (w : TestWorld N) : T * TestWorld N :=
  let '(x, n) := f (t_net w) in (x, mkTestWorld (t_db w) n).

#[local] Instance text_error : Error string := fun s => s.
#[export] Instance runtime_test_adapter : HostAdapter (TestWorld N) := {|
  HostError := string;
  db_get := test_db_get;
  db_set := test_db_set;
  http_fetch u := on_net (test_http u);
  chain_call c id f args d keys := on_net (test_call c id f args d keys);
  chain_view c id f args := on_net (test_view c id f args);
  trigger_event := test_trigger_event;
|}.
#[export] Instance test_channel : P2PChannel (TestWorld N) := fun _ w => Some w.

End test_adapter.

(** ** The network of the adapter *)

(** [reqwest::get(url).await?.text().await?] *)
Class TestHttp (N : Type) := {
  reqwest_text : string -> N -> result string string * N;
  reqwest_text_valid u n t n' : reqwest_text u n = (Ok t, n') -> valid_string t = true;
}.

Section test_chains.
Context {N : Type} `{NN : NearNet N} `{TH : !TestHttp N} `{BN : Bn254} `{KC : !KeyCrates}.
(** The build's overflow checks, the configuration of the node, and what becomes
    of a call in which the chain's adapter panics, which ends the test *)
Context (ov : bool) (conf : NodeConfig) (unwound : result bytes string).

Record RuntimeTestAdapter := mkTestAdapter { test_another_client : Client; test_near_client : Client; test_chain_configs : ChainConfigs }.
Definition RuntimeTestAdapter_new (config : ChainConfigs) : RuntimeTestAdapter :=
  mkTestAdapter ClientAnother (ClientNear (near_rpc_url (conf_near config))) config.
Definition test_select_client (a : RuntimeTestAdapter) (chain : Chain) : Client :=
  match chain with Another => test_another_client a | Near => test_near_client a end.

Definition test_http_fetch (url : string) (n : N) : result string string * N :=
  match reqwest_text url n with
  | (Ok t, n) => (Ok t, n)
  | (Err e, n) => (Err ("Reqwest Error: " +:+ e), n)
  end.
Definition test_chain_view (a : RuntimeTestAdapter) (chain : Chain) (contract_id method_name : string) (args : bytes) : net N bytes :=
  chain_view_client chain (test_select_client a chain) contract_id method_name args.
Definition test_chain_call (a : RuntimeTestAdapter) (chain : Chain) (contract_id method_name : string) (args : bytes)
    (deposit : Z) : net N bytes :=
  let server_url := match chain with
                    | Another => another_rpc_url (conf_another (test_chain_configs a))
                    | Near => near_rpc_url (conf_near (test_chain_configs a))
                    end in
  signed_txn ← construct_signed_tx ov chain None (ed25519_keypair_bytes (keypair_ed25519 conf)) contract_id method_name args
                 (node_gas conf) deposit server_url;
  send_tx 32 chain (test_select_client a chain) signed_txn.

(** [?] on an error of the chain *)
Definition test_answer (m : net N bytes) (n : N) : result bytes string * N :=
  match m n with
  | Ret (Ok v, n) => (Ok v, n)
  | Ret (Err e, n) => (Err ("Chain Adapter Error: " +:+ error_to_string e), n)
  | Panic _ => (unwound, n)
  end.

Definition test_net (config : ChainConfigs) : TestNet N.
Proof.
  refine {|
    test_http := test_http_fetch;
    test_view chain id f args := test_answer (test_chain_view (RuntimeTestAdapter_new config) chain id f args);
    test_call chain id f args deposit _ := test_answer (test_chain_call (RuntimeTestAdapter_new config) chain id f args deposit);
  |}.
  intros u n t n'. unfold test_http_fetch. destruct (reqwest_text u n) as [[x|e] n1] eqn:E; intros [= <- <-].
  by eapply reqwest_text_valid.
Defined.

End test_chains.

(** On NEAR the tests see what the node's host would answer, up to the text of an
    error; no call panics. *)
Lemma test_net_as_host {N} `{NN : NearNet N} `{TH : !TestHttp N} `{HC : !HttpClient N} `{SQ : Sqlite} `{BN : Bn254} `{KC : !KeyCrates}
    conf unwound chains id f args deposit keys (w : NodeWorld N) :
  let TN := test_net false conf unwound chains in
  let same (a : result bytes string * N) (b : result bytes NodeError * NodeWorld N) :=
    b.2 = set_net a.2 w /\ match a.1, b.1 with
                           | Ok x, Ok y => x = y
                           | Err e, Err (NodeChainAdapterError e') => e = ("Chain Adapter Error: " +:+ error_to_string e')%string
                           | _, _ => False
                           end in
  same (test_view Near id f args (w_net w)) (adapter_chain_view chains Near id f args w) /\
  same (test_call Near id f args deposit keys (w_net w)) (adapter_chain_call false conf chains Near id f args deposit w).
Proof.
  intros TN same. subst same.
  assert (forall m : net N bytes, is_ret (m (w_net w)) = true ->
    (handle_net m w).2 = set_net (test_answer unwound m (w_net w)).2 w /\
    match (test_answer unwound m (w_net w)).1, (handle_net m w).1 with
    | Ok x, Ok y => x = y
    | Err e, Err (NodeChainAdapterError e') => e = ("Chain Adapter Error: " +:+ error_to_string e')%string
    | _, _ => False
    end) as Hm.
  { intros m. unfold handle_net, test_answer. by destruct (m (w_net w)) as [[[] ?]|]. }
  split; apply Hm; [apply near_view_returns|apply near_call_returns].
Qed.

(** ** The tests *)

(** What [WasiStateBuilder::finalize] refuses: texts with a zero byte, and names of
    variables with an equals sign *)
Definition no_nul (s : string) : bool := forallb (fun b => negb (Byte.eqb b x00)) (string_bytes s).
Definition variable_plain (v : string * string) : bool :=
  no_nul v.1 && no_nul v.2 && forallb (fun b => negb (Byte.eqb b x3d)) (string_bytes v.1).

Section tests.
Context `{BN : Bn254} `{KC : !KeyCrates} {N : Type} `{TN : TestNet N}.
Context (P : EngineParams (TestWorld N)) (keys : NodeKeys) (bn : bytes).
Hypothesis Hbn : keypair_bn254_public keys = Some bn.

(** WASI refuses nothing else *)
Hypothesis wasi_accepts : forall name env args,
  forallb no_nul (name :: args) = true -> forallb variable_plain env = true -> wasi_ok P name env args = true.

Definition test_runtime (prog : Program) (limited : bool) : Runtime (WE := program_engine P) :=
  mkRuntime (WE := program_engine P) (Some prog) limited keys.
Definition run_test (prog : Program) (limited : bool) (start : option string) (args : list string) (w : VmWorld (TestWorld N)) :=
  start_runtime (WE := program_engine P) 6 (test_runtime prog limited) (mkVmConfig "consensus" start args true) w.

(** The node's settings, which the programs get as variables, are plain. *)
Hypothesis keys_plain : forall prog limited, forallb variable_plain (guest_env P (test_runtime prog limited) bn) = true.

Lemma wasi_plain prog limited name args :
  forallb no_nul (name :: args) = true -> wasi_ok P name (guest_env P (test_runtime prog limited) bn) args = true.
Proof. intros Hn. by apply wasi_accepts. Qed.

(** The program exports the function, and WASI accepts the call. *)
Definition callable (prog : Program) (name : string) (args : list string) (f : list string -> M Process unit) : Prop :=
  exported prog name = Some f /\ forallb no_nul (name :: args) = true.

Abbreviation runs prog lim := (runs P (test_runtime prog lim) prog bn).

Lemma test_runs prog limited start args w e w' l :
  runs prog limited 6 None [call_promise (default "_start"%string start) args Unfulfilled] w e w' l ->
  exists res, run_test prog limited start args w = Ret (res, w') /\ exit_info res = ExitInfo_of_result e /\
    vm_result res = match l with Some (Fulfilled (Some d)) | Some (Rejected d) => Some d | _ => None end.
Proof. by apply (start_runtime_runs P (test_runtime prog limited) prog bn 6 (mkVmConfig "consensus" start args true)). Qed.

Definition in_db (f : gmap string string -> gmap string string) (w : VmWorld (TestWorld N)) : VmWorld (TestWorld N) :=
  mkVmWorld (vm_shared w) (vm_private w) (mkTestWorld (f (t_db (vm_host w))) (t_net (vm_host w))).

(** The promises that the functions enqueue *)
Definition set_p (k v : string) : Promise := mkPromise (guest_action (guest_db_set k v)) Unfulfilled.
Definition get_p (k : string) : Promise := mkPromise (guest_action (guest_db_get k)) Unfulfilled.
Definition http_p (u : string) : Promise := mkPromise (guest_action (guest_http_fetch u)) Unfulfilled.
Definition http_status (r : result string string) : PromiseStatus :=
  match r with Ok t => Fulfilled (Some (string_bytes t)) | Err e => Rejected (string_bytes e) end.


(** How the adapter answers them *)
Abbreviation answers prog lim := (answers (WE := program_engine P) (test_runtime prog lim)).
Definition set_done : PromiseStatus := Fulfilled (Some []).

Lemma answers_set prog k v acts w ss w' :
  valid_string v = true -> answers prog false acts (in_db <[k := v]> w) = Some (ss, w') ->
  answers prog false (action (set_p k v) :: acts) w = Some (set_done :: ss, w').
Proof.
  intros Hv Ha. cbn [Execution.answers].
  assert (answer (WE := program_engine P) (test_runtime prog false) (action (set_p k v)) w = Some (set_done, in_db <[k := v]> w)) as ->.
  { unfold answer. cbn [test_runtime limited andb set_p action guest_action guest_db_set GuestPromise_new set_value set_key].
    pose proof (codec_roundtrip (T := string) v Hv) as Hc. change (to_bytes v) with (string_bytes v) in Hc. by rewrite Hc. }
  by rewrite Ha.
Qed.
Lemma answers_get prog k acts w ss w' :
  answers prog false acts w = Some (ss, w') ->
  answers prog false (action (get_p k) :: acts) w = Some (Fulfilled (to_bytes <$> t_db (vm_host w) !! k) :: ss, w').
Proof.
  intros Ha. cbn [Execution.answers].
  assert (answer (WE := program_engine P) (test_runtime prog false) (action (get_p k)) w =
    Some (Fulfilled (to_bytes <$> t_db (vm_host w) !! k), w)) as ->; [|by rewrite Ha].
  unfold answer. cbn -[lookup]. unfold answer_with, on_host. cbn -[lookup]. by destruct w as [sh pm []].
Qed.

Definition completed_db (db : gmap string string) : gmap string string :=
  <["test_value" := "completed"]> (<["x" := "y"]> (<["another_one" := "a"]> (<["from_wasm" := "somevalue"]> db)))%string.

Lemma answers_rejected prog k v acts w ss w' :
  answers prog true acts w = Some (ss, w') ->
  answers prog true (action (set_p k v) :: acts) w =
    Some (Rejected (string_bytes (limited_message (action (set_p k v)))) :: ss, w').
Proof.
  intros Ha. cbn [Execution.answers].
  assert (answer (WE := program_engine P) (test_runtime prog true) (action (set_p k v)) w =
    Some (Rejected (string_bytes (limited_message (action (set_p k v)))), w)) as -> by reflexivity. by rewrite Ha.
Qed.
Lemma answers_http prog limited u acts w ss w' r n :
  test_http u (t_net (vm_host w)) = (r, n) ->
  answers prog limited acts (mkVmWorld (vm_shared w) (vm_private w) (mkTestWorld (t_db (vm_host w)) n)) = Some (ss, w') ->
  answers prog limited (action (http_p u) :: acts) w = Some (http_status r :: ss, w').
Proof.
  intros Hr Ha. cbn [Execution.answers].
  assert (answer (WE := program_engine P) (test_runtime prog limited) (action (http_p u)) w =
    Some (http_status r, mkVmWorld (vm_shared w) (vm_private w) (mkTestWorld (t_db (vm_host w)) n))) as ->; [|by rewrite Ha].
  unfold answer. destruct limited; cbn; unfold answer_with, on_host, on_net; cbn; by rewrite Hr.
Qed.

(** A call in the middle of a run: the promises before it are answered, the
    function may change the memories and set a result, and the promises it
    enqueues come next *)
Definition proc (prog : Program) (limited : bool) (w : VmWorld (TestWorld N)) (results : list PromiseStatus) (q : list Promise) (result : bytes) : Process :=
  mkProcess (mkGuest (vm_shared w) (vm_private w) results q (signing_key P) (list_to_map (guest_env P (test_runtime prog limited) bn))) result.

Lemma statuses_of hosts ss name args :
  length ss = length hosts -> status <$> (with_statuses hosts ss ++ [call_promise name args Pending]) = ss ++ [Pending].
Proof.
  intros Hl. rewrite fmap_app. f_equal. unfold with_statuses. revert hosts Hl.
  induction ss as [|s ss IH]; intros [|p hosts]; cbn; try done. intros [= Hl]. f_equal. by apply IH.
Qed.

Lemma run_step prog limited n prev hosts name args f w ss w1 w2 q result e w' l :
  callable prog name args f -> answers prog limited (action <$> hosts) w = Some (ss, w1) ->
  (forall results, results = ss ++ [Pending] ->
    f (name :: args) (proc prog limited w1 results [] []) = Ret (tt, proc prog limited w2 results q result)) ->
  vm_host w2 = vm_host w1 ->
  runs prog limited n (Some (Fulfilled (Some result))) q w2 e w' l ->
  runs prog limited (S n) prev (hosts ++ [call_promise name args Unfulfilled]) w e w' l.
Proof.
  intros [Hf Hn] Ha Hr Hw Hruns. pose proof (answers_length _ _ _ _ _ Ha) as Hl. rewrite length_fmap in Hl.
  eapply (runs_call P _ _ bn n prev hosts name args f w ss w1 tt);
    [by apply wasi_plain|exact Hf|exact Ha|exact (Hr _ (statuses_of _ _ name args Hl))|].
  cbn [proc proc_guest proc_result g_queue]. unfold returned. cbn [proc_guest g_shared g_private]. rewrite <- Hw. by destruct w2.
Qed.
Lemma run_fails prog limited n prev hosts name args f w ss w1 msg :
  callable prog name args f -> answers prog limited (action <$> hosts) w = Some (ss, w1) ->
  (forall results, results = ss ++ [Pending] -> f (name :: args) (proc prog limited w1 results [] []) = Panic msg) ->
  runs prog limited (S n) prev (hosts ++ [call_promise name args Unfulfilled]) w (Ok (ExecutionError msg)) (trapped P name args w1) prev.
Proof.
  intros [Hf Hn] Ha Hr. pose proof (answers_length _ _ _ _ _ Ha) as Hl. rewrite length_fmap in Hl.
  eapply (runs_trap P _ _ bn n prev hosts name args f w ss w1 msg);
    [by apply wasi_plain|exact Hf|exact Ha|exact (Hr _ (statuses_of _ _ name args Hl))].
Qed.

Ltac answered := cbn [fmap list_fmap];
  repeat match goal with
  | |- Execution.answers _ (action (set_p _ _) :: _) _ = _ => apply answers_set; [first [done|eassumption]|]
  | |- Execution.answers _ (action (get_p _) :: _) _ = _ => apply answers_get
  | |- Execution.answers _ (action (set_p _ _) :: _) _ = _ => apply answers_rejected
  | |- Execution.answers _ (action (http_p _) :: _) _ = _ => eapply answers_http; [eassumption|]
  | |- Execution.answers _ [] _ = _ => refine eq_refl
  end.
Ltac called := split; [refine eq_refl|first [refine eq_refl|done]].
Ltac run_call hosts name args q :=
  eapply (run_step _ _ _ _ hosts name args _ _ _ _ _ q []); [called|answered|intros results ->; reflexivity|reflexivity|].

Lemma promise_chain_run args w :
  forallb no_nul args = true ->
  exists res, run_test test_program false None args w = Ret (res, in_db completed_db w) /\ exit_code (exit_info res) = 0%Z.
Proof.
  intros Hargs.
  edestruct (test_runs test_program false None args w (Ok EmptyQueue) (in_db completed_db w)) as (res & Hres & Hx & _);
    [|exists res; split; [exact Hres|by rewrite Hx]].
  run_call (@nil Promise) "_start"%string args
    [set_p "from_wasm" "somevalue"; get_p "from_wasm"; call_promise "db_fetch_success" ["ArgFromInsideWasm"%string] Unfulfilled].
  run_call [set_p "from_wasm" "somevalue"; get_p "from_wasm"] "db_fetch_success"%string ["ArgFromInsideWasm"%string]
    [set_p "another_one" "a"; set_p "x" "y"; get_p "another_one"; call_promise "completed_all" [] Unfulfilled].
  run_call [set_p "another_one" "a"; set_p "x" "y"; get_p "another_one"] "completed_all"%string (@nil string) [set_p "test_value" "completed"].
  eapply (runs_hosts P _ _ bn 1). answered.
Qed.

(** A page that was fetched is stored; an error is not. *)
Lemma http_fetch_run u rest w r n :
  forallb no_nul (u :: rest) = true ->
  test_http u (t_net (vm_host w)) = (r, n) ->
  exists res, exit_code (exit_info res) = 0%Z /\
    run_test test_program false (Some "http_fetch_test"%string) (u :: rest) w =
      Ret (res, mkVmWorld (vm_shared w) (vm_private w) (mkTestWorld
        (match r with Ok t => <["http_fetch_result"%string := t]> (t_db (vm_host w)) | Err _ => t_db (vm_host w) end) n)).
Proof.
  intros Hargs.
  intros Hr. destruct r as [t|err]; set (w' := mkVmWorld _ _ _);
    (edestruct (test_runs test_program false (Some "http_fetch_test"%string) (u :: rest) w (Ok EmptyQueue) w') as (res & Hres & Hx & _);
      [|exists res; split; [by rewrite Hx|exact Hres]]);
    (run_call (@nil Promise) "http_fetch_test"%string (u :: rest) [http_p u; call_promise "http_fetch_test_success" [] Unfulfilled]).
  - pose proof (test_http_text _ _ _ _ Hr) as Ht.
    eapply (run_step _ _ _ _ [http_p u] "http_fetch_test_success" [] (simple http_fetch_test_success) _ _ _ _ [set_p "http_fetch_result" t] []);
      [called|answered| |reflexivity|eapply (runs_hosts P _ _ bn 2); answered].
    intros results ->. unfold simple, in_guest. by rewrite (http_success_eq t _ [Pending]).
  - run_call [http_p u] "http_fetch_test_success"%string (@nil string) (@nil Promise). apply runs_empty.
Qed.

(** The memory of a job lasts from one call of the program to the next. *)
Definition memory_written (w : VmWorld (TestWorld N)) : VmWorld (TestWorld N) :=
  mkVmWorld (vm_shared w) (<["u32"%string := [x8b; x0d; x00; x00]]> (<["u8"%string := [xea]]> (vm_private w))) (vm_host w).
Lemma memory_run args w :
  forallb no_nul args = true ->
  exists res, exit_code (exit_info res) = 0%Z /\
    run_test test_program false (Some "memory_adapter_test_success"%string) args w =
      Ret (res, in_db (fun db => <["u32_result" := "[139, 13, 0, 0]"]> (<["u8_result" := "[234]"]> db))%string (memory_written w)).
Proof.
  intros Hargs.
  set (w' := in_db _ _).
  edestruct (test_runs test_program false (Some "memory_adapter_test_success"%string) args w (Ok EmptyQueue) w') as (res & Hres & Hx & _);
    [|exists res; split; [by rewrite Hx|exact Hres]].
  eapply (run_step _ _ _ _ [] "memory_adapter_test_success" args (simple memory_adapter_test_success) _ _ _ (memory_written w)
    [call_promise "memory_adapter_callback_test_success" [] Unfulfilled] []); [called|answered| |reflexivity|].
  { intros results ->. unfold simple, in_guest, memory_adapter_test_success, private_set, private_get, gets, modify, mbind, M_bind.
    cbn [proc proc_guest g_private]. rewrite lookup_insert_eq. reflexivity. }
  eapply (run_step _ _ _ _ [] "memory_adapter_callback_test_success" [] (simple memory_adapter_callback_test_success) _ _ _ (memory_written w)
    [set_p "u8_result" "[234]"; set_p "u32_result" "[139, 13, 0, 0]"] []); [called|answered| |reflexivity|].
  { intros results ->. unfold simple, in_guest, memory_adapter_callback_test_success, private_get, gets, mbind, M_bind, enqueue, modify.
    cbn [proc proc_guest g_private memory_written vm_private]. rewrite lookup_insert_ne, !lookup_insert_eq by done. reflexivity. }
  eapply (runs_hosts P _ _ bn 2). answered.
Qed.

(** The result of a run is the one that its last function set. *)
Lemma execution_result_run args w :
  forallb no_nul args = true ->
  exists res, exit_code (exit_info res) = 0%Z /\ vm_result res = Some (string_bytes "test-success") /\
    run_test test_program false (Some "test_setting_execution_result"%string) args w =
      Ret (res, in_db <["random_key"%string := "random_value"%string]> w).
Proof.
  intros Hargs.
  edestruct (test_runs test_program false (Some "test_setting_execution_result"%string) args w (Ok EmptyQueue)
    (in_db <["random_key"%string := "random_value"%string]> w) (Some (Fulfilled (Some (string_bytes "test-success")))))
    as (res & Hres & Hx & Hd); [|exists res; split; [by rewrite Hx|split; [exact Hd|exact Hres]]].
  run_call (@nil Promise) "test_setting_execution_result"%string args
    [set_p "random_key" "random_value"; call_promise "test_setting_execution_result_step1" [] Unfulfilled].
  eapply (run_step _ _ _ _ [set_p "random_key" "random_value"] "test_setting_execution_result_step1" [] _ _ _ _ _ []);
    [called|answered|intros results ->; reflexivity|reflexivity|apply runs_empty].
Qed.

(** In a limited runtime the promise is rejected, which the program expects, and
    the database stays as it is. *)
Lemma limited_run args w :
  forallb no_nul args = true ->
  exists res, exit_code (exit_info res) = 0%Z /\ run_test test_program true (Some "test_limited_runtime"%string) args w = Ret (res, w).
Proof.
  intros Hargs.
  edestruct (test_runs test_program true (Some "test_limited_runtime"%string) args w (Ok EmptyQueue) w) as (res & Hres & Hx & _);
    [|exists res; split; [by rewrite Hx|exact Hres]].
  run_call (@nil Promise) "test_limited_runtime"%string args [set_p "foo" "bar"; call_promise "test_rejected" [] Unfulfilled].
  eapply (run_step _ _ _ _ [set_p "foo" "bar"] "test_rejected" [] (simple test_rejected) _ _ _ w [] []);
    [called|answered| |reflexivity|apply runs_empty].
  intros results ->. unfold simple, in_guest. by rewrite (test_rejected_eq (limited_message (action (set_p "foo" "bar"))) _ [Pending]).
Qed.

(** An error of the host becomes a rejection; a program that waits for one traps
    without it. *)
Lemma rejection_run args w r n :
  forallb no_nul args = true ->
  test_http "fail!" (t_net (vm_host w)) = (r, n) -> (forall e, r = Err e -> valid_string e = true) ->
  exists res w', run_test test_program false (Some "test_error_turns_into_rejection"%string) args w = Ret (res, w') /\
    exit_code (exit_info res) = (match r with Err _ => 0 | Ok _ => 8 end)%Z.
Proof.
  intros Hargs.
  intros Hr He. destruct r as [t|err].
  - edestruct (test_runs test_program false (Some "test_error_turns_into_rejection"%string) args w (Ok (ExecutionError "didn't reject")))
      as (res & Hres & Hx & _); [|eexists res, _; split; [exact Hres|by rewrite Hx]].
    run_call (@nil Promise) "test_error_turns_into_rejection"%string args [http_p "fail!"; call_promise "test_rejected" [] Unfulfilled].
    eapply (run_fails _ _ _ _ [http_p "fail!"] "test_rejected" [] (simple test_rejected)); [called|answered|].
    by intros results ->.
  - edestruct (test_runs test_program false (Some "test_error_turns_into_rejection"%string) args w (Ok EmptyQueue))
      as (res & Hres & Hx & _); [|eexists res, _; split; [exact Hres|by rewrite Hx]].
    run_call (@nil Promise) "test_error_turns_into_rejection"%string args [http_p "fail!"; call_promise "test_rejected" [] Unfulfilled].
    eapply (run_step _ _ _ _ [http_p "fail!"] "test_rejected" [] (simple test_rejected) _ _ _ _ [] []);
      [called|answered| |reflexivity|apply runs_empty].
    intros results ->. unfold simple, in_guest. by rewrite (test_rejected_eq err _ [Pending]) by auto.
Qed.

(** What one job writes to the shared memory, another one reads; without it the
    second one traps. *)
Lemma shared_memory_run args w :
  forallb no_nul args = true ->
  (exists res, exit_code (exit_info res) = 0%Z /\ run_test test_program false (Some "shared_memory_test"%string) args w =
     Ret (res, mkVmWorld (<["foo"%string := string_bytes "bar"]> (vm_shared w)) (vm_private w) (vm_host w))) /\
  (vm_shared w !! "foo"%string = Some (string_bytes "bar") ->
    exists res, exit_code (exit_info res) = 0%Z /\ run_test test_program false (Some "shared_memory_success"%string) args w = Ret (res, w)) /\
  (vm_shared w !! "foo"%string = None ->
    exists res, exit_code (exit_info res) = 8%Z /\ run_test test_program false (Some "shared_memory_success"%string) args w =
      Ret (res, trapped P "shared_memory_success" args w)).
Proof.
  intros Hargs.
  split_and!.
  - edestruct (test_runs test_program false (Some "shared_memory_test"%string) args w (Ok EmptyQueue)) as (res & Hres & Hx & _);
      [|exists res; split; [by rewrite Hx|exact Hres]].
    eapply (run_step _ _ _ _ [] "shared_memory_test" args (simple shared_memory_test) _ _ _
      (mkVmWorld (<["foo"%string := string_bytes "bar"]> (vm_shared w)) (vm_private w) (vm_host w)) [] []);
      [called|answered|by intros results ->|reflexivity|apply runs_empty].
  - intros Hfoo. edestruct (test_runs test_program false (Some "shared_memory_success"%string) args w (Ok EmptyQueue) w) as (res & Hres & Hx & _);
      [|exists res; split; [by rewrite Hx|exact Hres]].
    eapply (run_step _ _ _ _ [] "shared_memory_success" args (simple shared_memory_success) _ _ _ w [] []);
      [called|answered| |reflexivity|apply runs_empty].
    intros results ->. unfold simple, in_guest, shared_memory_success, shared_memory_get, gets, mbind, M_bind.
    cbn [proc proc_guest g_shared]. by rewrite Hfoo.
  - intros Hfoo. edestruct (test_runs test_program false (Some "shared_memory_success"%string) args w
      (Ok (ExecutionError "assertion failed: `(left == right)`"))) as (res & Hres & Hx & _);
      [|exists res; split; [by rewrite Hx|exact Hres]].
    eapply (run_fails _ _ _ _ [] "shared_memory_success" args (simple shared_memory_success)); [called|answered|].
    intros results ->. unfold simple, in_guest, shared_memory_success, shared_memory_get, gets, mbind, M_bind.
    cbn [proc proc_guest g_shared]. by rewrite Hfoo.
Qed.

(** The result of a verification, and a signature by the node's key, whatever
    key the test names *)
Lemma bn254_run m sb pb sg pk rest w :
  forallb no_nul (encode_hex m :: encode_hex sb :: encode_hex pb :: rest) = true ->
  sig_from_uncompressed sb = Some sg -> pk_from_uncompressed pb = Some pk ->
  is_Some (sig_to_uncompressed sg) -> is_Some (pk_to_uncompressed pk) ->
  exists res, exit_code (exit_info res) = 0%Z /\
    run_test test_program false (Some "bn254_verify_test"%string) (encode_hex m :: encode_hex sb :: encode_hex pb :: rest) w =
      Ret (res, in_db <["bn254_verify_result"%string := bool_display (ecdsa_verify m sg pk)]> w).
Proof.
  intros Hargs.
  intros Hsg Hpk Hsb Hpb.
  edestruct (test_runs test_program false (Some "bn254_verify_test"%string) (encode_hex m :: encode_hex sb :: encode_hex pb :: rest) w (Ok EmptyQueue)
    (in_db <["bn254_verify_result"%string := bool_display (ecdsa_verify m sg pk)]> w)) as (res & Hres & Hx & _);
    [|exists res; split; [by rewrite Hx|exact Hres]].
  eapply (run_step _ _ _ _ [] "bn254_verify_test" (encode_hex m :: encode_hex sb :: encode_hex pb :: rest) (with_args bn254_verify_test)
    _ _ _ w [set_p "bn254_verify_result" (bool_display (ecdsa_verify m sg pk))] []); [called|answered| |reflexivity|].
  - intros results ->. unfold with_args, in_guest. by rewrite (bn254_verify_test_eq _ m sb pb sg pk).
  - assert (valid_string (bool_display (ecdsa_verify m sg pk)) = true) by (by destruct (ecdsa_verify m sg pk)).
    eapply (runs_hosts P _ _ bn 3). answered.
Qed.

Lemma hex_valid bs : valid_string (encode_hex bs) = true.
Proof.
  apply bool_decide_eq_true. unfold encode_hex, string_bytes. rewrite String.list_byte_of_string_of_list_byte. generalize 0.
  induction bs as [|b bs IH]; intros n; [done|]. cbn [mbind list_bind].
  change (list_bind _ _ hex2 bs) with (bs ≫= hex2). destruct b; apply IH.
Qed.
Lemma bn254_sign_run m kb k sg sb rest w :
  forallb no_nul (encode_hex m :: encode_hex kb :: rest) = true ->
  bn254_private_try_from kb = Some k -> ecdsa_sign m (signing_key P) = Some sg -> sig_to_uncompressed sg = Some sb -> length sb = 64 ->
  exists res, exit_code (exit_info res) = 0%Z /\
    run_test test_program false (Some "bn254_sign_test"%string) (encode_hex m :: encode_hex kb :: rest) w =
      Ret (res, in_db <["bn254_sign_result"%string := encode_hex sb]> w).
Proof.
  intros Hargs.
  intros Hk Hsg Hsb Hl.
  edestruct (test_runs test_program false (Some "bn254_sign_test"%string) (encode_hex m :: encode_hex kb :: rest) w (Ok EmptyQueue)
    (in_db <["bn254_sign_result"%string := encode_hex sb]> w)) as (res & Hres & Hx & _);
    [|exists res; split; [by rewrite Hx|exact Hres]].
  eapply (run_step _ _ _ _ [] "bn254_sign_test" (encode_hex m :: encode_hex kb :: rest) (with_args bn254_sign_test)
    _ _ _ w [set_p "bn254_sign_result" (encode_hex sb)] []); [called|answered| |reflexivity|].
  - intros results ->. unfold with_args, in_guest. by rewrite (bn254_sign_test_eq _ m kb k _ _ sg sb).
  - pose proof (hex_valid sb). eapply (runs_hosts P _ _ bn 3). answered.
Qed.

(** A function that the program does not export *)
Lemma missing_function_run name args w :
  forallb no_nul (name :: args) = true ->
  exported test_program name = None ->
  exists res, exit_code (exit_info res) = 5%Z /\ run_test test_program false (Some name) args w = Ret (res, w).
Proof.
  intros Hargs.
  intros Hf. destruct (start_runtime_eq (WE := program_engine P) (test_runtime test_program false) test_program 6
    (mkVmConfig "consensus" (Some name) args true) w (mkRun w [] [] []) (Err FailedToGetWASMFn)) as (res & Hres & Hx & _).
  - done.
  - rewrite execute_eq by done. cbn [process_promises action start_func vm_args from_option id]. unfold process_promise, call_self_arm.
    rewrite andb_false_r. cbn [test_runtime node_config]. rewrite Hbn. cbn [unwrap mbind outcome_bind function_name call_args].
    change (wasi_finalize ?a ?b ?c) with (wasi_ok P a (guest_env P (test_runtime test_program false) bn) c). rewrite wasi_plain by done.
    cbn [program_engine create_wasm_imports instance_new get_function negb]. rewrite bool_decide_eq_false_2 by (rewrite Hf; by intros []).
    done.
  - exists res. split; [by rewrite Hx|exact Hres].
Qed.

(** C24: The runtime's test program, in all worlds and for all arguments without a
    zero byte, at a node whose BN254 key has an encoding and whose settings are
    plain texts; WASI is taken to refuse zero bytes, and equals signs in the
    names of variables, and nothing else.  Chained promises are performed
    in order, over three calls of the program, and leave their values in the
    database; the private memory lasts from one call to the
    next; the run reports the result that the last function set; in a limited
    runtime the promise is rejected and the database untouched; the shared memory
    lasts from one job to the next, and a job that does not find its value
    there traps. *)
Theorem test_program_correct args w :
  forallb no_nul args = true ->
  (exists res, run_test test_program false None args w = Ret (res, in_db completed_db w) /\ exit_code (exit_info res) = 0%Z) /\
  (exists res, exit_code (exit_info res) = 0%Z /\
    run_test test_program false (Some "memory_adapter_test_success"%string) args w =
      Ret (res, in_db (fun db => <["u32_result" := "[139, 13, 0, 0]"]> (<["u8_result" := "[234]"]> db))%string (memory_written w))) /\
  (exists res, exit_code (exit_info res) = 0%Z /\ vm_result res = Some (string_bytes "test-success") /\
    run_test test_program false (Some "test_setting_execution_result"%string) args w =
      Ret (res, in_db <["random_key"%string := "random_value"%string]> w)) /\
  (exists res, exit_code (exit_info res) = 0%Z /\
    run_test test_program true (Some "test_limited_runtime"%string) args w = Ret (res, w)) /\
  (exists res1 w1 res2, exit_code (exit_info res1) = 0%Z /\ exit_code (exit_info res2) = 0%Z /\
    run_test test_program false (Some "shared_memory_test"%string) args w = Ret (res1, w1) /\
    run_test test_program false (Some "shared_memory_success"%string) args w1 = Ret (res2, w1)) /\
  (vm_shared w !! "foo"%string = None -> exists res w', exit_code (exit_info res) = 8%Z /\
    run_test test_program false (Some "shared_memory_success"%string) args w = Ret (res, w')).
Proof.
  intros Hargs. split_and!; [by apply promise_chain_run|by apply memory_run|by apply execution_result_run|by apply limited_run| |].
  - destruct (shared_memory_run args w Hargs) as [(res1 & Hc1 & H1) _].
    set (w1 := mkVmWorld (<["foo"%string := string_bytes "bar"]> (vm_shared w)) (vm_private w) (vm_host w)) in *.
    destruct (shared_memory_run args w1 Hargs) as (_ & H2 & _). destruct (H2 (lookup_insert_eq _ _ _)) as (res2 & Hc2 & H2').
    by exists res1, w1, res2.
  - intros Hn. destruct (shared_memory_run args w Hargs) as (_ & _ & H). destruct (H Hn) as (res & Hc & Hr). eauto.
Qed.

(** *** The command-line programs *)

Context `{CP : CliParser}.

Definition view_p (chain : Chain) (id f args : string) : Promise :=
  mkPromise (guest_action (guest_chain_view chain id f (string_bytes args))) Unfulfilled.
Definition chain_status (r : result bytes string) : PromiseStatus :=
  match r with Ok bs => Fulfilled (Some bs) | Err e => Rejected (string_bytes e) end.
Definition net_world (w : VmWorld (TestWorld N)) (n : N) : VmWorld (TestWorld N) :=
  mkVmWorld (vm_shared w) (vm_private w) (mkTestWorld (t_db (vm_host w)) n).

Lemma answers_view prog chain id f args acts w ss w' r n :
  test_view chain id f (string_bytes args) (t_net (vm_host w)) = (r, n) ->
  answers prog false acts (net_world w n) = Some (ss, w') ->
  answers prog false (action (view_p chain id f args) :: acts) w = Some (chain_status r :: ss, w').
Proof.
  intros Hr Ha. cbn [Execution.answers].
  assert (answer (WE := program_engine P) (test_runtime prog false) (action (view_p chain id f args)) w =
    Some (chain_status r, net_world w n)) as ->; [|by rewrite Ha].
  unfold answer. cbn; unfold answer_with, on_host, on_net; cbn; by rewrite Hr.
Qed.

Lemma text_valid s t : value_text s = Some t -> valid_string t = true.
Proof.
  unfold value_text. destruct s as [| |[bs|]|]; try (by intros [= <-]). destruct (utf8_valid bs) eqn:E; [|done].
  intros [= <-]. unfold valid_string, string_bytes. by rewrite String.list_byte_of_string_of_list_byte.
Qed.

(** The view of a contract, from the command line to the database: a text that
    the chain answers with is stored, an error is stored as such, and anything
    else traps. *)
Lemma cli_view_run args chain id f a w r n :
  forallb no_nul args = true -> parse_wasm_cli ("_start"%string :: args) = Some (Some (WasmView chain id f a)) ->
  test_view chain id f (string_bytes a) (t_net (vm_host w)) = (r, n) ->
  match value_text (chain_status r) with
  | Some t => exists res, exit_code (exit_info res) = 0%Z /\
      run_test wasm_cli_program false None args w = Ret (res, in_db <["chain_view_result"%string := t]> (net_world w n))
  | None => exists res, exit_code (exit_info res) = 8%Z /\
      run_test wasm_cli_program false None args w = Ret (res, trapped P "chain_view_test_success" [] (net_world w n))
  end.
Proof.
  intros Hargs Hparse Hr.
  assert (with_args wasm_cli_entry ("_start"%string :: args) (proc wasm_cli_program false w [Pending] [] []) =
    Ret (tt, proc wasm_cli_program false w [Pending] [view_p chain id f a; call_promise "chain_view_test_success" [] Unfulfilled] [])) as Hstart.
  { unfold with_args, in_guest, wasm_cli_entry. by rewrite Hparse. }
  assert (answers wasm_cli_program false (action <$> [view_p chain id f a]) w = Some ([chain_status r], net_world w n)) as Ha.
  { cbn [fmap list_fmap]. eapply answers_view; [eassumption|]. refine eq_refl. }
  pose proof (value_to_store_eq (proc_guest (proc wasm_cli_program false (net_world w n) [chain_status r; Pending] [] [])) _ _ eq_refl) as Hv.
  pose proof (text_valid (chain_status r)) as Htext. destruct (value_text (chain_status r)) as [t|].
  - edestruct (test_runs wasm_cli_program false None args w (Ok EmptyQueue) (in_db <["chain_view_result"%string := t]> (net_world w n)))
      as (res & Hres & Hx & _); [|exists res; split; [by rewrite Hx|exact Hres]].
    eapply (run_step _ _ _ _ [] "_start" args (with_args wasm_cli_entry) _ [] w w); [called|answered|by intros results ->|reflexivity|].
    eapply (run_step _ _ _ _ [view_p chain id f a] "chain_view_test_success" [] (simple chain_view_test_success) _ _ _ (net_world w n)
      [set_p "chain_view_result" t] []); [called|exact Ha| |reflexivity|].
    + intros results ->. unfold simple, in_guest, chain_view_test_success. cbn [app]. by rewrite (M_bind_eq _ _ _ _ _ Hv).
    + specialize (Htext t eq_refl). eapply (runs_hosts P _ _ bn 2). answered.
  - destruct Hv as [msg Hv].
    edestruct (test_runs wasm_cli_program false None args w (Ok (ExecutionError msg))) as (res & Hres & Hx & _);
      [|exists res; split; [by rewrite Hx|exact Hres]].
    eapply (run_step _ _ _ _ [] "_start" args (with_args wasm_cli_entry) _ [] w w); [called|answered|by intros results ->|reflexivity|].
    eapply (run_fails _ _ _ _ [view_p chain id f a] "chain_view_test_success" [] (simple chain_view_test_success)); [called|exact Ha|].
    intros results ->. unfold simple, in_guest, chain_view_test_success, mbind, M_bind. cbn [app]. by rewrite Hv.
Qed.

End tests.

Section witnesses.
Import RefConsensus.

#[local] Instance no_net : TestNet unit.
Proof. refine {| test_http u n := (Err u, n); test_view _ _ _ _ n := (Ok [], n); test_call _ _ _ _ _ _ n := (Ok [], n) |}. done. Defined.
Definition quiet_engine : EngineParams (TestWorld unit) :=
  {| compile _ := None; wasi_ok _ _ _ := true; printed _ _ _ := (EmptyString, EmptyString); trapped _ _ w := w; signing_key := own_key |}.

Lemma test_program_correct_witness :
  let w := mkVmWorld ∅ ∅ (mkTestWorld ∅ tt) in
  exists res, run_test quiet_engine (mkNodeKeys EmptyString [] (Some [])) test_program false None [] w = Ret (res, in_db completed_db w) /\
    exit_code (exit_info res) = 0%Z.
Proof.
  intros w. refine (proj1 (test_program_correct quiet_engine (mkNodeKeys EmptyString [] (Some [])) [] eq_refl (fun _ _ _ _ _ => eq_refl) _ [] w eq_refl)).
  intros p b. vm_compute. reflexivity.
Defined.

End witnesses.
